(* ===== verification/_CoqProject ===== *)
-Q . S2P
Prelude.v
Memory.v
Cpu.v
PageAlloc.v
PageProps.v
PageExample.v
Kmem.v
KmemFacts.v
KmemProps.v
KmemSpec.v
KmemExample.v
Mmu.v
MmuFacts.v
MmuProps.v
MmuTree.v
MinixLayout.v
Lock.v
Process.v
ProcessProps.v
Sched.v
ExitProps.v
UserExit.v
Console.v
ProcessExample.v
BlockIo.v
IdealDisk.v
MinixRead.v
MinixWrite.v
MinixDir.v
MinixDirFacts.v
MinixUpdate.v
MinixProps.v
MinixExample.v
Elf.v
LoadProps.v
Csr.v
ElfExample.v
World.v
KmemUse.v
Boxes.v
Uart.v
PageReport.v
Virtio.v
Block.v
BlockProps.v
BlockDone.v
BlockSpec.v
RamDisk.v
BlockExample.v
Rng.v
Input.v
InputProps.v
Gpu.v
GpuProps.v
VirtioBus.v
Plic.v
InterruptProps.v
FsProc.v
TestProc.v
FsProcProps.v
Syscall.v
SyscallFacts.v
SyscallProps.v
EventProps.v
BrkProps.v
FbProps.v
Trap.v
TrapProps.v
BootProps.v
ReprC.v
LayoutProps.v
BlockCall.v
DriverExample.v
SyscallExample.v
TrapExample.v
BrkExample.v
TestExample.v
