(* ===== verification/Prelude.v ===== *)
(** * A verification library for the RISC-V kernel in risc_v/src

    The program is a small operating system for one RISC-V hart.  It manages
    physical pages (page.rs) and a heap inside of them (kmem.rs, buffer.rs),
    builds page tables (page.rs), keeps a list of processes (process.rs) that
    a round-robin scheduler (sched.rs) runs under a lock (lock.rs), buffers
    console input and output (console.rs), drives VirtIO disks, screens and
    input devices (virtio.rs, block.rs, gpu.rs, input.rs, rng.rs), a serial
    port (uart.rs) and an interrupt controller (plic.rs), reads and writes
    Minix 3 volumes (fs.rs), loads programs from them (elf.rs), and serves
    system calls (syscall.rs) in its trap handler (trap.rs).

    ** Files

    The library is listed in dependency order.

    - [Prelude]: outcomes and the state monad [M], machine integers, byte
      lists, little-endian encodings, bit lemmas, the tactics [run],
      [inv_run], [len] and [calc], and the hint databases.
    - [Memory]: physical memory as a finite map from addresses to bytes
      ([Mem]), the linker symbols ([Linker]) and the record [kernel] of the
      globals of page.rs and kmem.rs.
    - [Cpu]: cpu.rs.  Registers, trap frames, [build_satp], [memcpy].
    - [PageAlloc], [PageProps], [PageExample]: the page allocator of page.rs.
      [Page] holds the operations and the abstract table of a heap, a list of
      free pages and allocations; [page_ok] relates it to the descriptors in
      memory.
    - [Kmem], [KmemFacts], [KmemProps], [KmemSpec], [KmemExample]: kmem.rs
      and buffer.rs.  [tiles] relates the chunks of the heap to memory,
      [heap_ok] is the invariant, [blocks] the list of blocks in use.
      [KmemUse] has what a user of the heap needs: blocks stay apart and
      writing into one keeps the invariant.
    - [Mmu], [MmuFacts], [MmuProps], [MmuTree]: the page tables of page.rs.
      [tree] is the invariant of the tables of a process, [implements] relates
      them to a finite map of pages.
    - [Lock]: lock.rs, with harts that share a lock as a step relation.
    - [Process], [ProcessProps], [ExitProps]: process.rs.  The list, the trap
      frames in memory and the pages processes own; [procs_ok] is the
      invariant, [owns] says that the pages of a process are its own.
      [UserExit]: [unmap], and the end of a process with page tables.
    - [Sched]: sched.rs.  [Console]: console.rs.  [ProcessExample] holds the
      concrete states for the theorems on page tables, processes and the
      scheduler.
    - [MinixLayout]: the structs of fs.rs and their bytes.  [BlockIo]: the
      interface [BlockService] to the disks, the interface [Heap], [syc_read]
      and [syc_write].  [IdealDisk]: an implementation of both interfaces.
      [MinixRead]: [get_inode] and [read]; [MinixWrite]: [write]; [MinixDir]:
      the path cache, [open], [create], [delete].  [MinixDirFacts] and
      [MinixUpdate] hold the lemmas on walking a tree and on updates,
      [MinixProps] the theorems, [MinixExample] a small volume.
    - [Elf], [LoadProps], [ElfExample]: elf.rs.  [load] and [load_proc], and
      the memory a loaded process sees.  [Csr]: the control registers and
      fences of cpu.rs over a hart, which is an interface ([Hart], [HartLaws]).
    - [World]: the whole state of the kernel, the accesses to device registers
      in their order, and the text the print macros make.  [Boxes]: the boxes
      that carry arguments to kernel processes.
    - [PageReport]: [print_page_allocations] of page.rs, with the text it prints.
    - [Uart], [Rng], [Plic]: uart.rs, rng.rs, plic.rs.  [Virtio]: the rings
      and the start of a device; [VirtioBus]: probing and the dispatch of
      interrupts of virtio.rs.  [InterruptProps]: what a handler may touch.
    - [Block], [BlockProps], [BlockDone], [BlockSpec]: block.rs, submitting a
      request, completing it, and both with the device in between; [RamDisk]
      is a device, [BlockExample] a run.
    - [Input], [InputProps]: input.rs.  [Gpu], [GpuProps]: gpu.rs.
      [DriverExample] has concrete states for the drivers.
    - [FsProc], [FsProcProps]: the processes of fs.rs that read and write
      files for others.  [TestProc]: test.rs and what fs.rs prints.
    - [Syscall], [SyscallFacts], [SyscallProps], [EventProps], [BrkProps],
      [FbProps]: syscall.rs, one definition per system call, and the calls that
      map memory.  [Trap], [TrapProps]: trap.rs, [kinit] and the panic handler
      of main.rs, and the bodies of the kernel processes of process.rs.
      [BootProps]: what [kinit] establishes.  [BlockCall]: a block read from the
      system call to the interrupt.
    - [ReprC], [LayoutProps]: the layout of [repr(C)] types, the declarations of
      the source in it, and the offsets of the model compared with them.
    - [SyscallExample], [TrapExample], [BrkExample] and [TestExample] have
      concrete states.

    ** How the code is modelled

    A function that changes state is a computation in [M S]; its result is an
    [outcome]: a value with the new state, a panic, an access outside of the
    block a pointer belongs to, a wait that never ends, or a loop that used
    up its fuel.  Machine integers are in [Z]; every addition, subtraction and
    multiplication the code does at a width goes through [uint], which panics
    on overflow in the profile [dev] and wraps in [release]: the theorems
    hold in both.  The allocators, page tables, drivers and system calls work
    on addresses in one memory; the file system works on the bytes of the
    blocks its pointers point to.  A pointer that is null is address 0.
    [Option] globals that the code takes and puts back are options in the
    state.

    Each component has the state it needs, and [zoom] runs it inside of a
    larger one: [kernel] (memory and heap) in [pstate] (processes), in
    [cstate] (console), in [world] (devices), in [sys] (file system).  A
    volatile access to a register appends to [io]; what a load returns is a
    function of the accesses before it, the parameter [Bus], so a theorem
    holds for every device.  Descriptor rings are in memory, where driver and
    device both find them: a device step maps memory to memory between two
    steps of the kernel.  A trap ends with the place it returns to or the
    frame it switches to.

    Where a loop is not bounded by a number the code computes, the model has
    fuel, and the theorems say how much is enough: the number of chunks of the
    heap plus one for [kmalloc], [kfree] and [print_table], the pages of an
    allocation for [dealloc], the depth of the directory tree for [refresh],
    the number of processes passed for [schedule], the elements used by the
    device plus one for an interrupt.  [schedule_returns] and
    [schedule_never_returns] say when the scheduler's loop ends at all.

    ** What the theorems show

    - Pages: [alloc] is first fit and hands out free pages only, [dealloc]
      frees exactly one allocation and undoes [alloc], [zalloc] zeroes,
      [init] establishes the invariant; a double free panics; where the pages
      lie in the heap and when they do not.
    - Heap: [kmalloc] takes the first chunk that fits and keeps the blocks in
      use, [kfree] releases one block and makes room again, [kzmalloc] and
      [Buffer::clone] fill the block; a box gives back what was put in.
    - Page tables: [map] refines insertion into a map of pages, keeps the
      tables a tree and other pages as they are; [unmap] frees exactly the
      tables below the root.
    - Lock and scheduler: mutual exclusion; round robin with sleepers,
      soundness, termination and fairness of [schedule].
    - Processes and console: starting a process keeps the invariant, deleting
      one gives back its pages, with page tables or without; setting states and
      finding processes; the queues are first in, first out and bounded.
    - File system: the exact bytes [syc_read], [syc_write], [get_inode],
      [read] and [write] move; [refresh], [open] and [show_all_file_paths] agree
      with the tree on the disk, as long as its directories have no more than one
      block, which is all the code reads of them; what [find_free_inode], [delete]
      and [create] do; inodes and their bytes correspond; the round trip of [write] and [read]; what a write over
      several zones leaves in each of them; a file read on behalf of another
      process.
    - Loader: [load] returns exactly the segments to be loaded with the bytes
      of the file, and refuses other files with the right error; a process from
      [load_proc], when the segments fit into its block, sees the bytes of the
      file at their virtual addresses and reaches nothing but its program and its
      stack, whatever the hart had cached before; dropping it gives back exactly
      the pages loading it took.
    - Drivers: a block request, served by any device that follows the
      protocol, moves exactly its sectors, wakes the process and leaves the
      ring and heap as they were, which is what [BlockLaws] asks for; which
      requests are refused; set-up of block and input devices; delivery of
      input events with the buffers that are handed out again, and where these
      leave their block; drawing equals a pointwise picture; the commands of
      [transfer]; the serial port's registers, and what its interrupt queues and
      echoes; which handler an interrupt goes to, and that it is claimed and
      completed, and drivers touch no controller.
    - System calls and traps: [open] and [close], [write], [brk] and the
      framebuffer call with the pages they map, the event queues, unknown
      numbers, with the MMU on and off; a fault kills one process, frees its
      pages and keeps the others in order; a process whose function returns ends;
      the timer; traps without a case; the
      calls for the pid and for a block read from the [ecall] to the return.
    - Boot: [kinit] establishes the invariants of the pages, the heap and the
      processes, with storage for the process list and the console, and switches
      to the test process.
    - Layout: the offsets of the model are those of the declarations, decoders
      and encoders follow them, and the fields of a struct lie apart.
    - Reports: the text [print_page_allocations] and [test_open_file] print.

    ** What is assumed

    [BlockLaws] is what the file system relies on of the block system calls
    and the device behind them: a request of whole sectors inside of the disk
    is answered with status 0 and moves those bytes.  [HeapLaws] says that
    [kmalloc] finds room for the buffers of the file system.  [IdealDisk]
    satisfies both.  [BlkLaws] is the VirtIO protocol of a block device: it
    serves the request at an index of the available ring and puts it in the
    used ring; [RamDisk] satisfies it.  [Repr] and [ReqLayout] are the layout
    of structs the compiler chooses.  [Deques] is how many places a [VecDeque]
    reserves for a capacity, no fewer than asked for ([DequeLaws]).  [Linker] gives the place of the heap,
    [Clock] the values of the timer and [Bus] those of the registers; theorems
    state what they need of them.  One hart runs the kernel, so an operation
    is not interrupted, and a kernel process runs from one system call to the
    next; loads and stores of words are taken at any alignment.  [HartLaws] is
    what the manual says of control registers and of sfence.vma; [Simple] in
    [Csr] satisfies it.

    ** What is not modelled

    The assembly and assembly.rs, which includes it: what the Rust code relies
    on is in [do_make_syscall] and in [after].  [kinit_hart], which is empty, and
    constants and enumerations no code uses.  Of the collections of the library
    the contents are modelled, and the heap blocks that [with_capacity] reserves
    for the process list, the console and the event queues; what a collection
    takes later to grow, the strings and maps inside of a process and the nodes of
    the path cache take nothing from the heap of the model.  Two modules of the model have a
    simpler view of a part that is modelled in detail elsewhere: the file system
    gets its blocks through [BlockService] and its buffers through [Heap].

    ** What could come next

    The interleaving of kernel processes at their disk requests, so that the driver
    is an instance of [BlockService]; the heap of [Kmem] as an implementation of
    [Heap]; writes through indirect zones; booting with a disk. *)

From Stdlib Require Export ZArith Lia.
From stdpp Require Export base option list numbers gmap.

#[global] Open Scope Z_scope.
#[global] Set Default Goal Selector "!".

(** ** Outcomes of a computation

    [Panic] is a Rust panic (a failed [assert!], [unwrap] on [None], an
    index out of bounds, an arithmetic overflow with overflow checks on);
    [Fault] is an access outside of the memory block a pointer was derived
    from, whose result Rust does not define; [Hang] is a computation that
    waits for ever; [NoFuel] is a loop of the model that used up its fuel. *)

Inductive outcome (A : Type) : Type :=
| Done (a : A)
| Panic
| Fault
| Hang
| NoFuel.
Arguments Done {A} a.
Arguments Panic {A}.
Arguments Fault {A}.
Arguments Hang {A}.
Arguments NoFuel {A}.

#[export] Instance outcome_ret : MRet outcome := fun _ a => Done a.

#[export] Instance outcome_bind : MBind outcome := fun _ _ f m =>
  match m with
  | Done a => f a
  | Panic => Panic
  | Fault => Fault
  | Hang => Hang
  | NoFuel => NoFuel
  end.

(** State-passing computations over a component's state [S]. *)
Definition M (S A : Type) : Type := S -> outcome (A * S).

#[export] Instance M_ret {S} : MRet (M S) := fun _ a s => Done (a, s).

#[export] Instance M_bind {S} : MBind (M S) := fun _ _ f m s =>
  match m s with
  | Done (a, s') => f a s'
  | Panic => Panic
  | Fault => Fault
  | Hang => Hang
  | NoFuel => NoFuel
  end.

Definition lift {S A} (o : outcome A) : M S A := fun s =>
  match o with
  | Done a => Done (a, s)
  | Panic => Panic
  | Fault => Fault
  | Hang => Hang
  | NoFuel => NoFuel
  end.

Definition get {S} : M S S := fun s => Done (s, s).
Definition put {S} (s' : S) : M S unit := fun _ => Done (tt, s').
Definition modify {S} (f : S -> S) : M S unit := fun s => Done (tt, f s).
Definition gets {S A} (f : S -> A) : M S A := fun s => Done (f s, s).
Definition fail {S A} (o : forall B, outcome B) : M S A := fun _ => o _.

(** [assert!] *)
Definition assert_ (b : bool) : outcome unit := if b then Done tt else Panic.
(** A dereference that Rust only defines when [b] holds. *)
Definition valid (b : bool) : outcome unit := if b then Done tt else Fault.
(** [Option::unwrap] *)
Definition unwrap {A} (o : option A) : outcome A :=
  match o with Some a => Done a | None => Panic end.

Lemma bind_done {S A B} (m : M S A) (f : A -> M S B) s a s' :
  m s = Done (a, s') -> (m ≫= f) s = f a s'.
Proof. intros E. unfold mbind, M_bind. by rewrite E. Qed.

Lemma bind_inv {S A B} (m : M S A) (f : A -> M S B) s r :
  (m ≫= f) s = Done r -> exists a s', m s = Done (a, s') /\ f a s' = Done r.
Proof.
  unfold mbind, M_bind. destruct (m s) as [[a s']| | | |] eqn:E; try done. eauto.
Qed.

Lemma obind_inv {A B} (m : outcome A) (f : A -> outcome B) r :
  (m ≫= f) = Done r -> exists a, m = Done a /\ f a = Done r.
Proof. destruct m; cbn; try done. eauto. Qed.

Lemma lift_inv {S A} (o : outcome A) (s : S) a s' :
  lift o s = Done (a, s') -> o = Done a /\ s' = s.
Proof. destruct o; cbn; naive_solver. Qed.

Lemma lift_done {S A} (o : outcome A) (s : S) a :
  o = Done a -> lift o s = Done (a, s).
Proof. by intros ->. Qed.

Lemma assert_true b : b = true -> assert_ b = Done tt.
Proof. by intros ->. Qed.

(** ** Build profiles and machine integers

    [cargo build] (profile dev) compiles arithmetic with overflow checks, a
    release build lets it wrap; every definition is parameterised by the
    profile. *)

Class Profile : Type := overflow_checks : bool.
Definition dev : Profile := true.
Definition release : Profile := false.

Section Arith.
Context `{Profile}.

(** The result of one arithmetic operation at type u[w]. *)
Definition uint (w : Z) (z : Z) : outcome Z :=
  if (0 <=? z) && (z <? 2 ^ w) then Done z
  else if overflow_checks then Panic else Done (z mod 2 ^ w).

Lemma uint_ok w z : 0 <= z < 2 ^ w -> uint w z = Done z.
Proof.
  intros [? ?]. unfold uint.
  by rewrite (proj2 (Z.leb_le _ _)), (proj2 (Z.ltb_lt _ _)).
Qed.

Lemma uint_range w z r : 0 < w -> uint w z = Done r -> 0 <= r < 2 ^ w.
Proof.
  intros Hw. unfold uint.
  destruct (Z.leb_spec 0 z), (Z.ltb_spec z (2 ^ w)); cbn;
    try (intros [= <-]; lia);
    destruct overflow_checks; try done;
    intros [= <-]; apply Z.mod_pos_bound; lia.
Qed.
End Arith.

Abbreviation u8 := (uint 8).
Abbreviation u16 := (uint 16).
Abbreviation u32 := (uint 32).
Abbreviation usize := (uint 64).

(** [e as u8] and so on: truncation, never checked. *)
Definition as_u8 (z : Z) : Z := z mod 2 ^ 8.
Definition as_u16 (z : Z) : Z := z mod 2 ^ 16.
Definition as_u32 (z : Z) : Z := z mod 2 ^ 32.
Definition as_u64 (z : Z) : Z := z mod 2 ^ 64.

(** [!x] at width [w]. *)
Definition unot (w x : Z) : Z := Z.lxor x (Z.ones w).

Definition is_byte (b : Z) : Prop := 0 <= b < 256.

(** ** Byte ranges

    [bytes_at f a n] is the list of the [n] bytes that the memory or disk
    with contents [f] holds from address [a] on. *)

Definition bytes_at (f : Z -> Z) (a n : Z) : list Z :=
  (fun i => f (a + Z.of_nat i)) <$> seq 0 (Z.to_nat n).

(** [slice l i n] is [l[i .. i+n]] and [splice l i d] is [l] with the
    elements from index [i] on replaced by those of [d]; both are [None] when
    the range is not inside of [l]. *)
Definition slice {A} (l : list A) (i n : Z) : option (list A) :=
  if (0 <=? i) && (0 <=? n) && (i + n <=? Z.of_nat (length l))
  then Some (take (Z.to_nat n) (drop (Z.to_nat i) l)) else None.

Definition splice {A} (l : list A) (i : Z) (d : list A) : option (list A) :=
  if (0 <=? i) && (i + Z.of_nat (length d) <=? Z.of_nat (length l))
  then Some (take (Z.to_nat i) l ++ d ++ drop (Z.to_nat i + length d) l)
  else None.

(** Access through a pointer into a block: undefined outside of the block. *)
Definition deref {A} (o : option A) : outcome A :=
  match o with Some a => Done a | None => Fault end.

(** The length of a list as an integer, and its [i]-th byte. *)
Abbreviation zlen l := (Z.of_nat (length l)).
Definition nthZ (l : list Z) (i : Z) : Z := default 0 (l !! Z.to_nat i).

Lemma slice_ok {A} (l : list A) i n :
  0 <= i -> 0 <= n -> i + n <= zlen l ->
  slice l i n = Some (take (Z.to_nat n) (drop (Z.to_nat i) l)).
Proof.
  intros. unfold slice.
  rewrite !(proj2 (Z.leb_le _ _)) by lia. done.
Qed.

Lemma splice_ok {A} (l d : list A) i :
  0 <= i -> i + zlen d <= zlen l ->
  splice l i d = Some (take (Z.to_nat i) l ++ d ++ drop (Z.to_nat i + length d) l).
Proof.
  intros. unfold splice.
  rewrite !(proj2 (Z.leb_le _ _)) by lia. done.
Qed.

Lemma slice_length {A} (l : list A) i n d :
  slice l i n = Some d -> zlen d = n.
Proof.
  unfold slice. destruct (_ && _) eqn:E; [|done]. intros [= <-].
  rewrite !andb_true_iff, !Z.leb_le in E.
  rewrite length_take, length_drop. lia.
Qed.

Lemma splice_length {A} (l l' d : list A) i :
  splice l i d = Some l' -> length l' = length l.
Proof.
  unfold splice. destruct (_ && _) eqn:E; [|done]. intros [= <-].
  rewrite !andb_true_iff, !Z.leb_le in E.
  rewrite !length_app, length_take, length_drop. lia.
Qed.

Lemma splice_nth (l l' d : list Z) i j :
  splice l i d = Some l' -> 0 <= j ->
  nthZ l' j = if decide (i <= j < i + zlen d) then nthZ d (j - i) else nthZ l j.
Proof.
  unfold splice, nthZ. destruct (_ && _) eqn:E; [|done]. intros [= <-] Hj.
  rewrite !andb_true_iff, !Z.leb_le in E. destruct E as [Hi Hl].
  destruct (decide (i <= j < i + zlen d)) as [Hin|Hout].
  - rewrite lookup_app_r by (rewrite length_take; lia).
    rewrite lookup_app_l by (rewrite length_take; lia).
    do 2 f_equal. rewrite length_take. lia.
  - destruct (Z.lt_ge_cases j i).
    + rewrite lookup_app_l by (rewrite length_take; lia).
      rewrite lookup_take_lt by lia. done.
    + rewrite lookup_app_r by (rewrite length_take; lia).
      rewrite lookup_app_r by (rewrite length_take; lia).
      rewrite lookup_drop. do 2 f_equal. rewrite length_take. lia.
Qed.

Lemma slice_nth (l d : list Z) i n j :
  slice l i n = Some d -> 0 <= j < n -> nthZ d j = nthZ l (i + j).
Proof.
  unfold slice, nthZ. destruct (_ && _) eqn:E; [|done]. intros [= <-] Hj.
  rewrite !andb_true_iff, !Z.leb_le in E.
  rewrite lookup_take_lt by lia. rewrite lookup_drop. do 2 f_equal. lia.
Qed.

(** Two lists of bytes are equal when they have the same length and bytes. *)
Lemma list_eq_nthZ (l1 l2 : list Z) :
  length l1 = length l2 ->
  (forall i, 0 <= i < zlen l1 -> nthZ l1 i = nthZ l2 i) -> l1 = l2.
Proof.
  intros Hlen Heq. apply list_eq. intros i.
  destruct (decide (i < length l1)%nat) as [Hi|Hi].
  - specialize (Heq (Z.of_nat i) ltac:(lia)). unfold nthZ in Heq.
    rewrite Nat2Z.id in Heq.
    destruct (lookup_lt_is_Some_2 l1 i Hi) as [x Hx].
    destruct (lookup_lt_is_Some_2 l2 i ltac:(lia)) as [y Hy].
    rewrite Hx, Hy in *. cbn in Heq. congruence.
  - rewrite !lookup_ge_None_2 by lia. done.
Qed.

Lemma Forall_nthZ (P : Z -> Prop) (l : list Z) :
  Forall P l <-> forall i, 0 <= i < zlen l -> P (nthZ l i).
Proof.
  rewrite Forall_lookup. split; intros Hl i.
  - intros Hi. unfold nthZ.
    destruct (lookup_lt_is_Some_2 l (Z.to_nat i)) as [x Hx]; [lia|].
    rewrite Hx. exact (Hl _ _ Hx).
  - intros x Hx. pose proof (lookup_lt_Some _ _ _ Hx).
    specialize (Hl (Z.of_nat i) ltac:(lia)). unfold nthZ in Hl.
    rewrite Nat2Z.id, Hx in Hl. exact Hl.
Qed.

Lemma length_bytes_at f a n : length (bytes_at f a n) = Z.to_nat n.
Proof. unfold bytes_at. by rewrite length_fmap, length_seq. Qed.

Lemma nth_bytes_at f a n i : 0 <= i < n -> nthZ (bytes_at f a n) i = f (a + i).
Proof.
  intros. unfold nthZ, bytes_at. rewrite list_lookup_fmap.
  rewrite lookup_seq_lt by lia. cbn. f_equal. lia.
Qed.

Lemma bytes_at_ext f g a n :
  (forall i, 0 <= i < n -> f (a + i) = g (a + i)) -> bytes_at f a n = bytes_at g a n.
Proof.
  intros Heq. apply list_eq_nthZ; [by rewrite !length_bytes_at|].
  intros i. rewrite length_bytes_at. intros Hi.
  rewrite !nth_bytes_at by lia. apply Heq. lia.
Qed.

Lemma slice_bytes_at f a n i k :
  0 <= i -> 0 <= k -> i + k <= n ->
  slice (bytes_at f a n) i k = Some (bytes_at f (a + i) k).
Proof.
  intros. destruct (slice (bytes_at f a n) i k) as [d|] eqn:E.
  - f_equal. pose proof (slice_length _ _ _ _ E) as L.
    apply list_eq_nthZ; [rewrite length_bytes_at; lia|].
    intros j Hj. rewrite (slice_nth _ _ _ _ _ E) by lia.
    rewrite !nth_bytes_at by lia. f_equal. lia.
  - rewrite slice_ok in E by (rewrite ?length_bytes_at; lia). done.
Qed.

Lemma slice_app_l {A} (l l' : list A) i n d :
  slice l i n = Some d -> slice (l ++ l') i n = Some d.
Proof.
  unfold slice. rewrite length_app. destruct (_ && _) eqn:E; [|done].
  rewrite !andb_true_iff, !Z.leb_le in E.
  rewrite !(proj2 (Z.leb_le _ _)) by lia. cbn [andb]. intros [= <-].
  rewrite drop_app_le, take_app_le by (rewrite ?length_drop; lia). done.
Qed.

Lemma bytes_at_app f a n m :
  0 <= n -> 0 <= m -> bytes_at f a (n + m) = bytes_at f a n ++ bytes_at f (a + n) m.
Proof.
  intros. unfold bytes_at.
  rewrite Z2Nat.inj_add, seq_app, fmap_app by lia. f_equal.
  cbn. rewrite <- (Nat.add_0_r (Z.to_nat n)) at 1. rewrite <- fmap_add_seq.
  rewrite <- list_fmap_compose. apply list_fmap_ext. intros i x _. cbn. f_equal. lia.
Qed.

Lemma Forall_bytes_at P f a n :
  (forall i, P (f i)) -> Forall P (bytes_at f a n).
Proof. intros Hf. apply Forall_fmap, Forall_true. intros i. apply Hf. Qed.

(** Writing the bytes of [d] from address [a] on. *)
Definition upd_bytes (f : Z -> Z) (a : Z) (d : list Z) : Z -> Z := fun x =>
  if decide (a <= x < a + zlen d) then nthZ d (x - a) else f x.

Lemma bytes_at_upd f a l : bytes_at (upd_bytes f a l) a (zlen l) = l.
Proof.
  apply list_eq_nthZ; [rewrite length_bytes_at; lia|].
  intros i. rewrite length_bytes_at. intros Hi. rewrite nth_bytes_at by lia.
  unfold upd_bytes. rewrite decide_True by lia. by rewrite Z.add_simpl_l.
Qed.

(** ** Little-endian integers in memory *)

Fixpoint le_dec (l : list Z) : Z :=
  match l with
  | [] => 0
  | b :: t => b + 256 * le_dec t
  end.

Fixpoint le_enc (n : nat) (z : Z) : list Z :=
  match n with
  | O => []
  | S n' => z mod 256 :: le_enc n' (z / 256)
  end.

Lemma length_le_enc n z : length (le_enc n z) = n.
Proof. revert z. induction n; intros z; cbn; [done|]. by rewrite IHn. Qed.

Lemma le_enc_bytes n z : Forall is_byte (le_enc n z).
Proof.
  revert z. induction n; intros z; cbn; constructor; [|done].
  unfold is_byte. apply Z.mod_pos_bound. lia.
Qed.

Lemma le_dec_enc n z : 0 <= z < 256 ^ Z.of_nat n -> le_dec (le_enc n z) = z.
Proof.
  revert z. induction n as [|n IH]; intros z Hz; [cbn in *; lia|].
  cbn [le_enc le_dec]. rewrite Nat2Z.inj_succ, Z.pow_succ_r in Hz by lia.
  rewrite IH.
  - pose proof (Z.div_mod z 256). lia.
  - split; [apply Z.div_pos; lia|]. apply Z.div_lt_upper_bound; lia.
Qed.

Lemma le_dec_range l : Forall is_byte l -> 0 <= le_dec l < 256 ^ zlen l.
Proof.
  induction 1 as [|b l Hb Hl IH]; [cbn; lia|].
  cbn [le_dec length]. rewrite Nat2Z.inj_succ, Z.pow_succ_r by lia.
  unfold is_byte in Hb. lia.
Qed.

Lemma le_enc_dec l : Forall is_byte l -> le_enc (length l) (le_dec l) = l.
Proof.
  induction 1 as [|b l Hb Hl IH]; [done|]. cbn [le_dec length le_enc].
  unfold is_byte in Hb. f_equal.
  - rewrite Z.mul_comm, Z.mod_add by lia. by apply Z.mod_small.
  - rewrite Z.mul_comm, Z.div_add, Z.div_small by lia. done.
Qed.

(** The [n]-byte little-endian integer at offset [off] of a block. *)
Definition int_at (n : Z) (l : list Z) (off : Z) : outcome Z :=
  match slice l off n with Some d => Done (le_dec d) | None => Fault end.

Abbreviation u16_at := (int_at 2).
Abbreviation u32_at := (int_at 4).
Abbreviation u64_at := (int_at 8).

Lemma int_at_bytes n f a len off :
  0 <= n -> 0 <= off -> off + n <= len ->
  int_at n (bytes_at f a len) off = Done (le_dec (bytes_at f (a + off) n)).
Proof. intros. unfold int_at. by rewrite slice_bytes_at by lia. Qed.

Lemma int_at_ok n l off :
  0 <= n -> 0 <= off -> off + n <= zlen l ->
  int_at n l off = Done (le_dec (take (Z.to_nat n) (drop (Z.to_nat off) l))).
Proof. intros. unfold int_at. by rewrite slice_ok by lia. Qed.

(** ** Bits *)

(** Prove an equality of integers bit by bit. *)
Ltac bit_step :=
  first
    [ rewrite Z.land_spec | rewrite Z.lor_spec | rewrite Z.lxor_spec
    | rewrite Z.ldiff_spec
    | rewrite Z.shiftl_spec by lia | rewrite Z.shiftr_spec by lia
    | rewrite Z.lnot_spec by lia ].
Ltac bits := apply Z.bits_inj'; intros ?n ?Hn; repeat bit_step.

(** Masking with one bit tests it. *)
Lemma land_bit b j : 0 <= j -> (Z.land b (Z.shiftl 1 j) =? 0) = negb (Z.testbit b j).
Proof.
  intros Hj. rewrite Z.shiftl_1_l. destruct (Z.testbit b j) eqn:E; cbn.
  - apply Z.eqb_neq. intros E0. apply (f_equal (fun z => Z.testbit z j)) in E0.
    rewrite Z.land_spec, E, Z.pow2_bits_true, Z.bits_0 in E0 by done. done.
  - apply Z.eqb_eq. bits. rewrite Z.bits_0, Z.pow2_bits_eqb by done.
    destruct (Z.eqb_spec j n) as [<-|]; [by rewrite E|by rewrite andb_false_r].
Qed.

(** Adding an offset below the alignment and clearing the low [o] bits rounds up. *)
Lemma land_unot_ones z o :
  0 <= o <= 64 -> 0 <= z < 2 ^ 64 ->
  Z.land z (unot 64 (Z.ones o)) = z / 2 ^ o * 2 ^ o.
Proof.
  intros Ho Hz. rewrite <- Z.shiftr_div_pow2, <- Z.shiftl_mul_pow2 by lia.
  unfold unot. bits.
  destruct (Z.lt_ge_cases n o) as [Hlt|Hge].
  - rewrite (Z.testbit_neg_r _ (n - o)) by lia.
    rewrite !Z.ones_spec_low by lia. by rewrite andb_false_r.
  - rewrite Z.shiftr_spec, Z.sub_add by lia.
    rewrite (Z.ones_spec_high o) by lia.
    destruct (Z.lt_ge_cases n 64).
    + rewrite Z.ones_spec_low by lia. by rewrite xorb_false_l, andb_true_r.
    + rewrite Z.bits_above_log2; [by rewrite andb_false_l|lia|].
      destruct (Z.eq_dec z 0) as [->|]; [cbn; lia|].
      apply Z.log2_lt_pow2; [lia|].
      apply Z.lt_le_trans with (2 ^ 64); [lia|]. apply Z.pow_le_mono_r; lia.
Qed.

(** ** Automation *)

Create HintDb kern discriminated.
Create Rewrite HintDb len.
#[export] Hint Rewrite @length_app @length_take @length_drop @length_fmap
  @length_seq @length_replicate @length_insert length_bytes_at length_le_enc : len.
Ltac len := autorewrite with len in *; try lia.

(** Run the next operation of a computation with the equation [H] for it. *)
Ltac run H := erewrite bind_done; [|solve [H] ].

(** Take apart a computation that returned. *)
Ltac inv_run :=
  repeat match goal with
  | H : (_ ≫= _) _ = Done _ |- _ =>
      let a := fresh "a" in let s := fresh "s" in let E := fresh "E" in
      apply bind_inv in H; destruct H as (a & s & E & H)
  | H : (_ ≫= _) = Done _ |- _ =>
      let a := fresh "a" in let E := fresh "E" in
      apply obind_inv in H; destruct H as (a & E & H)
  | H : lift _ _ = Done _ |- _ =>
      let E := fresh "E" in
      apply lift_inv in H; destruct H as [H E]; subst
  end.

(** Decide a closed equation, disequation or bound by evaluating it; the
    hypotheses are left alone. *)
Ltac calc :=
  vm_compute; repeat split; (reflexivity || (let E := fresh in intros E; discriminate E)).
