(* ===== verification/Memory.v ===== *)
(** * Physical memory and the kernel's memory globals

    Memory is byte addressed.  The page allocator, the kernel heap and the
    MMU tables share one memory, so that an allocation can be seen to leave
    another one's bytes alone. *)

From S2P Require Import Prelude.

Module Mem.

Abbreviation memory := (gmap Z Z).

Definition byte (m : memory) (a : Z) : Z := default 0 (m !! a).

(** Store the bytes of [l] from address [a] on. *)
Fixpoint store (m : memory) (a : Z) (l : list Z) : memory :=
  match l with
  | [] => m
  | b :: l' => <[a := b]> (store m (a + 1) l')
  end.

Definition rd64 (m : memory) (a : Z) : Z := le_dec (bytes_at (byte m) a 8).
Definition wr64 (m : memory) (a v : Z) : memory := store m a (le_enc 8 v).

Lemma store_lookup m a l x :
  store m a l !! x = if decide (a <= x < a + zlen l) then l !! Z.to_nat (x - a) else m !! x.
Proof.
  revert a. induction l as [|b l IH]; intros a; cbn [store length].
  - rewrite decide_False by lia. done.
  - rewrite lookup_insert. case_decide as E.
    + subst. rewrite decide_True by lia. by rewrite Z.sub_diag.
    + rewrite IH. repeat case_decide; try lia; [|done].
      replace (Z.to_nat (x - a)) with (S (Z.to_nat (x - (a + 1)))) by lia. done.
Qed.

Lemma byte_store m a l x : byte (store m a l) x = upd_bytes (byte m) a l x.
Proof.
  unfold byte, upd_bytes, nthZ. rewrite store_lookup. case_decide; [|done].
  destruct (lookup_lt_is_Some_2 l (Z.to_nat (x - a)) ltac:(lia)) as [b ->]. done.
Qed.

Lemma byte_stored m a l j : 0 <= j < zlen l -> byte (store m a l) (a + j) = nthZ l j.
Proof. intros Hj. rewrite byte_store. unfold upd_bytes. rewrite decide_True by lia. f_equal. lia. Qed.

Lemma byte_store1 m a b x : byte (store m a [b]) x = if decide (x = a) then b else byte m x.
Proof.
  rewrite byte_store. unfold upd_bytes. cbn [length]. repeat case_decide; try lia.
  subst. by rewrite Z.sub_diag.
Qed.

(** Memories with the same bytes. *)
Definition same (m m' : memory) : Prop := forall x, byte m x = byte m' x.

#[export] Instance same_equiv : Equivalence same.
Proof.
  split.
  - by intros m x.
  - intros m m' Hs x. by rewrite Hs.
  - intros m1 m2 m3 H1 H2 x. by rewrite H1.
Qed.

(** The memory holds the bytes [l] at [a]. *)
Definition holds (m : memory) (a : Z) (l : list Z) : Prop :=
  forall j, 0 <= j < zlen l -> byte m (a + j) = nthZ l j.

Lemma holds_app m a l1 l2 :
  holds m a (l1 ++ l2) <-> holds m a l1 /\ holds m (a + zlen l1) l2.
Proof.
  unfold holds, nthZ. setoid_rewrite length_app. split.
  - intros Hh. split; intros j Hj.
    + rewrite Hh, lookup_app_l by lia. done.
    + rewrite <- Z.add_assoc, Hh by lia. rewrite lookup_app_r by lia. do 2 f_equal. lia.
  - intros [H1 H2] j Hj. destruct (Z.lt_ge_cases j (zlen l1)).
    + rewrite H1, lookup_app_l by lia. done.
    + replace (a + j) with (a + zlen l1 + (j - zlen l1)) by lia.
      rewrite H2, lookup_app_r by lia. do 2 f_equal. lia.
Qed.

Lemma holds_cons m a b l : holds m a (b :: l) <-> byte m a = b /\ holds m (a + 1) l.
Proof.
  change (b :: l) with ([b] ++ l). rewrite holds_app. cbn [length]. split.
  - intros [H1 H2]. split; [|done]. specialize (H1 0). rewrite Z.add_0_r in H1. by apply H1.
  - intros [H1 H2]. split; [|done]. intros j Hj. cbn in Hj. assert (j = 0) as -> by lia.
    by rewrite Z.add_0_r.
Qed.

Lemma holds_bytes m a l : holds m a l <-> bytes_at (byte m) a (zlen l) = l.
Proof.
  split.
  - intros Hh. apply list_eq_nthZ; [rewrite length_bytes_at; lia|].
    intros j. rewrite length_bytes_at. intros Hj. rewrite nth_bytes_at by lia. apply Hh. lia.
  - intros E j Hj. rewrite <- (nth_bytes_at (byte m) a (zlen l)) by lia. by rewrite E.
Qed.

(** Bytes outside of an update are still there. *)
Lemma holds_frame m m' a l :
  (forall x, a <= x < a + zlen l -> byte m' x = byte m x) -> holds m a l -> holds m' a l.
Proof. intros Heq Hh j Hj. rewrite Heq by lia. by apply Hh. Qed.

Lemma holds_upd m m' a l :
  (forall x, byte m' x = upd_bytes (byte m) a l x) -> holds m' a l.
Proof.
  intros Hu j Hj. rewrite Hu. unfold upd_bytes. rewrite decide_True by lia.
  f_equal. lia.
Qed.

(** ** Words of memory *)

Lemma rd64_ext m m' a :
  (forall x, a <= x < a + 8 -> byte m' x = byte m x) -> rd64 m' a = rd64 m a.
Proof. intros Heq. unfold rd64. f_equal. apply bytes_at_ext. intros i Hi. apply Heq. lia. Qed.

Lemma byte_wr64 m a v x : x < a \/ a + 8 <= x -> byte (wr64 m a v) x = byte m x.
Proof.
  intros Hx. unfold wr64. rewrite byte_store. unfold upd_bytes. rewrite length_le_enc.
  by rewrite decide_False by lia.
Qed.

Lemma rd64_wr64 m a v : 0 <= v < 2 ^ 64 -> rd64 (wr64 m a v) a = v.
Proof.
  intros Hv. unfold rd64. rewrite (bytes_at_ext _ (upd_bytes (byte m) a (le_enc 8 v))).
  - rewrite <- (length_le_enc 8 v), bytes_at_upd. by apply le_dec_enc.
  - intros i Hi. apply byte_store.
Qed.

Lemma rd64_wr64_ne m a b v : a + 8 <= b \/ b + 8 <= a -> rd64 (wr64 m b v) a = rd64 m a.
Proof. intros Ha. apply rd64_ext. intros x Hx. apply byte_wr64. lia. Qed.

End Mem.

(** ** Linker symbols and globals *)

(** The symbols mem.S exports for the heap. *)
Class Linker := { HEAP_START : Z; HEAP_SIZE : Z }.

(** [ALLOC_START] of page.rs and [KMEM_HEAD], [KMEM_ALLOC],
    [KMEM_PAGE_TABLE] of kmem.rs, with the memory. *)
Record kernel := mkKernel {
  mem : Mem.memory;
  ALLOC_START : Z;
  KMEM_HEAD : Z;
  KMEM_ALLOC : Z;
  KMEM_PAGE_TABLE : Z;
}.

Definition with_mem (m : Mem.memory) (s : kernel) : kernel :=
  mkKernel m (ALLOC_START s) (KMEM_HEAD s) (KMEM_ALLOC s) (KMEM_PAGE_TABLE s).
