(* ===== verification/Cpu.v ===== *)
(** * cpu.rs: registers, trap frames, the SATP register and memcpy

    Memory blocks are lists of bytes; a pointer into a block is the block and
    an offset. *)

From S2P Require Import Prelude.

Module Cpu.

(** ** Timing constants *)
Definition FREQ : Z := 10000000.
Definition CONTEXT_SWITCH_TIME : Z := FREQ / 500.

(** ** Enumerations *)
Inductive SatpMode := Off | Sv39 | Sv48.
Definition SatpMode_val (m : SatpMode) : Z :=
  match m with Off => 0 | Sv39 => 8 | Sv48 => 9 end.

Inductive CpuMode := User | Supervisor | Machine.
Definition CpuMode_val (m : CpuMode) : Z :=
  match m with User => 0 | Supervisor => 1 | Machine => 3 end.

Inductive Registers :=
| Zero | Ra | Sp | Gp | Tp | T0 | T1 | T2 | S0 | S1
| A0 | A1 | A2 | A3 | A4 | A5 | A6 | A7 | S2 | S3
| S4 | S5 | S6 | S7 | S8 | S9 | S10 | S11 | T3 | T4
| T5 | T6.

(** [gp r] is the discriminant of [r], its index in [TrapFrame.regs]. *)
Definition gp (r : Registers) : Z :=
  match r with
  | Zero => 0 | Ra => 1 | Sp => 2 | Gp => 3 | Tp => 4 | T0 => 5 | T1 => 6
  | T2 => 7 | S0 => 8 | S1 => 9 | A0 => 10 | A1 => 11 | A2 => 12 | A3 => 13
  | A4 => 14 | A5 => 15 | A6 => 16 | A7 => 17 | S2 => 18 | S3 => 19
  | S4 => 20 | S5 => 21 | S6 => 22 | S7 => 23 | S8 => 24 | S9 => 25
  | S10 => 26 | S11 => 27 | T3 => 28 | T4 => 29 | T5 => 30 | T6 => 31
  end.

Inductive FRegisters :=
| Ft0 | Ft1 | Ft2 | Ft3 | Ft4 | Ft5 | Ft6 | Ft7 | Fs0 | Fs1
| Fa0 | Fa1 | Fa2 | Fa3 | Fa4 | Fa5 | Fa6 | Fa7 | Fs2 | Fs3
| Fs4 | Fs5 | Fs6 | Fs7 | Fs8 | Fs9 | Fs10 | Fs11 | Ft8 | Ft9
| Ft10 | Ft11.

(** ** Trap frames *)
Record TrapFrame := mkTrapFrame {
  regs : list Z;
  fregs : list Z;
  satp : Z;
  pc : Z;
  hartid : Z;
  qm : Z;
  pid : Z;
  mode : Z;
}.

Definition TrapFrame_new : TrapFrame :=
  mkTrapFrame (replicate 32 0) (replicate 32 0) 0 0 0 1 0 0.

(** ** The SATP register *)
Definition build_satp (md : SatpMode) (asid addr : Z) : Z :=
  Z.lor (Z.lor (Z.shiftl (SatpMode_val md) 60)
               (Z.shiftl (Z.land asid 0xffff) 44))
        (Z.land (Z.shiftr addr 12) 0xffffffffff).

(** ** memcpy

    The copy runs over 64-bit words first, then over the bytes
    [bytes_completed .. bytes_remaining]. *)
Fixpoint memcpy_words (k : nat) (i : Z) (dst : list Z) (doff : Z)
    (src : list Z) (soff : Z) : outcome (list Z) :=
  match k with
  | O => Done dst
  | S k' =>
      w ← deref (slice src (soff + 8 * i) 8);
      dst' ← deref (splice dst (doff + 8 * i) w);
      memcpy_words k' (i + 1) dst' doff src soff
  end.

Fixpoint memcpy_bytes (k : nat) (i : Z) (dst : list Z) (doff : Z)
    (src : list Z) (soff : Z) : outcome (list Z) :=
  match k with
  | O => Done dst
  | S k' =>
      b ← deref (slice src (soff + i) 1);
      dst' ← deref (splice dst (doff + i) b);
      memcpy_bytes k' (i + 1) dst' doff src soff
  end.

Definition memcpy (dst : list Z) (doff : Z) (src : list Z) (soff bytes : Z)
    : outcome (list Z) :=
  let bytes_as_8 := bytes / 8 in
  dst' ← memcpy_words (Z.to_nat bytes_as_8) 0 dst doff src soff;
  let bytes_completed := bytes_as_8 * 8 in
  let bytes_remaining := bytes - bytes_completed in
  memcpy_bytes (Z.to_nat (bytes_remaining - bytes_completed)) bytes_completed
    dst' doff src soff.

(** The number of bytes a call really copies: a length of eight or more is
    rounded down to whole words. *)
Definition memcpy_len (bytes : Z) : Z :=
  if bytes <? 8 then bytes else bytes / 8 * 8.

(** ** Properties *)

Lemma memcpy_len_bounds n : 0 <= n -> 0 <= memcpy_len n <= n.
Proof.
  intros. unfold memcpy_len. destruct (Z.ltb_spec n 8); [lia|].
  pose proof (Z.div_mod n 8). pose proof (Z.mod_pos_bound n 8). lia.
Qed.

Lemma memcpy_len_exact n : 0 <= n < 8 \/ n mod 8 = 0 -> memcpy_len n = n.
Proof.
  intros. unfold memcpy_len. destruct (Z.ltb_spec n 8); [done|].
  pose proof (Z.div_mod n 8). lia.
Qed.

(** Copying [a ++ b] over a range is copying [a] and then [b]. *)
Lemma splice_app (l l1 l2 a b : list Z) i :
  splice l i a = Some l1 -> splice l1 (i + zlen a) b = Some l2 ->
  splice l i (a ++ b) = Some l2.
Proof.
  intros H1 H2.
  pose proof (splice_length _ _ _ _ H1) as L1.
  assert (0 <= i /\ i + zlen a + zlen b <= zlen l) as [Hi Hl].
  { unfold splice in H1, H2. destruct (_ && _) eqn:E1 in H1; [|done].
    destruct (_ && _) eqn:E2 in H2; [|done].
    rewrite !andb_true_iff, !Z.leb_le in *. lia. }
  pose proof (splice_length _ _ _ _ H2) as L2.
  destruct (splice l i (a ++ b)) as [l3|] eqn:E.
  - f_equal. pose proof (splice_length _ _ _ _ E) as L3.
    apply list_eq_nthZ; [lia|]. intros j Hj.
    rewrite (splice_nth _ _ _ _ _ E), (splice_nth _ _ _ _ _ H2),
      (splice_nth _ _ _ _ _ H1) by lia.
    rewrite length_app. unfold nthZ.
    repeat case_decide; try lia; try done.
    + rewrite lookup_app_r by lia. do 2 f_equal. lia.
    + rewrite lookup_app_l by lia. done.
  - rewrite splice_ok in E by (rewrite ?length_app; lia). done.
Qed.

Lemma splice_nil (l : list Z) i : 0 <= i <= zlen l -> splice l i [] = Some l.
Proof.
  intros. rewrite splice_ok by (cbn; lia). cbn. f_equal.
  rewrite Nat.add_0_r. apply take_drop.
Qed.

Lemma slice_app (l : list Z) i n m a b :
  slice l i n = Some a -> slice l (i + n) m = Some b ->
  slice l i (n + m) = Some (a ++ b).
Proof.
  intros Ha Hb.
  pose proof (slice_length _ _ _ _ Ha) as La. pose proof (slice_length _ _ _ _ Hb) as Lb.
  assert (0 <= i /\ i + n + m <= zlen l) as [Hi Hl].
  { unfold slice in Ha, Hb. destruct (_ && _) eqn:E1 in Ha; [|done].
    destruct (_ && _) eqn:E2 in Hb; [|done].
    rewrite !andb_true_iff, !Z.leb_le in *. lia. }
  rewrite slice_ok in * by lia. injection Ha as <-. injection Hb as <-.
  f_equal. rewrite (Z2Nat.inj_add n m), (Z2Nat.inj_add i n) by lia.
  rewrite <- drop_drop, take_take_drop. done.
Qed.

Lemma deref_done {A} (o : option A) a : o = Some a -> deref o = Done a.
Proof. by intros ->. Qed.

(** Both loops copy a prefix of the source range: an invariant on the
    number [c] of bytes already copied, advancing by [w] bytes. *)
Lemma copy_step (dst dst0 : list Z) doff (src : list Z) soff c w d :
  0 <= soff -> 0 <= c -> 0 <= w -> 0 <= doff ->
  soff + c + w <= zlen src -> doff + c + w <= zlen dst0 ->
  slice src soff c = Some d -> splice dst0 doff d = Some dst ->
  exists e dst' d', slice src (soff + c) w = Some e /\
    splice dst (doff + c) e = Some dst' /\
    slice src soff (c + w) = Some d' /\ splice dst0 doff d' = Some dst'.
Proof.
  intros Hs Hc Hw Hd Hls Hld Ha Hb.
  pose proof (slice_length _ _ _ _ Ha) as La.
  pose proof (splice_length _ _ _ _ Hb) as Lb.
  destruct (slice src (soff + c) w) as [e|] eqn:He;
    [|rewrite slice_ok in He by lia; done].
  pose proof (slice_length _ _ _ _ He) as Le.
  destruct (splice dst (doff + c) e) as [dst'|] eqn:Hd';
    [|rewrite splice_ok in Hd' by lia; done].
  exists e, dst', (d ++ e). split_and!; try done.
  - eapply slice_app; eauto.
  - eapply splice_app; eauto. by rewrite La.
Qed.

Lemma memcpy_words_spec k : forall i (dst : list Z) doff (src : list Z) soff dst0 d,
  0 <= i -> 0 <= soff -> 0 <= doff ->
  soff + 8 * i + 8 * Z.of_nat k <= zlen src ->
  doff + 8 * i + 8 * Z.of_nat k <= zlen dst0 ->
  slice src soff (8 * i) = Some d -> splice dst0 doff d = Some dst ->
  exists d' dst', slice src soff (8 * (i + Z.of_nat k)) = Some d' /\
    splice dst0 doff d' = Some dst' /\
    memcpy_words k i dst doff src soff = Done dst'.
Proof.
  induction k as [|k IH]; intros i dst doff src soff dst0 d Hi Hs Hd Hls Hld Ha Hb.
  - exists d, dst. rewrite Z.add_0_r. done.
  - destruct (copy_step dst dst0 doff src soff (8 * i) 8 d)
      as (e & dst1 & d1 & H1 & H2 & H3 & H4); try done; try lia.
    cbn [memcpy_words]. rewrite H1. cbn [mbind outcome_bind deref]. rewrite H2.
    cbn [mbind outcome_bind deref].
    destruct (IH (i + 1) dst1 doff src soff dst0 d1) as (d' & dst' & ? & ? & ?);
      try lia; try done.
    { by replace (8 * (i + 1)) with (8 * i + 8) by lia. }
    exists d', dst'. split_and!; try done.
    by replace (i + Z.of_nat (S k)) with (i + 1 + Z.of_nat k) by lia.
Qed.

Lemma memcpy_bytes_spec k : forall i (dst : list Z) doff (src : list Z) soff dst0 d,
  0 <= i -> 0 <= soff -> 0 <= doff ->
  soff + i + Z.of_nat k <= zlen src -> doff + i + Z.of_nat k <= zlen dst0 ->
  slice src soff i = Some d -> splice dst0 doff d = Some dst ->
  exists d' dst', slice src soff (i + Z.of_nat k) = Some d' /\
    splice dst0 doff d' = Some dst' /\
    memcpy_bytes k i dst doff src soff = Done dst'.
Proof.
  induction k as [|k IH]; intros i dst doff src soff dst0 d Hi Hs Hd Hls Hld Ha Hb.
  - exists d, dst. rewrite Z.add_0_r. done.
  - destruct (copy_step dst dst0 doff src soff i 1 d)
      as (e & dst1 & d1 & H1 & H2 & H3 & H4); try done; try lia.
    cbn [memcpy_bytes]. rewrite H1. cbn [mbind outcome_bind deref]. rewrite H2.
    cbn [mbind outcome_bind deref].
    destruct (IH (i + 1) dst1 doff src soff dst0 d1) as (d' & dst' & ? & ? & ?);
      try lia; try done.
    exists d', dst'. split_and!; try done.
    by replace (i + Z.of_nat (S k)) with (i + 1 + Z.of_nat k) by lia.
Qed.

(** memcpy copies exactly the first [memcpy_len bytes] bytes of the source. *)
Lemma memcpy_spec (dst : list Z) doff (src : list Z) soff n :
  0 <= n -> 0 <= doff -> 0 <= soff ->
  soff + n <= zlen src -> doff + n <= zlen dst ->
  exists d dst', slice src soff (memcpy_len n) = Some d /\
    splice dst doff d = Some dst' /\ memcpy dst doff src soff n = Done dst'.
Proof.
  intros Hn Hd Hs Hls Hld. unfold memcpy.
  pose proof (Z.div_mod n 8 ltac:(lia)) as Hdm.
  pose proof (Z.mod_pos_bound n 8 ltac:(lia)) as Hm.
  assert (0 <= n / 8) as Hq by (apply Z.div_pos; lia).
  destruct (memcpy_words_spec (Z.to_nat (n / 8)) 0 dst doff src soff dst [])
    as (d & dst1 & H1 & H2 & H3); try lia.
  { rewrite slice_ok by lia. done. }
  { apply splice_nil. lia. }
  rewrite H3. cbn [mbind outcome_bind].
  rewrite Z2Nat.id, Z.add_0_l in H1 by lia.
  replace (8 * (n / 8)) with (n / 8 * 8) in H1 by lia.
  destruct (memcpy_bytes_spec (Z.to_nat (n - n / 8 * 8 - n / 8 * 8)) (n / 8 * 8)
              dst1 doff src soff dst d) as (d' & dst' & H1' & H2' & H3'); try lia; try done.
  exists d', dst'. split_and!; try done.
  rewrite <- H1'. f_equal. unfold memcpy_len.
  destruct (Z.ltb_spec n 8); [|lia].
  rewrite Z.div_small by lia. lia.
Qed.

(** memcpy copies the bytes it is asked for when there are fewer than eight,
    and otherwise the whole words only; nothing else of the destination changes. *)
Theorem memcpy_copies_words (dst : list Z) doff (src : list Z) soff n :
  0 <= n -> 0 <= doff -> 0 <= soff -> soff + n <= zlen src -> doff + n <= zlen dst ->
  exists dst', memcpy dst doff src soff n = Done dst' /\ length dst' = length dst /\
    (forall j, 0 <= j < memcpy_len n -> nthZ dst' (doff + j) = nthZ src (soff + j)) /\
    (forall j, 0 <= j < zlen dst -> ~ (doff <= j < doff + memcpy_len n) ->
       nthZ dst' j = nthZ dst j).
Proof.
  intros Hn Hd Hs Hls Hld. pose proof (memcpy_len_bounds n Hn) as Hb.
  destruct (memcpy_spec dst doff src soff n) as (d & dst' & Hd1 & Hd2 & E); try done.
  pose proof (slice_length _ _ _ _ Hd1) as Ld. pose proof (splice_length _ _ _ _ Hd2) as Ld'.
  exists dst'. split_and!; [done|lia|..]; intros j Hj.
  - rewrite (splice_nth _ _ _ _ _ Hd2), decide_True by lia.
    rewrite (slice_nth _ _ _ _ _ Hd1) by lia. f_equal. lia.
  - intros Hout. rewrite (splice_nth _ _ _ _ _ Hd2), decide_False by lia. done.
Qed.

Lemma memcpy_copies_words_witness :
  exists dst', memcpy (replicate 12 0) 0 (replicate 12 7) 0 12 = Done dst' /\
    nthZ dst' 7 = 7 /\ nthZ dst' 8 = 0.
Proof.
  destruct (memcpy_copies_words (replicate 12 0) 0 (replicate 12 7) 0 12)
    as (dst' & E & _ & Hc & Hk); [cbn; lia..|].
  exists dst'. split; [exact E|]. split.
  - exact (Hc 7 ltac:(done)).
  - apply (Hk 8); [done|]. vm_compute. intros [_ Hx]. discriminate Hx.
Defined.

End Cpu.
