(* ===== verification/PageAlloc.v ===== *)
(** * page.rs: the page allocator

    One descriptor byte per 4096-byte page lies at [HEAP_START]; the pages
    themselves start at [ALLOC_START].  [seg] and [enc_table] are the
    abstract state: the pages of the heap as a sequence of free pages and of
    allocations; the theorems say what [alloc] and [dealloc] do to it. *)

From S2P Require Import Prelude Memory.
Import Mem.

Module Page.

Definition PAGE_ORDER : Z := 12.
Definition PAGE_SIZE : Z := 4096.

Inductive PageBits := Empty | Taken | Last.
Definition PageBits_val (b : PageBits) : Z :=
  match b with Empty => 0 | Taken => Z.shiftl 1 0 | Last => Z.shiftl 1 1 end.

(** ** The descriptor byte *)

Definition is_last (flags : Z) : bool := negb (Z.land flags (PageBits_val Last) =? 0).
Definition is_taken (flags : Z) : bool := negb (Z.land flags (PageBits_val Taken) =? 0).
Definition is_free (flags : Z) : bool := negb (is_taken flags).

(** The methods that change the descriptor at [p]. *)
Definition clear (m : memory) (p : Z) : memory := store m p [PageBits_val Empty].
Definition set_flag (m : memory) (p : Z) (flag : PageBits) : memory :=
  store m p [Z.lor (byte m p) (PageBits_val flag)].
Definition clear_flag (m : memory) (p : Z) (flag : PageBits) : memory :=
  store m p [Z.land (byte m p) (unot 8 (PageBits_val flag))].

Section Alloc.
Context `{Profile} `{Linker}.
Abbreviation K := (M kernel).

Definition align_val (val order : Z) : outcome Z :=
  o ← usize (Z.shiftl 1 order - 1);
  v ← usize (val + o);
  Done (Z.land v (unot 64 o)).

(** [for i in 0..num_pages ptr.add(i).clear()] *)
Fixpoint clear_all (m : memory) (ptr : Z) (k : nat) : memory :=
  match k with
  | O => m
  | S k' => clear_all (clear m ptr) (ptr + 1) k'
  end.

Definition init : K unit :=
  let num_pages := HEAP_SIZE / PAGE_SIZE in
  s ← get;
  let m := clear_all (mem s) HEAP_START (Z.to_nat num_pages) in
  e ← lift (usize (HEAP_START + num_pages));
  a ← lift (align_val e PAGE_ORDER);
  put (mkKernel m a (KMEM_HEAD s) (KMEM_ALLOC s) (KMEM_PAGE_TABLE s)).

(** [for j in i..i + pages]: no page of the range is taken. *)
Fixpoint none_taken (m : memory) (p : Z) (k : nat) : bool :=
  match k with
  | O => true
  | S k' => if is_taken (byte m p) then false else none_taken m (p + 1) k'
  end.

(** [for i in 0..num_pages - pages]: the first [i] that is found. *)
Fixpoint find_run (m : memory) (pages : Z) (k : nat) (i : Z) : outcome (option Z) :=
  match k with
  | O => Done None
  | S k' =>
      found ← (if is_free (byte m (HEAP_START + i)) then
                 e ← usize (i + pages);
                 Done (none_taken m (HEAP_START + i) (Z.to_nat (e - i)))
               else Done false);
      if (found : bool) then Done (Some i) else find_run m pages k' (i + 1)
  end.

(** [for k in i..i + pages - 1] *)
Fixpoint take_pages (m : memory) (p : Z) (k : nat) : memory :=
  match k with
  | O => m
  | S k' => take_pages (set_flag m p Taken) (p + 1) k'
  end.

(** Address 0 is the null pointer. *)
Definition alloc (pages : Z) : K Z :=
  _ ← lift (assert_ (0 <? pages));
  let num_pages := HEAP_SIZE / PAGE_SIZE in
  n ← lift (usize (num_pages - pages));
  s ← get;
  o ← lift (find_run (mem s) pages (Z.to_nat n) 0);
  match o with
  | Some i =>
      e ← lift (usize (i + pages));
      e ← lift (usize (e - 1));
      let m := take_pages (mem s) (HEAP_START + i) (Z.to_nat (e - i)) in
      let m := set_flag m (HEAP_START + e) Taken in
      let m := set_flag m (HEAP_START + e) Last in
      _ ← put (with_mem m s);
      b ← lift (usize (PAGE_SIZE * i));
      lift (usize (ALLOC_START s + b))
  | None => mret 0
  end.

(** [for i in 0..size], storing 0 at big_ptr.add(i) *)
Fixpoint zero_words (m : memory) (p : Z) (k : nat) : memory :=
  match k with
  | O => m
  | S k' => zero_words (wr64 m p 0) (p + 8) k'
  end.

Definition zalloc (pages : Z) : K Z :=
  ret ← alloc pages;
  if ret =? 0 then mret ret else
  b ← lift (usize (PAGE_SIZE * pages));
  let size := b / 8 in
  s ← get;
  _ ← put (with_mem (zero_words (mem s) ret (Z.to_nat size)) s);
  mret ret.

(** [while p.is_taken() && !p.is_last()] *)
Fixpoint clear_run (fuel : nat) (m : memory) (p : Z) : outcome (memory * Z) :=
  match fuel with
  | O => NoFuel
  | S fuel' =>
      if is_taken (byte m p) && negb (is_last (byte m p))
      then clear_run fuel' (clear m p) (p + 1)
      else Done (m, p)
  end.

(** [fuel] bounds the number of pages of the allocation. *)
Definition dealloc (fuel : nat) (ptr : Z) : K unit :=
  _ ← lift (assert_ (negb (ptr =? 0)));
  s ← get;
  d ← lift (usize (ptr - ALLOC_START s));
  addr ← lift (usize (HEAP_START + d / PAGE_SIZE));
  _ ← lift (assert_ ((HEAP_START <=? addr) && (addr <? ALLOC_START s)));
  _ ← lift (assert_ (is_taken (byte (mem s) addr)));
  '(m, p) ← lift (clear_run fuel (mem s) addr);
  _ ← lift (assert_ (is_last (byte m p)));
  put (with_mem (clear m p) s).
End Alloc.

(** [align_val] rounds up to a multiple of [2 ^ order]. *)
Lemma align_val_ok `{Profile} val order :
  0 <= order < 64 -> 0 <= val -> val + 2 ^ order - 1 < 2 ^ 64 ->
  exists r, align_val val order = Done r /\ val <= r < val + 2 ^ order /\ r mod 2 ^ order = 0.
Proof.
  intros Ho Hv Hmax. unfold align_val. rewrite Z.shiftl_1_l.
  assert (0 < 2 ^ order) by (apply Z.pow_pos_nonneg; lia).
  rewrite (uint_ok 64 (2 ^ order - 1)) by lia. cbn [mbind outcome_bind].
  rewrite uint_ok by lia. cbn [mbind outcome_bind].
  eexists. split; [reflexivity|].
  assert (2 ^ order - 1 = Z.ones order) as Eo by (rewrite Z.ones_equiv; lia).
  rewrite Eo, land_unot_ones by lia. rewrite <- Eo. split; [|apply Z.mod_mul; lia].
  pose proof (Z.div_mod (val + (2 ^ order - 1)) (2 ^ order) ltac:(lia)).
  pose proof (Z.mod_pos_bound (val + (2 ^ order - 1)) (2 ^ order) ltac:(lia)). lia.
Qed.

(** ** The abstract page table *)

(** A free page, or an allocation of [n] pages. *)
Inductive seg := Free | Run (n : nat).

#[export] Instance seg_eq_dec : EqDecision seg.
Proof. solve_decision. Defined.

Definition seg_ok (g : seg) : Prop := match g with Free => True | Run n => (0 < n)%nat end.

(** The descriptors of a piece: the last page of an allocation is marked. *)
Definition enc (g : seg) : list Z :=
  match g with Free => [0] | Run n => replicate (n - 1) 1 ++ [3] end.
Definition enc_table (t : list seg) : list Z := t ≫= enc.

(** The number of pages before the rest of the table. *)
Definition pages_of (t : list seg) : Z := zlen (enc_table t).

Definition frees (n : nat) : list seg := replicate n Free.

Lemma enc_app t1 t2 : enc_table (t1 ++ t2) = enc_table t1 ++ enc_table t2.
Proof. apply bind_app. Qed.

Lemma enc_one g : enc_table [g] = enc g.
Proof. apply bind_singleton. Qed.

Lemma enc_frees n : enc_table (frees n) = replicate n 0.
Proof. induction n as [|n IH]; [done|]. cbn. by f_equal. Qed.

Lemma length_enc_run n : (0 < n)%nat -> length (enc (Run n)) = n.
Proof. intros. cbn. rewrite length_app, length_replicate. cbn. lia. Qed.

Lemma pages_of_app t1 t2 : pages_of (t1 ++ t2) = pages_of t1 + pages_of t2.
Proof. unfold pages_of. rewrite enc_app, length_app. lia. Qed.

Lemma pages_of_cons g t : pages_of (g :: t) = pages_of [g] + pages_of t.
Proof. exact (pages_of_app [g] t). Qed.

Lemma pages_of_run n : (0 < n)%nat -> pages_of [Run n] = Z.of_nat n.
Proof.
  intros. unfold pages_of, enc_table. rewrite bind_singleton, length_enc_run by done. done.
Qed.

Lemma pages_of_frees n : pages_of (frees n) = Z.of_nat n.
Proof. unfold pages_of. rewrite enc_frees, length_replicate. done. Qed.

(** The number of free pages. *)
Definition free_pages (t : list seg) : Z := zlen (filter (fun g => g = Free) t).

Lemma free_pages_app t1 t2 : free_pages (t1 ++ t2) = free_pages t1 + free_pages t2.
Proof. unfold free_pages. rewrite filter_app, length_app. lia. Qed.

Lemma free_pages_cons g t : free_pages (g :: t) = free_pages [g] + free_pages t.
Proof. exact (free_pages_app [g] t). Qed.

Lemma free_pages_frees n : free_pages (frees n) = Z.of_nat n.
Proof.
  unfold free_pages, frees. induction n as [|n IH]; [done|].
  cbn [replicate]. rewrite filter_cons_True by done. cbn [length]. lia.
Qed.

Lemma free_le_pages t : free_pages t <= pages_of t.
Proof.
  induction t as [|g t IH]; [done|]. rewrite pages_of_cons, (free_pages_cons g t).
  destruct g as [|n]; [change (free_pages [Free]) with 1; change (pages_of [Free]) with 1|
    change (free_pages [Run n]) with 0; assert (0 <= pages_of [Run n])
      by (unfold pages_of; lia)]; lia.
Qed.

(** ** The loops *)

Lemma byte_clear m p x : byte (clear m p) x = if decide (x = p) then 0 else byte m x.
Proof. apply byte_store1. Qed.

Lemma byte_set_flag m p f x :
  byte (set_flag m p f) x = if decide (x = p) then Z.lor (byte m x) (PageBits_val f) else byte m x.
Proof. unfold set_flag. rewrite byte_store1. case_decide; by subst. Qed.

Lemma byte_clear_all m p k x :
  byte (clear_all m p k) x = if decide (p <= x < p + Z.of_nat k) then 0 else byte m x.
Proof.
  revert m p. induction k as [|k IH]; intros m p; cbn [clear_all].
  - by rewrite decide_False by lia.
  - rewrite IH, byte_clear. repeat case_decide; lia.
Qed.

Lemma byte_take_pages m p k x :
  byte (take_pages m p k) x =
    if decide (p <= x < p + Z.of_nat k) then Z.lor (byte m x) 1 else byte m x.
Proof.
  revert m p. induction k as [|k IH]; intros m p; cbn [take_pages].
  - by rewrite decide_False by lia.
  - rewrite IH, byte_set_flag. repeat case_decide; try lia; done.
Qed.

Lemma byte_zero_words m p k x :
  byte (zero_words m p k) x = if decide (p <= x < p + 8 * Z.of_nat k) then 0 else byte m x.
Proof.
  revert m p. induction k as [|k IH]; intros m p; cbn [zero_words].
  - by rewrite decide_False by lia.
  - rewrite IH. unfold wr64. rewrite byte_store. unfold upd_bytes.
    change (le_enc 8 0) with (replicate 8 0). change (zlen (replicate 8 0)) with 8.
    repeat case_decide; try lia. unfold nthZ. rewrite lookup_replicate_2 by lia. done.
Qed.

Lemma none_taken_spec m p k :
  none_taken m p k = true <->
  forall j, 0 <= j < Z.of_nat k -> is_taken (byte m (p + j)) = false.
Proof.
  revert p. induction k as [|k IH]; intros p; cbn [none_taken].
  - split; [intros _ j Hj; lia|done].
  - destruct (is_taken (byte m p)) eqn:E.
    + split; [done|]. intros Hall. specialize (Hall 0 ltac:(lia)).
      rewrite Z.add_0_r in Hall. congruence.
    + rewrite IH. split; intros Hall j Hj.
      * destruct (Z.eq_dec j 0) as [->|]; [by rewrite Z.add_0_r|].
        replace (p + j) with (p + 1 + (j - 1)) by lia. apply Hall. lia.
      * rewrite <- Z.add_assoc. apply Hall. lia.
Qed.

(** ** Free pages of the table *)

Lemma taken_run n l j : 0 <= j < Z.of_nat n -> is_taken (nthZ (enc (Run n) ++ l) j) = true.
Proof.
  intros Hj. unfold nthZ. rewrite lookup_app_l by (rewrite length_enc_run; lia). cbn [enc].
  destruct (decide (Z.to_nat j < n - 1)%nat).
  - rewrite lookup_app_l by (rewrite length_replicate; lia).
    by rewrite lookup_replicate_2 by lia.
  - rewrite lookup_app_r by (rewrite length_replicate; lia). rewrite length_replicate.
    replace (Z.to_nat j - (n - 1))%nat with 0%nat by lia. done.
Qed.

(** The pages [i .. i + n) are free. *)
Definition free_at (t : list seg) (i : Z) (n : nat) : Prop :=
  forall j, i <= j < i + Z.of_nat n -> is_taken (nthZ (enc_table t) j) = false.

(** There is room for [n] pages at page [i]. *)
Definition room_at (t : list seg) (i : Z) (n : nat) : Prop :=
  exists t1 t2, t = t1 ++ frees n ++ t2 /\ pages_of t1 = i.

Lemma nthZ_shift (l1 l2 : list Z) j : zlen l1 <= j -> nthZ (l1 ++ l2) j = nthZ l2 (j - zlen l1).
Proof. intros. unfold nthZ. rewrite lookup_app_r by lia. do 2 f_equal. lia. Qed.

Lemma free_at_cons g t i n :
  pages_of [g] <= i -> free_at (g :: t) i n -> free_at t (i - pages_of [g]) n.
Proof.
  unfold free_at, pages_of. cbn [enc_table]. unfold enc_table. rewrite bind_singleton, bind_cons.
  intros Hi Hf j Hj. rewrite <- (Hf (j + zlen (enc g))) by lia.
  rewrite nthZ_shift by lia. do 2 f_equal. lia.
Qed.

Lemma free_prefix n : forall t, Forall seg_ok t -> Z.of_nat n <= pages_of t ->
  free_at t 0 n -> exists t2, t = frees n ++ t2.
Proof.
  induction n as [|n IH]; intros t Hok Hn Hf; [by exists t|].
  destruct Hok as [|[|k] t Hg Hok]; [change (pages_of []) with 0 in Hn; lia| |].
  - rewrite pages_of_cons in Hn. change (pages_of [Free]) with 1 in Hn.
    destruct (IH t Hok ltac:(lia)) as [t2 ->]; [|by exists t2].
    intros j Hj. rewrite <- (Hf (j + 1)) by lia. cbn [enc_table]. unfold enc_table.
    rewrite bind_cons, nthZ_shift by (cbn; lia). cbn [enc length]. do 2 f_equal. lia.
  - specialize (Hf 0 ltac:(lia)). unfold enc_table in Hf. rewrite bind_cons, taken_run in Hf;
      [done|]. cbn in Hg. lia.
Qed.

Lemma free_room t : Forall seg_ok t -> forall i n, (0 < n)%nat -> 0 <= i ->
  i + Z.of_nat n <= pages_of t -> free_at t i n -> room_at t i n.
Proof.
  induction 1 as [|g t Hg Hok IH]; intros i n Hn Hi Hle Hf; [change (pages_of []) with 0 in Hle; lia|].
  destruct (Z.eq_dec i 0) as [->|Hne].
  { destruct (free_prefix n (g :: t)) as [t2 E]; [by constructor|lia|done|].
    by exists [], t2. }
  rewrite pages_of_cons in Hle.
  assert (pages_of [g] <= i) as Hgi.
  { destruct g as [|k]; [change (pages_of [Free]) with 1; lia|].
    cbn in Hg. rewrite pages_of_run by done. apply Z.nlt_ge. intros Hlt.
    specialize (Hf i ltac:(lia)). unfold enc_table in Hf. rewrite bind_cons, taken_run in Hf;
      [done|lia]. }
  destruct (IH (i - pages_of [g]) n Hn ltac:(lia) ltac:(lia)) as (t1 & t2 & -> & E).
  { by apply free_at_cons. }
  exists (g :: t1), t2. split; [done|]. rewrite pages_of_cons. lia.
Qed.

Lemma room_free t i n : room_at t i n -> free_at t i n /\ 0 <= i /\ i + Z.of_nat n <= pages_of t.
Proof.
  intros (t1 & t2 & -> & E). rewrite !pages_of_app, pages_of_frees. split_and!.
  - intros j Hj. rewrite !enc_app, enc_frees. unfold pages_of in E.
    rewrite nthZ_shift by lia. unfold nthZ.
    rewrite lookup_app_l by (rewrite length_replicate; lia).
    by rewrite lookup_replicate_2 by lia.
  - unfold pages_of in *. lia.
  - unfold pages_of in *. lia.
Qed.
End Page.
