(* ===== verification/PageProps.v ===== *)
(** * The page allocator against its abstract table *)

From S2P Require Import Prelude Memory PageAlloc.
Import Mem Page.

Module PageProps.
Section Props.
Context `{Profile} `{Linker}.

Abbreviation num_pages := (HEAP_SIZE / PAGE_SIZE).

(** The descriptors describe the table [t]; they end before the pages. *)
Record page_ok (s : kernel) (t : list seg) : Prop := {
  tbl_flags : holds (mem s) HEAP_START (enc_table t);
  tbl_segs : Forall seg_ok t;
  tbl_len : pages_of t = num_pages;
  tbl_below : HEAP_START + num_pages <= ALLOC_START s;
  tbl_max : ALLOC_START s + PAGE_SIZE * num_pages < 2 ^ 64;
  tbl_pos : 0 < HEAP_START;
}.

(** The address of a page. *)
Definition page_addr (s : kernel) (i : Z) : Z := ALLOC_START s + PAGE_SIZE * i.

Lemma find_run_ok m pages : forall k i,
  0 < pages -> 0 <= i -> i + Z.of_nat k + pages < 2 ^ 64 ->
  let run j := none_taken m (HEAP_START + j) (Z.to_nat pages) = true in
  exists o, find_run m pages k i = Done o /\
  match o with
  | Some r => i <= r < i + Z.of_nat k /\ run r /\ forall j, i <= j < r -> ~ run j
  | None => forall j, i <= j < i + Z.of_nat k -> ~ run j
  end.
Proof.
  induction k as [|k IH]; intros i Hp Hi Hb run; cbn [find_run].
  { exists None. split; [done|]. intros j Hj. lia. }
  set (found := none_taken m (HEAP_START + i) (Z.to_nat pages)).
  assert ((if is_free (byte m (HEAP_START + i)) then
             e ← usize (i + pages);
             Done (none_taken m (HEAP_START + i) (Z.to_nat (e - i)))
           else Done false) = Done found) as ->.
  { unfold is_free. destruct (is_taken (byte m (HEAP_START + i))) eqn:E; cbn [negb].
    - unfold found. replace (Z.to_nat pages) with (S (Z.to_nat (pages - 1))) by lia.
      cbn [none_taken]. by rewrite E.
    - rewrite uint_ok by lia. cbn [mbind outcome_bind]. by rewrite Z.add_simpl_l. }
  cbn [mbind outcome_bind]. destruct found eqn:Ef.
  - exists (Some i). split; [done|]. split_and!; [lia|lia|done|]. intros j Hj. lia.
  - assert (~ run i) as Hni by (unfold run; fold found; by rewrite Ef).
    destruct (IH (i + 1) Hp ltac:(lia) ltac:(lia)) as (o & E & Ho).
    exists o. split; [done|]. destruct o as [r|].
    + destruct Ho as (Hr & Hrun & Hfirst). split_and!; try done; try lia.
      intros j Hj. destruct (Z.eq_dec j i) as [->|]; [done|]. apply Hfirst. lia.
    + intros j Hj. destruct (Z.eq_dec j i) as [->|]; [done|]. apply Ho. lia.
Qed.

(** The descriptors tell where there is room. *)
Lemma none_taken_room s t i n :
  page_ok s t -> (0 < n)%nat -> 0 <= i -> i + Z.of_nat n <= num_pages ->
  none_taken (mem s) (HEAP_START + i) n = true <-> room_at t i n.
Proof.
  intros [Hh Hok Hlen _ _ _] Hn Hi Hle. rewrite none_taken_spec. split.
  - intros Hf. apply free_room; try done; [by rewrite Hlen|]. intros j Hj.
    rewrite <- (Hf (j - i)) by lia. unfold pages_of in Hlen.
    rewrite <- (Hh j) by lia. do 2 f_equal. lia.
  - intros Hr j Hj. apply room_free in Hr as (Hf & _ & _). unfold pages_of in Hlen.
    rewrite <- Z.add_assoc, Hh by lia. apply Hf. lia.
Qed.

(** Replacing the descriptors of a stretch of the table. *)
Lemma page_ok_upd s t1 g g' t2 m :
  page_ok s (t1 ++ g ++ t2) -> Forall seg_ok g' -> pages_of g' = pages_of g ->
  (forall x, byte m x = upd_bytes (byte (mem s)) (HEAP_START + pages_of t1) (enc_table g') x) ->
  page_ok (with_mem m s) (t1 ++ g' ++ t2).
Proof.
  intros [Hh Hok Hlen Hb Hm Hp] Hg' Hl Hu. split; cbn [mem with_mem ALLOC_START]; try done.
  - rewrite !enc_app, !holds_app in Hh |- *. destruct Hh as (H1 & _ & H2).
    unfold pages_of in *. split_and!.
    + eapply holds_frame; [|exact H1]. intros x Hx. rewrite Hu. unfold upd_bytes.
      by rewrite decide_False by lia.
    + by eapply holds_upd.
    + rewrite Hl. eapply holds_frame; [|exact H2]. intros x Hx. rewrite Hu. unfold upd_bytes.
      by rewrite decide_False by lia.
  - rewrite !Forall_app in *. tauto.
  - rewrite !pages_of_app in *. lia.
Qed.

Lemma lookup_enc_run n j :
  (0 < n)%nat -> 0 <= j < Z.of_nat n ->
  nthZ (enc (Run n)) j = if decide (j = Z.of_nat n - 1) then 3 else 1.
Proof.
  intros Hn Hj. unfold nthZ. cbn [enc]. case_decide.
  - rewrite lookup_app_r by (rewrite length_replicate; lia). rewrite length_replicate.
    replace (Z.to_nat j - (n - 1))%nat with 0%nat by lia. done.
  - rewrite lookup_app_l by (rewrite length_replicate; lia).
    by rewrite lookup_replicate_2 by lia.
Qed.

(** Marking free pages writes the descriptors of an allocation. *)
Lemma mark_run m p n x :
  (0 < n)%nat -> (forall j, 0 <= j < Z.of_nat n -> byte m (p + j) = 0) ->
  let e := p + Z.of_nat n - 1 in
  byte (set_flag (set_flag (take_pages m p (n - 1)) e Taken) e Last) x =
    upd_bytes (byte m) p (enc (Run n)) x.
Proof.
  intros Hn Hz e. rewrite !byte_set_flag, byte_take_pages. unfold upd_bytes.
  rewrite length_enc_run by done.
  destruct (decide (p <= x < p + Z.of_nat n)) as [Hx|Hx].
  - rewrite lookup_enc_run by lia.
    assert (byte m x = 0) as E by (rewrite <- (Hz (x - p)) by lia; f_equal; lia).
    rewrite E. unfold e in *. repeat case_decide; try lia; done.
  - unfold e in *. repeat case_decide; try lia; done.
Qed.

Lemma room_zero s t t1 n t2 :
  page_ok s t -> t = t1 ++ frees n ++ t2 ->
  forall j, 0 <= j < Z.of_nat n -> byte (mem s) (HEAP_START + pages_of t1 + j) = 0.
Proof.
  intros [Hh _ _ _ _ _] -> j Hj. rewrite !enc_app, !holds_app, enc_frees in Hh.
  destruct Hh as (_ & Hh & _). unfold pages_of. rewrite Hh by (rewrite length_replicate; lia).
  unfold nthZ. by rewrite lookup_replicate_2 by lia.
Qed.

Lemma run_pos s t1 n t2 : page_ok s (t1 ++ [Run n] ++ t2) -> (0 < n)%nat.
Proof.
  intros Hok. pose proof (tbl_segs _ _ Hok) as Hs. rewrite !Forall_app in Hs.
  destruct Hs as (_ & Hg & _). by inversion Hg.
Qed.

(** The table after a stretch of free pages was marked. *)
Lemma take_room_ok s t1 n t2 m :
  page_ok s (t1 ++ frees n ++ t2) -> (0 < n)%nat ->
  (forall x, byte m x = upd_bytes (byte (mem s)) (HEAP_START + pages_of t1) (enc (Run n)) x) ->
  page_ok (with_mem m s) (t1 ++ [Run n] ++ t2).
Proof.
  intros Hok Hn Hm. eapply page_ok_upd; [exact Hok|by repeat constructor| |].
  - by rewrite pages_of_run, pages_of_frees.
  - intros x. by rewrite Hm, enc_one.
Qed.

(** An allocation and a stretch of free pages do not overlap. *)
Lemma run_room_disjoint t t1 k t2 i n :
  t = t1 ++ [Run k] ++ t2 -> room_at t i n -> (0 < k)%nat -> (0 < n)%nat ->
  pages_of t1 + Z.of_nat k <= i \/ i + Z.of_nat n <= pages_of t1.
Proof.
  intros Et (Hf & _ & _)%room_free Hk Hn.
  destruct (Z.le_gt_cases (pages_of t1 + Z.of_nat k) i) as [|H1']; [by left|].
  destruct (Z.le_gt_cases (i + Z.of_nat n) (pages_of t1)) as [|H2']; [by right|].
  exfalso. specialize (Hf (Z.max (pages_of t1) i) ltac:(lia)).
  rewrite Et, !enc_app, nthZ_shift in Hf by (unfold pages_of; lia).
  rewrite enc_one, taken_run in Hf; [done|]. unfold pages_of in *. lia.
Qed.

(** The table does not depend on the heap's globals. *)
Lemma page_ok_globals s t h k pt :
  page_ok s t -> page_ok (mkKernel (mem s) (ALLOC_START s) h k pt) t.
Proof. by intros [Hh Hok Hlen Hb Hm Hp]. Qed.

(** [alloc] on the abstract table: the first room that is not at the very
    end, or no change. *)
Lemma alloc_ok s t n :
  page_ok s t -> (0 < n)%nat -> Z.of_nat n <= num_pages ->
  (alloc (Z.of_nat n) s = Done (0, s) /\
   forall i, i + Z.of_nat n < num_pages -> ~ room_at t i n) \/
  (exists t1 t2 m, t = t1 ++ frees n ++ t2 /\ pages_of t1 + Z.of_nat n < num_pages /\
     alloc (Z.of_nat n) s = Done (page_addr s (pages_of t1), with_mem m s) /\
     (forall x, byte m x =
        upd_bytes (byte (mem s)) (HEAP_START + pages_of t1) (enc (Run n)) x) /\
     forall i, i < pages_of t1 -> ~ room_at t i n).
Proof.
  intros Hok Hn Hle. pose proof Hok as [_ _ Hlen Hb Hm Hp].
  assert (0 <= num_pages) by (rewrite <- Hlen; unfold pages_of; lia).
  assert (num_pages < 2 ^ 64) by (unfold PAGE_SIZE in *; lia).
  unfold alloc. erewrite bind_done by (apply lift_done, assert_true, Z.ltb_lt; lia).
  erewrite bind_done by (apply lift_done, uint_ok; lia).
  erewrite bind_done by reflexivity.
  destruct (find_run_ok (mem s) (Z.of_nat n) (Z.to_nat (num_pages - Z.of_nat n)) 0)
    as (o & E & Ho); [lia..|].
  erewrite bind_done by (apply lift_done, E). rewrite Nat2Z.id in Ho.
  destruct o as [i|].
  - right. destruct Ho as (Hi & Hrun & Hfirst).
    apply (none_taken_room s t i n Hok) in Hrun as (t1 & t2 & Et & <-); try lia.
    do 2 erewrite bind_done by (apply lift_done, uint_ok; lia).
    replace (Z.to_nat (pages_of t1 + Z.of_nat n - 1 - pages_of t1)) with (n - 1)%nat by lia.
    erewrite bind_done by reflexivity.
    erewrite bind_done by (apply lift_done, uint_ok; unfold PAGE_SIZE in *; lia).
    eexists t1, t2, _. split; [done|]. split; [lia|].
    split; [unfold page_addr; apply lift_done, uint_ok; unfold PAGE_SIZE in *; lia|].
    split.
    + intros x. rewrite <- (mark_run (mem s) (HEAP_START + pages_of t1) n x Hn).
      * cbv zeta. do 2 f_equal; [f_equal|]; lia.
      * by eapply room_zero.
    + intros j Hj Hr. pose proof (room_free _ _ _ Hr) as (_ & Hj0 & _).
      apply (Hfirst j); [lia|]. by apply (none_taken_room s t j n Hok); try lia.
  - left. split; [done|]. intros i Hi Hr. pose proof (room_free _ _ _ Hr) as (_ & Hi0 & _).
    apply (Ho i); [lia|]. by apply (none_taken_room s t i n Hok); try lia.
Qed.

Lemma clear_run_ok n : forall m p fuel, (n < fuel)%nat -> holds m p (enc (Run (S n))) ->
  exists m', clear_run fuel m p = Done (m', p + Z.of_nat n) /\
    forall x, byte m' x = if decide (p <= x < p + Z.of_nat n) then 0 else byte m x.
Proof.
  induction n as [|n IH]; intros m p [|fuel] Hf Hh; try lia; cbn [clear_run].
  - apply holds_cons in Hh as [-> _]. exists m. rewrite Z.add_0_r. split; [done|].
    intros x. by rewrite decide_False by lia.
  - apply holds_cons in Hh as [Eb Hh]. rewrite Eb. cbn [is_taken is_last negb andb Z.land].
    destruct (IH (clear m p) (p + 1) fuel ltac:(lia)) as (m' & E & Hm').
    { unfold enc. replace (S n - 1)%nat with n by lia.
      eapply holds_frame; [|exact Hh].
      intros x Hx. rewrite byte_clear. by rewrite decide_False by lia. }
    exists m'. change (is_taken 1 && negb (is_last 1)) with true. cbn iota.
    rewrite E. split; [do 2 f_equal; lia|].
    intros x. rewrite Hm', byte_clear. repeat case_decide; lia.
Qed.

(** [dealloc] on the abstract table: any address in the first page of an
    allocation frees all of its pages. *)
Lemma dealloc_ok s t1 n t2 r fuel :
  page_ok s (t1 ++ [Run n] ++ t2) -> (n <= fuel)%nat -> 0 <= r < PAGE_SIZE ->
  exists m, dealloc fuel (page_addr s (pages_of t1) + r) s = Done (tt, with_mem m s) /\
    forall x, byte m x =
      upd_bytes (byte (mem s)) (HEAP_START + pages_of t1) (replicate n 0) x.
Proof.
  intros Hpage Hf Hr. pose proof (run_pos _ _ _ _ Hpage) as Hn.
  destruct Hpage as [Hh Hok Hlen Hb Hm Hp].
  rewrite !enc_app, !holds_app in Hh. destruct Hh as (_ & Hh & _).
  rewrite enc_one in Hh. fold (pages_of t1) in Hh.
  rewrite !pages_of_app, pages_of_run in Hlen by done.
  assert (0 <= pages_of t1 /\ 0 <= pages_of t2) as [Ht1 Ht2] by (unfold pages_of; lia).
  unfold dealloc, page_addr. unfold PAGE_SIZE in *.
  erewrite bind_done by (apply lift_done, assert_true; rewrite (proj2 (Z.eqb_neq _ _)) by lia; done).
  erewrite bind_done by reflexivity.
  erewrite bind_done by (apply lift_done, uint_ok; lia).
  replace ((ALLOC_START s + 4096 * pages_of t1 + r - ALLOC_START s) / 4096) with (pages_of t1)
    by (apply Z.div_unique with r; lia).
  erewrite bind_done by (apply lift_done, uint_ok; lia).
  erewrite bind_done by (apply lift_done, assert_true, andb_true_iff;
    split; [apply Z.leb_le|apply Z.ltb_lt]; lia).
  destruct n as [|n]; [lia|].
  assert (is_taken (byte (mem s) (HEAP_START + pages_of t1)) = true) as Htk.
  { rewrite <- (Z.add_0_r (_ + _)), Hh by (rewrite length_enc_run; lia).
    rewrite <- (app_nil_r (enc _)). apply taken_run. lia. }
  erewrite bind_done by (apply lift_done, assert_true, Htk).
  destruct (clear_run_ok n (mem s) (HEAP_START + pages_of t1) fuel ltac:(lia) Hh)
    as (m' & E & Hm').
  erewrite bind_done by (apply lift_done, E). cbn beta iota.
  assert (byte m' (HEAP_START + pages_of t1 + Z.of_nat n) = 3) as Hl.
  { rewrite Hm', decide_False by lia. rewrite Hh by (rewrite length_enc_run; lia).
    rewrite lookup_enc_run by lia. by rewrite decide_True by lia. }
  rewrite Hl. erewrite bind_done by reflexivity.
  eexists. split; [reflexivity|]. intros x. rewrite byte_clear, Hm'. unfold upd_bytes.
  rewrite length_replicate. unfold nthZ.
  repeat case_decide; try lia; rewrite lookup_replicate_2 by lia; done.
Qed.

(** The table after [init]. *)
Lemma init_ok s :
  0 < HEAP_START -> 0 <= HEAP_SIZE -> HEAP_START + 4096 + 2 * HEAP_SIZE < 2 ^ 64 ->
  exists m a, init s = Done (tt, mkKernel m a (KMEM_HEAD s) (KMEM_ALLOC s) (KMEM_PAGE_TABLE s)) /\
    HEAP_START + num_pages <= a < HEAP_START + num_pages + PAGE_SIZE /\
    a mod PAGE_SIZE = 0 /\
    forall x, byte m x =
      if decide (HEAP_START <= x < HEAP_START + num_pages) then 0 else byte (mem s) x.
Proof.
  intros Hp Hz Hmax. unfold PAGE_SIZE.
  assert (0 <= HEAP_SIZE / 4096 <= HEAP_SIZE) as Hn
    by (split; [apply Z.div_pos; lia|apply Z.div_le_upper_bound; lia]).
  unfold init, PAGE_SIZE. erewrite bind_done by reflexivity.
  erewrite bind_done by (apply lift_done, uint_ok; lia).
  destruct (align_val_ok (HEAP_START + HEAP_SIZE / 4096) 12) as (a & E & Ha & Hmod); [lia..|].
  unfold PAGE_ORDER. erewrite bind_done by (apply lift_done, E).
  eexists _, a. split; [reflexivity|]. split_and!; try lia.
  - done.
  - intros x. rewrite byte_clear_all, Z2Nat.id by lia. done.
Qed.

Lemma init_table m a h k pt :
  0 < HEAP_START -> 0 <= HEAP_SIZE -> HEAP_START + 4096 + 2 * HEAP_SIZE < 2 ^ 64 ->
  HEAP_START + num_pages <= a < HEAP_START + num_pages + PAGE_SIZE ->
  (forall x, HEAP_START <= x < HEAP_START + num_pages -> byte m x = 0) ->
  page_ok (mkKernel m a h k pt) (frees (Z.to_nat num_pages)).
Proof.
  intros Hp Hz Hmax Ha Hm. unfold PAGE_SIZE in *.
  pose proof (Z.div_pos HEAP_SIZE 4096 Hz ltac:(lia)).
  pose proof (Z.mul_div_le HEAP_SIZE 4096 ltac:(lia)).
  split; cbn [ALLOC_START mem]; unfold PAGE_SIZE; try lia.
  - rewrite enc_frees. intros j Hj. rewrite length_replicate in Hj.
    rewrite Hm by lia. unfold nthZ. by rewrite lookup_replicate_2 by lia.
  - by apply Forall_replicate.
  - rewrite pages_of_frees. lia.
Qed.

(** ** Theorems *)

(** After init every page is free, the descriptors lie between HEAP_START and
    ALLOC_START, and the pages are aligned; no other byte of memory changes. *)
Theorem init_all_free s :
  0 < HEAP_START -> 0 <= HEAP_SIZE -> HEAP_START + 4096 + 2 * HEAP_SIZE < 2 ^ 64 ->
  exists s', init s = Done (tt, s') /\ page_ok s' (frees (Z.to_nat num_pages)) /\
    ALLOC_START s' mod PAGE_SIZE = 0 /\
    ALLOC_START s' < HEAP_START + num_pages + PAGE_SIZE /\
    forall x, ~ (HEAP_START <= x < HEAP_START + num_pages) ->
      byte (mem s') x = byte (mem s) x.
Proof.
  intros Hp Hz Hmax. destruct (init_ok s Hp Hz Hmax) as (m & a & E & Ha & Hal & Hm).
  eexists. split; [exact E|]. cbn [ALLOC_START mem]. split_and!; try done; try lia.
  - apply init_table; try done. intros x Hx. rewrite Hm. by rewrite decide_True.
  - intros x Hx. rewrite Hm. by rewrite decide_False by done.
Qed.

(** C5: alloc n answers null, with memory untouched, only when no n adjacent pages
    below the last page of the heap are free; otherwise it takes the first such
    stretch, marks it as one allocation and returns the address of its first page.
    *)
Theorem alloc_first_fit s t n :
  page_ok s t -> (0 < n)%nat -> Z.of_nat n <= num_pages ->
  (alloc (Z.of_nat n) s = Done (0, s) /\
   forall i, i + Z.of_nat n < num_pages -> ~ room_at t i n) \/
  (exists t1 t2 s', t = t1 ++ frees n ++ t2 /\
     alloc (Z.of_nat n) s = Done (page_addr s (pages_of t1), s') /\
     page_ok s' (t1 ++ [Run n] ++ t2) /\
     (forall i, i < pages_of t1 -> ~ room_at t i n) /\
     forall x, ~ (HEAP_START <= x < HEAP_START + num_pages) ->
       byte (mem s') x = byte (mem s) x).
Proof.
  intros Hok Hn Hle. destruct (alloc_ok s t n Hok Hn Hle)
    as [|(t1 & t2 & m & -> & Hb & E & Hm & Hfirst)]; [by left|right].
  exists t1, t2, (with_mem m s). split_and!; try done.
  - by apply take_room_ok.
  - intros x Hx. cbn [mem with_mem]. rewrite Hm. unfold upd_bytes.
    rewrite length_enc_run by done. assert (0 <= pages_of t1) by (unfold pages_of; lia).
    by rewrite decide_False by lia.
Qed.

(** C23: The pages alloc hands out overlap no allocation that is in use. *)
Theorem alloc_disjoint_from_live s t n p s' :
  page_ok s t -> (0 < n)%nat -> Z.of_nat n <= num_pages ->
  alloc (Z.of_nat n) s = Done (p, s') -> p <> 0 ->
  forall t1 k t2, t = t1 ++ [Run k] ++ t2 ->
    page_addr s (pages_of t1) + PAGE_SIZE * Z.of_nat k <= p \/
    p + PAGE_SIZE * Z.of_nat n <= page_addr s (pages_of t1).
Proof.
  intros Hok Hn Hle E Hp t1 k t2 Et.
  destruct (alloc_ok s t n Hok Hn Hle) as [[E' _]|(u1 & u2 & m & Eu & _ & E' & _)];
    rewrite E' in E; injection E as <- <-; [done|].
  assert (0 < k)%nat as Hk by (rewrite Et in Hok; by eapply run_pos).
  destruct (run_room_disjoint t t1 k t2 (pages_of u1) n Et) as [|]; try done.
  - by exists u1, u2.
  - left. unfold page_addr, PAGE_SIZE. lia.
  - right. unfold page_addr, PAGE_SIZE. lia.
Qed.

(** dealloc of an address in the first page of an allocation returns and frees
    exactly the pages of that allocation; no other byte changes. *)
Theorem dealloc_frees_run s t1 n t2 r fuel :
  page_ok s (t1 ++ [Run n] ++ t2) -> (n <= fuel)%nat -> 0 <= r < PAGE_SIZE ->
  exists s', dealloc fuel (page_addr s (pages_of t1) + r) s = Done (tt, s') /\
    page_ok s' (t1 ++ frees n ++ t2) /\
    forall x, ~ (HEAP_START + pages_of t1 <= x < HEAP_START + pages_of t1 + Z.of_nat n) ->
      byte (mem s') x = byte (mem s) x.
Proof.
  intros Hok Hf Hr. destruct (dealloc_ok s t1 n t2 r fuel Hok Hf Hr) as (m & E & Hm).
  pose proof (run_pos _ _ _ _ Hok) as Hn.
  exists (with_mem m s). split_and!; [done| |].
  - eapply page_ok_upd; [exact Hok|by apply Forall_replicate| |].
    + by rewrite pages_of_run, pages_of_frees.
    + intros x. rewrite Hm. by rewrite enc_frees.
  - intros x Hx. cbn [mem with_mem]. rewrite Hm. unfold upd_bytes.
    rewrite length_replicate. by rewrite decide_False by lia.
Qed.

(** dealloc of what alloc returned undoes it: every byte of memory is as
    before. *)
Theorem alloc_dealloc_roundtrip s t n p s1 :
  page_ok s t -> (0 < n)%nat -> Z.of_nat n <= num_pages ->
  alloc (Z.of_nat n) s = Done (p, s1) -> p <> 0 ->
  exists s2, dealloc n p s1 = Done (tt, s2) /\ same (mem s2) (mem s).
Proof.
  intros Hok Hn Hle E Hp.
  destruct (alloc_ok s t n Hok Hn Hle) as [[E' _]|(t1 & t2 & m & Et & _ & E' & Hm & _)];
    rewrite E' in E; injection E as <- <-; [done|].
  assert (page_ok (with_mem m s) (t1 ++ [Run n] ++ t2)) as Hok1
    by (apply take_room_ok; [by rewrite <- Et|done|done]).
  destruct (dealloc_ok (with_mem m s) t1 n t2 0 n Hok1) as (m' & E & Hm'); [lia|done|].
  rewrite Z.add_0_r in E. eexists. split; [exact E|]. intros x. cbn [mem with_mem].
  rewrite Hm'. cbn [mem with_mem]. unfold upd_bytes. rewrite length_replicate, Hm.
  unfold upd_bytes. rewrite length_enc_run by done. case_decide as Hx; [|done].
  unfold nthZ. rewrite lookup_replicate_2 by lia. cbn.
  rewrite <- (room_zero s t t1 n t2 Hok Et (x - (HEAP_START + pages_of t1))) by lia.
  f_equal. lia.
Qed.

(** Zeroing pages leaves the table alone. *)
Lemma page_ok_above s t m :
  page_ok s t ->
  (forall x, x < ALLOC_START s -> byte m x = byte (mem s) x) -> page_ok (with_mem m s) t.
Proof.
  intros [Hh Hok Hlen Hb Hm Hp] Heq. split; try done.
  eapply holds_frame; [|exact Hh]. intros x Hx. apply Heq.
  unfold pages_of in Hlen. lia.
Qed.

Lemma zalloc_ok s t n p s1 :
  page_ok s t -> (0 < n)%nat -> Z.of_nat n <= num_pages ->
  alloc (Z.of_nat n) s = Done (p, s1) -> p <> 0 ->
  exists m t1 t2, zalloc (Z.of_nat n) s = Done (p, with_mem m s) /\
    t = t1 ++ frees n ++ t2 /\ page_ok (with_mem m s) (t1 ++ [Run n] ++ t2) /\
    p = page_addr s (pages_of t1) /\
    forall x, HEAP_START + num_pages <= x ->
      byte m x =
        if decide (p <= x < p + PAGE_SIZE * Z.of_nat n) then 0 else byte (mem s) x.
Proof.
  intros Hok Hn Hle E Hp.
  destruct (alloc_ok s t n Hok Hn Hle) as [[E' _]|(t1 & t2 & m & Et & Hlt & E' & Hm & _)];
    rewrite E' in E; injection E as <- <-; [done|].
  assert (page_ok (with_mem m s) (t1 ++ [Run n] ++ t2)) as Hok1
    by (apply take_room_ok; [by rewrite <- Et|done|done]).
  pose proof Hok as [_ _ _ Hb Hmax Hpos].
  assert (0 <= pages_of t1) as Ht1 by (unfold pages_of; lia).
  unfold zalloc. erewrite bind_done by exact E'.
  rewrite (proj2 (Z.eqb_neq _ _) Hp). unfold page_addr, PAGE_SIZE in *.
  erewrite bind_done by (apply lift_done, uint_ok; lia).
  erewrite bind_done by reflexivity. erewrite bind_done by reflexivity.
  replace (Z.to_nat (4096 * Z.of_nat n / 8)) with (512 * n)%nat
    by (replace (4096 * Z.of_nat n) with (512 * Z.of_nat n * 8) by lia;
        rewrite Z.div_mul by lia; lia).
  eexists _, t1, t2. split; [reflexivity|]. split; [done|]. split; [|split; [done|]].
  - apply (page_ok_above _ _ _ Hok1). intros x Hx. cbn [ALLOC_START mem with_mem] in *.
    rewrite byte_zero_words. by rewrite decide_False by lia.
  - intros x Hx. cbn [mem with_mem]. rewrite byte_zero_words.
    replace (8 * Z.of_nat (512 * n)) with (4096 * Z.of_nat n) by lia.
    case_decide; [done|]. rewrite Hm. unfold upd_bytes. rewrite length_enc_run by done.
    by rewrite decide_False by lia.
Qed.

Lemma zalloc_cases s t n :
  page_ok s t -> (0 < n)%nat -> Z.of_nat n <= num_pages ->
  (zalloc (Z.of_nat n) s = Done (0, s) /\
   forall i, i + Z.of_nat n < num_pages -> ~ room_at t i n) \/
  (exists m t1 t2, zalloc (Z.of_nat n) s = Done (page_addr s (pages_of t1), with_mem m s) /\
    t = t1 ++ frees n ++ t2 /\ page_ok (with_mem m s) (t1 ++ [Run n] ++ t2) /\
    forall x, HEAP_START + num_pages <= x ->
      byte m x =
        if decide (page_addr s (pages_of t1) <= x
                   < page_addr s (pages_of t1) + PAGE_SIZE * Z.of_nat n)
        then 0 else byte (mem s) x).
Proof.
  intros Hok Hn Hle.
  destruct (alloc_ok s t n Hok Hn Hle) as [[E Hno]|(u1 & u2 & m & Et & Hlt & E & _)].
  - left. split; [|done]. unfold zalloc. by erewrite bind_done by exact E.
  - right. pose proof Hok as [_ _ Hlen Hb Hmax Hpos].
    assert (0 <= pages_of u1) as Hu by (unfold pages_of; lia).
    destruct (zalloc_ok s t n _ _ Hok Hn Hle E) as (m' & t1 & t2 & E' & Et' & Hok' & Hp & Hb');
      [unfold page_addr, PAGE_SIZE in *; lia|].
    rewrite Hp in *. by exists m', t1, t2.
Qed.

(** Pages taken elsewhere in the table leave an allocation where it is. *)
Lemma run_stays t1 k t2 v1 n v2 :
  t1 ++ [Run k] ++ t2 = v1 ++ frees n ++ v2 -> (0 < n)%nat ->
  exists u1 u2, v1 ++ [Run n] ++ v2 = u1 ++ [Run k] ++ u2 /\ pages_of u1 = pages_of t1.
Proof.
  intros E Hn. apply app_eq_inv in E as [(w & -> & E)|(w & -> & E)].
  - apply app_eq_inv in E as [(w' & E1 & E2)|(w' & -> & E2)].
    + destruct w' as [|g w'].
      { rewrite app_nil_r in E1. subst. exists (v1 ++ [Run n]), t2.
        rewrite <- !app_assoc. cbn [app] in *. subst. split; [done|].
        rewrite !pages_of_app, pages_of_frees, pages_of_run by done. done. }
      injection E2 as <- _. assert (Run k ∈ frees n) as Hin
        by (rewrite E1; apply elem_of_app; right; by left).
      unfold frees in Hin. by apply elem_of_replicate in Hin as [? _].
    + exists (v1 ++ [Run n] ++ w'), t2. subst. rewrite <- !app_assoc. split; [done|].
      rewrite !pages_of_app, pages_of_frees, pages_of_run by done. done.
  - destruct w as [|g w].
    + destruct n as [|n]; [lia|]. cbn in E. congruence.
    + injection E as <- ->. exists t1, (w ++ [Run n] ++ v2). by rewrite <- !app_assoc.
Qed.

(** [zalloc(1)] next to an allocation, whose pages keep their bytes. *)
Lemma zalloc_one s t1 n t2 :
  page_ok s (t1 ++ [Run n] ++ t2) -> 1 <= num_pages ->
  exists p m u1 u2, zalloc 1 s = Done (p, with_mem m s) /\
    page_ok (with_mem m s) (u1 ++ [Run n] ++ u2) /\ pages_of u1 = pages_of t1 /\
    forall x, page_addr s (pages_of t1) <= x < page_addr s (pages_of t1 + Z.of_nat n) ->
      byte m x = byte (mem s) x.
Proof.
  intros Hok H1. pose proof Hok as [_ _ _ Hb Hmax Hpos].
  pose proof (run_pos _ _ _ _ Hok) as Hn.
  assert (0 <= pages_of t1) as Ht1 by (unfold pages_of; lia).
  destruct (zalloc_cases s _ 1 Hok ltac:(lia) ltac:(lia))
    as [[E _]|(m & v1 & v2 & E & Et & Hok' & Hm)].
  - exists 0, (mem s), t1, t2. split_and!; try done; by destruct s.
  - assert (room_at (t1 ++ [Run n] ++ t2) (pages_of v1) 1) as Hroom by (by exists v1, v2).
    destruct (run_stays _ _ _ _ 1 _ Et ltac:(lia)) as (u1 & u2 & Eu & Hu). rewrite Eu in Hok'.
    eexists _, m, u1, u2. split_and!; [exact E|done|done|].
    intros x Hx. unfold page_addr, PAGE_SIZE in *. rewrite Hm by lia. apply decide_False.
    destruct (run_room_disjoint _ t1 n t2 (pages_of v1) 1 eq_refl Hroom Hn); lia.
Qed.

(** An allocation of [n] pages at [a]. *)
Definition is_block (s : kernel) (t : list seg) (a : Z) (n : nat) : Prop :=
  exists t1 t2, t = t1 ++ [Run n] ++ t2 /\ a = page_addr s (pages_of t1).

Lemma block_range s t a n : page_ok s t -> is_block s t a n ->
  HEAP_START + num_pages <= a /\ ALLOC_START s <= a /\
  a + PAGE_SIZE * Z.of_nat n < 2 ^ 64 /\ (0 < n)%nat.
Proof.
  intros Hok (t1 & t2 & -> & ->). pose proof (run_pos _ _ _ _ Hok) as Hn.
  destruct Hok as [_ _ Hlen Hb Hm Hp]. rewrite !pages_of_app, pages_of_run in Hlen by done.
  assert (0 <= pages_of t1 /\ 0 <= pages_of t2) by (unfold pages_of; lia).
  unfold page_addr, PAGE_SIZE in *. lia.
Qed.

(** Two allocations of one table are the same or lie one behind the other. *)
Lemma runs_apart u1 n u2 v1 k v2 :
  u1 ++ [Run n] ++ u2 = v1 ++ [Run k] ++ v2 ->
  (u1 = v1 /\ n = k /\ u2 = v2) \/
  (exists w, v1 = u1 ++ [Run n] ++ w /\ u2 = w ++ [Run k] ++ v2) \/
  (exists w, u1 = v1 ++ [Run k] ++ w /\ v2 = w ++ [Run n] ++ u2).
Proof.
  revert v1. induction u1 as [|g u1 IH]; intros [|g' v1] E; cbn in E.
  - injection E as -> ->. by left.
  - injection E as <- ->. right; left. by exists v1.
  - injection E as -> <-. right; right. by exists u1.
  - injection E as <- E. destruct (IH _ E) as [(-> & -> & ->)|[(w & -> & ->)|(w & -> & ->)]];
      [by left|right; left; by exists w|right; right; by exists w].
Qed.

(** Different allocations are disjoint. *)
Lemma blocks_apart s t a n b k :
  page_ok s t -> is_block s t a n -> is_block s t b k -> a <> b ->
  a + PAGE_SIZE * Z.of_nat n <= b \/ b + PAGE_SIZE * Z.of_nat k <= a.
Proof.
  intros Hok (u1 & u2 & -> & ->) (v1 & v2 & E & ->) Hne.
  pose proof (run_pos _ _ _ _ Hok) as Hn.
  assert (0 < k)%nat as Hk by (rewrite E in Hok; by eapply run_pos).
  destruct (runs_apart _ _ _ _ _ _ E) as [(-> & _)|[(w & -> & _)|(w & -> & _)]]; [done|..];
    unfold page_addr, PAGE_SIZE; rewrite !pages_of_app, pages_of_run by done;
    assert (0 <= pages_of w) by (unfold pages_of; lia); lia.
Qed.

(** What a successful [zalloc] leaves. *)
Record new_block (s : kernel) (t : list seg) (a : Z) (n : nat) (s' : kernel) (t' : list seg)
    : Prop := {
  nb_ok : page_ok s' t';
  nb_block : is_block s' t' a n;
  nb_start : exists m, s' = with_mem m s;
  nb_keep b k : is_block s t b k -> is_block s' t' b k /\
    (b + PAGE_SIZE * Z.of_nat k <= a \/ a + PAGE_SIZE * Z.of_nat n <= b);
  nb_zero x : a <= x < a + PAGE_SIZE * Z.of_nat n -> byte (mem s') x = 0;
  nb_frame x : HEAP_START + num_pages <= x ->
    ~ (a <= x < a + PAGE_SIZE * Z.of_nat n) -> byte (mem s') x = byte (mem s) x;
  nb_count : free_pages t' = free_pages t - Z.of_nat n;
  nb_room i k : (n < k)%nat -> i + Z.of_nat k < num_pages -> room_at t i k ->
    room_at t' (i + Z.of_nat n) (k - n);
}.

Lemma room_part t i k j n :
  room_at t i k -> 0 <= j -> (0 < n)%nat -> j + Z.of_nat n <= Z.of_nat k -> Forall seg_ok t ->
  room_at t (i + j) n.
Proof.
  intros (Hf & Hi & Hle)%room_free Hj Hn Hk Hok. apply free_room; [done|done|lia|lia|].
  intros x Hx. apply Hf. lia.
Qed.

(** The room behind the pages that were taken first. *)
Lemma room_left t1 n t2 i k :
  let t := t1 ++ frees n ++ t2 in let t' := t1 ++ [Run n] ++ t2 in
  Forall seg_ok t' -> (n < k)%nat -> (0 < n)%nat -> pages_of t1 <= i -> room_at t i k ->
  room_at t' (i + Z.of_nat n) (k - n).
Proof.
  intros t t' Hok Hk Hn Hi (Hf & Hi0 & Hle)%room_free.
  assert (pages_of t' = pages_of t) as Hp
    by (unfold t, t'; by rewrite !pages_of_app, pages_of_frees, pages_of_run).
  apply free_room; [done|lia|lia|rewrite Hp; lia|].
  intros j Hj. rewrite <- (Hf j) by lia. unfold t, t'. rewrite !enc_app.
  pose proof (pages_of_run n Hn) as Er. pose proof (pages_of_frees n) as Ef. unfold pages_of in *.
  rewrite !(nthZ_shift (enc_table t1)) by lia. rewrite !nthZ_shift by lia. do 3 f_equal. lia.
Qed.

(** [zalloc] takes the first room. *)
Lemma zalloc_first s t n t1 s' i :
  page_ok s t -> (0 < n)%nat -> Z.of_nat n <= num_pages ->
  zalloc (Z.of_nat n) s = Done (page_addr s (pages_of t1), s') -> page_addr s (pages_of t1) <> 0 ->
  room_at t i n -> i + Z.of_nat n < num_pages -> pages_of t1 <= i.
Proof.
  intros Hok Hn Hle E Ha Hr Hi. apply Z.nlt_ge. intros Hlt.
  destruct (alloc_ok s t n Hok Hn Hle) as [[E' Hno]|(u1 & u2 & m & Et & Hu & E' & _ & Hno)];
    [by apply (Hno i)|].
  assert (0 <= pages_of u1) by (unfold pages_of; lia).
  destruct (zalloc_ok s t n _ _ Hok Hn Hle E') as (m' & v1 & v2 & E1 & _ & _ & Hp & _);
    [pose proof (tbl_pos _ _ Hok); pose proof (tbl_below _ _ Hok); unfold page_addr, PAGE_SIZE in *; lia|].
  rewrite E1 in E. injection E as E _. apply (Hno i); [|done].
  unfold page_addr, PAGE_SIZE in *. lia.
Qed.

Lemma zalloc_block s t n a s' :
  page_ok s t -> (0 < n)%nat -> Z.of_nat n <= num_pages ->
  zalloc (Z.of_nat n) s = Done (a, s') -> a <> 0 ->
  exists t', new_block s t a n s' t'.
Proof.
  intros Hok Hn Hle E Ha.
  destruct (zalloc_cases s t n Hok Hn Hle) as [[E' _]|(m & v1 & v2 & E' & Et & Hok' & Hm)];
    pose proof E as E0; rewrite E' in E; injection E as <- <-; [done|].
  assert (is_block (with_mem m s) (v1 ++ [Run n] ++ v2) (page_addr s (pages_of v1)) n) as Hblk
    by (by exists v1, v2).
  pose proof (block_range _ _ _ _ Hok' Hblk) as (Hr & _).
  exists (v1 ++ [Run n] ++ v2). split; try done.
  - by exists m.
  - intros b k (t1 & t2 & E1 & ->).
    assert (room_at t (pages_of v1) n) as Hroom by (by exists v1, v2).
    assert (0 < k)%nat as Hk by (rewrite E1 in Hok; by eapply run_pos).
    split.
    + rewrite E1 in Et. destruct (run_stays _ _ _ _ _ _ Et Hn) as (u1 & u2 & -> & Hu).
      exists u1, u2. split; [done|]. unfold page_addr. by rewrite Hu.
    + destruct (run_room_disjoint t t1 k t2 _ n E1 Hroom Hk Hn);
        unfold page_addr, PAGE_SIZE; lia.
  - intros x Hx. cbn [mem with_mem]. rewrite Hm by lia. by rewrite decide_True.
  - intros x Hx Hn'. cbn [mem with_mem]. rewrite Hm by done. by rewrite decide_False.
  - rewrite Et, !free_pages_app, free_pages_frees. change (free_pages [Run n]) with 0. lia.
  - intros i k Hk Hi Hrk. pose proof (tbl_segs _ _ Hok) as Hs.
    assert (room_at t i n) as Hri by (rewrite <- (Z.add_0_r i); eapply room_part; eauto with lia).
    pose proof (zalloc_first _ _ _ _ _ _ Hok Hn Hle E0 Ha Hri ltac:(lia)) as Hfi.
    rewrite Et in Hrk. by apply room_left; [apply Hok'|..].
Qed.

(** There is room, so [zalloc] makes a block. *)
Lemma zalloc_room s t n i k :
  page_ok s t -> (0 < n <= k)%nat -> room_at t i k -> i + Z.of_nat k < num_pages ->
  exists a s' t', zalloc (Z.of_nat n) s = Done (a, s') /\ a <> 0 /\ new_block s t a n s' t'.
Proof.
  intros Hok Hn Hr Hi. pose proof (room_free _ _ _ Hr) as (_ & Hi0 & _).
  assert (room_at t i n) as Hrn
    by (rewrite <- (Z.add_0_r i); eapply room_part; [exact Hr|lia|lia|lia|apply Hok]).
  destruct (zalloc_cases s t n Hok ltac:(lia) ltac:(lia)) as [[_ Hno]|(m & t1 & t2 & E & _ & Hok' & _)];
    [by destruct (Hno i ltac:(lia))|].
  assert (page_addr s (pages_of t1) <> 0) as Ha.
  { pose proof (tbl_pos _ _ Hok). pose proof (tbl_below _ _ Hok).
    assert (0 <= pages_of t1) by (unfold pages_of; lia). unfold page_addr, PAGE_SIZE in *. lia. }
  destruct (zalloc_block s t n _ _ Hok ltac:(lia) ltac:(lia) E Ha) as [t' Hnb]. eauto 6.
Qed.

(** zalloc n makes the allocation alloc n makes and fills it with zeros; no
    other byte behind the page descriptors changes. *)
Theorem zalloc_zeroes_pages s t n p s1 :
  page_ok s t -> (0 < n)%nat -> Z.of_nat n <= num_pages ->
  alloc (Z.of_nat n) s = Done (p, s1) -> p <> 0 ->
  exists s2 t1 t2, zalloc (Z.of_nat n) s = Done (p, s2) /\
    t = t1 ++ frees n ++ t2 /\ page_ok s2 (t1 ++ [Run n] ++ t2) /\
    forall x, HEAP_START + num_pages <= x ->
      byte (mem s2) x =
        if decide (p <= x < p + PAGE_SIZE * Z.of_nat n) then 0 else byte (mem s) x.
Proof.
  intros Hok Hn Hle E Hp.
  destruct (zalloc_ok s t n p s1 Hok Hn Hle E Hp) as (m & t1 & t2 & E' & Et & Hok' & _ & Hb).
  by exists (with_mem m s), t1, t2.
Qed.

(** dealloc of a page that is free panics. *)
Theorem dealloc_free_page_panics s t1 t2 fuel :
  page_ok s (t1 ++ [Free] ++ t2) ->
  dealloc fuel (page_addr s (pages_of t1)) s = Panic.
Proof.
  intros [Hh Hok Hlen Hb Hm Hp].
  rewrite !enc_app, !holds_app in Hh. destruct Hh as (_ & Hh & _).
  rewrite !pages_of_app in Hlen. change (pages_of [Free]) with 1 in Hlen.
  assert (0 <= pages_of t1 /\ 0 <= pages_of t2) as [Ht1 Ht2] by (unfold pages_of; lia).
  unfold dealloc, page_addr. unfold PAGE_SIZE in *.
  erewrite bind_done by (apply lift_done, assert_true; rewrite (proj2 (Z.eqb_neq _ _)) by lia; done).
  erewrite bind_done by reflexivity.
  erewrite bind_done by (apply lift_done, uint_ok; lia).
  rewrite Z.add_simpl_l, Z.mul_comm, Z.div_mul by lia.
  erewrite bind_done by (apply lift_done, uint_ok; lia).
  erewrite bind_done by (apply lift_done, assert_true, andb_true_iff;
    split; [apply Z.leb_le|apply Z.ltb_lt]; lia).
  fold (pages_of t1) in Hh. specialize (Hh 0 ltac:(done)). rewrite Z.add_0_r in Hh.
  unfold mbind, M_bind. by rewrite Hh.
Qed.

(** In a heap of at most 4096 pages that starts on a page, what [alloc]
    returns lies inside of the heap. *)
Theorem alloc_within_small_heap s t n p s' :
  page_ok s t -> (0 < n)%nat -> Z.of_nat n <= num_pages ->
  HEAP_START mod PAGE_SIZE = 0 -> num_pages <= 4096 ->
  ALLOC_START s mod PAGE_SIZE = 0 -> ALLOC_START s < HEAP_START + num_pages + PAGE_SIZE ->
  alloc (Z.of_nat n) s = Done (p, s') -> p <> 0 ->
  HEAP_START + num_pages <= p /\ p + PAGE_SIZE * Z.of_nat n <= HEAP_START + HEAP_SIZE.
Proof.
  intros Hok Hn Hle Hh Hsmall Ha Hlt E Hp. pose proof Hok as [_ _ Hlen Hb Hmax _].
  destruct (alloc_ok s t n Hok Hn Hle) as [[E' _]|(t1 & t2 & m & _ & Hfit & E' & _)];
    rewrite E' in E; injection E as <- <-; [done|].
  assert (0 <= pages_of t1) as Ht1 by (unfold pages_of; lia).
  unfold page_addr, PAGE_SIZE in *.
  pose proof (Z.mul_div_le HEAP_SIZE 4096 ltac:(lia)).
  pose proof (Z.div_mod HEAP_START 4096 ltac:(lia)) as E1. rewrite Hh in E1.
  pose proof (Z.div_mod (ALLOC_START s) 4096 ltac:(lia)) as E2. rewrite Ha in E2. lia.
Qed.

(** In a heap of more than 4096 pages the last pages alloc counts lie behind
    the heap: after init it hands out a block that ends above HEAP_START +
    HEAP_SIZE. *)
Theorem alloc_leaves_large_heap s N :
  HEAP_START mod PAGE_SIZE = 0 -> HEAP_SIZE = PAGE_SIZE * N -> 4096 < N ->
  0 < HEAP_START -> HEAP_START + 4096 + 2 * HEAP_SIZE < 2 ^ 64 ->
  exists s1 p s2, init s = Done (tt, s1) /\ alloc (N - 1) s1 = Done (p, s2) /\
    p <> 0 /\ HEAP_START + HEAP_SIZE < p + PAGE_SIZE * (N - 1).
Proof.
  intros Hal Hsz HN Hp Hmax.
  assert (0 <= HEAP_SIZE) as Hz by (unfold PAGE_SIZE in *; lia).
  destruct (init_ok s Hp Hz Hmax) as (m & a & E & Ha & Haal & Hm).
  assert (num_pages = N) as Hnp by (rewrite Hsz, Z.mul_comm; by apply Z.div_mul).
  pose proof (init_table m a (KMEM_HEAD s) (KMEM_ALLOC s) (KMEM_PAGE_TABLE s)) as Hok.
  set (s1 := mkKernel m a (KMEM_HEAD s) (KMEM_ALLOC s) (KMEM_PAGE_TABLE s)) in *.
  specialize (Hok Hp Hz Hmax Ha). rewrite Hnp in *.
  specialize (Hok ltac:(intros x Hx; rewrite Hm; by rewrite decide_True)).
  pose proof (alloc_ok s1 _ (Z.to_nat (N - 1)) Hok ltac:(lia)) as Hcase.
  rewrite Hnp, Z2Nat.id in Hcase by lia. exists s1.
  destruct (Hcase ltac:(lia)) as [[_ Hno]|(t1 & t2 & m' & _ & Hfit & E' & _)].
  - destruct (Hno 0 ltac:(lia)). exists [], [Free]. split; [|done].
    unfold frees. rewrite app_nil_l. change [Free] with (replicate 1 Free).
    rewrite <- replicate_add. f_equal. lia.
  - assert (pages_of t1 = 0) as E0 by (unfold pages_of in *; lia).
    eexists _, _. split; [done|]. split; [exact E'|]. rewrite E0.
    unfold page_addr, PAGE_SIZE in *. cbn [s1 ALLOC_START].
    pose proof (Z.div_mod HEAP_START 4096 ltac:(lia)) as E1. rewrite Hal in E1.
    pose proof (Z.div_mod a 4096 ltac:(lia)) as E2. rewrite Haal in E2. lia.
Qed.
End Props.
End PageProps.
