(* ===== verification/PageExample.v ===== *)
(** * A heap of eight pages, two of them taken *)

From S2P Require Import Prelude Memory PageAlloc PageProps.
Import Mem Page PageProps.

Module PageExample.

#[local] Existing Instance dev.
Definition small_heap : Linker := {| HEAP_START := 4096; HEAP_SIZE := 8 * 4096 |}.
Definition large_heap : Linker := {| HEAP_START := 0x80080000; HEAP_SIZE := 4096 * 8192 |}.
#[local] Existing Instance small_heap.

Definition table : list seg := [Run 2] ++ frees 6.
Definition heap : kernel := mkKernel (store ∅ 4096 (enc_table table)) 8192 0 0 0.

Lemma heap_ok : page_ok heap table.
Proof.
  split; try done.
  - apply (holds_upd ∅). intros x. apply byte_store.
  - repeat constructor.
Qed.

Lemma init_all_free_witness :
  exists s', init heap = Done (tt, s') /\ page_ok s' (frees 8).
Proof.
  destruct (init_all_free heap) as (s' & E & Hok & _); [done..|]. exists s'.
  split; [exact E|exact Hok].
Defined.

Lemma alloc_first_fit_witness :
  (alloc 2 heap = Done (0, heap)) \/
  (exists t1 t2 s', table = t1 ++ frees 2 ++ t2 /\
     alloc 2 heap = Done (page_addr heap (pages_of t1), s')).
Proof.
  destruct (alloc_first_fit heap table 2 heap_ok) as [[E _]|(t1 & t2 & s' & Et & E & _)];
    [lia|done|left; exact E|right].
  exists t1, t2, s'. split; [exact Et|exact E].
Defined.

(** What [alloc 2] answers on this heap: pages 2 and 3. *)
Definition heap2 : kernel :=
  match alloc 2 heap with Done (_, s') => s' | _ => heap end.

Lemma alloc2 : alloc 2 heap = Done (16384, heap2).
Proof. vm_compute. reflexivity. Qed.

Lemma alloc_disjoint_from_live_witness :
  page_addr heap 0 + PAGE_SIZE * 2 <= 16384 \/ 16384 + PAGE_SIZE * 2 <= page_addr heap 0.
Proof.
  exact (alloc_disjoint_from_live heap table 2 16384 heap2 heap_ok ltac:(lia) ltac:(done)
           alloc2 ltac:(done) [] 2 (frees 6) eq_refl).
Defined.

Lemma dealloc_frees_run_witness :
  exists s', dealloc 8 (page_addr heap 0 + 5) heap = Done (tt, s') /\ page_ok s' (frees 8).
Proof.
  destruct (dealloc_frees_run heap [] 2 (frees 6) 5 8 heap_ok) as (s' & E & Hok & _);
    [lia|done|]. exists s'. split; [exact E|exact Hok].
Defined.

Lemma alloc_dealloc_roundtrip_witness :
  exists s2, dealloc 2 16384 heap2 = Done (tt, s2) /\ same (mem s2) (mem heap).
Proof.
  exact (alloc_dealloc_roundtrip heap table 2 16384 heap2 heap_ok ltac:(lia) ltac:(done)
           alloc2 ltac:(done)).
Defined.

Lemma zalloc_zeroes_pages_witness :
  exists s2, zalloc 2 heap = Done (16384, s2) /\ byte (mem s2) 20000 = 0.
Proof.
  destruct (zalloc_zeroes_pages heap table 2 16384 heap2 heap_ok ltac:(lia) ltac:(done)
              alloc2 ltac:(done)) as (s2 & _ & _ & E & _ & _ & Hb).
  exists s2. split; [exact E|]. rewrite Hb by done. reflexivity.
Defined.

Lemma dealloc_free_page_panics_witness : dealloc 8 (page_addr heap 2) heap = Panic.
Proof. exact (dealloc_free_page_panics heap [Run 2] (frees 5) 8 heap_ok). Defined.

Lemma alloc_within_small_heap_witness :
  4096 + 8 <= 16384 /\ 16384 + PAGE_SIZE * 2 <= 4096 + 8 * 4096.
Proof.
  exact (alloc_within_small_heap heap table 2 16384 heap2 heap_ok ltac:(lia) ltac:(done)
           eq_refl ltac:(done) eq_refl ltac:(done) alloc2 ltac:(done)).
Defined.

Lemma alloc_leaves_large_heap_witness :
  exists s1 p s2, @init _ large_heap heap = Done (tt, s1) /\
    @alloc _ large_heap 8191 s1 = Done (p, s2) /\
    0x80080000 + 4096 * 8192 < p + PAGE_SIZE * 8191.
Proof.
  destruct (@alloc_leaves_large_heap _ large_heap heap 8192) as (s1 & p & s2 & E1 & E2 & _ & Hp);
    [done..|]. exists s1, p, s2. split; [exact E1|]. split; [exact E2|exact Hp].
Defined.
End PageExample.
