(* ===== verification/Kmem.v ===== *)
(** * kmem.rs and buffer.rs: the kernel heap

    The heap is a run of pages cut into chunks; each chunk starts with a
    word that holds its size and, in bit 63, whether it is taken. *)

From S2P Require Import Prelude Memory Cpu PageAlloc.
Import Mem.

Module Kmem.

(** ** The header word *)

Definition AllocList_Taken : Z := Z.shiftl 1 63.
Definition sizeof_AllocList : Z := 8.

Definition is_taken (flags_size : Z) : bool := negb (Z.land flags_size AllocList_Taken =? 0).
Definition is_free (flags_size : Z) : bool := negb (is_taken flags_size).
Definition set_taken (flags_size : Z) : Z := Z.lor flags_size AllocList_Taken.
Definition set_free (flags_size : Z) : Z := Z.land flags_size (unot 64 AllocList_Taken).
Definition set_size (flags_size sz : Z) : Z :=
  let k := is_taken flags_size in
  let v := Z.land sz (unot 64 AllocList_Taken) in
  if k then Z.lor v AllocList_Taken else v.
Definition get_size (flags_size : Z) : Z := Z.land flags_size (unot 64 AllocList_Taken).

(** Apply a method to the header at [p]. *)
Definition upd (m : memory) (p : Z) (f : Z -> Z) : memory := wr64 m p (f (rd64 m p)).

Section Kmem.
Context `{Profile} `{Linker}.
Abbreviation K := (M kernel).

Definition get_head : K Z := gets KMEM_HEAD.
Definition get_page_table : K Z := gets KMEM_PAGE_TABLE.
Definition get_num_allocations : K Z := gets KMEM_ALLOC.

Definition init : K unit :=
  _ ← modify (fun s => mkKernel (mem s) (ALLOC_START s) (KMEM_HEAD s) 2048 (KMEM_PAGE_TABLE s));
  n ← gets KMEM_ALLOC;
  k_alloc ← Page.zalloc n;
  _ ← lift (assert_ (negb (k_alloc =? 0)));
  _ ← modify (fun s => mkKernel (mem s) (ALLOC_START s) k_alloc (KMEM_ALLOC s) (KMEM_PAGE_TABLE s));
  _ ← modify (fun s => with_mem (upd (mem s) (KMEM_HEAD s) set_free) s);
  sz ← lift (usize (n * Page.PAGE_SIZE));
  _ ← modify (fun s => with_mem (upd (mem s) (KMEM_HEAD s) (fun v => set_size v sz)) s);
  pt ← Page.zalloc 1;
  modify (fun s => mkKernel (mem s) (ALLOC_START s) (KMEM_HEAD s) (KMEM_ALLOC s) pt).

(** [while head < tail] of [kmalloc]; null is 0. *)
Fixpoint kmalloc_loop (fuel : nat) (m : memory) (head tail size : Z) : outcome (Z * memory) :=
  match fuel with
  | O => NoFuel
  | S fuel' =>
      if head <? tail then
        let v := rd64 m head in
        if is_free v && (size <=? get_size v) then
          let chunk_size := get_size v in
          let rem := chunk_size - size in
          let m := upd m head set_taken in
          let m :=
            if sizeof_AllocList <? rem then
              let next := head + size in
              let m := upd m next set_free in
              let m := upd m next (fun v => set_size v rem) in
              upd m head (fun v => set_size v size)
            else upd m head (fun v => set_size v chunk_size) in
          Done (head + sizeof_AllocList, m)
        else kmalloc_loop fuel' m (head + get_size v) tail size
      else Done (0, m)
  end.

(** [fuel] bounds the number of chunks. *)
Definition kmalloc (fuel : nat) (sz : Z) : K Z :=
  a ← lift (Page.align_val sz 3);
  size ← lift (usize (a + sizeof_AllocList));
  s ← get;
  b ← lift (usize (KMEM_ALLOC s * Page.PAGE_SIZE));
  let tail := KMEM_HEAD s + b in
  '(p, m) ← lift (kmalloc_loop fuel (mem s) (KMEM_HEAD s) tail size);
  _ ← put (with_mem m s);
  mret p.

(** [for i in 0..size], storing 0 at ret.add(i) *)
Fixpoint zero_bytes (m : memory) (p : Z) (k : nat) : memory :=
  match k with
  | O => m
  | S k' => zero_bytes (store m p [0]) (p + 1) k'
  end.

Definition kzmalloc (fuel : nat) (sz : Z) : K Z :=
  size ← lift (Page.align_val sz 3);
  ret ← kmalloc fuel size;
  if ret =? 0 then mret ret else
  _ ← modify (fun s => with_mem (zero_bytes (mem s) ret (Z.to_nat size)) s);
  mret ret.

Fixpoint coalesce_loop (fuel : nat) (m : memory) (head tail : Z) : outcome memory :=
  match fuel with
  | O => NoFuel
  | S fuel' =>
      if head <? tail then
        let next := head + get_size (rd64 m head) in
        if get_size (rd64 m head) =? 0 then Done m
        else if tail <=? next then Done m
        else
          let m :=
            if is_free (rd64 m head) && is_free (rd64 m next)
            then upd m head (fun v => set_size v (get_size v + get_size (rd64 m next)))
            else m in
          coalesce_loop fuel' m (head + get_size (rd64 m head)) tail
      else Done m
  end.

Definition coalesce (fuel : nat) : K unit :=
  s ← get;
  b ← lift (usize (KMEM_ALLOC s * Page.PAGE_SIZE));
  let tail := KMEM_HEAD s + b in
  m ← lift (coalesce_loop fuel (mem s) (KMEM_HEAD s) tail);
  put (with_mem m s).

Definition kfree (fuel : nat) (ptr : Z) : K unit :=
  if ptr =? 0 then mret tt else
  let p := ptr - sizeof_AllocList in
  _ ← modify (fun s =>
        if is_taken (rd64 (mem s) p) then with_mem (upd (mem s) p set_free) s else s);
  coalesce fuel.

(** The lines [print_table] prints: address, length, taken. *)
Fixpoint table_loop (fuel : nat) (m : memory) (head tail : Z)
    : outcome (list (Z * Z * bool)) :=
  match fuel with
  | O => NoFuel
  | S fuel' =>
      if head <? tail then
        let v := rd64 m head in
        l ← table_loop fuel' m (head + get_size v) tail;
        Done ((head, get_size v, is_taken v) :: l)
      else Done []
  end.

Definition print_table (fuel : nat) : K (list (Z * Z * bool)) :=
  s ← get;
  b ← lift (usize (KMEM_ALLOC s * Page.PAGE_SIZE));
  lift (table_loop fuel (mem s) (KMEM_HEAD s) (KMEM_HEAD s + b)).

(** ** The global allocator *)

(** [OsGlobalAlloc]; the alignment of a layout is not looked at. *)
Definition OsGlobalAlloc_alloc (fuel : nat) (size : Z) : K Z := kzmalloc fuel size.
Definition OsGlobalAlloc_dealloc (fuel : nat) (ptr : Z) : K unit := kfree fuel ptr.

(** ** Storage of a [VecDeque]

    How many places are allocated for a capacity is up to the library, which
    promises no fewer than asked for; Rust does not fix the size of [Process]. *)
Class Deques := {
  places : Z -> Z;
  size_of_Process : Z;
}.

Class DequeLaws `{Deques} : Prop := {
  places_enough n : 0 <= n -> n <= places n;
  Process_sized : 0 < size_of_Process;
}.

(** [VecDeque::with_capacity(n)] for elements of [size] bytes; too large a capacity
    and a failed allocation panic. *)
Definition with_capacity `{Deques} (fuel : nat) (n size : Z) : K unit :=
  let bytes := places n * size in
  _ ← lift (assert_ (bytes <? 2 ^ 63));
  p ← OsGlobalAlloc_alloc fuel bytes;
  lift (assert_ (negb (p =? 0))).

(** ** buffer.rs *)

Record Buffer := mkBuffer { buffer : Z; len : Z }.

Definition Buffer_new (fuel : nat) (sz : Z) : K Buffer :=
  p ← kmalloc fuel sz;
  mret (mkBuffer p sz).

Definition Buffer_default (fuel : nat) : K Buffer := Buffer_new fuel 1024.

(** [buffer[idx]]: there is no check of the bounds. *)
Definition Buffer_index (b : Buffer) (idx : Z) : K Z :=
  _ ← lift (unwrap (if buffer b + idx =? 0 then None else Some tt));
  gets (fun s => byte (mem s) (buffer b + idx)).

Definition Buffer_index_mut (b : Buffer) (idx v : Z) : K unit :=
  _ ← lift (unwrap (if buffer b + idx =? 0 then None else Some tt));
  modify (fun s => with_mem (store (mem s) (buffer b + idx) [v]) s).

(** The copy goes through [memcpy], on the bytes of the two blocks; a null
    pointer is no block. *)
Definition Buffer_clone (fuel : nat) (b : Buffer) : K Buffer :=
  p ← kmalloc fuel (len b);
  _ ← lift (valid ((len b =? 0) || negb ((p =? 0) || (buffer b =? 0))));
  s ← get;
  d ← lift (Cpu.memcpy (bytes_at (byte (mem s)) p (len b)) 0
              (bytes_at (byte (mem s)) (buffer b) (len b)) 0 (len b));
  _ ← put (with_mem (store (mem s) p d) s);
  mret (mkBuffer p (len b)).

Definition Buffer_drop (fuel : nat) (b : Buffer) : K Buffer :=
  if buffer b =? 0 then mret b else
  _ ← kfree fuel (buffer b);
  mret (mkBuffer 0 (len b)).
End Kmem.
End Kmem.
