(* ===== verification/KmemFacts.v ===== *)
(** * The kernel heap as a sequence of chunks

    [tiles] is the abstract state of the heap: the chunks, in order, with
    their sizes and whether they are taken. *)

From S2P Require Import Prelude Memory Cpu PageAlloc Kmem.
Import Mem Kmem.

Module KmemFacts.

(** ** The header word *)

Definition size_ok (sz : Z) : Prop := 0 <= sz < 2 ^ 63.
Definition word (tk : bool) (sz : Z) : Z := if tk then Z.lor sz AllocList_Taken else sz.

Lemma mask63 z : Z.land z (unot 64 AllocList_Taken) = z mod 2 ^ 63.
Proof. change (unot 64 AllocList_Taken) with (Z.ones 63). by apply Z.land_ones. Qed.

Lemma land_Taken sz : size_ok sz -> Z.land sz AllocList_Taken = 0.
Proof.
  intros Hs. apply Z.eqb_eq. unfold AllocList_Taken. rewrite land_bit by done.
  apply negb_true_iff. destruct (Z.eq_dec sz 0) as [->|]; [done|].
  destruct Hs. apply Z.bits_above_log2; [lia|]. apply Z.log2_lt_pow2; lia.
Qed.

Lemma word_true sz : size_ok sz -> word true sz = sz + 2 ^ 63.
Proof.
  intros Hs. cbn. rewrite <- Z.lxor_lor by (by apply land_Taken).
  rewrite <- Z.add_nocarry_lxor by (by apply land_Taken). done.
Qed.

Lemma word_range tk sz : size_ok sz -> 0 <= word tk sz < 2 ^ 64.
Proof.
  intros Hs. destruct tk; [rewrite word_true by done|cbn]; unfold size_ok in Hs; lia.
Qed.

Lemma get_size_word tk sz : size_ok sz -> get_size (word tk sz) = sz.
Proof.
  intros Hs. unfold get_size. rewrite mask63. destruct tk; [|by apply Z.mod_small].
  rewrite word_true by done. rewrite <- (Z.mul_1_l (2 ^ 63)) at 1.
  rewrite Z.mod_add by done. by apply Z.mod_small.
Qed.

Lemma is_taken_word tk sz : size_ok sz -> is_taken (word tk sz) = tk.
Proof.
  intros Hs. unfold is_taken. destruct tk; cbn [word].
  - rewrite Z.land_lor_distr_l, land_Taken by done. done.
  - by rewrite land_Taken by done.
Qed.

Lemma set_free_range v : size_ok (set_free v).
Proof. unfold set_free. rewrite mask63. apply Z.mod_pos_bound. lia. Qed.

Lemma set_size_word v sz : size_ok sz -> set_size v sz = word (is_taken v) sz.
Proof.
  intros Hs. unfold set_size. cbn zeta. rewrite mask63, Z.mod_small by done. done.
Qed.

Lemma set_free_word tk sz : size_ok sz -> set_free (word tk sz) = word false sz.
Proof. apply get_size_word. Qed.

(** ** Changing one header *)

Lemma rd64_upd m p f : 0 <= f (rd64 m p) < 2 ^ 64 -> rd64 (upd m p f) p = f (rd64 m p).
Proof. apply rd64_wr64. Qed.

Lemma byte_upd m p f x : x < p \/ p + 8 <= x -> byte (upd m p f) x = byte m x.
Proof. apply byte_wr64. Qed.

Lemma rd64_upd_other m p f a : a + 8 <= p \/ p + 8 <= a -> rd64 (upd m p f) a = rd64 m a.
Proof. intros Ha. apply rd64_ext. intros x Hx. apply byte_upd. lia. Qed.

Lemma rd64_set_size m p tk sz sz' :
  rd64 m p = word tk sz -> size_ok sz -> size_ok sz' ->
  rd64 (upd m p (fun v => set_size v sz')) p = word tk sz'.
Proof.
  intros E Hs Hs'. rewrite rd64_upd; rewrite E, set_size_word, is_taken_word by done;
    [done|by apply word_range].
Qed.

(** Whatever was there before, [set_free] and [set_size] write a free header. *)
Lemma rd64_new_free m p sz :
  size_ok sz -> rd64 (upd (upd m p set_free) p (fun v => set_size v sz)) p = word false sz.
Proof.
  intros Hs. pose proof (set_free_range (rd64 m p)) as Hr.
  assert (rd64 (upd m p set_free) p = word false (set_free (rd64 m p))) as E
    by (rewrite rd64_upd; [done|unfold size_ok in Hr; lia]).
  by apply (rd64_set_size _ _ _ _ _ E).
Qed.

(** ** Chunks *)

Abbreviation chunk := (bool * Z)%type.

Definition chunk_ok (c : chunk) : Prop := 8 <= c.2 < 2 ^ 63 /\ c.2 mod 8 = 0.

Fixpoint total (cs : list chunk) : Z :=
  match cs with [] => 0 | (_, sz) :: cs' => sz + total cs' end.

(** The memory from [a] to [tail] is the chunks [cs]. *)
Fixpoint tiles (m : memory) (a : Z) (cs : list chunk) (tail : Z) : Prop :=
  match cs with
  | [] => a = tail
  | (tk, sz) :: cs' =>
      rd64 m a = word tk sz /\ chunk_ok (tk, sz) /\ tiles m (a + sz) cs' tail
  end.

(** [x] is in a free chunk. *)
Fixpoint in_free (a : Z) (cs : list chunk) (x : Z) : Prop :=
  match cs with
  | [] => False
  | (tk, sz) :: cs' => (tk = false /\ a <= x < a + sz) \/ in_free (a + sz) cs' x
  end.

(** Address and size of the chunks that are taken. *)
Fixpoint live (a : Z) (cs : list chunk) : list (Z * Z) :=
  match cs with
  | [] => []
  | (tk, sz) :: cs' => (if (tk : bool) then [(a, sz)] else []) ++ live (a + sz) cs'
  end.

Lemma chunk_size_ok tk sz : chunk_ok (tk, sz) -> size_ok sz.
Proof. intros [[? ?] _]. cbn in *. unfold size_ok. lia. Qed.

Lemma tiles_total m cs : forall a tail, tiles m a cs tail -> tail = a + total cs.
Proof.
  induction cs as [|[tk sz] cs IH]; intros a tail; cbn; [lia|].
  intros (_ & _ & Ht). apply IH in Ht. lia.
Qed.

Lemma tiles_total_nonneg m cs : forall a tail, tiles m a cs tail -> 0 <= total cs.
Proof.
  induction cs as [|[tk sz] cs IH]; intros a tail; cbn; [lia|].
  intros (_ & [Hc _] & Ht). apply IH in Ht. cbn in Hc. lia.
Qed.

Lemma total_app c1 c2 : total (c1 ++ c2) = total c1 + total c2.
Proof. induction c1 as [|[tk sz] c1 IH]; cbn; lia. Qed.

Lemma tiles_app m c1 c2 tail : forall a,
  tiles m a (c1 ++ c2) tail <-> tiles m a c1 (a + total c1) /\ tiles m (a + total c1) c2 tail.
Proof.
  induction c1 as [|[tk sz] c1 IH]; intros a; cbn.
  - rewrite Z.add_0_r. tauto.
  - rewrite IH, Z.add_assoc. tauto.
Qed.

Lemma tiles_frame m m' cs : forall a tail,
  (forall x, a <= x < tail -> byte m' x = byte m x) -> tiles m a cs tail -> tiles m' a cs tail.
Proof.
  induction cs as [|[tk sz] cs IH]; intros a tail Heq; cbn; [done|].
  intros (Hr & Hc & Ht). pose proof (tiles_total _ _ _ _ Ht) as Etail.
  pose proof (tiles_total_nonneg _ _ _ _ Ht) as Hn. destruct (Hc) as [[H8 _] _]. cbn in H8.
  split_and!; [|done|].
  - rewrite <- Hr. apply rd64_ext. intros x Hx. apply Heq. lia.
  - apply IH; [|done]. intros x Hx. apply Heq. lia.
Qed.

Lemma in_free_range m cs x : forall a tail, tiles m a cs tail -> in_free a cs x -> a <= x < tail.
Proof.
  induction cs as [|[tk sz] cs IH]; intros a tail; cbn; [done|].
  intros (_ & [[H8 _] _] & Ht) [[_ Hx]|Hx]; cbn in H8.
  - pose proof (tiles_total _ _ _ _ Ht). pose proof (tiles_total_nonneg _ _ _ _ Ht). lia.
  - specialize (IH _ _ Ht Hx). lia.
Qed.

Lemma in_free_app c1 c2 x : forall a,
  in_free a (c1 ++ c2) x <-> in_free a c1 x \/ in_free (a + total c1) c2 x.
Proof.
  induction c1 as [|[tk sz] c1 IH]; intros a; cbn.
  - rewrite Z.add_0_r. tauto.
  - rewrite IH, Z.add_assoc. tauto.
Qed.

Lemma live_app c1 c2 : forall a, live a (c1 ++ c2) = live a c1 ++ live (a + total c1) c2.
Proof.
  induction c1 as [|[tk sz] c1 IH]; intros a; cbn.
  - by rewrite Z.add_0_r.
  - by rewrite IH, Z.add_assoc, app_assoc.
Qed.

(** A live block and the free chunks have no byte in common. *)
Lemma live_not_free m cs b sz : forall a tail,
  tiles m a cs tail -> (b, sz) ∈ live a cs ->
  a <= b /\ 8 <= sz /\ b + sz <= tail /\ forall x, b <= x < b + sz -> ~ in_free a cs x.
Proof.
  induction cs as [|[tk s] cs IH]; intros a tail; cbn; [by intros _ ?%elem_of_nil|].
  intros (_ & [[H8 _] _] & Ht) Hin. cbn in H8.
  pose proof (tiles_total _ _ _ _ Ht) as Et. pose proof (tiles_total_nonneg _ _ _ _ Ht).
  apply elem_of_app in Hin as [Hin|Hin].
  - destruct tk; [|by apply elem_of_nil in Hin]. apply list_elem_of_singleton in Hin.
    injection Hin as -> ->. split_and!; try lia. intros x Hx [[? _]|Hf]; [done|].
    apply (in_free_range _ _ _ _ _ Ht) in Hf. lia.
  - destruct (IH _ _ Ht Hin) as (H1 & H2 & H3 & H4). split_and!; try lia.
    intros x Hx [[_ ?]|Hf]; [lia|]. by apply (H4 x).
Qed.
End KmemFacts.
