(* ===== verification/KmemProps.v ===== *)
(** * What the kernel heap's operations do to the chunks *)

From S2P Require Import Prelude Memory Cpu PageAlloc Kmem KmemFacts.
Import Mem Kmem KmemFacts.

Module KmemProps.

(** ** The abstract operations *)

(** A chunk [kmalloc] can use for [size] bytes, header included. *)
Definition fits (size : Z) (c : chunk) : bool := negb c.1 && (size <=? c.2).

(** What becomes of a free chunk of [sz] bytes when [size] of them are taken. *)
Definition carve (size sz : Z) : list chunk :=
  if 8 <? sz - size then [(true, size); (false, sz - size)] else [(true, sz)].

(** One pass of [coalesce]: neighbours are merged in pairs. *)
Fixpoint merge (cs : list chunk) : list chunk :=
  match cs with
  | (false, a) :: (((false, b) :: cs') as rest) => (false, a + b) :: merge cs'
  | c :: cs' => c :: merge cs'
  | [] => []
  end.

Lemma total_carve size sz : total (carve size sz) = sz.
Proof. unfold carve. destruct (_ <? _); cbn; lia. Qed.

Lemma live_carve size sz a :
  live a (carve size sz) = [(a, if 8 <? sz - size then size else sz)].
Proof. unfold carve. by destruct (_ <? _). Qed.

Lemma merge_ind (P : list chunk -> Prop) :
  P [] -> (forall c, P [c]) ->
  (forall a b cs, P cs -> P ((false, a) :: (false, b) :: cs)) ->
  (forall c d cs, c.1 || d.1 = true -> P (d :: cs) -> P (c :: d :: cs)) ->
  forall cs, P cs.
Proof.
  intros H0 H1 H2 H3. assert (forall n cs, (length cs <= n)%nat -> P cs) as Hn.
  { induction n as [|n IH]; intros [|c [|d cs]] Hl; cbn in Hl; try lia; auto.
    destruct c as [[] a], d as [[] b]; try (apply H3; [done|apply IH; cbn; lia]).
    apply H2, IH. lia. }
  intros cs. by apply (Hn (length cs)).
Qed.

Lemma merge_keep c d cs : c.1 || d.1 = true -> merge (c :: d :: cs) = c :: merge (d :: cs).
Proof. by destruct c as [[] a], d as [[] b]. Qed.

(** Merging moves no live block and loses no byte. *)
Lemma merge_live cs : forall a, live a (merge cs) = live a cs /\ total (merge cs) = total cs.
Proof.
  induction cs as [|c|s1 s2 cs IH|c d cs Hcd IH] using merge_ind; intros a; try done.
  - by destruct c as [[] s].
  - cbn [merge live total app]. destruct (IH (a + (s1 + s2))) as [-> ->].
    split; [f_equal|]; lia.
  - rewrite merge_keep by done. destruct c as [tk s]. cbn [live total].
    destruct (IH (a + s)) as [E1 E2]. rewrite E1, E2. done.
Qed.

Lemma merge_length cs : (length (merge cs) <= length cs)%nat.
Proof.
  induction cs as [|c|s1 s2 cs IH|c d cs Hcd IH] using merge_ind; try (cbn; lia).
  - by destruct c as [[] s].
  - rewrite merge_keep by done. cbn [length] in *. lia.
Qed.

(** ** [kmalloc] *)

(** Cutting a free chunk. *)
Lemma carve_ok m a sz size rest tail :
  tiles m a ((false, sz) :: rest) tail -> tail - a < 2 ^ 63 ->
  8 <= size <= sz -> size mod 8 = 0 ->
  exists m',
    (let m := upd m a set_taken in
     if sizeof_AllocList <? sz - size
     then upd (upd (upd m (a + size) set_free) (a + size) (fun v => set_size v (sz - size)))
            a (fun v => set_size v size)
     else upd m a (fun v => set_size v sz)) = m' /\
    tiles m' a (carve size sz ++ rest) tail /\
    forall x, x < a \/ a + sz <= x -> byte m' x = byte m x.
Proof.
  intros (Hr & Hc & Ht) Hmax Hs Hal. eexists. split; [reflexivity|]. cbv zeta.
  pose proof (chunk_size_ok _ _ Hc) as Hz. destruct Hc as [_ Hzal]. cbn [snd] in Hzal.
  assert (rd64 (upd m a set_taken) a = word true sz) as E1.
  { rewrite rd64_upd; rewrite Hr; [done|]. by apply (word_range true). }
  unfold carve, sizeof_AllocList. unfold size_ok in Hz.
  destruct (Z.ltb_spec 8 (sz - size)) as [Hsplit|Hfull].
  - set (m1 := upd m a set_taken) in *.
    set (m2 := upd (upd m1 (a + size) set_free) (a + size) (fun v => set_size v (sz - size))).
    assert (rd64 m2 a = word true sz) as E2
      by (unfold m2; rewrite !rd64_upd_other by lia; done).
    assert (rd64 m2 (a + size) = word false (sz - size)) as E3
      by (apply rd64_new_free; unfold size_ok; lia).
    assert (forall x, x < a \/ a + sz <= x ->
              byte (upd m2 a (fun v => set_size v size)) x = byte m x) as Hout
      by (intros x Hx; unfold m2, m1; rewrite !byte_upd by lia; done).
    split; [|done]. cbn [app tiles]. split_and!.
    + apply (rd64_set_size _ _ _ _ _ E2); unfold size_ok; lia.
    + split; cbn; [lia|done].
    + rewrite rd64_upd_other by lia. exact E3.
    + split; cbn [snd]; [lia|]. rewrite Zminus_mod, Hzal, Hal. done.
    + replace (a + size + (sz - size)) with (a + sz) by lia.
      eapply tiles_frame; [|exact Ht]. intros x Hx. apply Hout. lia.
  - assert (forall x, x < a \/ a + sz <= x ->
              byte (upd (upd m a set_taken) a (fun v => set_size v sz)) x = byte m x) as Hout
      by (intros x Hx; rewrite !byte_upd by lia; done).
    split; [|done]. cbn [app tiles]. split_and!.
    + apply (rd64_set_size _ _ _ _ _ E1); done.
    + split; cbn; [lia|done].
    + eapply tiles_frame; [|exact Ht]. intros x Hx. apply Hout. lia.
Qed.

(** The result of the search: nothing fits, or the first chunk that fits is cut. *)
Record taken_from (m : memory) (a : Z) (cs : list chunk) (tail size p : Z) (m' : memory)
    (c1 : list chunk) (sz : Z) (c2 : list chunk) : Prop := {
  tf_split : cs = c1 ++ (false, sz) :: c2;
  tf_first : Forall (fun c => fits size c = false) c1;
  tf_fits : size <= sz;
  tf_ptr : p = a + total c1 + 8;
  tf_tiles : tiles m' a (c1 ++ carve size sz ++ c2) tail;
  tf_frame x : x < a + total c1 \/ a + total c1 + sz <= x -> byte m' x = byte m x;
}.

Lemma kmalloc_loop_ok size : 8 <= size -> size mod 8 = 0 ->
  forall cs fuel m a tail, (length cs < fuel)%nat -> tiles m a cs tail -> tail - a < 2 ^ 63 ->
  (kmalloc_loop fuel m a tail size = Done (0, m) /\ Forall (fun c => fits size c = false) cs) \/
  (exists p m' c1 sz c2, kmalloc_loop fuel m a tail size = Done (p, m') /\
     taken_from m a cs tail size p m' c1 sz c2).
Proof.
  intros Hs Hal. induction cs as [|[tk sz] cs IH]; intros [|fuel] m a tail Hf Ht Hmax;
    cbn [length] in Hf; try lia; cbn [kmalloc_loop].
  { cbn in Ht. subst. rewrite Z.ltb_irrefl. by left. }
  pose proof Ht as Ht0. destruct Ht as (Hr & Hc & Ht). pose proof (chunk_size_ok _ _ Hc) as Hz.
  pose proof (tiles_total _ _ _ _ Ht) as Etail. pose proof (tiles_total_nonneg _ _ _ _ Ht).
  destruct (Hc) as [[H8 _] _]. cbn in H8.
  rewrite (proj2 (Z.ltb_lt a tail)) by lia. cbv zeta. rewrite Hr.
  unfold is_free. rewrite is_taken_word, get_size_word by done.
  destruct (negb tk && (size <=? sz)) eqn:Hfit.
  - right. apply andb_true_iff in Hfit as [->%negb_true_iff Hle%Z.leb_le].
    destruct (carve_ok m a sz size cs tail Ht0 Hmax ltac:(lia) Hal) as (m' & E & Ht' & Hout).
    cbv zeta in E. rewrite E. eexists _, m', [], sz, cs. split; [reflexivity|].
    split; cbn [total app]; unfold sizeof_AllocList; try done; try lia. intros x Hx. apply Hout. lia.
  - destruct (IH fuel m (a + sz) tail ltac:(lia) Ht ltac:(lia))
      as [[E Hno]|(p & m' & c1 & z & c2 & E & [-> Hfirst Hle Hp Ht' Hout])].
    + left. split; [done|]. by constructor.
    + right. exists p, m', ((tk, sz) :: c1), z, c2. split; [done|].
      split; cbn [total app]; try done; try lia.
      * by constructor.
      * cbn [tiles]. split_and!; [|done|done]. rewrite <- Hr. apply rd64_ext.
        pose proof (tiles_app m c1 ((false, z) :: c2) tail (a + sz)) as Hsp.
        apply Hsp in Ht as [Ht _]. apply tiles_total_nonneg in Ht.
        intros x Hx. apply Hout. lia.
      * intros x Hx. apply Hout. lia.
Qed.

(** ** [coalesce] *)

(** A header that takes in the chunk behind it. *)
Lemma upd_merge m a s s' :
  rd64 m a = word false s -> size_ok s -> size_ok (s + s') ->
  let m1 := upd m a (fun v => set_size v (get_size v + s')) in
  rd64 m1 a = word false (s + s') /\ forall x, x < a \/ a + 8 <= x -> byte m1 x = byte m x.
Proof.
  intros Hr Hz Hss m1. assert (m1 = upd m a (fun v => set_size v (s + s'))) as ->
    by (unfold m1, upd; by rewrite Hr, get_size_word by done).
  split; [by apply (rd64_set_size _ _ _ _ _ Hr)|]. intros x Hx. by apply byte_upd.
Qed.

Lemma coalesce_loop_ok : forall fuel cs m a tail,
  (length cs < fuel)%nat -> tiles m a cs tail -> tail - a < 2 ^ 63 ->
  exists m', coalesce_loop fuel m a tail = Done m' /\ tiles m' a (merge cs) tail /\
    forall x, ~ in_free a cs x -> byte m' x = byte m x.
Proof.
  induction fuel as [|fuel IH]; intros cs m a tail Hf Ht Hmax; [lia|]. cbn [coalesce_loop].
  destruct cs as [|[tk s] cs].
  { cbn in Ht. subst. rewrite Z.ltb_irrefl. by exists m. }
  pose proof Ht as (Hr & Hc & Ht1). pose proof (chunk_size_ok _ _ Hc) as Hz.
  pose proof (tiles_total _ _ _ _ Ht1) as Etail. pose proof (tiles_total_nonneg _ _ _ _ Ht1).
  pose proof Hc as [[H8 _] Hal]. cbn [snd] in H8, Hal.
  rewrite (proj2 (Z.ltb_lt a tail)) by lia. cbv zeta. rewrite Hr, get_size_word by done.
  rewrite (proj2 (Z.eqb_neq s 0)) by lia.
  destruct cs as [|[tk' s'] cs].
  { cbn in Ht1. rewrite (proj2 (Z.leb_le _ _)) by lia. exists m. split_and!; try done.
    by destruct tk. }
  pose proof Ht1 as (Hr' & Hc' & Ht2). pose proof (chunk_size_ok _ _ Hc') as Hz'.
  pose proof (tiles_total_nonneg _ _ _ _ Ht2). cbn [total] in Etail.
  pose proof Hc' as [[H8' _] Hal']. cbn [snd] in H8', Hal'.
  rewrite (proj2 (Z.leb_gt _ _)) by lia. rewrite Hr'.
  unfold is_free. rewrite !is_taken_word by done.
  destruct (negb tk && negb tk') eqn:Eb.
  - apply andb_true_iff in Eb as [->%negb_true_iff ->%negb_true_iff].
    assert (size_ok (s + s')) as Hss by (unfold size_ok in *; lia). rewrite (get_size_word _ s') by done.
    destruct (upd_merge m a s s' Hr Hz Hss) as [Hr1 Hb1]. set (m1 := upd m a _) in *.
    rewrite Hr1, get_size_word by done. replace (a + (s + s')) with (a + s + s') by lia.
    destruct (IH cs m1 (a + s + s') tail) as (m' & E & Ht' & Hout); try (cbn in Hf; lia).
    { eapply tiles_frame; [|exact Ht2]. intros x Hx. apply Hb1. lia. }
    exists m'. split; [exact E|]. cbn [merge tiles in_free]. split.
    + split_and!; [|split; cbn [snd]; [unfold size_ok in *; lia|by rewrite Zplus_mod, Hal, Hal']|
        by replace (a + (s + s')) with (a + s + s') by lia].
      rewrite <- Hr1. apply rd64_ext. intros x Hx. apply Hout. intros Hin.
      apply (in_free_range _ _ _ _ _ Ht2) in Hin. lia.
    + intros x Hx. rewrite Hout by tauto. apply Hb1.
      destruct (Z.lt_ge_cases x a); [by left|]. right. apply Z.nlt_ge. intros ?.
      apply Hx. left. split; [done|lia].
  - cbv zeta. rewrite Hr, get_size_word by done.
    destruct (IH ((tk', s') :: cs) m (a + s) tail) as (m' & E & Ht' & Hout);
      try (cbn in Hf |- *; lia); [exact Ht1|].
    exists m'. split; [exact E|].
    rewrite merge_keep by (by destruct tk, tk'). split.
    + cbn [tiles]. split_and!; [|done|done]. rewrite <- Hr. apply rd64_ext.
      intros x Hx. apply Hout. intros Hin. apply (in_free_range _ _ _ _ _ Ht1) in Hin. lia.
    + intros x Hx. apply Hout. intros Hin. apply Hx. by right.
Qed.

Lemma table_loop_ok cs : forall fuel m a tail,
  (length cs < fuel)%nat -> tiles m a cs tail ->
  exists l, table_loop fuel m a tail = Done l /\
    (fun e => (e.2, e.1.2)) <$> l = cs /\
    forall b z, (b, z, true) ∈ l <-> (b, z) ∈ live a cs.
Proof.
  induction cs as [|[tk sz] cs IH]; intros [|fuel] m a tail Hf Ht; cbn [length] in Hf; try lia;
    cbn [table_loop].
  { cbn in Ht. subst. rewrite Z.ltb_irrefl. exists []. split_and!; try done.
    intros b z. cbn. by rewrite !elem_of_nil. }
  destruct Ht as (Hr & Hc & Ht). pose proof (chunk_size_ok _ _ Hc) as Hz.
  pose proof (tiles_total _ _ _ _ Ht) as Etail. pose proof (tiles_total_nonneg _ _ _ _ Ht).
  destruct Hc as [[H8 _] _]. cbn in H8.
  rewrite (proj2 (Z.ltb_lt a tail)) by lia. cbv zeta. rewrite Hr.
  rewrite is_taken_word, get_size_word by done.
  destruct (IH fuel m (a + sz) tail ltac:(lia) Ht) as (l & -> & Hl & Hin).
  eexists. split; [reflexivity|]. split; [cbn; by rewrite Hl|].
  intros b z. cbn [live]. rewrite elem_of_cons, elem_of_app, Hin.
  destruct tk; rewrite ?list_elem_of_singleton, ?elem_of_nil; split; intros [E|]; auto;
    by simplify_eq; left.
Qed.

Lemma byte_zero_bytes m p k x :
  byte (zero_bytes m p k) x = if decide (p <= x < p + Z.of_nat k) then 0 else byte m x.
Proof.
  revert m p. induction k as [|k IH]; intros m p; cbn [zero_bytes].
  - by rewrite decide_False by lia.
  - rewrite IH, byte_store1. repeat case_decide; lia.
Qed.

(** A free chunk is still there after merging, perhaps as a part of a larger one. *)
Lemma merge_free cs z :
  Forall chunk_ok cs -> (false, z) ∈ cs -> exists z', (false, z') ∈ merge cs /\ z <= z'.
Proof.
  induction cs as [|c|s1 s2 cs IH|c d cs Hcd IH] using merge_ind; intros Hok Hin.
  - by apply elem_of_nil in Hin.
  - apply list_elem_of_singleton in Hin as <-. exists z. by split; [left|].
  - inversion Hok as [|? ? [H1 _] Hok1]; subst. inversion Hok1 as [|? ? [H2 _] Hok2]; subst.
    cbn in H1, H2. cbn [merge]. rewrite !elem_of_cons in Hin.
    destruct Hin as [[= ->]|[[= ->]|Hin]].
    + exists (s1 + s2). split; [by left|lia].
    + exists (s1 + s2). split; [by left|lia].
    + destruct (IH Hok2 Hin) as (z' & Hz & ?). exists z'. split; [by right|done].
  - inversion Hok as [|? ? _ Hok1]; subst. rewrite merge_keep by done.
    apply elem_of_cons in Hin as [<-|Hin].
    + exists z. by split; [left|].
    + destruct (IH Hok1 Hin) as (z' & Hz & ?). exists z'. split; [by right|done].
Qed.

Lemma tiles_chunk_ok m cs : forall a tail, tiles m a cs tail -> Forall chunk_ok cs.
Proof.
  induction cs as [|[tk sz] cs IH]; intros a tail; cbn; [constructor|].
  intros (_ & Hc & Ht). constructor; [done|by eapply IH].
Qed.

(** Where a live block sits among the chunks. *)
Lemma live_split cs b z : forall a, (b, z) ∈ live a cs ->
  exists c1 c2, cs = c1 ++ (true, z) :: c2 /\ b = a + total c1.
Proof.
  induction cs as [|[tk s] cs IH]; intros a Hin; cbn in Hin; [by apply elem_of_nil in Hin|].
  apply elem_of_app in Hin as [Hin|Hin].
  - destruct tk; [|by apply elem_of_nil in Hin]. apply list_elem_of_singleton in Hin.
    injection Hin as -> ->. exists [], cs. split; [done|]. cbn. lia.
  - destruct (IH _ Hin) as (c1 & c2 & -> & ->). exists ((tk, s) :: c1), c2.
    split; [done|]. cbn. lia.
Qed.

(** Freeing the chunk in the middle. *)
Lemma set_free_ok m a c1 z c2 tail :
  tiles m a (c1 ++ (true, z) :: c2) tail ->
  tiles (upd m (a + total c1) set_free) a (c1 ++ (false, z) :: c2) tail /\
  is_taken (rd64 m (a + total c1)) = true /\
  (forall x, x < a + total c1 \/ a + total c1 + z <= x ->
     byte (upd m (a + total c1) set_free) x = byte m x).
Proof.
  intros Ht. apply tiles_app in Ht as (H1 & Hr & Hc & H2).
  pose proof (chunk_size_ok _ _ Hc) as Hz. pose proof Hc as [[H8 _] _]. cbn in H8.
  split_and!.
  - apply tiles_app. split; [|cbn [tiles]; split_and!].
    + eapply tiles_frame; [|exact H1]. intros x Hx. apply byte_upd. lia.
    + rewrite rd64_upd; rewrite Hr, set_free_word by done; [done|by apply (word_range false)].
    + done.
    + eapply tiles_frame; [|exact H2]. intros x Hx. apply byte_upd. lia.
  - rewrite Hr. by apply is_taken_word.
  - intros x Hx. apply byte_upd. lia.
Qed.

Section Props.
Context `{Profile} `{Linker}.

(** The heap's pages are the chunks [cs]. *)
Record heap_ok (s : kernel) (cs : list chunk) : Prop := {
  heap_tiles : tiles (mem s) (KMEM_HEAD s) cs (KMEM_HEAD s + KMEM_ALLOC s * Page.PAGE_SIZE);
  heap_pos : 0 < KMEM_HEAD s;
  heap_max : 0 <= KMEM_ALLOC s * Page.PAGE_SIZE < 2 ^ 63;
}.

(** Header and payload of a request. *)
Definition need (sz : Z) : Z := (sz + 7) / 8 * 8 + 8.

Lemma align8_ok sz : 0 <= sz < 2 ^ 62 -> Page.align_val sz 3 = Done ((sz + 7) / 8 * 8).
Proof.
  intros Hs. destruct (Page.align_val_ok sz 3) as (r & -> & Hr & Hm); [lia..|].
  f_equal. change (2 ^ 3) with 8 in *.
  pose proof (Z.div_mod (sz + 7) 8 ltac:(lia)). pose proof (Z.mod_pos_bound (sz + 7) 8 ltac:(lia)).
  pose proof (Z.div_mod r 8 ltac:(lia)). lia.
Qed.

Lemma need_ok sz : 0 <= sz < 2 ^ 62 ->
  8 <= need sz /\ need sz mod 8 = 0 /\ sz + 8 <= need sz < sz + 16.
Proof.
  intros Hs. unfold need.
  pose proof (Z.div_mod (sz + 7) 8 ltac:(lia)). pose proof (Z.mod_pos_bound (sz + 7) 8 ltac:(lia)).
  split_and!; try lia. replace (_ + 8) with (((sz + 7) / 8 + 1) * 8) by lia. by apply Z.mod_mul.
Qed.

Lemma kmalloc_ok s cs fuel sz :
  heap_ok s cs -> (length cs < fuel)%nat -> 0 <= sz < 2 ^ 62 ->
  (kmalloc fuel sz s = Done (0, s) /\ Forall (fun c => fits (need sz) c = false) cs) \/
  (exists p m c1 z c2, kmalloc fuel sz s = Done (p, with_mem m s) /\
     taken_from (mem s) (KMEM_HEAD s) cs (KMEM_HEAD s + KMEM_ALLOC s * Page.PAGE_SIZE)
       (need sz) p m c1 z c2).
Proof.
  intros [Ht Hp Hm] Hf Hs. destruct (need_ok sz Hs) as (H8 & Hal & Hn).
  unfold kmalloc. erewrite bind_done by (apply lift_done, align8_ok; done).
  unfold sizeof_AllocList. fold (need sz).
  erewrite bind_done by (apply lift_done, uint_ok; lia).
  erewrite bind_done by reflexivity.
  erewrite bind_done by (apply lift_done, uint_ok; lia).
  destruct (kmalloc_loop_ok (need sz) H8 Hal cs fuel (mem s) (KMEM_HEAD s)
              (KMEM_HEAD s + KMEM_ALLOC s * Page.PAGE_SIZE) Hf Ht ltac:(lia))
    as [[E Hno]|(p & m & c1 & z & c2 & E & Htf)].
  - left. erewrite bind_done by (apply lift_done, E). split; [by destruct s|done].
  - right. exists p, m, c1, z, c2. erewrite bind_done by (apply lift_done, E). done.
Qed.

Lemma heap_ok_mem s m cs :
  heap_ok s cs -> forall cs',
  tiles m (KMEM_HEAD s) cs' (KMEM_HEAD s + KMEM_ALLOC s * Page.PAGE_SIZE) ->
  heap_ok (with_mem m s) cs'.
Proof. intros [_ Hp Hm] cs' Ht. by split. Qed.

(** The live blocks after a chunk was carved. *)
Lemma taken_live m a cs tail size p m' c1 z c2 :
  taken_from m a cs tail size p m' c1 z c2 ->
  live a (c1 ++ carve size z ++ c2) ≡ₚ
    (p - 8, if 8 <? z - size then size else z) :: live a cs.
Proof.
  intros [-> _ _ -> _ _]. rewrite !live_app, live_carve, total_carve. cbn [live app].
  replace (a + total c1 + 8 - 8) with (a + total c1) by lia.
  by rewrite <- Permutation_middle.
Qed.

(** A block in use lies outside of the chunk that was carved. *)
Lemma taken_sep m a cs tail size p m' c1 z c2 b v x :
  tiles m a cs tail -> taken_from m a cs tail size p m' c1 z c2 ->
  (b, v) ∈ live a cs -> b <= x < b + v -> x < p - 8 \/ p - 8 + z <= x.
Proof.
  intros Ht [-> _ _ -> _ _] Hin Hx.
  destruct (live_not_free _ _ b v _ _ Ht Hin) as (_ & _ & _ & Hfree).
  specialize (Hfree x Hx). rewrite in_free_app in Hfree.
  destruct (Z.lt_ge_cases x (a + total c1)); [lia|].
  destruct (Z.lt_ge_cases x (a + total c1 + z)); [|lia].
  destruct Hfree. right. left. split; [done|lia].
Qed.

Lemma coalesce_ok s cs fuel :
  heap_ok s cs -> (length cs < fuel)%nat ->
  exists m, coalesce fuel s = Done (tt, with_mem m s) /\
    tiles m (KMEM_HEAD s) (merge cs) (KMEM_HEAD s + KMEM_ALLOC s * Page.PAGE_SIZE) /\
    forall x, ~ in_free (KMEM_HEAD s) cs x -> byte m x = byte (mem s) x.
Proof.
  intros [Ht Hp Hm] Hf. unfold coalesce. erewrite bind_done by reflexivity.
  erewrite bind_done by (apply lift_done, uint_ok; lia).
  destruct (coalesce_loop_ok fuel cs (mem s) (KMEM_HEAD s)
              (KMEM_HEAD s + KMEM_ALLOC s * Page.PAGE_SIZE) Hf Ht ltac:(lia)) as (m & E & Ht' & Hb).
  exists m. erewrite bind_done by (apply lift_done, E). done.
Qed.

Lemma kfree_ok s c1 z c2 fuel :
  heap_ok s (c1 ++ (true, z) :: c2) -> (length (c1 ++ (true, z) :: c2) < fuel)%nat ->
  exists m, kfree fuel (KMEM_HEAD s + total c1 + 8) s = Done (tt, with_mem m s) /\
    heap_ok (with_mem m s) (merge (c1 ++ (false, z) :: c2)) /\
    forall x, ~ in_free (KMEM_HEAD s) (c1 ++ (false, z) :: c2) x -> byte m x = byte (mem s) x.
Proof.
  intros Hok Hf. pose proof Hok as [Ht Hp Hm].
  destruct (set_free_ok _ _ _ _ _ _ Ht) as (Ht' & Htk & Hout).
  pose proof (proj1 (proj1 (tiles_app _ _ _ _ _) Ht)) as Ht1. apply tiles_total_nonneg in Ht1.
  unfold kfree, sizeof_AllocList. rewrite (proj2 (Z.eqb_neq _ _)) by lia.
  rewrite Z.add_simpl_r. erewrite bind_done by reflexivity. rewrite Htk.
  set (s1 := with_mem _ s).
  assert (heap_ok s1 (c1 ++ (false, z) :: c2)) as Hok1 by by eapply heap_ok_mem.
  destruct (coalesce_ok s1 _ fuel Hok1) as (m & E & Hm' & Hb).
  { rewrite length_app in *. exact Hf. }
  exists m. split; [exact E|]. split; [by eapply heap_ok_mem|].
  intros x Hx. rewrite Hb by done. apply Hout.
  assert (~ (KMEM_HEAD s + total c1 <= x < KMEM_HEAD s + total c1 + z)) as Hn; [|lia].
  intros Hin. apply Hx, in_free_app. right. by left.
Qed.
End Props.
End KmemProps.
