(* ===== verification/KmemSpec.v ===== *)
(** * What the kernel heap promises

    Theorems about kmem.rs and buffer.rs.  The abstract state is the
    collection [live] of blocks that are taken; everything else in the heap
    belongs to nobody. *)

From S2P Require Import Prelude Memory Cpu PageAlloc PageProps Kmem KmemFacts KmemProps.
Import Mem PageProps Kmem KmemFacts KmemProps.

Module KmemSpec.
Section Spec.
Context `{Profile} `{Linker}.

(** The blocks in use. *)
Abbreviation blocks s cs := (live (KMEM_HEAD s) cs).

(** Every byte of the blocks is the same in both states. *)
Definition kept (bs : list (Z * Z)) (s s' : kernel) : Prop :=
  forall b z x, (b, z) ∈ bs -> b <= x < b + z -> byte (mem s') x = byte (mem s) x.

(** C6: kmalloc takes the first free chunk that is large enough, or returns null
    with nothing changed when there is none; the new block lies in the heap, the
    blocks in use are the old ones and this one, and the old ones keep their bytes.
    *)
Theorem kmalloc_takes_first_fit s cs fuel sz :
  heap_ok s cs -> (length cs < fuel)%nat -> 0 <= sz < 2 ^ 62 ->
  (kmalloc fuel sz s = Done (0, s) /\ Forall (fun c => fits (need sz) c = false) cs) \/
  (exists p s' c1 z c2 cs' bsz, kmalloc fuel sz s = Done (p, s') /\
     cs = c1 ++ (false, z) :: c2 /\ Forall (fun c => fits (need sz) c = false) c1 /\
     p = KMEM_HEAD s + total c1 + 8 /\
     heap_ok s' cs' /\ blocks s' cs' ≡ₚ (p - 8, bsz) :: blocks s cs /\
     sz + 8 <= bsz /\ p - 8 + bsz <= KMEM_HEAD s + KMEM_ALLOC s * Page.PAGE_SIZE /\
     kept (blocks s cs) s s').
Proof.
  intros Hok Hf Hs. destruct (kmalloc_ok s cs fuel sz Hok Hf Hs)
    as [|(p & m & c1 & z & c2 & E & Htf)]; [by left|right].
  pose proof Htf as [Ecs Hfirst Hfit Hp Ht Hout]. destruct (need_ok sz Hs) as (_ & _ & Hn).
  pose proof (taken_live _ _ _ _ _ _ _ _ _ _ Htf) as Hlive.
  destruct (live_not_free _ _ (p - 8) (if 8 <? z - need sz then need sz else z) _ _ Ht)
    as (_ & _ & Hend & _); [rewrite Hlive; by left|].
  eexists p, (with_mem m s), c1, z, c2, _, _. split_and!;
    [exact E|done|done|done|by eapply heap_ok_mem|exact Hlive| |exact Hend|].
  - destruct (Z.ltb_spec 8 (z - need sz)); lia.
  - intros b w x Hin Hx. cbn [mem with_mem]. apply Hout.
    pose proof (taken_sep _ _ _ _ _ _ _ _ _ _ b w x (heap_tiles _ _ Hok) Htf Hin Hx). lia.
Qed.

(** C20: kfree of a block in use returns, takes exactly that block out of the blocks
    in use, and keeps the heap well formed and the bytes of the other blocks;
    merging free neighbours moves nothing. *)
Theorem kfree_releases_block s cs fuel b z :
  heap_ok s cs -> (length cs < fuel)%nat -> (b, z) ∈ blocks s cs ->
  exists s' cs', kfree fuel (b + 8) s = Done (tt, s') /\ heap_ok s' cs' /\
    blocks s cs ≡ₚ (b, z) :: blocks s' cs' /\ total cs' = total cs /\
    kept (blocks s' cs') s s'.
Proof.
  intros Hok Hf Hin. destruct (live_split _ _ _ _ Hin) as (c1 & c2 & -> & ->).
  destruct (kfree_ok s c1 z c2 fuel Hok Hf) as (m & E & Hok' & Hb).
  destruct (merge_live (c1 ++ (false, z) :: c2) (KMEM_HEAD s)) as [Hl Htot].
  eexists _, _. split_and!; [exact E|exact Hok'|..]; cbn [KMEM_HEAD with_mem].
  - rewrite Hl, !live_app. cbn [live app]. by rewrite <- Permutation_middle.
  - rewrite Htot, !total_app. done.
  - intros b w x Hin' Hx. cbn [mem with_mem]. apply Hb. rewrite Hl in Hin'.
    pose proof (heap_tiles _ _ Hok) as Ht. apply set_free_ok in Ht as (Ht & _ & _).
    by destruct (live_not_free _ _ b w _ _ Ht Hin') as (_ & _ & _ & Hfree); apply Hfree.
Qed.

(** A freed block can be had again: after kfree, kmalloc of any size that
    fitted the block succeeds. *)
Theorem kmalloc_after_kfree s cs fuel b z sz :
  heap_ok s cs -> (length cs < fuel)%nat -> (b, z) ∈ blocks s cs -> 0 <= sz < 2 ^ 62 ->
  need sz <= z ->
  exists s1 p s2, kfree fuel (b + 8) s = Done (tt, s1) /\
    kmalloc fuel sz s1 = Done (p, s2) /\ p <> 0.
Proof.
  intros Hok Hf Hin Hs Hz. destruct (live_split _ _ _ _ Hin) as (c1 & c2 & -> & ->).
  destruct (kfree_ok s c1 z c2 fuel Hok Hf) as (m & E & Hok' & _).
  pose proof (heap_tiles _ _ Hok) as Ht. apply set_free_ok in Ht as (Ht & _ & _).
  destruct (merge_free (c1 ++ (false, z) :: c2) z) as (z' & Hz' & Hle);
    [by eapply tiles_chunk_ok|rewrite elem_of_app; right; by left|].
  eexists. destruct (kmalloc_ok (with_mem m s) _ fuel sz Hok') as [[_ Hno]|(p & m' & d1 & w & d2 & E' & Htf)].
  - pose proof (merge_length (c1 ++ (false, z) :: c2)). rewrite !length_app in *. cbn in *. lia.
  - done.
  - rewrite Forall_forall in Hno. specialize (Hno _ Hz'). unfold fits in Hno.
    cbn [fst snd negb andb] in Hno. apply Z.leb_gt in Hno. lia.
  - exists p, (with_mem m' (with_mem m s)). split_and!; [exact E|exact E'|].
    rewrite (tf_ptr _ _ _ _ _ _ _ _ _ _ Htf). pose proof (heap_pos _ _ Hok').
    pose proof (tf_tiles _ _ _ _ _ _ _ _ _ _ Htf) as Ht'. apply tiles_app in Ht' as [Ht' _].
    apply tiles_total_nonneg in Ht'. lia.
Qed.

(** ** Zeroed blocks *)

(** Writing the payload of a taken chunk leaves the chunks as they are. *)
Lemma tiles_payload m m' a c1 w c2 tail :
  tiles m a (c1 ++ (true, w) :: c2) tail ->
  (forall x, x < a + total c1 + 8 \/ a + total c1 + w <= x -> byte m' x = byte m x) ->
  tiles m' a (c1 ++ (true, w) :: c2) tail.
Proof.
  rewrite !tiles_app. intros (H1 & Hr & Hc & H2) Hb. pose proof Hc as [[H8 _] _]. cbn in H8.
  split; [|cbn [tiles]; split_and!].
  - eapply tiles_frame; [|exact H1]. intros x Hx. apply Hb. lia.
  - rewrite <- Hr. apply rd64_ext. intros x Hx. apply Hb. lia.
  - done.
  - eapply tiles_frame; [|exact H2]. intros x Hx. apply Hb. lia.
Qed.

Lemma carve_head size z : exists r,
  carve size z = (true, if 8 <? z - size then size else z) :: r.
Proof. unfold carve. destruct (_ <? _); eauto. Qed.

Lemma kmalloc_rounded fuel sz s :
  0 <= sz < 2 ^ 62 - 8 -> kmalloc fuel ((sz + 7) / 8 * 8) s = kmalloc fuel sz s.
Proof.
  intros Hs. pose proof (Z.div_mod (sz + 7) 8 ltac:(lia)).
  pose proof (Z.mod_pos_bound (sz + 7) 8 ltac:(lia)).
  unfold kmalloc. rewrite !align8_ok by lia. do 3 f_equal.
  replace ((sz + 7) / 8 * 8 + 7) with (7 + (sz + 7) / 8 * 8) by lia.
  by rewrite Z.div_add by lia.
Qed.

(** kzmalloc returns what kmalloc returns; the block's bytes, up to the size
    rounded up to eight, are zero, the heap stays well formed and the other blocks
    keep their bytes. *)
Theorem kzmalloc_zeroes_block s cs fuel sz p s1 :
  heap_ok s cs -> (length cs < fuel)%nat -> 0 <= sz < 2 ^ 62 - 8 ->
  kmalloc fuel sz s = Done (p, s1) -> p <> 0 ->
  exists s2 cs' bsz, kzmalloc fuel sz s = Done (p, s2) /\ heap_ok s2 cs' /\
    blocks s2 cs' ≡ₚ (p - 8, bsz) :: blocks s cs /\
    (forall x, p <= x < p + (sz + 7) / 8 * 8 -> byte (mem s2) x = 0) /\
    kept (blocks s cs) s s2.
Proof.
  intros Hok Hf Hs E Hp. pose proof (kmalloc_rounded fuel sz s Hs) as Er.
  destruct (kmalloc_ok s cs fuel sz Hok Hf ltac:(lia))
    as [[E' _]|(p' & m & c1 & z & c2 & E' & Htf)]; rewrite E' in E; injection E as <- <-; [done|].
  pose proof Htf as [Ecs Hfirst Hfit Hptr Ht Hout].
  pose proof (taken_live _ _ _ _ _ _ _ _ _ _ Htf) as Hlive.
  destruct (carve_head (need sz) z) as [r Er2]. set (w := if 8 <? z - need sz then need sz else z) in *.
  assert (need sz <= w) as Hw by (unfold w; destruct (8 <? z - need sz); lia).
  destruct (need_ok sz ltac:(lia)) as (H8 & _ & Hn).
  set (sz8 := (sz + 7) / 8 * 8) in *. assert (need sz = sz8 + 8) as Esz by done.
  set (m2 := zero_bytes m p' (Z.to_nat sz8)).
  assert (forall x, byte m2 x = if decide (p' <= x < p' + sz8) then 0 else byte m x) as Hm2
    by (intros x; unfold m2; rewrite byte_zero_bytes, Z2Nat.id by lia; done).
  exists (with_mem m2 s), (c1 ++ carve (need sz) z ++ c2), w. split_and!.
  - unfold kzmalloc. erewrite bind_done by (apply lift_done, align8_ok; lia). fold sz8.
    erewrite bind_done by (rewrite Er; exact E').
    rewrite (proj2 (Z.eqb_neq _ _) Hp). by erewrite bind_done by reflexivity.
  - eapply heap_ok_mem; [exact Hok|]. rewrite Er2 in *. cbn [app] in *.
    eapply tiles_payload; [exact Ht|]. intros x Hx. rewrite Hm2, decide_False by lia. done.
  - exact Hlive.
  - intros x Hx. cbn [mem with_mem]. rewrite Hm2. by rewrite decide_True by done.
  - intros b v x Hin Hx. cbn [mem with_mem].
    pose proof (taken_sep _ _ _ _ _ _ _ _ _ _ b v x (heap_tiles _ _ Hok) Htf Hin Hx).
    rewrite Hm2, decide_False by (unfold w in Hw; destruct (8 <? z - need sz); lia).
    apply Hout. lia.
Qed.

(** ** Setting the heap up *)

(** After init the heap is one free chunk of 2048 pages, in pages the page
    allocator has marked as taken. *)
Theorem init_one_chunk s t n :
  PageProps.page_ok s t -> n = Z.to_nat 2048 ->
  (exists i, i + 2048 < HEAP_SIZE / Page.PAGE_SIZE /\ Page.room_at t i n) ->
  exists s' t1 t2, init s = Done (tt, s') /\ heap_ok s' [(false, 2048 * Page.PAGE_SIZE)] /\
    PageProps.page_ok s' (t1 ++ [Page.Run n] ++ t2) /\
    KMEM_HEAD s' = PageProps.page_addr s' (Page.pages_of t1).
Proof.
  intros Hok En (i & Hi & Hroom).
  assert (Z.of_nat n = 2048) as En' by (subst; done). clear En.
  pose proof (Page.room_free _ _ _ Hroom) as (_ & Hi0 & _).
  set (s0 := mkKernel (mem s) (ALLOC_START s) (KMEM_HEAD s) 2048 (KMEM_PAGE_TABLE s)).
  pose proof (page_ok_globals s t (KMEM_HEAD s) 2048 (KMEM_PAGE_TABLE s) Hok) as Hok0.
  fold s0 in Hok0. pose proof Hok0 as [_ _ _ Hb Hmax Hpos].
  pose proof (zalloc_cases s0 t n Hok0 ltac:(lia) ltac:(lia)) as Hc. rewrite En' in Hc.
  destruct Hc as [[_ Hno]|(m & t1 & t2 & E & Et & Hok1 & Hm)]; [by destruct (Hno i Hi)|].
  assert (0 <= Page.pages_of t1) as Ht1 by (unfold Page.pages_of; lia).
  set (p := page_addr s0 (Page.pages_of t1)) in *.
  assert (ALLOC_START s <= p) as Hp by (unfold p, page_addr, Page.PAGE_SIZE; cbn; lia).
  cbn [s0 ALLOC_START] in Hb, Hmax.
  set (m2 := upd (upd m p set_free) p (fun v => set_size v (2048 * Page.PAGE_SIZE))).
  set (s2 := mkKernel m2 (ALLOC_START s) p 2048 (KMEM_PAGE_TABLE s)).
  assert (rd64 m2 p = word false (2048 * Page.PAGE_SIZE)) as Hr by (by apply rd64_new_free).
  assert (page_ok s2 (t1 ++ [Page.Run n] ++ t2)) as Hok2.
  { apply (page_ok_globals (with_mem m2 (with_mem m s0))), page_ok_above; [done|].
    intros x Hx. cbn [mem with_mem ALLOC_START] in *. unfold m2. rewrite !byte_upd by (cbn in Hx; lia).
    done. }
  destruct (zalloc_one s2 t1 n t2 Hok2 ltac:(lia)) as (p2 & m3 & u1 & u2 & E3 & Hok3 & Hu & Hm3).
  exists (mkKernel m3 (ALLOC_START s) p 2048 p2), u1, u2. split_and!.
  - unfold init. do 2 erewrite bind_done by reflexivity.
    erewrite bind_done by exact E. fold s0 p.
    erewrite bind_done by (apply lift_done, assert_true; rewrite (proj2 (Z.eqb_neq _ _)) by lia; done).
    do 2 erewrite bind_done by reflexivity.
    erewrite bind_done by (apply lift_done, uint_ok; by vm_compute).
    erewrite bind_done by reflexivity. cbn [with_mem mem KMEM_HEAD ALLOC_START KMEM_ALLOC KMEM_PAGE_TABLE s0].
    erewrite bind_done by exact E3. done.
  - split; [|cbn; lia|done]. cbn [tiles mem KMEM_HEAD KMEM_ALLOC]. split_and!; [|by split|done].
    rewrite <- Hr. apply rd64_ext. intros x Hx. apply Hm3. unfold page_addr.
    cbn [s2 ALLOC_START]. unfold p, page_addr, Page.PAGE_SIZE in *. cbn [s0 ALLOC_START] in *. lia.
  - apply (page_ok_globals (with_mem m3 s2)). exact Hok3.
  - by rewrite Hu.
Qed.

(** ** Buffers *)

(** The bytes a [memcpy] of a whole list over another one leaves. *)
Lemma memcpy_whole d l n :
  zlen d = n -> zlen l = n -> exists d', Cpu.memcpy d 0 l 0 n = Done d' /\ zlen d' = n /\
    (forall j, 0 <= j < Cpu.memcpy_len n -> nthZ d' j = nthZ l j) /\
    (forall j, Cpu.memcpy_len n <= j -> nthZ d' j = nthZ d j).
Proof.
  intros Ld Ll. pose proof (Cpu.memcpy_len_bounds n ltac:(lia)) as Hb.
  destruct (Cpu.memcpy_spec d 0 l 0 n) as (x & d' & Hx & Hd & E); try lia.
  pose proof (slice_length _ _ _ _ Hx) as Lx. pose proof (splice_length _ _ _ _ Hd) as Ld'.
  exists d'. split_and!; [done|lia|..]; intros j Hj.
  - rewrite (splice_nth _ _ _ _ _ Hd), decide_True by lia.
    rewrite (slice_nth _ _ _ _ _ Hx) by lia. f_equal. lia.
  - destruct (Z.lt_ge_cases j (zlen d)).
    + rewrite (splice_nth _ _ _ _ _ Hd), decide_False by lia. done.
    + unfold nthZ. rewrite !lookup_ge_None_2 by lia. done.
Qed.

(** A clone of a buffer has a block of its own with the bytes of the original,
    as many as memcpy copies; the blocks in use before keep their bytes. *)
Theorem Buffer_clone_copies s cs fuel b z n p s1 :
  heap_ok s cs -> (length cs < fuel)%nat -> (b, z) ∈ blocks s cs ->
  0 <= n <= z - 8 -> n < 2 ^ 62 -> kmalloc fuel n s = Done (p, s1) -> p <> 0 ->
  exists s2 cs' bsz, Buffer_clone fuel (mkBuffer (b + 8) n) s = Done (mkBuffer p n, s2) /\
    heap_ok s2 cs' /\ blocks s2 cs' ≡ₚ (p - 8, bsz) :: blocks s cs /\
    (forall j, 0 <= j < Cpu.memcpy_len n ->
       byte (mem s2) (p + j) = byte (mem s) (b + 8 + j)) /\
    kept (blocks s cs) s s2.
Proof.
  intros Hok Hf Hin Hn Hmax E Hp.
  destruct (kmalloc_ok s cs fuel n Hok Hf ltac:(lia))
    as [[E' _]|(p' & m & c1 & w & c2 & E' & Htf)]; rewrite E' in E; injection E as <- <-; [done|].
  pose proof Htf as [Ecs Hfirst Hfit Hptr Ht Hout].
  pose proof (taken_live _ _ _ _ _ _ _ _ _ _ Htf) as Hlive.
  destruct (carve_head (need n) w) as [r Er2].
  set (bsz := if 8 <? w - need n then need n else w) in *.
  assert (need n <= bsz <= w) as Hw by (unfold bsz; destruct (Z.ltb_spec 8 (w - need n)); lia).
  destruct (need_ok n ltac:(lia)) as (H8 & _ & Hnn).
  pose proof (fun b v x =>
    taken_sep _ _ _ _ _ _ _ _ _ _ b v x (heap_tiles _ _ Hok) Htf) as Hsep.
  destruct (memcpy_whole (bytes_at (byte m) p' n) (bytes_at (byte m) (b + 8) n) n)
    as (d & Ed & Ld & Hcopy & _); [rewrite length_bytes_at; lia..|].
  exists (with_mem (store m p' d) s), (c1 ++ carve (need n) w ++ c2), bsz.
  assert (forall x, x < p' \/ p' + n <= x -> byte (store m p' d) x = byte m x) as Hst.
  { intros x Hx. rewrite byte_store. unfold upd_bytes. by rewrite decide_False by lia. }
  pose proof (Cpu.memcpy_len_bounds n ltac:(lia)) as Hml. split_and!.
  - unfold Buffer_clone. cbn [len buffer]. erewrite bind_done by exact E'.
    destruct (live_not_free _ _ _ _ _ _ (heap_tiles _ _ Hok) Hin) as [Hb _].
    pose proof (heap_pos _ _ Hok).
    rewrite (proj2 (Z.eqb_neq p' 0) Hp), (proj2 (Z.eqb_neq (b + 8) 0)), orb_true_r by lia.
    erewrite bind_done by reflexivity. erewrite bind_done by reflexivity. cbn [mem with_mem].
    by erewrite bind_done by (apply lift_done, Ed).
  - eapply heap_ok_mem; [exact Hok|]. rewrite Er2 in *. cbn [app] in *.
    eapply tiles_payload; [exact Ht|]. intros x Hx. apply Hst. lia.
  - exact Hlive.
  - intros j Hj. cbn [mem with_mem]. rewrite byte_store. unfold upd_bytes.
    rewrite decide_True by lia. rewrite Z.add_simpl_l, Hcopy by lia.
    rewrite nth_bytes_at by lia. apply Hout.
    destruct (Hsep b z (b + 8 + j) Hin ltac:(lia)); lia.
  - intros b' v x Hin' Hx. cbn [mem with_mem].
    pose proof (Hsep b' v x Hin' Hx). rewrite Hst by lia. apply Hout. lia.
Qed.

(** [print_table] walks the whole heap and prints every chunk once. *)
Theorem print_table_lists_chunks s cs fuel :
  heap_ok s cs -> (length cs < fuel)%nat ->
  exists l, print_table fuel s = Done (l, s) /\
    (fun e => (e.2, e.1.2)) <$> l = cs /\
    forall b z, (b, z, true) ∈ l <-> (b, z) ∈ blocks s cs.
Proof.
  intros [Ht Hp Hm] Hf. unfold print_table. erewrite bind_done by reflexivity.
  erewrite bind_done by (apply lift_done, uint_ok; lia).
  destruct (table_loop_ok cs fuel (mem s) (KMEM_HEAD s) _ Hf Ht) as (l & E & Hl & Hin).
  exists l. split; [by apply lift_done|done].
Qed.
End Spec.
End KmemSpec.
