(* ===== verification/KmemExample.v ===== *)
(** * A heap of one page with one block in use *)

From S2P Require Import Prelude Memory Cpu PageAlloc PageProps Kmem KmemFacts KmemProps KmemSpec.
Import Mem PageProps Kmem KmemFacts KmemProps KmemSpec.

Module KmemExample.

#[local] Existing Instance dev.
Definition heap16M : Linker := {| HEAP_START := 0x80080000; HEAP_SIZE := 4096 * 4096 |}.
#[local] Existing Instance heap16M.

Definition chunks : list (bool * Z) := [(true, 64); (false, 4032)].
Definition heap : kernel :=
  mkKernel (wr64 (wr64 ∅ 8192 (word true 64)) 8256 (word false 4032)) 4096 8192 1 0.

Lemma chunks_ok : heap_ok heap chunks.
Proof.
  split; [|done|done]. cbn [tiles chunks].
  split_and!; (by vm_compute) || (split; by vm_compute).
Qed.

Definition heap2 : kernel :=
  match kmalloc 3 20 heap with Done (_, s') => s' | _ => heap end.

Lemma kmalloc20 : kmalloc 3 20 heap = Done (8264, heap2).
Proof. vm_compute. reflexivity. Qed.

Lemma kmalloc_takes_first_fit_witness :
  kmalloc 3 20 heap = Done (0, heap) \/
  exists p s' cs' bsz, kmalloc 3 20 heap = Done (p, s') /\ heap_ok s' cs' /\
    live 8192 cs' ≡ₚ [(p - 8, bsz); (8192, 64)].
Proof.
  destruct (kmalloc_takes_first_fit heap chunks 3 20 chunks_ok) as
    [[E _]|(p & s' & c1 & z & c2 & cs' & bsz & E & _ & _ & _ & Hok & Hl & _)];
    [cbn; lia|lia|left; exact E|right].
  exists p, s', cs', bsz. split; [exact E|]. split; [exact Hok|].
  assert (KMEM_HEAD s' = 8192) as Eh by (rewrite kmalloc20 in E; injection E as _ <-; calc).
  rewrite Eh in Hl. exact Hl.
Defined.

Lemma kfree_releases_block_witness :
  exists s' cs', kfree 3 8200 heap = Done (tt, s') /\ heap_ok s' cs' /\ total cs' = 4096.
Proof.
  destruct (kfree_releases_block heap chunks 3 8192 64 chunks_ok) as (s' & cs' & E & Hok & _ & Ht & _).
  - cbn. lia.
  - by left.
  - exists s', cs'. split; [exact E|]. split; [exact Hok|exact Ht].
Defined.

Lemma kmalloc_after_kfree_witness :
  exists s1 p s2, kfree 3 8200 heap = Done (tt, s1) /\ kmalloc 3 40 s1 = Done (p, s2) /\ p <> 0.
Proof.
  destruct (kmalloc_after_kfree heap chunks 3 8192 64 40 chunks_ok) as (s1 & p & s2 & E1 & E2 & Hp).
  - cbn. lia.
  - by left.
  - lia.
  - by vm_compute.
  - exists s1, p, s2. split; [exact E1|]. split; [exact E2|exact Hp].
Defined.

Lemma kzmalloc_zeroes_block_witness :
  exists s2, kzmalloc 3 20 heap = Done (8264, s2) /\ byte (mem s2) 8270 = 0.
Proof.
  destruct (kzmalloc_zeroes_block heap chunks 3 20 8264 heap2 chunks_ok) as (s2 & _ & _ & E & _ & _ & Hz & _).
  - cbn. lia.
  - lia.
  - exact kmalloc20.
  - lia.
  - exists s2. split; [exact E|]. apply Hz. calc.
Defined.

Lemma init_one_chunk_witness :
  exists s s', init s = Done (tt, s') /\ heap_ok s' [(false, 2048 * Page.PAGE_SIZE)].
Proof.
  exists (mkKernel ∅ (0x80080000 + 4096) 0 0 0).
  destruct (init_one_chunk (mkKernel ∅ (0x80080000 + 4096) 0 0 0)
              (Page.frees (Z.to_nat (HEAP_SIZE / Page.PAGE_SIZE))) (Z.to_nat 2048))
    as (s' & t1 & t2 & E & Hok & _).
  - apply init_table; [by vm_compute..|]. intros x _. reflexivity.
  - reflexivity.
  - exists 0. split; [by vm_compute|]. exists [], (Page.frees (Z.to_nat 2048)).
    split; [|reflexivity]. unfold Page.frees. rewrite app_nil_l, <- replicate_add. f_equal.
  - exists s'. split; [exact E|exact Hok].
Defined.

Lemma Buffer_clone_copies_witness :
  exists s2, Buffer_clone 3 (mkBuffer 8200 20) heap = Done (mkBuffer 8264 20, s2) /\
    byte (mem s2) 8270 = byte (mem heap) 8206.
Proof.
  assert (kmalloc 3 20 heap = Done (8264, heap2)) as E0 by exact kmalloc20.
  destruct (Buffer_clone_copies heap chunks 3 8192 64 20 8264 heap2 chunks_ok)
    as (s2 & _ & _ & E & _ & _ & Hb & _).
  - cbn. lia.
  - by left.
  - lia.
  - lia.
  - exact E0.
  - lia.
  - exists s2. split; [exact E|]. change 8270 with (8264 + 6). rewrite Hb by calc. reflexivity.
Defined.

Lemma print_table_lists_chunks_witness :
  exists l, print_table 3 heap = Done (l, heap) /\ (8192, 64, true) ∈ l.
Proof.
  destruct (print_table_lists_chunks heap chunks 3 chunks_ok) as (l & E & _ & Hl); [cbn; lia|].
  exists l. split; [exact E|]. apply Hl. by left.
Defined.
End KmemExample.
