(* ===== verification/Mmu.v ===== *)
(** * page.rs: page tables (Sv39)

    A table is 512 words of memory; an entry holds a physical page number
    and permission bits. *)

From S2P Require Import Prelude Memory PageAlloc.
Import Mem.

Module Mmu.

Inductive EntryBits :=
| None_ | Valid | Read | Write | Execute | User | Global | Access | Dirty
| ReadWrite | ReadExecute | ReadWriteExecute
| UserReadWrite | UserReadExecute | UserReadWriteExecute.

Definition EntryBits_val (b : EntryBits) : Z :=
  match b with
  | None_ => 0
  | Valid => Z.shiftl 1 0
  | Read => Z.shiftl 1 1
  | Write => Z.shiftl 1 2
  | Execute => Z.shiftl 1 3
  | User => Z.shiftl 1 4
  | Global => Z.shiftl 1 5
  | Access => Z.shiftl 1 6
  | Dirty => Z.shiftl 1 7
  | ReadWrite => Z.lor (Z.shiftl 1 1) (Z.shiftl 1 2)
  | ReadExecute => Z.lor (Z.shiftl 1 1) (Z.shiftl 1 3)
  | ReadWriteExecute => Z.lor (Z.lor (Z.shiftl 1 1) (Z.shiftl 1 2)) (Z.shiftl 1 3)
  | UserReadWrite => Z.lor (Z.lor (Z.shiftl 1 1) (Z.shiftl 1 2)) (Z.shiftl 1 4)
  | UserReadExecute => Z.lor (Z.lor (Z.shiftl 1 1) (Z.shiftl 1 3)) (Z.shiftl 1 4)
  | UserReadWriteExecute =>
      Z.lor (Z.lor (Z.lor (Z.shiftl 1 1) (Z.shiftl 1 2)) (Z.shiftl 1 3)) (Z.shiftl 1 4)
  end.

(** ** Entries *)

Definition is_valid (entry : Z) : bool := negb (Z.land entry (EntryBits_val Valid) =? 0).
Definition is_invalid (entry : Z) : bool := negb (is_valid entry).
Definition is_leaf (entry : Z) : bool := negb (Z.land entry 0xe =? 0).
Definition is_branch (entry : Z) : bool := negb (is_leaf entry).

Definition Table_len : Z := 512.

(** Entry [i] of the table at [root]. *)
Definition entry_addr (root i : Z) : Z := root + 8 * i.

(** [(entry & !0x3ff) << 2] *)
Definition next_table (entry : Z) : Z :=
  as_u64 (Z.shiftl (Z.land entry (unot 64 0x3ff)) 2).

Definition vpn (vaddr i : Z) : Z := Z.land (Z.shiftr vaddr (12 + 9 * i)) 0x1ff.

Definition ppn (paddr i : Z) : Z :=
  if i =? 2 then Z.land (Z.shiftr paddr 30) 0x3ffffff
  else Z.land (Z.shiftr paddr (12 + 9 * i)) 0x1ff.

(** The entry of a leaf for [paddr]. *)
Definition leaf_entry (paddr bits : Z) : Z :=
  Z.lor (Z.lor (Z.lor (Z.lor (Z.lor (Z.lor (Z.shiftl (ppn paddr 2) 28)
    (Z.shiftl (ppn paddr 1) 19)) (Z.shiftl (ppn paddr 0) 10)) bits)
    (EntryBits_val Valid)) (EntryBits_val Dirty)) (EntryBits_val Access).

Section Mmu.
Context `{Profile} `{Linker}.
Abbreviation K := (M kernel).

(** The levels of [(level..2).rev()]. *)
Definition levels_down (level : Z) : list Z :=
  if level =? 0 then [1; 0] else if level =? 1 then [1] else [].

(** The body of the loop of [map]: [v] points to an entry; the result to
    the entry one level down. *)
Definition map_step (vaddr i v : Z) : K Z :=
  e ← gets (fun s => rd64 (mem s) v);
  _ ← (if negb (is_valid e) then
         page ← Page.zalloc 1;
         modify (fun s => with_mem
           (wr64 (mem s) v (Z.lor (Z.shiftr page 2) (EntryBits_val Valid))) s)
       else mret tt);
  e ← gets (fun s => rd64 (mem s) v);
  let p := entry_addr (next_table e) (vpn vaddr i) in
  _ ← lift (unwrap (if p =? 0 then None else Some tt));
  mret p.

Fixpoint map_walk (vaddr : Z) (levels : list Z) (v : Z) : K Z :=
  match levels with
  | [] => mret v
  | i :: levels' => v' ← map_step vaddr i v; map_walk vaddr levels' v'
  end.

Definition map (root vaddr paddr bits level : Z) : K unit :=
  _ ← lift (assert_ (negb (Z.land bits 0xe =? 0)));
  v ← map_walk vaddr (levels_down level) (entry_addr root (vpn vaddr 2));
  modify (fun s => with_mem (wr64 (mem s) v (leaf_entry paddr bits)) s).

(** [for lv1 in 0..Table::len()] *)
Fixpoint unmap_lv1 (fuel : nat) (table_lv1 : Z) (k : nat) (lv1 : Z) : K unit :=
  match k with
  | O => mret tt
  | S k' =>
      e ← gets (fun s => rd64 (mem s) (entry_addr table_lv1 lv1));
      _ ← (if is_valid e && is_branch e then Page.dealloc fuel (next_table e) else mret tt);
      unmap_lv1 fuel table_lv1 k' (lv1 + 1)
  end.

(** [for lv2 in 0..Table::len()] *)
Fixpoint unmap_lv2 (fuel : nat) (root : Z) (k : nat) (lv2 : Z) : K unit :=
  match k with
  | O => mret tt
  | S k' =>
      e ← gets (fun s => rd64 (mem s) (entry_addr root lv2));
      _ ← (if is_valid e && is_branch e then
             let memaddr_lv1 := next_table e in
             _ ← lift (unwrap (if memaddr_lv1 =? 0 then None else Some tt));
             _ ← unmap_lv1 fuel memaddr_lv1 512 0;
             Page.dealloc fuel memaddr_lv1
           else mret tt);
      unmap_lv2 fuel root k' (lv2 + 1)
  end.

(** [fuel] bounds the pages of one allocation, see [Page.dealloc]. *)
Definition unmap (fuel : nat) (root : Z) : K unit := unmap_lv2 fuel root 512 0.

(** [for i in (0..=2).rev()]; the index [i - 1] of level 0 is out of range. *)
Fixpoint walk (m : memory) (vaddr : Z) (k : nat) (v : Z) : outcome (option Z) :=
  let e := rd64 m v in
  let i := Z.of_nat k in
  if is_invalid e then Done None
  else if is_leaf e then
    let off_mask := Z.shiftl 1 (12 + i * 9) - 1 in
    let vaddr_pgoff := Z.land vaddr off_mask in
    let addr := Z.land (as_u64 (Z.shiftl e 2)) (unot 64 off_mask) in
    Done (Some (Z.lor addr vaddr_pgoff))
  else
    match k with
    | O => Panic
    | S k' =>
        let p := entry_addr (next_table e) (vpn vaddr (i - 1)) in
        _ ← unwrap (if p =? 0 then None else Some tt);
        walk m vaddr k' p
    end.

Definition virt_to_phys (m : memory) (root vaddr : Z) : outcome (option Z) :=
  walk m vaddr 2 (entry_addr root (vpn vaddr 2)).
End Mmu.
End Mmu.
