(* ===== verification/MmuFacts.v ===== *)
(** * Page-table entries, bit by bit *)

From S2P Require Import Prelude Memory PageAlloc Mmu.
Import Mem Mmu.

Module MmuFacts.

(** ** Bits of masks and shifts, at any index *)

Lemma ones_bit x k n : 0 <= k -> Z.testbit (Z.land x (Z.ones k)) n = Z.testbit x n && (n <? k).
Proof.
  intros Hk. rewrite Z.land_spec, Z.testbit_ones by lia.
  destruct (Z.leb_spec 0 n); [done|]. by rewrite !Z.testbit_neg_r by lia.
Qed.

Lemma shiftr_bit x k n :
  Z.testbit (Z.shiftr x k) n = (0 <=? n) && Z.testbit x (n + k).
Proof.
  destruct (Z.leb_spec 0 n); cbn; [by rewrite Z.shiftr_spec|by rewrite Z.testbit_neg_r].
Qed.

Lemma small_bit x k n : 0 <= x < 2 ^ k -> k <= n -> Z.testbit x n = false.
Proof.
  intros Hx Hn. destruct (Z.eq_dec x 0) as [->|]; [apply Z.bits_0|].
  apply Z.bits_above_log2; [lia|]. apply Z.lt_le_trans with k; [|done].
  apply Z.log2_lt_pow2; lia.
Qed.

(** Rounding down to a multiple of [2 ^ k]. *)
Lemma round_bit x k n : 0 <= k -> 0 <= n ->
  Z.testbit (x / 2 ^ k * 2 ^ k) n = Z.testbit x n && (k <=? n).
Proof.
  intros Hk Hn. rewrite <- Z.shiftr_div_pow2, <- Z.shiftl_mul_pow2, Z.shiftl_spec by lia.
  rewrite shiftr_bit. replace (n - k + k) with n by lia.
  destruct (Z.leb_spec k n), (Z.leb_spec 0 (n - k)); try lia;
    by rewrite ?andb_true_r, ?andb_false_r.
Qed.

Lemma mod_bit x k n : 0 <= k -> 0 <= n ->
  Z.testbit (x mod 2 ^ k) n = Z.testbit x n && (n <? k).
Proof. intros Hk Hn. rewrite <- Z.land_ones by lia. by apply ones_bit. Qed.

(** A page number and an offset do not overlap. *)
Lemma lor_offset a off k : 0 <= k -> 0 <= off < 2 ^ k ->
  Z.lor (a * 2 ^ k) off = a * 2 ^ k + off.
Proof.
  intros Hk Ho. assert (Z.land (a * 2 ^ k) off = 0) as Hd.
  { rewrite <- Z.shiftl_mul_pow2 by lia. apply Z.bits_inj'. intros n Hn.
    rewrite Z.land_spec, Z.shiftl_spec, Z.bits_0 by lia.
    destruct (Z.lt_ge_cases n k); [by rewrite Z.testbit_neg_r by lia|].
    by rewrite (small_bit off k n), andb_false_r by lia. }
  by rewrite <- Z.lxor_lor, <- Z.add_nocarry_lxor by done.
Qed.

(** ** Leaf entries *)

(** The physical page number field of a leaf, at bits 10 and up. *)
Lemma leaf_bit paddr b n : 0 <= paddr -> 0 <= b < 1024 -> 10 <= n ->
  Z.testbit (leaf_entry paddr b) n = Z.testbit paddr (n + 2) && (n <? 54).
Proof.
  intros Hp Hb Hn. unfold leaf_entry, ppn. cbn [Z.eqb Pos.eqb].
  change 0x3ffffff with (Z.ones 26). change 0x1ff with (Z.ones 9).
  rewrite !Z.lor_spec, !Z.shiftl_spec by lia.
  rewrite !ones_bit, !shiftr_bit by lia.
  rewrite (small_bit b 10), (small_bit (EntryBits_val Valid) 10),
    (small_bit (EntryBits_val Dirty) 10), (small_bit (EntryBits_val Access) 10) by (lia || (split; vm_compute; congruence)).
  rewrite !orb_false_r.
  replace (n - 28 + 30) with (n + 2) by lia.
  replace (n - 19 + (12 + 9 * 1)) with (n + 2) by lia.
  replace (n - 10 + (12 + 9 * 0)) with (n + 2) by lia.
  destruct (Z.testbit paddr (n + 2)); cbn; rewrite ?andb_true_r, ?andb_false_r; [|done].
  destruct (Z.leb_spec 0 (n - 28)), (Z.ltb_spec (n - 28) 26), (Z.leb_spec 0 (n - 19)),
    (Z.ltb_spec (n - 19) 9), (Z.leb_spec 0 (n - 10)), (Z.ltb_spec (n - 10) 9),
    (Z.ltb_spec n 54); cbn; try done; lia.
Qed.

(** The low bits of a leaf. *)
Lemma leaf_low_bit paddr b n : 0 <= n < 10 ->
  Z.testbit (leaf_entry paddr b) n =
    Z.testbit b n || Z.testbit 193 n.
Proof.
  intros Hn. unfold leaf_entry. rewrite !Z.lor_spec, !Z.shiftl_spec by lia.
  rewrite !(Z.testbit_neg_r _ (n - _)) by lia. rewrite !orb_false_l.
  change 193 with (Z.lor (Z.lor (EntryBits_val Valid) (EntryBits_val Dirty)) (EntryBits_val Access)).
  by rewrite !Z.lor_spec, !orb_assoc.
Qed.

Lemma leaf_entry_range paddr b : 0 <= paddr -> 0 <= b < 1024 -> 0 <= leaf_entry paddr b < 2 ^ 54.
Proof.
  intros Hp Hb.
  assert (0 <= leaf_entry paddr b) as H0.
  { unfold leaf_entry, ppn. cbn [Z.eqb Pos.eqb]. change 0x3ffffff with (Z.ones 26).
    change 0x1ff with (Z.ones 9). rewrite !Z.land_ones by lia.
    repeat (apply Z.lor_nonneg; split); try (apply Z.shiftl_nonneg, Z.mod_pos_bound; lia);
      done || lia. }
  split; [done|]. destruct (Z.eq_dec (leaf_entry paddr b) 0) as [->|]; [lia|].
  apply Z.log2_lt_pow2; [lia|]. apply Z.nle_gt. intros Hge.
  pose proof (Z.bit_log2 (leaf_entry paddr b) ltac:(lia)) as Hbit.
  rewrite leaf_bit in Hbit by lia.
  rewrite (proj2 (Z.ltb_ge _ 54)), andb_false_r in Hbit by done. done.
Qed.

Lemma valid_bit e : is_valid e = Z.testbit e 0.
Proof. unfold is_valid. change (EntryBits_val Valid) with (Z.shiftl 1 0). by rewrite land_bit, negb_involutive. Qed.

Lemma leaf_valid paddr b : is_valid (leaf_entry paddr b) = true.
Proof. rewrite valid_bit, leaf_low_bit by lia. by rewrite orb_true_r. Qed.

Lemma leaf_is_leaf paddr b : Z.land b 0xe <> 0 -> is_leaf (leaf_entry paddr b) = true.
Proof.
  intros Hb. unfold is_leaf. apply negb_true_iff, Z.eqb_neq. intros E. apply Hb.
  apply Z.bits_inj'. intros n Hn. rewrite Z.bits_0.
  apply (f_equal (fun z => Z.testbit z n)) in E. rewrite Z.land_spec, Z.bits_0 in E.
  rewrite Z.land_spec. destruct (Z.lt_ge_cases n 10).
  - rewrite leaf_low_bit in E by lia. destruct (Z.testbit b n); [|done]. exact E.
  - rewrite (small_bit 0xe 10) by lia. apply andb_false_r.
Qed.

(** The address a leaf of level [i] leads to. *)
Lemma leaf_target paddr b i : 0 <= paddr -> 0 <= b < 1024 -> 0 <= i <= 2 ->
  Z.land (as_u64 (Z.shiftl (leaf_entry paddr b) 2)) (unot 64 (Z.shiftl 1 (12 + i * 9) - 1)) =
    (paddr mod 2 ^ 56) / 2 ^ (12 + i * 9) * 2 ^ (12 + i * 9).
Proof.
  intros Hp Hb Hi. pose proof (leaf_entry_range paddr b Hp Hb) as Hr.
  rewrite Z.shiftl_1_l, Z.sub_1_r, <- Z.ones_equiv.
  unfold as_u64. rewrite Z.shiftl_mul_pow2 by lia. rewrite Z.mod_small by lia.
  rewrite land_unot_ones by lia. apply Z.bits_inj'. intros n Hn.
  rewrite !round_bit, mod_bit by lia. rewrite <- Z.shiftl_mul_pow2, Z.shiftl_spec by lia.
  destruct (Z.leb_spec (12 + i * 9) n); [|by rewrite !andb_false_r].
  rewrite !andb_true_r, leaf_bit by lia. replace (n - 2 + 2) with n by lia.
  f_equal. destruct (Z.ltb_spec (n - 2) 54), (Z.ltb_spec n 56); done || lia.
Qed.

(** ** Branch entries *)

Definition branch_entry (page : Z) : Z := Z.lor (Z.shiftr page 2) (EntryBits_val Valid).

Lemma branch_value page : 0 <= page -> page mod 4096 = 0 -> branch_entry page = page / 4 + 1.
Proof.
  intros Hp Hal. unfold branch_entry. rewrite Z.shiftr_div_pow2 by lia. change (2 ^ 2) with 4.
  assert (Z.land (page / 4) (EntryBits_val Valid) = 0) as H0'.
  { change (EntryBits_val Valid) with (Z.ones 1). rewrite Z.land_ones by lia.
    pose proof (Z.div_mod page 4096 ltac:(lia)) as E. rewrite Hal in E.
    replace (page / 4) with (512 * (page / 4096) * 2); [by apply Z.mod_mul|].
    apply Z.div_unique with 0; lia. }
  rewrite <- Z.lxor_lor, <- Z.add_nocarry_lxor by done. done.
Qed.

Lemma branch_ok page : 0 <= page < 2 ^ 64 -> page mod 4096 = 0 ->
  is_valid (branch_entry page) = true /\ is_leaf (branch_entry page) = false /\
  next_table (branch_entry page) = page /\ 0 <= branch_entry page < 2 ^ 64.
Proof.
  intros Hp Hal. pose proof (Z.div_mod page 4096 ltac:(lia)) as E. rewrite Hal in E.
  set (k := page / 4096) in *.
  assert (page / 4 = 1024 * k) as E4 by (symmetry; apply Z.div_unique with 0; lia).
  pose proof (branch_value page ltac:(lia) Hal) as Ev. rewrite E4 in Ev.
  split_and!.
  - rewrite valid_bit. unfold branch_entry. rewrite Z.lor_spec. apply orb_true_r.
  - unfold is_leaf. rewrite Ev. apply negb_false_iff, Z.eqb_eq.
    change 0xe with (Z.land (Z.ones 4) 0xe). rewrite Z.land_assoc, Z.land_ones by lia.
    change (2 ^ 4) with 16. replace (1024 * k + 1) with (1 + 64 * k * 16) by lia.
    by rewrite Z.mod_add by lia.
  - unfold next_table. rewrite Ev. change 0x3ff with (Z.ones 10).
    rewrite land_unot_ones by lia. change (2 ^ 10) with 1024.
    replace ((1024 * k + 1) / 1024) with k by (apply Z.div_unique with 1; lia).
    unfold as_u64. rewrite Z.shiftl_mul_pow2 by lia. rewrite Z.mod_small; lia.
  - lia.
  - lia.
Qed.

(** Table indices are below 512. *)
Lemma vpn_range vaddr i : 0 <= vpn vaddr i < 512.
Proof.
  unfold vpn. change 0x1ff with (Z.ones 9). rewrite Z.land_ones by lia.
  apply Z.mod_pos_bound. lia.
Qed.
End MmuFacts.
