(* ===== verification/MmuProps.v ===== *)
(** * Mapping a page and translating its addresses *)

From S2P Require Import Prelude Memory PageAlloc PageProps Mmu MmuFacts.
Import Mem PageProps Mmu MmuFacts.

Module MmuProps.

(** Two places of the table after one of them was taken. *)
Lemma seg_stays t1 g t2 v1 v2 :
  t1 ++ [g] ++ t2 = v1 ++ Page.frees 1 ++ v2 -> Page.pages_of t1 <> Page.pages_of v1 ->
  exists u1 u2, v1 ++ [Page.Run 1] ++ v2 = u1 ++ [g] ++ u2 /\
    Page.pages_of u1 = Page.pages_of t1.
Proof.
  intros E Hne. apply app_eq_inv in E as [(k & -> & E)|(k & -> & E)].
  - destruct k as [|h k]; [by rewrite app_nil_r in Hne|]. injection E as <- ->.
    exists (v1 ++ [Page.Run 1] ++ k), t2. rewrite <- !app_assoc. split; [done|].
    by rewrite !(Page.pages_of_app v1).
  - destruct k as [|h k]; [by rewrite app_nil_r in Hne|]. injection E as <- ->.
    exists t1, (k ++ [Page.Run 1] ++ v2). by rewrite <- !app_assoc.
Qed.

Section Props.
Context `{Profile} `{Linker}.
Abbreviation num_pages := (HEAP_SIZE / Page.PAGE_SIZE).

(** The page at [a] was allocated for a table. *)
Definition is_table (s : kernel) (t : list Page.seg) (a : Z) : Prop :=
  is_block s t a 1.

(** Page [i] is free and [alloc] would look at it. *)
Definition free_page (t : list Page.seg) (i : Z) : Prop :=
  Page.room_at t i 1 /\ i + 1 < num_pages.

Record mm_ok (s : kernel) (t : list Page.seg) : Prop := {
  mm_page : page_ok s t;
  mm_align : ALLOC_START s mod 4096 = 0;
}.

Lemma table_range s t a : mm_ok s t -> is_table s t a ->
  HEAP_START + num_pages <= a /\ 0 < a /\ a + 4096 < 2 ^ 64 /\ a mod 4096 = 0.
Proof.
  intros [[_ _ Hlen Hb Hm Hp] Hal] (t1 & t2 & -> & ->).
  rewrite !Page.pages_of_app, Page.pages_of_run in Hlen by lia.
  assert (0 <= Page.pages_of t1 /\ 0 <= Page.pages_of t2) by (unfold Page.pages_of; lia).
  unfold page_addr, Page.PAGE_SIZE in *. split_and!; try lia.
  rewrite Z.mul_comm, Z.mod_add by lia. done.
Qed.

(** Different tables are disjoint pages. *)
Lemma tables_apart a b : a mod 4096 = 0 -> b mod 4096 = 0 -> a <> b ->
  a + 4096 <= b \/ b + 4096 <= a.
Proof.
  intros Ha Hb Hne. pose proof (Z.div_mod a 4096 ltac:(lia)).
  pose proof (Z.div_mod b 4096 ltac:(lia)). lia.
Qed.

(** ** A new table *)

(** What [zalloc(1)] does when there is a free page. *)
Record new_table (s : kernel) (t : list Page.seg) (pg : Z) (m : memory) (t' : list Page.seg)
    : Prop := {
  nt_ok : mm_ok (with_mem m s) t';
  nt_table : is_table (with_mem m s) t' pg;
  nt_keep a n : is_block s t a n -> is_block (with_mem m s) t' a n /\
    (a + 4096 * Z.of_nat n <= pg \/ pg + 4096 <= a);
  nt_zero x : pg <= x < pg + 4096 -> byte m x = 0;
  nt_frame x : HEAP_START + num_pages <= x -> ~ (pg <= x < pg + 4096) ->
    byte m x = byte (mem s) x;
  nt_free i j : i <> j -> free_page t i -> free_page t j ->
    free_page t' i \/ free_page t' j;
  nt_count : Page.free_pages t' = Page.free_pages t - 1;
}.

Lemma zalloc_table s t i :
  mm_ok s t -> free_page t i ->
  exists pg m t', Page.zalloc 1 s = Done (pg, with_mem m s) /\ new_table s t pg m t'.
Proof.
  intros [Hok Hal] [Hroom Hi]. pose proof (Page.room_free _ _ _ Hroom) as (_ & Hi0 & _).
  destruct (zalloc_cases s t 1 Hok ltac:(lia) ltac:(lia))
    as [[_ Hno]|(m & v1 & v2 & E & Et & Hok' & Hm)]; [by destruct (Hno i ltac:(lia))|].
  exists (page_addr s (Page.pages_of v1)), m, (v1 ++ [Page.Run 1] ++ v2). split; [exact E|].
  assert (forall t1 g t2, t = t1 ++ [g] ++ t2 -> Page.pages_of t1 <> Page.pages_of v1 ->
    exists u1 u2, v1 ++ [Page.Run 1] ++ v2 = u1 ++ [g] ++ u2 /\
      Page.pages_of u1 = Page.pages_of t1) as Hstay
    by (intros t1 g t2 E1; rewrite E1 in Et; by eapply seg_stays).
  split.
  - by split.
  - by exists v1, v2.
  - intros a n (t1 & t2 & E1 & ->).
    assert (0 < n)%nat as Hn by (rewrite E1 in Hok; by eapply run_pos).
    assert (Page.room_at t (Page.pages_of v1) 1) as Hr by (by exists v1, v2).
    pose proof (run_room_disjoint t t1 n t2 (Page.pages_of v1) 1 E1 Hr Hn ltac:(lia)) as Hd.
    split; [|unfold page_addr, Page.PAGE_SIZE; lia].
    destruct (Hstay _ _ _ E1 ltac:(lia)) as (u1 & u2 & Eu & Hu).
    exists u1, u2. split; [done|]. unfold page_addr. cbn [ALLOC_START with_mem]. by rewrite Hu.
  - intros x Hx. pose proof (table_range (with_mem m s) (v1 ++ [Page.Run 1] ++ v2)
      (page_addr s (Page.pages_of v1))) as Hr.
    destruct Hr as (Hr & _ & _ & _); [by split|by exists v1, v2|].
    rewrite Hm by lia. by rewrite decide_True.
  - intros x Hx Hn. rewrite Hm by done. by rewrite decide_False.
  - intros i' j' Hij [(a1 & a2 & Ea & Hi1) Hi2] [(b1 & b2 & Eb & Hj1) Hj2].
    destruct (Z.eq_dec i' (Page.pages_of v1)) as [->|Hne].
    + right. split; [|done]. destruct (Hstay _ _ _ Eb ltac:(lia)) as (u1 & u2 & -> & Hu).
      exists u1, u2. split; [done|lia].
    + left. split; [|done]. destruct (Hstay _ _ _ Ea ltac:(lia)) as (u1 & u2 & -> & Hu).
      exists u1, u2. split; [done|lia].
  - rewrite Et, !Page.free_pages_app, Page.free_pages_frees.
    change (Page.free_pages [Page.Run 1]) with 0. lia.
Qed.

(** ** One step of the walk *)

(** The entry at [v] is a branch to the table [nxt]. *)
Definition points_to (m : memory) (v nxt : Z) : Prop :=
  is_valid (rd64 m v) = true /\ is_leaf (rd64 m v) = false /\ next_table (rd64 m v) = nxt.

Lemma walk_branch m vaddr k v nxt :
  points_to m v nxt -> 0 < nxt ->
  walk m vaddr (S k) v = walk m vaddr k (entry_addr nxt (vpn vaddr (Z.of_nat k))).
Proof.
  intros (Hv & Hl & Hn) Hp. cbn [walk]. unfold is_invalid. rewrite Hv, Hl, Hn. cbn [negb].
  pose proof (vpn_range vaddr (Z.of_nat (S k) - 1)).
  rewrite (proj2 (Z.eqb_neq _ _)) by (unfold entry_addr; lia). cbn [unwrap mbind outcome_bind].
  do 3 f_equal. lia.
Qed.

Lemma points_to_frame m m' v nxt :
  (forall x, v <= x < v + 8 -> byte m' x = byte m x) -> points_to m v nxt -> points_to m' v nxt.
Proof. intros Hb. unfold points_to. by rewrite (rd64_ext m m'). Qed.

(** An entry that exists leads to a table; the step goes there. *)
Lemma map_step_old s v vaddr i nxt :
  points_to (mem s) v nxt -> 0 < nxt ->
  map_step vaddr i v s = Done (entry_addr nxt (vpn vaddr i), s).
Proof.
  intros (Hv & Hl & Hn) Hp. unfold map_step. erewrite bind_done by reflexivity.
  rewrite Hv. cbn [negb]. do 2 erewrite bind_done by reflexivity. rewrite Hn.
  pose proof (vpn_range vaddr i).
  rewrite (proj2 (Z.eqb_neq _ _)) by (unfold entry_addr; lia). done.
Qed.

(** Writing one entry of a table keeps the page table of the allocator. *)
Lemma write_entry_ok s t tb k e :
  mm_ok s t -> is_table s t tb -> 0 <= k < 512 ->
  mm_ok (with_mem (wr64 (mem s) (entry_addr tb k) e) s) t.
Proof.
  intros Hok Htb Hk. pose proof (table_range s t tb Hok Htb) as (Hr & _).
  destruct Hok as [Hok Hal]. split; [|done]. apply page_ok_above; [done|].
  intros x Hx. apply byte_wr64. left. destruct Htb as (t1 & t2 & _ & ->).
  unfold entry_addr, page_addr, Page.PAGE_SIZE in *.
  assert (0 <= Page.pages_of t1) by (unfold Page.pages_of; lia). lia.
Qed.

(** An empty entry gets a new table. *)
Lemma map_step_new s t tb k vaddr i j :
  mm_ok s t -> is_table s t tb -> 0 <= k < 512 -> free_page t j ->
  is_valid (rd64 (mem s) (entry_addr tb k)) = false ->
  exists pg m t', 
    map_step vaddr i (entry_addr tb k) s =
      Done (entry_addr pg (vpn vaddr i),
            with_mem (wr64 m (entry_addr tb k) (branch_entry pg)) s) /\
    new_table s t pg m t' /\
    points_to (wr64 m (entry_addr tb k) (branch_entry pg)) (entry_addr tb k) pg.
Proof.
  intros Hok Htb Hk Hj Hv. destruct (zalloc_table s t j Hok Hj) as (pg & m & t' & E & Hnew).
  pose proof (table_range _ _ _ (nt_ok _ _ _ _ _ Hnew) (nt_table _ _ _ _ _ Hnew)) as (_ & Hp & Hpm & Hpa).
  destruct (branch_ok pg ltac:(lia) Hpa) as (Bv & Bl & Bn & Br).
  exists pg, m, t'.
  assert (points_to (wr64 m (entry_addr tb k) (branch_entry pg)) (entry_addr tb k) pg) as Hpt
    by (unfold points_to; by rewrite rd64_wr64).
  split_and!; [|done|done]. unfold map_step. erewrite bind_done by reflexivity.
  rewrite Hv. cbn [negb]. erewrite bind_done; cycle 1.
  { erewrite bind_done by exact E. reflexivity. }
  erewrite bind_done by reflexivity. cbn [mem with_mem].
  change (Z.lor (Z.shiftr pg 2) (EntryBits_val Valid)) with (branch_entry pg).
  destruct Hpt as (_ & _ & ->). pose proof (vpn_range vaddr i).
  rewrite (proj2 (Z.eqb_neq _ _)) by (unfold entry_addr; lia). done.
Qed.

(** What one step leaves: a table [nxt] behind the entry [v], the tables
    and their other entries as they were. *)
Record stepped (s : kernel) (t : list Page.seg) (v nxt : Z) (s' : kernel) (t' : list Page.seg)
    : Prop := {
  st_ok : mm_ok s' t';
  st_table : is_table s' t' nxt;
  st_points : points_to (mem s') v nxt;
  st_keep a n : is_block s t a n -> is_block s' t' a n;
  st_frame a n x : is_block s t a n -> a <= x < a + 4096 * Z.of_nat n -> ~ (v <= x < v + 8) ->
    byte (mem s') x = byte (mem s) x;
  st_old_new : (s' = s /\ points_to (mem s) v nxt) \/
    (is_valid (rd64 (mem s) v) = false /\ (forall a n, is_block s t a n -> a <> nxt) /\
     forall x, nxt <= x < nxt + 4096 -> byte (mem s') x = 0);
  st_count : Page.free_pages t' = Page.free_pages t - (if is_valid (rd64 (mem s) v) then 0 else 1);
}.

Lemma map_step_any s t tb k vaddr i a :
  let v := entry_addr tb k in
  mm_ok s t -> is_table s t tb -> 0 <= k < 512 ->
  free_page t a ->
  (is_valid (rd64 (mem s) v) = true -> exists nxt, points_to (mem s) v nxt /\ is_table s t nxt) ->
  exists nxt s' t', map_step vaddr i v s = Done (entry_addr nxt (vpn vaddr i), s') /\
    stepped s t v nxt s' t' /\ (exists m, s' = with_mem m s) /\
    forall b, a <> b -> free_page t b -> exists c, free_page t' c.
Proof.
  intros v Hok Htb Hk Ha Hent. destruct (is_valid (rd64 (mem s) v)) eqn:Hv.
  - destruct (Hent eq_refl) as (nxt & Hpt & Hnt).
    pose proof (table_range _ _ _ Hok Hnt) as (_ & Hp & _).
    exists nxt, s, t. split; [by apply map_step_old|].
    split; [|split; [exists (mem s); by destruct s|by exists a]].
    split; try (done || lia); [by left|]. fold v. rewrite Hv. lia.
  - destruct (map_step_new s t tb k vaddr i a Hok Htb Hk Ha Hv) as (pg & m & t' & E & Hnew & Hpt).
    fold v in E, Hpt. pose proof Hnew as [Hok1 Htab Hkeep Hz Hfr Hfree Hcount].
    pose proof (table_range _ _ _ Hok1 Htab) as (_ & _ & _ & Hpa).
    pose proof (table_range _ _ _ Hok Htb) as (_ & _ & _ & Hta).
    destruct (Hkeep tb 1%nat Htb) as [Htb1 Hne].
    eexists pg, _, t'. split; [exact E|]. split;
      [|split; [by eexists|intros b Hab Hb; destruct (Hfree a b Hab Ha Hb); eauto]].
    split; cbn [mem with_mem].
    + exact (write_entry_ok (with_mem m s) t' tb k _ Hok1 Htb1 Hk).
    + exact Htab.
    + exact Hpt.
    + intros c n Hc. by destruct (Hkeep c n Hc).
    + intros c n x Hc Hx Hn. rewrite byte_wr64 by lia.
      pose proof (block_range _ _ _ _ (mm_page _ _ Hok) Hc) as (Hcl & _).
      destruct (Hkeep c n Hc) as [_ Hcn]. apply Hfr; lia.
    + right. split; [done|]. split; [intros c n Hc; destruct (Hkeep c n Hc); pose proof
        (block_range _ _ _ _ (mm_page _ _ Hok) Hc); unfold Page.PAGE_SIZE in *; lia|].
      intros x Hx. rewrite byte_wr64 by (unfold v, entry_addr; lia). by apply Hz.
    + fold v. rewrite Hv. lia.
Qed.

Lemma zero_entry m tb k :
  (forall x, tb <= x < tb + 4096 -> byte m x = 0) -> 0 <= k < 512 ->
  is_valid (rd64 m (entry_addr tb k)) = false.
Proof.
  intros Hz Hk. assert (rd64 m (entry_addr tb k) = 0) as ->; [|done].
  unfold rd64, entry_addr. rewrite (bytes_at_ext _ (fun _ => 0)); [done|].
  intros j Hj. apply Hz. lia.
Qed.

Lemma vpn_page vaddr off i : 0 <= off < 4096 -> 0 <= i ->
  vpn (vaddr / 4096 * 4096 + off) i = vpn vaddr i.
Proof.
  intros Ho Hi. unfold vpn. f_equal. rewrite <- !Z.shiftr_shiftr by lia. f_equal.
  rewrite !Z.shiftr_div_pow2 by lia. change (2 ^ 12) with 4096.
  rewrite Z.add_comm, Z.div_add, (Z.div_small off) by lia. lia.
Qed.

(** The walk of [virt_to_phys] over the three entries of a page. *)
Lemma translate m root tb1 tb0 vaddr paddr b off :
  points_to m (entry_addr root (vpn vaddr 2)) tb1 -> 0 < tb1 ->
  points_to m (entry_addr tb1 (vpn vaddr 1)) tb0 -> 0 < tb0 ->
  rd64 m (entry_addr tb0 (vpn vaddr 0)) = leaf_entry paddr b ->
  0 <= vaddr -> 0 <= off < 4096 -> 0 <= paddr -> 0 <= b < 1024 -> Z.land b 0xe <> 0 ->
  virt_to_phys m root (vaddr / 4096 * 4096 + off) =
    Done (Some (paddr mod 2 ^ 56 / 4096 * 4096 + off)).
Proof.
  intros H2 P1 H1 P0 Hleaf Hva Ho Hp Hb He. unfold virt_to_phys.
  rewrite (vpn_page vaddr off 2) by lia.
  erewrite walk_branch by done. change (Z.of_nat 1) with 1. rewrite (vpn_page vaddr off 1) by lia.
  erewrite walk_branch by done. change (Z.of_nat 0) with 0. rewrite (vpn_page vaddr off 0) by lia.
  cbn [walk]. rewrite Hleaf. unfold is_invalid. rewrite leaf_valid, leaf_is_leaf by done.
  cbn [negb]. rewrite leaf_target by lia. change (Z.of_nat 0) with 0.
  change (12 + 0 * 9) with 12. change (Z.shiftl 1 12 - 1) with (Z.ones 12).
  rewrite Z.land_ones by lia. change (2 ^ 12) with 4096.
  replace ((vaddr / 4096 * 4096 + off) mod 4096) with off
    by (rewrite Z.add_comm, Z.mod_add, Z.mod_small by lia; done).
  by rewrite (lor_offset _ _ 12) by lia.
Qed.

(** The tables that exist on the way to [vaddr] are tables of their own. *)
Definition path_ok (s : kernel) (t : list Page.seg) (root vaddr : Z) : Prop :=
  let v2 := entry_addr root (vpn vaddr 2) in
  is_valid (rd64 (mem s) v2) = true ->
  exists tb1, points_to (mem s) v2 tb1 /\ is_table s t tb1 /\ tb1 <> root /\
    let v1 := entry_addr tb1 (vpn vaddr 1) in
    (is_valid (rd64 (mem s) v1) = true ->
     exists tb0, points_to (mem s) v1 tb0 /\ is_table s t tb0 /\ tb0 <> root /\ tb0 <> tb1).

Lemma entries_apart a b j k :
  a mod 4096 = 0 -> b mod 4096 = 0 -> a <> b -> 0 <= j < 512 -> 0 <= k < 512 ->
  forall x, entry_addr a j <= x < entry_addr a j + 8 ->
    a <= x < a + 4096 /\ ~ (entry_addr b k <= x < entry_addr b k + 8).
Proof.
  intros Ha Hb Hne Hj Hk x Hx. pose proof (tables_apart a b Ha Hb Hne).
  unfold entry_addr in *. lia.
Qed.

(** The second step, from the table of level 1: its result is a table of
    its own. *)
Lemma map_step_second s t root vaddr s1 t1 tb1 :
  let v2 := entry_addr root (vpn vaddr 2) in
  let v1 := entry_addr tb1 (vpn vaddr 1) in
  mm_ok s t -> is_table s t root -> path_ok s t root vaddr ->
  stepped s t v2 tb1 s1 t1 ->
  tb1 <> root /\
  (is_valid (rd64 (mem s1) v1) = true ->
   exists tb0, points_to (mem s1) v1 tb0 /\ is_table s1 t1 tb0 /\ tb0 <> root /\ tb0 <> tb1).
Proof.
  intros v2 v1 Hok Hroot Hpath [Hok1 Htab Hpt Hkeep Hfr [[-> Hpt0]|(_ & Hfresh & Hz)] _].
  - destruct (Hpath (proj1 Hpt0)) as (tb & (_ & _ & Etb) & _ & Hne & Hv1).
    assert (tb = tb1) as -> by (rewrite <- Etb; apply Hpt0). split; [done|].
    intros Hv. destruct (Hv1 Hv) as (tb0 & ? & ? & ? & ?). exists tb0. split_and!; [done|by apply Hkeep|done|done].
  - split; [intros ->; by apply (Hfresh root 1%nat)|].
    unfold v1. rewrite zero_entry by (done || apply vpn_range). done.
Qed.

(** The third table is another one than the two above it. *)
Lemma map_step_third s1 t1 root v1 tb1 tb0 s2 t2 :
  is_table s1 t1 root -> is_table s1 t1 tb1 -> stepped s1 t1 v1 tb0 s2 t2 ->
  (is_valid (rd64 (mem s1) v1) = true ->
   exists tb, points_to (mem s1) v1 tb /\ is_table s1 t1 tb /\ tb <> root /\ tb <> tb1) ->
  tb0 <> root /\ tb0 <> tb1.
Proof.
  intros Hroot Htab1 [_ _ _ _ _ [[_ Hpt]|(_ & Hfresh & _)] _] Hnext.
  - destruct (Hnext (proj1 Hpt)) as (tb & (_ & _ & Etb) & _ & ? & ?).
    assert (tb = tb0) as -> by (rewrite <- Etb; apply Hpt). done.
  - split; apply not_eq_sym; by apply (Hfresh _ 1%nat).
Qed.

(** map at level 0 returns when two pages are free, creating the tables that are
    missing, and afterwards virt_to_phys sends every address of the virtual page to
    the same offset of the physical page. *)
Theorem map_translates s t root vaddr paddr b i j :
  mm_ok s t -> is_table s t root -> path_ok s t root vaddr ->
  free_page t i -> free_page t j -> i <> j ->
  0 <= vaddr -> 0 <= paddr -> 0 <= b < 1024 -> Z.land b 0xe <> 0 ->
  exists s', map root vaddr paddr b 0 s = Done (tt, s') /\
    forall off, 0 <= off < 4096 ->
      virt_to_phys (mem s') root (vaddr / 4096 * 4096 + off) =
        Done (Some (paddr mod 2 ^ 56 / 4096 * 4096 + off)).
Proof.
  intros Hok Hroot Hpath Hi Hj Hij Hva Hp Hb Hbits.
  set (v2 := entry_addr root (vpn vaddr 2)).
  destruct (map_step_any s t root (vpn vaddr 2) vaddr 1 i Hok Hroot (vpn_range _ _) Hi)
    as (tb1 & s1 & t1 & E1 & Hst1 & _ & Hfree).
  { intros Hv. destruct (Hpath Hv) as (tb1 & ? & ? & _). by exists tb1. }
  fold v2 in E1, Hst1. destruct (Hfree j Hij Hj) as [c Hc].
  destruct (map_step_second s t root vaddr s1 t1 tb1 Hok Hroot Hpath Hst1) as [Hne1 Hnext].
  pose proof Hst1 as [Hok1 Htab1 Hpt1 Hkeep1 _ _ _].
  set (v1 := entry_addr tb1 (vpn vaddr 1)) in *.
  destruct (map_step_any s1 t1 tb1 (vpn vaddr 1) vaddr 0 c Hok1 Htab1 (vpn_range _ _) Hc)
    as (tb0 & s2 & t2 & E2 & Hst2 & _).
  { intros Hv. destruct (Hnext Hv) as (tb0 & ? & ? & _). by exists tb0. }
  fold v1 in E2, Hst2. pose proof Hst2 as [Hok2 Htab0 Hpt0 Hkeep2 Hfr2 _ _].
  destruct (map_step_third _ _ _ _ _ _ _ _ (Hkeep1 root 1%nat Hroot) Htab1 Hst2 Hnext) as [Hn0r Hn01].
  pose proof (table_range _ _ _ Hok Hroot) as (_ & _ & _ & Ar).
  pose proof (table_range _ _ _ Hok1 Htab1) as (_ & P1 & _ & A1).
  pose proof (table_range _ _ _ Hok2 Htab0) as (_ & P0 & _ & A0).
  set (v0 := entry_addr tb0 (vpn vaddr 0)) in *.
  assert (map_walk vaddr (levels_down 0) v2 s = Done (v0, s2)) as Ew.
  { unfold levels_down. cbn [Z.eqb map_walk]. erewrite bind_done by exact E1.
    by erewrite bind_done by exact E2. }
  exists (with_mem (wr64 (mem s2) v0 (leaf_entry paddr b)) s2). split.
  - unfold map. erewrite bind_done by (apply lift_done, assert_true;
      by rewrite (proj2 (Z.eqb_neq _ _) Hbits)).
    erewrite bind_done by exact Ew. done.
  - intros off Ho. cbn [mem with_mem]. apply (translate _ _ tb1 tb0 vaddr paddr b off); try done.
    + apply (points_to_frame (mem s1)); [|done]. intros x Hx.
      destruct (entries_apart root tb0 (vpn vaddr 2) (vpn vaddr 0) Ar A0 ltac:(done)
                  (vpn_range _ _) (vpn_range _ _) x Hx) as [_ Hx0].
      destruct (entries_apart root tb1 (vpn vaddr 2) (vpn vaddr 1) Ar A1 ltac:(done)
                  (vpn_range _ _) (vpn_range _ _) x Hx) as [Hin Hx1].
      rewrite byte_wr64 by (unfold v0; lia). apply (Hfr2 root 1%nat); [by apply Hkeep1|lia|lia].
    + apply (points_to_frame (mem s2)); [|done]. intros x Hx.
      destruct (entries_apart tb1 tb0 (vpn vaddr 1) (vpn vaddr 0) A1 A0 ltac:(done)
                  (vpn_range _ _) (vpn_range _ _) x Hx) as [_ Hx0].
      apply byte_wr64. unfold v0. lia.
    + apply rd64_wr64. pose proof (leaf_entry_range paddr b Hp Hb). lia.
Qed.
End Props.
End MmuProps.
