(* ===== verification/MmuTree.v ===== *)
(** * The tree of page tables

    The tables of a process form a tree: the root and, behind the valid entries
    of the two upper levels, tables of their own.  [tree] is the invariant;
    [map] keeps it and changes the translation of one page. *)

From S2P Require Import Prelude Memory PageAlloc PageProps Mmu MmuFacts MmuProps.
Import Mem PageProps Mmu MmuFacts MmuProps.

Module MmuTree.

(** The table [a] is reached from [root] over the entries of the path, which
    lists the last one first. *)
Inductive node (m : memory) (root : Z) : list Z -> Z -> Prop :=
| node_root : node m root [] root
| node_next p a i b :
    node m root p a -> (length p < 2)%nat -> 0 <= i < 512 ->
    points_to m (entry_addr a i) b -> node m root (i :: p) b.

(** Addresses of one page: the 27 bits the hardware looks at. *)
Definition same_page (va vb : Z) : bool := va / 4096 mod 2 ^ 27 =? vb / 4096 mod 2 ^ 27.

Lemma vpn_div va i : 0 <= i -> vpn va i = va / 4096 / 512 ^ i mod 512.
Proof.
  intros Hi. unfold vpn. change 0x1ff with (Z.ones 9). rewrite Z.land_ones by lia.
  rewrite Z.shiftr_div_pow2, Z.pow_add_r, Z.pow_mul_r by lia.
  rewrite <- Z.div_div by lia. done.
Qed.

Lemma same_page_vpn va vb :
  same_page va vb = true <->
  vpn va 0 = vpn vb 0 /\ vpn va 1 = vpn vb 1 /\ vpn va 2 = vpn vb 2.
Proof.
  assert (forall x, x mod 2 ^ 27 =
    x / 512 ^ 0 mod 512 + 512 * (x / 512 ^ 1 mod 512 + 512 * (x / 512 ^ 2 mod 512))) as E.
  { intros x. change (2 ^ 27) with (512 * (512 * 512)). rewrite !Z.rem_mul_r by lia.
    rewrite Z.div_div by lia. change (512 ^ 0) with 1. change (512 ^ 1) with 512.
    change (512 ^ 2) with (512 * 512). rewrite Z.div_1_r. done. }
  unfold same_page. rewrite Z.eqb_eq, !E, <- !vpn_div by lia.
  pose proof (vpn_range va). pose proof (vpn_range vb).
  pose proof (vpn_range va 0). pose proof (vpn_range va 1). pose proof (vpn_range va 2).
  pose proof (vpn_range vb 0). pose proof (vpn_range vb 1). pose proof (vpn_range vb 2). lia.
Qed.

(** Two entries are the same or do not overlap. *)
Lemma entries_differ a b j k :
  a mod 4096 = 0 -> b mod 4096 = 0 -> 0 <= j < 512 -> 0 <= k < 512 -> ~ (a = b /\ j = k) ->
  forall x, entry_addr a j <= x < entry_addr a j + 8 ->
    a <= x < a + 4096 /\ ~ (entry_addr b k <= x < entry_addr b k + 8).
Proof.
  intros Ha Hb Hj Hk Hne x Hx. destruct (Z.eq_dec a b) as [->|Hab].
  - unfold entry_addr in *. lia.
  - by apply (entries_apart a b j k).
Qed.

Lemma walk_invalid m va k v : is_valid (rd64 m v) = false -> walk m va k v = Done None.
Proof. intros Hv. destruct k; cbn [walk]; unfold is_invalid; by rewrite Hv. Qed.

(** A step of the walk reads one entry, and goes on only at a branch. *)
Lemma walk_cong m m' va k v :
  rd64 m' v = rd64 m v ->
  (forall k' nxt, k = S k' -> points_to m v nxt ->
     walk m' va k' (entry_addr nxt (vpn va (Z.of_nat k'))) =
     walk m va k' (entry_addr nxt (vpn va (Z.of_nat k')))) ->
  walk m' va k v = walk m va k v.
Proof.
  intros Ev Hrec. destruct k as [|k]; cbn [walk]; rewrite Ev; [done|].
  unfold is_invalid. destruct (is_valid (rd64 m v)) eqn:Hv; cbn [negb]; [|done].
  destruct (is_leaf (rd64 m v)) eqn:Hl; [done|].
  replace (Z.of_nat (S k) - 1) with (Z.of_nat k) by lia.
  destruct (entry_addr _ _ =? 0); [done|]. cbn. by apply (Hrec k).
Qed.

(** Memory that has the same entries in the upper tables has the same tree. *)
Lemma node_agree m m' root :
  (forall p a i, node m root p a -> (length p < 2)%nat -> 0 <= i < 512 ->
     rd64 m' (entry_addr a i) = rd64 m (entry_addr a i)) ->
  forall p a, node m' root p a <-> node m root p a.
Proof.
  intros Ha p a. split; induction 1 as [|p a i b Hn IH Hl Hi Hp]; try constructor.
  - econstructor; [exact IH|done|done|]. unfold points_to in *. by rewrite <- (Ha p).
  - econstructor; [exact IH|done|done|]. unfold points_to in *. by rewrite (Ha p).
Qed.

Section Tree.
Context `{Profile} `{Linker}.

(** Every table of the tree is a page of its own, reached in one way; the entries
    of the upper levels are branches, those of the lowest are leaves. *)
Record tree (s : kernel) (t : list Page.seg) (root : Z) : Prop := {
  tr_ok : mm_ok s t;
  tr_table p a : node (mem s) root p a -> is_table s t a;
  tr_branch p a i : node (mem s) root p a -> (length p < 2)%nat -> 0 <= i < 512 ->
    is_valid (rd64 (mem s) (entry_addr a i)) = true -> is_leaf (rd64 (mem s) (entry_addr a i)) = false;
  tr_leaf p a i : node (mem s) root p a -> length p = 2%nat -> 0 <= i < 512 ->
    is_valid (rd64 (mem s) (entry_addr a i)) = true -> is_leaf (rd64 (mem s) (entry_addr a i)) = true;
  tr_own p q a : node (mem s) root p a -> node (mem s) root q a -> p = q;
}.

(** Another allocation of [n] pages, such as the one for a trap frame, the stack or
    the data of a process. *)
Definition stranger (s : kernel) (t : list Page.seg) (root c : Z) (n : nat) : Prop :=
  is_block s t c n /\ forall p, ~ node (mem s) root p c.

(** Such allocations are not touched. *)
Definition kept (s : kernel) (t : list Page.seg) (root : Z) (s' : kernel) (t' : list Page.seg) : Prop :=
  forall c n, stranger s t root c n -> stranger s' t' root c n /\
    forall x, c <= x < c + 4096 * Z.of_nat n -> byte (mem s') x = byte (mem s) x.

Lemma kept_trans s t root s1 t1 s2 t2 :
  kept s t root s1 t1 -> kept s1 t1 root s2 t2 -> kept s t root s2 t2.
Proof.
  intros K1 K2 c n Hc. destruct (K1 c n Hc) as [Hc1 B1]. destruct (K2 c n Hc1) as [Hc2 B2].
  split; [done|]. intros x Hx. by rewrite B2, B1.
Qed.

Lemma tree_align s t root p a : tree s t root -> node (mem s) root p a -> a mod 4096 = 0 /\ 0 < a.
Proof.
  intros Ht Hn. by destruct (table_range _ _ _ (tr_ok _ _ _ Ht) (tr_table _ _ _ Ht _ _ Hn)) as (_ & ? & _ & ?).
Qed.

(** A table of the tree and another allocation are disjoint. *)
Lemma stranger_apart s t root c n p a :
  tree s t root -> stranger s t root c n -> node (mem s) root p a ->
  c + 4096 * Z.of_nat n <= a \/ a + 4096 <= c.
Proof.
  intros Ht [Hc Hno] Hn.
  apply (blocks_apart s t c n a 1 (mm_page _ _ (tr_ok _ _ _ Ht)) Hc (tr_table _ _ _ Ht _ _ Hn)).
  intros ->. by apply (Hno p).
Qed.

(** The tables of the tree after some steps: those of before and [new] ones, for
    each of which a page was taken. *)
Definition grows (s : kernel) (t : list Page.seg) (root : Z) (s' : kernel) (t' : list Page.seg) : Prop :=
  exists new, NoDup new /\
    (forall a, (exists p, node (mem s') root p a) <-> (exists p, node (mem s) root p a) \/ a ∈ new) /\
    (forall a p, a ∈ new -> ~ node (mem s) root p a) /\
    Page.free_pages t' = Page.free_pages t - zlen new.

Lemma grows_same s t root s' t' :
  (forall p a, node (mem s') root p a <-> node (mem s) root p a) ->
  Page.free_pages t' = Page.free_pages t -> grows s t root s' t'.
Proof.
  intros Hn Hc. exists []. split_and!; [constructor| |by intros a p ?%elem_of_nil|cbn; lia].
  intros a. setoid_rewrite Hn. rewrite elem_of_nil. tauto.
Qed.

Lemma grows_trans s t root s1 t1 s2 t2 :
  grows s t root s1 t1 -> grows s1 t1 root s2 t2 -> grows s t root s2 t2.
Proof.
  intros (n1 & D1 & N1 & F1 & C1) (n2 & D2 & N2 & F2 & C2). exists (n1 ++ n2). split_and!.
  - apply NoDup_app. split_and!; [done| |done]. intros a Ha1 Ha2.
    destruct (proj2 (N1 a) (or_intror Ha1)) as [p Hp]. by apply (F2 a p).
  - intros a. rewrite N2, N1, elem_of_app. tauto.
  - intros a p [Ha|Ha]%elem_of_app Hn; [by apply (F1 a p)|].
    destruct (proj2 (N1 a) (or_introl (ex_intro _ p Hn))) as [q Hq]. by apply (F2 a q).
  - rewrite length_app. lia.
Qed.

(** A walk in a tree always ends with an answer. *)
Lemma tree_answers s t root va : tree s t root -> exists o, virt_to_phys (mem s) root va = Done o.
Proof.
  intros Ht. unfold virt_to_phys.
  assert (forall k p a, node (mem s) root p a -> (k + length p = 2)%nat ->
    exists o, walk (mem s) va k (entry_addr a (vpn va (Z.of_nat k))) = Done o) as Hw.
  { induction k as [|k IH]; intros p a Hn Hk; pose proof (vpn_range va) as Hv.
    - cbn [walk]. unfold is_invalid. destruct (is_valid _) eqn:Ev; [|by eexists].
      rewrite (tr_leaf _ _ _ Ht p) by (done || apply Hv). by eexists.
    - destruct (is_valid (rd64 (mem s) (entry_addr a (vpn va (Z.of_nat (S k)))))) eqn:Ev;
        [|rewrite walk_invalid by done; by eexists].
      pose proof (tr_branch _ _ _ Ht p a _ Hn ltac:(lia) (Hv _) Ev) as El.
      assert (node (mem s) root (vpn va (Z.of_nat (S k)) :: p)
        (next_table (rd64 (mem s) (entry_addr a (vpn va (Z.of_nat (S k))))))) as Hn'
        by (eapply node_next; [exact Hn|lia|apply Hv|done]).
      erewrite walk_branch by (done || by eapply tree_align). apply (IH _ _ Hn'). cbn [length]. lia. }
  by apply (Hw 2%nat []); [constructor|].
Qed.

(** ** One step of [map] *)

Section Step.
Context (s : kernel) (t : list Page.seg) (root : Z) (p : list Z) (a i nxt : Z).
Context (s' : kernel) (t' : list Page.seg).
Hypothesis Ht : tree s t root.
Hypothesis Hn : node (mem s) root p a.
Hypothesis Hp : (length p < 2)%nat.
Hypothesis Hi : 0 <= i < 512.
Hypothesis Hst : stepped s t (entry_addr a i) nxt s' t'.
Hypothesis Hnew : is_valid (rd64 (mem s) (entry_addr a i)) = false.
Hypothesis Hfresh : forall c n, is_block s t c n -> c <> nxt.
Hypothesis Hzero : forall x, nxt <= x < nxt + 4096 -> byte (mem s') x = 0.

(** The other entries of the tree are as before. *)
Lemma new_entry q b j :
  node (mem s) root q b -> 0 <= j < 512 -> ~ (b = a /\ j = i) ->
  rd64 (mem s') (entry_addr b j) = rd64 (mem s) (entry_addr b j).
Proof.
  intros Hq Hj Hne. destruct (tree_align _ _ _ _ _ Ht Hq) as [Hb _].
  destruct (tree_align _ _ _ _ _ Ht Hn) as [Ha _]. apply rd64_ext. intros x Hx.
  destruct (entries_differ b a j i Hb Ha Hj Hi Hne x Hx) as [Hin Hout].
  by apply (st_frame _ _ _ _ _ _ Hst b 1 x (tr_table _ _ _ Ht _ _ Hq)).
Qed.

Lemma old_node q b : node (mem s) root q b -> node (mem s') root q b.
Proof.
  induction 1 as [|q b j c Hq IH Hl Hj Hc]; [constructor|].
  econstructor; [exact IH|done|done|]. unfold points_to in *.
  rewrite new_entry with (q := q); try done. intros [-> ->]. destruct Hc as [Hv _]. congruence.
Qed.

(** The tree has one table more. *)
Lemma new_node q b :
  node (mem s') root q b <-> node (mem s) root q b \/ (q = i :: p /\ b = nxt).
Proof.
  split.
  - induction 1 as [|q b j c Hq [IH|[-> ->]] Hl Hj Hc]; [by left; constructor|..].
    + destruct (decide (b = a /\ j = i)) as [[-> ->]|Hne].
      * right. rewrite (tr_own _ _ _ Ht q p a IH Hn). split; [done|].
        pose proof (st_points _ _ _ _ _ _ Hst) as (_ & _ & <-). symmetry. apply Hc.
      * left. econstructor; [exact IH|done|done|]. unfold points_to in *.
        by rewrite <- new_entry with (q := q).
    + destruct Hc as [Hv _]. by rewrite zero_entry in Hv.
  - intros [Hq|[-> ->]]; [by apply old_node|].
    econstructor; [by apply old_node|exact Hp|exact Hi|apply Hst].
Qed.

Lemma new_tree : tree s' t' root.
Proof.
  split.
  - apply Hst.
  - intros q b [Hq|[-> ->]]%new_node; [by eapply Hst, tr_table|apply Hst].
  - intros q b j [Hq|[-> ->]]%new_node Hl Hj Hv.
    + destruct (decide (b = a /\ j = i)) as [[-> ->]|Hne]; [apply Hst|].
      rewrite (new_entry q) in * by done. by eapply tr_branch.
    + by rewrite zero_entry in Hv.
  - intros q b j [Hq|[-> ->]]%new_node Hl Hj Hv.
    + destruct (decide (b = a /\ j = i)) as [[-> ->]|Hne].
      * rewrite (tr_own _ _ _ Ht q p a Hq Hn) in Hl. lia.
      * rewrite (new_entry q) in * by done. by eapply tr_leaf.
    + by rewrite zero_entry in Hv.
  - intros q r b [Hq|[-> ->]]%new_node [Hr|[-> Hb]]%new_node; [by eapply tr_own|..|done].
    + subst b. by destruct (Hfresh nxt 1%nat (tr_table _ _ _ Ht _ _ Hq)).
    + by destruct (Hfresh nxt 1%nat (tr_table _ _ _ Ht _ _ Hr)).
Qed.

Lemma new_kept : kept s t root s' t'.
Proof.
  intros c n Hc. pose proof (stranger_apart _ _ _ _ _ _ _ Ht Hc Hn) as Hap.
  destruct Hc as [Hc Hno]. split; [split|].
  - by apply Hst.
  - intros q [Hq| [_ ->]]%new_node; [by apply (Hno q)|by apply (Hfresh nxt n)].
  - intros x Hx. apply (st_frame _ _ _ _ _ _ Hst c n); [done|done|]. unfold entry_addr. lia.
Qed.

Lemma new_grows : Page.free_pages t' = Page.free_pages t - 1 -> grows s t root s' t'.
Proof.
  intros Hc. exists [nxt]. split_and!; [apply NoDup_singleton| | |cbn; lia].
  - intros b. setoid_rewrite new_node. rewrite list_elem_of_singleton. split.
    + intros (q & [Hq|[_ ->]]); eauto.
    + intros [[q Hq]| ->]; [by exists q; left|exists (i :: p); by right].
  - intros b q ->%list_elem_of_singleton Hq. by apply (Hfresh nxt 1%nat (tr_table _ _ _ Ht _ _ Hq)).
Qed.

(** No address is translated differently. *)
Lemma new_translation va : virt_to_phys (mem s') root va = virt_to_phys (mem s) root va.
Proof.
  assert (forall k q b j, node (mem s) root q b -> (k + length q = 2)%nat -> 0 <= j < 512 ->
    walk (mem s') va k (entry_addr b j) = walk (mem s) va k (entry_addr b j)) as Hw.
  { induction k as [|k IH]; intros q b j Hq Hk Hj;
      (destruct (decide (b = a /\ j = i)) as [[-> ->]|Hne];
       [rewrite (tr_own _ _ _ Ht q p a Hq Hn) in Hk|
        apply walk_cong; [by eapply new_entry|intros k' c E Hc; try done]]).
    - lia.
    - rewrite (walk_invalid (mem s)) by done.
      destruct (tree_align s' t' root (i :: p) nxt new_tree) as [_ Hpos]; [by apply new_node; right|].
      erewrite walk_branch by (apply Hst || done).
      apply walk_invalid, zero_entry; [done|apply vpn_range].
    - injection E as <-. apply (IH (j :: q)); [|cbn [length]; lia|apply vpn_range].
      econstructor; [exact Hq|lia|exact Hj|exact Hc]. }
  apply (Hw 2%nat []); [constructor|done|apply vpn_range].
Qed.
End Step.

(** What a step of [map] does to the tree, new table or not. *)
Record deeper (s : kernel) (t : list Page.seg) (root : Z) (s' : kernel) (t' : list Page.seg) : Prop := {
  dp_tree : tree s' t' root;
  dp_node q b : node (mem s) root q b -> node (mem s') root q b;
  dp_kept : kept s t root s' t';
  dp_same va : virt_to_phys (mem s') root va = virt_to_phys (mem s) root va;
  dp_count : Page.free_pages t - 1 <= Page.free_pages t';
  dp_state : exists m, s' = with_mem m s;
}.

Lemma stepped_deeper s t root p a i nxt s' t' :
  tree s t root -> node (mem s) root p a -> (length p < 2)%nat -> 0 <= i < 512 ->
  stepped s t (entry_addr a i) nxt s' t' -> (exists m, s' = with_mem m s) ->
  deeper s t root s' t' /\ grows s t root s' t' /\ node (mem s') root (i :: p) nxt.
Proof.
  intros Ht Hn Hp Hi Hst Hm. pose proof Hst as [Hok Htab Hpt Hkeep _ [[-> Hold]|(Hv & Hfr & Hz)] Hc].
  - pose proof Ht as [_ Htb Hbr Hlf Hown]. pose proof Hold as [Hv _]. rewrite Hv in Hc.
    split_and!; [|apply grows_same; (done || lia)|by eapply node_next]. split; try done; [..|lia].
    + split; try done. intros q b Hq. by eapply (Hkeep _ 1%nat), Htb.
    + intros c n [Hct Hno]. split; [split|]; [by apply Hkeep|done|done].
  - rewrite Hv in Hc. split_and!; [|by eapply new_grows|eapply new_node; eauto].
    split; [by eapply new_tree|by eapply old_node|by eapply new_kept|by eapply new_translation|lia|done].
Qed.

(** There is a page for [zalloc(1)] when two are free: the last is never taken. *)
Lemma first_free t : 1 <= Page.free_pages t ->
  exists t1 t2, t = t1 ++ [Page.Free] ++ t2 /\ Page.free_pages t2 = Page.free_pages t - 1.
Proof.
  induction t as [|g t IH]; [by cbn|]. rewrite (Page.free_pages_cons g t). destruct g as [|n].
  - change (Page.free_pages [Page.Free]) with 1. intros _. exists [], t. split; [done|lia].
  - change (Page.free_pages [Page.Run n]) with 0. intros Hf.
    destruct IH as (t1 & t2 & -> & E); [lia|]. exists (Page.Run n :: t1), t2. split; [done|lia].
Qed.

Lemma some_free s t : mm_ok s t -> 2 <= Page.free_pages t -> exists i, free_page t i.
Proof.
  intros [Hok _] Hf. destruct (first_free t ltac:(lia)) as (t1 & t2 & -> & E).
  pose proof (Page.free_le_pages t2). pose proof (tbl_len _ _ Hok) as Hlen.
  rewrite !Page.pages_of_app in Hlen. change (Page.pages_of [Page.Free]) with 1 in Hlen.
  exists (Page.pages_of t1). split; [by exists t1, t2|lia].
Qed.

(** A step of [map] in the tree. *)
Lemma tree_step s t root p a i vaddr lv :
  tree s t root -> node (mem s) root p a -> (length p < 2)%nat -> 0 <= i < 512 ->
  2 <= Page.free_pages t ->
  exists nxt s' t', map_step vaddr lv (entry_addr a i) s = Done (entry_addr nxt (vpn vaddr lv), s') /\
    deeper s t root s' t' /\ grows s t root s' t' /\ node (mem s') root (i :: p) nxt.
Proof.
  intros Ht Hn Hp Hi Hf. pose proof (tr_ok _ _ _ Ht) as Hok.
  destruct (some_free s t Hok Hf) as [j Hj].
  destruct (map_step_any s t a i vaddr lv j Hok (tr_table _ _ _ Ht _ _ Hn) Hi Hj)
    as (nxt & s' & t' & E & Hst & Hm & _).
  { intros Hv. exists (next_table (rd64 (mem s) (entry_addr a i))).
    assert (points_to (mem s) (entry_addr a i) (next_table (rd64 (mem s) (entry_addr a i)))) as Hpt
      by (split_and!; [done|by eapply tr_branch|done]).
    split; [done|]. eapply tr_table; [done|]. by eapply node_next. }
  exists nxt, s', t'. split; [exact E|]. by eapply stepped_deeper.
Qed.

(** ** Writing a leaf *)

Section Leaf.
Context (s : kernel) (t : list Page.seg) (root vaddr tb0 e : Z).
Definition page_path : list Z := [vpn vaddr 1; vpn vaddr 2].
Definition leaf_written : kernel := with_mem (wr64 (mem s) (entry_addr tb0 (vpn vaddr 0)) e) s.
Hypothesis Ht : tree s t root.
Hypothesis Hn : node (mem s) root page_path tb0.
Hypothesis He : 0 <= e < 2 ^ 64.
Hypothesis Hleaf : is_leaf e = true.

Lemma other_entry q b j :
  node (mem s) root q b -> 0 <= j < 512 -> ~ (b = tb0 /\ j = vpn vaddr 0) ->
  rd64 (mem leaf_written) (entry_addr b j) = rd64 (mem s) (entry_addr b j).
Proof.
  intros Hq Hj Hne. destruct (tree_align _ _ _ _ _ Ht Hq) as [Hb _].
  destruct (tree_align _ _ _ _ _ Ht Hn) as [Ha _]. apply rd64_ext. intros x Hx.
  destruct (entries_differ b tb0 j (vpn vaddr 0) Hb Ha Hj (vpn_range _ _) Hne x Hx) as [_ Hout].
  apply byte_wr64. lia.
Qed.

Lemma leaf_node q b : node (mem leaf_written) root q b <-> node (mem s) root q b.
Proof.
  apply node_agree. intros r c j Hr Hl Hj. apply (other_entry r); [done|done|].
  intros [-> _]. rewrite (tr_own _ _ _ Ht r page_path tb0 Hr Hn) in Hl. cbn in Hl. lia.
Qed.

Lemma leaf_tree : tree leaf_written t root.
Proof.
  pose proof (tr_table _ _ _ Ht _ _ Hn) as Htb.
  split.
  - exact (write_entry_ok s t tb0 _ e (tr_ok _ _ _ Ht) Htb (vpn_range _ _)).
  - intros q b Hq%leaf_node. by apply (tr_table _ _ _ Ht q).
  - intros q b j Hq%leaf_node Hl Hj. rewrite (other_entry q) by
      (done || (intros [-> _]; rewrite (tr_own _ _ _ Ht q page_path tb0 Hq Hn) in Hl; cbn in Hl; lia)).
    by apply (tr_branch _ _ _ Ht q).
  - intros q b j Hq%leaf_node Hl Hj.
    destruct (decide (b = tb0 /\ j = vpn vaddr 0)) as [[-> ->]|Hne].
    + unfold leaf_written. cbn [mem with_mem]. by rewrite rd64_wr64.
    + rewrite (other_entry q) by done. by apply (tr_leaf _ _ _ Ht q).
  - intros q r b Hq%leaf_node Hr%leaf_node. by eapply tr_own.
Qed.

Lemma leaf_kept : kept s t root leaf_written t.
Proof.
  intros c n Hc. pose proof (stranger_apart _ _ _ _ _ _ _ Ht Hc Hn) as Hap.
  destruct Hc as [Hc Hno]. split; [split; [exact Hc|]|].
  - intros q Hq%leaf_node. by apply (Hno q).
  - intros x Hx. pose proof (vpn_range vaddr 0). apply byte_wr64. unfold entry_addr. lia.
Qed.

(** The path of [va] to its table of level [k]. *)
Definition path_to (va : Z) (k : nat) : list Z :=
  match k with 0%nat => [vpn va 1; vpn va 2] | 1%nat => [vpn va 2] | _ => [] end.

Lemma leaf_other va : same_page va vaddr = false ->
  virt_to_phys (mem leaf_written) root va = virt_to_phys (mem s) root va.
Proof.
  intros Hva.
  assert (forall k b, (k <= 2)%nat -> node (mem s) root (path_to va k) b ->
    walk (mem leaf_written) va k (entry_addr b (vpn va (Z.of_nat k))) =
    walk (mem s) va k (entry_addr b (vpn va (Z.of_nat k)))) as Hw.
  { induction k as [|k IH]; intros b Hk Hb; apply walk_cong.
    - apply (other_entry (path_to va 0)); [done|apply vpn_range|]. intros [-> E0].
      pose proof (tr_own _ _ _ Ht _ _ _ Hb Hn) as E. injection E as E1 E2.
      assert (same_page va vaddr = true) by (by apply same_page_vpn). congruence.
    - done.
    - apply (other_entry (path_to va (S k))); [done|apply vpn_range|]. intros [-> _].
      pose proof (tr_own _ _ _ Ht _ _ _ Hb Hn) as E. by destruct k.
    - intros k' nxt [= <-] Hpt. apply IH; [lia|].
      destruct k as [|[|k]]; [..|lia]; (eapply node_next; [exact Hb|cbn; lia|apply vpn_range|exact Hpt]). }
  apply (Hw 2%nat); [lia|constructor].
Qed.
End Leaf.

Lemma path_points m root i j tb0 :
  node m root [j; i] tb0 ->
  exists tb1, points_to m (entry_addr root i) tb1 /\ points_to m (entry_addr tb1 j) tb0 /\
    node m root [i] tb1.
Proof.
  intros Hn. inversion Hn as [|p a k b Hn1 _ _ Hpt]; subst.
  inversion Hn1 as [|p a' k b Hn0 _ _ Hpt1]; subst. inversion Hn0; subst. by exists a.
Qed.

Lemma leaf_same s t root vaddr tb0 paddr b va :
  let s' := leaf_written s vaddr tb0 (leaf_entry paddr b) in
  tree s t root -> node (mem s) root (page_path vaddr) tb0 ->
  0 <= va -> 0 <= paddr -> 0 <= b < 1024 -> Z.land b 0xe <> 0 -> same_page va vaddr = true ->
  virt_to_phys (mem s') root va = Done (Some (paddr mod 2 ^ 56 / 4096 * 4096 + va mod 4096)).
Proof.
  intros s' Ht Hn Hva Hp Hb Hbits (E0 & E1 & E2)%same_page_vpn.
  assert (0 <= leaf_entry paddr b < 2 ^ 64) as He by (pose proof (leaf_entry_range paddr b Hp Hb); lia).
  assert (tree s' t root) as Ht' by (apply leaf_tree; (done || by apply leaf_is_leaf)).
  assert (node (mem s') root (page_path vaddr) tb0) as Hn' by (by eapply leaf_node).
  destruct (path_points _ _ _ _ _ Hn') as (tb1 & P1 & P0 & N1).
  destruct (tree_align _ _ _ _ _ Ht' N1) as [_ Hp1]. destruct (tree_align _ _ _ _ _ Ht' Hn') as [_ Hp0].
  assert (va = va / 4096 * 4096 + va mod 4096) as Eva by (pose proof (Z.div_mod va 4096); lia).
  rewrite Eva at 1. rewrite <- E1, <- E2 in *.
  apply (translate _ _ tb1 tb0 va paddr b); try done; [|apply Z.mod_pos_bound; lia].
  rewrite E0. by apply rd64_wr64.
Qed.

(** [map] inserts one page into the translation: every address of the page goes to
    the physical page, every other one where it went before.  The tables stay a
    tree, and no other page is touched. *)
Lemma map_ok s t root vaddr paddr b :
  tree s t root -> 3 <= Page.free_pages t ->
  0 <= vaddr -> 0 <= paddr -> 0 <= b < 1024 -> Z.land b 0xe <> 0 ->
  exists s' t', map root vaddr paddr b 0 s = Done (tt, s') /\ tree s' t' root /\
    (forall va, 0 <= va -> virt_to_phys (mem s') root va =
       if same_page va vaddr then Done (Some (paddr mod 2 ^ 56 / 4096 * 4096 + va mod 4096))
       else virt_to_phys (mem s) root va) /\
    kept s t root s' t' /\ Page.free_pages t - 2 <= Page.free_pages t' /\
    (exists m, s' = with_mem m s) /\ grows s t root s' t'.
Proof.
  intros Ht Hf Hva Hp Hb Hbits.
  destruct (tree_step s t root [] root (vpn vaddr 2) vaddr 1 Ht) as (tb1 & s1 & t1 & E1 & D1 & G1 & N1);
    [constructor|cbn; lia|apply vpn_range|lia|].
  pose proof D1 as [Ht1 _ K1 V1 C1 [m1 Em1]].
  destruct (tree_step s1 t1 root _ tb1 (vpn vaddr 1) vaddr 0 Ht1 N1) as (tb0 & s2 & t2 & E2 & D2 & G2 & N2);
    [cbn; lia|apply vpn_range|lia|].
  pose proof D2 as [Ht2 O2 K2 V2 C2 [m2 Em2]].
  set (e := leaf_entry paddr b). assert (0 <= e < 2 ^ 64) as He
    by (pose proof (leaf_entry_range paddr b Hp Hb); unfold e; lia).
  assert (is_leaf e = true) as Hl by (by apply leaf_is_leaf).
  exists (leaf_written s2 vaddr tb0 e), t2.
  split_and!; [|by apply leaf_tree| | |lia|by eexists (wr64 m2 _ e); subst|].
  - unfold map. erewrite bind_done by (apply lift_done, assert_true;
      by rewrite (proj2 (Z.eqb_neq _ _) Hbits)).
    erewrite bind_done; [reflexivity|]. unfold levels_down. cbn [Z.eqb map_walk].
    erewrite bind_done by exact E1. by erewrite bind_done by exact E2.
  - intros va Hva0. destruct (same_page va vaddr) eqn:Esp.
    + eapply leaf_same; eauto.
    + rewrite leaf_other with (t := t2) by done. by rewrite V2, V1.
  - eapply kept_trans; [exact K1|]. eapply kept_trans; [exact K2|]. by apply leaf_kept.
  - eapply grows_trans; [exact G1|]. eapply grows_trans; [exact G2|].
    apply grows_same; [intros q a; by eapply leaf_node|done].
Qed.

(** ** The abstract map

    A finite map from virtual page numbers to physical pages. *)

Definition page_no (va : Z) : Z := va / 4096 mod 2 ^ 27.

Definition implements (m : memory) (root : Z) (A : gmap Z Z) : Prop :=
  forall va, 0 <= va ->
    virt_to_phys m root va = Done ((fun pa => pa + va mod 4096) <$> A !! page_no va).

(** The state after [map] calls that turned the map [A] into [A'] with at most [n]
    new tables. *)
Record mapped (s : kernel) (t : list Page.seg) (root n : Z) (s' : kernel) (t' : list Page.seg)
    (A' : gmap Z Z) : Prop := {
  mp_state : exists m, s' = with_mem m s;
  mp_tree : tree s' t' root;
  mp_map : implements (mem s') root A';
  mp_kept : kept s t root s' t';
  mp_count : Page.free_pages t - n <= Page.free_pages t';
  mp_grow : grows s t root s' t';
}.

Lemma map_inserts s t root A vaddr paddr b :
  tree s t root -> implements (mem s) root A -> 3 <= Page.free_pages t ->
  0 <= vaddr -> 0 <= paddr -> 0 <= b < 1024 -> Z.land b 0xe <> 0 ->
  exists s' t', map root vaddr paddr b 0 s = Done (tt, s') /\
    mapped s t root 2 s' t' (<[page_no vaddr := paddr mod 2 ^ 56 / 4096 * 4096]> A).
Proof.
  intros Ht HA Hf Hva Hp Hb Hbits.
  destruct (map_ok s t root vaddr paddr b Ht Hf Hva Hp Hb Hbits) as (s' & t' & E & Ht' & Hv & Hk & Hc & Hs & Hg).
  exists s', t'. split; [done|]. split; try done. intros va Hva0. rewrite (Hv va Hva0).
  unfold same_page. fold (page_no va) (page_no vaddr). destruct (Z.eqb_spec (page_no va) (page_no vaddr)) as [->|Hne].
  - by rewrite lookup_insert_eq.
  - rewrite lookup_insert_ne by done. by apply HA.
Qed.

Lemma mapped_trans s t root n s1 t1 A1 n' s2 t2 A2 :
  mapped s t root n s1 t1 A1 -> mapped s1 t1 root n' s2 t2 A2 ->
  mapped s t root (n + n') s2 t2 A2.
Proof.
  intros [[m1 ->] _ _ K1 C1 G1] [[m2 ->] Ht HA K2 C2 G2].
  split; [by exists m2|done|done|by eapply kept_trans|lia|by eapply grows_trans].
Qed.

(** [n] pages one behind the other. *)
Fixpoint map_range (va pa : Z) (n : nat) (A : gmap Z Z) : gmap Z Z :=
  match n with
  | O => A
  | S n' => map_range (va + 4096) (pa + 4096) n' (<[page_no va := pa mod 2 ^ 56 / 4096 * 4096]> A)
  end.

Lemma map_range_out n : forall va pa A q,
  (forall i, 0 <= i < Z.of_nat n -> page_no (va + 4096 * i) <> q) ->
  map_range va pa n A !! q = A !! q.
Proof.
  induction n as [|n IH]; intros va pa A q Hq; [done|]. cbn [map_range]. rewrite IH.
  - apply lookup_insert_ne. specialize (Hq 0 ltac:(lia)). by rewrite Z.add_0_r in Hq.
  - intros i Hi. replace (va + 4096 + 4096 * i) with (va + 4096 * (i + 1)) by lia. apply Hq. lia.
Qed.

Lemma map_range_in n : forall va pa A i,
  Z.of_nat n <= 2 ^ 27 -> 0 <= i < Z.of_nat n ->
  map_range va pa n A !! page_no (va + 4096 * i) = Some ((pa + 4096 * i) mod 2 ^ 56 / 4096 * 4096).
Proof.
  induction n as [|n IH]; intros va pa A i Hn Hi; [lia|]. cbn [map_range].
  destruct (Z.eq_dec i 0) as [->|Hne].
  - rewrite !Z.mul_0_r, !Z.add_0_r, map_range_out; [by rewrite lookup_insert_eq|].
    intros j Hj. unfold page_no. replace (va + 4096 + 4096 * j) with (va + (1 + j) * 4096) by lia.
    rewrite Z.div_add by lia. set (x := va / 4096). intros E.
    pose proof (Z.div_mod x (2 ^ 27) ltac:(lia)). pose proof (Z.div_mod (x + (1 + j)) (2 ^ 27) ltac:(lia)). lia.
  - replace (va + 4096 * i) with (va + 4096 + 4096 * (i - 1)) by lia.
    replace (pa + 4096 * i) with (pa + 4096 + 4096 * (i - 1)) by lia. apply IH; lia.
Qed.

(** Every page of the result is one of the [n] pages or was there before. *)
Lemma map_range_some n : forall va pa A q v,
  map_range va pa n A !! q = Some v ->
  (exists i, 0 <= i < Z.of_nat n /\ v = (pa + 4096 * i) mod 2 ^ 56 / 4096 * 4096) \/ A !! q = Some v.
Proof.
  induction n as [|n IH]; intros va pa A q v Hv; [by right|]. cbn [map_range] in Hv.
  apply IH in Hv as [(i & Hi & ->)|[(_ & <-)|(_ & Hv)]%lookup_insert_Some].
  - left. exists (i + 1). split; [lia|]. do 3 f_equal. lia.
  - left. exists 0. split; [lia|]. by rewrite Z.mul_0_r, Z.add_0_r.
  - by right.
Qed.

(** C8: map at level 0 implements insertion into an abstract map from virtual to
    physical pages: when the tables of a process form a tree and three pages are
    free it returns, virt_to_phys answers for every address as the map with the new
    page does, the tables still form a tree, and pages that are no tables keep their
    bytes. *)
Theorem map_refines s t root A vaddr paddr b :
  tree s t root -> implements (mem s) root A -> 3 <= Page.free_pages t ->
  0 <= vaddr -> 0 <= paddr -> 0 <= b < 1024 -> Z.land b 0xe <> 0 ->
  exists s' t', map root vaddr paddr b 0 s = Done (tt, s') /\ tree s' t' root /\
    implements (mem s') root (<[page_no vaddr := paddr mod 2 ^ 56 / 4096 * 4096]> A) /\
    kept s t root s' t' /\ Page.free_pages t - 2 <= Page.free_pages t'.
Proof.
  intros Ht HA Hf Hva Hp Hb Hbits.
  destruct (map_inserts s t root A vaddr paddr b Ht HA Hf Hva Hp Hb Hbits) as (s' & t' & E & [_ Ht' HA' Hk Hc]).
  by exists s', t'.
Qed.

(** A zeroed root is a tree that maps nothing. *)
Lemma empty_tree s t root :
  mm_ok s t -> is_table s t root -> (forall x, root <= x < root + 4096 -> byte (mem s) x = 0) ->
  tree s t root /\ (forall p a, node (mem s) root p a -> a = root) /\ implements (mem s) root ∅.
Proof.
  intros Hok Hr Hz.
  assert (forall p a, node (mem s) root p a -> p = [] /\ a = root) as Hn.
  { induction 1 as [|p a i b _ [-> ->] _ Hi [Hv _]]; [done|]. by rewrite zero_entry in Hv. }
  split_and!; [|intros p a Hp; by apply (Hn p)|].
  - split.
    + done.
    + by intros p a [-> ->]%Hn.
    + intros p a i [-> ->]%Hn _ Hi. by rewrite zero_entry.
    + by intros p a i [-> ->]%Hn.
    + by intros p q a [-> ->]%Hn [-> _]%Hn.
  - intros va _. rewrite lookup_empty. apply walk_invalid, zero_entry; [done|apply vpn_range].
Qed.

(** ** A page for data *)

(** Memory with the same entries in all tables translates in the same way. *)
Lemma agree_translation s t root m va :
  tree s t root ->
  (forall p a i, node (mem s) root p a -> 0 <= i < 512 ->
     rd64 m (entry_addr a i) = rd64 (mem s) (entry_addr a i)) ->
  virt_to_phys m root va = virt_to_phys (mem s) root va.
Proof.
  intros Ht Ha.
  assert (forall k p a i, node (mem s) root p a -> (k + length p = 2)%nat -> 0 <= i < 512 ->
    walk m va k (entry_addr a i) = walk (mem s) va k (entry_addr a i)) as Hw.
  { induction k as [|k IH]; intros p a i Hn Hk Hi; (apply walk_cong; [by eapply Ha|]); [done|].
    intros k' nxt [= <-] Hpt. apply (IH (i :: p)); [|cbn [length]; lia|apply vpn_range].
    eapply node_next; [exact Hn|lia|exact Hi|exact Hpt]. }
  apply (Hw 2%nat []); [constructor|done|apply vpn_range].
Qed.

(** The tree is the same in memory that has the same tables. *)
Lemma tree_agree s t root m t' :
  tree s t root -> mm_ok (with_mem m s) t' ->
  (forall a, is_table s t a -> is_table (with_mem m s) t' a) ->
  (forall p a i, node (mem s) root p a -> 0 <= i < 512 ->
     rd64 m (entry_addr a i) = rd64 (mem s) (entry_addr a i)) ->
  tree (with_mem m s) t' root /\ forall p a, node m root p a <-> node (mem s) root p a.
Proof.
  intros Ht Hok Hkeep Hent.
  assert (forall p a, node m root p a <-> node (mem s) root p a) as Hnode
    by (apply node_agree; intros; by eapply Hent).
  split; [|done]. split; cbn [mem with_mem]; [done|..].
  - intros p a Hn%Hnode. by eapply Hkeep, tr_table.
  - intros p a i Hn%Hnode Hl Hi. rewrite (Hent p) by done. by eapply tr_branch.
  - intros p a i Hn%Hnode Hl Hi. rewrite (Hent p) by done. by eapply tr_leaf.
  - intros p q a Hn%Hnode Hq%Hnode. by eapply tr_own.
Qed.

(** Writing into another allocation changes nothing for the tables. *)
Lemma stranger_write s t root c n m :
  tree s t root -> stranger s t root c n ->
  (forall x, ~ (c <= x < c + 4096 * Z.of_nat n) -> byte m x = byte (mem s) x) ->
  tree (with_mem m s) t root /\ (forall p a, node m root p a <-> node (mem s) root p a) /\
  forall va, virt_to_phys m root va = virt_to_phys (mem s) root va.
Proof.
  intros Ht Hc Hm. pose proof (tr_ok _ _ _ Ht) as Hok.
  assert (forall p a i, node (mem s) root p a -> 0 <= i < 512 ->
    rd64 m (entry_addr a i) = rd64 (mem s) (entry_addr a i)) as Hent.
  { intros p a i Hn Hi. apply rd64_ext. intros x Hx. apply Hm.
    pose proof (stranger_apart _ _ _ _ _ _ _ Ht Hc Hn). unfold entry_addr in Hx. lia. }
  assert (mm_ok (with_mem m s) t) as Hok'.
  { destruct Hok as [Hp Ha]. split; [|done]. apply page_ok_above; [done|]. intros x Hx. apply Hm.
    destruct (block_range _ _ _ _ Hp (proj1 Hc)) as (_ & Hlo & _). lia. }
  destruct (tree_agree s t root m t Ht Hok' (fun _ Ha => Ha) Hent) as [Ht' Hn'].
  split_and!; [done|done|]. intros va. by eapply agree_translation.
Qed.

(** [zalloc(1)] next to the tree: a zeroed page that is no table. *)
Lemma zalloc_data s t root :
  tree s t root -> 2 <= Page.free_pages t ->
  exists pg m t', Page.zalloc 1 s = Done (pg, with_mem m s) /\
    deeper s t root (with_mem m s) t' /\ stranger (with_mem m s) t' root pg 1 /\
    (forall c n, is_block s t c n -> c <> pg) /\ forall x, pg <= x < pg + 4096 -> byte m x = 0.
Proof.
  intros Ht Hf. pose proof (tr_ok _ _ _ Ht) as Hok. destruct (some_free s t Hok Hf) as [j Hj].
  destruct (zalloc_table s t j Hok Hj) as (pg & m & t' & E & [Hok' Htab Hkeep Hz Hfr _ Hc]).
  exists pg, m, t'. split; [exact E|].
  assert (forall c n x, is_block s t c n -> c <= x < c + 4096 * Z.of_nat n -> byte m x = byte (mem s) x) as Hb.
  { intros c n x Hc' Hx. destruct (Hkeep c n Hc') as [Hc1 Hne].
    destruct (block_range _ _ _ _ (mm_page _ _ Hok) Hc') as (Hlo & _). apply Hfr; lia. }
  assert (forall c n, is_block s t c n -> c <> pg) as Hne.
  { intros c n Hb'. destruct (Hkeep c n Hb') as [Hb1 Hd].
    pose proof (block_range _ _ _ _ (mm_page _ _ Hok') Hb1). lia. }
  assert (forall p a i, node (mem s) root p a -> 0 <= i < 512 ->
    rd64 m (entry_addr a i) = rd64 (mem s) (entry_addr a i)) as Hent.
  { intros p a i Hn Hi. apply rd64_ext. intros x Hx. apply (Hb a 1%nat); [by eapply tr_table|].
    unfold entry_addr in Hx. lia. }
  destruct (tree_agree s t root m t' Ht Hok' (fun c Hc' => proj1 (Hkeep c 1%nat Hc')) Hent) as [Ht' Hnode].
  split; [split|split]; cbn [mem with_mem].
  - done.
  - intros q b Hn. by apply Hnode.
  - intros c n [Hct Hno]. split; [split; [by apply Hkeep|]|].
    + intros p Hn%Hnode. by apply (Hno p).
    + intros x Hx. by apply (Hb c n).
  - intros va. by eapply agree_translation.
  - lia.
  - by exists m.
  - split; [done|]. intros p Hn%Hnode. by apply (Hne pg 1%nat (tr_table _ _ _ Ht _ _ Hn)).
  - by split.
Qed.
End Tree.
End MmuTree.
