(* ===== verification/MinixLayout.v ===== *)
(** * fs.rs, data: the on-disk structures of the Minix 3 file system

    The [repr(C)] structs, their byte encodings, and the functions that
    compute where a structure lies on the disk. *)

From S2P Require Import Prelude.

Module Layout.

Definition MAGIC : Z := 0x4d5a.
Definition BLOCK_SIZE : Z := 1024.
Definition NUM_IPTRS : Z := BLOCK_SIZE / 4.
Definition S_IFDIR : Z := 0x4000.
Definition S_IFREG : Z := 0x8000.

Record SuperBlock := mkSuperBlock {
  ninodes : Z;
  pad0 : Z;
  imap_blocks : Z;
  zmap_blocks : Z;
  first_data_zone : Z;
  log_zone_size : Z;
  pad1 : Z;
  max_size : Z;
  nzones : Z;
  magic : Z;
  pad2 : Z;
  block_size : Z;
  disk_version : Z;
}.

Record Inode := mkInode {
  imode : Z;
  nlinks : Z;
  uid : Z;
  gid : Z;
  isize : Z;
  atime : Z;
  mtime : Z;
  ctime : Z;
  zones : list Z;
}.

#[export] Instance Inode_eq_dec : EqDecision Inode.
Proof. solve_decision. Defined.

Record DirEntry := mkDirEntry {
  dinode : Z;
  dname : list Z;
}.

Record Stat := mkStat { st_mode : Z; st_size : Z; st_uid : Z; st_gid : Z }.

Inductive FsError :=
| Success | FileNotFound | Permission | IsFile | IsDirectory | FileExists.

(** [size_of] of the structs. *)
Definition sizeof_SuperBlock : Z := 32.
Definition sizeof_Inode : Z := 64.
Definition sizeof_DirEntry : Z := 64.

(** ** Reading a struct through a pointer into a block *)

(** The [n]-byte field at offset [off] of a struct's bytes. *)
Definition field (l : list Z) (off n : nat) : Z := le_dec (take n (drop off l)).

Definition decode_superblock (l : list Z) : SuperBlock :=
  mkSuperBlock (field l 0 4) (field l 4 2) (field l 6 2) (field l 8 2)
    (field l 10 2) (field l 12 2) (field l 14 2) (field l 16 4) (field l 20 4)
    (field l 24 2) (field l 26 2) (field l 28 2) (field l 30 1).

Definition decode_inode (l : list Z) : Inode :=
  mkInode (field l 0 2) (field l 2 2) (field l 4 2) (field l 6 2)
    (field l 8 4) (field l 12 4) (field l 16 4) (field l 20 4)
    ((fun i => field l (24 + 4 * i) 4) <$> seq 0 10).

Definition decode_direntry (l : list Z) : DirEntry :=
  mkDirEntry (field l 0 4) (take 60 (drop 4 l)).

(** [*(ptr as *const T).add(i)] for the array of structs a block holds. *)
Definition struct_at {T} (size : Z) (decode : list Z -> T) (l : list Z) (i : Z)
    : outcome T :=
  d ← deref (slice l (size * i) size); Done (decode d).

Definition superblock_at (l : list Z) : outcome SuperBlock :=
  struct_at sizeof_SuperBlock decode_superblock l 0.
Definition inode_at (l : list Z) (i : Z) : outcome Inode :=
  struct_at sizeof_Inode decode_inode l i.
Definition direntry_at (l : list Z) (i : Z) : outcome DirEntry :=
  struct_at sizeof_DirEntry decode_direntry l i.

(** The bytes of a struct, as [copy_nonoverlapping] moves them. *)
Definition encode_inode (i : Inode) : list Z :=
  le_enc 2 (imode i) ++ le_enc 2 (nlinks i) ++ le_enc 2 (uid i) ++ le_enc 2 (gid i)
  ++ le_enc 4 (isize i) ++ le_enc 4 (atime i) ++ le_enc 4 (mtime i)
  ++ le_enc 4 (ctime i) ++ (zones i ≫= le_enc 4).

Definition encode_direntry (d : DirEntry) : list Z := le_enc 4 (dinode d) ++ dname d.

(** ** Where things lie on the disk *)
Section Offsets.
Context `{Profile}.

Definition get_imap_offset (inode_num : Z) : outcome Z :=
  n ← usize (inode_num - 1); usize (2 * BLOCK_SIZE + n / 8).

Definition get_zmap_offset (zone_num : Z) : outcome Z :=
  usize ((2 + 2) * BLOCK_SIZE + zone_num / 8).

Definition get_inode_offset (inode_num : Z) : outcome Z :=
  n ← usize (inode_num - 2); m ← usize (n * 0x40); usize (0x2048 + m).

Definition get_zone_offset (zone_num : Z) : outcome Z :=
  usize (zone_num * BLOCK_SIZE).
End Offsets.

Definition stat (inode : Inode) : Stat :=
  mkStat (imode inode) (isize inode) (uid inode) (gid inode).

(** ** Well-formed inodes: every field fits its machine type. *)
Definition fits (w z : Z) : Prop := 0 <= z < 2 ^ w.

Record inode_wf (i : Inode) : Prop := {
  wf_mode : fits 16 (imode i); wf_nlinks : fits 16 (nlinks i);
  wf_uid : fits 16 (uid i); wf_gid : fits 16 (gid i);
  wf_size : fits 32 (isize i); wf_atime : fits 32 (atime i);
  wf_mtime : fits 32 (mtime i); wf_ctime : fits 32 (ctime i);
  wf_zones_len : length (zones i) = 10%nat;
  wf_zones : Forall (fits 32) (zones i);
}.

Lemma field_range l off n :
  Forall is_byte l -> 0 <= field l off n < 256 ^ Z.of_nat n.
Proof.
  intros Hl. unfold field.
  assert (Forall is_byte (take n (drop off l))) as Hb
    by (by apply Forall_take, Forall_drop).
  pose proof (le_dec_range _ Hb) as R. split; [lia|].
  eapply Z.lt_le_trans; [apply R|]. apply Z.pow_le_mono_r; [lia|].
  rewrite length_take. lia.
Qed.

(** Whatever bytes the disk holds, a decoded inode is well formed. *)
Lemma decode_inode_wf l : Forall is_byte l -> inode_wf (decode_inode l).
Proof.
  intros Hl. unfold decode_inode.
  split; cbn [imode nlinks uid gid isize atime mtime ctime zones];
    try exact (field_range l _ 2 Hl); try exact (field_range l _ 4 Hl).
  - done.
  - apply Forall_fmap, Forall_true. intros i. exact (field_range l _ 4 Hl).
Qed.

(** The field after a prefix of known length. *)
Lemma field_app l1 l2 off n :
  (length l1 <= off)%nat -> field (l1 ++ l2) off n = field l2 (off - length l1) n.
Proof. intros. unfold field. by rewrite drop_app_ge. Qed.

Lemma field_enc n z l : fits (8 * Z.of_nat n) z -> field (le_enc n z ++ l) 0 n = z.
Proof.
  intros Hz. unfold field. rewrite drop_0, take_app_le by (rewrite length_le_enc; lia).
  rewrite take_ge by (rewrite length_le_enc; lia). apply le_dec_enc.
  unfold fits in Hz. by rewrite Z.pow_mul_r in Hz by lia.
Qed.

Lemma length_zones_enc (zs : list Z) : length (zs ≫= le_enc 4) = (4 * length zs)%nat.
Proof.
  induction zs as [|z zs IH]; [done|]. rewrite bind_cons, length_app, IH, length_le_enc.
  cbn. lia.
Qed.

Lemma length_encode_inode i : length (zones i) = 10%nat -> length (encode_inode i) = 64%nat.
Proof.
  intros Hz. unfold encode_inode.
  by rewrite !length_app, !length_le_enc, length_zones_enc, Hz.
Qed.

(** Decoding the zone array gives the zones back. *)
Lemma zones_roundtrip (zs : list Z) :
  Forall (fits 32) zs ->
  (fun i => field (zs ≫= le_enc 4) (4 * i) 4) <$> seq 0 (length zs) = zs.
Proof.
  induction 1 as [|z zs Hz Hzs IH]; [done|]. rewrite bind_cons. cbn [length seq].
  rewrite fmap_cons. f_equal.
  - by apply (field_enc 4).
  - rewrite <- fmap_S_seq, <- list_fmap_compose. etransitivity; [|exact IH].
    apply list_fmap_ext. intros _ j _. unfold compose.
    rewrite field_app by (rewrite length_le_enc; lia).
    f_equal. rewrite length_le_enc. lia.
Qed.

(** Decoding the bytes of a well-formed inode gives the inode back. *)
Theorem inode_roundtrip i : inode_wf i -> decode_inode (encode_inode i) = i.
Proof.
  intros []. destruct i as [m nl u g sz a mt c zs]. cbn [zones] in *.
  unfold decode_inode, encode_inode; cbn [imode nlinks uid gid isize atime mtime ctime zones] in *.
  f_equal.
  1-8: repeat (rewrite field_app by (rewrite length_le_enc; lia));
       rewrite ?length_le_enc; cbn [Nat.sub]; by apply field_enc.
  etransitivity; [|apply (zones_roundtrip zs); done]. rewrite wf_zones_len0.
  apply list_fmap_ext. intros _ j _.
  repeat (rewrite field_app by (rewrite length_le_enc; lia)).
  rewrite ?length_le_enc. f_equal; lia.
Qed.

Lemma inode_roundtrip_witness :
  decode_inode (encode_inode (mkInode 0x81a4 1 0 0 32 5 6 7 (6 :: replicate 9 0))) =
    mkInode 0x81a4 1 0 0 32 5 6 7 (6 :: replicate 9 0).
Proof.
  apply inode_roundtrip. split; cbn [imode nlinks uid gid isize atime mtime ctime zones].
  1-8: unfold fits; lia.
  - reflexivity.
  - repeat constructor; unfold fits; lia.
Defined.

(** Encoding a field gives its bytes back. *)
Lemma enc_field l off n :
  Forall is_byte l -> (off + n <= length l)%nat -> le_enc n (field l off n) = take n (drop off l).
Proof.
  intros Hl Hn. unfold field. rewrite <- (le_enc_dec (take n (drop off l))) at 2
    by (by apply Forall_take, Forall_drop).
  f_equal. rewrite length_take, length_drop. lia.
Qed.

Lemma enc_zones l b k : forall j,
  Forall is_byte l -> (b + 4 * (j + k) <= length l)%nat ->
  ((fun i => field l (b + 4 * i) 4) <$> seq j k) ≫= le_enc 4 = take (4 * k) (drop (b + 4 * j) l).
Proof.
  induction k as [|k IH]; intros j Hl Hn; [by rewrite take_0|].
  cbn [seq fmap list_fmap]. rewrite bind_cons. change (list_fmap _ _ ?f ?x) with (f <$> x).
  rewrite enc_field by (done || lia). fold (fmap (M := list) (fun i => field l (b + 4 * i) 4)).
  rewrite IH by (done || lia).
  replace (4 * S k)%nat with (4 + 4 * k)%nat by lia.
  rewrite <- (take_take_drop _ 4 (4 * k)), drop_drop. do 2 f_equal. f_equal. lia.
Qed.

(** Any 64 bytes of the disk are a well-typed inode, every field in the range
    of its integer type, and it is written back as the same bytes. *)
Theorem inode_bytes_typed l :
  Forall is_byte l -> length l = 64%nat ->
  inode_wf (decode_inode l) /\ encode_inode (decode_inode l) = l.
Proof.
  intros Hl Hn. split; [by apply decode_inode_wf|].
  unfold encode_inode, decode_inode. cbn [imode nlinks uid gid isize atime mtime ctime zones].
  rewrite (enc_zones l 24 10 0), !enc_field by (done || lia).
  assert (forall a b c x, (b + a = c)%nat ->
    take a (drop b l) ++ take x (drop c l) = take (a + x) (drop b l)) as Hj.
  { intros a b c x <-. by rewrite <- (take_take_drop _ a x), drop_drop. }
  change (24 + 4 * 0)%nat with 24%nat.
  repeat (rewrite Hj by reflexivity; cbn [Nat.add Nat.mul]). by rewrite drop_0, take_ge by lia.
Qed.

Lemma inode_bytes_typed_witness :
  inode_wf (decode_inode (replicate 64 255)) /\
  encode_inode (decode_inode (replicate 64 255)) = replicate 64 255.
Proof.
  apply inode_bytes_typed; [|reflexivity].
  apply Forall_replicate. unfold is_byte. lia.
Defined.

End Layout.
