(* ===== verification/Lock.v ===== *)
(** * lock.rs: the mutex

    The lock is a word that [amoswap] exchanges atomically: 1 is locked. *)

From S2P Require Import Prelude.

Module Lock.

Inductive MutexState := Unlocked | Locked.
Definition MutexState_val (s : MutexState) : Z := match s with Unlocked => 0 | Locked => 1 end.

Definition Mutex_new : Z := MutexState_val Unlocked.
Definition Mutex_val (m : Z) : Z := m.

(** [amoswap.w.aq] returns the old word and stores 1. *)
Definition try_lock (m : Z) : outcome (bool * Z) :=
  if m =? 1 then Done (false, 1)
  else if m =? 0 then Done (true, 1)
  else Panic.

(** Each element of [env] is what the rest of the system does to the word
    during one [syscall_sleep]. *)
Fixpoint sleep_lock (env : list (Z -> Z)) (m : Z) : outcome Z :=
  '(got, m) ← try_lock m;
  if (got : bool) then Done m else
  match env with
  | [] => NoFuel
  | f :: env' => sleep_lock env' (f m)
  end.

(** On one hart nobody unlocks while this loop runs: it waits for ever. *)
Definition spin_lock (m : Z) : outcome Z :=
  '(got, m) ← try_lock m;
  if (got : bool) then Done m else Hang.

Definition unlock (m : Z) : Z := 0.

(** ** Harts that share a lock *)

(** The word, and the harts that are between a successful [try_lock] and
    their [unlock]. *)
Record shared := mkShared { lword : Z; holders : gset nat }.

Inductive step : shared -> shared -> Prop :=
| step_acquire s h m' : h ∉ holders s -> try_lock (lword s) = Done (true, m') ->
    step s (mkShared m' ({[h]} ∪ holders s))
| step_busy s m' : try_lock (lword s) = Done (false, m') -> step s (mkShared m' (holders s))
| step_release s h : h ∈ holders s -> step s (mkShared (unlock (lword s)) (holders s ∖ {[h]})).

Definition start : shared := mkShared Mutex_new ∅.

(** The word says whether there is a holder, and there is at most one. *)
Definition lock_inv (s : shared) : Prop :=
  (lword s = 0 /\ holders s = ∅) \/ (lword s = 1 /\ exists h, holders s = {[h]}).

Lemma try_lock_true m m' : try_lock m = Done (true, m') -> m = 0 /\ m' = 1.
Proof.
  unfold try_lock. destruct (Z.eqb_spec m 1); [done|]. destruct (Z.eqb_spec m 0); [|done].
  by intros [= <-].
Qed.

Lemma try_lock_false m m' : try_lock m = Done (false, m') -> m = 1 /\ m' = 1.
Proof.
  unfold try_lock. destruct (Z.eqb_spec m 1); [by intros [= <-]|].
  by destruct (Z.eqb_spec m 0).
Qed.

Lemma step_inv s s' : lock_inv s -> step s s' -> lock_inv s'.
Proof.
  intros Hinv Hs. destruct Hs as [s h m' Hh E|s m' E|s h Hh].
  - apply try_lock_true in E as [E0 ->]. destruct Hinv as [[_ Ee]|[E1 _]]; [|congruence].
    right. split; [done|]. exists h. cbn. by rewrite Ee, union_empty_r_L.
  - apply try_lock_false in E as [E1 ->]. destruct Hinv as [[E0 _]|[_ [h Hh]]]; [congruence|].
    right. split; [done|]. by exists h.
  - left. split; [done|]. cbn. destruct Hinv as [[_ Ee]|[_ [h' Ee]]]; rewrite Ee in *.
    + by apply not_elem_of_empty in Hh.
    + apply elem_of_singleton in Hh as ->. apply difference_diag_L.
Qed.

Lemma reachable_inv s : rtc step start s -> lock_inv s.
Proof.
  intros Hr. assert (lock_inv start) as H0 by (by left). revert H0.
  induction Hr as [s|s1 s2 s3 Hs Hr IH]; [done|]. intros Hi. apply IH. by eapply step_inv.
Qed.

(** C28: In every state that harts taking and releasing the lock can reach, at most
    one hart holds it, and try_lock answers true exactly when nobody does. *)
Theorem mutual_exclusion s :
  rtc step start s ->
  (forall h1 h2, h1 ∈ holders s -> h2 ∈ holders s -> h1 = h2) /\
  (try_lock (lword s) = Done (true, 1) <-> holders s = ∅).
Proof.
  intros Hr. apply reachable_inv in Hr as [[E0 Ee]|[E1 [h Eh]]]; rewrite ?Ee, ?E0, ?Eh, ?E1.
  - split; [|done]. intros h1 h2 Hh. by apply not_elem_of_empty in Hh.
  - split; [by intros h1 h2 ->%elem_of_singleton ->%elem_of_singleton|].
    split; [done|]. intros E. by destruct (non_empty_singleton_L (C := gset nat) h).
Qed.

Lemma mutual_exclusion_witness :
  try_lock (lword (mkShared 1 {[0%nat]})) = Done (true, 1) <-> ({[0%nat]} : gset nat) = ∅.
Proof.
  assert (rtc step start (mkShared 1 {[0%nat]})) as Hr.
  { eapply rtc_once. replace ({[0%nat]} : gset nat) with ({[0%nat]} ∪ holders start)
      by apply union_empty_r_L. by apply (step_acquire start). }
  destruct (mutual_exclusion (mkShared 1 {[0%nat]}) Hr) as [_ E]. exact E.
Defined.

(** [sleep_lock] acquires the lock the first time it wakes up and finds it
    free, and not before. *)
Theorem sleep_lock_waits env m k :
  m = 1 -> (forall i f, env !! i = Some f -> f 1 = 0 \/ f 1 = 1) ->
  (exists f, env !! k = Some f /\ f 1 = 0) ->
  sleep_lock env m = Done 1.
Proof.
  revert m k. induction env as [|f env IH]; intros m k -> Hall (g & Hg & E0); [done|].
  change (sleep_lock (f :: env) 1) with (sleep_lock env (f 1)).
  destruct (Hall 0%nat f eq_refl) as [E|E]; rewrite E.
  - by destruct env.
  - destruct k as [|k]; [injection Hg as ->; congruence|].
    apply (IH 1 k); [done| |by exists g]. intros i h Hi. by apply (Hall (S i)).
Qed.

Lemma sleep_lock_waits_witness : sleep_lock [(fun m => m); (fun _ => 0)] 1 = Done 1.
Proof.
  apply (sleep_lock_waits _ 1 1); [reflexivity| |].
  - intros [|[|i]] f E; [injection E as <-; by right|injection E as <-; by left|done].
  - by exists (fun _ => 0).
Defined.
End Lock.
