(* ===== verification/Process.v ===== *)
(** * process.rs: the process list

    A process owns pages of the page allocator: its trap frame, its stack,
    its root page table and what was added later.  The list lives in an
    [Option] that the functions take and put back. *)

From S2P Require Import Prelude Memory Cpu PageAlloc Kmem Mmu MinixLayout Lock.
Import Mem.

Module Process.

Definition STACK_PAGES : Z := 35.
Definition STACK_ADDR : Z := 0x100000000.
Definition PROCESS_STARTING_ADDR : Z := 0x20000000.

Inductive ProcessState := Running | Sleeping | Waiting | Dead.
#[export] Instance ProcessState_eq_dec : EqDecision ProcessState.
Proof. solve_decision. Defined.

Inductive Descriptor :=
| File (i : Layout.Inode)
| Device (n : Z)
| Framebuffer
| ButtonEvents
| AbsoluteEvents
| Console
| Network
| Unknown.

(** Strings are their UTF-8 bytes. *)
Record ProcessData := mkData {
  environ : gmap (list Z) (list Z);
  fdesc : gmap Z Descriptor;
  cwd : list Z;
  pages : list Z;
}.

Definition ProcessData_new : ProcessData := mkData ∅ ∅ [47] [].

(** Pointers are addresses, 0 is null. *)
Record process := mkProcess {
  frame : Z;
  stack : Z;
  pid : Z;
  mmu_table : Z;
  state : ProcessState;
  data : ProcessData;
  sleep_until : Z;
  program : Z;
  brk : Z;
}.

Definition with_state (st : ProcessState) (p : process) : process :=
  mkProcess (frame p) (stack p) (pid p) (mmu_table p) st (data p) (sleep_until p)
    (program p) (brk p).

Definition with_sleep (until : Z) (p : process) : process :=
  mkProcess (frame p) (stack p) (pid p) (mmu_table p) Sleeping (data p) until
    (program p) (brk p).

(** ** The trap frame in memory *)

Definition reg_addr (f : Z) (r : Cpu.Registers) : Z := f + 8 * Cpu.gp r.
Definition pc_addr (f : Z) : Z := f + 520.
Definition pid_addr (f : Z) : Z := f + 544.
Definition mode_addr (f : Z) : Z := f + 552.

(** ** The globals *)

(** [ticks] counts how often the clock was read. *)
Record pstate := mkP {
  kern : kernel;
  PROCESS_LIST : option (list process);
  PROCESS_LIST_MUTEX : Z;
  NEXT_PID : Z;
  ticks : nat;
}.

Definition with_list (l : option (list process)) (s : pstate) : pstate :=
  mkP (kern s) l (PROCESS_LIST_MUTEX s) (NEXT_PID s) (ticks s).
Definition with_mutex (m : Z) (s : pstate) : pstate :=
  mkP (kern s) (PROCESS_LIST s) m (NEXT_PID s) (ticks s).

(** The timer register: its value at the [n]-th read. *)
Class Clock := clock : nat -> Z.

(** Change the first process that satisfies [sel], if there is one. *)
Fixpoint on_first (sel : process -> bool) (f : process -> process) (l : list process)
    : bool * list process :=
  match l with
  | [] => (false, [])
  | p :: l' =>
      if sel p then (true, f p :: l')
      else let '(b, l'') := on_first sel f l' in (b, p :: l'')
  end.

Section Process.
Context `{Profile} `{Linker} `{Clock}.
(** Addresses of [ra_delete_proc] and [init_process], placed by the linker. *)
Context (ra_delete_proc init_process : Z).
Abbreviation P := (M pstate).

(** Run an operation on memory. *)
Definition on_kern {A} (c : M kernel A) : P A := fun s =>
  match c (kern s) with
  | Done (a, k) => Done (a, mkP k (PROCESS_LIST s) (PROCESS_LIST_MUTEX s) (NEXT_PID s) (ticks s))
  | Panic => Panic
  | Fault => Fault
  | Hang => Hang
  | NoFuel => NoFuel
  end.

Definition get_mtime : P Z := fun s =>
  Done (clock (ticks s), mkP (kern s) (PROCESS_LIST s) (PROCESS_LIST_MUTEX s) (NEXT_PID s)
                           (S (ticks s))).

Definition set_running (p : Z) : P bool := fun s =>
  match PROCESS_LIST s with
  | Some pl =>
      let '(retval, pl) := on_first (fun proc => pid proc =? p) (with_state Running) pl in
      Done (retval, with_list (Some pl) s)
  | None => Done (false, s)
  end.

Definition set_waiting (p : Z) : P bool := fun s =>
  match PROCESS_LIST s with
  | Some pl =>
      let '(retval, pl) := on_first (fun proc => pid proc =? p) (with_state Waiting) pl in
      Done (retval, with_list (Some pl) s)
  | None => Done (false, s)
  end.

(** The clock is read, and the sum computed, when the process was found. *)
Definition set_sleeping (p duration : Z) : P bool :=
  s ← get;
  match PROCESS_LIST s with
  | Some pl =>
      if existsb (fun proc => pid proc =? p) pl then
        now ← get_mtime;
        until ← lift (usize (now + duration));
        _ ← modify (with_list
              (Some (on_first (fun proc => pid proc =? p) (with_sleep until) pl).2));
        mret true
      else mret false
  | None => mret false
  end.

(** The process with this pid in its trap frame, as its place in the list. *)
Fixpoint find_pid (m : memory) (p : Z) (l : list process) : option nat :=
  match l with
  | [] => None
  | proc :: l' =>
      if as_u16 (rd64 m (pid_addr (frame proc))) =? p then Some O
      else S <$> find_pid m p l'
  end.

Definition get_by_pid (p : Z) : P (option nat) :=
  gets (fun s =>
    match PROCESS_LIST s with
    | Some pl => find_pid (mem (kern s)) p pl
    | None => None
    end).

(** ** Dropping a process *)

Fixpoint dealloc_all (fuel : nat) (l : list Z) : P unit :=
  match l with
  | [] => mret tt
  | a :: l' => _ ← on_kern (Page.dealloc fuel a); dealloc_all fuel l'
  end.

(** [fuel] bounds the pages of one allocation. *)
Definition drop_process (fuel : nat) (p : process) : P unit :=
  _ ← on_kern (Page.dealloc fuel (stack p));
  _ ← on_kern (Mmu.unmap fuel (mmu_table p));
  _ ← on_kern (Page.dealloc fuel (mmu_table p));
  _ ← on_kern (Page.dealloc fuel (frame p));
  _ ← dealloc_all fuel (pages (data p));
  if program p =? 0 then mret tt else on_kern (Page.dealloc fuel (program p)).

Definition delete_process (fuel : nat) (p : Z) : P unit :=
  s ← get;
  match PROCESS_LIST s with
  | Some pl =>
      match find_pid (mem (kern s)) p pl with
      | Some i =>
          proc ← lift (unwrap (pl !! i));
          _ ← modify (with_list None);
          _ ← drop_process fuel proc;
          modify (with_list (Some (delete i pl)))
      | None => mret tt
      end
  | None => mret tt
  end.

(** ** Adding a process *)

(** Store a field of the trap frame; a null frame is not memory. *)
Definition set_field (f a v : Z) : P unit :=
  _ ← lift (valid (negb (f =? 0)));
  on_kern (modify (fun k => with_mem (wr64 (mem k) a v) k)).

Definition next_pid : P Z :=
  s ← get;
  n ← lift (u16 (NEXT_PID s + 1));
  _ ← put (mkP (kern s) (PROCESS_LIST s) (PROCESS_LIST_MUTEX s) n (ticks s));
  mret (NEXT_PID s).

(** The new process: its pages, the next pid, and its trap frame without
    the arguments. *)
Definition new_kernel_process : P process :=
  s ← get;
  let my_pid := NEXT_PID s in
  f ← on_kern (Page.zalloc 1);
  st ← on_kern (Page.zalloc STACK_PAGES);
  tb ← on_kern (Page.zalloc 1);
  _ ← next_pid;
  mret (mkProcess f st my_pid tb Running ProcessData_new 0 0 0).

Definition fill_frame (func : Z) (args : option Z) (p : process) : P unit :=
  _ ← set_field (frame p) (pc_addr (frame p)) func;
  _ ← match args with
      | Some a => set_field (frame p) (reg_addr (frame p) Cpu.A0) a
      | None => mret tt
      end;
  _ ← set_field (frame p) (reg_addr (frame p) Cpu.Ra) ra_delete_proc;
  sp ← lift (usize (stack p + STACK_PAGES * 4096));
  _ ← set_field (frame p) (reg_addr (frame p) Cpu.Sp) sp;
  _ ← set_field (frame p) (mode_addr (frame p)) (Cpu.CpuMode_val Cpu.Machine);
  set_field (frame p) (pid_addr (frame p)) (pid p).

(** A process that does not get into the list is dropped. *)
Definition add_kernel_process (fuel : nat) (func : Z) : P Z :=
  ret_proc ← new_kernel_process;
  _ ← fill_frame func None ret_proc;
  s ← get;
  match PROCESS_LIST s with
  | Some pl =>
      _ ← put (with_list (Some (pl ++ [ret_proc])) s);
      mret (pid ret_proc)
  | None =>
      _ ← put (with_mutex (Lock.unlock (PROCESS_LIST_MUTEX s)) s);
      _ ← drop_process fuel ret_proc;
      mret 0
  end.

(** [PROCESS_LIST_MUTEX.spin_lock()] *)
Definition lock_list : P unit :=
  s ← get;
  m ← lift (Lock.spin_lock (PROCESS_LIST_MUTEX s));
  put (with_mutex m s).

Definition unlock_list : P unit :=
  modify (fun s => with_mutex (Lock.unlock (PROCESS_LIST_MUTEX s)) s).

Definition add_kernel_process_args (func args : Z) : P Z :=
  _ ← lock_list;
  s ← get;
  match PROCESS_LIST s with
  | Some pl =>
      _ ← put (with_list None s);
      ret_proc ← new_kernel_process;
      _ ← fill_frame func (Some args) ret_proc;
      _ ← modify (with_list (Some (pl ++ [ret_proc])));
      _ ← unlock_list;
      mret (pid ret_proc)
  | None => _ ← unlock_list; mret 0
  end.

Fixpoint drop_all (fuel : nat) (l : list process) : P unit :=
  match l with
  | [] => mret tt
  | p :: l' => _ ← drop_process fuel p; drop_all fuel l'
  end.

(** The storage of the new list is allocated; assigning it drops the processes of the
    old one.  Storage of an old list, when [init] is called again, is not freed. *)
Definition init `{Kmem.Deques} (fuel : nat) : P Z :=
  _ ← lock_list;
  _ ← on_kern (Kmem.with_capacity fuel 15 Kmem.size_of_Process);
  s ← get;
  _ ← drop_all fuel (default [] (PROCESS_LIST s));
  _ ← modify (with_list (Some []));
  _ ← add_kernel_process fuel init_process;
  s ← get;
  pl ← lift (unwrap (PROCESS_LIST s));
  p ← lift (unwrap (head pl));
  _ ← unlock_list;
  gets (fun s => rd64 (mem (kern s)) (pc_addr (frame p))).
End Process.
End Process.
