(* ===== verification/ProcessProps.v ===== *)
(** * The process list: states, pids and new processes *)

From S2P Require Import Prelude Memory Cpu PageAlloc PageProps Mmu MinixLayout Lock Process.
Import Mem PageProps Process.

Module ProcessProps.

(** ** Changing the state of one process *)

Lemma on_first_found sel f l1 q l2 :
  Forall (fun p => sel p = false) l1 -> sel q = true ->
  on_first sel f (l1 ++ q :: l2) = (true, l1 ++ f q :: l2).
Proof.
  intros Hl Hq. induction Hl as [|p l1 Hp Hl IH]; cbn; [by rewrite Hq|].
  by rewrite Hp, IH.
Qed.

Lemma on_first_none sel f l : Forall (fun p => sel p = false) l -> on_first sel f l = (false, l).
Proof. induction 1 as [|p l Hp Hl IH]; cbn; [done|]. by rewrite Hp, IH. Qed.

Lemma find_sel (sel : process -> bool) l :
  Forall (fun p => sel p = false) l \/
  exists l1 q l2, l = l1 ++ q :: l2 /\ Forall (fun p => sel p = false) l1 /\ sel q = true.
Proof.
  induction l as [|p l IH]; [by left|]. destruct (sel p) eqn:E.
  - right. by exists [], p, l.
  - destruct IH as [IH|(l1 & q & l2 & -> & Hl & Hq)]; [left; by constructor|].
    right. exists (p :: l1), q, l2. split_and!; [done|by constructor|done].
Qed.

Section Props.
Context `{Profile} `{Linker} `{Clock}.
Context (ra_delete_proc : Z).
Abbreviation num_pages := (HEAP_SIZE / Page.PAGE_SIZE).

(** set_waiting and set_running change the state of the first process with the
    pid and nothing else; they answer whether there is one. *)
Theorem set_state_exact s l p :
  PROCESS_LIST s = Some l ->
  (Forall (fun q => pid q <> p) l ->
   set_waiting p s = Done (false, s) /\ set_running p s = Done (false, s)) /\
  (forall l1 q l2, l = l1 ++ q :: l2 -> Forall (fun q => pid q <> p) l1 -> pid q = p ->
   set_waiting p s = Done (true, with_list (Some (l1 ++ with_state Waiting q :: l2)) s) /\
   set_running p s = Done (true, with_list (Some (l1 ++ with_state Running q :: l2)) s)).
Proof.
  intros Hl. unfold set_waiting, set_running. rewrite Hl.
  assert (forall k, Forall (fun q => pid q <> p) k -> Forall (fun q => (pid q =? p) = false) k) as Hneq
    by (intros k Hk; eapply Forall_impl; [exact Hk|]; intros q Hq; by apply Z.eqb_neq).
  split.
  - intros Hno. rewrite !on_first_none by (by apply Hneq). destruct s. cbn in *. by subst.
  - intros l1 q l2 -> Hl1 Hq.
    rewrite !on_first_found by (by apply Hneq || by apply Z.eqb_eq). done.
Qed.

(** Blocking a running process and waking it again is the identity. *)
Theorem wait_run_roundtrip s l l1 q l2 p :
  PROCESS_LIST s = Some l -> l = l1 ++ q :: l2 -> Forall (fun q => pid q <> p) l1 ->
  pid q = p -> state q = Running ->
  exists s1, set_waiting p s = Done (true, s1) /\ set_running p s1 = Done (true, s).
Proof.
  intros Hl -> Hl1 Hq Hr.
  assert (Forall (fun q => (pid q =? p) = false) l1) as Hneq
    by (eapply Forall_impl; [exact Hl1|]; intros q' Hq'; by apply Z.eqb_neq).
  unfold set_waiting, set_running. rewrite Hl.
  rewrite on_first_found by (done || by apply Z.eqb_eq).
  eexists. split; [reflexivity|]. cbn [PROCESS_LIST with_list].
  rewrite on_first_found by (done || by apply Z.eqb_eq).
  destruct s, q. unfold with_list, with_state. cbn in *. by subst.
Qed.

(** ** New processes *)

Record frame_ok (m : memory) (p : process) (func args ra : Z) : Prop := {
  fr_pc : rd64 m (pc_addr (frame p)) = func;
  fr_a0 : rd64 m (reg_addr (frame p) Cpu.A0) = args;
  fr_ra : rd64 m (reg_addr (frame p) Cpu.Ra) = ra;
  fr_sp : rd64 m (reg_addr (frame p) Cpu.Sp) = stack p + STACK_PAGES * 4096;
  fr_mode : rd64 m (mode_addr (frame p)) = 3;
  fr_pid : rd64 m (pid_addr (frame p)) = pid p;
}.

Definition with_kern (k : kernel) (s : pstate) : pstate :=
  mkP k (PROCESS_LIST s) (PROCESS_LIST_MUTEX s) (NEXT_PID s) (ticks s).

Lemma set_field_ok f a v s :
  f <> 0 -> set_field f a v s =
    Done (tt, with_kern (with_mem (wr64 (mem (kern s)) a v) (kern s)) s).
Proof.
  intros Hf. unfold set_field. rewrite (proj2 (Z.eqb_neq _ _) Hf).
  by erewrite bind_done by reflexivity.
Qed.

Lemma fill_frame_ok func args p s :
  0 < frame p -> 0 <= func < 2 ^ 64 -> 0 <= args < 2 ^ 64 -> 0 <= ra_delete_proc < 2 ^ 64 ->
  0 <= stack p -> stack p + STACK_PAGES * 4096 < 2 ^ 64 -> 0 <= pid p < 2 ^ 16 ->
  exists m, fill_frame ra_delete_proc func (Some args) p s =
      Done (tt, with_kern (with_mem m (kern s)) s) /\
    frame_ok m p func args ra_delete_proc /\
    forall x, x < frame p \/ frame p + 4096 <= x -> byte m x = byte (mem (kern s)) x.
Proof.
  intros Hf Hfunc Hargs Hra Hst Hst2 Hpid. unfold fill_frame.
  erewrite bind_done by (apply set_field_ok; lia).
  erewrite bind_done by (apply set_field_ok; lia).
  erewrite bind_done by (apply set_field_ok; lia).
  erewrite bind_done by (apply lift_done, uint_ok; unfold STACK_PAGES in *; lia).
  erewrite bind_done by (apply set_field_ok; lia).
  erewrite bind_done by (apply set_field_ok; lia).
  rewrite set_field_ok by lia. cbn [kern with_kern mem with_mem].
  eexists. split; [reflexivity|].
  unfold pc_addr, pid_addr, mode_addr, reg_addr, STACK_PAGES in *. cbn [Cpu.gp Cpu.CpuMode_val].
  split.
  - split; unfold pc_addr, pid_addr, mode_addr, reg_addr, STACK_PAGES; cbn [Cpu.gp];
      repeat (rewrite rd64_wr64_ne by lia); apply rd64_wr64; lia.
  - intros x Hx. rewrite !byte_wr64 by lia. done.
Qed.

(** An operation of the allocators inside of the process state. *)
Lemma on_kern_done {A} (c : M kernel A) s a k' :
  c (kern s) = Done (a, k') -> on_kern c s = Done (a, with_kern k' s).
Proof. intros E. unfold on_kern. by rewrite E. Qed.

(** Each trap frame is a page of its own with the pid in it. *)
Definition frames_ok (k : kernel) (t : list Page.seg) (l : list process) : Prop :=
  Forall (fun p => is_block k t (frame p) 1 /\ rd64 (mem k) (pid_addr (frame p)) = pid p) l.

(** The list is in order: pids are fresh and different, and each process
    can be found by the pid in its trap frame. *)
Record procs_ok (s : pstate) (t : list Page.seg) (l : list process) : Prop := {
  pr_list : PROCESS_LIST s = Some l;
  pr_page : page_ok (kern s) t;
  pr_pids : Forall (fun p => 1 <= pid p < NEXT_PID s) l;
  pr_nodup : NoDup (pid <$> l);
  pr_frames : frames_ok (kern s) t l;
  pr_next : 1 <= NEXT_PID s < 2 ^ 16;
}.

(** Memory changes above the descriptors that spare the trap frames. *)
Lemma frames_kept k k' t t' l f n :
  (forall b j, is_block k t b j -> is_block k' t' b j /\
     (b + Page.PAGE_SIZE * Z.of_nat j <= f \/ f + Page.PAGE_SIZE * Z.of_nat n <= b)) ->
  page_ok k t ->
  (forall x, HEAP_START + num_pages <= x ->
     ~ (f <= x < f + Page.PAGE_SIZE * Z.of_nat n) -> byte (mem k') x = byte (mem k) x) ->
  frames_ok k t l -> frames_ok k' t' l.
Proof.
  intros Hkeep Hok Hb Hl. eapply Forall_impl; [exact Hl|]. cbn beta.
  intros p [Hblk Hr]. destruct (Hkeep _ _ Hblk) as [Hblk' Hdis]. split; [done|].
  pose proof (block_range _ _ _ _ Hok Hblk) as (Hlow & _).
  rewrite <- Hr. apply rd64_ext. intros x Hx. unfold pid_addr, Page.PAGE_SIZE in *.
  apply Hb; lia.
Qed.

(** The frames after one more [zalloc]. *)
Lemma frames_zalloc k t a n k' t' l :
  new_block k t a n k' t' -> page_ok k t ->
  frames_ok k t l -> frames_ok k' t' l.
Proof.
  intros Hnew Hok. apply (frames_kept k k' t t' l a n); [|done|].
  - intros b j Hb. by apply (nb_keep _ _ _ _ _ _ Hnew).
  - intros x Hx Hn. by apply (nb_frame _ _ _ _ _ _ Hnew).
Qed.

(** Writing into a page of the allocator keeps its table. *)
Lemma write_block_ok k t a m :
  page_ok k t -> is_block k t a 1 ->
  (forall x, x < a \/ a + 4096 <= x -> byte m x = byte (mem k) x) ->
  page_ok (with_mem m k) t.
Proof.
  intros Hok Hblk Hm. pose proof (block_range _ _ _ _ Hok Hblk) as (_ & Ha & _).
  apply page_ok_above; [done|]. intros x Hx. apply Hm. lia.
Qed.

(** The pages of a new process. *)
Record spawned (k : kernel) (l : list process) (f st : Z) (k3 : kernel) (t3 : list Page.seg)
    : Prop := {
  sp_page : page_ok k3 t3;
  sp_frame : is_block k3 t3 f 1;
  sp_pos : 0 < f;
  sp_stack : 0 <= st /\ st + STACK_PAGES * 4096 < 2 ^ 64;
  sp_frames : frames_ok k3 t3 l;
  sp_apart : Forall (fun p => frame p + 4096 <= f \/ f + 4096 <= frame p) l;
}.

Lemma spawn_pages k t l f k1 st k2 tb k3 :
  page_ok k t -> frames_ok k t l -> 35 <= num_pages ->
  Page.zalloc 1 k = Done (f, k1) -> f <> 0 ->
  Page.zalloc STACK_PAGES k1 = Done (st, k2) -> st <> 0 ->
  Page.zalloc 1 k2 = Done (tb, k3) -> tb <> 0 ->
  exists t3, spawned k l f st k3 t3.
Proof.
  intros Hpage Hfr H35 E1 Hf E2 Hst E3 Htb.
  destruct (zalloc_block k t 1 f k1 Hpage ltac:(lia) ltac:(lia) E1 Hf) as [t1 N1].
  pose proof (nb_ok _ _ _ _ _ _ N1) as Hok1.
  destruct (zalloc_block k1 t1 35 st k2 Hok1 ltac:(lia) ltac:(lia) E2 Hst) as [t2 N2].
  pose proof (nb_ok _ _ _ _ _ _ N2) as Hok2.
  destruct (zalloc_block k2 t2 1 tb k3 Hok2 ltac:(lia) ltac:(lia) E3 Htb) as [t3 N3].
  pose proof (nb_ok _ _ _ _ _ _ N3) as Hok3.
  destruct (nb_keep _ _ _ _ _ _ N2 _ _ (nb_block _ _ _ _ _ _ N1)) as [Bf2 _].
  destruct (nb_keep _ _ _ _ _ _ N3 _ _ Bf2) as [Bf3 _].
  pose proof (block_range _ _ _ _ Hok3 Bf3) as (Rf & Af & _).
  pose proof (block_range _ _ _ _ Hok2 (nb_block _ _ _ _ _ _ N2)) as (Rst & _ & Mst & _).
  unfold Page.PAGE_SIZE in Mst. pose proof (tbl_pos _ _ Hok3) as Hpos.
  exists t3. split; try done; try (unfold STACK_PAGES; lia).
  - apply (frames_zalloc _ _ _ _ _ _ _ N3 Hok2), (frames_zalloc _ _ _ _ _ _ _ N2 Hok1),
      (frames_zalloc _ _ _ _ _ _ _ N1 Hpage), Hfr.
  - eapply Forall_impl; [exact Hfr|]. cbn beta. intros p [Hb _].
    destruct (nb_keep _ _ _ _ _ _ N1 _ _ Hb) as [_ Hd]. unfold Page.PAGE_SIZE in Hd. lia.
Qed.

(** Filling the new frame leaves the others alone. *)
Lemma frames_filled k l f st k3 t3 m :
  spawned k l f st k3 t3 ->
  (forall x, x < f \/ f + 4096 <= x -> byte m x = byte (mem k3) x) ->
  page_ok (with_mem m k3) t3 /\ frames_ok (with_mem m k3) t3 l.
Proof.
  intros [Hok Hblk Hpos _ Hfr Hap] Hm. split; [by apply (write_block_ok _ _ f)|].
  unfold frames_ok in *. rewrite Forall_forall in *. intros p Hp.
  destruct (Hfr p Hp) as [Hb Hr]. specialize (Hap p Hp). split; [exact Hb|].
  rewrite <- Hr. apply rd64_ext. intros x Hx. apply Hm. unfold pid_addr in Hx. lia.
Qed.

Lemma new_kernel_process_run s f k1 st k2 tb k3 :
  0 <= NEXT_PID s -> NEXT_PID s + 1 < 2 ^ 16 ->
  Page.zalloc 1 (kern s) = Done (f, k1) -> Page.zalloc STACK_PAGES k1 = Done (st, k2) ->
  Page.zalloc 1 k2 = Done (tb, k3) ->
  new_kernel_process s =
    Done (mkProcess f st (NEXT_PID s) tb Running ProcessData_new 0 0 0,
          mkP k3 (PROCESS_LIST s) (PROCESS_LIST_MUTEX s) (NEXT_PID s + 1) (ticks s)).
Proof.
  intros Hn0 Hn E1 E2 E3. unfold new_kernel_process. erewrite bind_done by reflexivity.
  erewrite bind_done by (unfold on_kern; rewrite E1; reflexivity).
  erewrite bind_done by (unfold on_kern; cbn [kern]; rewrite E2; reflexivity).
  erewrite bind_done by (unfold on_kern; cbn [kern]; rewrite E3; reflexivity).
  unfold next_pid. erewrite bind_done; cycle 1.
  { erewrite bind_done by reflexivity. cbn [NEXT_PID].
    erewrite bind_done by (apply lift_done, uint_ok; lia).
    erewrite bind_done by reflexivity. reflexivity. }
  reflexivity.
Qed.

(** C24: When its pages can be had, add_kernel_process_args returns a pid nobody
    else has and puts a process last in the list that is ready to run at func with
    args in a0 and its stack pointer at the top of its stack; the pages, pids and
    trap frames of all processes stay in order and the lock is free again. *)
Theorem add_kernel_process_args_ok s t l func args f k1 st k2 tb k3 :
  procs_ok s t l -> PROCESS_LIST_MUTEX s = 0 -> NEXT_PID s + 1 < 2 ^ 16 -> 35 <= num_pages ->
  0 <= func < 2 ^ 64 -> 0 <= args < 2 ^ 64 -> 0 <= ra_delete_proc < 2 ^ 64 ->
  Page.zalloc 1 (kern s) = Done (f, k1) -> f <> 0 ->
  Page.zalloc STACK_PAGES k1 = Done (st, k2) -> st <> 0 ->
  Page.zalloc 1 k2 = Done (tb, k3) -> tb <> 0 ->
  exists s' t' p,
    add_kernel_process_args ra_delete_proc func args s = Done (NEXT_PID s, s') /\
    procs_ok s' t' (l ++ [p]) /\ frame_ok (mem (kern s')) p func args ra_delete_proc /\
    pid p = NEXT_PID s /\ state p = Running /\
    PROCESS_LIST_MUTEX s' = 0 /\ NEXT_PID s' = NEXT_PID s + 1.
Proof.
  intros [Hl Hpage Hpids Hnd Hfr Hnext] Hm Hnp H35 Hfunc Hargs Hra E1 Hf E2 Hst E3 Htb.
  destruct (spawn_pages (kern s) t l f k1 st k2 tb k3) as [t3 Hsp]; try done.
  pose proof Hsp as [Hok3 Bf Hpos [Hst0 Hst1] _ _].
  set (p := mkProcess f st (NEXT_PID s) tb Running ProcessData_new 0 0 0).
  set (s3 := mkP k3 None 1 (NEXT_PID s + 1) (ticks s)).
  destruct (fill_frame_ok func args p s3) as (m & E4 & Hfo & Hm4);
    try (cbn [p frame stack pid]; lia).
  destruct (frames_filled _ _ _ _ _ _ m Hsp Hm4) as [Hok4 Hfr4].
  exists (mkP (with_mem m k3) (Some (l ++ [p])) 0 (NEXT_PID s + 1) (ticks s)), t3, p.
  split_and!; try done.
  - unfold add_kernel_process_args, lock_list. erewrite bind_done; cycle 1.
    { erewrite bind_done by reflexivity. rewrite Hm. erewrite bind_done by reflexivity. reflexivity. }
    erewrite bind_done by reflexivity. cbn [PROCESS_LIST with_mutex]. rewrite Hl.
    erewrite bind_done by reflexivity.
    erewrite bind_done by (by apply (new_kernel_process_run _ f k1 st k2 tb k3); cbn; lia || done).
    erewrite bind_done by exact E4. erewrite bind_done by reflexivity.
    by erewrite bind_done by reflexivity.
  - split; cbn [PROCESS_LIST kern NEXT_PID]; try done; try lia.
    + apply Forall_app. split; [|constructor; [cbn; lia|done]].
      eapply Forall_impl; [exact Hpids|]. cbn. intros q Hq. lia.
    + rewrite fmap_app. apply NoDup_app. split; [done|]. split; [|apply NoDup_singleton].
      intros x (q & -> & Hq)%list_elem_of_fmap [= E]%list_elem_of_singleton.
      rewrite Forall_forall in Hpids. specialize (Hpids q Hq). cbn in E. lia.
    + apply Forall_app. split; [exact Hfr4|]. constructor; [|done].
      split; [exact Bf|]. apply (fr_pid _ _ _ _ _ Hfo).
Qed.

Lemma find_pid_ok k t l p :
  frames_ok k t l -> Forall (fun q => 0 <= pid q < 2 ^ 16) l -> NoDup (pid <$> l) ->
  (forall i q, l !! i = Some q -> find_pid (mem k) (pid q) l = Some i) /\
  (Forall (fun q => pid q <> p) l -> find_pid (mem k) p l = None).
Proof.
  intros Hfr Hr Hnd. induction Hfr as [|q l [Hb Hq] Hfr IH]; [done|].
  inversion Hr as [|? ? Hqr Hr']; subst. rewrite fmap_cons in Hnd.
  apply NoDup_cons in Hnd as [Hnin Hnd]. destruct (IH Hr' Hnd) as [IH1 IH2].
  assert (as_u16 (rd64 (mem k) (pid_addr (frame q))) = pid q) as Eq
    by (rewrite Hq; by apply Z.mod_small). cbn [find_pid]. rewrite Eq. split.
  - intros [|i] q' Hi; cbn in Hi.
    + injection Hi as ->. by rewrite Z.eqb_refl.
    + rewrite (proj2 (Z.eqb_neq _ _)); [by rewrite (IH1 _ _ Hi)|].
      intros E. apply Hnin. rewrite E. apply list_elem_of_fmap. exists q'.
      split; [done|]. by eapply list_elem_of_lookup_2.
  - intros Hno. inversion Hno as [|? ? Hne Hno']; subst.
    rewrite (proj2 (Z.eqb_neq _ _)) by done. by rewrite IH2.
Qed.

(** get_by_pid, which looks for the pid in the trap frames, finds every process
    of the list and only those. *)
Theorem get_by_pid_exact s t l :
  procs_ok s t l ->
  (forall i p, l !! i = Some p -> get_by_pid (pid p) s = Done (Some i, s)) /\
  (forall n, Forall (fun p => pid p <> n) l -> get_by_pid n s = Done (None, s)).
Proof.
  intros [Hl Hpage Hpids Hnd Hfr Hnext]. unfold get_by_pid, gets. rewrite Hl.
  assert (Forall (fun q => 0 <= pid q < 2 ^ 16) l) as Hr
    by (eapply Forall_impl; [exact Hpids|]; cbn; intros; lia).
  split.
  - intros i p Hi. destruct (find_pid_ok (kern s) t l 0 Hfr Hr Hnd) as [Hf _].
    by rewrite (Hf i p Hi).
  - intros n Hn. destruct (find_pid_ok (kern s) t l n Hfr Hr Hnd) as [_ Hf].
    by rewrite (Hf Hn).
Qed.
End Props.
End ProcessProps.
