(* ===== verification/Sched.v ===== *)
(** * sched.rs: the round-robin scheduler *)

From S2P Require Import Prelude Memory Cpu PageAlloc Mmu MinixLayout Lock Process.
Import Process.

Module Sched.

(** [rotate_left(1)] asserts that the list is not empty. *)
Definition rotate_left (l : list process) : outcome (list process) :=
  match l with [] => Panic | p :: l' => Done (l' ++ [p]) end.

Section Sched.
Context `{Clock}.
Abbreviation P := (M pstate).

(** ['procfindloop]: the list, the frame that was found, and the number of
    clock reads. *)
Fixpoint find_proc (fuel : nat) (pl : list process) (now : nat)
    : outcome (list process * Z * nat) :=
  match fuel with
  | O => NoFuel
  | S fuel' =>
      pl ← rotate_left pl;
      match pl with
      | [] => find_proc fuel' pl now
      | prc :: rest =>
          match state prc with
          | Running => Done (pl, frame prc, now)
          | Sleeping =>
              if sleep_until prc <=? clock now
              then Done (with_state Running prc :: rest, frame prc, S now)
              else find_proc fuel' pl (S now)
          | _ => find_proc fuel' pl now
          end
      end
  end.

(** [fuel] bounds the number of processes looked at.  The line that is printed when the
    list is away is in [Trap.schedule], where there is a console. *)
Definition schedule (fuel : nat) : P Z := fun s =>
  '(got, m) ← Lock.try_lock (PROCESS_LIST_MUTEX s);
  if negb got then Done (0, with_mutex m s) else
  match PROCESS_LIST s with
  | Some pl =>
      '(pl, frame_addr, now) ← find_proc fuel pl (ticks s);
      Done (frame_addr, mkP (kern s) (Some pl) (Lock.unlock m) (NEXT_PID s) now)
  | None => Done (0x1111, with_mutex (Lock.unlock m) s)
  end.

(** ** Which process is chosen *)

(** Processes [find_proc] passes over whatever the time is. *)
Definition blocked (p : process) : Prop := state p = Waiting \/ state p = Dead.

Lemma find_blocked fuel l1 p l2 now :
  blocked p -> find_proc (S fuel) (l1 :: p :: l2) now = find_proc fuel (p :: l2 ++ [l1]) now.
Proof. intros [E|E]; cbn; by rewrite E. Qed.

Lemma find_running fuel l1 p l2 now :
  state p = Running ->
  find_proc (S fuel) (l1 :: p :: l2) now = Done (p :: l2 ++ [l1], frame p, now).
Proof. intros E. cbn. by rewrite E. Qed.

Lemma find_self fuel p now :
  state p = Running -> find_proc (S fuel) [p] now = Done ([p], frame p, now).
Proof. intros E. cbn. by rewrite E. Qed.

(** Behind the front, everything up to the first running process is blocked. *)
Lemma find_first : forall l1 x p l2 fuel now,
  Forall blocked l1 -> state p = Running -> (length l1 < fuel)%nat ->
  find_proc fuel (x :: l1 ++ p :: l2) now =
    Done (p :: l2 ++ x :: l1, frame p, now).
Proof.
  induction l1 as [|q l1 IH]; intros x p l2 [|fuel] now Hb Hp Hf; cbn in Hf; try lia.
  - by apply find_running.
  - inversion Hb as [|? ? Hq Hb']; subst. cbn [app]. rewrite find_blocked by done.
    rewrite <- app_assoc. cbn [app]. rewrite IH by (done || lia). by rewrite <- app_assoc.
Qed.

Lemma find_none : forall fuel l now, Forall blocked l -> l <> [] ->
  find_proc fuel l now = NoFuel.
Proof.
  induction fuel as [|fuel IH]; intros [|x l] now Hb Hl; try done.
  destruct l as [|p l].
  - inversion Hb as [|? ? Hx _]; subst. destruct Hx as [E|E]; cbn; rewrite E; by apply IH.
  - rewrite find_blocked by (by inversion Hb as [|? ? _ Hb']; inversion Hb').
    apply IH; [|done]. change (x :: p :: l) with ([x] ++ p :: l) in Hb.
    rewrite app_comm_cons, Forall_app. rewrite Forall_app in Hb. tauto.
Qed.

(** *** With sleepers *)

(** [p] may run at time [t]. *)
Definition can_run (p : process) (t : Z) : Prop :=
  state p = Running \/ (state p = Sleeping /\ sleep_until p <= t).

(** The clock is read once for each process that sleeps: after the processes [l]
    were looked at, from the [now]-th read on, the next sleeper sees [seen_at]. *)
Definition sleepers (l : list process) : nat := length (filter (fun q => state q = Sleeping) l).
Definition seen_at (now : nat) (l : list process) : Z := clock (now + sleepers l).

(** [p] is the first process of [l] that can run when the search comes to it; it
    lies behind [l1] and in front of [l2]. *)
Record picks (now : nat) (l l1 : list process) (p : process) (l2 : list process) : Prop := {
  pk_split : l = l1 ++ p :: l2;
  pk_passed a q b : l1 = a ++ q :: b -> ~ can_run q (seen_at now a);
  pk_can : can_run p (seen_at now l1);
}.

Lemma running_same p : state p = Running -> with_state Running p = p.
Proof. destruct p. cbn. by intros ->. Qed.

Lemma find_picks : forall l1 x l p l2 fuel now,
  picks now (l ++ [x]) l1 p l2 -> (length l1 < fuel)%nat ->
  find_proc fuel (x :: l) now =
    Done (with_state Running p :: l2 ++ l1, frame p, (now + sleepers (l1 ++ [p]))%nat).
Proof.
  induction l1 as [|q l1 IH]; intros x l p l2 [|fuel] now [E Hpass Hcan] Hf; cbn in Hf; try lia;
    cbn [find_proc rotate_left mbind outcome_bind]; rewrite E; cbn [app].
  - unfold seen_at, sleepers in *. cbn [length filter list_filter app] in *. rewrite Nat.add_0_r, app_nil_r in *.
    destruct Hcan as [Hr|[Hs Hle]].
    + rewrite Hr, running_same by done. rewrite decide_False by congruence. cbn. by rewrite Nat.add_0_r.
    + rewrite Hs, decide_True by done. rewrite (proj2 (Z.leb_le _ _) Hle). cbn. by rewrite Nat.add_1_r.
  - pose proof (Hpass [] q l1 eq_refl) as Hq. unfold seen_at, sleepers in Hq. cbn in Hq. rewrite Nat.add_0_r in Hq.
    assert (forall now', (now' = now + sleepers [q])%nat ->
      find_proc fuel (q :: l1 ++ p :: l2) now' =
        Done (with_state Running p :: l2 ++ q :: l1, frame p, (now + sleepers (q :: l1 ++ [p]))%nat)) as Hnext.
    { intros now' ->. rewrite (IH q (l1 ++ p :: l2) p (l2 ++ [q]) fuel); [|split|lia].
      - rewrite <- app_assoc. change (q :: l1 ++ [p]) with ([q] ++ (l1 ++ [p])).
        unfold sleepers. rewrite (filter_app _ [q]), length_app. do 2 f_equal. lia.
      - by rewrite <- app_assoc.
      - intros a r b ->. specialize (Hpass (q :: a) r b eq_refl). unfold seen_at, sleepers in *.
        change (q :: a) with ([q] ++ a) in Hpass. rewrite filter_app, length_app, Nat.add_assoc in Hpass. done.
      - unfold seen_at, sleepers in *. change (q :: l1) with ([q] ++ l1) in Hcan.
        by rewrite filter_app, length_app, Nat.add_assoc in Hcan. }
    destruct (state q) eqn:Es.
    + destruct Hq. by left.
    + destruct (Z.leb_spec (sleep_until q) (clock now)) as [Hle|_]; [destruct Hq; by right|].
      apply Hnext. unfold sleepers. rewrite filter_cons_True by done. cbn. lia.
    + apply Hnext. unfold sleepers. rewrite filter_cons_False by congruence. cbn. lia.
    + apply Hnext. unfold sleepers. rewrite filter_cons_False by congruence. cbn. lia.
Qed.

Lemma schedule_picks s x l l1 p l2 fuel :
  PROCESS_LIST_MUTEX s = 0 -> PROCESS_LIST s = Some (x :: l) ->
  picks (ticks s) (l ++ [x]) l1 p l2 -> (length l1 < fuel)%nat ->
  schedule fuel s =
    Done (frame p, mkP (kern s) (Some (with_state Running p :: l2 ++ l1)) 0 (NEXT_PID s)
                     (ticks s + sleepers (l1 ++ [p]))).
Proof.
  intros Hm Hl Hp Hf. unfold schedule. rewrite Hm, Hl.
  cbn [Lock.try_lock Z.eqb mbind outcome_bind negb]. by rewrite (find_picks l1 x l p l2).
Qed.

(** ** The loop ends when somebody can run *)

(** [p] runs now, or sleeps until a time that comes before the clock's
    [n0]-th read. *)
Definition wakes (p : process) (n0 : nat) : Prop :=
  state p = Running \/
  (state p = Sleeping /\ forall n, (n0 <= n)%nat -> sleep_until p <= clock n).

(** One turn of the loop: it ends, or the list is rotated. *)
Lemma find_step x y l now :
  (exists r, forall fuel, find_proc (S fuel) (x :: y :: l) now = Done r) \/
  (exists now', (now <= now')%nat /\
     (forall fuel, find_proc (S fuel) (x :: y :: l) now = find_proc fuel (y :: l ++ [x]) now') /\
     (state y <> Running) /\ (state y = Sleeping -> now' = S now /\ clock now < sleep_until y)).
Proof.
  destruct (state y) eqn:E.
  - left. eexists. intros fuel. cbn. by rewrite E.
  - destruct (Z.leb_spec (sleep_until y) (clock now)) as [Hle|Hlt].
    + left. eexists. intros fuel. cbn. rewrite E. by rewrite (proj2 (Z.leb_le _ _)).
    + right. exists (S now). split_and!; [lia| |done|done].
      intros fuel. cbn. rewrite E. by rewrite (proj2 (Z.leb_gt _ _)).
  - right. exists now. split_and!; [lia| |done|done]. intros fuel. cbn. by rewrite E.
  - right. exists now. split_and!; [lia| |done|done]. intros fuel. cbn. by rewrite E.
Qed.

Lemma find_ends p n0 : wakes p n0 -> forall n l now, (n0 <= now + n)%nat -> p ∈ l ->
  exists fuel r, find_proc fuel l now = Done r.
Proof.
  intros Hw. induction n as [n IHn] using lt_wf_ind. 
  assert (forall l1 x l2 now, (n0 <= now + n)%nat ->
    exists fuel r, find_proc fuel (x :: l1 ++ p :: l2) now = Done r) as Hin.
  { induction l1 as [|y l1 IH]; intros x l2 now Hn; cbn [app].
    - destruct (find_step x p l2 now) as [[r Hr]|(now' & Hle & Hf & Hnr & Hs)].
      + exists 1%nat, r. apply Hr.
      + destruct Hw as [|[Es Hw]]; [done|]. destruct (Hs Es) as [-> Hlt].
        destruct n as [|n]; [specialize (Hw now ltac:(lia)); lia|].
        destruct (IHn n ltac:(lia) (p :: l2 ++ [x]) (S now) ltac:(lia) ltac:(by left))
          as (fuel & r & E). exists (S fuel), r. by rewrite Hf.
    - destruct (find_step x y (l1 ++ p :: l2) now) as [[r Hr]|(now' & Hle & Hf & _)].
      + exists 1%nat, r. apply Hr.
      + destruct (IH y (l2 ++ [x]) now' ltac:(lia)) as (fuel & r & E).
        exists (S fuel), r. rewrite Hf, <- app_assoc. exact E. }
  intros l now Hn (l1 & l2 & ->)%list_elem_of_split. destruct l1 as [|x l1]; [|by apply Hin].
  destruct l2 as [|y l2].
  - cbn [app]. destruct Hw as [E|[Es Hw]]; [exists 1%nat; eexists; by apply find_self|].
    destruct (Z.leb_spec (sleep_until p) (clock now)) as [Hle|Hlt].
    + exists 1%nat. eexists. cbn. rewrite Es. by rewrite (proj2 (Z.leb_le _ _)).
    + destruct n as [|n]; [specialize (Hw now ltac:(lia)); lia|].
      destruct (IHn n ltac:(lia) [p] (S now) ltac:(lia) ltac:(by left)) as (fuel & r' & E).
      exists (S fuel), r'. cbn. rewrite Es. by rewrite (proj2 (Z.leb_gt _ _)).
  - cbn [app]. destruct (find_step p y l2 now) as [[r Hr]|(now' & Hle & Hf & _)].
    + exists 1%nat, r. apply Hr.
    + destruct (Hin l2 y [] now' ltac:(lia)) as (fuel & r & E).
      exists (S fuel), r. by rewrite Hf.
Qed.

Lemma schedule_first s x l1 p l2 fuel :
  PROCESS_LIST_MUTEX s = 0 -> PROCESS_LIST s = Some (x :: l1 ++ p :: l2) ->
  Forall blocked l1 -> state p = Running -> (length l1 < fuel)%nat ->
  schedule fuel s =
    Done (frame p, mkP (kern s) (Some (p :: l2 ++ x :: l1)) 0 (NEXT_PID s) (ticks s)).
Proof.
  intros Hm Hl Hb Hp Hf. unfold schedule. rewrite Hm, Hl.
  cbn [Lock.try_lock Z.eqb mbind outcome_bind negb]. by rewrite find_first.
Qed.

(** Whoever is chosen may run. *)
Lemma find_sound : forall fuel l now l' f now',
  find_proc fuel l now = Done (l', f, now') ->
  exists q, q ∈ l /\ f = frame q /\
    (state q = Running \/
     (state q = Sleeping /\ exists n, (now <= n < now')%nat /\ sleep_until q <= clock n)) /\
    pid <$> l' ≡ₚ pid <$> l.
Proof.
  induction fuel as [|fuel IH]; intros [|x l] now l' f now' E; try done.
  assert (forall l2 n', find_proc fuel l2 n' = Done (l', f, now') -> l2 ≡ₚ x :: l ->
            (now <= n')%nat -> exists q, q ∈ x :: l /\ f = frame q /\
    (state q = Running \/
     (state q = Sleeping /\ exists n, (now <= n < now')%nat /\ sleep_until q <= clock n)) /\
    pid <$> l' ≡ₚ pid <$> x :: l) as Hnext.
  { intros l2 n' E2 Hperm Hn'. destruct (IH _ _ _ _ _ E2) as (q & Hq & Hf & Hst & Hp).
    exists q. rewrite <- Hperm. split_and!; try done.
    destruct Hst as [?|(? & n & ? & ?)]; [by left|right]. split; [done|].
    exists n. split; [lia|done]. }
  assert (l ++ [x] ≡ₚ x :: l) as Hrot by (by rewrite Permutation_app_comm).
  cbn in E. destruct (l ++ [x]) as [|y r] eqn:El; [by destruct l|].
  assert (y ∈ x :: l) as Hy by (rewrite <- Hrot; by left).
  destruct (state y) eqn:Es.
  - injection E as <- <- <-. exists y. split_and!; [done|done|by left|by rewrite Hrot].
  - destruct (Z.leb_spec (sleep_until y) (clock now)).
    + injection E as <- <- <-. exists y. split_and!; [done|done| |].
      * right. split; [done|]. exists now. split; [lia|done].
      * rewrite <- Hrot. done.
    + apply (Hnext _ _ E Hrot). lia.
  - apply (Hnext _ _ E Hrot). lia.
  - apply (Hnext _ _ E Hrot). lia.
Qed.

(** ** Many calls *)

(** The frames of [n] calls in a row. *)
Fixpoint schedule_n (n fuel : nat) (s : pstate) : outcome (list Z * pstate) :=
  match n with
  | O => Done ([], s)
  | S n' =>
      '(f, s) ← schedule fuel s;
      '(fs, s) ← schedule_n n' fuel s;
      Done (f :: fs, s)
  end.

(** A list of processes that run or are blocked: the first that runs. *)
Lemma first_running (l : list process) :
  Forall (fun q => state q = Running \/ blocked q) l ->
  Forall blocked l \/
  exists a q b, l = a ++ q :: b /\ Forall blocked a /\ state q = Running.
Proof.
  induction 1 as [|q l Hq Hl IH]; [by left|]. destruct Hq as [Hr|Hb].
  - right. by exists [], q, l.
  - destruct IH as [IH|(a & q' & b & -> & Ha & Hr)]; [left; by constructor|].
    right. exists (q :: a), q', b. split_and!; [done|by constructor|done].
Qed.

(** ** Theorems *)

(** C7: schedule goes round the list from behind the process in front and stops at
    the first one that can run when it is looked at, which is one in state Running
    or one that sleeps until a time the clock has reached; it returns the frame of
    that process, marks it Running, rotates the list so that it is in front with the
    others in their order, has read the clock once for each sleeper it looked at,
    and releases the lock. *)
Theorem schedule_round_robin s x l l1 p l2 fuel :
  PROCESS_LIST_MUTEX s = 0 -> PROCESS_LIST s = Some (x :: l) ->
  l ++ [x] = l1 ++ p :: l2 ->
  (forall a q b, l1 = a ++ q :: b -> ~ can_run q (clock (ticks s + sleepers a))) ->
  can_run p (clock (ticks s + sleepers l1)) -> (length l1 < fuel)%nat ->
  schedule fuel s =
    Done (frame p, mkP (kern s) (Some (with_state Running p :: l2 ++ l1)) 0 (NEXT_PID s)
                     (ticks s + sleepers (l1 ++ [p]))).
Proof.
  intros Hm Hl E Hpass Hcan Hf. by apply (schedule_picks s x l l1 p l2).
Qed.

(** Only a process that runs, or whose sleep is over by the clock, is chosen;
    the list keeps the same processes and the lock is released. *)
Theorem schedule_sound fuel s f s' pl :
  schedule fuel s = Done (f, s') -> PROCESS_LIST_MUTEX s = 0 -> PROCESS_LIST s = Some pl ->
  exists q pl', q ∈ pl /\ f = frame q /\ PROCESS_LIST s' = Some pl' /\
    pid <$> pl' ≡ₚ pid <$> pl /\ PROCESS_LIST_MUTEX s' = 0 /\
    (state q = Running \/
     (state q = Sleeping /\
      exists n, (ticks s <= n < ticks s')%nat /\ sleep_until q <= clock n)).
Proof.
  unfold schedule. intros E Hm Hl. rewrite Hm, Hl in E.
  cbn [Lock.try_lock Z.eqb mbind outcome_bind negb] in E.
  destruct (find_proc fuel pl (ticks s)) as [[[pl' f'] now]| | | |] eqn:Ef; try done.
  injection E as <- <-. destruct (find_sound _ _ _ _ _ _ Ef) as (q & Hq & Hf & Hst & Hp).
  by exists q, pl'.
Qed.

(** When the lock is taken [schedule] returns 0 and changes nothing. *)
Theorem schedule_busy s fuel :
  PROCESS_LIST_MUTEX s = 1 -> schedule fuel s = Done (0, s).
Proof.
  intros Hm. unfold schedule. rewrite Hm. cbn. destruct s. cbn in Hm. by subst.
Qed.

(** When every process waits or is dead the loop of schedule does not end,
    whatever its fuel. *)
Theorem schedule_never_returns s pl :
  PROCESS_LIST_MUTEX s = 0 -> PROCESS_LIST s = Some pl -> pl <> [] -> Forall blocked pl ->
  forall fuel, schedule fuel s = NoFuel.
Proof.
  intros Hm Hl Hne Hb fuel. unfold schedule. rewrite Hm, Hl.
  cbn [Lock.try_lock Z.eqb mbind outcome_bind negb]. by rewrite find_none.
Qed.

(** C29: When some process runs, or sleeps until a time the clock reaches, the loop
    of schedule ends and the lock is released. *)
Theorem schedule_returns s pl p n0 :
  PROCESS_LIST_MUTEX s = 0 -> PROCESS_LIST s = Some pl -> p ∈ pl -> wakes p n0 ->
  exists fuel f s', schedule fuel s = Done (f, s') /\ PROCESS_LIST_MUTEX s' = 0.
Proof.
  intros Hm Hl Hp Hw.
  destruct (find_ends p n0 Hw n0 pl (ticks s) ltac:(lia) Hp) as (fuel & [[pl' f] now] & E).
  exists fuel, f. eexists. unfold schedule. rewrite Hm, Hl.
  cbn [Lock.try_lock Z.eqb mbind outcome_bind negb]. by rewrite E.
Qed.

(** C30: A running process that is n places behind the front is chosen within n
    calls of schedule, whatever the processes in front of it are, as long as none of
    them sleeps. *)
Theorem schedule_fair : forall l1 s x p l2 fuel,
  PROCESS_LIST_MUTEX s = 0 -> PROCESS_LIST s = Some (x :: l1 ++ p :: l2) ->
  Forall (fun q => state q = Running \/ blocked q) l1 -> state p = Running ->
  (length l1 < fuel)%nat ->
  exists n fs s', (n <= length l1)%nat /\
    schedule_n (S n) fuel s = Done (fs ++ [frame p], s').
Proof.
  intros l1. induction l1 as [l1 IH] using (induction_ltof1 _ (@length process)).
  intros s x p l2 fuel Hm Hl Hall Hp Hf.
  destruct (first_running l1 Hall) as [Hb|(a & q & b & -> & Ha & Hq)].
  - exists 0%nat, []. eexists. split; [lia|]. cbn [schedule_n app].
    erewrite (schedule_first s x l1 p l2 fuel) by done. reflexivity.
  - rewrite <- app_assoc in Hl. cbn [app] in Hl. rewrite length_app in *. cbn [length] in *.
    pose proof (schedule_first s x a q (b ++ p :: l2) fuel Hm Hl Ha Hq ltac:(lia)) as E.
    rewrite <- app_assoc in E. cbn [app] in E.
    set (s1 := mkP _ _ _ _ _) in E.
    destruct (IH b ltac:(unfold ltof; rewrite length_app; cbn; lia) s1 q p (l2 ++ x :: a) fuel)
      as (n & fs & s' & Hn & E'); try done; try lia.
    { rewrite Forall_app, Forall_cons in Hall. tauto. }
    exists (S n), (frame q :: fs), s'. split; [lia|].
    change (schedule_n (S (S n)) fuel s) with
      ('(f, s) ← schedule fuel s; '(fs, s) ← schedule_n (S n) fuel s; Done (f :: fs, s)).
    rewrite E. cbn [mbind outcome_bind]. by rewrite E'.
Qed.
End Sched.
End Sched.
