(* ===== verification/ExitProps.v ===== *)
(** * process.rs: a process that ends gives its pages back *)

From S2P Require Import Prelude Memory Cpu PageAlloc PageProps Mmu MinixLayout Lock Process ProcessProps.
Import Mem Page PageProps Process ProcessProps.

Module ExitProps.

Section Exit.
Context `{Profile} `{Linker}.
Abbreviation num_pages := (HEAP_SIZE / PAGE_SIZE).

(** What [dealloc] of the block at [a] leaves. *)
Record freed (s : kernel) (t : list seg) (a : Z) (n : nat) (s' : kernel) (t' : list seg) : Prop := {
  fr_ok : page_ok s' t';
  fr_mem : exists m, s' = with_mem m s;
  fr_keep b k : is_block s t b k -> b <> a -> is_block s' t' b k;
  fr_count : free_pages t' = free_pages t + Z.of_nat n;
  fr_bytes x : HEAP_START + num_pages <= x -> byte (mem s') x = byte (mem s) x;
}.

Lemma block_kept s t1 n t2 b k m :
  is_block s (t1 ++ [Run n] ++ t2) b k -> b <> page_addr s (pages_of t1) -> (0 < n)%nat ->
  is_block (with_mem m s) (t1 ++ frees n ++ t2) b k.
Proof.
  intros (v1 & v2 & E & ->) Hb Hn.
  assert (pages_of (frees n) = pages_of [Run n]) as Ef by (by rewrite pages_of_frees, pages_of_run).
  destruct (runs_apart _ _ _ _ _ _ E) as [(-> & _)|[(w & -> & ->)|(w & -> & ->)]]; [done|..].
  - exists (t1 ++ frees n ++ w), v2. rewrite <- !app_assoc. split; [done|].
    unfold page_addr. rewrite !pages_of_app, Ef. done.
  - exists v1, (w ++ frees n ++ t2). rewrite <- !app_assoc. by split.
Qed.

Lemma dealloc_block s t a n fuel :
  page_ok s t -> is_block s t a n -> (n <= fuel)%nat ->
  exists s' t', dealloc fuel a s = Done (tt, s') /\ freed s t a n s' t'.
Proof.
  intros Hok (t1 & t2 & -> & ->) Hf. pose proof (run_pos _ _ _ _ Hok) as Hn.
  destruct (dealloc_ok s t1 n t2 0 fuel Hok Hf ltac:(unfold PAGE_SIZE; lia)) as (m & E & Hm).
  rewrite Z.add_0_r in E. exists (with_mem m s), (t1 ++ frees n ++ t2). split; [exact E|].
  pose proof (tbl_len _ _ Hok) as Hlen. rewrite !pages_of_app, pages_of_run in Hlen by done.
  split.
  - eapply page_ok_upd; [exact Hok|by apply Forall_replicate|by rewrite pages_of_frees, pages_of_run|].
    intros x. by rewrite enc_frees.
  - by exists m.
  - intros b k Hb Hne. by apply block_kept.
  - rewrite !free_pages_app, free_pages_frees. change (free_pages [Run n]) with 0. lia.
  - intros x Hx. cbn [mem with_mem]. rewrite Hm. unfold upd_bytes. rewrite length_replicate.
    rewrite decide_False; [done|]. unfold pages_of in *. lia.
Qed.

(** A root table without entries has nothing to unmap. *)
Lemma unmap_empty fuel root s k : forall i,
  (forall j, i <= j < i + Z.of_nat k -> Mmu.is_valid (rd64 (mem s) (Mmu.entry_addr root j)) = false) ->
  Mmu.unmap_lv2 fuel root k i s = Done (tt, s).
Proof.
  induction k as [|k IH]; intros i Hz; [done|]. cbn [Mmu.unmap_lv2].
  erewrite bind_done by reflexivity. rewrite (Hz i) by lia.
  erewrite bind_done by reflexivity. apply IH. intros j Hj. apply Hz. lia.
Qed.

(** The pages of a kernel process: its stack, its table, which is empty, and
    its trap frame, none of them somebody else's frame. *)
Record owns (k : kernel) (t : list seg) (p : process) (others : list process) : Prop := {
  ow_stack : is_block k t (stack p) 35;
  ow_table : is_block k t (mmu_table p) 1;
  ow_frame : is_block k t (frame p) 1;
  ow_diff : stack p <> mmu_table p /\ stack p <> frame p /\ mmu_table p <> frame p;
  ow_empty j : 0 <= j < 512 -> Mmu.is_valid (rd64 (mem k) (Mmu.entry_addr (mmu_table p) j)) = false;
  ow_others : Forall (fun q => frame q <> stack p /\ frame q <> mmu_table p /\ frame q <> frame p)
    others;
  ow_rest : program p = 0 /\ pages (data p) = [];
}.

Lemma drop_process_ok s t p l fuel :
  page_ok (kern s) t -> owns (kern s) t p l -> (35 <= fuel)%nat ->
  exists k' t', drop_process fuel p s = Done (tt, with_kern k' s) /\ page_ok k' t' /\
    free_pages t' = free_pages t + 37 /\
    (frames_ok (kern s) t l -> frames_ok k' t' l).
Proof.
  intros Hok [Bs Bt Bf (Hd1 & Hd2 & Hd3) Hz Ho [Hpr Hpg]] Hf. unfold drop_process.
  destruct (dealloc_block _ _ _ _ fuel Hok Bs Hf) as (k1 & t1 & E1 & [Hok1 [m1 ->] K1 C1 B1]).
  erewrite bind_done by (by apply on_kern_done).
  pose proof (block_range _ _ _ _ Hok Bt) as (Rt & _).
  erewrite bind_done.
  2:{ apply on_kern_done. apply unmap_empty. intros j Hj. rewrite <- (Hz j) by lia.
      cbn [kern with_kern]. f_equal. apply rd64_ext. intros x Hx. apply B1.
      unfold Mmu.entry_addr in Hx. lia. }
  destruct (dealloc_block (with_mem m1 (kern s)) t1 (mmu_table p) 1 fuel)
    as (k2 & t2 & E2 & [Hok2 [m2 ->] K2 C2 B2]); [done|by apply K1|lia|].
  erewrite bind_done by (by apply on_kern_done).
  destruct (dealloc_block (with_mem m2 (with_mem m1 (kern s))) t2 (frame p) 1 fuel)
    as (k3 & t3 & E3 & [Hok3 [m3 ->] K3 C3 B3]); [done|apply K2; [by apply K1|done]|lia|].
  erewrite bind_done by (by apply on_kern_done).
  rewrite Hpg. erewrite bind_done by reflexivity. rewrite Hpr.
  eexists _, t3. split_and!; [reflexivity|exact Hok3|lia|].
  intros Hfr. unfold frames_ok in *. rewrite Forall_forall in *. intros q Hq.
  destruct (Hfr q Hq) as [Hb Hr]. destruct (Ho q Hq) as (Hq1 & Hq2 & Hq3).
  pose proof (block_range _ _ _ _ Hok Hb) as (Rq & _).
  split; [apply K3, Hq3; apply K2, Hq2; by apply K1|].
  rewrite <- Hr. apply rd64_ext. intros x Hx. unfold pid_addr in Hx.
  rewrite B3, B2, B1 by lia. done.
Qed.

(** Deleting a process: what dropping it leaves becomes what the call leaves. *)
Lemma delete_dropped s t l1 p l2 fuel k' t' :
  procs_ok s t (l1 ++ p :: l2) ->
  drop_process fuel p (with_list None s) = Done (tt, with_kern k' (with_list None s)) ->
  page_ok k' t' -> (frames_ok (kern s) t (l1 ++ l2) -> frames_ok k' t' (l1 ++ l2)) ->
  let s' := with_list (Some (l1 ++ l2)) (with_kern k' s) in
  delete_process fuel (pid p) s = Done (tt, s') /\ procs_ok s' t' (l1 ++ l2).
Proof.
  intros [Hl Hpage Hpids Hnd Hfr Hnext] E Hok' Hfr'. unfold delete_process.
  assert (Forall (fun q => 0 <= pid q < 2 ^ 16) (l1 ++ p :: l2)) as Hr
    by (eapply Forall_impl; [exact Hpids|]; cbn; lia).
  destruct (find_pid_ok (kern s) t _ 0 Hfr Hr Hnd) as [Hfind _].
  specialize (Hfind (length l1) p ltac:(by apply list_lookup_middle)).
  erewrite bind_done by reflexivity. rewrite Hl, Hfind.
  erewrite bind_done by (apply lift_done; by rewrite list_lookup_middle).
  erewrite bind_done by reflexivity. erewrite bind_done by exact E. cbn zeta.
  assert (delete (length l1) (l1 ++ p :: l2) = l1 ++ l2) as Ed
    by (by rewrite delete_middle).
  rewrite Ed. split; [done|].
  rewrite Forall_app, Forall_cons in Hpids. destruct Hpids as (P1 & _ & P2).
  split; cbn [PROCESS_LIST kern NEXT_PID with_list with_kern]; try done.
  - by rewrite Forall_app.
  - rewrite fmap_app in *. rewrite fmap_cons in Hnd.
    apply NoDup_app in Hnd as (N1 & N12 & N2). apply NoDup_cons in N2 as [_ N2].
    apply NoDup_app. split_and!; [done| |done]. intros x Hx Hx2. apply (N12 x Hx). by right.
  - apply Hfr'. unfold frames_ok in *. rewrite Forall_app, Forall_cons in Hfr.
    rewrite Forall_app. tauto.
Qed.

Lemma delete_process_ok s t l1 p l2 fuel :
  procs_ok s t (l1 ++ p :: l2) -> owns (kern s) t p (l1 ++ l2) -> (35 <= fuel)%nat ->
  exists k' t', let s' := with_list (Some (l1 ++ l2)) (with_kern k' s) in
    delete_process fuel (pid p) s = Done (tt, s') /\ procs_ok s' t' (l1 ++ l2) /\
    free_pages t' = free_pages t + 37.
Proof.
  intros Hp Ho Hf.
  destruct (drop_process_ok (with_list None s) t p (l1 ++ l2) fuel (pr_page _ _ _ Hp) Ho Hf)
    as (k' & t' & E & Hok' & Hc & Hfr').
  destruct (delete_dropped s t l1 p l2 fuel k' t' Hp E Hok' Hfr') as [Ed Hps].
  by exists k', t'.
Qed.

(** A kernel process that is deleted leaves the list, the 37 pages it had are
    free again, and the list, the page table of the allocator and the other
    processes stay in order. *)
Theorem delete_process_frees s t l1 p l2 fuel :
  procs_ok s t (l1 ++ p :: l2) -> owns (kern s) t p (l1 ++ l2) -> (35 <= fuel)%nat ->
  exists s' t', delete_process fuel (pid p) s = Done (tt, s') /\ procs_ok s' t' (l1 ++ l2) /\
    free_pages t' = free_pages t + 37 /\ NEXT_PID s' = NEXT_PID s.
Proof.
  intros Hp Ho Hf. destruct (delete_process_ok s t l1 p l2 fuel Hp Ho Hf) as (k' & t' & E & Hok & Hc).
  by exists (with_list (Some (l1 ++ l2)) (with_kern k' s)), t'.
Qed.
End Exit.
End ExitProps.
