(* ===== verification/UserExit.v ===== *)
(** * A process with page tables ends

    [unmap] gives back the tables below the root, and dropping a process gives
    back everything it has. *)

From S2P Require Import Prelude Memory Cpu PageAlloc PageProps Mmu MmuFacts MmuProps MmuTree MinixLayout Lock Process ProcessProps ExitProps.
Import Mem Page PageProps Mmu MmuProps MmuTree Process ProcessProps ExitProps.

Module UserExit.

(** ** The tables below a root *)

(** Behind entry [j] of the table [a]. *)
Definition child (m : memory) (a j : Z) : list Z :=
  let e := rd64 m (entry_addr a j) in
  if is_valid e && is_branch e then [next_table e] else [].
Definition children (m : memory) (a : Z) : list Z := seqZ 0 512 ≫= child m a.

(** In the order in which [unmap] meets them. *)
Definition tables (m : memory) (root : Z) : list Z :=
  seqZ 0 512 ≫= fun i => child m root i ≫= fun nxt => children m nxt ++ [nxt].

Lemma elem_child m a j b : b ∈ child m a j <-> points_to m (entry_addr a j) b.
Proof.
  unfold child, points_to, is_branch. destruct (is_valid _), (is_leaf _); cbn [andb negb];
    rewrite ?list_elem_of_singleton, ?elem_of_nil; intuition congruence.
Qed.

Lemma elem_children m a b : b ∈ children m a <-> exists j, 0 <= j < 512 /\ points_to m (entry_addr a j) b.
Proof.
  unfold children. rewrite list_elem_of_bind. setoid_rewrite elem_child. setoid_rewrite elem_of_seqZ.
  split; intros (j & ? & ?); exists j; ((split; [|done]) || idtac); auto; lia.
Qed.

Lemma elem_tables m root a : a ∈ tables m root <-> exists i p, node m root (i :: p) a.
Proof.
  unfold tables. rewrite list_elem_of_bind. split.
  - intros (i & Ha & Hi%elem_of_seqZ). apply list_elem_of_bind in Ha as (nxt & Ha & Hn%elem_child).
    assert (node m root [i] nxt) as Hnode by (eapply node_next; [constructor|cbn; lia|lia|done]).
    apply elem_of_app in Ha as [(j & Hj & Hp)%elem_children| ->%list_elem_of_singleton]; [|by exists i, []].
    exists j, [i]. eapply node_next; [exact Hnode|cbn; lia|lia|done].
  - intros (i & p & Hn). inversion Hn as [|? b ? ? Hb Hl Hi Hp]; subst.
    inversion Hb as [|q c j ? Hc Hl' Hj Hq]; subst.
    + exists i. rewrite list_elem_of_bind, elem_of_seqZ. split; [|lia].
      exists a. rewrite elem_child, elem_of_app, list_elem_of_singleton. auto.
    + assert (q = []) as -> by (destruct q; [done|cbn in Hl; lia]). inversion Hc; subst.
      exists j. rewrite list_elem_of_bind, elem_of_seqZ. split; [|lia].
      exists b. rewrite elem_child, elem_of_app, elem_children. eauto.
Qed.

Lemma nodup_child m a j : NoDup (child m a j).
Proof. unfold child. destruct (_ && _); [apply NoDup_singleton|constructor]. Qed.

Section Exit.
Context `{Profile} `{Linker}.
Abbreviation num_pages := (HEAP_SIZE / PAGE_SIZE).

Lemma nodup_children s t root p a :
  tree s t root -> node (mem s) root p a -> (length p < 2)%nat -> NoDup (children (mem s) a).
Proof.
  intros Ht Hn Hp. apply NoDup_bind.
  - intros i j b Hi%elem_of_seqZ Hj%elem_of_seqZ Hb%elem_child Hc%elem_child.
    assert (i :: p = j :: p) as E; [|by injection E].
    eapply tr_own; [exact Ht|..]; (eapply node_next; [exact Hn|done|lia|done]).
  - intros. apply nodup_child.
  - apply NoDup_seqZ.
Qed.

(** A tree has each of its tables once. *)
Lemma nodup_tables s t root : tree s t root -> NoDup (tables (mem s) root).
Proof.
  intros Ht.
  assert (forall i nxt, 0 <= i < 512 -> nxt ∈ child (mem s) root i -> node (mem s) root [i] nxt) as Hone.
  { intros i nxt Hi Hn%elem_child. eapply node_next; [constructor|cbn; lia|lia|done]. }
  assert (forall i a, 0 <= i < 512 -> (a ∈ child (mem s) root i ≫= fun nxt => children (mem s) nxt ++ [nxt]) ->
    exists p, node (mem s) root (p ++ [i]) a) as Hpath.
  { intros i a Hi (nxt & Ha & Hn)%list_elem_of_bind.
    apply elem_of_app in Ha as [(j & Hj & Hp)%elem_children| ->%list_elem_of_singleton].
    - exists [j]. eapply node_next; [by apply Hone|cbn; lia|lia|done].
    - exists []. by apply Hone. }
  apply NoDup_bind; [|intros i Hi%elem_of_seqZ|apply NoDup_seqZ].
  - intros i j a Hi%elem_of_seqZ Hj%elem_of_seqZ Ha Hb.
    destruct (Hpath i a ltac:(lia) Ha) as [p Hp]. destruct (Hpath j a ltac:(lia) Hb) as [q Hq].
    pose proof (tr_own _ _ _ Ht _ _ _ Hp Hq) as E. by apply app_inj_tail in E as [_ ?].
  - apply NoDup_bind; [|intros nxt Hn|apply nodup_child].
    + intros x y a Hx%elem_child Hy%elem_child. destruct Hx as (_ & _ & <-), Hy as (_ & _ & <-). done.
    + specialize (Hone i nxt ltac:(lia) Hn). apply NoDup_app. split_and!.
      * eapply nodup_children; [exact Ht|exact Hone|cbn; lia].
      * intros a (j & Hj & Hp)%elem_children ->%list_elem_of_singleton.
        assert (node (mem s) root [j; i] nxt) as Hn2 by (eapply node_next; [exact Hone|cbn; lia|lia|done]).
        by pose proof (tr_own _ _ _ Ht _ _ _ Hone Hn2).
      * apply NoDup_singleton.
Qed.

(** ** Freeing several blocks *)

Definition pages_in (l : list (Z * nat)) : Z := Z.of_nat (sum_list_with snd l).

(** What is left when the blocks [l], an address and a number of pages each, were
    freed. *)
Record freed_all (s : kernel) (t : list seg) (l : list (Z * nat)) (s' : kernel) (t' : list seg) : Prop := {
  fa_ok : page_ok s' t';
  fa_mem : exists m, s' = with_mem m s;
  fa_keep b k : is_block s t b k -> b ∉ l.*1 -> is_block s' t' b k;
  fa_count : free_pages t' = free_pages t + pages_in l;
  fa_bytes x : HEAP_START + num_pages <= x -> byte (mem s') x = byte (mem s) x;
}.

(** Blocks that are there, each once. *)
Definition blocks_at (s : kernel) (t : list seg) (l : list (Z * nat)) : Prop :=
  NoDup l.*1 /\ Forall (fun b => is_block s t b.1 b.2) l.

(** The computation frees exactly these blocks. *)
Definition frees_blocks (c : M kernel unit) (s : kernel) (t : list seg) (l : list (Z * nat)) : Prop :=
  exists s' t', c s = Done (tt, s') /\ freed_all s t l s' t'.

Lemma freed_nil s t : page_ok s t -> freed_all s t [] s t.
Proof.
  intros Hok. split; try done.
  - exists (mem s). by destruct s.
  - unfold pages_in. cbn. lia.
Qed.

Lemma blocks_first s t l1 l2 : blocks_at s t (l1 ++ l2) -> blocks_at s t l1.
Proof.
  intros [Hnd Hf]. rewrite fmap_app in Hnd. apply NoDup_app in Hnd as (? & _).
  apply Forall_app in Hf as [? _]. by split.
Qed.

Lemma blocks_rest s t l1 l2 s1 t1 :
  blocks_at s t (l1 ++ l2) -> freed_all s t l1 s1 t1 -> blocks_at s1 t1 l2.
Proof.
  intros [Hnd Hb] Hf. rewrite fmap_app in Hnd. apply NoDup_app in Hnd as (_ & Hd & Hnd).
  apply Forall_app in Hb as [_ Hb]. split; [done|]. rewrite Forall_forall in *. intros [a n] Hin.
  apply (fa_keep _ _ _ _ _ Hf); [exact (Hb _ Hin)|]. intros Ha. apply (Hd a Ha).
  by apply (list_elem_of_fmap_2 fst l2 (a, n)).
Qed.

Lemma freed_trans s t l1 s1 t1 l2 s2 t2 :
  freed_all s t l1 s1 t1 -> freed_all s1 t1 l2 s2 t2 -> freed_all s t (l1 ++ l2) s2 t2.
Proof.
  intros [_ [m1 ->] K1 C1 B1] [Hok [m2 ->] K2 C2 B2]. split; try done.
  - by exists m2.
  - intros b k Hb. rewrite fmap_app, not_elem_of_app. intros [N1 N2]. by apply K2, N2; apply K1.
  - unfold pages_in in *. rewrite sum_list_with_app. lia.
  - intros x Hx. by rewrite B2, B1.
Qed.

Lemma frees_bind c1 c2 s t l1 l2 :
  frees_blocks c1 s t l1 ->
  (forall s1 t1, freed_all s t l1 s1 t1 -> frees_blocks c2 s1 t1 l2) ->
  frees_blocks (_ ← c1; c2) s t (l1 ++ l2).
Proof.
  intros (s1 & t1 & E1 & F1) H2. destruct (H2 s1 t1 F1) as (s2 & t2 & E2 & F2).
  exists s2, t2. split; [by erewrite bind_done by exact E1|]. by eapply freed_trans.
Qed.

Lemma frees_ret s t : page_ok s t -> frees_blocks (mret tt) s t [].
Proof. intros Hok. exists s, t. split; [done|]. by apply freed_nil. Qed.

Lemma frees_dealloc s t a n fuel :
  page_ok s t -> is_block s t a n -> (n <= fuel)%nat -> frees_blocks (dealloc fuel a) s t [(a, n)].
Proof.
  intros Hok Hb Hf. destruct (dealloc_block s t a n fuel Hok Hb Hf) as (s' & t' & E & [Hok' Hm K C B]).
  exists s', t'. split; [exact E|]. split; try done.
  - intros b k Hbk Hne. apply K; [done|]. intros ->. apply Hne. by left.
  - unfold pages_in. cbn. lia.
Qed.

(** ** [unmap] *)

Definition single (l : list Z) : list (Z * nat) := (fun a => (a, 1%nat)) <$> l.

Lemma single_fst l : (single l).*1 = l.
Proof. unfold single. rewrite <- list_fmap_compose. apply list_fmap_id. Qed.

Lemma single_app l1 l2 : single (l1 ++ l2) = single l1 ++ single l2.
Proof. apply fmap_app. Qed.

Lemma pages_single l : pages_in (single l) = zlen l.
Proof. unfold pages_in, single. induction l as [|a l IH]; [done|]. cbn in *. lia. Qed.

(** The entries of a table do not change while pages are freed. *)
Lemma child_kept s t l s' t' a j :
  freed_all s t l s' t' -> HEAP_START + num_pages <= a -> 0 <= j ->
  child (mem s') a j = child (mem s) a j.
Proof.
  intros Hf Ha Hj. unfold child. rewrite (rd64_ext (mem s) (mem s')); [done|].
  intros x Hx. apply (fa_bytes _ _ _ _ _ Hf). unfold entry_addr in Hx. lia.
Qed.

(** The inner loop, from entry [i] on; [m] is memory at the start. *)
Lemma unmap_lv1_frees fuel tb m k : (0 < fuel)%nat -> HEAP_START + num_pages <= tb -> forall i s t,
  0 <= i -> page_ok s t -> (forall j, 0 <= j -> child (mem s) tb j = child m tb j) ->
  let l := single (seqZ i (Z.of_nat k) ≫= child m tb) in
  blocks_at s t l -> frees_blocks (unmap_lv1 fuel tb k i) s t l.
Proof.
  intros Hfuel Htb. induction k as [|k IH]; intros i s t Hi Hok Hc l Hl; [by apply frees_ret|].
  unfold l in *. clear l. rewrite seqZ_cons, bind_cons, single_app in * by lia.
  replace (Z.pred (Z.of_nat (S k))) with (Z.of_nat k) in * by lia.
  cbn [unmap_lv1].
  assert (frees_blocks (if is_valid (rd64 (mem s) (entry_addr tb i)) && is_branch (rd64 (mem s) (entry_addr tb i))
            then dealloc fuel (next_table (rd64 (mem s) (entry_addr tb i))) else mret tt)
            s t (single (child m tb i))) as Hone.
  { pose proof (proj2 Hl) as Hb. rewrite Forall_app in Hb. destruct Hb as [Hb _]. rewrite <- Hc in * by done.
    unfold child in *. destruct (_ && _); [|by apply frees_ret]. apply frees_dealloc; [done| |lia].
    cbn in Hb. by inversion Hb. }
  destruct (frees_bind _ (unmap_lv1 fuel tb k (i + 1)) s t _
    (single (seqZ (Z.succ i) (Z.of_nat k) ≫= child m tb)) Hone) as (s' & t' & E & F); [|by exists s', t'].
  intros s1 t1 F1. apply IH; [lia|apply F1| |by eapply blocks_rest].
  intros j Hj. rewrite (child_kept _ _ _ _ _ _ _ F1) by done. by apply Hc.
Qed.

(** One entry of the root: the tables behind its table, then the table. *)
Lemma unmap_entry_frees fuel root m i s t :
  (0 < fuel)%nat -> 0 <= i -> page_ok s t ->
  (forall a j, HEAP_START + num_pages <= a -> 0 <= j -> child (mem s) a j = child m a j) ->
  HEAP_START + num_pages <= root ->
  let e := rd64 (mem s) (entry_addr root i) in
  let l := single (child m root i ≫= fun nxt => children m nxt ++ [nxt]) in
  blocks_at s t l ->
  frees_blocks (if is_valid e && is_branch e then
             let memaddr_lv1 := next_table e in
             _ ← lift (unwrap (if memaddr_lv1 =? 0 then None else Some tt));
             _ ← unmap_lv1 fuel memaddr_lv1 512 0;
             dealloc fuel memaddr_lv1
           else mret tt) s t l.
Proof.
  intros Hfuel Hi Hok Hc Hroot e l Hl. unfold l in *. clear l. rewrite <- Hc in * by done.
  unfold child in *. fold e in Hl |- *. destruct (is_valid e && is_branch e); [|by apply frees_ret].
  set (nxt := next_table e) in *. cbn [mbind list_bind] in *. rewrite app_nil_r, single_app in *.
  assert (is_block s t nxt 1) as Hb.
  { destruct Hl as [_ Hl]. rewrite Forall_app in Hl. destruct Hl as [_ Hl]. by inversion Hl. }
  destruct (block_range _ _ _ _ Hok Hb) as (Hlo & _). pose proof (tbl_pos _ _ Hok).
  assert (0 <= num_pages) by (rewrite <- (tbl_len _ _ Hok); unfold pages_of; lia).
  cbv zeta. rewrite (proj2 (Z.eqb_neq _ _)) by lia.
  destruct (frees_bind (unmap_lv1 fuel nxt 512 0) (dealloc fuel nxt) s t
    (single (children m nxt)) (single [nxt])) as (s' & t' & E & F).
  - apply unmap_lv1_frees; [done|done|lia|done|by intros; apply Hc|].
    by eapply blocks_first.
  - intros s1 t1 F1. apply frees_dealloc; [apply F1| |lia].
    apply (blocks_rest _ _ _ _ _ _ Hl) in F1 as [_ Hf]. by inversion Hf.
  - by exists s', t'.
Qed.

Lemma unmap_lv2_frees fuel root m k : (0 < fuel)%nat -> HEAP_START + num_pages <= root -> forall i s t,
  0 <= i -> page_ok s t ->
  (forall a j, HEAP_START + num_pages <= a -> 0 <= j -> child (mem s) a j = child m a j) ->
  let l := single (seqZ i (Z.of_nat k) ≫= fun i => child m root i ≫= fun nxt => children m nxt ++ [nxt]) in
  blocks_at s t l -> frees_blocks (unmap_lv2 fuel root k i) s t l.
Proof.
  intros Hfuel Hroot. induction k as [|k IH]; intros i s t Hi Hok Hc l Hl; [by apply frees_ret|].
  unfold l in *. clear l. rewrite seqZ_cons, bind_cons, single_app in * by lia.
  replace (Z.pred (Z.of_nat (S k))) with (Z.of_nat k) in * by lia.
  pose proof (unmap_entry_frees fuel root m i s t Hfuel Hi Hok Hc Hroot (blocks_first _ _ _ _ Hl)) as Hone.
  destruct (frees_bind _ (unmap_lv2 fuel root k (i + 1)) s t _
    (single (seqZ (Z.succ i) (Z.of_nat k) ≫= fun i => child m root i ≫= fun nxt => children m nxt ++ [nxt])) Hone)
    as (s' & t' & E & F); [|by exists s', t'].
  intros s1 t1 F1. apply IH; [lia|apply F1| |by eapply blocks_rest].
  intros a j Ha Hj. rewrite (child_kept _ _ _ _ _ _ _ F1) by done. by apply Hc.
Qed.

(** The tables of a tree are blocks of one page. *)
Lemma tree_blocks s t root : tree s t root -> blocks_at s t (single (tables (mem s) root)).
Proof.
  intros Ht. split; [rewrite single_fst; by eapply nodup_tables|].
  apply Forall_fmap, Forall_forall. intros a (i & p & Hn)%elem_tables. exact (tr_table _ _ _ Ht _ _ Hn).
Qed.

(** [unmap] frees the tables below the root, each once, and nothing else. *)
Theorem unmap_frees_tables s t root fuel :
  tree s t root -> (0 < fuel)%nat ->
  exists s' t', unmap fuel root s = Done (tt, s') /\
    freed_all s t (single (tables (mem s) root)) s' t' /\
    free_pages t' = free_pages t + zlen (tables (mem s) root) /\
    NoDup (tables (mem s) root) /\
    (forall a, a ∈ tables (mem s) root <-> exists i p, node (mem s) root (i :: p) a).
Proof.
  intros Ht Hf. pose proof (tr_table _ _ _ Ht _ _ (node_root _ _)) as Hr.
  destruct (table_range _ _ _ (tr_ok _ _ _ Ht) Hr) as (Hlo & _).
  destruct (unmap_lv2_frees fuel root (mem s) 512 Hf Hlo 0 s t) as (s' & t' & E & F);
    [lia|apply Ht|done|by apply tree_blocks|].
  exists s', t'. split_and!; [exact E|exact F| |by eapply nodup_tables|intros; apply elem_tables].
  rewrite (fa_count _ _ _ _ _ F). f_equal. apply pages_single.
Qed.

(** ** Dropping a process *)

(** Everything a process has; [np] is the size of its program. *)
Definition blocks_of (m : memory) (p : process) (np : nat) : list (Z * nat) :=
  [(stack p, 35%nat)] ++ single (tables m (mmu_table p)) ++ [(mmu_table p, 1%nat)] ++
  [(frame p, 1%nat)] ++ single (pages (data p)) ++
  if program p =? 0 then [] else [(program p, np)].

(** The same in the state of the processes. *)
Definition frees_for (c : M pstate unit) (s : pstate) (t : list seg) (l : list (Z * nat)) : Prop :=
  exists k' t', c s = Done (tt, with_kern k' s) /\ freed_all (kern s) t l k' t'.

Lemma for_kern c s t l : frees_blocks c (kern s) t l -> frees_for (on_kern c) s t l.
Proof. intros (k' & t' & E & F). exists k', t'. split; [by apply on_kern_done|done]. Qed.

Lemma for_ret s t : page_ok (kern s) t -> frees_for (mret tt) s t [].
Proof. intros Hok. exists (kern s), t. split; [by destruct s|by apply freed_nil]. Qed.

Lemma for_bind c1 c2 s t l1 l2 :
  frees_for c1 s t l1 ->
  (forall k1 t1, freed_all (kern s) t l1 k1 t1 -> frees_for c2 (with_kern k1 s) t1 l2) ->
  frees_for (_ ← c1; c2) s t (l1 ++ l2).
Proof.
  intros (k1 & t1 & E1 & F1) H2. destruct (H2 k1 t1 F1) as (k2 & t2 & E2 & F2).
  exists k2, t2. split; [by erewrite bind_done by exact E1|]. by eapply freed_trans.
Qed.

(** The first block of a list that is there. *)
Lemma for_dealloc fuel s t a n l :
  page_ok (kern s) t -> blocks_at (kern s) t ((a, n) :: l) -> (n <= fuel)%nat ->
  frees_for (on_kern (dealloc fuel a)) s t [(a, n)].
Proof.
  intros Hok [_ Hb] Hn. apply for_kern, frees_dealloc; [done| |done]. by inversion Hb.
Qed.

Lemma for_dealloc_all fuel l : (0 < fuel)%nat -> forall s t l',
  page_ok (kern s) t -> blocks_at (kern s) t (single l ++ l') ->
  frees_for (dealloc_all fuel l) s t (single l).
Proof.
  intros Hf. induction l as [|a l IH]; intros s t l' Hok Hb; [by apply for_ret|].
  apply (for_bind _ _ _ _ [(a, 1%nat)]).
  - by apply (for_dealloc _ _ _ _ _ (single l ++ l')).
  - intros k1 t1 F1. apply (IH _ _ l'); [apply F1|]. by apply (blocks_rest _ _ [(a, 1%nat)] _ _ _ Hb).
Qed.

Lemma drop_user_frees s t p np fuel :
  tree (kern s) t (mmu_table p) -> blocks_at (kern s) t (blocks_of (mem (kern s)) p np) ->
  (35 <= fuel)%nat -> (np <= fuel)%nat ->
  frees_for (drop_process fuel p) s t (blocks_of (mem (kern s)) p np).
Proof.
  intros Ht Hb Hf Hnp. pose proof (mm_page _ _ (tr_ok _ _ _ Ht)) as Hok.
  apply for_bind; [by eapply for_dealloc|]. intros k1 t1 F1. apply (blocks_rest _ _ _ _ _ _ Hb) in F1 as Hb1.
  apply for_bind.
  { apply for_kern. cbn [kern with_kern].
    pose proof (tr_table _ _ _ Ht _ _ (node_root _ _)) as Hr.
    destruct (table_range _ _ _ (tr_ok _ _ _ Ht) Hr) as (Hlo & _).
    apply (unmap_lv2_frees fuel (mmu_table p) (mem (kern s)) 512); [lia|done|lia|apply F1| |by eapply blocks_first].
    intros a j Ha Hj. by apply (child_kept _ _ _ _ _ _ _ F1). }
  intros k2 t2 F2. apply (blocks_rest _ _ _ _ _ _ Hb1) in F2 as Hb2.
  apply for_bind; [eapply for_dealloc; [apply F2|exact Hb2|lia]|].
  intros k3 t3 F3. apply (blocks_rest _ _ _ _ _ _ Hb2) in F3 as Hb3.
  apply for_bind; [eapply for_dealloc; [apply F3|exact Hb3|lia]|].
  intros k4 t4 F4. apply (blocks_rest _ _ _ _ _ _ Hb3) in F4 as Hb4.
  apply for_bind; [eapply for_dealloc_all; [lia|apply F4|exact Hb4]|].
  intros k5 t5 F5. apply (blocks_rest _ _ _ _ _ _ Hb4) in F5 as Hb5.
  destruct (program p =? 0); [apply for_ret, F5|]. eapply for_dealloc; [apply F5|exact Hb5|done].
Qed.

(** Everything process [p] has is there, each block once, and no trap frame of
    another process is among it. *)
Record holds_pages (k : kernel) (t : list seg) (p : process) (np : nat) (others : list process) : Prop := {
  hp_tree : tree k t (mmu_table p);
  hp_blocks : blocks_at k t (blocks_of (mem k) p np);
  hp_others : Forall (fun q => frame q ∉ (blocks_of (mem k) p np).*1) others;
}.

Lemma pages_of_process m p np :
  pages_in (blocks_of m p np) = 37 + zlen (tables m (mmu_table p)) + zlen (pages (data p)) +
    (if program p =? 0 then 0 else Z.of_nat np).
Proof.
  pose proof (pages_single (tables m (mmu_table p))) as E1. pose proof (pages_single (pages (data p))) as E2.
  unfold blocks_of, pages_in in *. rewrite !sum_list_with_app. cbn [sum_list_with snd].
  destruct (program p =? 0); cbn [sum_list_with snd]; lia.
Qed.

Lemma delete_user_ok s t l1 p l2 np fuel :
  procs_ok s t (l1 ++ p :: l2) -> holds_pages (kern s) t p np (l1 ++ l2) ->
  (35 <= fuel)%nat -> (np <= fuel)%nat ->
  exists k' t', let s' := with_list (Some (l1 ++ l2)) (with_kern k' s) in
    delete_process fuel (pid p) s = Done (tt, s') /\ procs_ok s' t' (l1 ++ l2) /\
    freed_all (kern s) t (blocks_of (mem (kern s)) p np) k' t'.
Proof.
  intros Hp [Ht Hb Ho] Hf Hnp.
  destruct (drop_user_frees (with_list None s) t p np fuel Ht Hb Hf Hnp) as (k' & t' & E & F).
  cbn [kern with_list] in F. destruct (delete_dropped s t l1 p l2 fuel k' t' Hp E (fa_ok _ _ _ _ _ F)) as [Ed Hps].
  - intros Hfr. unfold frames_ok in *. rewrite Forall_forall in *. intros q Hq.
    destruct (Hfr q Hq) as [Hbq Hr]. destruct (block_range _ _ _ _ (pr_page _ _ _ Hp) Hbq) as (Rq & _).
    split; [by apply (fa_keep _ _ _ _ _ F), Ho|]. rewrite <- Hr. apply rd64_ext. intros x Hx.
    apply (fa_bytes _ _ _ _ _ F). unfold pid_addr in Hx. lia.
  - by exists k', t'.
Qed.

(** *** Writing into the trap frame *)

(** The tables are what the entries of the nodes say. *)
Lemma tables_ext m m' root :
  (forall p a i, node m root p a -> 0 <= i < 512 -> rd64 m' (entry_addr a i) = rd64 m (entry_addr a i)) ->
  tables m' root = tables m root.
Proof.
  intros He. assert (forall p a j, node m root p a -> j ∈ seqZ 0 512 -> child m' a j = child m a j) as Hc.
  { intros p a j Hn Hj%elem_of_seqZ. unfold child. by rewrite (He p) by (done || lia). }
  unfold tables. apply Forall_bind_ext, Forall_forall. intros i Hi. rewrite (Hc [] root i (node_root _ _) Hi).
  apply Forall_bind_ext, Forall_forall. intros nxt Hn%elem_child. f_equal. unfold children.
  apply Forall_bind_ext, Forall_forall. intros j Hj. apply (Hc [i]); [|done].
  apply elem_of_seqZ in Hi. eapply node_next; [apply node_root|cbn; lia|lia|exact Hn].
Qed.

(** The trap frame is no table of the process. *)
Lemma frame_stranger k t p np others : holds_pages k t p np others -> stranger k t (mmu_table p) (frame p) 1.
Proof.
  intros [Ht [Hnd Hb] _]. unfold blocks_of in *. rewrite !fmap_app, single_fst in Hnd. rewrite !Forall_app in Hb.
  destruct Hb as (_ & _ & _ & Bf & _). split; [by inversion Bf|]. intros [|i q] Hq.
  - assert (mmu_table p = frame p) as E by (by inversion Hq). apply NoDup_app in Hnd as (_ & _ & Hnd). apply NoDup_app in Hnd as (_ & _ & Hnd).
    apply NoDup_app in Hnd as (_ & Hd & _). apply (Hd (mmu_table p)); [by left|rewrite E; by left].
  - apply NoDup_app in Hnd as (_ & _ & Hnd). apply NoDup_app in Hnd as (_ & Hd & _).
    apply (Hd (frame p)); [apply elem_tables; eauto|]. rewrite !elem_of_app. right. left. by left.
Qed.

Lemma holds_frame_write k t p np others m :
  holds_pages k t p np others ->
  (forall x, x < frame p \/ frame p + 4096 <= x -> byte m x = byte (mem k) x) ->
  holds_pages (with_mem m k) t p np others /\ blocks_of m p np = blocks_of (mem k) p np.
Proof.
  intros Hp Hm. pose proof (frame_stranger _ _ _ _ _ Hp) as Hs. destruct Hp as [Ht Hb Ho].
  destruct (stranger_write k t (mmu_table p) (frame p) 1 m Ht Hs) as (Ht' & _ & _).
  { intros x Hx. apply Hm. lia. }
  assert (blocks_of m p np = blocks_of (mem k) p np) as E.
  { unfold blocks_of. rewrite (tables_ext (mem k) m); [done|]. intros q a i Hn Hi. apply rd64_ext. intros x Hx.
    apply Hm. pose proof (stranger_apart _ _ _ _ _ _ _ Ht Hs Hn). unfold entry_addr in Hx. lia. }
  split; [|done]. by split; cbn [mem with_mem]; rewrite ?E.
Qed.

(** C13: delete_process of a process with page tables gives back its stack, all of
    its tables, its trap frame, its data pages and its program, exactly these pages;
    the process list and the page allocator stay in order and the other processes
    keep their frames. *)
Theorem user_exit_frees s t l1 p l2 np fuel :
  procs_ok s t (l1 ++ p :: l2) -> tree (kern s) t (mmu_table p) ->
  blocks_at (kern s) t (blocks_of (mem (kern s)) p np) ->
  Forall (fun q => frame q ∉ (blocks_of (mem (kern s)) p np).*1) (l1 ++ l2) ->
  (35 <= fuel)%nat -> (np <= fuel)%nat ->
  exists s' t', delete_process fuel (pid p) s = Done (tt, s') /\ procs_ok s' t' (l1 ++ l2) /\
    freed_all (kern s) t (blocks_of (mem (kern s)) p np) (kern s') t' /\
    free_pages t' = free_pages t + 37 + zlen (tables (mem (kern s)) (mmu_table p)) +
      zlen (pages (data p)) + (if program p =? 0 then 0 else Z.of_nat np).
Proof.
  intros Hp Ht Hb Ho Hf Hnp.
  destruct (delete_user_ok s t l1 p l2 np fuel Hp) as (k' & t' & E & Hps & F); [by split|done|done|].
  eexists _, t'. split_and!; [exact E|exact Hps|exact F|].
  rewrite (fa_count _ _ _ _ _ F), pages_of_process. lia.
Qed.
End Exit.
End UserExit.
