(* ===== verification/Console.v ===== *)
(** * console.rs: the console's buffers

    Two bounded queues of bytes, each with a lock.  The queue of processes
    that wait for a line is an [Option] as well. *)

From S2P Require Import Prelude Memory Cpu PageAlloc Kmem Mmu MinixLayout Lock Process.
Import Process.

Module Console.

Definition DEFAULT_OUT_BUFFER_SIZE : Z := 10000.
Definition DEFAULT_IN_BUFFER_SIZE : Z := 1000.

Record cstate := mkC {
  IN_BUFFER : option (list Z);
  OUT_BUFFER : option (list Z);
  IN_LOCK : Z;
  OUT_LOCK : Z;
  CONSOLE_QUEUE : option (list Z);
  procs : pstate;
}.

Abbreviation C := (M cstate).

Definition lock_out : C unit :=
  s ← get;
  m ← lift (Lock.spin_lock (OUT_LOCK s));
  put (mkC (IN_BUFFER s) (OUT_BUFFER s) (IN_LOCK s) m (CONSOLE_QUEUE s) (procs s)).
Definition unlock_out : C unit :=
  modify (fun s => mkC (IN_BUFFER s) (OUT_BUFFER s) (IN_LOCK s) (Lock.unlock (OUT_LOCK s))
                     (CONSOLE_QUEUE s) (procs s)).
Definition lock_in : C unit :=
  s ← get;
  m ← lift (Lock.spin_lock (IN_LOCK s));
  put (mkC (IN_BUFFER s) (OUT_BUFFER s) m (OUT_LOCK s) (CONSOLE_QUEUE s) (procs s)).
Definition unlock_in : C unit :=
  modify (fun s => mkC (IN_BUFFER s) (OUT_BUFFER s) (Lock.unlock (IN_LOCK s)) (OUT_LOCK s)
                     (CONSOLE_QUEUE s) (procs s)).

Definition set_out (b : option (list Z)) : C unit :=
  modify (fun s => mkC (IN_BUFFER s) b (IN_LOCK s) (OUT_LOCK s) (CONSOLE_QUEUE s) (procs s)).
Definition set_in (b : option (list Z)) : C unit :=
  modify (fun s => mkC b (OUT_BUFFER s) (IN_LOCK s) (OUT_LOCK s) (CONSOLE_QUEUE s) (procs s)).
Definition set_queue (q : option (list Z)) : C unit :=
  modify (fun s => mkC (IN_BUFFER s) (OUT_BUFFER s) (IN_LOCK s) (OUT_LOCK s) q (procs s)).

(** [VecDeque::with_capacity(n)] for bytes. *)
Definition new_buffer `{Profile} `{Linker} `{Kmem.Deques} (fuel : nat) (n : Z) : C unit :=
  s ← get;
  '(_, p) ← lift (on_kern (Kmem.with_capacity fuel n 1) (procs s));
  put (mkC (IN_BUFFER s) (OUT_BUFFER s) (IN_LOCK s) (OUT_LOCK s) (CONSOLE_QUEUE s) p).

(** Storage of old buffers, when [init] is called again, is not freed. *)
Definition init `{Profile} `{Linker} `{Kmem.Deques} (fuel : nat) : C unit :=
  _ ← new_buffer fuel DEFAULT_IN_BUFFER_SIZE;
  _ ← set_in (Some []);
  _ ← new_buffer fuel DEFAULT_OUT_BUFFER_SIZE;
  set_out (Some []).

Definition push_stdout (c : Z) : C unit :=
  _ ← lock_out;
  s ← get;
  _ ← match OUT_BUFFER s with
      | Some buf =>
          set_out (Some (if zlen buf <? DEFAULT_OUT_BUFFER_SIZE then buf ++ [c] else buf))
      | None => mret tt
      end;
  unlock_out.

Definition pop_stdout : C Z :=
  _ ← lock_out;
  s ← get;
  ret ← match OUT_BUFFER s with
        | Some (c :: buf) => _ ← set_out (Some buf); mret (Some c)
        | Some [] => mret None
        | None => mret None
        end;
  _ ← unlock_out;
  mret (default 0 ret).

(** [set_running] of each waiting process. *)
Fixpoint wake_all (q : list Z) : C unit :=
  match q with
  | [] => mret tt
  | i :: q' =>
      s ← get;
      '(_, p) ← lift (set_running i (procs s));
      _ ← put (mkC (IN_BUFFER s) (OUT_BUFFER s) (IN_LOCK s) (OUT_LOCK s) (CONSOLE_QUEUE s) p);
      wake_all q'
  end.

Definition push_stdin (c : Z) : C unit :=
  _ ← lock_in;
  s ← get;
  _ ← match IN_BUFFER s with
      | Some buf =>
          if zlen buf <? DEFAULT_IN_BUFFER_SIZE then
            _ ← (if (c =? 10) || (c =? 11) then
                   match CONSOLE_QUEUE s with
                   | Some q => _ ← wake_all q; set_queue (Some [])
                   | None => mret tt
                   end
                 else mret tt);
            set_in (Some (buf ++ [c]))
          else mret tt
      | None => mret tt
      end;
  unlock_in.

Definition pop_stdin : C Z :=
  _ ← lock_in;
  s ← get;
  ret ← match IN_BUFFER s with
        | Some (c :: buf) => _ ← set_in (Some buf); mret (Some c)
        | Some [] => mret None
        | None => mret None
        end;
  _ ← unlock_in;
  mret (default 0 ret).

Definition push_queue (pid : Z) : C unit :=
  s ← get;
  match CONSOLE_QUEUE s with
  | Some q => set_queue (Some (q ++ [pid]))
  | None => mret tt
  end.

(** ** Properties *)

Fixpoint push_all (l : list Z) : C unit :=
  match l with [] => mret tt | c :: l' => _ ← push_stdout c; push_all l' end.
Fixpoint pop_n (n : nat) : C (list Z) :=
  match n with
  | O => mret []
  | S n' => c ← pop_stdout; l ← pop_n n'; mret (c :: l)
  end.

(** The state with the output buffer replaced. *)
Definition with_out (b : list Z) (s : cstate) : cstate :=
  mkC (IN_BUFFER s) (Some b) (IN_LOCK s) 0 (CONSOLE_QUEUE s) (procs s).

Lemma push_stdout_ok s buf c :
  OUT_LOCK s = 0 -> OUT_BUFFER s = Some buf -> zlen buf < DEFAULT_OUT_BUFFER_SIZE ->
  push_stdout c s = Done (tt, with_out (buf ++ [c]) s).
Proof.
  intros Hl Hb Hlt. unfold push_stdout, lock_out. erewrite bind_done; cycle 1.
  { erewrite bind_done by reflexivity. rewrite Hl. erewrite bind_done by reflexivity. reflexivity. }
  erewrite bind_done by reflexivity. cbn [OUT_BUFFER]. rewrite Hb.
  rewrite (proj2 (Z.ltb_lt _ _) Hlt). by erewrite bind_done by reflexivity.
Qed.

Lemma pop_stdout_ok s c buf :
  OUT_LOCK s = 0 -> OUT_BUFFER s = Some (c :: buf) ->
  pop_stdout s = Done (c, with_out buf s).
Proof.
  intros Hl Hb. unfold pop_stdout, lock_out. erewrite bind_done; cycle 1.
  { erewrite bind_done by reflexivity. rewrite Hl. erewrite bind_done by reflexivity. reflexivity. }
  erewrite bind_done by reflexivity. cbn [OUT_BUFFER]. rewrite Hb.
  erewrite bind_done by (erewrite bind_done by reflexivity; reflexivity).
  by erewrite bind_done by reflexivity.
Qed.

Lemma push_all_ok l : forall s buf,
  OUT_LOCK s = 0 -> OUT_BUFFER s = Some buf -> zlen buf + zlen l <= DEFAULT_OUT_BUFFER_SIZE ->
  push_all l s = Done (tt, with_out (buf ++ l) s).
Proof.
  induction l as [|c l IH]; intros s buf Hl Hb Hlen; cbn [push_all length] in *.
  - rewrite app_nil_r. destruct s. cbn in *. by subst.
  - erewrite bind_done by (apply push_stdout_ok; [done|done|lia]).
    rewrite (IH _ (buf ++ [c])); [|done|done|rewrite length_app; cbn; lia].
    by rewrite <- app_assoc.
Qed.

Lemma pop_n_ok l : forall s rest,
  OUT_LOCK s = 0 -> OUT_BUFFER s = Some (l ++ rest) ->
  pop_n (length l) s = Done (l, with_out rest s).
Proof.
  induction l as [|c l IH]; intros s rest Hl Hb; cbn [pop_n length app] in *.
  - destruct s. cbn in *. by subst.
  - erewrite bind_done by (by eapply pop_stdout_ok).
    by erewrite bind_done by (by apply IH).
Qed.

(** The output buffer is a queue: what was pushed, up to the capacity, is
    popped in the same order behind what was there before. *)
Theorem stdout_fifo s buf l :
  OUT_LOCK s = 0 -> OUT_BUFFER s = Some buf -> zlen buf + zlen l <= DEFAULT_OUT_BUFFER_SIZE ->
  exists s1 s2, push_all l s = Done (tt, s1) /\ pop_n (length buf + length l) s1 = Done (buf ++ l, s2) /\
    OUT_BUFFER s2 = Some [].
Proof.
  intros Hl Hb Hlen. eexists _, _. split; [by apply push_all_ok|].
  rewrite <- length_app. split; [apply pop_n_ok; cbn; by rewrite ?app_nil_r|done].
Qed.

Lemma stdout_fifo_witness :
  exists s1 s2, push_all [104; 105]
    (mkC None (Some [42]) 0 0 None (mkP (mkKernel ∅ 0 0 0 0) None 0 1 0)) = Done (tt, s1) /\
    pop_n 3 s1 = Done ([42; 104; 105], s2).
Proof.
  destruct (stdout_fifo (mkC None (Some [42]) 0 0 None (mkP (mkKernel ∅ 0 0 0 0) None 0 1 0))
    [42] [104; 105]) as (s1 & s2 & E1 & E2 & _); [done..|].
  exists s1, s2. split; [exact E1|exact E2].
Defined.

(** The buffers are there and hold no more than their sizes. *)
Definition bounded (s : cstate) : Prop :=
  (exists b, IN_BUFFER s = Some b /\ zlen b <= DEFAULT_IN_BUFFER_SIZE) /\
  (exists b, OUT_BUFFER s = Some b /\ zlen b <= DEFAULT_OUT_BUFFER_SIZE) /\
  IN_LOCK s = 0 /\ OUT_LOCK s = 0.

Lemma wake_all_ok q : forall s, exists p, wake_all q s =
  Done (tt, mkC (IN_BUFFER s) (OUT_BUFFER s) (IN_LOCK s) (OUT_LOCK s) (CONSOLE_QUEUE s) p).
Proof.
  induction q as [|i q IH]; intros s; cbn [wake_all].
  - exists (procs s). by destruct s.
  - erewrite bind_done by reflexivity.
    assert (exists b p, set_running i (procs s) = Done (b, p)) as (b & p & E).
    { unfold set_running. destruct (PROCESS_LIST (procs s)) as [pl|]; [|eauto].
      destruct (on_first _ _ pl); eauto. }
    erewrite bind_done by (apply lift_done, E). cbn beta iota.
    erewrite bind_done by reflexivity.
    exact (IH (mkC _ _ _ _ _ p)).
Qed.

(** A byte that fits is appended; the lock is released. *)
Lemma push_stdin_ok s buf c :
  IN_BUFFER s = Some buf -> zlen buf < DEFAULT_IN_BUFFER_SIZE -> IN_LOCK s = 0 ->
  exists s', push_stdin c s = Done (tt, s') /\ IN_BUFFER s' = Some (buf ++ [c]) /\ IN_LOCK s' = 0.
Proof.
  intros Hb Hlen Hl. destruct s as [ib ob il ol q ps]. cbn in Hb, Hl. subst.
  unfold push_stdin, lock_in. erewrite bind_done by reflexivity.
  erewrite bind_done by reflexivity. cbn [IN_BUFFER CONSOLE_QUEUE].
  rewrite (proj2 (Z.ltb_lt _ _) Hlen).
  destruct ((c =? 10) || (c =? 11)); [destruct q as [q|]|]; [|eexists; split; [reflexivity|done]..].
  destruct (wake_all_ok q (mkC (Some buf) ob 1 ol (Some q) ps)) as [p E].
  eexists. erewrite bind_done; cycle 1.
  { erewrite bind_done by (erewrite bind_done by exact E; reflexivity). reflexivity. }
  split; [reflexivity|done].
Qed.

(** A byte that does not fit is dropped. *)
Lemma push_stdin_full s buf c :
  IN_BUFFER s = Some buf -> DEFAULT_IN_BUFFER_SIZE <= zlen buf -> IN_LOCK s = 0 ->
  push_stdin c s = Done (tt, s).
Proof.
  intros Hb Hlen Hl. destruct s as [ib ob il ol q ps]. cbn in Hb, Hl. subst.
  unfold push_stdin, lock_in. erewrite bind_done by reflexivity.
  erewrite bind_done by reflexivity. cbn [IN_BUFFER CONSOLE_QUEUE].
  by rewrite (proj2 (Z.ltb_ge _ _) Hlen).
Qed.

(** Every operation of the console returns, releases its lock and keeps the
    buffers within their sizes, so a byte that does not fit is dropped. *)
Theorem console_bounded s c :
  bounded s ->
  (exists s', push_stdout c s = Done (tt, s') /\ bounded s') /\
  (exists s', push_stdin c s = Done (tt, s') /\ bounded s') /\
  (exists r s', pop_stdout s = Done (r, s') /\ bounded s') /\
  (exists r s', pop_stdin s = Done (r, s') /\ bounded s').
Proof.
  intros ((bi & Ei & Li) & (bo & Eo & Lo) & Hi & Ho). destruct s as [ib ob il ol q ps].
  cbn in Ei, Eo, Hi, Ho. subst. unfold DEFAULT_IN_BUFFER_SIZE, DEFAULT_OUT_BUFFER_SIZE in *.
  split_and!.
  - eexists. split; [reflexivity|]. split_and!; try done; eexists; (split; [reflexivity|]); [done|].
    unfold DEFAULT_OUT_BUFFER_SIZE. destruct (Z.ltb_spec (zlen bo) 10000); [|done].
    rewrite length_app. cbn. lia.
  - unfold push_stdin, lock_in. erewrite bind_done by reflexivity.
    erewrite bind_done by reflexivity. cbn [IN_BUFFER CONSOLE_QUEUE].
    unfold DEFAULT_IN_BUFFER_SIZE. destruct (Z.ltb_spec (zlen bi) 1000).
    + assert (zlen (bi ++ [c]) <= 1000) by (rewrite length_app; cbn; lia).
      destruct ((c =? 10) || (c =? 11)); [destruct q as [q|]|].
      * destruct (wake_all_ok q (mkC (Some bi) (Some bo) 1 0 (Some q) ps)) as [p E].
        eexists. erewrite bind_done; cycle 1.
        { erewrite bind_done by (erewrite bind_done by exact E; reflexivity). reflexivity. }
        split; [reflexivity|]. split_and!; eauto.
      * eexists. split; [reflexivity|]. split_and!; eauto.
      * eexists. split; [reflexivity|]. split_and!; eauto.
    + eexists. split; [reflexivity|]. split_and!; eauto.
  - destruct bo as [|b bo]; eexists _, _; (split; [reflexivity|]); split_and!; eauto.
    eexists. split; [reflexivity|]. unfold DEFAULT_OUT_BUFFER_SIZE. cbn [length] in Lo. lia.
  - destruct bi as [|b bi]; eexists _, _; (split; [reflexivity|]); split_and!; eauto.
    eexists. split; [reflexivity|]. unfold DEFAULT_IN_BUFFER_SIZE. cbn [length] in Li. lia.
Qed.

Lemma console_bounded_witness :
  exists s', push_stdin 10
    (mkC (Some []) (Some []) 0 0 (Some [3]) (mkP (mkKernel ∅ 0 0 0 0) None 0 1 0)) = Done (tt, s')
    /\ bounded s'.
Proof.
  apply (console_bounded
    (mkC (Some []) (Some []) 0 0 (Some [3]) (mkP (mkKernel ∅ 0 0 0 0) None 0 1 0)) 10).
  split; [by exists []|]. split; [by exists []|]. split; reflexivity.
Defined.
End Console.
