(* ===== verification/ProcessExample.v ===== *)
(** * A small system: page tables, processes and the scheduler at work *)

From S2P Require Import Prelude Memory Cpu PageAlloc PageProps Mmu MmuFacts MmuProps MinixLayout Lock Process ProcessProps Sched.
Import Mem PageProps MmuProps Process ProcessProps Sched.

Module ProcessExample.

#[local] Existing Instance dev.

(** A heap of 64 pages; page 0 is taken, by a root table or a trap frame. *)
Definition heap64 : Linker := {| HEAP_START := 4096; HEAP_SIZE := 64 * 4096 |}.
#[local] Existing Instance heap64.
Definition seconds : Clock := fun n => Z.of_nat n * 10.
#[local] Existing Instance seconds.

Definition table : list Page.seg := [Page.Run 1] ++ Page.frees 63.
Definition heap : kernel := mkKernel (wr64 (store ∅ 4096 [3]) (8192 + 544) 1) 8192 0 0 0.

Lemma heap_page_ok : page_ok heap table.
Proof.
  split; try done; [|repeat constructor].
  intros j Hj. change (zlen (Page.enc_table table)) with 64 in Hj.
  unfold heap. cbn [mem]. rewrite byte_wr64 by (cbn; lia). rewrite byte_store1.
  case_decide as E; [assert (j = 0) as -> by (cbn in E; lia); done|].
  unfold byte. rewrite lookup_empty. cbn [default from_option].
  unfold nthZ, table. rewrite Page.enc_app, Page.enc_frees.
  rewrite lookup_app_r by (cbn in *; lia).
  rewrite lookup_replicate_2 by (cbn in *; lia). done.
Qed.

(** ** Page tables *)

Lemma map_translates_witness :
  exists s', Mmu.map 8192 0x20001000 0x80200000 2 0 heap = Done (tt, s') /\
    Mmu.virt_to_phys (mem s') 8192 (0x20001000 / 4096 * 4096 + 5) =
      Done (Some (0x80200000 mod 2 ^ 56 / 4096 * 4096 + 5)).
Proof.
  destruct (map_translates heap table 8192 0x20001000 0x80200000 2 1 2) as (s' & E & Ht).
  - split; [exact heap_page_ok|done].
  - exists [], (Page.frees 63). by split.
  - intros Hv. vm_compute in Hv. discriminate Hv.
  - split; [exists [Page.Run 1], (Page.frees 62); by split|by vm_compute].
  - split; [exists ([Page.Run 1] ++ Page.frees 1), (Page.frees 61); by split|by vm_compute].
  - lia.
  - lia.
  - lia.
  - lia.
  - done.
  - exists s'. split; [exact E|]. apply Ht. lia.
Defined.

(** ** Processes *)

Definition proc1 : process := mkProcess 8192 0 1 0 Running ProcessData_new 0 0 0.
Definition waiting : process := mkProcess 12288 0 2 0 Waiting ProcessData_new 0 0 0.
Definition proc3 : process := mkProcess 16384 0 3 0 Running ProcessData_new 0 0 0.
Definition asleep : process := mkProcess 20480 0 4 0 Sleeping ProcessData_new 25 0 0.

Definition system : pstate := mkP heap (Some [proc1]) 0 2 0.
Definition trio : pstate := mkP heap (Some [proc1; waiting; proc3]) 0 4 0.

Lemma system_ok : procs_ok system table [proc1].
Proof.
  split; try done.
  - exact heap_page_ok.
  - repeat constructor; by vm_compute.
  - repeat constructor. set_solver.
  - constructor; [|done]. split; [exists [], (Page.frees 63); by split|]. by vm_compute.
Qed.

Lemma set_state_exact_witness :
  set_waiting 3 trio = Done (true, with_list (Some [proc1; waiting; with_state Waiting proc3]) trio).
Proof.
  destruct (set_state_exact trio [proc1; waiting; proc3] 3 eq_refl) as [_ Hf].
  destruct (Hf [proc1; waiting] proc3 [] eq_refl) as [E _]; [by repeat constructor|done|exact E].
Defined.

Lemma wait_run_roundtrip_witness :
  exists s1, set_waiting 3 trio = Done (true, s1) /\ set_running 3 s1 = Done (true, trio).
Proof.
  exact (wait_run_roundtrip trio _ [proc1; waiting] proc3 [] 3 eq_refl eq_refl
           ltac:(by repeat constructor) eq_refl eq_refl).
Defined.

(** The pages of the next process. *)
Definition after {A} (o : outcome (A * kernel)) : kernel :=
  match o with Done (_, k) => k | _ => heap end.
Definition k1 : kernel := after (Page.zalloc 1 heap).
Definition k2 : kernel := after (Page.zalloc STACK_PAGES k1).
Definition k3 : kernel := after (Page.zalloc 1 k2).

Definition address (o : outcome (Z * kernel)) : Z :=
  match o with Done (a, _) => a | _ => 0 end.

Lemma after_address o a : address o = a -> a <> 0 -> o = Done (a, after o).
Proof. destruct o as [[b k]| | | |]; cbn; by intros <-. Qed.

Lemma zalloc1 : Page.zalloc 1 heap = Done (12288, k1).
Proof. apply after_address; [calc|lia]. Qed.
Lemma zalloc2 : Page.zalloc STACK_PAGES k1 = Done (16384, k2).
Proof. apply after_address; [calc|lia]. Qed.
Lemma zalloc3 : Page.zalloc 1 k2 = Done (16384 + 35 * 4096, k3).
Proof. apply after_address; [calc|lia]. Qed.

Lemma add_kernel_process_args_ok_witness :
  exists s' t' p, add_kernel_process_args 0x80001000 0x80002000 7 system = Done (2, s') /\
    procs_ok s' t' [proc1; p] /\ frame_ok (mem (kern s')) p 0x80002000 7 0x80001000.
Proof.
  destruct (add_kernel_process_args_ok 0x80001000 system table [proc1] 0x80002000 7
              12288 k1 16384 k2 (16384 + 35 * 4096) k3 system_ok eq_refl)
    as (s' & t' & p & E & Hok & Hf & _).
  - by vm_compute.
  - by vm_compute.
  - lia.
  - lia.
  - lia.
  - exact zalloc1.
  - lia.
  - exact zalloc2.
  - lia.
  - exact zalloc3.
  - lia.
  - exists s', t', p. split; [exact E|]. split; [exact Hok|exact Hf].
Defined.

Lemma get_by_pid_exact_witness : get_by_pid 1 system = Done (Some 0%nat, system).
Proof. exact (proj1 (get_by_pid_exact system table [proc1] system_ok) 0%nat proc1 eq_refl). Defined.

(** ** The scheduler *)

(** Two sleepers behind the front: at time 0 the first sleeps on, at time 10 the
    second is awake. *)
Definition rested : process := mkProcess 24576 0 5 0 Sleeping ProcessData_new 10 0 0.
Definition sleepy : pstate := mkP heap (Some [proc1; waiting; asleep; rested; proc3]) 0 6 0.

Lemma schedule_round_robin_witness :
  schedule 3 sleepy =
    Done (24576, mkP heap (Some [with_state Running rested; proc3; proc1; waiting; asleep]) 0 6 2).
Proof.
  apply (schedule_round_robin sleepy proc1 [waiting; asleep; rested; proc3] [waiting; asleep] rested [proc3; proc1]);
    try reflexivity.
  - intros [|a1 [|a2 [|a3 a]]] q b [=]; subst; intros [?|[? Hle]]; done.
  - by right.
  - cbn. lia.
Defined.

Lemma schedule_sound_witness :
  exists q pl', q ∈ [proc1; waiting; proc3] /\ 16384 = frame q /\
    Some [proc3; proc1; waiting] = Some pl'.
Proof.
  destruct (schedule_sound 2 trio 16384 (mkP heap (Some [proc3; proc1; waiting]) 0 4 0)
              [proc1; waiting; proc3]) as (q & pl' & Hq & Hf & Hl & _); [reflexivity..|].
  exists q, pl'. split; [exact Hq|]. split; [exact Hf|exact Hl].
Defined.

Lemma schedule_busy_witness : schedule 2 (with_mutex 1 trio) = Done (0, with_mutex 1 trio).
Proof. exact (schedule_busy (with_mutex 1 trio) 2 eq_refl). Defined.

Lemma schedule_never_returns_witness :
  schedule 100 (with_list (Some [waiting]) trio) = NoFuel.
Proof.
  apply (schedule_never_returns _ [waiting]); [reflexivity|reflexivity|done|].
  constructor; [by left|constructor].
Defined.

Lemma schedule_returns_witness :
  exists fuel f s', schedule fuel (with_list (Some [waiting; asleep]) trio) = Done (f, s').
Proof.
  destruct (schedule_returns (with_list (Some [waiting; asleep]) trio) [waiting; asleep] asleep 3)
    as (fuel & f & s' & E & _); [reflexivity|reflexivity|right; left| |].
  - right. split; [reflexivity|]. intros n Hn. unfold clock, seconds. cbn. lia.
  - exists fuel, f, s'. exact E.
Defined.

Lemma schedule_fair_witness :
  exists n fs s', (n <= 1)%nat /\ schedule_n (S n) 2 trio = Done (fs ++ [16384], s').
Proof.
  apply (schedule_fair [waiting] trio proc1 proc3 [] 2); try reflexivity.
  - constructor; [right; by left|constructor].
  - cbn. lia.
Defined.
End ProcessExample.
