(* ===== verification/BlockIo.v ===== *)
(** * fs.rs, block access: [syc_read] and [syc_write]

    The file system reaches the disk through two system calls.  What it
    relies on is the interface [BlockService]; [ideal_disk] is one
    implementation of it.  [Heap] is what it relies on of the kernel heap:
    a fresh block for every [Buffer::new]. *)

From S2P Require Import Prelude Cpu MinixLayout.
Import Layout.

(** ** The system calls the file system uses *)

(** [D] is the state of the disks.  A call names the device (1 to 8), a size
    and an offset in bytes; the first component of an answer is the status
    byte the device wrote. *)
Class BlockService (D : Type) := {
  syscall_block_read : D -> Z -> Z -> Z -> outcome (Z * list Z);
  syscall_block_write : D -> Z -> list Z -> Z -> outcome (Z * D);
  content : D -> Z -> Z -> Z;
  capacity : D -> Z -> Z;
  writable : D -> Z -> bool;
}.

(** Requests of some whole sectors inside of the disk are answered, with status 0;
    a write changes the bytes it names and nothing else. *)
Class BlockLaws (D : Type) `{BlockService D} : Prop := {
  block_read_ok d dev size off :
    0 <= off -> 0 < size -> off mod 512 = 0 -> size mod 512 = 0 ->
    off + size <= capacity d dev ->
    syscall_block_read d dev size off = Done (0, bytes_at (content d dev) off size);
  block_write_ok d dev l off :
    0 <= off -> 0 < zlen l -> off mod 512 = 0 -> zlen l mod 512 = 0 ->
    off + zlen l <= capacity d dev -> writable d dev = true -> Forall is_byte l ->
    exists d', syscall_block_write d dev l off = Done (0, d') /\
      (forall dev' x, content d' dev' x =
         if decide (dev' = dev) then upd_bytes (content d dev) off l x
         else content d dev' x) /\
      (forall dev', capacity d' dev' = capacity d dev') /\
      (forall dev', writable d' dev' = writable d dev');
  content_byte d dev x : is_byte (content d dev x);
}.

(** ** The heap *)

(** [fresh k sz] is what the block of the [k]-th [Buffer::new(sz)] holds;
    it is empty when [kmalloc] returned null. *)
Class Heap := fresh_block : nat -> Z -> list Z.

(** The block [kmalloc(sz)] returns has room for [sz] rounded up to eight. *)
Class HeapLaws `{Heap} : Prop := {
  fresh_length k sz : 0 <= sz -> zlen (fresh_block k sz) = (sz + 7) / 8 * 8;
  fresh_bytes k sz : Forall is_byte (fresh_block k sz);
}.

Module Io.

Record Buffer := mkBuffer { bdata : list Z; blen : Z }.

(** A path is the UTF-8 bytes of a [String]. *)
Abbreviation path := (list Z) (only parsing).

(** The file system's state: the disks, [MFS_INODE_CACHE] and the number of
    buffers allocated so far. *)
Record fs_state (D : Type) := mkFs {
  disks : D;
  cache : list (option (gmap path Inode));
  nalloc : nat;
}.
Arguments mkFs {D}.
Arguments disks {D}.
Arguments cache {D}.
Arguments nalloc {D}.

Section BlockIo.
Context `{Profile} {D : Type} `{BlockService D} `{Heap}.
Abbreviation FS := (M (fs_state D)).

Definition Buffer_new (sz : Z) : FS Buffer := fun s =>
  Done (mkBuffer (fresh_block (nalloc s) sz) sz,
        mkFs (disks s) (cache s) (S (nalloc s))).

Definition syc_read (bdev : Z) (buffer : list Z) (size offset : Z)
    : FS (Z * list Z) :=
  let BLOCK_SIZE := 512 in
  let block_start := offset / BLOCK_SIZE in
  e ← lift (u32 (offset + size));
  e ← lift (u32 (e + BLOCK_SIZE));
  e ← lift (u32 (e - 1));
  let block_end := e / BLOCK_SIZE in
  n ← lift (u32 (block_end - block_start));
  actual_buffer_size ← lift (u32 (n * BLOCK_SIZE));
  start ← lift (u32 (block_start * BLOCK_SIZE));
  s ← get;
  '(read_result, temp_buffer) ←
    lift (syscall_block_read (disks s) bdev actual_buffer_size start);
  if negb (read_result =? 0) then mret (read_result, buffer) else
  let internal_offset := offset mod BLOCK_SIZE in
  d ← lift (deref (slice temp_buffer internal_offset size));
  buffer' ← lift (deref (splice buffer 0 d));
  mret (0, buffer').

Definition syc_write (bdev : Z) (buffer : list Z) (size offset : Z) : FS Z :=
  let block_start := offset / BLOCK_SIZE in
  e ← lift (u32 (offset + size));
  e ← lift (u32 (e + BLOCK_SIZE));
  e ← lift (u32 (e - 1));
  let block_end := e / BLOCK_SIZE in
  n ← lift (u32 (block_end - block_start));
  actual_buffer_size ← lift (u32 (n * BLOCK_SIZE));
  actual_buffer ← Buffer_new actual_buffer_size;
  start ← lift (u32 (block_start * BLOCK_SIZE));
  '(_, data) ← syc_read bdev (bdata actual_buffer) actual_buffer_size start;
  let internal_offset := offset mod BLOCK_SIZE in
  _ ← lift (assert_ (internal_offset + size <=? blen actual_buffer));
  data' ← lift (Cpu.memcpy data internal_offset buffer 0 size);
  out ← lift (deref (slice data' 0 actual_buffer_size));
  s ← get;
  '(status, d') ← lift (syscall_block_write (disks s) bdev out start);
  _ ← put (mkFs d' (cache s) (nalloc s));
  mret status.

(** ** The disk a volume lives on: whole blocks, below the 32-bit limit. *)
Record disk_ok (d : D) (dev : Z) : Prop := {
  cap_blocks : capacity d dev mod BLOCK_SIZE = 0;
  cap_max : capacity d dev <= 2 ^ 32 - 2048;
}.

(** [d'] is [d] with the bytes of device [dev] from [off] on replaced by [l]. *)
Record disk_write (d : D) (dev off : Z) (l : list Z) (d' : D) : Prop := {
  dw_content dev' x : content d' dev' x =
    if decide (dev' = dev) then upd_bytes (content d dev) off l x
    else content d dev' x;
  dw_capacity dev' : capacity d' dev' = capacity d dev';
  dw_writable dev' : writable d' dev' = writable d dev';
}.

Lemma disk_write_ok d dev off l d' dev' :
  disk_write d dev off l d' -> disk_ok d dev' -> disk_ok d' dev'.
Proof. intros [] []. split; by rewrite dw_capacity0. Qed.

Context `{!BlockLaws D}.

(** Rounding a range out to units of [u] bytes stays inside of a disk of
    whole units, and the range lies in the rounded one. *)
Lemma round_range u off size cap :
  0 < u -> 0 <= off -> 0 <= size -> off + size <= cap -> cap mod u = 0 ->
  let s := off / u in let e := (off + size + u - 1) / u in
  0 <= s <= e /\ s * u + (e - s) * u <= cap /\ s * u + off mod u = off /\
  off mod u + size <= (e - s) * u /\ (e - s) * u < size + 2 * u.
Proof.
  intros Hu Ho Hs Hc Hm s e.
  pose proof (Z.div_mod off u ltac:(lia)) as Es.
  pose proof (Z.mod_pos_bound off u Hu).
  pose proof (Z.div_mod (off + size + u - 1) u ltac:(lia)) as Ee.
  pose proof (Z.mod_pos_bound (off + size + u - 1) u Hu).
  pose proof (Z.div_mod cap u ltac:(lia)).
  fold s in Es. fold e in Ee.
  assert (0 <= s) by (apply Z.div_pos; lia).
  assert (s <= e) by (apply Z.div_le_mono; lia).
  assert (e <= cap / u) by nia.
  split_and!; nia.
Qed.

Lemma syc_read_ok bdev buf size off s :
  disk_ok (disks s) bdev -> 0 <= off -> 0 < size <= zlen buf ->
  off + size <= capacity (disks s) bdev ->
  syc_read bdev buf size off s =
    Done ((0, bytes_at (content (disks s) bdev) off size ++ drop (Z.to_nat size) buf), s).
Proof.
  intros [Hcb Hcm] Ho Hs Hcap.
  assert (capacity (disks s) bdev mod 512 = 0) as Hc5
    by (pose proof (Z.div_mod (capacity (disks s) bdev) 1024 ltac:(lia));
        unfold BLOCK_SIZE in Hcb; apply Z.mod_divide; [lia|];
        exists (2 * (capacity (disks s) bdev / 1024)); lia).
  pose proof (round_range 512 off size _ ltac:(lia) Ho ltac:(lia) Hcap Hc5) as R.
  cbn zeta in R. destruct R as (R1 & R2 & R3 & R4 & R5).
  pose proof (Z.mod_pos_bound off 512 ltac:(lia)).
  unfold syc_read.
  do 3 (erewrite bind_done by (apply lift_done, uint_ok; lia)).
  set (bs := off / 512) in *. set (be := (off + size + 512 - 1) / 512) in *.
  do 3 (erewrite bind_done by (apply lift_done, uint_ok; lia)).
  erewrite bind_done by reflexivity.
  erewrite bind_done by (apply lift_done, block_read_ok; [lia|lia|apply Z.mod_mul; lia|apply Z.mod_mul; lia|lia]).
  cbn [negb Z.eqb].
  erewrite bind_done by (apply lift_done; rewrite slice_bytes_at by (try lia; apply Z.mod_pos_bound; lia); reflexivity).
  erewrite bind_done by (apply lift_done; rewrite splice_ok by (rewrite ?length_bytes_at; lia); reflexivity).
  cbn [mret M_ret]. unfold mret, M_ret. do 3 f_equal.
  rewrite take_0. cbn [app]. rewrite R3, length_bytes_at. done.
Qed.

Context `{!HeapLaws}.

Lemma round8_le n m : 0 <= n -> n <= m -> n <= (m + 7) / 8 * 8.
Proof.
  intros. pose proof (Z.div_mod (m + 7) 8 ltac:(lia)).
  pose proof (Z.mod_pos_bound (m + 7) 8 ltac:(lia)). lia.
Qed.

(** The bytes a read-modify-write puts back: the old ones, with the first
    [memcpy_len size] bytes of the buffer over them. *)
Lemma overlay_bytes f a n i (l data data' out : list Z) :
  0 <= i -> i + zlen l <= n -> 0 <= n -> n <= zlen data ->
  (forall j, 0 <= j < n -> nthZ data j = f (a + j)) ->
  splice data i l = Some data' -> slice data' 0 n = Some out ->
  zlen out = n /\ forall x, upd_bytes f a out x = upd_bytes f (a + i) l x.
Proof.
  intros Hi Hl Hn Hd Hf Hs Ho.
  pose proof (slice_length _ _ _ _ Ho) as Lo. split; [done|].
  intros x. unfold upd_bytes. rewrite Lo.
  destruct (decide (a <= x < a + n)).
  - rewrite (slice_nth _ _ _ _ _ Ho), (splice_nth _ _ _ _ _ Hs) by lia.
    repeat case_decide; try lia; f_equal; try lia.
    rewrite Hf by lia. f_equal. lia.
  - rewrite decide_False by lia. done.
Qed.

(** Reading [n] bytes over the front of a block. *)
Lemma refill_bytes f a n (buf : list Z) :
  0 <= n <= zlen buf -> Forall is_byte buf -> (forall x, is_byte (f x)) ->
  let data := bytes_at f a n ++ drop (Z.to_nat n) buf in
  zlen data = zlen buf /\ (forall j, 0 <= j < n -> nthZ data j = f (a + j)) /\
  Forall is_byte data.
Proof.
  intros Hn Hbuf Hf data. unfold data. split_and!.
  - rewrite length_app, length_drop, length_bytes_at. lia.
  - intros j Hj. rewrite <- (nth_bytes_at f a n) by lia. unfold nthZ.
    rewrite lookup_app_l by (rewrite length_bytes_at; lia). done.
  - apply Forall_app. split; [by apply Forall_bytes_at|by apply Forall_drop].
Qed.

Lemma splice_slice_bytes (data l data' out : list Z) i j n :
  Forall is_byte data -> Forall is_byte l ->
  splice data i l = Some data' -> slice data' j n = Some out -> Forall is_byte out.
Proof.
  intros Hd Hl Hs Ho. unfold splice in Hs. destruct (_ && _) in Hs; [|done].
  injection Hs as <-. unfold slice in Ho. destruct (_ && _) in Ho; [|done].
  injection Ho as <-. apply Forall_take, Forall_drop.
  rewrite !Forall_app. split_and!; by (apply Forall_take || apply Forall_drop || done).
Qed.

Lemma whole_sectors n : (n * 1024) mod 512 = 0.
Proof. apply Z.mod_divide; [lia|]. exists (n * 2). lia. Qed.

Lemma syc_write_ok bdev buf size off s :
  disk_ok (disks s) bdev -> writable (disks s) bdev = true ->
  0 <= off -> 0 < size <= zlen buf -> Forall is_byte buf ->
  off + size <= capacity (disks s) bdev ->
  exists d', syc_write bdev buf size off s = Done (0, mkFs d' (cache s) (S (nalloc s))) /\
    disk_write (disks s) bdev off (take (Z.to_nat (Cpu.memcpy_len size)) buf) d'.
Proof.
  intros Hok Hw Ho Hs Hb Hcap. pose proof Hok as [Hcb Hcm]. unfold BLOCK_SIZE in Hcb.
  pose proof (round_range 1024 off size _ ltac:(lia) Ho ltac:(lia) Hcap Hcb) as R.
  cbn zeta in R. destruct R as (R1 & R2 & R3 & R4 & R5).
  unfold syc_write, BLOCK_SIZE.
  do 3 (erewrite bind_done by (apply lift_done, uint_ok; lia)).
  set (bs := off / 1024) in *. set (be := (off + size + 1024 - 1) / 1024) in *.
  do 2 (erewrite bind_done by (apply lift_done, uint_ok; lia)).
  erewrite bind_done by reflexivity. erewrite bind_done by (apply lift_done, uint_ok; lia).
  set (n := (be - bs) * 1024) in *.
  pose proof (Z.mod_pos_bound off 1024 ltac:(lia)) as Hm.
  pose proof (whole_sectors (be - bs) : n mod 512 = 0) as Hn5. pose proof (whole_sectors bs) as Hb5.
  pose proof (fresh_length (nalloc s) n ltac:(lia)) as Lf.
  pose proof (round8_le n n ltac:(lia) ltac:(lia)) as Lr.
  erewrite bind_done by (apply syc_read_ok; cbn [disks bdata]; (done || lia)).
  cbn [disks bdata blen]. set (data := bytes_at _ _ _ ++ _).
  destruct (refill_bytes (content (disks s) bdev) (bs * 1024) n (fresh_block (nalloc s) n))
    as (Ld & Hdata & Fd); [lia|apply fresh_bytes|intros; apply content_byte|].
  fold data in Ld, Hdata, Fd.
  erewrite bind_done by (apply lift_done, assert_true, Z.leb_le; lia).
  destruct (Cpu.memcpy_spec data (off mod 1024) buf 0 size)
    as (l & data' & Hl & Hd' & Hcopy); try lia.
  rewrite Hcopy. erewrite bind_done by (apply lift_done; reflexivity).
  pose proof (splice_length _ _ _ _ Hd') as Ld'.
  pose proof (Cpu.memcpy_len_bounds size ltac:(lia)) as Hml.
  pose proof (slice_length _ _ _ _ Hl) as Ll.
  destruct (slice data' 0 n) as [out|] eqn:Hout;
    [|rewrite slice_ok in Hout by lia; done].
  do 2 erewrite bind_done by reflexivity. cbn [disks cache nalloc].
  destruct (overlay_bytes (content (disks s) bdev) (bs * 1024) n (off mod 1024)
              l data data' out) as [Lout Hupd]; try done; try lia.
  rewrite slice_ok in Hl by lia. injection Hl as <-. rewrite drop_0 in *.
  assert (Forall is_byte out) as Fo
    by (eapply splice_slice_bytes; [exact Fd| |exact Hd'|exact Hout]; by apply Forall_take).
  destruct (block_write_ok (disks s) bdev out (bs * 1024))
    as (d' & -> & Hc & Hcap' & Hw'); try done; try lia; [by rewrite Lout|].
  erewrite bind_done by (apply lift_done; reflexivity).
  exists d'. split; [done|]. split; [|done..].
  intros dev' x. rewrite Hc. case_decide; [|done]. rewrite Hupd. by rewrite R3.
Qed.
End BlockIo.
End Io.
