(* ===== verification/IdealDisk.v ===== *)
(** * An implementation of [BlockService]: disks as byte maps

    A request for a device that is not attached, for a part of a sector, or
    to write a read-only device is refused by [block_op] after the caller was
    put to sleep, so the caller hangs; a request outside of the disk is
    answered with VIRTIO_BLK_S_IOERR. *)

From S2P Require Import Prelude Memory Cpu MinixLayout BlockIo.

Module Ideal.

Record disk := mkDisk { img : gmap Z Z; sectors : Z; read_only : bool }.
Abbreviation disks := (gmap Z disk).

Definition byte_of (k : disk) (x : Z) : Z := default 0 (img k !! x) mod 256.
Definition icontent (d : disks) (dev x : Z) : Z :=
  match d !! dev with Some k => byte_of k x | None => 0 end.
Definition icapacity (d : disks) (dev : Z) : Z :=
  match d !! dev with Some k => sectors k * 512 | None => -1 end.
Definition iwritable (d : disks) (dev : Z) : bool :=
  match d !! dev with Some k => negb (read_only k) | None => false end.

Definition iread (d : disks) (dev size off : Z) : outcome (Z * list Z) :=
  match d !! dev with
  | None => Hang
  | Some k =>
      if negb (size mod 512 =? 0) then Hang
      else if sectors k * 512 <? off + size then Done (1, [])
      else Done (0, bytes_at (byte_of k) off size)
  end.

Definition iwrite (d : disks) (dev : Z) (l : list Z) (off : Z) : outcome (Z * disks) :=
  match d !! dev with
  | None => Hang
  | Some k =>
      if read_only k then Hang
      else if negb (zlen l mod 512 =? 0) then Hang
      else if sectors k * 512 <? off + zlen l then Done (1, d)
      else Done (0, <[dev := mkDisk (Mem.store (img k) off l) (sectors k) (read_only k)]> d)
  end.

#[export] Instance ideal_disk : BlockService disks := {
  syscall_block_read := iread;
  syscall_block_write := iwrite;
  content := icontent;
  capacity := icapacity;
  writable := iwritable;
}.

#[export] Instance ideal_laws : BlockLaws disks.
Proof.
  split.
  - intros d dev size off Ho Hs Hom Hsm Hcap.
    unfold syscall_block_read, capacity, content in *. cbn in *.
    unfold icapacity, icontent, iread in *.
    destruct (d !! dev) as [k|]; [|lia].
    rewrite Hsm. cbn. destruct (Z.ltb_spec (sectors k * 512) (off + size)); [lia|done].
  - intros d dev l off Ho Hpos Hom Hlm Hcap Hw Hl.
    unfold syscall_block_write, capacity, content, writable in *. cbn in *.
    unfold icapacity, iwrite, iwritable in *.
    destruct (d !! dev) as [k|] eqn:Ek; [|lia]. destruct (read_only k) eqn:Er; [done|].
    rewrite Hlm. cbn [negb Z.eqb].
    destruct (Z.ltb_spec (sectors k * 512) (off + zlen l)); [lia|].
    eexists. split; [reflexivity|]. split_and!; intros dev'.
    + intros x. unfold icontent. rewrite lookup_insert.
      repeat case_decide; subst; try done. unfold byte_of; cbn [img].
      rewrite Mem.store_lookup, Ek. unfold upd_bytes.
      case_decide; [|done]. unfold nthZ.
      destruct (lookup_lt_is_Some_2 l (Z.to_nat (x - off)) ltac:(lia)) as [b Hb].
      rewrite Hb. cbn. apply Z.mod_small.
      exact (proj1 (Forall_lookup _ _) Hl _ _ Hb).
    + rewrite lookup_insert. case_decide; subst; [by rewrite Ek|done].
    + rewrite lookup_insert. case_decide; subst; [by rewrite Ek, Er|done].
  - intros d dev x. unfold content; cbn. unfold icontent.
    destruct (d !! dev); [|done]. apply Z.mod_pos_bound. lia.
Qed.

(** A heap whose fresh blocks are zero. *)
#[export] Instance zero_heap : Heap := fun _ sz => replicate (Z.to_nat ((sz + 7) / 8 * 8)) 0.

#[export] Instance zero_heap_laws : HeapLaws.
Proof.
  split.
  - intros k sz Hs. unfold fresh_block, zero_heap. rewrite length_replicate.
    pose proof (Z.div_pos (sz + 7) 8). lia.
  - intros k sz. apply Forall_replicate. done.
Qed.

End Ideal.
