(* ===== verification/MinixRead.v ===== *)
(** * fs.rs, reading: [get_inode] and [MinixFileSystem::read]

    The four zone loops of [read] are modelled one by one; the section at the
    end relates them to the flat list of a file's data zones. *)

From S2P Require Import Prelude Cpu MinixLayout BlockIo.
Import Layout Io.

Module MinixRead.

(** How a loop body ends: with the next iteration, or by returning from the
    enclosing function. *)
Inductive flow (A : Type) := Go (a : A) | Stop (a : A).
Arguments Go {A} a.
Arguments Stop {A} a.

Definition flow_map {A B} (f : A -> B) (r : flow A) : flow B :=
  match r with Go a => Go (f a) | Stop a => Stop (f a) end.

Definition flow_val {A} (r : flow A) : A := match r with Go a => a | Stop a => a end.

(** The local variables of [read] that the loops update. *)
Record rd := mkRd {
  blocks_seen : Z;
  offset_byte : Z;
  bytes_left : Z;
  bytes_read : Z;
  rdst : list Z;        (** the caller's buffer *)
  block_buffer : list Z;
}.

(** [indirect_buffer], [iindirect_buffer] and [iiindirect_buffer]. *)
Record ptrbufs := mkPtrs { indirect : list Z; iindirect : list Z; iiindirect : list Z }.

Section Read.
Context `{Profile} {D : Type} `{BlockService D} `{Heap}.
Abbreviation FS := (M (fs_state D)).

Definition get_inode (bdev inode_num : Z) : FS (option Inode) :=
  buffer ← Buffer_new 1024;
  '(_, b) ← syc_read bdev (bdata buffer) 512 1024;
  super_block ← lift (superblock_at b);
  if magic super_block =? MAGIC then
    nb ← lift (u16 (2 + imap_blocks super_block));
    nb ← lift (u16 (nb + zmap_blocks super_block));
    x ← lift (usize (nb * BLOCK_SIZE));
    i ← lift (usize (inode_num - 1));
    y ← lift (usize (i / (BLOCK_SIZE / sizeof_Inode) * BLOCK_SIZE));
    inode_offset ← lift (usize (x + y));
    '(_, b) ← syc_read bdev b 1024 (as_u32 inode_offset);
    i ← lift (usize (inode_num - 1));
    let read_this_node := i mod (BLOCK_SIZE / sizeof_Inode) in
    inode ← lift (inode_at b read_this_node);
    mret (Some inode)
  else mret None.

(** The body every zone loop runs for a zone pointer that is not 0. *)
Definition read_zone (bdev offset_block zone : Z) (r : rd) : FS (flow rd) :=
  if offset_block <=? blocks_seen r then
    zone_offset ← lift (u32 (zone * BLOCK_SIZE));
    '(_, bb) ← syc_read bdev (block_buffer r) BLOCK_SIZE zone_offset;
    room ← lift (u32 (BLOCK_SIZE - offset_byte r));
    let read_this_many := if bytes_left r <? room then bytes_left r else room in
    dst ← lift (Cpu.memcpy (rdst r) (bytes_read r) bb (offset_byte r) read_this_many);
    n_read ← lift (u32 (bytes_read r + read_this_many));
    n_left ← lift (u32 (bytes_left r - read_this_many));
    if n_left =? 0 then mret (Stop (mkRd (blocks_seen r) 0 n_left n_read dst bb))
    else
      seen ← lift (u32 (blocks_seen r + 1));
      mret (Go (mkRd seen 0 n_left n_read dst bb))
  else
    seen ← lift (u32 (blocks_seen r + 1));
    mret (Go (mkRd seen (offset_byte r) (bytes_left r) (bytes_read r) (rdst r)
                (block_buffer r))).

(** [for i in 0..7] over [inode.zones]. *)
Fixpoint read_direct (bdev offset_block : Z) (zs : list Z) (r : rd) : FS (flow rd) :=
  match zs with
  | [] => mret (Go r)
  | z :: zs' =>
      if z =? 0 then read_direct bdev offset_block zs' r
      else
        o ← read_zone bdev offset_block z r;
        match o with
        | Stop r' => mret (Stop r')
        | Go r' => read_direct bdev offset_block zs' r'
        end
  end.

(** [for i in 0..NUM_IPTRS], skipping the null pointers: [sel] picks the
    buffer the pointers are read from, at every iteration. *)
Fixpoint ptr_loop {S} (k : nat) (i : Z) (sel : S -> list Z)
    (body : Z -> S -> FS (flow S)) (st : S) : FS (flow S) :=
  match k with
  | O => mret (Go st)
  | Datatypes.S k' =>
      z ← lift (u32_at (sel st) (4 * i));
      if z =? 0 then ptr_loop k' (i + 1) sel body st
      else
        o ← body z st;
        match o with
        | Stop st' => mret (Stop st')
        | Go st' => ptr_loop k' (i + 1) sel body st'
        end
  end.

Abbreviation iptrs := (Z.to_nat NUM_IPTRS).

(** [read_zone] inside of the indirect loops. *)
Definition read_leaf (bdev offset_block zone : Z) (st : rd * ptrbufs)
    : FS (flow (rd * ptrbufs)) :=
  o ← read_zone bdev offset_block zone st.1;
  mret (flow_map (fun r => (r, st.2)) o).

Definition read_singly (bdev offset_block zone : Z) (st : rd * ptrbufs)
    : FS (flow (rd * ptrbufs)) :=
  if zone =? 0 then mret (Go st) else
  let p := st.2 in
  off ← lift (u32 (BLOCK_SIZE * zone));
  '(_, b) ← syc_read bdev (indirect p) BLOCK_SIZE off;
  ptr_loop iptrs 0 (fun st => indirect st.2) (read_leaf bdev offset_block)
    (st.1, mkPtrs b (iindirect p) (iiindirect p)).

Definition read_doubly (bdev offset_block zone : Z) (st : rd * ptrbufs)
    : FS (flow (rd * ptrbufs)) :=
  if zone =? 0 then mret (Go st) else
  let p := st.2 in
  off ← lift (u32 (BLOCK_SIZE * zone));
  '(_, b) ← syc_read bdev (indirect p) BLOCK_SIZE off;
  ptr_loop iptrs 0 (fun st => indirect st.2)
    (fun izone st =>
       let p := st.2 in
       off ← lift (u32 (BLOCK_SIZE * izone));
       '(_, b) ← syc_read bdev (iindirect p) BLOCK_SIZE off;
       ptr_loop iptrs 0 (fun st => iindirect st.2) (read_leaf bdev offset_block)
         (st.1, mkPtrs (indirect p) b (iiindirect p)))
    (st.1, mkPtrs b (iindirect p) (iiindirect p)).

Definition read_triply (bdev offset_block zone : Z) (st : rd * ptrbufs)
    : FS (flow (rd * ptrbufs)) :=
  if zone =? 0 then mret (Go st) else
  let p := st.2 in
  off ← lift (u32 (BLOCK_SIZE * zone));
  '(_, b) ← syc_read bdev (indirect p) BLOCK_SIZE off;
  ptr_loop iptrs 0 (fun st => indirect st.2)
    (fun izone st =>
       let p := st.2 in
       off ← lift (u32 (BLOCK_SIZE * izone));
       '(_, b) ← syc_read bdev (iindirect p) BLOCK_SIZE off;
       ptr_loop iptrs 0 (fun st => iindirect st.2)
         (fun iizone st =>
            let p := st.2 in
            off ← lift (u32 (BLOCK_SIZE * iizone));
            '(_, b) ← syc_read bdev (iiindirect p) BLOCK_SIZE off;
            ptr_loop iptrs 0 (fun st => iiindirect st.2) (read_leaf bdev offset_block)
              (st.1, mkPtrs (indirect p) (iindirect p) b))
         (st.1, mkPtrs (indirect p) b (iiindirect p)))
    (st.1, mkPtrs b (iindirect p) (iiindirect p)).

(** Run the next section unless an earlier one returned. *)
Definition and_then {A} (m : FS (flow A)) (k : A -> FS (flow A)) : FS (flow A) :=
  o ← m; match o with Stop a => mret (Stop a) | Go a => k a end.

(** [read] returns the number of bytes read and the caller's buffer. *)
Definition read (bdev : Z) (inode : Inode) (buffer : list Z) (size offset : Z)
    : FS (Z * list Z) :=
  let offset_block := offset / BLOCK_SIZE in
  let offset_byte := offset mod BLOCK_SIZE in
  let bytes_left := if isize inode <? size then isize inode else size in
  bb ← Buffer_new BLOCK_SIZE;
  ib ← Buffer_new BLOCK_SIZE;
  iib ← Buffer_new BLOCK_SIZE;
  iiib ← Buffer_new BLOCK_SIZE;
  let r := mkRd 0 offset_byte bytes_left 0 buffer (bdata bb) in
  let p := mkPtrs (bdata ib) (bdata iib) (bdata iiib) in
  let zone i := nthZ (zones inode) i in
  o ← and_then (and_then (and_then
        (o ← read_direct bdev offset_block (take 7 (zones inode)) r;
         mret (flow_map (fun r => (r, p)) o))
        (read_singly bdev offset_block (zone 7)))
        (read_doubly bdev offset_block (zone 8)))
        (read_triply bdev offset_block (zone 9));
  let r := (flow_val o).1 in
  mret (bytes_read r, rdst r).
End Read.

(** ** The contents of a file, as a list of data zones

    [c] is the contents of the disk. *)

(** The pointers that are not 0 in the pointer block [z]. *)
Definition raw_ptrs (c : Z -> Z) (z : Z) (i k : nat) : list Z :=
  (fun i => le_dec (bytes_at c (z * BLOCK_SIZE + 4 * Z.of_nat i) 4)) <$> seq i k.

Definition nonzero (l : list Z) : list Z := filter (fun z => z <> 0) l.

(** The data zones below the zone [z] at [lvl] levels of indirection. *)
Fixpoint expand (c : Z -> Z) (lvl : nat) (z : Z) : list Z :=
  match lvl with
  | O => [z]
  | S l => nonzero (raw_ptrs c z 0 256) ≫= expand c l
  end.

Definition expand_nz (c : Z -> Z) (lvl : nat) (z : Z) : list Z :=
  if z =? 0 then [] else expand c lvl z.

Definition data_zones (c : Z -> Z) (inode : Inode) : list Z :=
  nonzero (take 7 (zones inode)) ++ expand_nz c 1 (nthZ (zones inode) 7)
  ++ expand_nz c 2 (nthZ (zones inode) 8) ++ expand_nz c 3 (nthZ (zones inode) 9).

(** The zone [z] and every zone below it lie inside of a disk of [cap] bytes. *)
Fixpoint zone_ok (c : Z -> Z) (cap : Z) (lvl : nat) (z : Z) : Prop :=
  0 <= z /\ (z + 1) * BLOCK_SIZE <= cap /\
  match lvl with
  | O => True
  | S l => Forall (zone_ok c cap l) (nonzero (raw_ptrs c z 0 256))
  end.

Definition zone_nz_ok (c : Z -> Z) (cap : Z) (lvl : nat) (z : Z) : Prop :=
  z <> 0 -> zone_ok c cap lvl z.

Record inode_ok (c : Z -> Z) (cap : Z) (inode : Inode) : Prop := {
  ok_direct : Forall (zone_ok c cap 0) (nonzero (take 7 (zones inode)));
  ok_singly : zone_nz_ok c cap 1 (nthZ (zones inode) 7);
  ok_doubly : zone_nz_ok c cap 2 (nthZ (zones inode) 8);
  ok_triply : zone_nz_ok c cap 3 (nthZ (zones inode) 9);
}.

(** ** What one zone contributes to a read *)

Definition zone_step (c : Z -> Z) (offset_block z : Z) (r : rd) : flow rd :=
  if offset_block <=? blocks_seen r then
    let n := Z.min (BLOCK_SIZE - offset_byte r) (bytes_left r) in
    let new := bytes_at c (z * BLOCK_SIZE + offset_byte r) (Cpu.memcpy_len n) in
    let dst := default (rdst r) (splice (rdst r) (bytes_read r) new) in
    let bb := bytes_at c (z * BLOCK_SIZE) BLOCK_SIZE in
    if bytes_left r - n =? 0
    then Stop (mkRd (blocks_seen r) 0 0 (bytes_read r + n) dst bb)
    else Go (mkRd (blocks_seen r + 1) 0 (bytes_left r - n) (bytes_read r + n) dst bb)
  else Go (mkRd (blocks_seen r + 1) (offset_byte r) (bytes_left r) (bytes_read r)
             (rdst r) (block_buffer r)).

Fixpoint zone_fold (c : Z -> Z) (offset_block : Z) (zs : list Z) (r : rd) : flow rd :=
  match zs with
  | [] => Go r
  | z :: zs' =>
      match zone_step c offset_block z r with
      | Stop r' => Stop r'
      | Go r' => zone_fold c offset_block zs' r'
      end
  end.

Lemma zone_fold_app c ob l1 l2 r :
  zone_fold c ob (l1 ++ l2) r =
  match zone_fold c ob l1 r with Stop r' => Stop r' | Go r' => zone_fold c ob l2 r' end.
Proof.
  revert r. induction l1 as [|z l1 IH]; intros r; cbn; [done|].
  by destruct (zone_step c ob z r).
Qed.

(** The invariant of the loops' variables. *)
Record rd_ok (r : rd) : Prop := {
  ok_seen : 0 <= blocks_seen r;
  ok_off : 0 <= offset_byte r < BLOCK_SIZE;
  ok_left : 0 <= bytes_left r;
  ok_read : 0 <= bytes_read r;
  ok_room : bytes_read r + bytes_left r <= zlen (rdst r);
  ok_u32 : bytes_read r + bytes_left r < 2 ^ 32;
  ok_bb : zlen (block_buffer r) = BLOCK_SIZE;
}.

Lemma zone_step_ok c ob z r r' :
  rd_ok r -> zone_step c ob z r = Go r' \/ zone_step c ob z r = Stop r' ->
  rd_ok r' /\ blocks_seen r' <= blocks_seen r + 1 /\ zlen (rdst r') = zlen (rdst r).
Proof.
  intros [] Hs. unfold BLOCK_SIZE in *.
  assert (forall i d, zlen (default (rdst r) (splice (rdst r) i d)) = zlen (rdst r)) as Hl.
  { intros i d. destruct (splice (rdst r) i d) eqn:E; [|done]. cbn.
    by rewrite (splice_length _ _ _ _ E). }
  unfold zone_step, BLOCK_SIZE in Hs.
  destruct (_ <=? _); [destruct (Z.eqb_spec (bytes_left r -
    Z.min (1024 - offset_byte r) (bytes_left r)) 0)|]; destruct Hs as [[= <-]|[= <-]];
    (split; [split|split]);
    cbn [blocks_seen offset_byte bytes_left bytes_read rdst block_buffer];
    rewrite ?Hl, ?length_bytes_at; unfold BLOCK_SIZE; lia.
Qed.

Lemma zone_fold_ok c ob zs : forall r,
  rd_ok r -> rd_ok (flow_val (zone_fold c ob zs r)) /\
    blocks_seen (flow_val (zone_fold c ob zs r)) <= blocks_seen r + zlen zs /\
    zlen (rdst (flow_val (zone_fold c ob zs r))) = zlen (rdst r).
Proof.
  induction zs as [|z zs IH]; intros r Hr; cbn [zone_fold flow_val length]; [split_and!; [done|lia|done]|].
  destruct (zone_step c ob z r) as [r'|r'] eqn:E;
    destruct (zone_step_ok c ob z r r' Hr ltac:(auto)) as (Hr' & Hb & Hl).
  - destruct (IH r' Hr') as (? & ? & ?). split_and!; [done|lia|congruence].
  - cbn [flow_val]. split_and!; [done|lia|done].
Qed.


(** ** The bytes a read delivers *)

(** Byte [p] of the file whose data zones are [zs]. *)
Definition file_byte (c : Z -> Z) (zs : list Z) (p : Z) : Z :=
  c (nthZ zs (p / BLOCK_SIZE) * BLOCK_SIZE + p mod BLOCK_SIZE).

(** The number of bytes a read of at most [n] bytes at [offset] returns. *)
Definition read_count (zs : list Z) (n offset : Z) : Z :=
  Z.min n (Z.max 0 (zlen zs * BLOCK_SIZE - offset)).

Lemma file_byte_in c zs z k b :
  zs !! k = Some z -> 0 <= b < BLOCK_SIZE ->
  file_byte c zs (Z.of_nat k * BLOCK_SIZE + b) = c (z * BLOCK_SIZE + b).
Proof.
  intros Hz Hb. unfold file_byte, BLOCK_SIZE in *.
  rewrite Z.div_add_l, (Z.div_small b), Z.add_0_r by lia.
  replace ((Z.of_nat k * 1024 + b) mod 1024) with b
    by (rewrite Z.add_comm, Z.mod_add, Z.mod_small; lia).
  unfold nthZ. by rewrite Nat2Z.id, Hz.
Qed.

Lemma memcpy_len_split a b :
  0 <= a -> 0 <= b -> a mod 8 = 0 ->
  Cpu.memcpy_len (a + b) <= a + Cpu.memcpy_len b.
Proof.
  intros. unfold Cpu.memcpy_len.
  pose proof (Z.div_mod (a + b) 8). pose proof (Z.div_mod b 8).
  pose proof (Z.mod_pos_bound b 8). pose proof (Z.mod_pos_bound (a + b) 8).
  pose proof (Z.div_mod a 8).
  destruct (Z.ltb_spec (a + b) 8), (Z.ltb_spec b 8); lia.
Qed.

Section Contents.
Variables (c : Z -> Z) (zs : list Z) (offset n : Z) (dst0 : list Z).
Hypotheses (Hoff : 0 <= offset) (Hal : offset mod 8 = 0) (Hn : 0 <= n)
  (Hroom : n <= zlen dst0).

(** The loop variables when [k] zones are behind. *)
Record at_zone (k : Z) (r : rd) : Prop := {
  az_seen : blocks_seen r = k;
  az_sum : bytes_read r + bytes_left r = n;
  az_len : zlen (rdst r) = zlen dst0;
  az_pos : (k <= offset / BLOCK_SIZE /\ bytes_read r = 0 /\
              offset_byte r = offset mod BLOCK_SIZE) \/
           (offset / BLOCK_SIZE < k /\ offset + bytes_read r = k * BLOCK_SIZE /\
              offset_byte r = 0 /\ 0 < bytes_left r);
  az_new j : 0 <= j < bytes_read r -> nthZ (rdst r) j = file_byte c zs (offset + j);
  az_old j : bytes_read r <= j -> nthZ (rdst r) j = nthZ dst0 j;
}.

Record read_done (r : rd) : Prop := {
  rdn_count : bytes_read r = read_count zs n offset;
  rdn_len : zlen (rdst r) = zlen dst0;
  rdn_new j : 0 <= j < Cpu.memcpy_len (bytes_read r) ->
    nthZ (rdst r) j = file_byte c zs (offset + j);
  rdn_old j : bytes_read r <= j -> nthZ (rdst r) j = nthZ dst0 j;
}.

(** The destination after one more chunk of [m] bytes of zone [z]. *)
Lemma chunk_bytes k z r m :
  at_zone (Z.of_nat k) r -> zs !! k = Some z -> offset / BLOCK_SIZE <= Z.of_nat k ->
  m = Z.min (BLOCK_SIZE - offset_byte r) (bytes_left r) ->
  let d := bytes_at c (z * BLOCK_SIZE + offset_byte r) (Cpu.memcpy_len m) in
  let dst := default (rdst r) (splice (rdst r) (bytes_read r) d) in
  bytes_read r mod 8 = 0 /\ 0 <= m /\
  offset + bytes_read r = Z.of_nat k * BLOCK_SIZE + offset_byte r /\
  zlen dst = zlen dst0 /\
  (forall j, 0 <= j < bytes_read r + Cpu.memcpy_len m ->
     nthZ dst j = file_byte c zs (offset + j)) /\
  (forall j, bytes_read r + m <= j -> nthZ dst j = nthZ dst0 j).
Proof.
  intros [] Hz Hk Em d dst.
  pose proof (Z.div_mod offset BLOCK_SIZE ltac:(done)) as Ho.
  pose proof (Z.mod_pos_bound offset BLOCK_SIZE ltac:(done)) as Hb.
  assert (offset + bytes_read r = Z.of_nat k * BLOCK_SIZE + offset_byte r) as Epos
    by (unfold BLOCK_SIZE in *; lia).
  assert (bytes_read r mod 8 = 0 /\ 0 <= bytes_read r) as [Emod Hge].
  { destruct az_pos0 as [(? & -> & ?)|(? & E & ? & ?)]; [done|]. split.
    - replace (bytes_read r) with (Z.of_nat k * 128 * 8 - offset)
        by (unfold BLOCK_SIZE in *; lia).
      rewrite Zminus_mod, Hal, Z.mod_mul by lia. done.
    - unfold BLOCK_SIZE in *. lia. }
  assert (0 <= m) as Hm by lia.
  pose proof (Cpu.memcpy_len_bounds m Hm).
  assert (zlen d = Cpu.memcpy_len m) as Ld by (unfold d; rewrite length_bytes_at; lia).
  destruct (splice (rdst r) (bytes_read r) d) as [dst'|] eqn:E.
  2: { rewrite splice_ok in E by lia. done. }
  cbn in dst. subst dst. split_and!; try done.
  - by rewrite (splice_length _ _ _ _ E).
  - intros j Hj. rewrite (splice_nth _ _ _ _ _ E), Ld by lia.
    case_decide; [|apply az_new0; lia].
    unfold d. rewrite nth_bytes_at by lia.
    replace (offset + j) with
      (Z.of_nat k * BLOCK_SIZE + (offset_byte r + (j - bytes_read r))) by lia.
    rewrite (file_byte_in _ _ z) by (done || lia). f_equal. lia.
  - intros j Hj. rewrite (splice_nth _ _ _ _ _ E), Ld by lia.
    rewrite decide_False by lia. apply az_old0. lia.
Qed.

Lemma zone_fold_bytes : forall zs' k r,
  zs' = drop k zs -> (k <= length zs)%nat -> at_zone (Z.of_nat k) r ->
  read_done (flow_val (zone_fold c (offset / BLOCK_SIZE) zs' r)).
Proof.
  pose proof (Z.div_mod offset BLOCK_SIZE ltac:(done)) as Ho.
  pose proof (Z.mod_pos_bound offset BLOCK_SIZE ltac:(done)) as Hb.
  induction zs' as [|z zs' IH]; intros k r Ezs Hk Hr.
  - destruct Hr. assert (length zs = k) as <-.
    { apply (f_equal length) in Ezs. rewrite length_drop in Ezs. cbn in Ezs. lia. }
    assert (bytes_read r = read_count zs n offset) as Ec
      by (unfold read_count, BLOCK_SIZE in *; lia).
    split; cbn [zone_fold flow_val]; try done.
    intros j Hj. apply az_new0.
    assert (0 <= bytes_read r) as H0 by (unfold read_count in Ec; lia).
    pose proof (Cpu.memcpy_len_bounds _ H0). lia.
  - assert (zs !! k = Some z) as Hz.
    { rewrite <- (Nat.add_0_r k), <- lookup_drop, <- Ezs. done. }
    pose proof (lookup_lt_Some _ _ _ Hz) as Hlt.
    assert (zs' = drop (S k) zs) as Ezs'.
    { rewrite <- Nat.add_1_r, <- drop_drop, <- Ezs. done. }
    cbn [zone_fold]. unfold zone_step. rewrite (az_seen _ _ Hr).
    destruct (Z.leb_spec (offset / BLOCK_SIZE) (Z.of_nat k)) as [Hle|Hgt].
    2: { apply (IH (S k)); [done|lia|]. destruct Hr.
         split; cbn [blocks_seen offset_byte bytes_left bytes_read rdst]; try done; lia. }
    destruct (chunk_bytes k z r _ Hr Hz Hle eq_refl) as (Emod & Hm & Epos & Ld & Hnew & Hold).
    set (m := Z.min _ _) in *. set (dst := default _ _) in *.
    pose proof (Cpu.memcpy_len_bounds m Hm). destruct Hr.
    destruct (Z.eqb_spec (bytes_left r - m) 0) as [E0|Hne].
    + cbn [flow_val].
      split; cbn [blocks_seen offset_byte bytes_left bytes_read rdst]; try done.
      * unfold read_count, BLOCK_SIZE in *. lia.
      * intros j Hj. apply Hnew.
        assert (0 <= bytes_read r) by (unfold BLOCK_SIZE in *; lia).
        pose proof (memcpy_len_split (bytes_read r) m). lia.
    + apply (IH (S k)); [done|lia|].
      assert (m = BLOCK_SIZE - offset_byte r) as Em by lia.
      assert (m mod 8 = 0) as Em8.
      { replace m with ((Z.of_nat k + 1) * 128 * 8 - offset - bytes_read r)
          by (unfold BLOCK_SIZE in *; lia).
        rewrite <- Zminus_mod_idemp_r, Emod, Z.sub_0_r.
        rewrite Zminus_mod, Hal, Z.mod_mul by lia. done. }
      rewrite (Cpu.memcpy_len_exact m) in Hnew by auto.
      split; cbn [blocks_seen offset_byte bytes_left bytes_read rdst];
        try done; unfold BLOCK_SIZE in *; lia.
Qed.
End Contents.

(** ** The loops visit the data zones in order *)
Section Refine.
Context `{Profile} {D : Type} `{BlockService D} `{Heap} `{!BlockLaws D}.

Variables (bdev : Z) (s : fs_state D).
Hypothesis Hdisk : disk_ok (disks s) bdev.
Abbreviation c := (content (disks s) bdev).
Abbreviation cap := (capacity (disks s) bdev).

(** One block of the disk, read into a buffer of one block. *)
Lemma read_block buf z :
  0 <= z -> (z + 1) * BLOCK_SIZE <= cap -> zlen buf = BLOCK_SIZE ->
  u32 (z * BLOCK_SIZE) = Done (z * BLOCK_SIZE) /\
  syc_read bdev buf BLOCK_SIZE (z * BLOCK_SIZE) s =
    Done ((0, bytes_at c (z * BLOCK_SIZE) BLOCK_SIZE), s).
Proof.
  unfold BLOCK_SIZE. intros Hz Hcap Hl. pose proof (cap_max _ _ Hdisk). split.
  - apply uint_ok. lia.
  - rewrite syc_read_ok by (done || lia).
    rewrite drop_ge, app_nil_r by lia. done.
Qed.

Lemma read_zone_ok ob z r :
  zone_ok c cap 0 z -> rd_ok r -> blocks_seen r + 1 < 2 ^ 32 ->
  read_zone bdev ob z r s = Done (zone_step c ob z r, s).
Proof.
  intros (Hz & Hcap & _) [] Hseen. unfold read_zone, zone_step.
  destruct (ob <=? blocks_seen r).
  2: { erewrite bind_done by (apply lift_done, uint_ok; lia). done. }
  destruct (read_block (block_buffer r) z) as [Eoff Eread]; try done.
  erewrite bind_done by (apply lift_done, Eoff).
  erewrite bind_done by (apply Eread). cbn beta iota.
  erewrite bind_done by (apply lift_done, uint_ok; unfold BLOCK_SIZE in *; lia).
  replace (if bytes_left r <? BLOCK_SIZE - offset_byte r then bytes_left r
           else BLOCK_SIZE - offset_byte r)
    with (Z.min (BLOCK_SIZE - offset_byte r) (bytes_left r))
    by (destruct (Z.ltb_spec (bytes_left r) (BLOCK_SIZE - offset_byte r)); lia).
  set (n := Z.min (BLOCK_SIZE - offset_byte r) (bytes_left r)) in *.
  destruct (Cpu.memcpy_spec (rdst r) (bytes_read r)
              (bytes_at c (z * BLOCK_SIZE) BLOCK_SIZE) (offset_byte r) n)
    as (d & dst & Hd & Hdst & ->); try (rewrite ?length_bytes_at; lia).
  pose proof (Cpu.memcpy_len_bounds n ltac:(lia)).
  rewrite slice_bytes_at in Hd by lia. injection Hd as <-.
  erewrite bind_done by (apply lift_done; reflexivity).
  do 2 (erewrite bind_done by (apply lift_done, uint_ok; lia)).
  rewrite Hdst. cbn [default].
  destruct (Z.eqb_spec (bytes_left r - n) 0) as [E0|]; [by rewrite E0|].
  erewrite bind_done by (apply lift_done, uint_ok; lia). done.
Qed.

(** The pointer the indirect loops read at index [i]. *)
Lemma ptr_at z i :
  0 <= i < 256 ->
  u32_at (bytes_at c (z * BLOCK_SIZE) BLOCK_SIZE) (4 * i) =
    Done (le_dec (bytes_at c (z * BLOCK_SIZE + 4 * i) 4)).
Proof. intros. apply int_at_bytes; unfold BLOCK_SIZE; lia. Qed.

Lemma read_direct_ok ob zs : forall r,
  Forall (zone_ok c cap 0) (nonzero zs) -> rd_ok r ->
  blocks_seen r + zlen (nonzero zs) < 2 ^ 32 ->
  read_direct bdev ob zs r s = Done (zone_fold c ob (nonzero zs) r, s).
Proof.
  induction zs as [|z zs IH]; intros r Hz Hr Hseen; [done|].
  cbn [read_direct]. unfold nonzero in *. destruct (Z.eqb_spec z 0) as [->|Hnz].
  - rewrite filter_cons_False in * by lia. by apply IH.
  - rewrite filter_cons_True in * by done. cbn [length] in Hseen.
    apply Forall_cons in Hz as [Hz Hzs].
    erewrite bind_done by (apply read_zone_ok; try done; lia).
    cbn [zone_fold]. destruct (zone_step c ob z r) as [r'|r'] eqn:E; [|done].
    destruct (zone_step_ok c ob z r r' Hr ltac:(auto)) as (? & ? & ?).
    apply IH; [done|done|lia].
Qed.

(** A loop body [body] that, for a pointer at level [lvl] of indirection,
    visits the data zones below it and keeps an invariant [P] on the
    pointer buffers. *)
Definition visits (ob : Z) (lvl : nat) (P : ptrbufs -> Prop)
    (body : Z -> rd * ptrbufs -> M (fs_state D) (flow (rd * ptrbufs))) : Prop :=
  forall z r p, zone_ok c cap lvl z -> rd_ok r -> P p ->
    blocks_seen r + zlen (expand c lvl z) < 2 ^ 32 ->
    exists p', P p' /\
      body z (r, p) s = Done (flow_map (fun r => (r, p')) (zone_fold c ob (expand c lvl z) r), s).

Lemma leaf_visits ob P : visits ob 0 P (read_leaf bdev ob).
Proof.
  intros z r p Hz Hr Hp Hseen. exists p. split; [done|].
  unfold read_leaf. cbn [expand length] in *.
  erewrite bind_done by (apply read_zone_ok; try done; cbn in *; lia).
  cbn [zone_fold fst snd]. by destruct (zone_step c ob z r).
Qed.

(** The loop over the pointers of the block [z]. *)
Lemma ptr_loop_ok ob lvl P sel body z :
  visits ob lvl P body ->
  (forall p, P p -> sel p = bytes_at c (z * BLOCK_SIZE) BLOCK_SIZE) ->
  forall k i r p, (i + k <= 256)%nat -> P p -> rd_ok r ->
    Forall (zone_ok c cap lvl) (nonzero (raw_ptrs c z i k)) ->
    blocks_seen r + zlen (nonzero (raw_ptrs c z i k) ≫= expand c lvl) < 2 ^ 32 ->
    exists p', P p' /\
      ptr_loop k (Z.of_nat i) (fun st => sel st.2) body (r, p) s =
      Done (flow_map (fun r => (r, p'))
              (zone_fold c ob (nonzero (raw_ptrs c z i k) ≫= expand c lvl) r), s).
Proof.
  intros Hbody Hsel. induction k as [|k IH]; intros i r p Hik Hp Hr Hz Hseen.
  { exists p. by split. }
  unfold raw_ptrs in *. cbn [seq] in *. rewrite fmap_cons in *. unfold nonzero in *.
  cbn [ptr_loop fst snd].
  rewrite Hsel by done.
  erewrite bind_done by (apply lift_done, ptr_at; lia).
  set (q := le_dec _) in *.
  replace (Z.of_nat i + 1) with (Z.of_nat (S i)) by lia.
  destruct (Z.eqb_spec q 0) as [E|Hnz].
  - rewrite filter_cons_False in * by (rewrite E; lia).
    apply IH; [lia|done..].
  - rewrite filter_cons_True in * by done. rewrite bind_cons in *.
    rewrite length_app in Hseen. apply Forall_cons in Hz as [Hq Hz].
    destruct (Hbody q r p) as (p1 & Hp1 & E); try done; [lia|].
    erewrite bind_done by (apply E). rewrite zone_fold_app.
    pose proof (zone_fold_ok c ob (expand c lvl q) r Hr) as (Hr1 & Hs1 & _).
    destruct (zone_fold c ob (expand c lvl q) r) as [r1|r1]; cbn [flow_map flow_val] in *.
    + apply IH; [lia|done|done|done|lia].
    + exists p1. by split.
Qed.

(** Reading a pointer block into the buffer [sel] and looping over it adds
    one level of indirection. *)
Lemma block_visits ob lvl (P : ptrbufs -> Prop) sel
    (upd : ptrbufs -> list Z -> ptrbufs) body :
  (forall p, P p -> zlen (sel p) = BLOCK_SIZE) ->
  (forall p b, P p -> zlen b = BLOCK_SIZE -> P (upd p b) /\ sel (upd p b) = b) ->
  (forall z, visits ob lvl
     (fun p => P p /\ sel p = bytes_at c (z * BLOCK_SIZE) BLOCK_SIZE) body) ->
  visits ob (S lvl) P (fun z st =>
    off ← lift (u32 (BLOCK_SIZE * z));
    '(_, b) ← syc_read bdev (sel st.2) BLOCK_SIZE off;
    ptr_loop (Z.to_nat NUM_IPTRS) 0 (fun st => sel st.2) body (st.1, upd st.2 b)).
Proof.
  intros Hlen Hupd Hbody z r p (Hz & Hcap & Hptrs) Hr Hp Hseen.
  destruct (read_block (sel p) z Hz Hcap (Hlen p Hp)) as [Eoff Eread].
  rewrite (Z.mul_comm BLOCK_SIZE z).
  erewrite bind_done by (apply lift_done, Eoff). cbn [fst snd].
  erewrite bind_done by (apply Eread). cbn beta iota.
  set (b := bytes_at c (z * BLOCK_SIZE) BLOCK_SIZE) in *.
  destruct (Hupd p b Hp) as [HP Hsel]; [by unfold b; rewrite length_bytes_at|].
  destruct (ptr_loop_ok ob lvl _ sel body z (Hbody z) (fun p Hp => proj2 Hp)
              256 0 r (upd p b)) as (p' & [Hp' _] & E); try done; try lia.
  by exists p'.
Qed.

Definition bufs_ok (p : ptrbufs) : Prop :=
  zlen (indirect p) = BLOCK_SIZE /\ zlen (iindirect p) = BLOCK_SIZE /\
  zlen (iiindirect p) = BLOCK_SIZE.

Ltac bufs := unfold bufs_ok; cbn; tauto.

(** A section of [read] for the zone pointer at level [lvl]: it does
    nothing for a null pointer and visits the zones below it otherwise. *)
Lemma section_ok ob lvl body z r p :
  visits ob lvl bufs_ok body -> zone_nz_ok c cap lvl z -> rd_ok r -> bufs_ok p ->
  blocks_seen r + zlen (expand_nz c lvl z) < 2 ^ 32 ->
  exists p', bufs_ok p' /\
    (if z =? 0 then mret (Go (r, p)) else body z (r, p)) s =
    Done (flow_map (fun r => (r, p')) (zone_fold c ob (expand_nz c lvl z) r), s).
Proof.
  unfold expand_nz. intros Hb Hz Hr Hp Hseen.
  destruct (Z.eqb_spec z 0) as [->|Hnz]; [by exists p|].
  apply Hb; auto.
Qed.

Lemma singly_visits ob : visits ob 1 bufs_ok (fun z st =>
  off ← lift (u32 (BLOCK_SIZE * z));
  '(_, b) ← syc_read bdev (indirect st.2) BLOCK_SIZE off;
  ptr_loop (Z.to_nat NUM_IPTRS) 0 (fun st => indirect st.2) (read_leaf bdev ob)
    (st.1, mkPtrs b (iindirect st.2) (iiindirect st.2))).
Proof.
  apply (block_visits ob 0 bufs_ok indirect
           (fun p b => mkPtrs b (iindirect p) (iiindirect p))).
  - bufs.
  - bufs.
  - intros z. apply leaf_visits.
Qed.

Lemma doubly_visits ob : visits ob 2 bufs_ok (fun z st =>
  off ← lift (u32 (BLOCK_SIZE * z));
  '(_, b) ← syc_read bdev (indirect st.2) BLOCK_SIZE off;
  ptr_loop (Z.to_nat NUM_IPTRS) 0 (fun st => indirect st.2)
    (fun izone st =>
       off ← lift (u32 (BLOCK_SIZE * izone));
       '(_, b) ← syc_read bdev (iindirect st.2) BLOCK_SIZE off;
       ptr_loop (Z.to_nat NUM_IPTRS) 0 (fun st => iindirect st.2) (read_leaf bdev ob)
         (st.1, mkPtrs (indirect st.2) b (iiindirect st.2)))
    (st.1, mkPtrs b (iindirect st.2) (iiindirect st.2))).
Proof.
  apply (block_visits ob 1 bufs_ok indirect
           (fun p b => mkPtrs b (iindirect p) (iiindirect p))).
  { bufs. }
  { bufs. }
  intros z. apply (block_visits ob 0 _ iindirect
           (fun p b => mkPtrs (indirect p) b (iiindirect p))).
  - bufs.
  - bufs.
  - intros z'. apply leaf_visits.
Qed.

Lemma triply_visits ob : visits ob 3 bufs_ok (fun z st =>
  off ← lift (u32 (BLOCK_SIZE * z));
  '(_, b) ← syc_read bdev (indirect st.2) BLOCK_SIZE off;
  ptr_loop (Z.to_nat NUM_IPTRS) 0 (fun st => indirect st.2)
    (fun izone st =>
       off ← lift (u32 (BLOCK_SIZE * izone));
       '(_, b) ← syc_read bdev (iindirect st.2) BLOCK_SIZE off;
       ptr_loop (Z.to_nat NUM_IPTRS) 0 (fun st => iindirect st.2)
         (fun iizone st =>
            off ← lift (u32 (BLOCK_SIZE * iizone));
            '(_, b) ← syc_read bdev (iiindirect st.2) BLOCK_SIZE off;
            ptr_loop (Z.to_nat NUM_IPTRS) 0 (fun st => iiindirect st.2) (read_leaf bdev ob)
              (st.1, mkPtrs (indirect st.2) (iindirect st.2) b))
         (st.1, mkPtrs (indirect st.2) b (iiindirect st.2)))
    (st.1, mkPtrs b (iindirect st.2) (iiindirect st.2))).
Proof.
  apply (block_visits ob 2 bufs_ok indirect
           (fun p b => mkPtrs b (iindirect p) (iiindirect p))).
  { bufs. }
  { bufs. }
  intros z. apply (block_visits ob 1 _ iindirect
           (fun p b => mkPtrs (indirect p) b (iiindirect p))).
  { bufs. }
  { bufs. }
  intros z'. apply (block_visits ob 0 _ iiindirect
           (fun p b => mkPtrs (indirect p) (iindirect p) b)).
  - bufs.
  - bufs.
  - intros z''. apply leaf_visits.
Qed.

(** Running a section after another is visiting the zones of both. *)
Lemma and_then_ok {A} (f : rd -> ptrbufs -> A) ob l1 l2 r p (m : M (fs_state D) (flow A)) k :
  m s = Done (flow_map (fun r => f r p) (zone_fold c ob l1 r), s) ->
  (forall r', zone_fold c ob l1 r = Go r' -> exists p', bufs_ok p' /\
     k (f r' p) s = Done (flow_map (fun r => f r p') (zone_fold c ob l2 r'), s)) ->
  bufs_ok p -> exists p', bufs_ok p' /\
    and_then m k s = Done (flow_map (fun r => f r p') (zone_fold c ob (l1 ++ l2) r), s).
Proof.
  intros Hm Hk Hp. unfold and_then. erewrite bind_done by exact Hm.
  rewrite zone_fold_app. destruct (zone_fold c ob l1 r) as [r'|r']; cbn.
  - by apply Hk.
  - by exists p.
Qed.

Lemma length_bind_le {A} (f : A -> list Z) b l :
  (forall x, zlen (f x) <= b) -> zlen (l ≫= f) <= b * zlen l.
Proof.
  intros Hf. induction l as [|x l IH]; [cbn; lia|].
  rewrite bind_cons, length_app. cbn [length]. specialize (Hf x). lia.
Qed.

Lemma length_expand lvl z : zlen (expand c lvl z) <= 256 ^ Z.of_nat lvl.
Proof.
  revert z. induction lvl as [|l IH]; intros z; [done|]. cbn [expand].
  etransitivity; [apply length_bind_le, IH|].
  assert (zlen (nonzero (raw_ptrs c z 0 256)) <= 256) as Hn.
  { unfold nonzero, raw_ptrs.
    pose proof (length_filter (fun z => z <> 0)
      ((fun i => le_dec (bytes_at c (z * BLOCK_SIZE + 4 * Z.of_nat i) 4)) <$> seq 0 256)) as Hl.
    rewrite length_fmap, length_seq in Hl. lia. }
  rewrite Nat2Z.inj_succ, Z.pow_succ_r by lia.
  assert (0 < 256 ^ Z.of_nat l) by (apply Z.pow_pos_nonneg; lia). nia.
Qed.

Lemma length_expand_nz lvl z : zlen (expand_nz c lvl z) <= 256 ^ Z.of_nat lvl.
Proof.
  unfold expand_nz. destruct (z =? 0); [|apply length_expand].
  cbn. apply Z.pow_nonneg. lia.
Qed.

Lemma length_data_zones inode : zlen (data_zones c inode) < 2 ^ 25.
Proof.
  unfold data_zones. rewrite !length_app.
  pose proof (length_expand_nz 1 (nthZ (zones inode) 7)) as H1'.
  pose proof (length_expand_nz 2 (nthZ (zones inode) 8)) as H2'.
  pose proof (length_expand_nz 3 (nthZ (zones inode) 9)) as H3'.
  assert (zlen (nonzero (take 7 (zones inode))) <= 7) as H0'.
  { unfold nonzero. pose proof (length_filter (fun z => z <> 0) (take 7 (zones inode))).
    rewrite length_take in *. lia. }
  cbn in H1', H2', H3'. lia.
Qed.

(** [read] visits the data zones of the file in order. *)
Lemma sections_ok inode ob r p :
  inode_ok c cap inode -> rd_ok r -> blocks_seen r = 0 -> bufs_ok p ->
  exists p', bufs_ok p' /\
    and_then (and_then (and_then
        (o ← read_direct bdev ob (take 7 (zones inode)) r;
         mret (flow_map (fun r => (r, p)) o))
        (read_singly bdev ob (nthZ (zones inode) 7)))
        (read_doubly bdev ob (nthZ (zones inode) 8)))
        (read_triply bdev ob (nthZ (zones inode) 9)) s
    = Done (flow_map (fun r => (r, p')) (zone_fold c ob (data_zones c inode) r), s).
Proof.
  intros [Hd H1' H2' H3'] Hr Hr0 Hp.
  pose proof (length_data_zones inode) as Hlen.
  unfold data_zones in *. rewrite !app_assoc. rewrite !length_app in Hlen.
  assert (forall l r', zone_fold c ob l r = Go r' ->
            rd_ok r' /\ blocks_seen r' <= zlen l) as Hgo.
  { intros l r' E. destruct (zone_fold_ok c ob l r Hr) as (? & ? & _).
    rewrite E in *. cbn in *. split; [done|lia]. }
  assert (exists p1, bufs_ok p1 /\ (o ← read_direct bdev ob (take 7 (zones inode)) r;
      mret (flow_map (fun r => (r, p)) o)) s =
      Done (flow_map (fun r => (r, p1)) (zone_fold c ob (nonzero (take 7 (zones inode))) r), s))
    as (p1 & Hp1 & E1).
  { exists p. split; [done|].
    erewrite bind_done by (apply read_direct_ok; try done; lia). done. }
  destruct (and_then_ok (fun r p => (r, p)) ob _ (expand_nz c 1 (nthZ (zones inode) 7)) r p1 _
              (read_singly bdev ob (nthZ (zones inode) 7)) E1) as (p2 & Hp2 & E2);
    [|exact Hp1|].
  { intros r' E. destruct (Hgo _ _ E).
    refine (section_ok ob 1 _ (nthZ (zones inode) 7) r' p1 (singly_visits ob) _ _ _ _);
      (done || lia). }
  destruct (and_then_ok (fun r p => (r, p)) ob _ (expand_nz c 2 (nthZ (zones inode) 8)) r p2 _
              (read_doubly bdev ob (nthZ (zones inode) 8)) E2) as (p3 & Hp3 & E3);
    [|exact Hp2|].
  { intros r' E. destruct (Hgo _ _ E). rewrite length_app in *.
    refine (section_ok ob 2 _ (nthZ (zones inode) 8) r' p2 (doubly_visits ob) _ _ _ _);
      (done || lia). }
  apply (and_then_ok (fun r p => (r, p)) ob _ (expand_nz c 3 (nthZ (zones inode) 9)) r p3 _
              (read_triply bdev ob (nthZ (zones inode) 9)) E3); [|exact Hp3].
  intros r' E. destruct (Hgo _ _ E). rewrite !length_app in *.
  refine (section_ok ob 3 _ (nthZ (zones inode) 9) r' p3 (triply_visits ob) _ _ _ _);
      (done || lia).
Qed.
End Refine.

(** The state after [k] more buffers were allocated. *)
Definition bump {D} (k : nat) (s : fs_state D) : fs_state D :=
  mkFs (disks s) (cache s) (k + nalloc s).

Section Results.
Context `{Profile} {D : Type} `{BlockService D} `{Heap} `{!BlockLaws D} `{!HeapLaws}.

(** What a read delivers: the count, and the bytes of the file in the first
    [memcpy_len] bytes of it; the caller's buffer is unchanged behind them. *)
Record delivered (c : Z -> Z) (zs : list Z) (n offset : Z) (buf : list Z) (cnt : Z)
    (buf' : list Z) : Prop := {
  dl_count : cnt = read_count zs n offset;
  dl_len : zlen buf' = zlen buf;
  dl_new j : 0 <= j < Cpu.memcpy_len cnt -> nthZ buf' j = file_byte c zs (offset + j);
  dl_old j : cnt <= j -> nthZ buf' j = nthZ buf j;
}.

Lemma read_ok bdev inode buf size offset s :
  let c := content (disks s) bdev in
  let n := Z.min size (isize inode) in
  disk_ok (disks s) bdev -> inode_ok c (capacity (disks s) bdev) inode ->
  0 <= offset -> offset mod 8 = 0 -> 0 <= n < 2 ^ 32 -> n <= zlen buf ->
  exists cnt buf', read bdev inode buf size offset s = Done ((cnt, buf'), bump 4 s) /\
    delivered c (data_zones c inode) n offset buf cnt buf'.
Proof.
  intros c n Hdisk Hino Hoff Hal Hn Hroom. unfold read.
  do 4 (erewrite bind_done by reflexivity). cbn [disks cache nalloc bdata].
  change (mkFs (disks s) (cache s) (S (S (S (S (nalloc s)))))) with (bump 4 s).
  replace (if isize inode <? size then isize inode else size) with n
    by (unfold n; destruct (Z.ltb_spec (isize inode) size); lia).
  set (r := mkRd 0 _ _ _ _ _). set (p := mkPtrs _ _ _).
  pose proof (Z.mod_pos_bound offset BLOCK_SIZE ltac:(done)) as Hb.
  assert (forall k, zlen (fresh_block k BLOCK_SIZE) = BLOCK_SIZE) as Hf
    by (intros; by rewrite fresh_length).
  assert (rd_ok r) as Hr
    by (split; cbn [r blocks_seen offset_byte bytes_left bytes_read rdst block_buffer];
        rewrite ?Hf; lia).
  assert (bufs_ok p) as Hp by (unfold bufs_ok, p; cbn; rewrite !Hf; done).
  destruct (sections_ok bdev (bump 4 s) Hdisk inode (offset / BLOCK_SIZE) r p)
    as (p' & _ & E); try done.
  erewrite bind_done by exact E. cbn [bump disks].
  assert (read_done c (data_zones c inode) offset n buf
            (flow_val (zone_fold c (offset / BLOCK_SIZE) (data_zones c inode) r))) as [].
  { apply zone_fold_bytes with (k := 0%nat); try done; try (cbn; lia).
    split; cbn [r blocks_seen offset_byte bytes_left bytes_read rdst]; try done; try lia.
    left. split_and!; try done. apply Z.div_pos; [done|by unfold BLOCK_SIZE]. }
  change (content (disks s) bdev) with c.
  eexists _, _. split; [reflexivity|].
  destruct (zone_fold c (offset / BLOCK_SIZE) (data_zones c inode) r); by split.
Qed.

(** ** [get_inode] *)

Definition superblock (c : Z -> Z) : SuperBlock := decode_superblock (bytes_at c 1024 32).

(** Where the inode table starts, and inode number [n] in it. *)
Definition itable (c : Z -> Z) : Z :=
  (2 + imap_blocks (superblock c) + zmap_blocks (superblock c)) * BLOCK_SIZE.
Definition inode_on (c : Z -> Z) (n : Z) : Inode :=
  decode_inode (bytes_at c (itable c + (n - 1) * sizeof_Inode) sizeof_Inode).

(** A disk with a Minix file system on it, and the numbers of its inodes. *)
Record volume_ok (d : D) (dev : Z) : Prop := {
  vol_disk : disk_ok d dev;
  vol_magic : magic (superblock (content d dev)) = MAGIC;
  vol_maps : imap_blocks (superblock (content d dev))
             + zmap_blocks (superblock (content d dev)) < 2 ^ 16 - 2;
  vol_cap : 2048 <= capacity d dev;
}.
Definition inode_num_ok (d : D) (dev n : Z) : Prop :=
  1 <= n < 2 ^ 32 /\
  itable (content d dev) + ((n - 1) / 16 + 1) * BLOCK_SIZE <= capacity d dev.

(** The first read of [get_inode]: the superblock, behind the first block. *)
Lemma read_superblock bdev s :
  let c := content (disks s) bdev in
  disk_ok (disks s) bdev -> 2048 <= capacity (disks s) bdev ->
  exists b, syc_read bdev (fresh_block (nalloc s) 1024) 512 1024 (bump 1 s)
      = Done ((0, b), bump 1 s) /\
    superblock_at b = Done (superblock c) /\ zlen b = 1024.
Proof.
  intros c Hdisk Hcap.
  assert (zlen (fresh_block (nalloc s) 1024) = 1024) as Lf by by rewrite fresh_length.
  eexists. split; [apply syc_read_ok; cbn [bump disks]; (done || lia)|].
  cbn [bump disks]. fold c. split.
  - unfold superblock_at, struct_at, sizeof_SuperBlock.
    erewrite slice_app_l by (apply slice_bytes_at; lia). done.
  - rewrite length_app, length_drop, length_bytes_at. lia.
Qed.

Lemma get_inode_none bdev n s :
  disk_ok (disks s) bdev -> 2048 <= capacity (disks s) bdev ->
  magic (superblock (content (disks s) bdev)) <> MAGIC ->
  get_inode bdev n s = Done (None, bump 1 s).
Proof.
  intros Hdisk Hcap Hm. destruct (read_superblock bdev s Hdisk Hcap) as (b & E & Hb & _).
  unfold get_inode. erewrite bind_done by reflexivity.
  erewrite bind_done by exact E. cbn beta iota. rewrite Hb.
  erewrite bind_done by (apply lift_done; reflexivity).
  by rewrite (proj2 (Z.eqb_neq _ _) Hm).
Qed.

Lemma get_inode_ok bdev n s :
  volume_ok (disks s) bdev -> inode_num_ok (disks s) bdev n ->
  get_inode bdev n s = Done (Some (inode_on (content (disks s) bdev) n), bump 1 s).
Proof.
  intros [Hdisk Hmagic Hmaps Hcap] [Hn Hin]. unfold get_inode.
  destruct (read_superblock bdev s Hdisk Hcap) as (b & E & Hb & Lb).
  set (c := content (disks s) bdev) in *.
  erewrite bind_done by reflexivity.
  erewrite bind_done by exact E. cbn beta iota. rewrite Hb.
  erewrite bind_done by (apply lift_done; reflexivity).
  rewrite Hmagic. cbn [Z.eqb MAGIC Pos.eqb].
  pose proof (field_range (bytes_at c 1024 32) 6 2
    (Forall_bytes_at _ _ _ _ (content_byte _ _))) as Hi.
  pose proof (field_range (bytes_at c 1024 32) 8 2
    (Forall_bytes_at _ _ _ _ (content_byte _ _))) as Hz.
  change (field (bytes_at c 1024 32) 6 2) with (imap_blocks (superblock c)) in Hi.
  change (field (bytes_at c 1024 32) 8 2) with (zmap_blocks (superblock c)) in Hz.
  pose proof (cap_max _ _ Hdisk) as Hmax. unfold itable, BLOCK_SIZE in *.
  change (256 ^ Z.of_nat 2) with 65536 in Hi, Hz.
  pose proof (Z.div_mod (n - 1) 16 ltac:(lia)) as Hdm.
  pose proof (Z.mod_pos_bound (n - 1) 16 ltac:(lia)) as Hmod.
  assert (0 <= (n - 1) / 16) by (apply Z.div_pos; lia).
  change (1024 / sizeof_Inode) with 16.
  do 4 (erewrite bind_done by (apply lift_done, uint_ok; lia)).
  erewrite bind_done by (apply lift_done, uint_ok; lia).
  erewrite bind_done by (apply lift_done, uint_ok; lia).
  unfold as_u32. rewrite Z.mod_small by lia.
  erewrite bind_done by (apply syc_read_ok; cbn [bump disks];
    [done|lia|lia|lia]).
  cbn beta iota.
  erewrite bind_done by (apply lift_done, uint_ok; lia).
  unfold inode_at, struct_at, sizeof_Inode.
  erewrite slice_app_l by (apply slice_bytes_at; lia). cbn [bump disks].
  cbn [deref mbind outcome_bind].
  erewrite bind_done by (apply lift_done; reflexivity).
  unfold mret, M_ret. do 3 f_equal. unfold inode_on, itable, BLOCK_SIZE, sizeof_Inode.
  f_equal. fold c. f_equal. lia.
Qed.
End Results.
End MinixRead.
