(* ===== verification/MinixWrite.v ===== *)
(** * fs.rs, writing: [MinixFileSystem::write]

    [write] visits the zones the way [read] does; for every zone at or behind
    the offset it hands the whole buffer to [syc_write].  The pointers
    [iizones] and [iiizones] are both taken from [iiindirect_buffer]. *)

From S2P Require Import Prelude Cpu MinixLayout BlockIo MinixRead.
Import Layout Io MinixRead.

Module MinixWrite.

(** The local variables of [write] that the loops update. *)
Record wr := mkWr {
  wblocks_seen : Z;
  woffset_byte : Z;
  wbytes_left : Z;
  bytes_write : Z;
}.

Section Write.
Context `{Profile} {D : Type} `{BlockService D} `{Heap}.
Abbreviation FS := (M (fs_state D)).
Abbreviation iptrs := (Z.to_nat NUM_IPTRS).

Variables (bdev : Z) (buffer : list Z) (size offset_block : Z).

Definition write_zone (zone : Z) (w : wr) : FS (flow wr) :=
  if offset_block <=? wblocks_seen w then
    zone_offset ← lift (u32 (zone * BLOCK_SIZE));
    _ ← syc_write bdev buffer size zone_offset;
    room ← lift (u32 (BLOCK_SIZE - woffset_byte w));
    let write_this_many := if wbytes_left w <? room then wbytes_left w else room in
    n_write ← lift (u32 (bytes_write w + write_this_many));
    n_left ← lift (u32 (wbytes_left w - write_this_many));
    if n_left =? 0 then mret (Stop (mkWr (wblocks_seen w) 0 n_left n_write))
    else
      seen ← lift (u32 (wblocks_seen w + 1));
      mret (Go (mkWr seen 0 n_left n_write))
  else
    seen ← lift (u32 (wblocks_seen w + 1));
    mret (Go (mkWr seen (woffset_byte w) (wbytes_left w) (bytes_write w))).

Fixpoint write_direct (zs : list Z) (w : wr) : FS (flow wr) :=
  match zs with
  | [] => mret (Go w)
  | z :: zs' =>
      if z =? 0 then write_direct zs' w
      else
        o ← write_zone z w;
        match o with
        | Stop w' => mret (Stop w')
        | Go w' => write_direct zs' w'
        end
  end.

Definition write_leaf (zone : Z) (st : wr * ptrbufs) : FS (flow (wr * ptrbufs)) :=
  o ← write_zone zone st.1; mret (flow_map (fun w => (w, st.2)) o).

Definition write_singly (zone : Z) (st : wr * ptrbufs) : FS (flow (wr * ptrbufs)) :=
  if zone =? 0 then mret (Go st) else
  let p := st.2 in
  off ← lift (u32 (BLOCK_SIZE * zone));
  '(_, b) ← syc_read bdev (indirect p) BLOCK_SIZE off;
  ptr_loop iptrs 0 (fun st => indirect st.2) write_leaf
    (st.1, mkPtrs b (iindirect p) (iiindirect p)).

(** The inner pointers come from [iizones], which points into
    [iiindirect_buffer], not into the block just read. *)
Definition write_doubly (zone : Z) (st : wr * ptrbufs) : FS (flow (wr * ptrbufs)) :=
  if zone =? 0 then mret (Go st) else
  let p := st.2 in
  off ← lift (u32 (BLOCK_SIZE * zone));
  '(_, b) ← syc_read bdev (indirect p) BLOCK_SIZE off;
  ptr_loop iptrs 0 (fun st => indirect st.2)
    (fun izone st =>
       let p := st.2 in
       off ← lift (u32 (BLOCK_SIZE * izone));
       '(_, b) ← syc_read bdev (iindirect p) BLOCK_SIZE off;
       ptr_loop iptrs 0 (fun st => iiindirect st.2) write_leaf
         (st.1, mkPtrs (indirect p) b (iiindirect p)))
    (st.1, mkPtrs b (iindirect p) (iiindirect p)).

Definition write_triply (zone : Z) (st : wr * ptrbufs) : FS (flow (wr * ptrbufs)) :=
  if zone =? 0 then mret (Go st) else
  let p := st.2 in
  off ← lift (u32 (BLOCK_SIZE * zone));
  '(_, b) ← syc_read bdev (indirect p) BLOCK_SIZE off;
  ptr_loop iptrs 0 (fun st => indirect st.2)
    (fun izone st =>
       let p := st.2 in
       off ← lift (u32 (BLOCK_SIZE * izone));
       '(_, b) ← syc_read bdev (iindirect p) BLOCK_SIZE off;
       ptr_loop iptrs 0 (fun st => iiindirect st.2)
         (fun iizone st =>
            let p := st.2 in
            off ← lift (u32 (BLOCK_SIZE * iizone));
            '(_, b) ← syc_read bdev (iiindirect p) BLOCK_SIZE off;
            ptr_loop iptrs 0 (fun st => iiindirect st.2) write_leaf
              (st.1, mkPtrs (indirect p) (iindirect p) b))
         (st.1, mkPtrs (indirect p) b (iiindirect p)))
    (st.1, mkPtrs b (iindirect p) (iiindirect p)).
End Write.

Section WriteFn.
Context `{Profile} {D : Type} `{BlockService D} `{Heap}.
Abbreviation FS := (M (fs_state D)).

Definition set_size (inode : Inode) (n : Z) : Inode :=
  mkInode (imode inode) (nlinks inode) (uid inode) (gid inode) n
    (atime inode) (mtime inode) (ctime inode) (zones inode).

(** [write] returns the number of bytes written; [inode.size] is only set
    when the loops end before all bytes are accounted for. *)
Definition write (bdev : Z) (inode : Inode) (buffer : list Z) (size offset : Z)
    : FS (Z * Inode) :=
  let offset_block := offset / BLOCK_SIZE in
  let offset_byte := offset mod BLOCK_SIZE in
  ib ← Buffer_new BLOCK_SIZE;
  iib ← Buffer_new BLOCK_SIZE;
  iiib ← Buffer_new BLOCK_SIZE;
  let w := mkWr 0 offset_byte size 0 in
  let p := mkPtrs (bdata ib) (bdata iib) (bdata iiib) in
  let zone i := nthZ (zones inode) i in
  o ← and_then (and_then (and_then
        (o ← write_direct bdev buffer size offset_block (take 7 (zones inode)) w;
         mret (flow_map (fun w => (w, p)) o))
        (write_singly bdev buffer size offset_block (zone 7)))
        (write_doubly bdev buffer size offset_block (zone 8)))
        (write_triply bdev buffer size offset_block (zone 9));
  match o with
  | Stop (w, _) => mret (bytes_write w, inode)
  | Go (w, _) => mret (bytes_write w, set_size inode (bytes_write w))
  end.
End WriteFn.

(** ** One block of a direct zone *)
Section Direct.
Context `{Profile} {D : Type} `{BlockService D} `{Heap} `{!BlockLaws D} `{!HeapLaws}.

(** The zones in front of the offset are only counted. *)
Lemma write_direct_skip bdev buffer size ob zs : forall w s,
  0 <= wblocks_seen w -> wblocks_seen w + zlen (nonzero zs) < 2 ^ 32 ->
  wblocks_seen w + zlen (nonzero zs) <= ob ->
  write_direct bdev buffer size ob zs w s =
    Done (Go (mkWr (wblocks_seen w + zlen (nonzero zs)) (woffset_byte w)
                (wbytes_left w) (bytes_write w)), s).
Proof.
  unfold nonzero. induction zs as [|z zs IH]; intros w s H0' Hb Hob; cbn [write_direct].
  - destruct w; cbn in *. by rewrite Z.add_0_r.
  - destruct (Z.eqb_spec z 0) as [->|Hnz].
    + rewrite filter_cons_False in * by lia. by apply IH.
    + rewrite filter_cons_True in * by done. cbn [length] in *.
      unfold write_zone.
      destruct (Z.leb_spec ob (wblocks_seen w)); [lia|].
      erewrite bind_done by (erewrite bind_done by (apply lift_done, uint_ok; lia); reflexivity).
      cbn beta iota. rewrite IH; cbn [wblocks_seen woffset_byte wbytes_left bytes_write]; try lia.
      do 4 f_equal. lia.
Qed.

(** One zone at or behind the offset: the whole buffer goes to its start, and as
    many bytes are counted as the block has room for. *)
Lemma write_zone_ok bdev buffer size ob z w s :
  let room := BLOCK_SIZE - woffset_byte w in
  disk_ok (disks s) bdev -> writable (disks s) bdev = true ->
  Forall is_byte buffer -> 0 < size <= zlen buffer ->
  0 <= z -> z * BLOCK_SIZE + size <= capacity (disks s) bdev ->
  0 <= woffset_byte w < BLOCK_SIZE -> 0 < wbytes_left w -> 0 <= bytes_write w ->
  bytes_write w + wbytes_left w < 2 ^ 32 -> ob <= wblocks_seen w -> 0 <= wblocks_seen w < 2 ^ 32 - 1 ->
  exists d', write_zone bdev buffer size ob z w s =
      Done (if wbytes_left w <=? room
            then Stop (mkWr (wblocks_seen w) 0 0 (bytes_write w + wbytes_left w))
            else Go (mkWr (wblocks_seen w + 1) 0 (wbytes_left w - room) (bytes_write w + room)),
            mkFs d' (cache s) (S (nalloc s))) /\
    disk_write (disks s) bdev (z * BLOCK_SIZE) (take (Z.to_nat (Cpu.memcpy_len size)) buffer) d'.
Proof.
  intros room Hdisk Hw Hbytes Hsize Hz Hcap Hb Hleft Hwr Hsum Hob Hseen.
  pose proof (cap_max _ _ Hdisk).
  destruct (syc_write_ok bdev buffer size (z * BLOCK_SIZE) s) as (d' & E & Hd');
    try done; [unfold BLOCK_SIZE; lia|].
  exists d'. split; [|done]. unfold write_zone.
  rewrite (proj2 (Z.leb_le _ _)) by done.
  erewrite bind_done by (apply lift_done, uint_ok; unfold BLOCK_SIZE in *; lia).
  erewrite bind_done by exact E.
  erewrite bind_done by (apply lift_done, uint_ok; unfold BLOCK_SIZE in *; lia). fold room.
  replace (if wbytes_left w <? room then wbytes_left w else room) with (Z.min (wbytes_left w) room)
    by (destruct (Z.ltb_spec (wbytes_left w) room); lia).
  do 2 (erewrite bind_done by (apply lift_done, uint_ok; unfold room, BLOCK_SIZE in *; lia)).
  destruct (Z.leb_spec (wbytes_left w) room).
  - rewrite Z.min_l, Z.sub_diag by lia. done.
  - rewrite Z.min_r, (proj2 (Z.eqb_neq _ _)) by lia.
    by erewrite bind_done by (apply lift_done, uint_ok; lia).
Qed.

(** The same bytes [l] at the start of one zone after the other. *)
Definition stamp (zs : list Z) (l : list Z) (c : Z -> Z) : Z -> Z :=
  foldl (fun c z => upd_bytes c (z * BLOCK_SIZE) l) c zs.

Record stamped (d : D) (dev : Z) (zs l : list Z) (d' : D) : Prop := {
  st_content dev' x : content d' dev' x =
    if decide (dev' = dev) then stamp zs l (content d dev) x else content d dev' x;
  st_capacity dev' : capacity d' dev' = capacity d dev';
  st_writable dev' : writable d' dev' = writable d dev';
}.

Lemma stamp_ext zs l c c' x : (forall y, c y = c' y) -> stamp zs l c x = stamp zs l c' x.
Proof.
  revert c c'. induction zs as [|z zs IH]; intros c c' Hc; [apply Hc|]. cbn [stamp foldl].
  apply IH. intros y. unfold upd_bytes. by case_decide.
Qed.

(** The last zone has the bytes. *)
Lemma stamp_last zs z l c j : last zs = Some z -> 0 <= j < zlen l ->
  stamp zs l c (z * BLOCK_SIZE + j) = nthZ l j.
Proof.
  intros [zs' ->]%last_Some Hj. unfold stamp. rewrite foldl_snoc. unfold upd_bytes.
  rewrite decide_True by lia. f_equal. lia.
Qed.

Lemma stamped_cons d dev z zs l d1 d2 :
  disk_write d dev (z * BLOCK_SIZE) l d1 -> stamped d1 dev zs l d2 -> stamped d dev (z :: zs) l d2.
Proof.
  intros [C1 P1 W1] [C2 P2 W2]. split; intros; [|by rewrite P2|by rewrite W2].
  rewrite C2. case_decide as E; [|rewrite C1; by rewrite decide_False].
  cbn [stamp foldl]. apply stamp_ext. intros y. rewrite C1. by rewrite decide_True.
Qed.

Lemma stamped_one d dev z l d' : stamped d dev [z] l d' -> disk_write d dev (z * BLOCK_SIZE) l d'.
Proof. by intros [? ? ?]. Qed.

Lemma write_direct_app bdev buffer size ob l1 l2 w s :
  write_direct bdev buffer size ob (l1 ++ l2) w s =
  (o ← write_direct bdev buffer size ob l1 w;
   match o with
   | Stop w' => mret (Stop w')
   | Go w' => write_direct bdev buffer size ob l2 w'
   end) s.
Proof.
  revert w s. induction l1 as [|z l1 IH]; intros w s; [done|].
  cbn [app write_direct]. destruct (z =? 0); [apply IH|].
  unfold mbind at 1 2 3, M_bind at 1 2 3.
  destruct (write_zone bdev buffer size ob z w s) as [[[w'|w'] s']| | | |]; try done.
Qed.

Lemma nonzero_split (zs : list Z) : forall k z,
  nonzero zs !! k = Some z ->
  exists l1 l2, zs = l1 ++ z :: l2 /\ z <> 0 /\ length (nonzero l1) = k.
Proof.
  unfold nonzero. induction zs as [|y zs IH]; intros k z Hk; [done|].
  destruct (Z.eq_dec y 0) as [->|Hy].
  - rewrite filter_cons_False in Hk by lia.
    destruct (IH k z Hk) as (l1 & l2 & -> & Hz & Hl). exists (0 :: l1), l2.
    split_and!; done.
  - rewrite filter_cons_True in Hk by done. destruct k as [|k].
    + injection Hk as ->. by exists [], zs.
    + destruct (IH k z Hk) as (l1 & l2 & -> & Hz & Hl). exists (y :: l1), l2.
      split_and!; try done. rewrite filter_cons_True by done. cbn. by rewrite Hl.
Qed.

(** How many zones a write of [n] bytes at byte [b] of a block goes over. *)
Definition zones_for (b n : Z) : nat := Z.to_nat ((b + n + BLOCK_SIZE - 1) / BLOCK_SIZE).

Lemma zones_for_last b n : 0 <= b -> 0 < n -> b + n <= BLOCK_SIZE -> zones_for b n = 1%nat.
Proof.
  intros Hb Hn Hfit. unfold zones_for, BLOCK_SIZE in *.
  replace ((b + n + 1024 - 1) / 1024) with 1; [done|]. apply (Z.div_unique _ _ _ (b + n - 1)); lia.
Qed.

Lemma zones_for_next b n : 0 <= b < BLOCK_SIZE -> BLOCK_SIZE < b + n ->
  zones_for b n = S (zones_for 0 (n - (BLOCK_SIZE - b))).
Proof.
  intros Hb Hn. unfold zones_for, BLOCK_SIZE in *.
  replace (b + n + 1024 - 1) with (0 + (n - (1024 - b)) + 1024 - 1 + 1 * 1024) by lia.
  rewrite Z.div_add by lia.
  assert (0 <= (0 + (n - (1024 - b)) + 1024 - 1) / 1024) by (apply Z.div_pos; lia). lia.
Qed.

(** The loop from the zone at the offset on, when the zones are enough. *)
Lemma write_direct_all bdev buffer size ob zs : forall w s,
  let b := woffset_byte w in let n := wbytes_left w in let nz := nonzero zs in
  disk_ok (disks s) bdev -> writable (disks s) bdev = true ->
  Forall is_byte buffer -> 0 < size <= zlen buffer ->
  Forall (fun z => 0 <= z /\ z * BLOCK_SIZE + size <= capacity (disks s) bdev) (take (zones_for b n) nz) ->
  0 <= b < BLOCK_SIZE -> 0 < n -> b + n <= BLOCK_SIZE * zlen nz ->
  0 <= bytes_write w -> bytes_write w + n < 2 ^ 32 ->
  ob <= wblocks_seen w -> 0 <= wblocks_seen w -> wblocks_seen w + zlen nz < 2 ^ 32 ->
  exists d' w', write_direct bdev buffer size ob zs w s =
      Done (Stop w', mkFs d' (cache s) (zones_for b n + nalloc s)) /\ bytes_write w' = bytes_write w + n /\
    stamped (disks s) bdev (take (zones_for b n) nz) (take (Z.to_nat (Cpu.memcpy_len size)) buffer) d'.
Proof.
  unfold nonzero. induction zs as [|z zs IH]; intros w s; set (b := woffset_byte w); set (n := wbytes_left w);
    intros Hd Hw Hb Hs Hz Ho Hn Hfit Hwr Hsum Hob H0s Hseen; [cbn in *; lia|].
  cbn [write_direct]. destruct (Z.eqb_spec z 0) as [->|Hnz].
  { rewrite filter_cons_False in * by lia. by apply IH. }
  rewrite filter_cons_True in * by done. cbn [length] in *.
  destruct (Z.leb_spec (b + n) BLOCK_SIZE) as [Hle|Hgt].
  - rewrite zones_for_last in * by lia. cbn [take] in *. apply Forall_singleton in Hz as [Hz0 Hzc].
    destruct (write_zone_ok bdev buffer size ob z w s) as (d' & E & Hd'); try done; [lia|].
    exists d', (mkWr (wblocks_seen w) 0 0 (bytes_write w + n)). fold b n in E.
    rewrite (proj2 (Z.leb_le _ _)) in E by lia. split_and!; [by erewrite bind_done by exact E|done|].
    destruct Hd'. by split.
  - rewrite zones_for_next in * by lia. cbn [take] in *. apply Forall_cons in Hz as [[Hz0 Hzc] Hz].
    destruct (write_zone_ok bdev buffer size ob z w s) as (d1 & E & Hd1); try done; [lia|].
    fold b n in E. rewrite (proj2 (Z.leb_gt _ _)) in E by lia.
    destruct (IH (mkWr (wblocks_seen w + 1) 0 (n - (BLOCK_SIZE - b)) (bytes_write w + (BLOCK_SIZE - b)))
      (mkFs d1 (cache s) (S (nalloc s)))) as (d' & w' & E' & Hw' & Hd');
      cbn [disks wblocks_seen woffset_byte wbytes_left bytes_write] in *; try done; try (unfold BLOCK_SIZE in *; lia).
    + by eapply disk_write_ok.
    + by rewrite (dw_writable _ _ _ _ _ Hd1).
    + by setoid_rewrite (dw_capacity _ _ _ _ _ Hd1).
    + exists d', w'. split_and!; [|lia|by eapply stamped_cons].
      erewrite bind_done by exact E. cbn iota beta. rewrite E'. cbn [cache nalloc]. do 3 f_equal. lia.
Qed.

Lemma nonzero_app l1 l2 : nonzero (l1 ++ l2) = nonzero l1 ++ nonzero l2.
Proof. unfold nonzero. apply filter_app. Qed.

(** Writing [size] bytes that do not reach over the end of the direct zones: the
    zones from the offset on are written one after the other. *)
Lemma write_zones bdev inode buffer size offset s :
  let b := offset mod BLOCK_SIZE in
  let nz := drop (Z.to_nat (offset / BLOCK_SIZE)) (nonzero (take 7 (zones inode))) in
  let zs := take (zones_for b size) nz in
  disk_ok (disks s) bdev -> writable (disks s) bdev = true ->
  Forall is_byte buffer -> 0 < size <= zlen buffer -> 0 <= offset ->
  Forall (fun z => 0 <= z /\ z * BLOCK_SIZE + size <= capacity (disks s) bdev) zs ->
  b + size <= BLOCK_SIZE * zlen nz ->
  exists d', write bdev inode buffer size offset s =
      Done ((size, inode), mkFs d' (cache s) (zones_for b size + (3 + nalloc s))) /\
    stamped (disks s) bdev zs (take (Z.to_nat (Cpu.memcpy_len size)) buffer) d'.
Proof.
  intros b nz zs Hdisk Hw Hbytes Hsize Hoff Hz Hfit.
  pose proof (Z.mod_pos_bound offset BLOCK_SIZE ltac:(done)) as Hb.
  assert (0 <= offset / BLOCK_SIZE) as Hq by (apply Z.div_pos; done).
  assert (0 < zlen nz <= 7) as Hnz.
  { assert (length (nonzero (take 7 (zones inode))) <= 7)%nat.
    { unfold nonzero. rewrite length_filter, length_take. lia. }
    unfold nz, BLOCK_SIZE in *. rewrite length_drop in *. lia. }
  destruct nz as [|z nz'] eqn:Enz; [cbn in Hnz; lia|].
  assert (nonzero (take 7 (zones inode)) !! Z.to_nat (offset / BLOCK_SIZE) = Some z) as Hlook.
  { rewrite <- (Nat.add_0_r (Z.to_nat _)), <- lookup_drop. unfold nz in Enz. by rewrite Enz. }
  destruct (nonzero_split _ _ _ Hlook) as (l1 & l2 & Ezs & Hznz & Hl1).
  assert (nonzero (z :: l2) = z :: nz') as E2.
  { rewrite <- Enz. unfold nz. by rewrite Ezs, nonzero_app, <- Hl1, drop_app_length. }
  assert (zlen (nonzero l1) <= 7) as H7.
  { apply (f_equal length) in Ezs. rewrite length_app, length_take in Ezs. cbn [length] in Ezs.
    pose proof (length_filter (fun z => z <> 0) l1). unfold nonzero. lia. }
  unfold write. do 3 (erewrite bind_done by reflexivity). cbn [disks cache nalloc].
  set (s3 := mkFs (disks s) (cache s) (S (S (S (nalloc s))))).
  set (w := mkWr 0 _ _ _).
  pose proof (cap_max _ _ Hdisk) as Hmax.
  assert (size < 2 ^ 32) as Hs32.
  { unfold BLOCK_SIZE in *. lia. }
  destruct (write_direct_all bdev buffer size (offset / BLOCK_SIZE) (z :: l2)
              (mkWr (zlen (nonzero l1)) b size 0) s3) as (d' & w' & E & Hw' & Hd');
    rewrite ?E2; cbn [s3 disks woffset_byte wbytes_left bytes_write wblocks_seen]; try done; try lia.
  rewrite E2 in Hd'. exists d'. split; [|exact Hd'].
  assert (write_direct bdev buffer size (offset / BLOCK_SIZE) (take 7 (zones inode)) w s3 =
    Done (Stop w', mkFs d' (cache s) (zones_for b size + (3 + nalloc s)))) as Ed.
  { rewrite Ezs, write_direct_app.
    erewrite bind_done by (apply write_direct_skip; cbn [w wblocks_seen]; lia).
    cbn [w wblocks_seen woffset_byte wbytes_left bytes_write]. rewrite Z.add_0_l. exact E. }
  unfold and_then.
  erewrite bind_done by (erewrite bind_done by (erewrite bind_done by
    (erewrite bind_done by (erewrite bind_done by exact Ed; reflexivity); reflexivity);
    reflexivity); reflexivity).
  cbn [flow_map fst snd]. rewrite Hw'. done.
Qed.

(** Up to the end of the zone at the offset one block is changed, from the start
    of the zone on. *)
Lemma write_block bdev inode buffer size offset z s :
  disk_ok (disks s) bdev -> writable (disks s) bdev = true ->
  Forall is_byte buffer -> 0 < size <= zlen buffer -> 0 <= offset ->
  nonzero (take 7 (zones inode)) !! Z.to_nat (offset / BLOCK_SIZE) = Some z ->
  0 <= z -> z * BLOCK_SIZE + size <= capacity (disks s) bdev ->
  offset mod BLOCK_SIZE + size <= BLOCK_SIZE ->
  exists d', write bdev inode buffer size offset s =
      Done ((size, inode), mkFs d' (cache s) (4 + nalloc s)) /\
    disk_write (disks s) bdev (z * BLOCK_SIZE)
      (take (Z.to_nat (Cpu.memcpy_len size)) buffer) d'.
Proof.
  intros Hdisk Hw Hbytes Hsize Hoff Hz Hz0 Hcap Hfit.
  pose proof (Z.mod_pos_bound offset BLOCK_SIZE ltac:(done)) as Hb.
  pose proof (drop_S _ _ _ Hz) as Ed.
  destruct (write_zones bdev inode buffer size offset s) as (d' & E & Hd');
    rewrite ?Ed, ?zones_for_last in * by lia; try done.
  - cbn [take]. by apply Forall_singleton.
  - cbn [length]. unfold BLOCK_SIZE in *. lia.
  - exists d'. split; [exact E|]. by apply stamped_one.
Qed.
End Direct.
End MinixWrite.
