(* ===== verification/MinixDir.v ===== *)
(** * fs.rs, directories: the path cache, open, create and delete

    [MFS_INODE_CACHE] maps the paths of a device's files to their inodes; it
    is filled by walking the directory tree from inode 1. *)

From stdpp Require Import sorting.
From S2P Require Import Prelude Cpu MinixLayout BlockIo MinixRead MinixWrite.
Import Layout Io MinixRead MinixWrite.

Module MinixDir.

(** ** Strings *)

Definition SLASH : Z := 47.

(** [String::push] of the character [b as char]: its UTF-8 bytes. *)
Definition push_char (b : Z) : list Z :=
  if b <? 128 then [b] else [Z.lor 0xc0 (Z.shiftr b 6); Z.lor 0x80 (Z.land b 0x3f)].

(** The bytes of a name up to the first NUL. *)
Fixpoint until_nul (l : list Z) : list Z :=
  match l with
  | [] => []
  | b :: l' => if b =? 0 then [] else b :: until_nul l'
  end.

(** The path of an entry called [name] of the directory [inode_num] at [cwd]. *)
Definition child_path (cwd : path) (inode_num : Z) (name : list Z) : path :=
  (cwd ≫= push_char) ++ (if inode_num =? 1 then [] else [SLASH])
  ++ (until_nul name ≫= push_char).

(** [cwd], a separator unless it ends in one, and [name]. *)
Definition join_path (cwd : path) (name : list Z) : path :=
  cwd ++ (if decide (last cwd = Some SLASH) then [] else [SLASH]) ++ name.

(** The order of [String] keys: bytes, from the left. *)
Fixpoint path_le (p q : path) : bool :=
  match p, q with
  | [], _ => true
  | _, [] => false
  | a :: p', b :: q' => (a <? b) || ((a =? b) && path_le p' q')
  end.

Section Dir.
Context `{Profile} {D : Type} `{BlockService D} `{Heap}.
Abbreviation FS := (M (fs_state D)).
Abbreviation btree := (gmap path Inode).

(** ** The cache array *)

(** [MFS_INODE_CACHE[bdev - 1]] *)
Definition cache_slot (bdev : Z) : FS (option btree) :=
  i ← lift (usize (bdev - 1));
  s ← get;
  lift (unwrap (cache s !! Z.to_nat i)).

Definition set_slot (bdev : Z) (o : option btree) : FS unit :=
  i ← lift (usize (bdev - 1));
  s ← get;
  _ ← lift (unwrap (cache s !! Z.to_nat i));
  put (mkFs (disks s) (<[Z.to_nat i := o]> (cache s)) (nalloc s)).

(** [Buffer::new(((size + BLOCK_SIZE - 1) & !BLOCK_SIZE) as usize)] *)
Definition dir_buffer (ino : Inode) : FS Buffer :=
  a ← lift (u32 (isize ino + BLOCK_SIZE));
  a ← lift (u32 (a - 1));
  Buffer_new (Z.land a (unot 32 BLOCK_SIZE)).

(** ** Walking the tree *)

(** [for i in 2..num_dirents]; [rec] is the recursive call. *)
Fixpoint cache_entries (rec : btree -> path -> Z -> FS btree) (bdev : Z)
    (k : nat) (i : Z) (dirents : list Z) (cwd : path) (inode_num : Z)
    (btm : btree) : FS btree :=
  match k with
  | O => mret btm
  | S k' =>
      d ← lift (direntry_at dirents i);
      if dinode d =? 0
      then cache_entries rec bdev k' (i + 1) dirents cwd inode_num btm
      else
        o ← get_inode bdev (dinode d);
        d_ino ← lift (unwrap o);
        let new_cwd := child_path cwd inode_num (dname d) in
        btm' ← (if negb (Z.land (imode d_ino) S_IFDIR =? 0)
                then rec btm new_cwd (dinode d)
                else mret (<[new_cwd := d_ino]> btm));
        cache_entries rec bdev k' (i + 1) dirents cwd inode_num btm'
  end.

Fixpoint cache_at (fuel : nat) (bdev : Z) (btm : btree) (cwd : path) (inode_num : Z)
    : FS btree :=
  match fuel with
  | O => fail (@NoFuel)
  | S fuel' =>
      o ← get_inode bdev inode_num;
      ino ← lift (unwrap o);
      buf ← dir_buffer ino;
      '(sz, dirents) ← read bdev ino (bdata buf) BLOCK_SIZE 0;
      let num_dirents := sz / sizeof_DirEntry in
      cache_entries (cache_at fuel' bdev) bdev (Z.to_nat (num_dirents - 2)) 2
        dirents cwd inode_num btm
  end.

(** [fuel] bounds the depth of the directory tree. *)
Definition refresh (fuel : nat) (bdev : Z) : FS unit :=
  btm ← cache_at fuel bdev ∅ [SLASH] 1;
  set_slot bdev (Some btm).

(** Is the device initialised already?  Then a line is printed and nothing is done;
    the caller prints it. *)
Definition init (fuel : nat) (bdev : Z) : FS bool :=
  o ← cache_slot bdev;
  match o with
  | None =>
      btm ← cache_at fuel bdev ∅ [SLASH] 1;
      _ ← set_slot bdev (Some btm);
      mret false
  | Some _ => mret true
  end.

Definition open (bdev : Z) (p : path) : FS (FsError + Inode) :=
  o ← cache_slot bdev;
  match o with
  | Some c =>
      _ ← set_slot bdev None;
      let ret := match c !! p with
                 | Some inode => inr inode
                 | None => inl FileNotFound
                 end in
      _ ← set_slot bdev (Some c);
      mret ret
  | None => mret (inl FileNotFound)
  end.

(** The paths [show_all_file_paths] prints, in the order of the map. *)
Definition show_all_file_paths (bdev : Z) : FS (list path) :=
  o ← cache_slot bdev;
  match o with
  | Some c =>
      _ ← set_slot bdev None;
      _ ← set_slot bdev (Some c);
      mret (merge_sort (fun p q => Is_true (path_le p q)) (map_to_list c).*1)
  | None => mret []
  end.

(** ** Free inodes *)

Fixpoint free_bit (byte : Z) (k : nat) (j : Z) : option Z :=
  match k with
  | O => None
  | S k' => if Z.land byte (Z.shiftl 1 j) =? 0 then Some j else free_bit byte k' (j + 1)
  end.

(** [for i in 0..buffer.len()] *)
Fixpoint free_byte (buffer : list Z) (k : nat) (i : Z) : outcome (option Z) :=
  match k with
  | O => Done None
  | S k' =>
      byte ← deref (buffer !! Z.to_nat i);
      match free_bit byte 8 0 with
      | Some j => n ← usize (i * BLOCK_SIZE); n ← usize (n + j); Done (Some (as_u32 n))
      | None => free_byte buffer k' (i + 1)
      end
  end.

(** [for i in 0..imap_blocks] *)
Fixpoint free_block (bdev : Z) (buffer : list Z) (k : nat) (i : Z) : FS (option Z) :=
  match k with
  | O => mret None
  | S k' =>
      inode_map_offset ← lift (usize ((2 + i) * BLOCK_SIZE));
      '(_, b) ← syc_read bdev buffer BLOCK_SIZE (as_u32 inode_map_offset);
      o ← lift (free_byte b 1024 0);
      match o with
      | Some n => mret (Some n)
      | None => free_block bdev b k' (i + 1)
      end
  end.

Definition find_free_inode (bdev : Z) : FS (option Z) :=
  buffer ← Buffer_new 1024;
  '(_, b) ← syc_read bdev (bdata buffer) 1024 1024;
  super_block ← lift (superblock_at b);
  free_block bdev b (Z.to_nat (imap_blocks super_block)) 0.

(** ** The inode bitmap *)

(** Read the 512 bytes from the bitmap byte of the inode on, change the
    first one with [f] and write them back. *)
Definition update_imap (bdev inode_num : Z) (f : Z -> Z) : FS unit :=
  imap_offset ← lift (get_imap_offset inode_num);
  imap_buffer ← Buffer_new 512;
  '(_, b) ← syc_read bdev (bdata imap_buffer) (as_u32 (blen imap_buffer))
               (as_u32 imap_offset);
  byte ← lift (deref (b !! 0%nat));
  let b := <[0%nat := f byte]> b in
  _ ← syc_write bdev b (as_u32 (blen imap_buffer)) (as_u32 imap_offset);
  mret tt.

(** ** Deleting *)

(** [for i in 2..num_dirents], up to the first entry of the inode. *)
Fixpoint delete_entry (bdev : Z) (ino : Inode) (sz : Z) (cwd : path) (inode_num : Z)
    (k : nat) (i : Z) (dirents : list Z) (btm : btree) : FS btree :=
  match k with
  | O => mret btm
  | S k' =>
      d ← lift (direntry_at dirents i);
      if dinode d =? inode_num then
        dirents' ← lift (deref (splice dirents (sizeof_DirEntry * i) (le_enc 4 0)));
        _ ← write bdev ino dirents' sz 0;
        let path_to_remove := join_path cwd (until_nul (dname d) ≫= push_char) in
        mret (delete path_to_remove btm)
      else delete_entry bdev ino sz cwd inode_num k' (i + 1) dirents btm
  end.

(** The tree without the file, and the [num_dirents] that is printed, if it gets there. *)
Definition delete_inode_and_direntry (bdev : Z) (btm : btree) (cwd : path)
    (inode_num : Z) : FS (btree * option Z) :=
  o ← get_inode bdev 1;
  match o with
  | None => mret (btm, None)
  | Some ino =>
      buf ← dir_buffer ino;
      '(sz, dirents) ← read bdev ino (bdata buf) BLOCK_SIZE 0;
      let num_dirents := sz / sizeof_DirEntry in
      btm' ← delete_entry bdev ino sz cwd inode_num (Z.to_nat (num_dirents - 2)) 2
               dirents btm;
      let nth := inode_num mod 8 in
      _ ← update_imap bdev inode_num (fun b => Z.land b (unot 8 (Z.shiftl 1 nth)));
      mret (btm', Some num_dirents)
  end.

(** The number [delete_inode_and_direntry] prints. *)
Definition delete_file (fuel : nat) (bdev : Z) (p : path) (inode_num : Z) : FS (option Z) :=
  o ← cache_slot bdev;
  num_dirents ← match o with
      | Some c =>
          _ ← set_slot bdev None;
          '(c', num_dirents) ← delete_inode_and_direntry bdev c p (as_u32 inode_num);
          _ ← set_slot bdev (Some c');
          mret num_dirents
      | None => mret None
      end;
  _ ← refresh fuel bdev;
  mret num_dirents.

(** ** Creating *)

(** The first 60 bytes of the name, padded with NULs. *)
Definition entry_name (filename : list Z) : list Z :=
  take 60 filename ++ replicate (60 - length filename) 0.

Definition new_inode : Inode := mkInode 0x1a4 1 0 0 0 0 0 0 (replicate 10 0).

Definition create_new_file (bdev : Z) (btm : btree) (cwd : path) (filename : list Z)
    : FS btree :=
  o ← find_free_inode bdev;
  free_inode_num ← lift (unwrap o);
  match btm !! cwd with
  | None => mret btm
  | Some parent_inode =>
      let new_direntry := mkDirEntry free_inode_num (entry_name filename) in
      buf ← dir_buffer parent_inode;
      '(sz, dirents) ← read bdev parent_inode (bdata buf) BLOCK_SIZE 0;
      (* the buffer with the new entry is not written to the disk *)
      _ ← lift (deref (splice dirents (sizeof_DirEntry * (sz / sizeof_DirEntry))
                         (encode_direntry new_direntry)));
      let nth := free_inode_num mod 8 in
      _ ← update_imap bdev free_inode_num (fun b => Z.lor b (Z.shiftl 1 nth));
      new_inode_offset ← lift (get_inode_offset free_inode_num);
      new_inode_buffer ← Buffer_new sizeof_Inode;
      b ← lift (deref (splice (bdata new_inode_buffer) 0 (encode_inode new_inode)));
      '(_, inode) ← write bdev new_inode b sizeof_Inode (as_u32 new_inode_offset);
      mret (<[join_path cwd filename := inode]> btm)
  end.

Definition create (fuel : nat) (bdev : Z) (cwd : path) (filename : list Z) : FS unit :=
  o ← cache_slot bdev;
  _ ← match o with
      | Some c =>
          _ ← set_slot bdev None;
          c' ← create_new_file bdev c cwd filename;
          set_slot bdev (Some c')
      | None => mret tt
      end;
  refresh fuel bdev.
End Dir.
End MinixDir.
