(* ===== verification/MinixDirFacts.v ===== *)
(** * The directory tree of a volume, and what the cache holds of it

    [file_at] is the abstract specification: which paths lead from a
    directory to which files.  The walk of [cache_at] collects them all. *)

From stdpp Require Import sorting.
From S2P Require Import Prelude Cpu MinixLayout BlockIo IdealDisk MinixRead MinixWrite MinixDir.
Import Layout Io MinixRead MinixWrite MinixDir.

Module DirFacts.

(** ** Directories on the disk *)

(** Entry [i] of the directory with the data zones [zs]. *)
Definition entry (c : Z -> Z) (zs : list Z) (i : Z) : DirEntry :=
  decode_direntry (bytes_at (file_byte c zs) (sizeof_DirEntry * i) sizeof_DirEntry).

(** The number of entries of a directory: all of its size, whatever the code reads. *)
Definition nentries (ino : Inode) : Z := isize ino / sizeof_DirEntry.

Definition dir_entry (c : Z -> Z) (n i : Z) : DirEntry :=
  entry c (data_zones c (inode_on c n)) i.

(** Entry [i] of directory [n] is in use. *)
Definition has_entry (c : Z -> Z) (n i : Z) : Prop :=
  2 <= i < nentries (inode_on c n) /\ dinode (dir_entry c n i) <> 0.

Definition is_dir (ino : Inode) : bool := negb (Z.land (imode ino) S_IFDIR =? 0).

(** The file [ino] can be reached at the path [p] from directory [n] at [cwd]. *)
Inductive file_at (c : Z -> Z) : path -> Z -> path -> Inode -> Prop :=
| file_here cwd n i :
    has_entry c n i -> is_dir (inode_on c (dinode (dir_entry c n i))) = false ->
    file_at c cwd n (child_path cwd n (dname (dir_entry c n i)))
      (inode_on c (dinode (dir_entry c n i)))
| file_below cwd n i p ino :
    has_entry c n i -> is_dir (inode_on c (dinode (dir_entry c n i))) = true ->
    file_at c (child_path cwd n (dname (dir_entry c n i))) (dinode (dir_entry c n i)) p ino ->
    file_at c cwd n p ino.

Section Facts.
Context `{Profile} {D : Type} `{BlockService D} `{Heap} `{!BlockLaws D} `{!HeapLaws}.

(** A directory whose zones are on the disk, and whose entries fit into one block
    and into the zones it has.  The code reads no more than one block of a
    directory: of a larger one it does not see entry 16 and the entries behind. *)
Record dir_ok (d : D) (dev : Z) (ino : Inode) : Prop := {
  dir_zones : inode_ok (content d dev) (capacity d dev) ino;
  dir_size : isize ino mod sizeof_DirEntry = 0;
  dir_max : 0 <= isize ino <= BLOCK_SIZE;
  dir_filled : isize ino <= BLOCK_SIZE * zlen (data_zones (content d dev) ino);
}.

(** The tree below directory [n] is at most [fuel] levels deep and every
    inode in it lies on the disk. *)
Fixpoint tree_ok (d : D) (dev : Z) (fuel : nat) (n : Z) : Prop :=
  match fuel with
  | O => False
  | S f =>
      let c := content d dev in
      inode_num_ok d dev n /\ dir_ok d dev (inode_on c n) /\
      forall i, has_entry c n i ->
        inode_num_ok d dev (dinode (dir_entry c n i)) /\
        (is_dir (inode_on c (dinode (dir_entry c n i))) = true ->
         tree_ok d dev f (dinode (dir_entry c n i)))
  end.

(** ** The directory buffer *)

Lemma clear_bit10 a :
  0 <= a < 2 ^ 32 ->
  Z.land a (unot 32 BLOCK_SIZE) = a - (if Z.testbit a 10 then 1024 else 0).
Proof.
  intros Ha. unfold unot, BLOCK_SIZE.
  assert (Z.land a (Z.lxor 1024 (Z.ones 32)) = Z.ldiff a 1024) as ->.
  { bits. destruct (Z.lt_ge_cases n 32).
    - rewrite Z.ones_spec_low by lia. by rewrite xorb_true_r.
    - rewrite (Z.bits_above_log2 a); [done|lia|].
      destruct (Z.eq_dec a 0) as [->|]; [cbn; lia|].
      apply Z.log2_lt_pow2; [lia|].
      apply Z.lt_le_trans with (2 ^ 32); [lia|]. apply Z.pow_le_mono_r; lia. }
  assert (Z.land a 1024 = if Z.testbit a 10 then 1024 else 0) as E.
  { change 1024 with (2 ^ 10). bits. rewrite Z.pow2_bits_eqb by lia.
    destruct (Z.eqb_spec 10 n) as [<-|Hne].
    - rewrite andb_true_r. by destruct (Z.testbit a 10).
    - rewrite andb_false_r. destruct (Z.testbit a 10); [|by rewrite Z.bits_0].
      rewrite Z.pow2_bits_eqb by lia. by rewrite (proj2 (Z.eqb_neq _ _)). }
  rewrite <- E. rewrite Z.sub_nocarry_ldiff.
  - bits. by destruct (Z.testbit a n), (Z.testbit 1024 n).
  - bits. rewrite Z.bits_0. by destruct (Z.testbit a n), (Z.testbit 1024 n).
Qed.

(** The buffer has room for the first block of a directory. *)
Lemma dir_buffer_room sz :
  0 <= sz < 2 ^ 32 - 1024 -> sz mod sizeof_DirEntry = 0 ->
  0 <= Z.land (sz + 1023) (unot 32 BLOCK_SIZE) /\
  Z.min BLOCK_SIZE sz <= (Z.land (sz + 1023) (unot 32 BLOCK_SIZE) + 7) / 8 * 8.
Proof.
  intros Hsz Hmod. rewrite clear_bit10 by lia.
  unfold sizeof_DirEntry, BLOCK_SIZE in *.
  pose proof (Z.div_mod sz 64 ltac:(lia)) as E. rewrite Hmod in E.
  destruct (Z.testbit (sz + 1023) 10) eqn:Hb.
  - assert (1 <= sz).
    { destruct (Z.eq_dec sz 0) as [->|]; [by cbn in Hb|lia]. }
    pose proof (Z.div_mod (sz + 1023 - 1024 + 7) 8 ltac:(lia)).
    pose proof (Z.mod_pos_bound (sz + 1023 - 1024 + 7) 8 ltac:(lia)). lia.
  - pose proof (Z.div_mod (sz + 1023 - 0 + 7) 8 ltac:(lia)).
    pose proof (Z.mod_pos_bound (sz + 1023 - 0 + 7) 8 ltac:(lia)). lia.
Qed.

Lemma dir_entries_size ino :
  isize ino mod sizeof_DirEntry = 0 -> isize ino = sizeof_DirEntry * nentries ino.
Proof. intros Hm. unfold nentries. pose proof (Z.div_mod (isize ino) sizeof_DirEntry ltac:(done)). lia. Qed.

(** [read] delivers the whole directory. *)
Lemma dir_read_count d dev ino :
  dir_ok d dev ino ->
  read_count (data_zones (content d dev) ino) (Z.min BLOCK_SIZE (isize ino)) 0 = isize ino.
Proof. intros [_ _ Hm Hz]. unfold read_count. lia. Qed.

(** Reading a directory into its buffer delivers its entries. *)
Lemma dir_read_ok bdev ino s :
  let c := content (disks s) bdev in
  disk_ok (disks s) bdev -> dir_ok (disks s) bdev ino ->
  exists buf dirents,
    dir_buffer ino s = Done (buf, bump 1 s) /\
    read bdev ino (bdata buf) BLOCK_SIZE 0 (bump 1 s) =
      Done ((isize ino, dirents), bump 5 s) /\
    isize ino <= zlen dirents /\
    Forall is_byte dirents /\
    (forall j, 0 <= j < sizeof_DirEntry * nentries ino ->
       nthZ dirents j = file_byte c (data_zones c ino) j).
Proof.
  intros c Hdisk Hdir. pose proof (dir_read_count _ _ _ Hdir) as Hrc. destruct Hdir as [Hz Hs Hm _].
  destruct (dir_buffer_room (isize ino)) as [Hb0 Hroom]; [unfold BLOCK_SIZE in *; lia|done|].
  set (len := Z.land (isize ino + 1023) (unot 32 BLOCK_SIZE)) in *.
  pose proof (fresh_length (nalloc s) len Hb0) as Lf.
  destruct (read_ok bdev ino (fresh_block (nalloc s) len) BLOCK_SIZE 0 (bump 1 s))
    as (cnt & dirents & E & [Hcnt Hlen Hnew Hold]); try done; try (unfold BLOCK_SIZE in *; lia).
  exists (mkBuffer (fresh_block (nalloc s) len) len), dirents.
  cbn [bump disks] in *. fold c in Hnew, Hcnt, Hrc. rewrite Hrc in Hcnt.
  pose proof (dir_entries_size ino Hs) as Hne.
  rewrite Cpu.memcpy_len_exact in Hnew.
  2: { right. rewrite Hcnt, Hne. unfold sizeof_DirEntry.
       replace (64 * nentries ino) with (8 * nentries ino * 8) by lia. by apply Z.mod_mul. }
  split_and!.
  - unfold dir_buffer.
    do 2 (erewrite bind_done by (apply lift_done, uint_ok; unfold BLOCK_SIZE in *; lia)).
    replace (isize ino + BLOCK_SIZE - 1) with (isize ino + 1023) by (unfold BLOCK_SIZE; lia).
    done.
  - cbn [bdata]. by rewrite E, Hcnt.
  - rewrite Hlen. lia.
  - apply Forall_nthZ. intros j Hj. destruct (Z.lt_ge_cases j cnt).
    + rewrite Hnew by lia. apply content_byte.
    + rewrite Hold by lia. apply Forall_nthZ; [apply fresh_bytes|lia].
  - intros j Hj. apply Hnew. lia.
Qed.

Lemma direntry_at_ok c zs n dirents i :
  (forall j, 0 <= j < sizeof_DirEntry * n -> nthZ dirents j = file_byte c zs j) ->
  sizeof_DirEntry * n <= zlen dirents -> 0 <= i < n ->
  direntry_at dirents i = Done (entry c zs i).
Proof.
  intros Hj Hlen Hi. unfold direntry_at, struct_at, entry, sizeof_DirEntry in *.
  destruct (slice dirents (64 * i) 64) as [d|] eqn:E;
    [|rewrite slice_ok in E by lia; done].
  cbn [deref mbind outcome_bind]. do 2 f_equal.
  pose proof (slice_length _ _ _ _ E).
  apply list_eq_nthZ; [rewrite length_bytes_at; lia|]. intros j Hj'.
  rewrite (slice_nth _ _ _ _ _ E), nth_bytes_at by lia. apply Hj. lia.
Qed.

Lemma bump_bump k m (s : fs_state D) : bump k (bump m s) = bump (k + m) s.
Proof. unfold bump. cbn. by rewrite Nat.add_assoc. Qed.

(** ** Collecting files *)

(** The file is reached through entry [i] of the directory. *)
Definition file_via (c : Z -> Z) (cwd : path) (n i : Z) (p : path) (ino : Inode) : Prop :=
  has_entry c n i /\
  let d := dir_entry c n i in
  if is_dir (inode_on c (dinode d))
  then file_at c (child_path cwd n (dname d)) (dinode d) p ino
  else p = child_path cwd n (dname d) /\ ino = inode_on c (dinode d).

Lemma file_at_via c cwd n p ino :
  file_at c cwd n p ino <-> exists i, file_via c cwd n i p ino.
Proof.
  split.
  - intros Hf. destruct Hf as [cwd n i Hi E|cwd n i p ino Hi E Hf];
      exists i; (split; [done|]); cbv zeta; rewrite E; done.
  - intros (i & Hi & Hf). cbv zeta in Hf.
    destruct (is_dir (inode_on c (dinode (dir_entry c n i)))) eqn:E.
    + by eapply file_below.
    + destruct Hf as [-> ->]. by apply file_here.
Qed.

(** [btm'] is [btm] with the files [P] added. *)
Record collects (P : path -> Inode -> Prop) (btm btm' : gmap path Inode) : Prop := {
  co_sound p ino : btm' !! p = Some ino -> btm !! p = Some ino \/ P p ino;
  co_keep p : is_Some (btm !! p) -> is_Some (btm' !! p);
  co_all p ino : P p ino -> is_Some (btm' !! p);
}.

Lemma collects_trans (P Q R : path -> Inode -> Prop) b1 b2 b3 :
  collects P b1 b2 -> collects Q b2 b3 ->
  (forall p i, R p i <-> P p i \/ Q p i) -> collects R b1 b3.
Proof.
  intros [S1 K1 A1] [S2 K2 A2] HR. split.
  - intros p i Hp. rewrite HR. destruct (S2 p i Hp) as [Hb|]; [|auto].
    destruct (S1 p i Hb); auto.
  - auto.
  - intros p i Hp. apply HR in Hp as [HP|HQ]; eauto.
Qed.

Lemma collects_none (P : path -> Inode -> Prop) b :
  (forall p i, ~ P p i) -> collects P b b.
Proof. intros HP. split; [auto|auto|]. intros p i Hp. by destruct (HP p i). Qed.

Lemma collects_one b q i0 :
  collects (fun p i => p = q /\ i = i0) b (<[q := i0]> b).
Proof.
  split.
  - intros p i. rewrite lookup_insert. case_decide; [intros [= <-]|]; auto.
  - intros p Hp. rewrite lookup_insert. by case_decide.
  - intros p i [-> ->]. rewrite lookup_insert_eq. by eexists.
Qed.

(** One step of the walk: a call that adds the files [P], whatever was
    allocated before. *)
Definition walks (d : D) (rec : gmap path Inode -> M (fs_state D) (gmap path Inode))
    (P : path -> Inode -> Prop) : Prop :=
  forall btm s, disks s = d -> exists k btm',
    rec btm s = Done (btm', bump k s) /\ collects P btm btm'.

Lemma cache_entries_ok bdev d cwd n dirents rec :
  let c := content d bdev in
  volume_ok d bdev -> 0 <= isize (inode_on c n) ->
  (forall i, 0 <= i < nentries (inode_on c n) ->
     direntry_at dirents i = Done (dir_entry c n i)) ->
  (forall i, has_entry c n i -> inode_num_ok d bdev (dinode (dir_entry c n i)) /\
     (is_dir (inode_on c (dinode (dir_entry c n i))) = true ->
      walks d (fun btm => rec btm (child_path cwd n (dname (dir_entry c n i)))
                            (dinode (dir_entry c n i)))
        (file_at c (child_path cwd n (dname (dir_entry c n i)))
           (dinode (dir_entry c n i))))) ->
  forall k i, 2 <= i -> i + Z.of_nat k <= Z.max 2 (nentries (inode_on c n)) ->
  walks d (cache_entries rec bdev k i dirents cwd n)
    (fun p ino => exists j, i <= j < i + Z.of_nat k /\ file_via c cwd n j p ino).
Proof.
  intros c Hvol Hsz Hent Hrec. induction k as [|k IH]; intros i Hi Hk btm s Hs.
  - exists 0%nat, btm. split; [by destruct s|]. apply collects_none. intros p ino (j & ? & _). lia.
  - cbn [cache_entries]. erewrite bind_done by (apply lift_done, Hent; lia).
    set (de := dir_entry c n i) in *.
    destruct (Z.eqb_spec (dinode de) 0) as [E0|Hnz].
    + destruct (IH (i + 1) ltac:(lia) ltac:(lia) btm s Hs) as (m & btm' & E & Hc).
      exists m, btm'. split; [done|]. eapply collects_trans; [apply collects_none|exact Hc|].
      1: { intros p ino. exact (fun F : False => F). }
      intros p ino. split; [intros (j & Hj & Hv); right; exists j; split; [|done]
                           |intros [[]|(j & Hj & Hv)]; exists j; split; [lia|done]].
      destruct (Z.eq_dec j i) as [->|]; [|lia]. by destruct Hv as [[_ Hv] _].
    + assert (has_entry c n i) as Hhas by (split; [lia|done]).
      destruct (Hrec i Hhas) as [Hnum Hsub]. fold de in Hnum, Hsub.
      erewrite bind_done by (apply get_inode_ok; by rewrite Hs).
      rewrite Hs. fold c. erewrite bind_done by (apply lift_done; reflexivity).
      set (ci := inode_on c (dinode de)) in *. set (q := child_path cwd n (dname de)) in *.
      assert (exists m1 b1, (if is_dir ci then rec btm q (dinode de)
                else mret (<[q := ci]> btm)) (bump 1 s) = Done (b1, bump m1 (bump 1 s)) /\
              collects (fun p ino => file_via c cwd n i p ino) btm b1)
        as (m1 & b1 & E1 & Hc1).
      { unfold file_via. fold de ci q. destruct (is_dir ci) eqn:Edir.
        - destruct (Hsub eq_refl btm (bump 1 s) Hs) as (m1 & b1 & E1 & Hc1).
          exists m1, b1. split; [done|]. destruct Hc1. split; eauto.
          + intros p ino Hp. destruct (co_sound0 p ino Hp); auto.
          + intros p ino [_ Hp]. eauto.
        - exists 0%nat, (<[q := ci]> btm). split; [done|].
          destruct (collects_one btm q ci). split; eauto.
          + intros p ino Hp. destruct (co_sound0 p ino Hp); auto.
          + intros p ino [_ Hp]. eauto. }
      erewrite bind_done by exact E1.
      destruct (IH (i + 1) ltac:(lia) ltac:(lia) b1 (bump m1 (bump 1 s)) Hs) as (m & b2 & E & Hc).
      exists (m + (m1 + 1))%nat, b2. rewrite E, !bump_bump.
      split; [do 3 f_equal; lia|].
      eapply collects_trans; [exact Hc1|exact Hc|]. intros p ino. split.
      * intros (j & Hj & Hv). destruct (Z.eq_dec j i) as [->|]; [by left|].
        right. exists j. split; [lia|done].
      * intros [Hv|(j & Hj & Hv)]; [exists i|exists j]; (split; [lia|done]).
Qed.

Lemma cache_at_ok bdev d : volume_ok d bdev -> forall fuel n cwd,
  tree_ok d bdev fuel n ->
  walks d (fun btm => cache_at fuel bdev btm cwd n) (file_at (content d bdev) cwd n).
Proof.
  intros Hvol. induction fuel as [|f IH]; intros n cwd Htree; [done|].
  destruct Htree as (Hnum & Hdir & Hsub). intros btm s Hs. subst d.
  set (c := content (disks s) bdev) in *. cbn [cache_at].
  erewrite bind_done by (by apply get_inode_ok). fold c.
  erewrite bind_done by (apply lift_done; reflexivity).
  pose proof (vol_disk _ _ Hvol) as Hdisk. pose proof (dir_max _ _ _ Hdir) as Hmax.
  destruct (dir_read_ok bdev (inode_on c n) (bump 1 s) Hdisk Hdir)
    as (buf & dirents & E1 & E2 & Hlen & _ & Hj).
  change (content (disks (bump 1 s)) bdev) with c in E2, Hj.
  erewrite bind_done by exact E1. erewrite bind_done by exact E2. cbn beta iota.
  pose proof (dir_entries_size (inode_on c n) (dir_size _ _ _ Hdir)) as Hnb.
  fold (nentries (inode_on c n)).
  destruct (cache_entries_ok bdev (disks s) cwd n dirents (cache_at f bdev)) with
    (k := Z.to_nat (nentries (inode_on c n) - 2)) (i := 2) (btm := btm)
    (s := bump 5 (bump 1 s)) as (m & btm' & E & Hc); try done; try (fold c; lia).
  { intros i Hi. apply (direntry_at_ok c _ (nentries (inode_on c n))); try done; lia. }
  { intros i Hi. destruct (Hsub i Hi) as [Hn Ht]. split; [done|].
    intros Hd. apply IH, Ht, Hd. }
  exists (m + 6)%nat, btm'. rewrite E, !bump_bump. split; [do 3 f_equal; lia|].
  destruct Hc as [Hsound Hkeep Hall]. split; [|done|].
  - intros p ino Hp. rewrite file_at_via. destruct (Hsound p ino Hp) as [|(j & _ & ?)]; eauto.
  - intros p ino Hf. apply file_at_via in Hf as (j & Hv). apply (Hall p ino).
    exists j. split; [|done]. destruct Hv as [[? _] _]. lia.
Qed.

(** ** The cache array *)

Definition slot (bdev : Z) : nat := Z.to_nat (bdev - 1).
Definition dev_ok (bdev : Z) (s : fs_state D) : Prop :=
  1 <= bdev <= 8 /\ length (cache s) = 8%nat.

(** The state with the cache slot of a device replaced. *)
Definition with_slot (bdev : Z) (o : option (gmap path Inode)) (s : fs_state D) : fs_state D :=
  mkFs (disks s) (<[slot bdev := o]> (cache s)) (nalloc s).

Lemma cache_slot_ok bdev s o :
  dev_ok bdev s -> cache s !! slot bdev = Some o -> cache_slot bdev s = Done (o, s).
Proof.
  intros [Hd _] Ho. unfold cache_slot.
  erewrite bind_done by (apply lift_done, uint_ok; lia).
  erewrite bind_done by reflexivity. fold (slot bdev). by rewrite Ho.
Qed.

Lemma set_slot_ok bdev s o : dev_ok bdev s -> set_slot bdev o s = Done (tt, with_slot bdev o s).
Proof.
  intros [Hd Hl]. unfold set_slot.
  erewrite bind_done by (apply lift_done, uint_ok; lia).
  erewrite bind_done by reflexivity. fold (slot bdev).
  destruct (lookup_lt_is_Some_2 (cache s) (slot bdev)) as [x ->]; [unfold slot; lia|].
  done.
Qed.

Lemma with_slot_lookup bdev o s :
  dev_ok bdev s -> cache (with_slot bdev o s) !! slot bdev = Some o.
Proof. intros [Hd Hl]. apply list_lookup_insert_eq. unfold slot. lia. Qed.

Lemma dev_ok_with_slot bdev o s : dev_ok bdev s -> dev_ok bdev (with_slot bdev o s).
Proof. intros [? Hl]. split; [done|]. unfold with_slot. cbn. by rewrite length_insert. Qed.

Lemma dev_ok_bump k bdev s : dev_ok bdev s -> dev_ok bdev (bump k s).
Proof. done. Qed.

(** [refresh] leaves the disk alone and fills the slot with the files. *)
Lemma refresh_ok fuel bdev s :
  volume_ok (disks s) bdev -> tree_ok (disks s) bdev fuel 1 -> dev_ok bdev s ->
  exists k btm, refresh fuel bdev s = Done (tt, with_slot bdev (Some btm) (bump k s)) /\
    collects (file_at (content (disks s) bdev) [SLASH] 1) ∅ btm.
Proof.
  intros Hvol Htree Hdev. unfold refresh.
  destruct (cache_at_ok bdev (disks s) Hvol fuel 1 [SLASH] Htree ∅ s eq_refl)
    as (k & btm & E & Hc).
  exists k, btm. split; [|done]. erewrite bind_done by exact E.
  apply set_slot_ok. by apply dev_ok_bump.
Qed.

(** Taking the cache out of its slot and putting it back. *)
Lemma slot_restored bdev s btm :
  cache s !! slot bdev = Some (Some btm) ->
  with_slot bdev (Some btm) (with_slot bdev None s) = s.
Proof.
  intros Hs. unfold with_slot. destruct s as [d c k]. cbn in *.
  f_equal. rewrite list_insert_insert_eq. by apply list_insert_id.
Qed.

(** [open] is a lookup in the slot, and gives the cache back. *)
Lemma open_ok bdev p s btm :
  dev_ok bdev s -> cache s !! slot bdev = Some (Some btm) ->
  open bdev p s =
    Done (match btm !! p with Some ino => inr ino | None => inl FileNotFound end, s).
Proof.
  intros Hdev Hs. unfold open.
  erewrite bind_done by (by apply cache_slot_ok). cbn beta iota.
  erewrite bind_done by (by apply set_slot_ok).
  erewrite bind_done by (apply set_slot_ok; by apply dev_ok_with_slot).
  unfold mret, M_ret. do 2 f_equal. by apply slot_restored.
Qed.

(** A cache that was filled answers for the files of the tree. *)
Lemma collected_spec (P : path -> Inode -> Prop) (btm : gmap path Inode) (p : path) :
  collects P ∅ btm ->
  match match btm !! p with Some ino => inr ino | None => inl FileNotFound end with
  | inr ino => P p ino
  | inl e => e = FileNotFound /\ forall ino, ~ P p ino
  end.
Proof.
  intros [Hsound _ Hall]. destruct (btm !! p) as [ino|] eqn:E.
  - destruct (Hsound p ino E) as [E0|]; [|done]. by rewrite lookup_empty in E0.
  - split; [done|]. intros ino HP. destruct (Hall p ino HP) as [? ?]. congruence.
Qed.

Lemma cached_open bdev btm s p :
  dev_ok bdev s ->
  open bdev p (with_slot bdev (Some btm) s) =
    Done (match btm !! p with Some ino => inr ino | None => inl FileNotFound end,
          with_slot bdev (Some btm) s).
Proof. intros Hdev. apply open_ok; [by apply dev_ok_with_slot|by apply with_slot_lookup]. Qed.

Lemma show_all_ok bdev s btm :
  dev_ok bdev s -> cache s !! slot bdev = Some (Some btm) ->
  show_all_file_paths bdev s =
    Done (merge_sort (fun p q => Is_true (path_le p q)) (map_to_list btm).*1, s).
Proof.
  intros Hdev Hs. unfold show_all_file_paths.
  erewrite bind_done by (by apply cache_slot_ok). cbn beta iota.
  erewrite bind_done by (by apply set_slot_ok).
  erewrite bind_done by (apply set_slot_ok; by apply dev_ok_with_slot).
  unfold mret, M_ret. do 2 f_equal. by apply slot_restored.
Qed.
End Facts.

(** ** The order of paths *)

#[export] Instance path_le_total : Total (fun p q => Is_true (path_le p q)).
Proof.
  intros p. induction p as [|a p IH]; intros [|b q]; cbn; try (by left); [by right|].
  destruct (Z.ltb_spec a b), (Z.ltb_spec b a); cbn; auto; try lia.
  destruct (Z.eqb_spec a b), (Z.eqb_spec b a); cbn; auto; lia.
Qed.

#[export] Instance path_le_trans : Transitive (fun p q => Is_true (path_le p q)).
Proof.
  intros p. induction p as [|a p IH]; intros [|b q] [|e r]; cbn; try done.
  rewrite !orb_True, !andb_True, !Is_true_true, !Z.ltb_lt, !Z.eqb_eq, <- !Is_true_true.
  intros [|[-> ?]] [|[-> ?]]; auto with lia. right. split; [done|]. by apply (IH q).
Qed.
End DirFacts.
