(* ===== verification/MinixUpdate.v ===== *)
(** * Operations that change a volume: the inode bitmap, delete and create *)

From S2P Require Import Prelude Cpu MinixLayout BlockIo IdealDisk MinixRead MinixWrite MinixDir MinixDirFacts.
Import Layout Io MinixRead MinixWrite MinixDir DirFacts.

Module Update.
Section Update.
Context `{Profile} {D : Type} `{BlockService D} `{Heap} `{!BlockLaws D} `{!HeapLaws}.

Lemma disk_write_ext d dev off l off' l' d' :
  disk_write d dev off l d' ->
  (forall x, upd_bytes (content d dev) off l x = upd_bytes (content d dev) off' l' x) ->
  disk_write d dev off' l' d'.
Proof.
  intros [Hc Hcap Hw] Heq. split; try done.
  intros dev' x. rewrite Hc. case_decide; [|done]. apply Heq.
Qed.

(** What a write of the first [m] bytes of a buffer leaves on the disks. *)
Lemma disk_write_prefix d dev off m buf d' :
  disk_write d dev off (take (Z.to_nat m) buf) d' -> 0 <= m <= zlen buf ->
  (forall j, 0 <= j < m -> content d' dev (off + j) = nthZ buf j) /\
  (forall dev' x, dev' <> dev \/ x < off \/ off + m <= x ->
     content d' dev' x = content d dev' x).
Proof.
  intros Hd' Hm.
  assert (zlen (take (Z.to_nat m) buf) = m) as L by (rewrite length_take; lia).
  split.
  - intros j Hj. rewrite (dw_content _ _ _ _ _ Hd'), decide_True by done.
    unfold upd_bytes. rewrite L, decide_True by lia.
    unfold nthZ. rewrite lookup_take_lt by lia. do 2 f_equal. lia.
  - intros dev' x Hx. rewrite (dw_content _ _ _ _ _ Hd'). case_decide; [|done]. subst.
    unfold upd_bytes. rewrite L, decide_False by lia. done.
Qed.

(** ** The bitmap *)

(** The byte of the bitmap the code uses for inode [n]. *)
Definition imap_byte (n : Z) : Z := 2048 + (n - 1) / 8.

Lemma update_imap_ok bdev n f s :
  disk_ok (disks s) bdev -> writable (disks s) bdev = true -> 1 <= n < 2 ^ 32 ->
  imap_byte n + 512 <= capacity (disks s) bdev ->
  is_byte (f (content (disks s) bdev (imap_byte n))) ->
  exists d', update_imap bdev n f s = Done (tt, mkFs d' (cache s) (2 + nalloc s)) /\
    disk_write (disks s) bdev (imap_byte n)
      [f (content (disks s) bdev (imap_byte n))] d'.
Proof.
  intros Hdisk Hw Hn Hcap Hf. pose proof (cap_max _ _ Hdisk).
  set (c := content (disks s) bdev) in *. unfold imap_byte in *.
  assert (0 <= (n - 1) / 8) by (apply Z.div_pos; lia).
  unfold update_imap, get_imap_offset, BLOCK_SIZE.
  rewrite (uint_ok 64 (n - 1)) by lia. cbn [mbind outcome_bind].
  erewrite bind_done by (apply lift_done, uint_ok; lia).
  erewrite bind_done by reflexivity. cbn [bdata blen].
  change (2 * 1024) with 2048. set (off := 2048 + (n - 1) / 8) in *.
  unfold as_u32. rewrite (Z.mod_small off), (Z.mod_small 512) by lia.
  assert (zlen (fresh_block (nalloc s) 512) = 512) as Lf by by rewrite fresh_length.
  erewrite bind_done by (apply syc_read_ok; cbn [disks]; (done || lia)).
  cbn [disks]. fold c. rewrite drop_ge, app_nil_r by lia. cbn beta iota.
  set (b := bytes_at c off 512).
  assert (b !! 0%nat = Some (c off)) as ->.
  { unfold b, bytes_at. rewrite list_lookup_fmap, lookup_seq_lt by lia.
    cbn [fmap option_fmap option_map]. do 2 f_equal. lia. }
  erewrite bind_done by (apply lift_done; reflexivity).
  set (b' := <[0%nat := f (c off)]> b).
  assert (zlen b' = 512) as Lb'
    by (unfold b', b; rewrite length_insert, length_bytes_at; lia).
  destruct (syc_write_ok bdev b' 512 off (mkFs (disks s) (cache s) (S (nalloc s))))
    as (d' & E & Hd'); cbn [disks]; try done; try lia.
  { apply Forall_insert; [|done]. apply Forall_bytes_at. intros; apply content_byte. }
  exists d'. erewrite bind_done by exact E. split; [done|].
  eapply disk_write_ext; [exact Hd'|]. intros x. fold c.
  change (Z.to_nat (Cpu.memcpy_len 512)) with 512%nat. rewrite take_ge by lia.
  unfold upd_bytes. rewrite Lb'. cbn [length].
  destruct (Z.eq_dec x off) as [->|Hne].
  - rewrite !decide_True by lia. rewrite Z.sub_diag. unfold nthZ, b'. cbn.
    rewrite list_lookup_insert_eq; [done|]. unfold b. rewrite length_bytes_at. lia.
  - rewrite (decide_False (P := off <= x < off + Z.of_nat 1)) by lia.
    case_decide; [|done]. unfold nthZ, b'.
    rewrite list_lookup_insert_ne by lia. fold (nthZ b (x - off)).
    unfold b. rewrite nth_bytes_at by lia. f_equal. lia.
Qed.

(** ** Free inodes *)

(** Bit [q] of the inode bitmap, which starts behind the superblock. *)
Definition imap_bit (c : Z -> Z) (q : Z) : bool :=
  Z.testbit (c (2 * BLOCK_SIZE + q / 8)) (q mod 8).

(** The number the code computes for bit [q]. *)
Definition free_number (q : Z) : Z := (q / 8) mod BLOCK_SIZE * BLOCK_SIZE + q mod 8.

(** [q] is the first clear bit at or behind bit [lo]. *)
Definition first_free (c : Z -> Z) (lo q : Z) : Prop :=
  lo <= q /\ imap_bit c q = false /\ forall q', lo <= q' < q -> imap_bit c q' = true.

Lemma free_bit_spec byte : forall k j, 0 <= j ->
  match free_bit byte k j with
  | Some b => j <= b < j + Z.of_nat k /\ Z.testbit byte b = false /\
              forall a, j <= a < b -> Z.testbit byte a = true
  | None => forall a, j <= a < j + Z.of_nat k -> Z.testbit byte a = true
  end.
Proof.
  induction k as [|k IH]; intros j Hj; cbn [free_bit]; [intros a Ha; lia|].
  rewrite land_bit by done. destruct (Z.testbit byte j) eqn:E; cbn [negb].
  - specialize (IH (j + 1) ltac:(lia)). destruct (free_bit byte k (j + 1)) as [b|].
    + destruct IH as (? & ? & Hall). split_and!; [lia|lia|done|].
      intros a Ha. destruct (Z.eq_dec a j) as [->|]; [done|]. apply Hall. lia.
    + intros a Ha. destruct (Z.eq_dec a j) as [->|]; [done|]. apply IH. lia.
  - split_and!; [lia|lia|done|]. intros a Ha. lia.
Qed.

(** All bits of a byte are set. *)
Definition full (byte : Z) : Prop := forall j, 0 <= j < 8 -> Z.testbit byte j = true.

Lemma free_byte_spec (b : list Z) : forall k i,
  0 <= i -> i + Z.of_nat k <= zlen b -> zlen b <= 1024 ->
  exists o, free_byte b k i = Done o /\
  match o with
  | Some n => exists a j, i <= a < i + Z.of_nat k /\ 0 <= j < 8 /\
      n = a * BLOCK_SIZE + j /\ Z.testbit (nthZ b a) j = false /\
      (forall j', 0 <= j' < j -> Z.testbit (nthZ b a) j' = true) /\
      (forall a', i <= a' < a -> full (nthZ b a'))
  | None => forall a, i <= a < i + Z.of_nat k -> full (nthZ b a)
  end.
Proof.
  induction k as [|k IH]; intros i Hi Hk Hlen; cbn [free_byte].
  { exists None. split; [done|]. intros a Ha. lia. }
  destruct (lookup_lt_is_Some_2 b (Z.to_nat i)) as [byte Hb]; [lia|].
  assert (nthZ b i = byte) as Hn by (unfold nthZ; by rewrite Hb).
  rewrite Hb. cbn [deref mbind outcome_bind].
  pose proof (free_bit_spec byte 8 0 ltac:(lia)) as Hf.
  destruct (free_bit byte 8 0) as [j|].
  - destruct Hf as (Hj & Hz & Hall). unfold BLOCK_SIZE in *.
    rewrite uint_ok by lia. cbn [mbind outcome_bind].
    rewrite uint_ok by lia. cbn [mbind outcome_bind].
    eexists. split; [reflexivity|]. exists i, j. rewrite Hn.
    unfold as_u32. rewrite Z.mod_small by lia.
    split_and!; try done; lia.
  - destruct (IH (i + 1) ltac:(lia) ltac:(lia) Hlen) as (o & E & Ho).
    exists o. split; [done|]. destruct o as [n|].
    + destruct Ho as (a & j & Ha & Hj & En & Hz & Hlow & Hall). exists a, j.
      split_and!; try done; try lia. intros a' Ha'.
      destruct (Z.eq_dec a' i) as [->|]; [rewrite Hn; exact Hf|apply Hall; lia].
    + intros a Ha. destruct (Z.eq_dec a i) as [->|]; [rewrite Hn; exact Hf|apply Ho; lia].
Qed.

Lemma imap_bit_byte c k a j :
  0 <= k -> 0 <= a < 1024 -> 0 <= j < 8 ->
  imap_bit c (k * 8192 + a * 8 + j) = Z.testbit (c ((2 + k) * BLOCK_SIZE + a)) j.
Proof.
  intros. unfold imap_bit, BLOCK_SIZE.
  replace (k * 8192 + a * 8 + j) with ((k * 1024 + a) * 8 + j) by lia.
  rewrite Z.div_add_l, (Z.div_small j), Z.add_0_r by lia.
  rewrite (Z.add_comm _ j), Z.mod_add, Z.mod_small by lia. do 2 f_equal. lia.
Qed.

(** Bits of one block, in the coordinates byte and bit. *)
Lemma split_bit k q :
  k * 8192 <= q < (k + 1) * 8192 ->
  exists a j, 0 <= a < 1024 /\ 0 <= j < 8 /\ q = k * 8192 + a * 8 + j.
Proof.
  intros Hq. exists ((q - k * 8192) / 8), ((q - k * 8192) mod 8).
  pose proof (Z.div_mod (q - k * 8192) 8 ltac:(lia)).
  pose proof (Z.mod_pos_bound (q - k * 8192) 8 ltac:(lia)). lia.
Qed.

(** Bit [j] of byte [a] of block [k] of the bitmap. *)
Lemma free_number_at k a j : 0 <= a < 1024 -> 0 <= j < 8 -> free_number (k * 8192 + a * 8 + j) = a * 1024 + j.
Proof.
  intros Ha Hj. unfold free_number, BLOCK_SIZE.
  replace (k * 8192 + a * 8 + j) with ((k * 1024 + a) * 8 + j) by lia.
  rewrite Z.div_add_l, (Z.div_small j), Z.add_0_r by lia.
  rewrite (Z.add_comm ((k * 1024 + a) * 8) j), Z.mod_add, (Z.mod_small j) by lia.
  by rewrite (Z.add_comm (k * 1024) a), Z.mod_add, (Z.mod_small a) by lia.
Qed.

Lemma first_free_later c lo mid q :
  lo <= mid -> (forall q', lo <= q' < mid -> imap_bit c q' = true) -> first_free c mid q -> first_free c lo q.
Proof.
  intros Hle Hlow (Hq & Hz & Hall). split_and!; [lia|done|]. intros q' Hq'.
  destruct (Z.lt_ge_cases q' mid); [apply Hlow|apply Hall]; lia.
Qed.

Lemma free_block_ok bdev : forall m k buf s,
  disk_ok (disks s) bdev -> zlen buf = 1024 -> 0 <= k ->
  (2 + k + Z.of_nat m) * BLOCK_SIZE <= capacity (disks s) bdev ->
  let c := content (disks s) bdev in
  exists o, free_block bdev buf m k s = Done (o, s) /\
  match o with
  | Some n => exists q, q < (k + Z.of_nat m) * 8192 /\ first_free c (k * 8192) q /\
              n = free_number q
  | None => forall q, k * 8192 <= q < (k + Z.of_nat m) * 8192 -> imap_bit c q = true
  end.
Proof.
  induction m as [|m IH]; intros k buf s Hdisk Lb Hk Hcap c; cbn [free_block].
  { exists None. split; [done|]. intros q Hq. lia. }
  pose proof (cap_max _ _ Hdisk). unfold BLOCK_SIZE in *.
  erewrite bind_done by (apply lift_done, uint_ok; lia).
  unfold as_u32. rewrite Z.mod_small by lia.
  erewrite bind_done by (apply syc_read_ok; (done || lia)). cbn beta iota. fold c.
  rewrite drop_ge, app_nil_r by lia.
  set (b := bytes_at c ((2 + k) * 1024) 1024).
  assert (forall a, 0 <= a < 1024 -> nthZ b a = c ((2 + k) * 1024 + a)) as Hb
    by (intros; unfold b; by rewrite nth_bytes_at by lia).
  assert (zlen b = 1024) as Lb' by (unfold b; rewrite length_bytes_at; lia).
  destruct (free_byte_spec b 1024 0 ltac:(lia) ltac:(lia) ltac:(lia)) as (o & E & Ho).
  erewrite bind_done by (apply lift_done, E).
  assert (forall a, 0 <= a < 1024 -> full (nthZ b a) -> forall j, 0 <= j < 8 ->
            imap_bit c (k * 8192 + a * 8 + j) = true) as Hfull.
  { intros a Ha Hf j Hj. rewrite imap_bit_byte by lia. unfold BLOCK_SIZE.
    rewrite <- Hb by lia. by apply Hf. }
  destruct o as [n|].
  - exists (Some n). split; [done|].
    destruct Ho as (a & j & Ha & Hj & En & Hz & Hlow & Hall).
    exists (k * 8192 + a * 8 + j). split; [lia|]. split.
    + split; [lia|]. rewrite imap_bit_byte by lia. unfold BLOCK_SIZE.
      rewrite <- Hb by lia. split; [done|]. intros q' Hq'.
      destruct (split_bit k q' ltac:(lia)) as (a' & j' & Ha' & Hj' & ->).
      destruct (Z.eq_dec a' a) as [->|].
      * rewrite imap_bit_byte by lia. unfold BLOCK_SIZE. rewrite <- Hb by lia.
        apply Hlow. lia.
      * apply Hfull; [lia| |lia]. apply Hall. lia.
    + rewrite En, free_number_at by lia. unfold BLOCK_SIZE. lia.
  - destruct (IH (k + 1) b s Hdisk Lb' ltac:(lia) ltac:(lia)) as (o & E' & Ho').
    assert (forall q, k * 8192 <= q < (k + 1) * 8192 -> imap_bit c q = true) as Hk'.
    { intros q Hq. destruct (split_bit k q Hq) as (a & j & Ha & Hj & ->).
      apply Hfull; try lia. apply Ho. lia. }
    exists o. split; [done|]. destruct o as [n|].
    + destruct Ho' as (q & Hq & Hff & En). exists q. split_and!; [lia| |done].
      apply (first_free_later _ _ ((k + 1) * 8192)); [lia|done|done].
    + intros q Hq. destruct (Z.lt_ge_cases q ((k + 1) * 8192)); [apply Hk'; lia|].
      apply Ho'. lia.
Qed.

Lemma find_free_ok bdev s :
  let c := content (disks s) bdev in
  let nb := imap_blocks (superblock c) in
  disk_ok (disks s) bdev -> (2 + nb) * BLOCK_SIZE <= capacity (disks s) bdev ->
  exists o, find_free_inode bdev s = Done (o, bump 1 s) /\
  match o with
  | Some n => exists q, q < nb * 8192 /\ first_free c 0 q /\ n = free_number q
  | None => forall q, 0 <= q < nb * 8192 -> imap_bit c q = true
  end.
Proof.
  intros c nb Hdisk Hcap.
  pose proof (field_range (bytes_at c 1024 32) 6 2
    (Forall_bytes_at _ _ _ _ (content_byte _ _))) as Hi.
  change (field (bytes_at c 1024 32) 6 2) with nb in Hi. unfold BLOCK_SIZE in *.
  unfold find_free_inode. erewrite bind_done by reflexivity. cbn [bdata].
  change (mkFs (disks s) (cache s) (S (nalloc s))) with (bump 1 s).
  assert (zlen (fresh_block (nalloc s) 1024) = 1024) as Lf by by rewrite fresh_length.
  erewrite bind_done by (apply syc_read_ok; cbn [bump disks]; (done || lia)).
  cbn [bump disks]. cbn beta iota. fold c. fold (bump 1 s).
  rewrite drop_ge, app_nil_r by lia.
  assert (superblock_at (bytes_at c 1024 1024) = Done (superblock c)) as ->.
  { unfold superblock_at, struct_at, sizeof_SuperBlock.
    rewrite slice_bytes_at by lia. done. }
  erewrite bind_done by (apply lift_done; reflexivity). fold nb.
  destruct (free_block_ok bdev (Z.to_nat nb) 0 (bytes_at c 1024 1024) (bump 1 s))
    as (o & E & Ho); try done; try (rewrite ?length_bytes_at; cbn [bump disks]; lia).
  { cbn [bump disks]. unfold BLOCK_SIZE. lia. }
  exists o. split; [done|]. cbn [bump disks] in Ho. fold c in Ho.
  rewrite Z.add_0_l, Z2Nat.id in Ho by lia. done.
Qed.

(** ** Removing a directory entry *)

(** Writing a directory's first block back with the inode field of entry
    [i] cleared changes that field only. *)
Lemma clear_entry_ok bdev ino dirents i z s :
  let c := content (disks s) bdev in
  let sz := isize ino in
  disk_ok (disks s) bdev -> writable (disks s) bdev = true -> dir_ok (disks s) bdev ino ->
  nonzero (take 7 (zones ino)) !! 0%nat = Some z ->
  isize ino <= zlen dirents -> Forall is_byte dirents ->
  (forall j, 0 <= j < sizeof_DirEntry * nentries ino ->
     nthZ dirents j = file_byte c (data_zones c ino) j) ->
  0 <= i < nentries ino ->
  exists dirents' d', splice dirents (sizeof_DirEntry * i) (le_enc 4 0) = Some dirents' /\
    write bdev ino dirents' sz 0 s = Done ((sz, ino), mkFs d' (cache s) (4 + nalloc s)) /\
    disk_write (disks s) bdev (z * BLOCK_SIZE + sizeof_DirEntry * i) (le_enc 4 0) d'.
Proof.
  intros c sz Hdisk Hw [Hzones Hsz Hmax _] Hz Hlen Hbytes Hj Hi.
  pose proof (dir_entries_size ino Hsz) as Hne. fold sz in Hne, Hmax, Hlen.
  assert (0 <= z /\ (z + 1) * BLOCK_SIZE <= capacity (disks s) bdev) as [Hz0 Hzc].
  { destruct Hzones as [Hd _ _ _]. rewrite Forall_lookup in Hd.
    destruct (Hd _ _ Hz) as (? & ? & _). done. }
  assert (forall j, 0 <= j < sz -> file_byte c (data_zones c ino) j = c (z * BLOCK_SIZE + j)) as Hfb.
  { intros j Hj'. rewrite <- (Z.add_0_l j) at 1. apply (file_byte_in c _ z 0); [|lia].
    unfold data_zones. rewrite lookup_app_l; [done|].
    by apply lookup_lt_Some in Hz. }
  destruct (splice dirents (sizeof_DirEntry * i) (le_enc 4 0)) as [dirents'|] eqn:E.
  2: { rewrite splice_ok in E; [done|..]; rewrite ?length_le_enc; unfold sizeof_DirEntry in *; lia. }
  pose proof (splice_length _ _ _ _ E) as L'.
  assert (Forall is_byte dirents') as Hb'.
  { apply Forall_nthZ. intros j Hj'. rewrite (splice_nth _ _ _ _ _ E) by lia.
    case_decide.
    - apply (proj1 (Forall_nthZ _ _) (le_enc_bytes 4 0)). lia.
    - apply (proj1 (Forall_nthZ _ _) Hbytes). lia. }
  assert (0 < sz) as Hpos by (rewrite Hne; unfold sizeof_DirEntry; lia).
  destruct (write_block bdev ino dirents' sz 0 z s) as (d' & Ew & Hd'); try done;
    try (unfold BLOCK_SIZE in *; lia); [rewrite Z.mod_0_l by done; lia|].
  exists dirents', d'. split_and!; [done|done|].
  eapply disk_write_ext; [exact Hd'|]. intros x. fold c.
  assert (Cpu.memcpy_len sz = sz) as ->.
  { apply Cpu.memcpy_len_exact. right. rewrite Hne. unfold sizeof_DirEntry.
    replace (64 * nentries ino) with (8 * nentries ino * 8) by lia. by apply Z.mod_mul. }
  unfold upd_bytes. rewrite length_take, length_le_enc.
  unfold sizeof_DirEntry, BLOCK_SIZE in *.
  destruct (decide (z * 1024 + 64 * i <= x < z * 1024 + 64 * i + Z.of_nat 4)).
  - rewrite decide_True by lia. unfold nthZ. rewrite lookup_take_lt by lia.
    fold (nthZ dirents' (x - z * 1024)). rewrite (splice_nth _ _ _ _ _ E) by lia.
    rewrite length_le_enc, decide_True by lia. unfold nthZ. do 3 f_equal. lia.
  - case_decide; [|done]. unfold nthZ. rewrite lookup_take_lt by lia.
    fold (nthZ dirents' (x - z * 1024)). rewrite (splice_nth _ _ _ _ _ E) by lia.
    rewrite length_le_enc, decide_False by lia. rewrite Hj, Hfb by lia. f_equal. lia.
Qed.

(** The loop stops at the first entry of the inode. *)
Lemma delete_entry_find bdev ino sz cwd n dirents btm s (e : Z -> DirEntry) i0 : forall k i,
  (forall j, i <= j <= i0 -> direntry_at dirents j = Done (e j)) ->
  (forall j, i <= j < i0 -> dinode (e j) <> n) -> dinode (e i0) = n ->
  i <= i0 < i + Z.of_nat k ->
  delete_entry bdev ino sz cwd n k i dirents btm s =
  (dirents' ← lift (deref (splice dirents (sizeof_DirEntry * i0) (le_enc 4 0)));
   _ ← write bdev ino dirents' sz 0;
   mret (delete (join_path cwd (until_nul (dname (e i0)) ≫= push_char)) btm)) s.
Proof.
  induction k as [|k IH]; intros i He Hne Heq Hi; [lia|]. cbn [delete_entry].
  erewrite bind_done by (apply lift_done, He; lia).
  destruct (Z.eq_dec i i0) as [->|Hlt].
  - by rewrite (proj2 (Z.eqb_eq _ _)).
  - rewrite (proj2 (Z.eqb_neq _ _)) by (apply Hne; lia).
    apply IH; try done; [|intros j Hj; apply Hne; lia|lia]. intros j Hj. apply He. lia.
Qed.

Lemma land_byte a b : is_byte a -> is_byte (Z.land a b).
Proof.
  intros [Ha0 Ha]. split; [apply Z.land_nonneg; auto|].
  assert (0 <= Z.land a b) as H0' by (apply Z.land_nonneg; auto).
  destruct (Z.eq_dec (Z.land a b) 0) as [->|]; [lia|].
  change 256 with (2 ^ 8). apply Z.log2_lt_pow2; [lia|].
  destruct (Z.lt_ge_cases b 0) as [Hb|Hb].
  - apply Z.le_lt_trans with (Z.log2 a).
    + destruct (Z.lt_ge_cases (Z.log2 a) (Z.log2 (Z.land a b))) as [Hlt|]; [|done].
      pose proof (Z.bit_log2 (Z.land a b) ltac:(lia)) as Hbit.
      rewrite Z.land_spec, (Z.bits_above_log2 a) in Hbit by lia. done.
    + destruct (Z.eq_dec a 0) as [->|]; [cbn; lia|]. apply Z.log2_lt_pow2; lia.
  - apply Z.le_lt_trans with (Z.min (Z.log2 a) (Z.log2 b)); [by apply Z.log2_land|].
    destruct (Z.eq_dec a 0) as [->|]; [cbn; lia|].
    pose proof (proj1 (Z.log2_lt_pow2 a 8 ltac:(lia)) ltac:(lia)). lia.
Qed.

(** The byte of the bitmap after the bit the code picks for [n] is cleared. *)
Definition cleared (n byte : Z) : Z := Z.land byte (unot 8 (Z.shiftl 1 (n mod 8))).

Lemma delete_ok bdev btm cwd n i0 z s :
  let c := content (disks s) bdev in
  let ino := inode_on c 1 in
  volume_ok (disks s) bdev -> inode_num_ok (disks s) bdev 1 ->
  dir_ok (disks s) bdev ino -> writable (disks s) bdev = true ->
  nonzero (take 7 (zones ino)) !! 0%nat = Some z ->
  2 <= i0 < nentries ino -> dinode (dir_entry c 1 i0) = n ->
  (forall j, 2 <= j < i0 -> dinode (dir_entry c 1 j) <> n) ->
  1 <= n < 2 ^ 32 -> imap_byte n + 512 <= capacity (disks s) bdev ->
  exists d1 d2 k, delete_inode_and_direntry bdev btm cwd n s =
      Done ((delete (join_path cwd (until_nul (dname (dir_entry c 1 i0)) ≫= push_char)) btm,
             Some (nentries ino)), mkFs d2 (cache s) k) /\
    disk_write (disks s) bdev (z * BLOCK_SIZE + sizeof_DirEntry * i0) (le_enc 4 0) d1 /\
    disk_write d1 bdev (imap_byte n) [cleared n (content d1 bdev (imap_byte n))] d2.
Proof.
  intros c ino Hvol Hnum Hdir Hw Hz Hi Hn Hfirst Hn32 Hcap.
  pose proof (vol_disk _ _ Hvol) as Hdisk. pose proof (dir_max _ _ _ Hdir) as Hmax.
  unfold delete_inode_and_direntry.
  erewrite bind_done by (by apply get_inode_ok). cbn beta iota.
  destruct (dir_read_ok bdev ino (bump 1 s) Hdisk Hdir)
    as (buf & dirents & E1 & E2 & Hlen & Hbytes & Hj).
  change (content (disks (bump 1 s)) bdev) with c in E2, Hj.
  change (inode_on (content (disks s) bdev) 1) with ino.
  erewrite bind_done by exact E1. erewrite bind_done by exact E2. cbn beta iota.
  fold (nentries ino). rewrite bump_bump.
  pose proof (dir_entries_size ino (dir_size _ _ _ Hdir)) as Hnb.
  destruct (clear_entry_ok bdev ino dirents i0 z (bump 6 s))
    as (dirents' & d1 & Es & Ew & Hd1);
    change (content (disks (bump 6 s)) bdev) with c; try done; try lia.
  change (content (disks (bump 6 s)) bdev) with c in Ew.
  destruct (update_imap_ok bdev n (cleared n) (mkFs d1 (cache s) (4 + (6 + nalloc s))))
    as (d2 & Eu & Hd2); cbn [disks]; try done.
  { by eapply disk_write_ok. }
  { by rewrite (dw_writable _ _ _ _ _ Hd1). }
  { by rewrite (dw_capacity _ _ _ _ _ Hd1). }
  { apply land_byte, content_byte. }
  exists d1, d2. eexists. split; [|done].
  erewrite bind_done.
  2: { rewrite (delete_entry_find bdev ino (isize ino) cwd n dirents btm _
                  (dir_entry c 1) i0) by
         (try done; try lia; intros j Hj'; apply (direntry_at_ok c _ (nentries ino));
          (done || lia)).
       rewrite Es. erewrite bind_done by reflexivity. erewrite bind_done by exact Ew.
       reflexivity. }
  erewrite bind_done by exact Eu. reflexivity.
Qed.

(** The entry's field and the bitmap byte, when they do not overlap. *)
Lemma two_writes d bdev a n d1 d2 :
  disk_write d bdev a (le_enc 4 0) d1 ->
  disk_write d1 bdev (imap_byte n) [cleared n (content d1 bdev (imap_byte n))] d2 ->
  imap_byte n < a ->
  le_dec (bytes_at (content d2 bdev) a 4) = 0 /\
  content d2 bdev (imap_byte n) = cleared n (content d bdev (imap_byte n)) /\
  forall dev x, dev <> bdev \/ x <> imap_byte n /\ ~ (a <= x < a + 4) ->
    content d2 dev x = content d dev x.
Proof.
  intros W1 W2 Hlt.
  assert (forall dev x, dev <> bdev \/ x <> imap_byte n ->
            content d2 dev x = content d1 dev x) as H2'.
  { intros dev x Hx. rewrite (dw_content _ _ _ _ _ W2). case_decide; [|done]. subst.
    unfold upd_bytes. cbn [length]. rewrite decide_False by lia. done. }
  assert (forall dev x, dev <> bdev \/ ~ (a <= x < a + 4) ->
            content d1 dev x = content d dev x) as H1'.
  { intros dev x Hx. rewrite (dw_content _ _ _ _ _ W1). case_decide; [|done]. subst.
    unfold upd_bytes. change (zlen (le_enc 4 0)) with 4. rewrite decide_False by tauto. done. }
  split_and!.
  - rewrite (bytes_at_ext _ (upd_bytes (content d bdev) a (le_enc 4 0))).
    + by rewrite (bytes_at_upd _ _ (le_enc 4 0)).
    + intros x Hx. rewrite H2' by (right; lia). rewrite (dw_content _ _ _ _ _ W1).
      by rewrite decide_True.
  - rewrite (dw_content _ _ _ _ _ W2), decide_True by done.
    unfold upd_bytes. cbn [length]. rewrite decide_True by lia.
    rewrite Z.sub_diag. unfold nthZ. cbn. by rewrite H1' by lia.
  - intros dev x Hx. rewrite H2', H1' by tauto. done.
Qed.

(** ** Creating a file *)

(** Without a cached inode for the directory nothing is created. *)
Lemma create_new_file_miss bdev btm cwd name s n :
  find_free_inode bdev s = Done (Some n, bump 1 s) -> btm !! cwd = None ->
  create_new_file bdev btm cwd name s = Done (btm, bump 1 s).
Proof.
  intros Hf Hm. unfold create_new_file. erewrite bind_done by exact Hf.
  erewrite bind_done by (apply lift_done; reflexivity). by rewrite Hm.
Qed.
End Update.
End Update.
