(* ===== verification/MinixProps.v ===== *)
(** * Properties of the file system

    The theorems about [fs.rs] and, at the end, a small volume on which each
    of them applies. *)

From stdpp Require Import sorting.
From S2P Require Import Prelude Cpu MinixLayout BlockIo IdealDisk MinixRead MinixWrite MinixDir MinixDirFacts MinixUpdate.
Import Layout Io MinixRead MinixWrite MinixDir DirFacts Update.

Module FsProps.
Section Props.
Context `{Profile} {D : Type} `{BlockService D} `{Heap} `{!BlockLaws D} `{!HeapLaws}.

(** syc_read of any nonempty byte range of the disk fills the first size bytes
    of the buffer with the bytes of the range, leaves the rest of the buffer alone
    and answers 0; it rounds the request out to whole sectors. *)
Theorem syc_read_exact bdev buf size off s :
  disk_ok (disks s) bdev -> 0 <= off -> 0 < size <= zlen buf ->
  off + size <= capacity (disks s) bdev ->
  exists buf', syc_read bdev buf size off s = Done ((0, buf'), s) /\
    length buf' = length buf /\
    (forall j, 0 <= j < size -> nthZ buf' j = content (disks s) bdev (off + j)) /\
    (forall j, size <= j -> nthZ buf' j = nthZ buf j).
Proof.
  intros Hd Ho Hs Hc. eexists. split; [by apply syc_read_ok|]. unfold nthZ. split_and!.
  - rewrite length_app, length_bytes_at, length_drop. lia.
  - intros j Hj. rewrite lookup_app_l by (rewrite length_bytes_at; lia).
    by apply nth_bytes_at.
  - intros j Hj. rewrite lookup_app_r by (rewrite length_bytes_at; lia).
    rewrite length_bytes_at, lookup_drop. do 2 f_equal. lia.
Qed.

(** syc_write reads, modifies and writes whole blocks so that the range gets
    the buffer's bytes, as many as memcpy copies, and no other byte of any disk
    changes. *)
Theorem syc_write_exact bdev buf size off s :
  disk_ok (disks s) bdev -> writable (disks s) bdev = true ->
  0 <= off -> 0 < size <= zlen buf -> Forall is_byte buf ->
  off + size <= capacity (disks s) bdev ->
  exists s', syc_write bdev buf size off s = Done (0, s') /\ cache s' = cache s /\
    (forall j, 0 <= j < Cpu.memcpy_len size ->
       content (disks s') bdev (off + j) = nthZ buf j) /\
    (forall dev x, dev <> bdev \/ x < off \/ off + Cpu.memcpy_len size <= x ->
       content (disks s') dev x = content (disks s) dev x).
Proof.
  intros Hd Hw Ho Hs Hb Hc.
  destruct (syc_write_ok bdev buf size off s) as (d' & E & Hd'); try done.
  eexists. split; [exact E|]. split; [done|].
  apply disk_write_prefix; [done|].
  pose proof (Cpu.memcpy_len_bounds size ltac:(lia)). lia.
Qed.

(** get_inode of a number in the inode table returns the inode decoded from the
    64 bytes at its place in the table, well formed, and changes neither the disk
    nor the cache. *)
Theorem get_inode_exact bdev n s :
  volume_ok (disks s) bdev -> inode_num_ok (disks s) bdev n ->
  exists s', get_inode bdev n s = Done (Some (inode_on (content (disks s) bdev) n), s') /\
    disks s' = disks s /\ cache s' = cache s /\
    inode_wf (inode_on (content (disks s) bdev) n).
Proof.
  intros Hv Hn. eexists. split; [by apply get_inode_ok|]. split_and!; try done.
  apply decode_inode_wf, Forall_bytes_at. intros. apply content_byte.
Qed.

(** C1: read returns min(size, file size), cut at the end of the file's zones behind
    the offset, as its count and puts the bytes of the file's direct, singly, doubly
    and triply indirect data zones from the offset on into the caller's buffer, up
    to the last whole word; bytes behind the count, the disk and the path cache do
    not change. The offset is a multiple of eight. *)
Theorem read_delivers_file bdev inode buf size offset s :
  let c := content (disks s) bdev in
  let zs := data_zones c inode in
  let n := Z.min size (isize inode) in
  disk_ok (disks s) bdev -> inode_ok c (capacity (disks s) bdev) inode ->
  0 <= offset -> offset mod 8 = 0 -> 0 <= n < 2 ^ 32 -> n <= zlen buf ->
  exists cnt buf' s', read bdev inode buf size offset s = Done ((cnt, buf'), s') /\
    disks s' = disks s /\ cache s' = cache s /\
    cnt = Z.min n (Z.max 0 (zlen zs * BLOCK_SIZE - offset)) /\
    length buf' = length buf /\
    (forall j, 0 <= j < Cpu.memcpy_len cnt -> nthZ buf' j = file_byte c zs (offset + j)) /\
    (forall j, cnt <= j -> nthZ buf' j = nthZ buf j).
Proof.
  intros c zs n Hd Hi Ho Hal Hn Hr.
  destruct (read_ok bdev inode buf size offset s) as (cnt & buf' & E & []); try done.
  exists cnt, buf', (bump 4 s). split_and!; try done. lia.
Qed.

(** [get_inode] answers None on a device whose super block has another magic number. *)
Theorem get_inode_bad_magic bdev n s :
  disk_ok (disks s) bdev -> 2048 <= capacity (disks s) bdev ->
  magic (superblock (content (disks s) bdev)) <> MAGIC ->
  exists s', get_inode bdev n s = Done (None, s') /\
    disks s' = disks s /\ cache s' = cache s.
Proof.
  intros Hd Hc Hm. exists (bump 1 s). split_and!; try done. by apply get_inode_none.
Qed.

(** C3: On a volume whose directories have no more than one block of entries
    (sixteen), refresh walks the whole directory tree and returns; afterwards open
    answers for every path: the inode of the regular file the tree has at that path,
    or FileNotFound when the tree has none. *)
Theorem refresh_then_open fuel bdev s :
  let c := content (disks s) bdev in
  volume_ok (disks s) bdev -> tree_ok (disks s) bdev fuel 1 -> dev_ok bdev s ->
  exists s', refresh fuel bdev s = Done (tt, s') /\ disks s' = disks s /\
    forall p, exists o, open bdev p s' = Done (o, s') /\
      match o with
      | inr ino => file_at c [SLASH] 1 p ino
      | inl e => e = FileNotFound /\ forall ino, ~ file_at c [SLASH] 1 p ino
      end.
Proof.
  intros c Hvol Htree Hdev.
  destruct (refresh_ok fuel bdev s Hvol Htree Hdev) as (k & btm & E & Hc).
  eexists. split; [exact E|]. split; [done|]. intros p. eexists.
  split; [by eapply cached_open|]. by apply collected_spec.
Qed.

(** C39: On a volume whose directories have no more than one block of entries, after
    refresh show_all_file_paths lists exactly the paths of the regular files of the
    directory tree, each once and in the order of their bytes, and the cache is
    still there. *)
Theorem show_all_file_paths_lists_tree fuel bdev s :
  let c := content (disks s) bdev in
  volume_ok (disks s) bdev -> tree_ok (disks s) bdev fuel 1 -> dev_ok bdev s ->
  exists s' l, refresh fuel bdev s = Done (tt, s') /\
    show_all_file_paths bdev s' = Done (l, s') /\
    (forall p, p ∈ l <-> exists ino, file_at c [SLASH] 1 p ino) /\
    NoDup l /\ StronglySorted (fun p q => Is_true (path_le p q)) l.
Proof.
  intros c Hvol Htree Hdev.
  destruct (refresh_ok fuel bdev s Hvol Htree Hdev) as (k & btm & E & Hc).
  eexists _, _. split; [exact E|].
  split; [apply show_all_ok; [by apply dev_ok_with_slot|by apply with_slot_lookup]|].
  split_and!.
  - intros p. rewrite merge_sort_Permutation.
    rewrite list_elem_of_fmap. pose proof (collected_spec _ _ p Hc) as Hp. split.
    + intros ([q ino] & -> & Hq). apply elem_of_map_to_list in Hq. cbn in Hp |- *.
      rewrite Hq in Hp. by exists ino.
    + intros [ino Hf]. destruct (btm !! p) as [i'|] eqn:Eb.
      * exists (p, i'). split; [done|]. by apply elem_of_map_to_list.
      * by destruct (proj2 Hp ino).
  - rewrite merge_sort_Permutation. apply NoDup_fst_map_to_list.
  - apply StronglySorted_merge_sort; apply _.
Qed.

(** [init] fills an empty slot the way [refresh] does, and leaves a full one alone. *)
Theorem init_fills_empty_slot_once fuel bdev s :
  dev_ok bdev s ->
  init fuel bdev s =
    match cache s !! slot bdev with
    | Some (Some _) => Done (true, s)
    | _ => (_ ← refresh fuel bdev; mret false) s
    end.
Proof.
  intros Hdev. destruct (lookup_lt_is_Some_2 (cache s) (slot bdev)) as [o Ho];
    [destruct Hdev; unfold slot; lia|].
  unfold init. erewrite bind_done by (by apply cache_slot_ok). rewrite Ho. destruct o; [done|].
  unfold refresh, mbind, M_bind. by destruct (cache_at _ _ _ _ _ s) as [[]| | | |].
Qed.

(** find_free_inode finds the first clear bit of the inode bitmap, or None when
    all bits are set; the number it returns is its byte in the block times
    BLOCK_SIZE plus its bit. *)
Theorem find_free_inode_first bdev s :
  let c := content (disks s) bdev in
  let nb := imap_blocks (superblock c) in
  disk_ok (disks s) bdev -> (2 + nb) * BLOCK_SIZE <= capacity (disks s) bdev ->
  exists o s', find_free_inode bdev s = Done (o, s') /\
    disks s' = disks s /\ cache s' = cache s /\
    match o with
    | Some n => exists q, q < nb * 8192 /\ first_free c 0 q /\ n = free_number q
    | None => forall q, 0 <= q < nb * 8192 -> imap_bit c q = true
    end.
Proof.
  intros c nb Hd Hc. destruct (find_free_ok bdev s Hd Hc) as (o & E & Ho).
  exists o, (bump 1 s). split_and!; done.
Qed.

(** C22: On a volume whose root directory has no more than one block of entries, in
    a direct zone behind the inode bitmap, deleting an inode that the directory
    names from its third entry on clears the inode field of the first such entry,
    clears the bit of the inode bitmap the code computes for it, forgets the path in
    the cache, reports the number of entries, and changes no other byte of any disk.
    *)
Theorem delete_clears_entry_and_bit bdev btm cwd n i z s :
  let c := content (disks s) bdev in
  let ino := inode_on c 1 in
  let a := z * BLOCK_SIZE + sizeof_DirEntry * i in
  volume_ok (disks s) bdev -> inode_num_ok (disks s) bdev 1 ->
  dir_ok (disks s) bdev ino -> writable (disks s) bdev = true ->
  nonzero (take 7 (zones ino)) !! 0%nat = Some z ->
  2 <= i < nentries ino -> dinode (dir_entry c 1 i) = n ->
  (forall j, 2 <= j < i -> dinode (dir_entry c 1 j) <> n) ->
  1 <= n < 2 ^ 32 -> imap_byte n + 512 <= capacity (disks s) bdev ->
  imap_byte n < a ->
  exists s', delete_inode_and_direntry bdev btm cwd n s =
      Done ((delete (join_path cwd (until_nul (dname (dir_entry c 1 i)) ≫= push_char)) btm,
             Some (nentries ino)), s') /\
    cache s' = cache s /\
    le_dec (bytes_at (content (disks s') bdev) a 4) = 0 /\
    content (disks s') bdev (imap_byte n) = cleared n (c (imap_byte n)) /\
    forall dev x, dev <> bdev \/ x <> imap_byte n /\ ~ (a <= x < a + 4) ->
      content (disks s') dev x = content (disks s) dev x.
Proof.
  intros c ino a Hvol Hnum Hdir Hw Hz Hi Hn Hf Hn32 Hcap Hlt.
  destruct (delete_ok bdev btm cwd n i z s) as (d1 & d2 & k & E & H1' & H2'); try done.
  eexists. split; [exact E|]. split; [done|]. cbn [disks].
  fold c ino a in H1'. by apply (two_writes (disks s) bdev a n d1).
Qed.

(** create for a directory path that is no regular file's path, which is what
    the cache holds, changes nothing on the disk and leaves open with the same
    answers as before. *)
Theorem create_leaves_disk_alone fuel bdev cwd name btm s :
  let c := content (disks s) bdev in
  let nb := imap_blocks (superblock c) in
  volume_ok (disks s) bdev -> tree_ok (disks s) bdev fuel 1 -> dev_ok bdev s ->
  cache s !! slot bdev = Some (Some btm) -> collects (file_at c [SLASH] 1) ∅ btm ->
  (forall ino, ~ file_at c [SLASH] 1 cwd ino) ->
  (2 + nb) * BLOCK_SIZE <= capacity (disks s) bdev ->
  (exists q, 0 <= q < nb * 8192 /\ imap_bit c q = false) ->
  exists s', create fuel bdev cwd name s = Done (tt, s') /\ disks s' = disks s /\
    forall p, exists o, open bdev p s' = Done (o, s') /\
      match o with
      | inr ino => file_at c [SLASH] 1 p ino
      | inl e => e = FileNotFound /\ forall ino, ~ file_at c [SLASH] 1 p ino
      end.
Proof.
  intros c nb Hvol Htree Hdev Hslot Hcol Hno Hcap (q & Hq & Hfree).
  assert (btm !! cwd = None) as Hmiss.
  { pose proof (collected_spec _ _ cwd Hcol) as Hsp. destruct (btm !! cwd) as [ino|]; [|done].
    by destruct (Hno ino). }
  unfold create. erewrite bind_done by (by apply cache_slot_ok). cbn beta iota.
  erewrite bind_done; cycle 1.
  { erewrite bind_done by (by apply set_slot_ok).
    destruct (find_free_ok bdev (with_slot bdev None s) (vol_disk _ _ Hvol) Hcap)
      as ([n|] & E & Ho); [|specialize (Ho q Hq); change (imap_bit c q = true) in Ho; congruence].
    erewrite bind_done by (by eapply create_new_file_miss).
    apply set_slot_ok. by apply dev_ok_bump, dev_ok_with_slot. }
  set (s1 := with_slot bdev (Some btm) _).
  assert (dev_ok bdev s1) as Hd1 by by apply dev_ok_with_slot, dev_ok_bump, dev_ok_with_slot.
  destruct (refresh_ok fuel bdev s1 Hvol Htree Hd1) as (k & btm' & E & Hc).
  eexists. split; [exact E|]. split; [done|]. intros p. eexists.
  split; [by apply cached_open|]. by apply collected_spec.
Qed.

(** On a volume with six bitmap blocks get_inode_offset is the place of the
    inode's size field, eight bytes behind the start of the inode. *)
Theorem get_inode_offset_is_size_field n c :
  imap_blocks (superblock c) + zmap_blocks (superblock c) = 6 ->
  2 <= n < 2 ^ 32 ->
  get_inode_offset n = Done (itable c + (n - 1) * sizeof_Inode + 8).
Proof.
  intros Hmaps Hn. unfold get_inode_offset, itable, BLOCK_SIZE, sizeof_Inode.
  rewrite uint_ok by lia. cbn [mbind outcome_bind].
  rewrite uint_ok by lia. cbn [mbind outcome_bind].
  rewrite uint_ok by lia. f_equal. lia.
Qed.

(** write of bytes that do not reach over the end of the direct zone at the
    offset puts them at the start of that zone, whatever the offset in the block is,
    returns their number, and changes nothing else. *)
Theorem write_one_block bdev inode buffer size offset z s :
  disk_ok (disks s) bdev -> writable (disks s) bdev = true ->
  Forall is_byte buffer -> 0 < size <= zlen buffer -> 0 <= offset ->
  nonzero (take 7 (zones inode)) !! Z.to_nat (offset / BLOCK_SIZE) = Some z ->
  0 <= z -> z * BLOCK_SIZE + size <= capacity (disks s) bdev ->
  offset mod BLOCK_SIZE + size <= BLOCK_SIZE ->
  exists s', write bdev inode buffer size offset s = Done ((size, inode), s') /\
    cache s' = cache s /\
    (forall j, 0 <= j < Cpu.memcpy_len size ->
       content (disks s') bdev (z * BLOCK_SIZE + j) = nthZ buffer j) /\
    (forall dev x, dev <> bdev \/ x < z * BLOCK_SIZE \/
                   z * BLOCK_SIZE + Cpu.memcpy_len size <= x ->
       content (disks s') dev x = content (disks s) dev x).
Proof.
  intros Hd Hw Hb Hs Ho Hz Hz0 Hc Hf.
  destruct (write_block bdev inode buffer size offset z s) as (d' & E & Hd'); try done.
  eexists. split; [exact E|]. split; [done|].
  apply disk_write_prefix; [done|].
  pose proof (Cpu.memcpy_len_bounds size ltac:(lia)). lia.
Qed.


(** An inode without indirect zones whose direct zones are on the disk. *)
Definition small_file (cap : Z) (inode : Inode) : Prop :=
  nthZ (zones inode) 7 = 0 /\ nthZ (zones inode) 8 = 0 /\ nthZ (zones inode) 9 = 0 /\
  Forall (fun z => 0 <= z /\ (z + 1) * BLOCK_SIZE <= cap) (nonzero (take 7 (zones inode))).

Lemma small_file_ok c cap inode : small_file cap inode -> inode_ok c cap inode.
Proof.
  intros (E7 & E8 & E9 & Hz). split; [|by rewrite ?E7, ?E8, ?E9..].
  eapply Forall_impl; [exact Hz|]. intros z [? ?]. by split.
Qed.

Lemma small_file_zones c cap inode :
  small_file cap inode -> data_zones c inode = nonzero (take 7 (zones inode)).
Proof.
  intros (E7 & E8 & E9 & _). unfold data_zones. rewrite E7, E8, E9.
  cbn [expand_nz Z.eqb]. by rewrite !app_nil_r.
Qed.

End Props.
End FsProps.
