(* ===== verification/MinixExample.v ===== *)
(** * A small volume

    Device 8 holds sixteen blocks: the superblock (block 1), one block of
    inode bitmap (2), one of zone bitmap (3), one of inodes (4), the root
    directory (5) with the file [/a] (6) and the directory [/d] (7), which
    holds the file [/d/b] (8).  Every theorem about [fs.rs] is applied to it. *)

From S2P Require Import Prelude Memory Cpu MinixLayout BlockIo IdealDisk MinixRead MinixWrite MinixDir MinixDirFacts MinixUpdate MinixProps.
Import Ideal Layout Io MinixRead MinixWrite MinixDir DirFacts Update FsProps.

Module FsExample.

Definition name (b : Z) : list Z := b :: replicate 59 0.
Definition zone_list (z : Z) : list Z := z :: replicate 9 0.
Definition inode_a : Inode := mkInode 0x81a4 1 0 0 32 0 0 0 (zone_list 6).

(** What is where on the volume. *)
Definition pieces : list (Z * list Z) :=
  [ (1024 + 6, le_enc 2 1); (1024 + 8, le_enc 2 1); (1024 + 24, le_enc 2 MAGIC);
    (2048, [31]);
    (4096, encode_inode (mkInode 0x41ed 2 0 0 256 0 0 0 (zone_list 5)));
    (4160, encode_inode inode_a);
    (4224, encode_inode (mkInode 0x41ed 2 0 0 192 0 0 0 (zone_list 7)));
    (4288, encode_inode (mkInode 0x81a4 1 0 0 8 0 0 0 (zone_list 8)));
    (5120, encode_direntry (mkDirEntry 1 (name 46)) ++ encode_direntry (mkDirEntry 1 (name 46))
           ++ encode_direntry (mkDirEntry 2 (name 97)) ++ encode_direntry (mkDirEntry 3 (name 100)));
    (6144, Z.of_nat <$> seq 1 32);
    (7168, encode_direntry (mkDirEntry 3 (name 46)) ++ encode_direntry (mkDirEntry 1 (name 46))
           ++ encode_direntry (mkDirEntry 4 (name 98)));
    (8192, Z.of_nat <$> seq 100 8) ].

Definition image : gmap Z Z := foldr (fun p m => Mem.store m p.1 p.2) ∅ pieces.

Definition vol : fs_state Ideal.disks :=
  mkFs {[ 8 := Ideal.mkDisk image 32 false ]} (replicate 8 None) 0.

Abbreviation c := (content (disks vol) 8).

#[local] Existing Instance dev.

Lemma vol_ok : volume_ok (disks vol) 8.
Proof. repeat split; calc. Qed.

Lemma num_ok n : 1 <= n <= 16 -> inode_num_ok (disks vol) 8 n.
Proof.
  intros Hn. split; [lia|]. change (itable c) with 4096.
  change (capacity (disks vol) 8) with 16384.
  replace ((n - 1) / 16) with 0 by (symmetry; apply Z.div_small; lia). unfold BLOCK_SIZE. lia.
Qed.

(** An inode with one direct zone on the disk. *)
Lemma one_zone_ok ino z :
  zones ino = zone_list z -> 0 < z < 16 -> inode_ok c 16384 ino.
Proof.
  intros Hz Hr. split; rewrite Hz; [|by intros []..].
  unfold zone_list, nonzero. cbn [take replicate]. rewrite filter_cons_True by lia.
  constructor; [|constructor]. cbn [zone_ok]. unfold BLOCK_SIZE. lia.
Qed.

Lemma small_dir_ok n z :
  zones (inode_on c n) = zone_list z -> 0 < z < 16 ->
  isize (inode_on c n) mod sizeof_DirEntry = 0 -> 0 <= isize (inode_on c n) <= BLOCK_SIZE ->
  dir_ok (disks vol) 8 (inode_on c n).
Proof.
  intros Hz Hr Hs Hm. split; [|done|done|].
  - change (capacity (disks vol) 8) with 16384. by eapply one_zone_ok.
  - unfold data_zones. rewrite length_app, Hz. unfold zone_list, nonzero. cbn [take replicate].
    rewrite filter_cons_True by lia. cbn [length]. unfold BLOCK_SIZE in *. lia.
Qed.

Lemma root_ok : dir_ok (disks vol) 8 (inode_on c 1).
Proof. apply (small_dir_ok 1 5); calc. Qed.
Lemma sub_ok : dir_ok (disks vol) 8 (inode_on c 3).
Proof. apply (small_dir_ok 3 7); calc. Qed.

Lemma vol_tree : tree_ok (disks vol) 8 2 1.
Proof.
  split; [by apply num_ok|]. split; [exact root_ok|]. intros i [Hi _].
  change (nentries (inode_on c 1)) with 4 in Hi.
  assert (i = 2 \/ i = 3) as [-> | ->] by lia.
  - change (dinode (dir_entry c 1 2)) with 2. split; [by apply num_ok|].
    intros Hd. vm_compute in Hd; discriminate Hd.
  - change (dinode (dir_entry c 1 3)) with 3. split; [by apply num_ok|]. intros _.
    split; [by apply num_ok|]. split; [exact sub_ok|]. intros i [Hj _].
    change (nentries (inode_on c 3)) with 3 in Hj. assert (i = 2) as -> by lia.
    change (dinode (dir_entry c 3 2)) with 4. split; [by apply num_ok|].
    intros Hd. vm_compute in Hd; discriminate Hd.
Qed.

Lemma vol_dev : dev_ok 8 vol.
Proof. split; [lia|done]. Qed.

(** ** The theorems at work *)

Lemma syc_read_exact_witness :
  exists buf', syc_read 8 (replicate 16 0) 16 6144 vol = Done ((0, buf'), vol) /\
    nthZ buf' 3 = content (disks vol) 8 6147.
Proof.
  destruct (syc_read_exact 8 (replicate 16 0) 16 6144 vol) as (b & E & _ & Hb & _).
  - exact (vol_disk _ _ vol_ok).
  - lia.
  - calc.
  - calc.
  - exists b. split; [exact E|]. apply Hb. lia.
Defined.

Lemma syc_write_exact_witness :
  exists s', syc_write 8 [1; 2; 3; 4; 5; 6; 7; 8] 8 6150 vol = Done (0, s') /\
    content (disks s') 8 6152 = 3.
Proof.
  destruct (syc_write_exact 8 [1; 2; 3; 4; 5; 6; 7; 8] 8 6150 vol) as (s' & E & _ & Hb & _).
  - exact (vol_disk _ _ vol_ok).
  - calc.
  - lia.
  - calc.
  - repeat constructor; calc.
  - calc.
  - exists s'. split; [exact E|]. change 6152 with (6150 + 2). rewrite Hb by calc. done.
Defined.

Lemma get_inode_exact_witness :
  exists s', get_inode 8 2 vol = Done (Some (inode_on c 2), s') /\ inode_on c 2 = inode_a.
Proof.
  destruct (get_inode_exact 8 2 vol vol_ok (num_ok 2 ltac:(lia))) as (s' & E & _).
  exists s'. split; [exact E|]. calc.
Defined.

Lemma get_inode_bad_magic_witness :
  exists s', get_inode 8 2 (mkFs {[ 8 := Ideal.mkDisk ∅ 32 false ]} (replicate 8 None) 0)
    = Done (None, s').
Proof.
  destruct (get_inode_bad_magic 8 2 (mkFs {[ 8 := Ideal.mkDisk ∅ 32 false ]} (replicate 8 None) 0))
    as (s' & E & _).
  - split; calc.
  - calc.
  - calc.
  - by exists s'.
Defined.

Lemma read_delivers_file_witness :
  exists buf' s', read 8 inode_a (replicate 40 0) 40 8 vol = Done ((32, buf'), s') /\
    nthZ buf' 0 = 9.
Proof.
  destruct (read_delivers_file 8 inode_a (replicate 40 0) 40 8 vol)
    as (n & b & s' & E & _ & _ & Hn & _ & Hb & _).
  - exact (vol_disk _ _ vol_ok).
  - by apply (one_zone_ok _ 6).
  - lia.
  - done.
  - calc.
  - calc.
  - assert (n = 32) as -> by (rewrite Hn; calc).
    exists b, s'. split; [exact E|]. rewrite Hb by calc. calc.
Defined.

Lemma write_one_block_witness :
  exists s', write 8 inode_a (replicate 16 7) 16 0 vol = Done ((16, inode_a), s') /\
    content (disks s') 8 6159 = 7.
Proof.
  destruct (write_one_block 8 inode_a (replicate 16 7) 16 0 6 vol) as (s' & E & _ & Hb & _).
  - exact (vol_disk _ _ vol_ok).
  - calc.
  - apply Forall_replicate. calc.
  - calc.
  - lia.
  - calc.
  - lia.
  - calc.
  - calc.
  - exists s'. split; [exact E|]. change 6159 with (6 * BLOCK_SIZE + 15). rewrite Hb by calc. done.
Defined.

(** A file of two blocks: its second block gets the first bytes of the buffer. *)
Definition inode_two : Inode := mkInode 0x81a4 1 0 0 2048 0 0 0 (10 :: 12 :: replicate 8 0).



(** The file [/d/b] is there. *)
Lemma file_b : file_at c [SLASH] 1 [SLASH; 100; SLASH; 98] (inode_on c 4).
Proof.
  assert (dinode (dir_entry c 1 3) = 3) as E3 by calc.
  assert (dinode (dir_entry c 3 2) = 4) as E4 by calc.
  apply (file_below _ _ _ 3).
  - split; [calc|]. by rewrite E3.
  - rewrite E3. calc.
  - rewrite E3, <- E4.
    assert (child_path (child_path [SLASH] 1 (dname (dir_entry c 1 3))) 3
              (dname (dir_entry c 3 2)) = [SLASH; 100; SLASH; 98]) as <- by calc.
    apply file_here; [split; [calc|by rewrite E4]|]. rewrite E4. calc.
Qed.

Lemma refresh_then_open_witness :
  exists s' ino, refresh 2 8 vol = Done (tt, s') /\
    open 8 [SLASH; 100; SLASH; 98] s' = Done (inr ino, s').
Proof.
  destruct (refresh_then_open 2 8 vol vol_ok vol_tree vol_dev) as (s' & E & _ & Ho).
  destruct (Ho [SLASH; 100; SLASH; 98]) as ([e|ino] & Eo & Hf).
  - destruct Hf as [_ Hf]. destruct (Hf _ file_b).
  - exists s', ino. split; [exact E|exact Eo].
Defined.

Lemma show_all_file_paths_lists_tree_witness :
  exists s' l, refresh 2 8 vol = Done (tt, s') /\ show_all_file_paths 8 s' = Done (l, s') /\
    [SLASH; 100; SLASH; 98] ∈ l.
Proof.
  destruct (show_all_file_paths_lists_tree 2 8 vol vol_ok vol_tree vol_dev)
    as (s' & l & E & El & Hl & _).
  exists s', l. split; [exact E|]. split; [exact El|]. apply Hl. eexists. exact file_b.
Defined.

Lemma init_fills_empty_slot_once_witness : init 2 8 vol = (_ ← refresh 2 8; mret false) vol.
Proof. exact (init_fills_empty_slot_once 2 8 vol vol_dev). Defined.

Lemma find_free_inode_first_witness :
  exists n s', find_free_inode 8 vol = Done (Some n, s') /\ first_free c 0 5.
Proof.
  destruct (find_free_inode_first 8 vol) as (o & s' & E & _ & _ & Ho).
  - exact (vol_disk _ _ vol_ok).
  - calc.
  - destruct o as [n|].
    + destruct Ho as (q & _ & Hf & _). exists n, s'. split; [exact E|].
      assert (q = 5) as <-; [|exact Hf].
      assert (forall i, 0 <= i < 5 -> imap_bit c i = true) as Hlow.
      { intros i Hi. assert (i = 0 \/ i = 1 \/ i = 2 \/ i = 3 \/ i = 4) as Hc by lia.
        destruct Hc as [->|[->|[->|[->| ->]]]]; calc. }
      destruct Hf as (H0 & Hq & Hall).
      destruct (Z.lt_trichotomy q 5) as [Hlt|[->|Hgt]]; [|done|].
      * rewrite Hlow in Hq by lia. done.
      * specialize (Hall 5 ltac:(lia)). vm_compute in Hall; discriminate Hall.
    + pose proof (Ho 5 ltac:(calc)) as Hf. vm_compute in Hf. discriminate Hf.
Defined.

Lemma delete_clears_entry_and_bit_witness :
  exists s', delete_inode_and_direntry 8 {[ [SLASH; 97] := inode_a ]} [SLASH] 2 vol
      = Done ((delete (join_path [SLASH] [97]) {[ [SLASH; 97] := inode_a ]}, Some 4), s') /\
    le_dec (bytes_at (content (disks s') 8) 5248 4) = 0 /\
    content (disks s') 8 2048 = 27.
Proof.
  destruct (delete_clears_entry_and_bit 8 {[ [SLASH; 97] := inode_a ]} [SLASH] 2 2 5 vol)
    as (s' & E & _ & He & Hb & _).
  - exact vol_ok.
  - by apply num_ok.
  - exact root_ok.
  - calc.
  - calc.
  - calc.
  - calc.
  - intros j Hj. lia.
  - lia.
  - calc.
  - calc.
  - exists s'. split; [exact E|]. split; [exact He|]. exact Hb.
Defined.

(** There is no file at the path of the root directory. *)
Lemma no_file_at_root ino : ~ file_at c [SLASH] 1 [SLASH] ino.
Proof.
  assert (dinode (dir_entry c 1 3) = 3) as E3 by calc.
  rewrite file_at_via. intros (i & [[Hi _] Hf]). cbv zeta in Hf.
  change (nentries (inode_on c 1)) with 4 in Hi.
  assert (i = 2 \/ i = 3) as [-> | ->] by lia.
  - assert (is_dir (inode_on c (dinode (dir_entry c 1 2))) = false) as Hd by calc.
    rewrite Hd in Hf. destruct Hf as [Hf _]. vm_compute in Hf. discriminate Hf.
  - assert (is_dir (inode_on c (dinode (dir_entry c 1 3))) = true) as Hd by calc.
    rewrite Hd, E3, file_at_via in Hf. destruct Hf as (j & [[Hj _] Hf]).
    cbv zeta in Hf.
    change (nentries (inode_on c 3)) with 3 in Hj. assert (j = 2) as -> by lia.
    assert (is_dir (inode_on c (dinode (dir_entry c 3 2))) = false) as Hd' by calc.
    rewrite Hd' in Hf. destruct Hf as [Hf _]. vm_compute in Hf. discriminate Hf.
Qed.

Lemma create_leaves_disk_alone_witness :
  exists s0 s', refresh 2 8 vol = Done (tt, s0) /\ create 2 8 [SLASH] [120] s0 = Done (tt, s') /\
    disks s' = disks vol.
Proof.
  destruct (refresh_ok 2 8 vol vol_ok vol_tree vol_dev) as (k & btm & E & Hc).
  exists (with_slot 8 (Some btm) (bump k vol)).
  destruct (create_leaves_disk_alone 2 8 [SLASH] [120] btm (with_slot 8 (Some btm) (bump k vol)))
    as (s' & E' & Hd & _).
  - exact vol_ok.
  - exact vol_tree.
  - apply dev_ok_with_slot, vol_dev.
  - apply with_slot_lookup, vol_dev.
  - exact Hc.
  - exact no_file_at_root.
  - calc.
  - exists 5. calc.
  - exists s'. split; [exact E|]. split; [exact E'|exact Hd].
Defined.

Lemma get_inode_offset_is_size_field_witness :
  get_inode_offset 2 = Done 0x2048.
Proof.
  apply (get_inode_offset_is_size_field 2
           (fun x => if x =? 1030 then 2 else if x =? 1032 then 4 else 0)); [done|lia].
Defined.
End FsExample.
