(* ===== verification/Elf.v ===== *)
(** * elf.rs: loading executables

    A file is read from the bytes of a buffer.  [load] cuts out the segments;
    [load_proc] makes a process of them: pages for the program, the stack and
    the page tables, and a trap frame. *)

From S2P Require Import Prelude Memory Cpu PageAlloc Mmu MinixLayout Lock Process BlockIo IdealDisk.
Import Mem Process.

Module Elf.

Definition MAGIC : Z := 0x464c457f.
Definition TYPE_EXEC : Z := 2.
Definition PROG_READ : Z := 4.
Definition PROG_WRITE : Z := 2.
Definition PROG_EXECUTE : Z := 1.
Definition MACHINE_RISCV : Z := 0xf3.
Definition PH_SEG_TYPE_LOAD : Z := 1.

Record Header := mkHeader {
  e_magic : Z;
  bitsize : Z;
  endian : Z;
  ident_abi_version : Z;
  target_platform : Z;
  abi_version : Z;
  padding : list Z;
  obj_type : Z;
  machine : Z;
  version : Z;
  entry_pc : Z;
  phoff : Z;
  shoff : Z;
  e_flags : Z;
  ehsize : Z;
  phentsize : Z;
  phnum : Z;
  shentsize : Z;
  shnum : Z;
  shstrndx : Z;
}.

Record ProgramHeader := mkPh {
  seg_type : Z;
  p_flags : Z;
  off : Z;
  vaddr : Z;
  paddr : Z;
  filesz : Z;
  memsz : Z;
  align : Z;
}.

Record Program := mkProgram { header : ProgramHeader; pdata : list Z }.

Inductive LoadErrors := Magic | Machine | TypeExec | FileRead.

Record File := mkFile { fheader : Header; programs : list Program }.

(** ** The structs in a buffer *)

Definition sizeof_Header : Z := 64.
Definition sizeof_ProgramHeader : Z := 56.

Definition decode_header (l : list Z) : Header :=
  let f := Layout.field l in
  mkHeader (f 0 4)%nat (f 4 1)%nat (f 5 1)%nat (f 6 1)%nat (f 7 1)%nat (f 8 1)%nat
    (take 7 (drop 9 l)) (f 16 2)%nat (f 18 2)%nat (f 20 4)%nat (f 24 8)%nat (f 32 8)%nat
    (f 40 8)%nat (f 48 4)%nat (f 52 2)%nat (f 54 2)%nat (f 56 2)%nat (f 58 2)%nat
    (f 60 2)%nat (f 62 2)%nat.

Definition decode_ph (l : list Z) : ProgramHeader :=
  let f := Layout.field l in
  mkPh (f 0 4)%nat (f 4 4)%nat (f 8 8)%nat (f 16 8)%nat (f 24 8)%nat (f 32 8)%nat
    (f 40 8)%nat (f 48 8)%nat.

Definition header_at (buffer : list Z) : outcome Header :=
  Layout.struct_at sizeof_Header decode_header buffer 0.

(** [ph_tab.add(i)], where the table starts at [phoff]. *)
Definition ph_at (buffer : list Z) (tab i : Z) : outcome ProgramHeader :=
  d ← deref (slice buffer (tab + sizeof_ProgramHeader * i) sizeof_ProgramHeader);
  Done (decode_ph d).

(** ** State: the processes and the number of buffers allocated *)

Record estate := mkE { procs : pstate; nbufs : nat }.

Section Elf.
Context `{Profile} `{Linker} `{Heap}.
Abbreviation E := (M estate).

Definition on_procs {A} (c : M pstate A) : E A := fun s =>
  match c (procs s) with
  | Done (a, p) => Done (a, mkE p (nbufs s))
  | Panic => Panic
  | Fault => Fault
  | Hang => Hang
  | NoFuel => NoFuel
  end.

Definition new_buffer (sz : Z) : E (list Z) := fun s =>
  Done (fresh_block (nbufs s) sz, mkE (procs s) (S (nbufs s))).

(** Segments that are not to be loaded, or are empty, are skipped. *)
Definition loadable (ph : ProgramHeader) : bool :=
  (seg_type ph =? PH_SEG_TYPE_LOAD) && negb (memsz ph =? 0).

(** [for i in 0..elf_hdr.phnum] *)
Fixpoint load_segments (buffer : list Z) (tab : Z) (k : nat) (i : Z) : E (list Program) :=
  match k with
  | O => mret []
  | S k' =>
      ph ← lift (ph_at buffer tab i);
      if negb (loadable ph) then load_segments buffer tab k' (i + 1)
      else
        ph_buffer ← new_buffer (memsz ph);
        d ← lift (Cpu.memcpy ph_buffer 0 buffer (off ph) (memsz ph));
        ps ← load_segments buffer tab k' (i + 1);
        mret (mkProgram ph d :: ps)
  end.

Definition load (buffer : list Z) : E (LoadErrors + File) :=
  elf_hdr ← lift (header_at buffer);
  if negb (e_magic elf_hdr =? MAGIC) then mret (inl Magic)
  else if negb (machine elf_hdr =? MACHINE_RISCV) then mret (inl Machine)
  else if negb (obj_type elf_hdr =? TYPE_EXEC) then mret (inl TypeExec)
  else
    ps ← load_segments buffer (phoff elf_hdr) (Z.to_nat (phnum elf_hdr)) 0;
    mret (inr (mkFile elf_hdr ps)).

(** ** Making a process *)

Fixpoint total_memsz (ps : list Program) (sz : Z) : outcome Z :=
  match ps with
  | [] => Done sz
  | p :: ps' => sz' ← usize (sz + memsz (header p)); total_memsz ps' sz'
  end.

(** [let p = NEXT_PID + 1; NEXT_PID += 1; p] *)
Definition load_pid : M pstate Z :=
  s ← get;
  p ← lift (u16 (NEXT_PID s + 1));
  n ← lift (u16 (NEXT_PID s + 1));
  _ ← put (mkP (kern s) (PROCESS_LIST s) (PROCESS_LIST_MUTEX s) n (ticks s));
  mret p.

(** The permission bits of a segment. *)
Definition seg_bits (flags : Z) : Z :=
  let bits := Mmu.EntryBits_val Mmu.User in
  let bits := if negb (Z.land flags PROG_EXECUTE =? 0)
              then Z.lor bits (Mmu.EntryBits_val Mmu.Execute) else bits in
  let bits := if negb (Z.land flags PROG_READ =? 0)
              then Z.lor bits (Mmu.EntryBits_val Mmu.Read) else bits in
  if negb (Z.land flags PROG_WRITE =? 0)
  then Z.lor bits (Mmu.EntryBits_val Mmu.Write) else bits.

(** [for i in 0..pages] of a segment; the result is [brk]. *)
Fixpoint map_segment (table program_mem bits : Z) (ph : ProgramHeader) (k : nat) (i brk : Z)
    : M pstate Z :=
  match k with
  | O => mret brk
  | S k' =>
      d ← lift (usize (i * Page.PAGE_SIZE));
      va ← lift (usize (vaddr ph + d));
      b ← lift (usize (program_mem + off ph));
      pa ← lift (usize (b + d));
      _ ← on_kern (Mmu.map table va pa bits 0);
      map_segment table program_mem bits ph k' (i + 1) (if brk <? va then va else brk)
  end.

(** [memcpy] from a buffer to physical memory. *)
Definition copy_out (dst : Z) (src : list Z) (n : Z) : M kernel unit :=
  s ← get;
  d ← lift (Cpu.memcpy (bytes_at (byte (mem s)) dst n) 0 src 0 n);
  put (with_mem (store (mem s) dst d) s).

Fixpoint map_programs (table program_mem : Z) (ps : list Program) (brk : Z) : M pstate Z :=
  match ps with
  | [] => mret brk
  | p :: ps' =>
      let ph := header p in
      _ ← lift (valid (negb (program_mem =? 0)));
      _ ← on_kern (copy_out (program_mem + off ph) (pdata p) (memsz ph));
      n ← lift (usize (memsz ph + Page.PAGE_SIZE));
      let pages := n / Page.PAGE_SIZE in
      brk ← map_segment table program_mem (seg_bits (p_flags ph)) ph (Z.to_nat pages) 0 brk;
      brk ← lift (usize (brk + 0x1000));
      map_programs table program_mem ps' brk
  end.

(** [for i in 0..STACK_PAGES] *)
Fixpoint map_stack (table ptr : Z) (k : nat) (i : Z) : M pstate unit :=
  match k with
  | O => mret tt
  | S k' =>
      pa ← lift (usize (ptr + i * Page.PAGE_SIZE));
      _ ← on_kern (Mmu.map table (STACK_ADDR + i * Page.PAGE_SIZE) pa
                     (Mmu.EntryBits_val Mmu.UserReadWrite) 0);
      map_stack table ptr k' (i + 1)
  end.

Definition satp_addr (f : Z) : Z := f + 512.

(** The trap frame of a process in user mode. *)
Definition fill_user_frame (f entry my_pid tb : Z) : M pstate unit :=
  _ ← set_field f (pc_addr f) entry;
  _ ← set_field f (reg_addr f Cpu.Sp) (STACK_ADDR + STACK_PAGES * Page.PAGE_SIZE - 0x1000);
  _ ← set_field f (mode_addr f) (Cpu.CpuMode_val Cpu.User);
  _ ← set_field f (pid_addr f) my_pid;
  set_field f (satp_addr f) (Cpu.build_satp Cpu.Sv39 my_pid tb).

(** The process for the segments [ps] that starts at [entry]. *)
Definition make_process (entry : Z) (ps : list Program) : M pstate process :=
  sz ← lift (total_memsz ps 0);
  n ← lift (usize (sz + Page.PAGE_SIZE * 2));
  let program_pages := n / Page.PAGE_SIZE in
  my_pid ← load_pid;
  f ← on_kern (Page.zalloc 1);
  st ← on_kern (Page.zalloc STACK_PAGES);
  tb ← on_kern (Page.zalloc 1);
  pm ← on_kern (Page.zalloc program_pages);
  _ ← lift (unwrap (if tb =? 0 then None else Some tt));
  brk ← map_programs tb pm ps 0;
  _ ← map_stack tb st (Z.to_nat STACK_PAGES) 0;
  _ ← fill_user_frame f entry my_pid tb;
  mret (mkProcess f st my_pid tb Running ProcessData_new 0 pm brk).

Definition load_proc (buffer : list Z) : E (LoadErrors + process) :=
  r ← load buffer;
  match r with
  | inl e => mret (inl e)
  | inr elf_fl =>
      p ← on_procs (make_process (entry_pc (fheader elf_fl)) (programs elf_fl));
      mret (inr p)
  end.
End Elf.

(** ** What a file holds *)

(** The header of a file, and program header [i]. *)
Definition file_header (buffer : list Z) : Header := decode_header (take 64 buffer).
Definition file_ph (buffer : list Z) (i : nat) : ProgramHeader :=
  decode_ph (take 56 (drop (Z.to_nat (phoff (file_header buffer) + 56 * Z.of_nat i)) buffer)).
Definition file_phs (buffer : list Z) : list ProgramHeader :=
  file_ph buffer <$> seq 0 (Z.to_nat (phnum (file_header buffer))).

(** An executable for this machine whose tables and segments lie inside of
    the file. *)
Record elf_ok (buffer : list Z) : Prop := {
  ok_bytes : Forall is_byte buffer;
  ok_size : 64 <= zlen buffer;
  ok_magic : e_magic (file_header buffer) = MAGIC;
  ok_machine : machine (file_header buffer) = MACHINE_RISCV;
  ok_type : obj_type (file_header buffer) = TYPE_EXEC;
  ok_table : phoff (file_header buffer) + 56 * phnum (file_header buffer) <= zlen buffer;
  ok_segs : Forall (fun ph => loadable ph = true -> off ph + memsz ph <= zlen buffer)
              (file_phs buffer);
}.

(** The bytes of a segment, as many as [memcpy] copies. *)
Definition seg_loaded (buffer : list Z) (p : Program) : Prop :=
  memsz (header p) <= zlen (pdata p) /\
  forall j, 0 <= j < Cpu.memcpy_len (memsz (header p)) ->
    nthZ (pdata p) j = nthZ buffer (off (header p) + j).

Section Props.
Context `{Profile} `{Linker} `{Heap} `{!HeapLaws}.

Lemma header_at_ok buffer : 64 <= zlen buffer -> header_at buffer = Done (file_header buffer).
Proof.
  intros. unfold header_at, Layout.struct_at, sizeof_Header.
  rewrite slice_ok by lia. by rewrite drop_0.
Qed.

Lemma ph_ranges l : Forall is_byte l -> 0 <= off (decode_ph l) /\ 0 <= memsz (decode_ph l).
Proof.
  intros Hl. split; [exact (proj1 (Layout.field_range l 8 8 Hl))
                    |exact (proj1 (Layout.field_range l 40 8 Hl))].
Qed.

Lemma load_segments_ok buffer phs : forall i s,
  Forall is_byte buffer -> 0 <= phoff (file_header buffer) ->
  phs = file_ph buffer <$> seq i (length phs) ->
  phoff (file_header buffer) + 56 * Z.of_nat (i + length phs) <= zlen buffer ->
  Forall (fun ph => loadable ph = true -> off ph + memsz ph <= zlen buffer) phs ->
  exists ps n, load_segments buffer (phoff (file_header buffer)) (length phs) (Z.of_nat i) s =
      Done (ps, mkE (procs s) n) /\
    header <$> ps = filter (fun ph => Is_true (loadable ph)) phs /\ Forall (seg_loaded buffer) ps.
Proof.
  induction phs as [|ph phs IH]; intros i s Hb Hoff Hphs Htab Hseg; cbn [length load_segments].
  { exists [], (nbufs s). split_and!; [by destruct s|done|done]. }
  cbn [length seq] in Hphs. rewrite fmap_cons in Hphs. injection Hphs as Eph Ephs.
  inversion Hseg as [|? ? Hs Hseg']; subst x l. cbn [length] in Htab.
  assert (ph_at buffer (phoff (file_header buffer)) (Z.of_nat i) = Done ph) as Eat.
  { unfold ph_at, sizeof_ProgramHeader. rewrite slice_ok by lia. by rewrite Eph. }
  erewrite bind_done by (apply lift_done, Eat).
  replace (Z.of_nat i + 1) with (Z.of_nat (S i)) by lia.
  destruct (loadable ph) eqn:El; cbn [negb].
  - assert (0 <= off ph /\ 0 <= memsz ph) as [Ho Hm]
      by (rewrite Eph; apply ph_ranges, Forall_take, Forall_drop, Hb).
    specialize (Hs eq_refl). erewrite bind_done by reflexivity.
    pose proof (fresh_length (nbufs s) (memsz ph) Hm) as Lf.
    pose proof (Io.round8_le (memsz ph) (memsz ph) Hm ltac:(lia)) as Lr.
    destruct (Cpu.memcpy_spec (fresh_block (nbufs s) (memsz ph)) 0 buffer (off ph) (memsz ph))
      as (d & dst & Hd & Hdst & Ecopy); try lia.
    erewrite bind_done by (apply lift_done, Ecopy).
    destruct (IH (S i) (mkE (procs s) (S (nbufs s)))) as (ps & n & E & Hps & Hall);
      try done; [lia|].
    erewrite bind_done by exact E. exists (mkProgram ph dst :: ps), n.
    split_and!; [done|rewrite filter_cons_True by (by rewrite El); cbn; by f_equal|].
    constructor; [|done]. split; cbn [header pdata].
    + rewrite (splice_length _ _ _ _ Hdst). lia.
    + intros j Hj. pose proof (slice_length _ _ _ _ Hd) as Ld.
      rewrite (splice_nth _ _ _ _ _ Hdst), decide_True by lia.
      rewrite (slice_nth _ _ _ _ _ Hd) by lia. f_equal. lia.
  - destruct (IH (S i) s) as (ps & n & E & Hps & Hall); try done; [lia|].
    exists ps, n. split_and!; [exact E| |done]. rewrite filter_cons_False; [done|].
    rewrite El. by intros [].
Qed.

(** load of an executable for this machine whose tables and segments lie inside
    of the file returns its header and exactly the segments that are to be loaded
    and not empty, in order, each with the file's bytes from its offset on, as many
    as memcpy copies; the processes do not change. *)
Theorem load_exact buffer s :
  elf_ok buffer ->
  exists ps s', load buffer s = Done (inr (mkFile (file_header buffer) ps), s') /\
    procs s' = procs s /\
    header <$> ps = filter (fun ph => Is_true (loadable ph)) (file_phs buffer) /\
    Forall (seg_loaded buffer) ps.
Proof.
  intros [Hb Hsz Hma Hmc Hty Htab Hseg]. unfold load.
  erewrite bind_done by (apply lift_done, header_at_ok; lia).
  rewrite Hma, Hmc, Hty. cbn [negb Z.eqb Pos.eqb MAGIC MACHINE_RISCV TYPE_EXEC].
  assert (Forall is_byte (take 64 buffer)) as Hb64 by (by apply Forall_take).
  assert (0 <= phoff (file_header buffer) /\ 0 <= phnum (file_header buffer)) as [Ho Hn]
    by (split; [exact (proj1 (Layout.field_range _ 32 8 Hb64))
               |exact (proj1 (Layout.field_range _ 56 2 Hb64))]).
  assert (length (file_phs buffer) = Z.to_nat (phnum (file_header buffer))) as Lp
    by (unfold file_phs; by rewrite length_fmap, length_seq).
  destruct (load_segments_ok buffer (file_phs buffer) 0 s) as (ps & n & E & Hps & Hall);
    try done; [by rewrite Lp|lia|].
  rewrite Lp in E. erewrite bind_done by exact E. by exists ps, (mkE (procs s) n).
Qed.

(** load and load_proc refuse a file with a wrong magic number, another machine
    or another type, each with its own error, checked in this order, and change
    nothing. *)
Theorem load_rejects buffer s :
  64 <= zlen buffer ->
  let h := file_header buffer in
  let refused e := load buffer s = Done (inl e, s) /\ load_proc buffer s = Done (inl e, s) in
  (e_magic h <> MAGIC -> refused Magic) /\
  (e_magic h = MAGIC -> machine h <> MACHINE_RISCV -> refused Machine) /\
  (e_magic h = MAGIC -> machine h = MACHINE_RISCV -> obj_type h <> TYPE_EXEC -> refused TypeExec).
Proof.
  intros Hsz h refused.
  assert (forall e, load buffer s = Done (inl e, s) -> refused e) as Hr.
  { intros e E. split; [done|]. unfold load_proc. by erewrite bind_done by exact E. }
  split_and!; intros; apply Hr; unfold load;
    (erewrite bind_done by (apply lift_done, header_at_ok; lia)); fold h;
    repeat match goal with
    | H : ?x = _ |- context [?x =? _] => rewrite H, Z.eqb_refl
    | H : ?x <> ?y |- context [?x =? ?y] => rewrite (proj2 (Z.eqb_neq x y) H)
    end; done.
Qed.

(** The pid [load_proc] takes is the one the next kernel process gets. *)
Theorem load_pid_taken_twice s p s1 :
  load_pid s = Done (p, s1) -> p + 1 < 2 ^ 16 -> 0 <= NEXT_PID s ->
  exists s2, next_pid s1 = Done (p, s2).
Proof.
  unfold load_pid. intros E Hp Hn. unfold mbind, M_bind, get, lift, put, mret, M_ret in E.
  destruct (u16 (NEXT_PID s + 1)) as [n| | | |] eqn:En; try done.
  injection E as <- <-. unfold next_pid. erewrite bind_done by reflexivity. cbn [NEXT_PID].
  assert (0 <= n) by (apply uint_range in En; lia).
  erewrite bind_done by (apply lift_done, uint_ok; lia).
  erewrite bind_done by reflexivity. eexists. reflexivity.
Qed.
End Props.
End Elf.
