(* ===== verification/LoadProps.v ===== *)
(** * elf.rs: what a loaded process sees

    [load_proc] of an executable makes a process whose page tables show the
    segments of the file at their virtual addresses and a stack, and nothing
    outside of the pages the process owns. *)

From S2P Require Import Prelude Memory Cpu PageAlloc PageProps Mmu MmuFacts MmuProps MmuTree MinixLayout Lock Process ProcessProps ExitProps UserExit BlockIo IdealDisk Elf.
Import Mem PageProps MmuProps MmuTree Process ProcessProps UserExit Elf.

Module LoadProps.

(** The bits of a segment that may be read, written or executed make a leaf. *)
Lemma seg_bits_ok flags : Z.land flags 7 <> 0 ->
  0 <= seg_bits flags < 1024 /\ Z.land (seg_bits flags) 0xe <> 0.
Proof.
  intros Hf. unfold seg_bits, PROG_EXECUTE, PROG_READ, PROG_WRITE.
  destruct (Z.eqb_spec (Z.land flags 1) 0) as [E1|_], (Z.eqb_spec (Z.land flags 4) 0) as [E4|_],
    (Z.eqb_spec (Z.land flags 2) 0) as [E2|_]; try (by vm_compute).
  destruct Hf. change 7 with (Z.lor 4 (Z.lor 2 1)). by rewrite !Z.land_lor_distr_r, E1, E2, E4.
Qed.

(** Pages mapped for a segment. *)
Definition seg_pages (ph : ProgramHeader) : nat := Z.to_nat ((memsz ph + 4096) / 4096).

Definition seg_map (pm : Z) (A : gmap Z Z) (ph : ProgramHeader) : gmap Z Z :=
  map_range (vaddr ph) (pm + off ph) (seg_pages ph) A.

(** The map of a process: its segments, the later ones over the earlier ones, and
    its stack. *)
Definition process_map (pm st : Z) (phs : list ProgramHeader) : gmap Z Z :=
  map_range STACK_ADDR st 35 (foldl (seg_map pm) ∅ phs).

(** The bytes of its program block. *)
Definition seg_image (pm : Z) (b : Z -> Z) (p : Program) : Z -> Z := fun x =>
  let d := pm + off (header p) in
  if decide (d <= x < d + Cpu.memcpy_len (memsz (header p))) then nthZ (pdata p) (x - d) else b x.

(** The break behind the segments. *)
Definition seg_brk (b : Z) (ph : ProgramHeader) : Z :=
  Z.max b (vaddr ph + memsz ph / 4096 * 4096) + 4096.

(** All pages mapped for the segments. *)
Definition maps_of (phs : list ProgramHeader) : Z := Z.of_nat (sum_list_with seg_pages phs).

(** The pages of the program block. *)
Definition size_of (phs : list ProgramHeader) : Z := foldr (fun ph n => memsz ph + n) 0 phs.
Definition program_pages (phs : list ProgramHeader) : nat := Z.to_nat ((size_of phs + 8192) / 4096).

(** A segment inside of a block of [np] pages. *)
Record seg_fits (np : nat) (ph : ProgramHeader) : Prop := {
  sf_flags : Z.land (p_flags ph) 7 <> 0;
  sf_vaddr : 0 <= vaddr ph /\ vaddr ph + memsz ph < 2 ^ 63;
  sf_off : 0 <= off ph;
  sf_size : 0 <= memsz ph;
  sf_inside : off ph + memsz ph < 4096 * Z.of_nat np;
}.

(** Virtual address and offset agree within their pages, and the pages that are
    mapped hold the whole segment, below the stack. *)
Record seg_visible (ph : ProgramHeader) : Prop := {
  sv_align : vaddr ph mod 4096 = off ph mod 4096;
  sv_pages : vaddr ph mod 4096 + memsz ph <= 4096 * Z.of_nat (seg_pages ph);
  sv_below : vaddr ph + 4096 * Z.of_nat (seg_pages ph) <= STACK_ADDR;
}.

(** Segments with different pages and different parts of the file. *)
Record seg_apart (a b : ProgramHeader) : Prop := {
  sa_pages : vaddr a / 4096 + Z.of_nat (seg_pages a) <= vaddr b / 4096 \/
    vaddr b / 4096 + Z.of_nat (seg_pages b) <= vaddr a / 4096;
  sa_bytes : off a + memsz a <= off b \/ off b + memsz b <= off a;
}.

(** The data of a segment is there. *)
Definition has_data (p : Program) : Prop := memsz (header p) <= zlen (pdata p).

Section Load.
Context `{Profile} `{Linker} `{Heap}.
Abbreviation num_pages := (HEAP_SIZE / Page.PAGE_SIZE).

Lemma with_kern_same s : with_kern (kern s) s = s.
Proof. by destruct s. Qed.

(** ** The loops around [map] *)

Lemma map_segment_ok root pm ph n : forall i b s t A,
  tree (kern s) t root -> implements (mem (kern s)) root A ->
  2 * Z.of_nat n + 1 <= Page.free_pages t -> Z.land (p_flags ph) 7 <> 0 ->
  0 <= vaddr ph -> 0 <= pm + off ph -> 0 <= i -> 0 <= pm -> 0 <= off ph ->
  vaddr ph + (i + Z.of_nat n) * 4096 < 2 ^ 64 -> pm + off ph + (i + Z.of_nat n) * 4096 < 2 ^ 64 ->
  exists k' t', map_segment root pm (seg_bits (p_flags ph)) ph n i b s =
      Done (if decide (n = 0)%nat then b else Z.max b (vaddr ph + (i + Z.of_nat n - 1) * 4096), with_kern k' s) /\
    mapped (kern s) t root (2 * Z.of_nat n) k' t'
      (map_range (vaddr ph + i * 4096) (pm + off ph + i * 4096) n A).
Proof.
  induction n as [|n IH]; intros i b s t A Ht HA Hf Hfl Hva Hpa Hi Hpm Hoff Hv Hp.
  - exists (kern s), t. split; [by rewrite with_kern_same|].
    split; try done; [exists (mem (kern s)); by destruct s as [[]]|lia|by apply grows_same].
  - cbn [map_segment map_range].
    assert (0 <= i * 4096 < 2 ^ 64) by lia. unfold Page.PAGE_SIZE.
    erewrite bind_done by (apply lift_done, uint_ok; lia).
    erewrite bind_done by (apply lift_done, uint_ok; lia).
    erewrite bind_done by (apply lift_done, uint_ok; lia).
    erewrite bind_done by (apply lift_done, uint_ok; lia).
    destruct (seg_bits_ok _ Hfl) as [Hb1 Hb2].
    destruct (map_inserts (kern s) t root A (vaddr ph + i * 4096) (pm + off ph + i * 4096)
      (seg_bits (p_flags ph)) Ht HA ltac:(lia) ltac:(lia) ltac:(lia) Hb1 Hb2) as (k1 & t1 & E & M1).
    erewrite bind_done by (by apply on_kern_done). pose proof M1 as [_ Ht1 HA1 _ C1].
    destruct (IH (i + 1) (if b <? vaddr ph + i * 4096 then vaddr ph + i * 4096 else b)
      (with_kern k1 s) t1 _ Ht1 HA1) as (k2 & t2 & E2 & M2); try lia; try done.
    rewrite E2. exists k2, t2. split.
    + cbn [with_kern]. do 2 f_equal. destruct (Z.ltb_spec b (vaddr ph + i * 4096)), (decide (n = 0)%nat);
        repeat case_decide; lia.
    + replace (2 * Z.of_nat (S n)) with (2 + 2 * Z.of_nat n) by lia.
      replace (vaddr ph + i * 4096 + 4096) with (vaddr ph + (i + 1) * 4096) by lia.
      replace (pm + off ph + i * 4096 + 4096) with (pm + off ph + (i + 1) * 4096) by lia.
      by eapply mapped_trans.
Qed.

Lemma map_stack_ok root st n : forall i s t A,
  tree (kern s) t root -> implements (mem (kern s)) root A ->
  2 * Z.of_nat n + 1 <= Page.free_pages t -> 0 <= st -> 0 <= i ->
  st + (i + Z.of_nat n) * 4096 < 2 ^ 64 ->
  exists k' t', map_stack root st n i s = Done (tt, with_kern k' s) /\
    mapped (kern s) t root (2 * Z.of_nat n) k' t'
      (map_range (STACK_ADDR + i * 4096) (st + i * 4096) n A).
Proof.
  induction n as [|n IH]; intros i s t A Ht HA Hf Hst Hi Hp.
  - exists (kern s), t. split; [by rewrite with_kern_same|].
    split; try done; [exists (mem (kern s)); by destruct s as [[]]|lia|by apply grows_same].
  - cbn [map_stack map_range]. unfold Page.PAGE_SIZE.
    erewrite bind_done by (apply lift_done, uint_ok; lia).
    destruct (map_inserts (kern s) t root A (STACK_ADDR + i * 4096) (st + i * 4096)
      (Mmu.EntryBits_val Mmu.UserReadWrite) Ht HA ltac:(lia) ltac:(unfold STACK_ADDR; lia) ltac:(lia))
      as (k1 & t1 & E & M1); [by vm_compute|by vm_compute|].
    erewrite bind_done by (by apply on_kern_done). pose proof M1 as [_ Ht1 HA1 _ C1].
    destruct (IH (i + 1) (with_kern k1 s) t1 _ Ht1 HA1) as (k2 & t2 & E2 & M2); try lia.
    rewrite E2. exists k2, t2. split; [done|].
    replace (2 * Z.of_nat (S n)) with (2 + 2 * Z.of_nat n) by lia.
    replace (STACK_ADDR + i * 4096 + 4096) with (STACK_ADDR + (i + 1) * 4096) by lia.
    replace (st + i * 4096 + 4096) with (st + (i + 1) * 4096) by lia.
    by eapply mapped_trans.
Qed.
(** ** Copying the segments *)

Lemma copy_out_ok pm p k :
  0 <= memsz (header p) <= zlen (pdata p) ->
  exists m, copy_out (pm + off (header p)) (pdata p) (memsz (header p)) k = Done (tt, with_mem m k) /\
    forall x, byte m x = seg_image pm (byte (mem k)) p x.
Proof.
  intros Hsz. unfold copy_out. set (d := pm + off (header p)). set (n := memsz (header p)) in *.
  erewrite bind_done by reflexivity.
  assert (zlen (bytes_at (byte (mem k)) d n) = n) as Hl by (rewrite length_bytes_at; lia).
  destruct (Cpu.memcpy_spec (bytes_at (byte (mem k)) d n) 0 (pdata p) 0 n) as (c & l & Hc & Hs & E); try lia.
  erewrite bind_done by (apply lift_done, E). eexists. split; [reflexivity|].
  intros x. rewrite byte_store. unfold upd_bytes, seg_image. fold d n.
  pose proof (splice_length _ _ _ _ Hs) as Hl'. pose proof (slice_length _ _ _ _ Hc) as Hlc.
  pose proof (Cpu.memcpy_len_bounds n ltac:(lia)) as Hb.
  destruct (decide (d <= x < d + zlen l)) as [Hx|Hx].
  - rewrite (splice_nth _ _ _ _ _ Hs) by lia. rewrite Hlc.
    destruct (decide (0 <= x - d < 0 + Cpu.memcpy_len n)), (decide (d <= x < d + Cpu.memcpy_len n)); try lia.
    + rewrite Z.sub_0_r, (slice_nth _ _ _ _ _ Hc) by lia. done.
    + rewrite nth_bytes_at by lia. f_equal. lia.
  - rewrite decide_False by lia. done.
Qed.

Lemma image_out pm np p b x :
  seg_fits np (header p) -> ~ (pm <= x < pm + 4096 * Z.of_nat np) -> seg_image pm b p x = b x.
Proof.
  intros [_ _ Ho Hs Hi] Hx. unfold seg_image.
  pose proof (Cpu.memcpy_len_bounds (memsz (header p)) ltac:(lia)). by rewrite decide_False by lia.
Qed.

Lemma image_cong pm p b b' x : b x = b' x -> seg_image pm b p x = seg_image pm b' p x.
Proof. intros E. unfold seg_image. by case_decide. Qed.

Lemma images_cong pm ps : forall b b' x, b x = b' x -> foldl (seg_image pm) b ps x = foldl (seg_image pm) b' ps x.
Proof. induction ps as [|p ps IH]; intros b b' x E; [done|]. cbn. by apply IH, image_cong. Qed.

(** What loading segments into the block [pm] leaves. *)
Record loaded (pm : Z) (np : nat) (k : kernel) (t : list Page.seg) (root n : Z) (k' : kernel)
    (t' : list Page.seg) (A' : gmap Z Z) (b' : Z -> Z) : Prop := {
  ld_state : exists m, k' = with_mem m k;
  ld_tree : tree k' t' root;
  ld_map : implements (mem k') root A';
  ld_block c j : stranger k t root c j -> stranger k' t' root c j;
  ld_spared c j x : stranger k t root c j -> c <> pm -> c <= x < c + 4096 * Z.of_nat j ->
    byte (mem k') x = byte (mem k) x;
  ld_image x : pm <= x < pm + 4096 * Z.of_nat np -> byte (mem k') x = b' x;
  ld_count : Page.free_pages t - n <= Page.free_pages t';
  ld_grow : grows k t root k' t';
}.

(** One segment. *)
Lemma load_segment_ok root pm np p b s t A :
  let ph := header p in
  tree (kern s) t root -> implements (mem (kern s)) root A -> stranger (kern s) t root pm np ->
  seg_fits np ph -> has_data p -> 2 * Z.of_nat (seg_pages ph) + 1 <= Page.free_pages t ->
  0 <= b -> Z.max b (2 ^ 63) + 4096 < 2 ^ 64 -> pm + 4096 * (Z.of_nat np + 1) < 2 ^ 64 ->
  exists k' t', (forall ps, map_programs root pm (p :: ps) b s = map_programs root pm ps (seg_brk b ph) (with_kern k' s)) /\
    loaded pm np (kern s) t root (2 * Z.of_nat (seg_pages ph)) k' t' (seg_map pm A ph)
      (seg_image pm (byte (mem (kern s))) p).
Proof.
  intros ph Ht HA Hpm Hfit Hdata Hf Hb Hmax Hmem. pose proof Hfit as [Hfl [Hv0 Hv] Ho Hsz Hin].
  pose proof (block_range _ _ _ _ (mm_page _ _ (tr_ok _ _ _ Ht)) (proj1 Hpm)) as (Hlo & _).
  pose proof (tbl_pos _ _ (mm_page _ _ (tr_ok _ _ _ Ht))) as Hpos.
  assert (0 < pm) as Hpm0.
  { destruct (table_range _ _ _ (tr_ok _ _ _ Ht) (tr_table _ _ _ Ht _ _ (node_root _ _))) as (? & ? & _).
    pose proof (tbl_len _ _ (mm_page _ _ (tr_ok _ _ _ Ht))).
    assert (0 <= Page.pages_of t) by (unfold Page.pages_of; lia). lia. }
  destruct (copy_out_ok pm p (kern s) (conj Hsz Hdata)) as (m1 & E1 & Hm1). fold ph in E1.
  destruct (stranger_write (kern s) t root pm np m1 Ht Hpm) as (Ht1 & Hn1 & Hv1).
  { intros x Hx. rewrite Hm1. by apply image_out with (np := np). }
  assert (Z.of_nat (seg_pages ph) = memsz ph / 4096 + 1) as Hpg.
  { unfold seg_pages. replace (memsz ph + 4096) with (memsz ph + 1 * 4096) by lia. rewrite Z.div_add by lia.
    pose proof (Z.div_pos (memsz ph) 4096). lia. }
  pose proof (Z.mul_div_le (memsz ph) 4096 ltac:(lia)) as Hdiv.
  pose proof (Z.div_pos (memsz ph) 4096 ltac:(lia) ltac:(lia)) as Hdiv0.
  set (s1 := with_kern (with_mem m1 (kern s)) s).
  assert (implements m1 root A) as HA1 by (intros va Hva; rewrite Hv1; by apply HA).
  destruct (map_segment_ok root pm ph (seg_pages ph) 0 b s1 t A Ht1 HA1 Hf Hfl)
    as (k2 & t2 & E2 & [[m2 Em2] Ht2 HA2 K2 C2 G2]); try lia.
  assert (forall c j, stranger (kern s) t root c j -> stranger (kern s1) t root c j) as Hstr
    by (intros c j [Hc Hno]; split; [done|]; intros q Hq; by apply (Hno q), Hn1).
  exists k2, t2. split.
  - intros ps. cbn [map_programs]. fold ph. rewrite (proj2 (Z.eqb_neq pm 0)) by lia. erewrite bind_done by reflexivity.
    erewrite bind_done by (by apply on_kern_done). unfold Page.PAGE_SIZE.
    erewrite bind_done by (apply lift_done, uint_ok; lia). fold (seg_pages ph) s1.
    erewrite bind_done by exact E2. rewrite decide_False by lia.
    replace (Z.max b (vaddr ph + (0 + Z.of_nat (seg_pages ph) - 1) * 4096))
      with (Z.max b (vaddr ph + memsz ph / 4096 * 4096)) by lia.
    by erewrite bind_done by (apply lift_done, uint_ok; lia).
  - split; [exists m2; by rewrite Em2|done| |..].
    + unfold seg_map. by rewrite !Z.mul_0_l, !Z.add_0_r in HA2.
    + intros c j Hc. by apply K2, Hstr.
    + intros c j x Hc Hne Hx. destruct (K2 c j (Hstr c j Hc)) as [_ ->]; [|done]. cbn [s1 kern with_kern mem with_mem].
      rewrite Hm1. apply image_out with (np := np); [done|].
      pose proof (blocks_apart _ _ _ _ _ _ (mm_page _ _ (tr_ok _ _ _ Ht)) (proj1 Hc) (proj1 Hpm) Hne).
      unfold Page.PAGE_SIZE in *. lia.
    + intros x Hx. destruct (K2 pm np (Hstr pm np Hpm)) as [_ ->]; [|done]. apply Hm1.
    + lia.
    + apply (grows_trans (kern s) t root (kern s1) t); [by apply grows_same|exact G2].
Qed.

Lemma loaded_trans pm np k t root n k1 t1 A1 b1 n' k2 t2 A2 ps :
  loaded pm np k t root n k1 t1 A1 b1 ->
  loaded pm np k1 t1 root n' k2 t2 A2 (foldl (seg_image pm) (byte (mem k1)) ps) ->
  loaded pm np k t root (n + n') k2 t2 A2 (foldl (seg_image pm) b1 ps).
Proof.
  intros [[m1 ->] Ht1 HA1 B1 S1 I1 C1 G1] [[m2 ->] Ht2 HA2 B2 S2 I2 C2 G2].
  split; [by exists m2|done|done|by auto| | |lia|by eapply grows_trans].
  - intros c j x Hc Hne Hx. rewrite (S2 c j), (S1 c j) by auto. done.
  - intros x Hx. rewrite I2 by done. apply images_cong. by apply I1.
Qed.

Lemma map_programs_ok root pm np ps : forall b s t A,
  tree (kern s) t root -> implements (mem (kern s)) root A -> stranger (kern s) t root pm np ->
  Forall (seg_fits np) (header <$> ps) -> Forall has_data ps ->
  2 * maps_of (header <$> ps) + 1 <= Page.free_pages t -> 0 <= b -> Z.max b (2 ^ 63) + 4096 * zlen ps < 2 ^ 64 -> pm + 4096 * (Z.of_nat np + 1) < 2 ^ 64 ->
  exists k' t', map_programs root pm ps b s = Done (foldl seg_brk b (header <$> ps), with_kern k' s) /\
    loaded pm np (kern s) t root (2 * maps_of (header <$> ps)) k' t' (foldl (seg_map pm) A (header <$> ps))
      (foldl (seg_image pm) (byte (mem (kern s))) ps).
Proof.
  induction ps as [|p ps IH]; intros b s t A Ht HA Hpm Hfit Hdata Hf Hb Hmax Hmem.
  - exists (kern s), t. split; [by rewrite with_kern_same|].
    split; try done; [exists (mem (kern s)); by destruct s as [[]]|unfold maps_of; cbn; lia|by apply grows_same].
  - apply Forall_cons in Hdata as [Hd Hds]. rewrite fmap_cons in *.
    apply Forall_cons in Hfit as [Hp Hps]. unfold maps_of in *. cbn [sum_list_with length foldl] in *.
    pose proof Hp as [_ [Hv0 Hv] _ Hsz _].
    pose proof (Z.mul_div_le (memsz (header p)) 4096 ltac:(lia)) as Hdiv.
    pose proof (Z.div_pos (memsz (header p)) 4096 ltac:(lia) ltac:(lia)) as Hdiv0.
    destruct (load_segment_ok root pm np p b s t A Ht HA Hpm Hp Hd) as (k1 & t1 & E1 & L1); try lia.
    pose proof L1 as [_ Ht1 HA1 B1 _ _ C1 _].
    destruct (IH (seg_brk b (header p)) (with_kern k1 s) t1 _ Ht1 HA1) as (k2 & t2 & E2 & L2);
      [by apply B1|done|done|lia|unfold seg_brk; lia|unfold seg_brk; lia|done|].
    exists k2, t2. split; [by rewrite E1, E2|].
    replace (2 * _) with (2 * Z.of_nat (seg_pages (header p)) +
      2 * Z.of_nat (sum_list_with seg_pages (header <$> ps))) by lia.
    by eapply loaded_trans.
Qed.

(** ** The pages of a new process *)

Record pages_ready (k : kernel) (t : list Page.seg) (np : nat) (f st tb pm : Z)
    (k' : kernel) (t' : list Page.seg) : Prop := {
  pg_state : exists m, k' = with_mem m k;
  pg_ok : mm_ok k' t';
  pg_frame : is_block k' t' f 1;
  pg_stack : is_block k' t' st 35;
  pg_table : is_table k' t' tb;
  pg_program : is_block k' t' pm np;
  pg_apart : NoDup [f; st; tb; pm];
  pg_zero x : tb <= x < tb + 4096 \/ pm <= x < pm + 4096 * Z.of_nat np -> byte (mem k') x = 0;
  pg_old c n : is_block k t c n -> is_block k' t' c n /\ c ∉ [f; st; tb; pm] /\
    forall x, c <= x < c + 4096 * Z.of_nat n -> byte (mem k') x = byte (mem k) x;
  pg_count : Page.free_pages t' = Page.free_pages t - 37 - Z.of_nat np;
}.

(** A new block leaves the older ones alone. *)
Lemma block_old k t a n k' t' c j :
  page_ok k t -> new_block k t a n k' t' -> is_block k t c j ->
  is_block k' t' c j /\ c <> a /\
  forall x, c <= x < c + 4096 * Z.of_nat j -> byte (mem k') x = byte (mem k) x.
Proof.
  intros Hok Hnew Hc. destruct (nb_keep _ _ _ _ _ _ Hnew c j Hc) as [Hc' Hd].
  pose proof (block_range _ _ _ _ Hok Hc) as (Hlo & _ & _ & Hj).
  pose proof (block_range _ _ _ _ (nb_ok _ _ _ _ _ _ Hnew) (nb_block _ _ _ _ _ _ Hnew)) as (_ & _ & _ & Hn).
  unfold Page.PAGE_SIZE in *. split_and!; [done|lia|]. intros x Hx. apply (nb_frame _ _ _ _ _ _ Hnew); unfold Page.PAGE_SIZE; lia.
Qed.

Lemma mm_new k t a n k' t' : mm_ok k t -> new_block k t a n k' t' -> mm_ok k' t'.
Proof.
  intros [_ Hal] Hnew. destruct (nb_start _ _ _ _ _ _ Hnew) as [m ->]. split; [|done]. apply Hnew.
Qed.

Lemma pages_ready_ok k t np i :
  mm_ok k t -> Page.room_at t i (37 + np) -> i + Z.of_nat (37 + np) < num_pages -> (0 < np)%nat ->
  exists f k1 st k2 tb k3 pm k4 t4,
    Page.zalloc 1 k = Done (f, k1) /\ Page.zalloc STACK_PAGES k1 = Done (st, k2) /\
    Page.zalloc 1 k2 = Done (tb, k3) /\ Page.zalloc (Z.of_nat np) k3 = Done (pm, k4) /\
    pages_ready k t np f st tb pm k4 t4.
Proof.
  intros Hok Hr Hi Hnp.
  destruct (zalloc_room k t 1 i (37 + np) (mm_page _ _ Hok) ltac:(lia) Hr Hi) as (f & k1 & t1 & E1 & F1 & N1).
  pose proof (mm_new _ _ _ _ _ _ Hok N1) as Ok1.
  pose proof (nb_room _ _ _ _ _ _ N1 i (37 + np) ltac:(lia) Hi Hr) as R1.
  replace (37 + np - 1)%nat with (36 + np)%nat in R1 by lia.
  destruct (zalloc_room k1 t1 35 (i + 1) (36 + np) (mm_page _ _ Ok1) ltac:(lia) R1 ltac:(lia)) as (st & k2 & t2 & E2 & F2 & N2).
  pose proof (mm_new _ _ _ _ _ _ Ok1 N2) as Ok2.
  pose proof (nb_room _ _ _ _ _ _ N2 (i + 1) (36 + np) ltac:(lia) ltac:(lia) R1) as R2.
  replace (36 + np - 35)%nat with (1 + np)%nat in R2 by lia.
  destruct (zalloc_room k2 t2 1 (i + 1 + 35) (1 + np) (mm_page _ _ Ok2) ltac:(lia) R2 ltac:(lia)) as (tb & k3 & t3 & E3 & F3 & N3).
  pose proof (mm_new _ _ _ _ _ _ Ok2 N3) as Ok3.
  pose proof (nb_room _ _ _ _ _ _ N3 (i + 1 + 35) (1 + np) ltac:(lia) ltac:(lia) R2) as R3.
  replace (1 + np - 1)%nat with np in R3 by lia.
  destruct (zalloc_room k3 t3 np (i + 1 + 35 + 1) np (mm_page _ _ Ok3) ltac:(lia) R3 ltac:(lia)) as (pm & k4 & t4 & E4 & F4 & N4).
  exists f, k1, st, k2, tb, k3, pm, k4, t4. split_and!; [done|done|done|done|].
  pose proof (fun c j => block_old _ _ _ _ _ _ c j (mm_page _ _ Hok) N1) as O1.
  pose proof (fun c j => block_old _ _ _ _ _ _ c j (mm_page _ _ Ok1) N2) as O2.
  pose proof (fun c j => block_old _ _ _ _ _ _ c j (mm_page _ _ Ok2) N3) as O3.
  pose proof (fun c j => block_old _ _ _ _ _ _ c j (mm_page _ _ Ok3) N4) as O4.
  destruct (O2 _ _ (nb_block _ _ _ _ _ _ N1)) as (Bf2 & Hfs & _).
  destruct (O3 _ _ Bf2) as (Bf3 & Hft & _). destruct (O4 _ _ Bf3) as (Bf4 & Hfp & _).
  destruct (O3 _ _ (nb_block _ _ _ _ _ _ N2)) as (Bs3 & Hst & _). destruct (O4 _ _ Bs3) as (Bs4 & Hsp & _).
  destruct (O4 _ _ (nb_block _ _ _ _ _ _ N3)) as (Bt4 & Htp & Zt).
  split; try done.
  - destruct (nb_start _ _ _ _ _ _ N1) as [m1 ->], (nb_start _ _ _ _ _ _ N2) as [m2 ->],
      (nb_start _ _ _ _ _ _ N3) as [m3 ->], (nb_start _ _ _ _ _ _ N4) as [m4 ->]. by exists m4.
  - by eapply mm_new.
  - apply N4.
  - rewrite !NoDup_cons, !not_elem_of_cons. split_and!; try done; try apply not_elem_of_nil; by apply NoDup_nil.
  - intros x [Hx|Hx]; [rewrite Zt by lia; apply (nb_zero _ _ _ _ _ _ N3)|apply (nb_zero _ _ _ _ _ _ N4)];
      unfold Page.PAGE_SIZE; lia.
  - intros c n Hc. destruct (O1 c n Hc) as (C1 & ? & X1). destruct (O2 c n C1) as (C2 & ? & X2).
    destruct (O3 c n C2) as (C3 & ? & X3). destruct (O4 c n C3) as (C4 & ? & X4).
    split_and!; [done|by rewrite !not_elem_of_cons; split_and!; try done; apply not_elem_of_nil|].
    intros x Hx. by rewrite X4, X3, X2, X1.
  - rewrite (nb_count _ _ _ _ _ _ N4), (nb_count _ _ _ _ _ _ N3), (nb_count _ _ _ _ _ _ N2), (nb_count _ _ _ _ _ _ N1). lia.
Qed.
(** ** The trap frame *)

(** What the hardware takes from satp: mode, address space and root table. *)
Definition satp_mode (x : Z) : Z := Z.shiftr x 60.
Definition satp_asid (x : Z) : Z := Z.land (Z.shiftr x 44) (Z.ones 16).
Definition satp_root (x : Z) : Z := Z.shiftl (Z.land x (Z.ones 44)) 12.

Lemma build_satp_sum asid addr :
  0 <= asid < 2 ^ 16 -> 0 <= addr < 2 ^ 52 ->
  Cpu.build_satp Cpu.Sv39 asid addr = (8 * 2 ^ 16 + asid) * 2 ^ 44 + addr / 4096.
Proof.
  intros Ha Hd. unfold Cpu.build_satp. cbn [Cpu.SatpMode_val].
  change 0xffff with (Z.ones 16). change 0xffffffffff with (Z.ones 40).
  rewrite !Z.land_ones, Z.shiftr_div_pow2, (Z.mod_small asid) by lia. change (2 ^ 12) with 4096.
  rewrite (Z.mod_small (addr / 4096))
    by (split; [apply Z.div_pos; lia|apply Z.div_lt_upper_bound; lia]).
  replace (Z.shiftl 8 60) with (Z.shiftl (Z.shiftl 8 16) 44) by done.
  rewrite <- Z.shiftl_lor, !Z.shiftl_mul_pow2 by lia.
  rewrite (MmuFacts.lor_offset 8 asid 16) by lia.
  rewrite (MmuFacts.lor_offset _ _ 44); [done|lia|].
  split; [apply Z.div_pos; lia|apply Z.div_lt_upper_bound; lia].
Qed.

Lemma satp_fields asid addr :
  0 <= asid < 2 ^ 16 -> 0 <= addr < 2 ^ 52 -> addr mod 4096 = 0 ->
  let x := Cpu.build_satp Cpu.Sv39 asid addr in
  0 <= x < 2 ^ 64 /\ satp_mode x = 8 /\ satp_asid x = asid /\ satp_root x = addr.
Proof.
  intros Ha Hd Hal x. unfold x. rewrite build_satp_sum by done.
  assert (0 <= addr / 4096 < 2 ^ 44) by (split; [apply Z.div_pos; lia|apply Z.div_lt_upper_bound; lia]).
  unfold satp_mode, satp_asid, satp_root.
  rewrite !Z.land_ones, Z.shiftl_mul_pow2, !Z.shiftr_div_pow2 by lia.
  split_and!; [lia|lia|..].
  - change (2 ^ 60) with (2 ^ 44 * 2 ^ 16). rewrite <- Z.div_div by lia.
    rewrite Z.div_add_l, (Z.div_small (addr / 4096)) by lia.
    symmetry. apply (Z.div_unique _ _ _ asid); lia.
  - rewrite Z.div_add_l, (Z.div_small (addr / 4096)) by lia. rewrite Z.add_0_r.
    symmetry. apply (Z.mod_unique _ _ 8); lia.
  - rewrite Z.add_comm, Z.mod_add, Z.mod_small by lia. change (2 ^ 12) with 4096.
    pose proof (Z.div_mod addr 4096 ltac:(lia)). lia.
Qed.

(** The frame of a process in user mode. *)
Record user_frame (m : memory) (p : process) (entry : Z) : Prop := {
  uf_pc : rd64 m (pc_addr (frame p)) = entry;
  uf_sp : rd64 m (reg_addr (frame p) Cpu.Sp) = STACK_ADDR + 34 * 4096;
  uf_mode : rd64 m (mode_addr (frame p)) = Cpu.CpuMode_val Cpu.User;
  uf_pid : rd64 m (pid_addr (frame p)) = pid p;
  uf_satp : let x := rd64 m (satp_addr (frame p)) in
    satp_mode x = 8 /\ satp_asid x = pid p /\ satp_root x = mmu_table p;
}.

Lemma fill_user_frame_ok p entry s :
  0 < frame p -> 0 <= entry < 2 ^ 64 -> 0 <= pid p < 2 ^ 16 ->
  0 <= mmu_table p < 2 ^ 52 -> mmu_table p mod 4096 = 0 ->
  exists m, fill_user_frame (frame p) entry (pid p) (mmu_table p) s =
      Done (tt, with_kern (with_mem m (kern s)) s) /\ user_frame m p entry /\
    forall x, x < frame p \/ frame p + 4096 <= x -> byte m x = byte (mem (kern s)) x.
Proof.
  intros Hf He Hp Ht Hal. destruct (satp_fields _ _ Hp Ht Hal) as (Hx & Hs).
  unfold fill_user_frame. do 4 erewrite bind_done by (apply set_field_ok; lia).
  rewrite set_field_ok by lia. cbn [kern with_kern mem with_mem]. eexists. split; [reflexivity|].
  split.
  - split; unfold pc_addr, pid_addr, mode_addr, reg_addr, satp_addr, STACK_PAGES, STACK_ADDR, Page.PAGE_SIZE;
      cbn [Cpu.gp Cpu.CpuMode_val]; repeat (rewrite rd64_wr64_ne by lia);
      rewrite rd64_wr64 by lia; done.
  - intros x Hxo. unfold pc_addr, pid_addr, mode_addr, reg_addr, satp_addr. cbn [Cpu.gp].
    rewrite !byte_wr64 by lia. done.
Qed.
(** ** Making the process *)

Lemma size_pos phs : Forall (fun ph => 0 <= memsz ph) phs -> 0 <= size_of phs.
Proof. induction 1 as [|q phs Hq _ IH]; [done|]. cbn. fold (size_of phs). lia. Qed.

Lemma total_ok ps : forall n, Forall (fun ph => 0 <= memsz ph) (header <$> ps) -> 0 <= n ->
  n + size_of (header <$> ps) < 2 ^ 64 -> total_memsz ps n = Done (n + size_of (header <$> ps)).
Proof.
  induction ps as [|p ps IH]; intros n Hall Hn Hlt; cbn [total_memsz]; [cbn; by rewrite Z.add_0_r|].
  rewrite fmap_cons in *. apply Forall_cons in Hall as [Hp Hps]. pose proof (size_pos _ Hps) as Hs0.
  cbn [size_of foldr] in *. fold (size_of (header <$> ps)) in *.
  assert (usize (n + memsz (header p)) = Done (n + memsz (header p))) as -> by (apply uint_ok; lia).
  cbn [mbind outcome_bind]. rewrite IH by (done || lia). f_equal. lia.
Qed.

Lemma load_pid_ok s : 0 <= NEXT_PID s -> NEXT_PID s + 1 < 2 ^ 16 ->
  load_pid s = Done (NEXT_PID s + 1, mkP (kern s) (PROCESS_LIST s) (PROCESS_LIST_MUTEX s) (NEXT_PID s + 1) (ticks s)).
Proof.
  intros Hn0 Hn1. unfold load_pid. erewrite bind_done by reflexivity.
  do 2 erewrite bind_done by (apply lift_done, uint_ok; lia). by erewrite bind_done by reflexivity.
Qed.

(** A process whose memory is as the segments say. *)
Record process_ready (s : pstate) (t : list Page.seg) (entry : Z) (ps : list Program) (p : process)
    (s' : pstate) (t' : list Page.seg) : Prop := {
  rd_state : exists m, s' = mkP (with_mem m (kern s)) (PROCESS_LIST s) (PROCESS_LIST_MUTEX s) (NEXT_PID s + 1) (ticks s);
  rd_pid : pid p = NEXT_PID s + 1;
  rd_running : state p = Running /\ data p = ProcessData_new;
  rd_brk : brk p = foldl seg_brk 0 (header <$> ps);
  rd_tree : tree (kern s') t' (mmu_table p);
  rd_blocks : stranger (kern s') t' (mmu_table p) (frame p) 1 /\
    stranger (kern s') t' (mmu_table p) (stack p) 35 /\
    stranger (kern s') t' (mmu_table p) (program p) (program_pages (header <$> ps));
  rd_map : implements (mem (kern s')) (mmu_table p) (process_map (program p) (stack p) (header <$> ps));
  rd_image x : program p <= x < program p + 4096 * Z.of_nat (program_pages (header <$> ps)) ->
    byte (mem (kern s')) x = foldl (seg_image (program p)) (fun _ => 0) ps x;
  rd_frame : user_frame (mem (kern s')) p entry;
  rd_old c n : is_block (kern s) t c n -> stranger (kern s') t' (mmu_table p) c n /\
    c ∉ [frame p; stack p; mmu_table p; program p] /\
    forall x, c <= x < c + 4096 * Z.of_nat n -> byte (mem (kern s')) x = byte (mem (kern s)) x;
  rd_apart : NoDup [frame p; stack p; mmu_table p; program p];
  rd_count : Page.free_pages t' = Page.free_pages t - 37 - Z.of_nat (program_pages (header <$> ps)) -
    zlen (UserExit.tables (mem (kern s')) (mmu_table p));
}.

(** The pages and the room a process takes. *)
Record room_for (s : pstate) (t : list Page.seg) (phs : list ProgramHeader) (i : Z) : Prop := {
  rf_ok : mm_ok (kern s) t;
  rf_room : Page.room_at t i (37 + program_pages phs);
  rf_last : i + Z.of_nat (37 + program_pages phs) < num_pages;
  rf_free : 37 + Z.of_nat (program_pages phs) + 2 * (maps_of phs + 35) + 1 <= Page.free_pages t;
  rf_ram : ALLOC_START (kern s) + 4096 * (num_pages + 1) < 2 ^ 52;
  rf_pid : 0 <= NEXT_PID s /\ NEXT_PID s + 1 < 2 ^ 16;
  rf_segs : Forall (seg_fits (program_pages phs)) phs;
  rf_count : zlen phs < 2 ^ 16;
}.

Lemma block_below k t a n :
  page_ok k t -> is_block k t a n -> a + 4096 * Z.of_nat n <= ALLOC_START k + 4096 * num_pages.
Proof.
  intros Hok (t1 & t2 & -> & ->). pose proof (run_pos _ _ _ _ Hok) as Hn.
  pose proof (tbl_len _ _ Hok) as Hlen. rewrite !Page.pages_of_app, Page.pages_of_run in Hlen by done.
  assert (0 <= Page.pages_of t2) by (unfold Page.pages_of; lia).
  unfold page_addr, Page.PAGE_SIZE in *. lia.
Qed.
(** A kernel with new pages is one where the segments can be loaded. *)
Lemma pages_tree k t np f st tb pm k' t' :
  pages_ready k t np f st tb pm k' t' ->
  tree k' t' tb /\ implements (mem k') tb ∅ /\
  (forall c n, is_block k' t' c n -> c <> tb -> stranger k' t' tb c n) /\
  (forall q a, node (mem k') tb q a -> a = tb).
Proof.
  intros [_ Hok _ _ Htb _ _ Hz _ _].
  destruct (empty_tree k' t' tb Hok Htb) as (Ht & Hn & HA); [intros x Hx; apply Hz; by left|].
  split_and!; [done|done| |done]. intros c n Hc Hne. split; [done|]. intros q Hq. by apply Hne, (Hn q).
Qed.

(** A tree that grew from its root alone took one page for each table below it. *)
Lemma grows_tables k t root k' t' :
  (forall q a, node (mem k) root q a -> a = root) -> tree k' t' root -> grows k t root k' t' ->
  Page.free_pages t' = Page.free_pages t - zlen (UserExit.tables (mem k') root).
Proof.
  intros Hroot Ht (new & Hnd & Hn & Hfresh & ->). enough (UserExit.tables (mem k') root ≡ₚ new) as -> by done.
  apply NoDup_Permutation; [by eapply UserExit.nodup_tables|done|]. intros a. rewrite UserExit.elem_tables. split.
  - intros (i & q & Hq). destruct (proj1 (Hn a) (ex_intro _ _ Hq)) as [[r Hr]|Ha]; [|done].
    rewrite (Hroot _ _ Hr) in Hq. by pose proof (tr_own _ _ _ Ht _ _ _ Hq (node_root _ _)).
  - intros Ha. destruct (proj2 (Hn a) (or_intror Ha)) as [[|i q] Hq]; [|by exists i, q].
    inversion Hq; subst. by destruct (Hfresh _ _ Ha (node_root _ _)).
Qed.

(** The two loops and the trap frame on the new pages. *)
Lemma fill_process_ok ps f st tb pm entry s k t k4 t4 :
  pages_ready k t (program_pages (header <$> ps)) f st tb pm k4 t4 -> kern s = k4 ->
  Forall (seg_fits (program_pages (header <$> ps))) (header <$> ps) -> Forall has_data ps -> 2 * (maps_of (header <$> ps) + 35) + 1 <= Page.free_pages t4 ->
  ALLOC_START k + 4096 * (num_pages + 1) < 2 ^ 52 -> zlen ps < 2 ^ 16 ->
  0 <= entry < 2 ^ 64 -> 0 <= NEXT_PID s < 2 ^ 16 ->
  let p := mkProcess f st (NEXT_PID s) tb Running ProcessData_new 0 pm (foldl seg_brk 0 (header <$> ps)) in
  exists m t', (b ← map_programs tb pm ps 0; _ ← map_stack tb st (Z.to_nat STACK_PAGES) 0;
      _ ← fill_user_frame f entry (NEXT_PID s) tb;
      mret (mkProcess f st (NEXT_PID s) tb Running ProcessData_new 0 pm b)) s =
      Done (p, with_kern (with_mem m k4) s) /\
    tree (with_mem m k4) t' tb /\ implements m tb (process_map pm st (header <$> ps)) /\
    (forall c n, is_block k4 t4 c n -> c <> tb -> stranger (with_mem m k4) t' tb c n) /\
    (forall x, pm <= x < pm + 4096 * Z.of_nat (program_pages (header <$> ps)) -> 
       byte m x = foldl (seg_image pm) (fun _ => 0) ps x) /\
    user_frame m p entry /\
    (forall c n x, is_block k4 t4 c n -> c ∉ [f; st; tb; pm] -> c <= x < c + 4096 * Z.of_nat n ->
       byte m x = byte (mem k4) x) /\
    Page.free_pages t' = Page.free_pages t4 - zlen (UserExit.tables m tb).
Proof.
  intros Hpg Es Hseg Hdata Hfree Hram Hlen He Hpid p.
  destruct (pages_tree _ _ _ _ _ _ _ _ _ Hpg) as (Ht & HA & Hstr & Hone).
  destruct Hpg as [[m0 E0] Hok Bf Bs Bt Bp Hnd Hz _ _].
  assert (ALLOC_START k4 = ALLOC_START k) as Eal by (by rewrite E0). rewrite <- Eal in Hram.
  clear E0 Eal. subst k4. rewrite !NoDup_cons, !not_elem_of_cons in Hnd.
  destruct Hnd as ((Hfs & Hft & Hfp & _) & (Hst & Hsp & _) & (Htp & _) & _).
  assert (forall a n, is_block (kern s) t4 a n -> 0 < a /\ a + 4096 * Z.of_nat n + 4096 < 2 ^ 52) as Hblk.
  { intros a n Ha. pose proof (block_below _ _ _ _ (mm_page _ _ Hok) Ha).
    pose proof (block_range _ _ _ _ (mm_page _ _ Hok) Ha) as (Hlo & _ & _ & Hn).
    pose proof (tbl_pos _ _ (mm_page _ _ Hok)). pose proof (tbl_len _ _ (mm_page _ _ Hok)).
    assert (0 <= Page.pages_of t4) by (unfold Page.pages_of; lia). lia. }
  pose proof (Hblk _ _ Bf) as Rf. pose proof (Hblk _ _ Bs) as Rs. pose proof (Hblk _ _ Bp) as Rp.
  pose proof (Hblk _ _ Bt) as Rt. pose proof (table_range _ _ _ Hok Bt) as (_ & _ & _ & Hal).
  assert (0 <= maps_of (header <$> ps)) as Hm0 by (unfold maps_of; lia).
  destruct (map_programs_ok tb pm _ ps 0 s t4 ∅ Ht HA (Hstr _ _ Bp (not_eq_sym Htp)) Hseg Hdata)
    as (k1 & t1 & E1 & [[m1 ->] Ht1 HA1 B1 S1 I1 C1 G1]); try lia.
  destruct (map_stack_ok tb st 35 0 (with_kern (with_mem m1 (kern s)) s) t1 _ Ht1 HA1)
    as (k2 & t2 & E2 & [[m2 ->] Ht2 HA2 K2 C2 G2]); try (cbn [kern with_kern] in *; lia).
  cbn [kern with_kern mem with_mem] in *.
  change (with_mem m2 (with_mem m1 (kern s))) with (with_mem m2 (kern s)) in *.
  destruct (fill_user_frame_ok p entry (with_kern (with_mem m2 (kern s)) s)) as (m3 & E3 & Huf & Hm3);
    try (cbn [p frame pid mmu_table]; lia). cbn [p frame pid mmu_table kern with_kern mem with_mem] in E3, Hm3.
  assert (stranger (with_mem m2 (kern s)) t2 tb f 1) as Sf by (by apply K2, B1, Hstr).
  destruct (stranger_write _ _ _ _ _ m3 Ht2 Sf) as (Ht3 & Hn3 & Hv3); [intros x Hx; apply Hm3; lia|].
  exists m3, t2. split_and!.
  - erewrite bind_done by exact E1. change (Z.to_nat STACK_PAGES) with 35%nat.
    erewrite bind_done by exact E2. by erewrite bind_done by exact E3.
  - exact Ht3.
  - intros va Hva. rewrite !Z.mul_0_l, !Z.add_0_r in HA2. rewrite Hv3. by apply HA2.
  - intros c n Hc Hne. destruct (K2 c n (B1 c n (Hstr c n Hc Hne))) as [[Hc2 Hno] _].
    split; [exact Hc2|]. intros q Hq. by apply (Hno q), Hn3.
  - intros x Hx. destruct (K2 pm _ (B1 _ _ (Hstr _ _ Bp (not_eq_sym Htp)))) as [_ Hk].
    pose proof (blocks_apart _ _ _ _ _ _ (mm_page _ _ Hok) Bf Bp Hfp) as Hd. unfold Page.PAGE_SIZE in Hd.
    rewrite Hm3 by lia. rewrite Hk, I1 by done. apply images_cong, Hz. by right.
  - exact Huf.
  - intros c n x Hc Hno Hx. rewrite !not_elem_of_cons in Hno. destruct Hno as (Hcf & Hcs & Hct & Hcp & _).
    pose proof (blocks_apart _ _ _ _ _ _ (mm_page _ _ Hok) Hc Bf Hcf) as Hd. unfold Page.PAGE_SIZE in Hd.
    destruct (K2 c n (B1 _ _ (Hstr _ _ Hc Hct))) as [_ Hk].
    rewrite Hm3 by lia. rewrite Hk by done. by apply (S1 c n); [apply Hstr|..].
  - apply (grows_tables (kern s) t4 tb (with_mem m3 (kern s)) t2 Hone Ht3).
    eapply grows_trans; [exact G1|]. eapply grows_trans; [exact G2|]. by apply grows_same.
Qed.

Lemma make_process_ok s t entry ps i :
  room_for s t (header <$> ps) i -> Forall has_data ps -> 0 <= entry < 2 ^ 64 ->
  exists p s' t', make_process entry ps s = Done (p, s') /\ process_ready s t entry ps p s' t'.
Proof.
  intros [Hok Hroom Hlast Hfree Hram [Hp0 Hp1] Hseg Hlen] Hdata He.
  assert (Forall (fun ph => 0 <= memsz ph) (header <$> ps)) as Hpos
    by (eapply Forall_impl; [exact Hseg|]; by intros p [_ _ _ ? _]).
  pose proof (size_pos _ Hpos) as Hs0. rewrite length_fmap in Hlen.
  pose proof (Page.room_free _ _ _ Hroom) as (_ & Hi0 & _).
  assert (0 < (size_of (header <$> ps) + 8192) / 4096) as Hnp by (apply Z.div_str_pos; lia).
  assert (Z.of_nat (program_pages (header <$> ps)) = (size_of (header <$> ps) + 8192) / 4096) as Enp by (unfold program_pages; lia).
  pose proof (Z.div_mod (size_of (header <$> ps) + 8192) 4096 ltac:(lia)) as Hdm.
  pose proof (Z.mod_pos_bound (size_of (header <$> ps) + 8192) 4096 ltac:(lia)) as Hmb.
  pose proof (tbl_below _ _ (mm_page _ _ Hok)). pose proof (tbl_pos _ _ (mm_page _ _ Hok)).
  destruct (pages_ready_ok (kern s) t (program_pages (header <$> ps)) i Hok Hroom Hlast ltac:(lia))
    as (f & k1 & st & k2 & tb & k3 & pm & k4 & t4 & E1 & E2 & E3 & E4 & Hpg).
  set (s0 := mkP k4 (PROCESS_LIST s) (PROCESS_LIST_MUTEX s) (NEXT_PID s + 1) (ticks s)).
  destruct (fill_process_ok ps f st tb pm entry s0 (kern s) t k4 t4 Hpg eq_refl Hseg Hdata)
    as (m & t' & E & Ht & HA & Hstr & Hi & Hf & Ho & Hcount); [|done|done|done| |].
  { rewrite (pg_count _ _ _ _ _ _ _ _ _ Hpg). lia. }
  { cbn. lia. }
  eexists _, _, t'. split.
  - unfold make_process. erewrite bind_done by (apply lift_done, total_ok; [done|lia|lia]).
    rewrite Z.add_0_l. unfold Page.PAGE_SIZE. erewrite bind_done by (apply lift_done, uint_ok; lia).
    change (4096 * 2) with 8192. rewrite <- Enp.
    erewrite bind_done by (by apply load_pid_ok).
    erewrite bind_done by (apply on_kern_done; exact E1).
    erewrite bind_done by (apply on_kern_done; exact E2).
    erewrite bind_done by (apply on_kern_done; exact E3).
    erewrite bind_done by (apply on_kern_done; exact E4).
    rewrite (proj2 (Z.eqb_neq tb 0)) by (pose proof (table_range _ _ _ (pg_ok _ _ _ _ _ _ _ _ _ Hpg)
      (pg_table _ _ _ _ _ _ _ _ _ Hpg)); lia).
    erewrite bind_done by reflexivity. exact E.
  - pose proof Hpg as [[m4 E4'] _ Bf Bs Bt Bp Hnd _ Hold _]. rewrite !NoDup_cons, !not_elem_of_cons in Hnd.
    destruct Hnd as ((_ & Hft & _ & _) & (Hst & _ & _) & (Htp & _) & _).
    split; try done.
    + exists m. by subst k4.
    + split_and!; apply Hstr; done.
    + intros c n Hc. destruct (Hold c n Hc) as (Hc4 & Hno & Hb).
      split_and!; [apply Hstr; [done|]; intros ->; apply Hno; rewrite !elem_of_cons; auto|done|].
      intros x Hx. cbn. rewrite (Ho c n x), Hb by done. done.
    + apply Hpg.
    + rewrite <- (pg_count _ _ _ _ _ _ _ _ _ Hpg). exact Hcount.
Qed.
(** ** What the process sees *)

Lemma pairs_after {A} (R : A -> A -> Prop) l1 x l2 : List.ForallOrdPairs R (l1 ++ x :: l2) -> Forall (R x) l2.
Proof. induction l1 as [|y l1 IH]; inversion 1 as [|? ? Hx Hl]; subst; [done|by apply IH]. Qed.

Lemma page_no_small va : 0 <= va < 2 ^ 39 -> page_no va = va / 4096.
Proof.
  intros Hva. unfold page_no. apply Z.mod_small. split; [apply Z.div_pos; lia|apply Z.div_lt_upper_bound; lia].
Qed.

(** The page of a segment that comes from the [i]-th round. *)
Lemma seg_page ph i :
  seg_visible ph -> 0 <= vaddr ph -> 0 <= i < Z.of_nat (seg_pages ph) ->
  page_no (vaddr ph + 4096 * i) = vaddr ph / 4096 + i /\
  vaddr ph / 4096 + i < STACK_ADDR / 4096.
Proof.
  intros [_ _ Hb] Hv Hi. unfold STACK_ADDR in *.
  assert ((vaddr ph + 4096 * i) / 4096 = vaddr ph / 4096 + i) as E by (rewrite Z.mul_comm, Z.div_add by lia; done).
  split; [rewrite page_no_small by lia; done|]. rewrite <- E. apply Z.div_lt_upper_bound; [lia|].
  change (4096 * (4294967296 / 4096)) with 4294967296. lia.
Qed.

Lemma segs_out pm phs q : forall A, 
  Forall (fun ph => forall i, 0 <= i < Z.of_nat (seg_pages ph) -> page_no (vaddr ph + 4096 * i) <> q) phs ->
  foldl (seg_map pm) A phs !! q = A !! q.
Proof.
  induction phs as [|ph phs IH]; intros A Hq; [done|]. apply Forall_cons in Hq as [Hp Hps].
  cbn [foldl]. rewrite IH by done. by apply map_range_out.
Qed.

Lemma process_map_segment pm st l1 ph l2 i :
  Forall seg_visible (l1 ++ ph :: l2) -> Forall (fun ph => 0 <= vaddr ph) (l1 ++ ph :: l2) ->
  List.ForallOrdPairs seg_apart (l1 ++ ph :: l2) -> 0 <= i < Z.of_nat (seg_pages ph) ->
  process_map pm st (l1 ++ ph :: l2) !! (vaddr ph / 4096 + i) =
    Some ((pm + off ph + 4096 * i) mod 2 ^ 56 / 4096 * 4096).
Proof.
  intros Hv Hp Ha Hi. apply pairs_after in Ha. apply Forall_app in Hv as [_ Hv], Hp as [_ Hp].
  apply Forall_cons in Hv as [Hv Hvs], Hp as [Hp Hps].
  destruct (seg_page ph i Hv Hp Hi) as [Epg Hlt]. unfold process_map.
  rewrite map_range_out.
  2:{ intros j Hj. unfold STACK_ADDR in *. rewrite page_no_small by lia.
      rewrite Z.mul_comm, Z.div_add by lia. lia. }
  rewrite foldl_app. cbn [foldl]. rewrite segs_out.
  - unfold seg_map. rewrite <- Epg. apply map_range_in; [|done].
    pose proof (sv_below _ Hv). unfold STACK_ADDR in *. lia.
  - apply Forall_forall. intros b Hb j Hj. rewrite Forall_forall in *.
    destruct (seg_page b j (Hvs b Hb) (Hps b Hb) Hj) as [-> _].
    destruct (sa_pages _ _ (Ha b Hb)); lia.
Qed.

Lemma image_segment pm l1 p l2 b j :
  List.ForallOrdPairs seg_apart (header <$> l1 ++ p :: l2) ->
  Forall (fun q => 0 <= memsz (header q)) (p :: l2) ->
  0 <= j < Cpu.memcpy_len (memsz (header p)) ->
  foldl (seg_image pm) b (l1 ++ p :: l2) (pm + off (header p) + j) = nthZ (pdata p) j.
Proof.
  intros Ha Hm Hj. rewrite fmap_app, fmap_cons in Ha. apply pairs_after in Ha.
  apply Forall_fmap in Ha. apply Forall_cons in Hm as [Hm Hms]. rewrite foldl_app. cbn [foldl].
  pose proof (Cpu.memcpy_len_bounds _ Hm) as Hl.
  transitivity (seg_image pm (foldl (seg_image pm) b l1) p (pm + off (header p) + j)).
  - generalize (seg_image pm (foldl (seg_image pm) b l1) p) as g.
    induction l2 as [|q l2 IH]; intros g; [done|]. apply Forall_cons in Ha as [Hq Ha], Hms as [Hmq Hms].
    cbn [foldl]. rewrite (IH Ha Hms). unfold seg_image.
    pose proof (Cpu.memcpy_len_bounds _ Hmq). destruct (sa_bytes _ _ Hq); rewrite decide_False by lia; done.
  - unfold seg_image. rewrite decide_True by lia. f_equal. lia.
Qed.
(** Byte [j] of a segment: its page and its place there. *)
Lemma seg_place pm v o j :
  pm mod 4096 = 0 -> 0 <= v -> 0 <= o -> 0 <= j -> 0 <= pm -> v mod 4096 = o mod 4096 ->
  let i := (v mod 4096 + j) / 4096 in
  (v + j) / 4096 = v / 4096 + i /\ 0 <= i /\
  (pm + o + 4096 * i) / 4096 * 4096 + (v + j) mod 4096 = pm + o + j.
Proof. intros Hpm Hv Ho Hj Hpm0 E i. unfold i. Z.to_euclidean_division_equations. lia. Qed.

Lemma block_aligned k t a n : mm_ok k t -> is_block k t a n -> a mod 4096 = 0 /\ 0 < a.
Proof.
  intros [Hok Hal] Hb. pose proof (block_range _ _ _ _ Hok Hb) as (_ & Hlo & _ & Hn).
  pose proof (tbl_below _ _ Hok). pose proof (tbl_pos _ _ Hok). pose proof (tbl_len _ _ Hok).
  assert (0 <= Page.pages_of t) by (unfold Page.pages_of; lia).
  destruct Hb as (t1 & t2 & _ & ->). unfold page_addr, Page.PAGE_SIZE in *.
  split; [by rewrite Z.mul_comm, Z.mod_add by lia|lia].
Qed.

Lemma process_sees s t entry ps p s' t' i q j :
  room_for s t (header <$> ps) i -> process_ready s t entry ps p s' t' ->
  Forall seg_visible (header <$> ps) -> List.ForallOrdPairs seg_apart (header <$> ps) ->
  q ∈ ps -> 0 <= j < Cpu.memcpy_len (memsz (header q)) ->
  exists pa, Mmu.virt_to_phys (mem (kern s')) (mmu_table p) (vaddr (header q) + j) = Done (Some pa) /\
    byte (mem (kern s')) pa = nthZ (pdata q) j.
Proof.
  intros Hroom [[m Es] _ _ _ Ht (_ & _ & Hpm) HA Him _ _] Hv Ha (l1 & l2 & ->)%list_elem_of_split Hj.
  set (ph := header q) in *. set (pm := program p) in *.
  pose proof (rf_segs _ _ _ _ Hroom) as Hfit. set (np := program_pages (header <$> l1 ++ q :: l2)) in *.
  assert (seg_fits np ph /\ seg_visible ph) as [Hf Hvq].
  { split.
    - rewrite fmap_app, fmap_cons in Hfit. by apply Forall_app in Hfit as [_ [? _]%Forall_cons].
    - rewrite fmap_app, fmap_cons in Hv. by apply Forall_app in Hv as [_ [? _]%Forall_cons]. }
  pose proof Hf as [_ [Hv0 _] Ho Hsz Hin]. pose proof (Cpu.memcpy_len_bounds _ Hsz) as Hl.
  pose proof (tr_ok _ _ _ Ht) as Hok.
  assert (pm mod 4096 = 0 /\ 0 < pm /\ pm + 4096 * Z.of_nat np < 2 ^ 52) as (Hal & Hp0 & Hp1).
  { pose proof (block_below _ _ _ _ (mm_page _ _ Hok) (proj1 Hpm)) as Hbb.
    assert (ALLOC_START (kern s') = ALLOC_START (kern s)) as Eal by (by rewrite Es).
    pose proof (rf_ram _ _ _ _ Hroom). destruct (block_aligned _ _ _ _ Hok (proj1 Hpm)).
    rewrite Eal in Hbb. split_and!; [done|done|lia]. }
  destruct (seg_place pm (vaddr ph) (off ph) j Hal Hv0 Ho ltac:(lia) ltac:(lia) (sv_align _ Hvq)) as (E1 & Hi & E2).
  set (k := (vaddr ph mod 4096 + j) / 4096) in *.
  assert (k < Z.of_nat (seg_pages ph)) as Hk.
  { unfold k. apply Z.div_lt_upper_bound; [lia|]. pose proof (sv_pages _ Hvq). lia. }
  exists (pm + off ph + j). split.
  - rewrite HA by lia. pose proof (sv_below _ Hvq) as Hb. unfold STACK_ADDR in Hb.
    pose proof (Z.mod_pos_bound (vaddr ph) 4096 ltac:(lia)).
    rewrite page_no_small by (pose proof (sv_pages _ Hvq); lia). rewrite E1.
    assert (header <$> l1 ++ q :: l2 = (header <$> l1) ++ ph :: (header <$> l2)) as Eh by (by rewrite fmap_app).
    rewrite Eh, process_map_segment; rewrite <- ?Eh; try done.
    + cbn [fmap option_fmap option_map]. rewrite Z.mod_small; [by rewrite E2|].
      pose proof (Z.mul_div_le (vaddr ph mod 4096 + j) 4096 ltac:(lia)) as Hmd. fold k in Hmd. lia.
    + eapply Forall_impl; [exact Hfit|]. by intros b [_ [? _] _ _ _].
  - rewrite Him by lia. unfold ph, pm. rewrite image_segment; [done|done| |done].
    rewrite fmap_app in Hfit. apply Forall_app in Hfit as [_ Hfit]. apply (proj1 (Forall_fmap header _ _)) in Hfit.
    eapply Forall_impl; [exact Hfit|]. by intros b [_ _ _ ? _].
Qed.
(** The stack is where it is expected. *)
Lemma process_stack pm st phs j :
  0 <= j < 35 * 4096 -> st mod 4096 = 0 -> 0 <= st -> st + 35 * 4096 < 2 ^ 56 ->
  exists pg, process_map pm st phs !! page_no (STACK_ADDR + j) = Some pg /\ pg + (STACK_ADDR + j) mod 4096 = st + j.
Proof.
  intros Hj Hal Hst Hlt. pose proof (Z.div_mod j 4096 ltac:(lia)) as Hdm.
  assert (0 <= j / 4096 < 35) as Hi by (split; [apply Z.div_pos; lia|apply Z.div_lt_upper_bound; lia]).
  exists ((st + 4096 * (j / 4096)) mod 2 ^ 56 / 4096 * 4096). split.
  - assert (page_no (STACK_ADDR + j) = page_no (STACK_ADDR + 4096 * (j / 4096))) as ->.
    { unfold STACK_ADDR. rewrite !page_no_small by lia. Z.to_euclidean_division_equations. lia. }
    apply map_range_in; lia.
  - rewrite Z.mod_small by lia. unfold STACK_ADDR. clear -Hal Hj Hst. Z.to_euclidean_division_equations. lia.
Qed.

Lemma done_inj {A} (a b : A) : Done a = Done b -> a = b.
Proof. by intros [= ->]. Qed.

(** Every page of the map lies in the program or in the stack. *)
Lemma seg_pages_inside pm np ph i :
  pm mod 4096 = 0 -> 0 <= pm -> pm + 4096 * Z.of_nat np < 2 ^ 56 -> seg_fits np ph ->
  0 <= i < Z.of_nat (seg_pages ph) ->
  let pg := (pm + off ph + 4096 * i) mod 2 ^ 56 / 4096 * 4096 in pm <= pg /\ pg + 4096 <= pm + 4096 * Z.of_nat np.
Proof.
  intros Hal Hpm Hlt [_ _ Ho Hsz Hin] Hi pg. unfold seg_pages in Hi.
  assert (4096 * i <= memsz ph) as Hle by (Z.to_euclidean_division_equations; lia).
  unfold pg. rewrite Z.mod_small by lia. clear -Hal Ho Hin Hle Hi Hpm. Z.to_euclidean_division_equations. lia.
Qed.

Lemma process_map_inside pm st phs np q pg :
  pm mod 4096 = 0 -> 0 <= pm -> pm + 4096 * Z.of_nat np < 2 ^ 56 ->
  st mod 4096 = 0 -> 0 <= st -> st + 35 * 4096 < 2 ^ 56 -> Forall (seg_fits np) phs ->
  process_map pm st phs !! q = Some pg ->
  (pm <= pg /\ pg + 4096 <= pm + 4096 * Z.of_nat np) \/ (st <= pg /\ pg + 4096 <= st + 35 * 4096).
Proof.
  intros Ap Hp Lp As Hs Ls Hfit [(i & Hi & ->)|Hq]%map_range_some.
  - right. rewrite Z.mod_small by lia. clear -As Hs Hi. Z.to_euclidean_division_equations. lia.
  - left. assert ((∅ : gmap Z Z) !! q = None) as He by apply lookup_empty.
    revert Hq He. generalize (∅ : gmap Z Z) as A.
    assert (forall A : gmap Z Z, (forall v, A !! q = Some v -> pm <= v /\ v + 4096 <= pm + 4096 * Z.of_nat np) ->
      foldl (seg_map pm) A phs !! q = Some pg -> pm <= pg /\ pg + 4096 <= pm + 4096 * Z.of_nat np) as Hg.
    { induction Hfit as [|ph phs Hf _ IH]; intros A HA; [by apply HA|]. cbn [foldl]. apply IH.
      intros v [(i & Hi & ->)|Hv]%map_range_some; [by apply (seg_pages_inside pm np ph i)|by apply HA]. }
    intros A Hq He. apply (Hg A); [|done]. congruence.
Qed.
(** The blocks of the new process. *)
Lemma ready_block s t phs i entry ps p s' t' a n :
  room_for s t phs i -> process_ready s t entry ps p s' t' -> is_block (kern s') t' a n ->
  a mod 4096 = 0 /\ 0 < a /\ a + 4096 * Z.of_nat n < 2 ^ 52.
Proof.
  intros Hroom [[m Es] _ _ _ Ht _ _ _ _ _] Hb. pose proof (tr_ok _ _ _ Ht) as Hok.
  destruct (block_aligned _ _ _ _ Hok Hb) as [Hal Hpos].
  pose proof (block_below _ _ _ _ (mm_page _ _ Hok) Hb) as Hbb.
  assert (ALLOC_START (kern s') = ALLOC_START (kern s)) as Eal by (by rewrite Es).
  pose proof (rf_ram _ _ _ _ Hroom). rewrite Eal in Hbb. split_and!; [done|done|lia].
Qed.

(** Every address of the new process leads into its program or its stack. *)
Lemma ready_reaches s t i entry ps p s' t' va pa :
  room_for s t (header <$> ps) i -> process_ready s t entry ps p s' t' -> 0 <= va ->
  Mmu.virt_to_phys (mem (kern s')) (mmu_table p) va = Done (Some pa) ->
  program p <= pa < program p + 4096 * Z.of_nat (program_pages (header <$> ps)) \/
  stack p <= pa < stack p + 4096 * 35.
Proof.
  intros Hroom Hr Hva Epa. destruct (rd_blocks _ _ _ _ _ _ _ Hr) as (_ & [Bs _] & [Bp _]).
  destruct (ready_block _ _ _ _ _ _ _ _ _ _ _ Hroom Hr Bs) as (As & Ps & Ls).
  destruct (ready_block _ _ _ _ _ _ _ _ _ _ _ Hroom Hr Bp) as (Ap & Pp & Lp).
  rewrite (rd_map _ _ _ _ _ _ _ Hr) in Epa by done. apply done_inj, fmap_Some in Epa as (pg & Hpg & ->).
  pose proof (Z.mod_pos_bound va 4096 ltac:(lia)).
  pose proof (rf_segs _ _ _ _ Hroom) as Hseg. set (np := program_pages (header <$> ps)) in *.
  destruct (process_map_inside _ _ _ np _ _ Ap ltac:(lia) ltac:(lia) As ltac:(lia) ltac:(lia) Hseg Hpg);
    [left|right]; lia.
Qed.

(** Where the blocks of a process with a program and without data pages start. *)
Lemma blocks_starts m p np : data p = ProcessData_new -> program p <> 0 ->
  (blocks_of m p np).*1 = stack p :: UserExit.tables m (mmu_table p) ++ [mmu_table p; frame p; program p].
Proof.
  intros Ed Hp. unfold blocks_of. rewrite Ed, (proj2 (Z.eqb_neq (program p) 0)) by done.
  rewrite !fmap_app, !single_fst. done.
Qed.

(** Everything the new process has is there, each block once. *)
Lemma ready_blocks s t phs i entry ps p s' t' :
  room_for s t phs i -> process_ready s t entry ps p s' t' ->
  blocks_at (kern s') t' (blocks_of (mem (kern s')) p (program_pages (header <$> ps))) /\
  pages_in (blocks_of (mem (kern s')) p (program_pages (header <$> ps))) =
    37 + Z.of_nat (program_pages (header <$> ps)) + zlen (UserExit.tables (mem (kern s')) (mmu_table p)).
Proof.
  intros Hroom Hr. pose proof Hr as [_ _ [_ Ed] _ Ht ([Bf Nf] & [Bs Ns] & [Bp Np]) _ _ _ _ Hnd _].
  destruct (ready_block _ _ _ _ _ _ _ _ _ _ _ Hroom Hr Bp) as (_ & Hp0 & _).
  pose proof (tr_table _ _ _ Ht _ _ (node_root _ _)) as Bt. destruct (tree_blocks _ _ _ Ht) as [Dt Ft].
  rewrite single_fst in Dt.
  assert (forall a, (forall q, ~ node (mem (kern s')) (mmu_table p) q a) ->
    a ∉ UserExit.tables (mem (kern s')) (mmu_table p)) as Hout.
  { intros a Hno (j & q & Hq)%elem_tables. by apply (Hno _ Hq). }
  assert (mmu_table p ∉ UserExit.tables (mem (kern s')) (mmu_table p)) as Hroot.
  { intros (j & q & Hq)%elem_tables. by pose proof (tr_own _ _ _ Ht _ _ _ Hq (node_root _ _)). }
  rewrite !NoDup_cons, !not_elem_of_cons in Hnd.
  destruct Hnd as ((Hfs & Hft & Hfp & _) & (Hst & Hsp & _) & (Htp & _) & _).
  split; [split|].
  - rewrite blocks_starts by (done || lia). rewrite NoDup_cons, not_elem_of_app, NoDup_app, !NoDup_cons, !not_elem_of_cons.
    split_and!; try apply not_elem_of_nil; try apply NoDup_nil; auto. intros a Ha. rewrite !not_elem_of_cons.
    split_and!; [by intros ->|intros ->; by apply (Hout _ Nf)|intros ->; by apply (Hout _ Np)|apply not_elem_of_nil].
  - unfold blocks_of. rewrite Ed, (proj2 (Z.eqb_neq (program p) 0)) by lia.
    apply Forall_app. split; [by repeat constructor|]. apply Forall_app. split; [done|]. by repeat constructor.
  - pose proof (pages_single (UserExit.tables (mem (kern s')) (mmu_table p))) as E.
    unfold pages_in, blocks_of in *. rewrite Ed, (proj2 (Z.eqb_neq (program p) 0)) by lia.
    rewrite !sum_list_with_app. cbn [sum_list_with snd single fmap list_fmap pages ProcessData_new] in *. lia.
Qed.

Context `{!HeapLaws}.

(** [load_proc] of a file whose segments fit. *)
Lemma load_proc_ok buffer s t i :
  let phs := filter (fun ph => Is_true (loadable ph)) (file_phs buffer) in
  elf_ok buffer -> room_for (procs s) t phs i ->
  exists ps p s' t', load_proc buffer s = Done (inr p, s') /\ header <$> ps = phs /\
    Forall (seg_loaded buffer) ps /\
    process_ready (procs s) t (entry_pc (file_header buffer)) ps p (procs s') t'.
Proof.
  intros phs Hok Hroom. destruct (load_exact buffer s Hok) as (ps & s1 & E & Es & Eps & Hps).
  assert (0 <= entry_pc (file_header buffer) < 2 ^ 64) as He
    by (apply (Layout.field_range _ 24 8), Forall_take, (ok_bytes _ Hok)).
  fold phs in Eps. rewrite <- Eps, <- Es in Hroom.
  destruct (make_process_ok (procs s1) t (entry_pc (file_header buffer)) ps i Hroom)
    as (p & s2 & t' & E2 & Hr); [|done|].
  { eapply Forall_impl; [exact Hps|]. by intros q [? _]. }
  exists ps, p, (mkE s2 (nbufs s1)), t'. rewrite Es in Hr. split_and!; [|done|done|done].
  unfold load_proc. erewrite bind_done by exact E. cbn [fheader programs].
  erewrite bind_done by (unfold on_procs; by rewrite E2). done.
Qed.


(** A process from load_proc reaches no memory but the block of its program and its
    stack: every address its tables translate goes there, so neither the pages
    allocated before nor its tables and its trap frame can be reached; the pages
    allocated before keep their bytes. *)
Theorem load_proc_isolates buffer s t i :
  let phs := filter (fun ph => Is_true (loadable ph)) (file_phs buffer) in
  elf_ok buffer -> room_for (procs s) t phs i ->
  exists p s' t', load_proc buffer s = Done (inr p, s') /\
    let m := mem (kern (procs s')) in let root := mmu_table p in
    tree (kern (procs s')) t' root /\
    (forall va pa, 0 <= va -> Mmu.virt_to_phys m root va = Done (Some pa) ->
       program p <= pa < program p + 4096 * Z.of_nat (program_pages phs) \/
       stack p <= pa < stack p + 4096 * 35) /\
    (forall c n va pa, is_block (kern (procs s')) t' c n -> c <> program p -> c <> stack p ->
       0 <= va -> Mmu.virt_to_phys m root va = Done (Some pa) -> ~ (c <= pa < c + 4096 * Z.of_nat n)) /\
    (forall c n, is_block (kern (procs s)) t c n -> is_block (kern (procs s')) t' c n /\
       c <> program p /\ c <> stack p /\
       forall x, c <= x < c + 4096 * Z.of_nat n -> byte m x = byte (mem (kern (procs s))) x).
Proof.
  intros phs Hok Hroom.
  destruct (load_proc_ok buffer s t i Hok Hroom) as (ps & p & s' & t' & E & Eps & Hps & Hr).
  fold phs in Hroom, Eps. exists p, s', t'. split; [exact E|]. intros m root.
  pose proof (rd_tree _ _ _ _ _ _ _ Hr) as Ht.
  destruct (rd_blocks _ _ _ _ _ _ _ Hr) as (_ & [Bs _] & [Bp _]). rewrite <- Eps in *.
  pose proof (fun va pa => ready_reaches _ _ _ _ _ _ _ _ va pa Hroom Hr) as Hin.
  split_and!; [exact Ht|exact Hin|..].
  - intros c n va pa Hc Hcp Hcs Hva Epa Hpa. pose proof (mm_page _ _ (tr_ok _ _ _ Ht)) as Hpk.
    pose proof (blocks_apart _ _ _ _ _ _ Hpk Hc Bp Hcp) as D1.
    pose proof (blocks_apart _ _ _ _ _ _ Hpk Hc Bs Hcs) as D2. unfold Page.PAGE_SIZE in *.
    destruct (Hin va pa Hva Epa); lia.
  - intros c n Hc. destruct (rd_old _ _ _ _ _ _ _ Hr c n Hc) as ([Hc' _] & Hno & Hb).
    rewrite !not_elem_of_cons in Hno. destruct Hno as (_ & Hcs & _ & Hcp & _). by split_and!.
Qed.

(** C14: When load_proc made a process from an executable whose segments fit into
    the block of its program, for which there was room, dropping the process gives
    back exactly the pages that loading it took, with all of its page tables: the
    allocator has as many free pages as before, and the pages that were allocated
    before are still allocated and have the bytes they had. *)
Theorem load_drop_roundtrip buffer s t i fuel :
  let phs := filter (fun ph => Is_true (loadable ph)) (file_phs buffer) in
  elf_ok buffer -> room_for (procs s) t phs i -> (35 <= fuel)%nat -> (program_pages phs <= fuel)%nat ->
  exists p s' s'' t'', load_proc buffer s = Done (inr p, s') /\
    drop_process fuel p (procs s') = Done (tt, s'') /\ PROCESS_LIST s'' = PROCESS_LIST (procs s) /\
    page_ok (kern s'') t'' /\ Page.free_pages t'' = Page.free_pages t /\
    (forall c n, is_block (kern (procs s)) t c n -> is_block (kern s'') t'' c n /\
       forall x, c <= x < c + 4096 * Z.of_nat n -> byte (mem (kern s'')) x = byte (mem (kern (procs s))) x).
Proof.
  intros phs Hok Hroom Hf Hnp.
  destruct (load_proc_ok buffer s t i Hok Hroom) as (ps & p & s' & t' & E & Eps & Hps & Hr).
  fold phs in Hroom, Eps. rewrite <- Eps in *. destruct (ready_blocks _ _ _ _ _ _ _ _ _ Hroom Hr) as [Hb Hn].
  destruct (drop_user_frees (procs s') t' p _ fuel (rd_tree _ _ _ _ _ _ _ Hr) Hb Hf Hnp) as (k & t'' & E2 & F).
  exists p, s', (with_kern k (procs s')), t''. split_and!; [exact E|exact E2| |apply F|..].
  - by destruct (rd_state _ _ _ _ _ _ _ Hr) as [m ->].
  - rewrite (fa_count _ _ _ _ _ F), Hn, (rd_count _ _ _ _ _ _ _ Hr). lia.
  - intros c n Hc. destruct (rd_old _ _ _ _ _ _ _ Hr c n Hc) as ([Hc' Hno] & Hout & Hbytes).
    pose proof (mm_page _ _ (rf_ok _ _ _ _ Hroom)) as Hpk. destruct (block_range _ _ _ _ Hpk Hc) as (Hlo & _).
    split; [apply (fa_keep _ _ _ _ _ F); [done|]|].
    + destruct (rd_blocks _ _ _ _ _ _ _ Hr) as (_ & _ & [Bp _]).
      destruct (ready_block _ _ _ _ _ _ _ _ _ _ _ Hroom Hr Bp) as (_ & Hp0 & _).
      rewrite blocks_starts by (apply Hr || lia).
      rewrite !not_elem_of_cons in Hout. rewrite not_elem_of_cons, not_elem_of_app, !not_elem_of_cons, elem_tables.
      destruct Hout as (? & ? & ? & ? & ?). split_and!; try done. by intros (? & ? & ?%Hno).
    + intros x Hx. rewrite (fa_bytes _ _ _ _ _ F) by lia. by apply Hbytes.
Qed.
End Load.
End LoadProps.
