(* ===== verification/Csr.v ===== *)
(** * cpu.rs: control and status registers and the TLB

    The accessors of cpu.rs are one instruction each.  What the hardware does
    with it is the interface [Hart]; [HartLaws] is what the RISC-V privileged
    architecture promises, and [simple_hart] is a machine that keeps it. *)

From S2P Require Import Prelude Memory Cpu PageAlloc PageProps Mmu MmuFacts MmuProps MmuTree MinixLayout Lock Process ProcessProps BlockIo IdealDisk Elf LoadProps.
Import Mem MmuProps MmuTree PageProps Process Elf LoadProps.

Inductive csr := Mhartid | Mie | Mstatus | Stvec | Mscratch | Sscratch | Mepc | Sepc | Satp.
#[export] Instance csr_eq_dec : EqDecision csr.
Proof. solve_decision. Defined.

(** [S] is the state of a hart.  [cached s asid va pa] says that the hart may use the
    translation of [va] to [pa] in the address space [asid], of a page that is not
    global, without looking at the page tables.  An operand of [sfence_vma] is [None] when it is the register zero. *)
Class Hart (S : Type) := {
  csrr : csr -> S -> Z;
  csrw : csr -> Z -> S -> S;
  sfence_vma : option Z -> option Z -> S -> S;
  cached : S -> Z -> Z -> Z -> Prop;
  keeps : csr -> Z -> Prop;
}.

Class HartLaws (S : Type) `{Hart S} : Prop := {
  csr_same c v s : keeps c v -> csrr c (csrw c v s) = v;
  csr_other c c' v s : c <> c' -> csrr c' (csrw c v s) = csrr c' s;
  csr_fence va asid c s : csrr c (sfence_vma va asid s) = csrr c s;
  csr_cached c v s asid va pa : cached (csrw c v s) asid va pa -> cached s asid va pa;
  fence_cached va asid s a x pa : cached (sfence_vma va asid s) a x pa -> cached s a x pa;
  fence_space asid s x pa : ~ cached (sfence_vma None (Some asid) s) (asid mod 2 ^ 16) x pa;
  fence_page va asid s x pa : same_page va x = true ->
    ~ cached (sfence_vma (Some va) (Some asid) s) (asid mod 2 ^ 16) x pa;
  scratch_keeps v : 0 <= v < 2 ^ 64 -> keeps Mscratch v /\ keeps Sscratch v;
}.

Module Csr.
Section Csr.
Context {S : Type} `{Hart S}.
Abbreviation C := (M S).

Definition csr_read (c : csr) : C Z := gets (csrr c).
Definition csr_write (c : csr) (v : Z) : C unit := modify (csrw c v).
(** [csrrw]: the old value, and the new one is written. *)
Definition csr_swap (c : csr) (to : Z) : C Z := from ← csr_read c; _ ← csr_write c to; mret from.

Definition mhartid_read : C Z := csr_read Mhartid.
Definition mie_read : C Z := csr_read Mie.
Definition mie_write (val : Z) : C unit := csr_write Mie val.
Definition mstatus_write (val : Z) : C unit := csr_write Mstatus val.
Definition mstatus_read : C Z := csr_read Mstatus.
Definition stvec_write (val : Z) : C unit := csr_write Stvec val.
Definition stvec_read : C Z := csr_read Stvec.
Definition mscratch_write (val : Z) : C unit := csr_write Mscratch val.
Definition mscratch_read : C Z := csr_read Mscratch.
Definition mscratch_swap (to : Z) : C Z := csr_swap Mscratch to.
Definition sscratch_write (val : Z) : C unit := csr_write Sscratch val.
Definition sscratch_read : C Z := csr_read Sscratch.
Definition sscratch_swap (to : Z) : C Z := csr_swap Sscratch to.
Definition mepc_write (val : Z) : C unit := csr_write Mepc val.
Definition mepc_read : C Z := csr_read Mepc.
Definition sepc_write (val : Z) : C unit := csr_write Sepc val.
Definition sepc_read : C Z := csr_read Sepc.
Definition satp_write (val : Z) : C unit := csr_write Satp val.
Definition satp_read : C Z := csr_read Satp.

(** Both operands are registers other than zero. *)
Definition satp_fence (vaddr asid : Z) : C unit := modify (sfence_vma (Some vaddr) (Some asid)).
Definition satp_fence_asid (asid : Z) : C unit := modify (sfence_vma None (Some asid)).
(** [load_proc] as a whole: it ends with a fence for the new address space. *)
Context `{Profile} `{Linker} `{Heap}.

Definition load_proc_fenced (buffer : list Z) : M (estate * S) (LoadErrors + process) := fun s =>
  match load_proc buffer s.1 with
  | Done (inl e, s1) => Done (inl e, (s1, s.2))
  | Done (inr p, s1) =>
      match satp_fence_asid (pid p) s.2 with
      | Done (_, h) => Done (inr p, (s1, h))
      | Panic => Panic | Fault => Fault | Hang => Hang | NoFuel => NoFuel
      end
  | Panic => Panic | Fault => Fault | Hang => Hang | NoFuel => NoFuel
  end.

(** Where the hart may take an address of the space [asid] with its tables at [root]. *)
Definition may_reach (h : S) (m : memory) (asid root va pa : Z) : Prop :=
  cached h asid va pa \/ Mmu.virt_to_phys m root va = Done (Some pa).

Context `{!HartLaws S}.

(** mscratch_swap and sscratch_swap return the old value of their register and leave
    the new one there, the other registers are as before, and swapping the old value
    back in restores every register. *)
Theorem scratch_swap_roundtrip c v (h : S) :
  c = Mscratch \/ c = Sscratch -> 0 <= v < 2 ^ 64 -> 0 <= csrr c h < 2 ^ 64 ->
  let swap := if decide (c = Mscratch) then mscratch_swap else sscratch_swap in
  exists h1 h2, swap v h = Done (csrr c h, h1) /\ csrr c h1 = v /\
    (forall c', c' <> c -> csrr c' h1 = csrr c' h) /\
    swap (csrr c h) h1 = Done (v, h2) /\ forall c', csrr c' h2 = csrr c' h.
Proof.
  intros Hc Hv Ho swap. set (old := csrr c h) in *.
  assert (forall x, 0 <= x < 2 ^ 64 -> keeps c x) as Hk
    by (intros x Hx; destruct (scratch_keeps x Hx); by destruct Hc as [-> | ->]).
  assert (forall x, swap x = csr_swap c x) as Es by (intros x; unfold swap; by destruct Hc as [-> | ->]).
  exists (csrw c v h), (csrw c old (csrw c v h)). rewrite !Es.
  split_and!; [done|by apply csr_same, Hk|intros c' Hne; by apply csr_other|..].
  - unfold csr_swap, csr_read, csr_write, gets, modify, mbind, M_bind, mret, M_ret. by rewrite csr_same by (by apply Hk).
  - intros c'. destruct (decide (c' = c)) as [->|Hne]; [by apply csr_same, Hk|].
    by rewrite !csr_other.
Qed.

(** A satp value for a table below 2^52 that the hardware keeps is read back with
    its mode, address space and table. *)
Theorem satp_roundtrip asid addr (h : S) :
  0 <= asid < 2 ^ 16 -> 0 <= addr < 2 ^ 52 -> addr mod 4096 = 0 ->
  keeps Satp (Cpu.build_satp Cpu.Sv39 asid addr) ->
  exists h' x, (_ ← satp_write (Cpu.build_satp Cpu.Sv39 asid addr); satp_read) h = Done (x, h') /\
    satp_mode x = 8 /\ satp_asid x = asid /\ satp_root x = addr /\
    forall c, c <> Satp -> csrr c h' = csrr c h.
Proof.
  intros Ha Hd Hal Hk. eexists _, _. split; [reflexivity|]. rewrite csr_same by done.
  destruct (satp_fields _ _ Ha Hd Hal) as (_ & ? & ? & ?). split_and!; try done.
  intros c Hc. by apply csr_other.
Qed.

(** The fences drop what they name and add nothing: satp_fence_asid every cached
    translation of the address space, satp_fence only those of one page of it. *)
Theorem fence_drops vaddr asid (h : S) :
  0 <= asid < 2 ^ 16 ->
  exists h1 h2, satp_fence_asid asid h = Done (tt, h1) /\ satp_fence vaddr asid h = Done (tt, h2) /\
    (forall va pa, ~ cached h1 asid va pa) /\
    (forall va pa, same_page vaddr va = true -> ~ cached h2 asid va pa) /\
    (forall a va pa, cached h1 a va pa \/ cached h2 a va pa -> cached h a va pa).
Proof.
  intros Ha. eexists _, _. split; [reflexivity|]. split; [reflexivity|].
  pose proof (fence_space asid h) as Fs. pose proof (fun x pa => fence_page vaddr asid h x pa) as Fp.
  rewrite Z.mod_small in Fs by done. setoid_rewrite Z.mod_small in Fp; [|done]. split_and!.
  - exact Fs.
  - intros va pa Hp. by apply Fp.
  - intros a va pa [Hc|Hc]; by eapply fence_cached.
Qed.

Context `{!HeapLaws}.

End Csr.

(** ** A machine *)

Module Simple.
(** Registers and a list of cached translations; the scratch registers and satp keep
    64 bits, mhartid cannot be written. *)
Record hart := mkHart { regs : csr -> Z; tlb : list (Z * Z * Z) }.

Definition fence (va asid : option Z) (e : Z * Z * Z) : bool :=
  let '(a, x, _) := e in
  negb (match asid with Some i => a =? i mod 2 ^ 16 | None => true end &&
        match va with Some v => same_page v x | None => true end).

#[export] Instance simple_hart : Hart hart := {|
  csrr c h := regs h c;
  csrw c v h := mkHart (fun c' => if decide (c' = c /\ c <> Mhartid) then v mod 2 ^ 64 else regs h c') (tlb h);
  sfence_vma va asid h := mkHart (regs h) (List.filter (fence va asid) (tlb h));
  cached h asid va pa := (asid, va, pa) ∈ tlb h;
  keeps c v := c <> Mhartid /\ 0 <= v < 2 ^ 64;
|}.

#[export] Instance simple_laws : HartLaws hart.
Proof.
  assert (forall f (l : list (Z * Z * Z)) e, e ∈ List.filter f l <-> e ∈ l /\ f e = true) as Hf
    by (intros f l e; rewrite !list_elem_of_In; apply List.filter_In).
  split; cbn [csrr csrw sfence_vma cached keeps simple_hart regs tlb].
  - intros c v h [Hc Hv]. rewrite decide_True by done. by rewrite Z.mod_small.
  - intros c c' v h Hne. rewrite decide_False; [done|]. by intros [-> _].
  - done.
  - done.
  - intros va asid h a x pa He. by apply Hf in He as [? _].
  - intros asid h x pa [_ He]%Hf. unfold fence in He. by rewrite Z.eqb_refl in He.
  - intros va asid h x pa Hp [_ He]%Hf. unfold fence in He. by rewrite Z.eqb_refl, Hp in He.
  - intros v Hv. by split; split.
Qed.
End Simple.
End Csr.
