(* ===== verification/ElfExample.v ===== *)
(** * A small executable

    Two program headers, of which the first is to be loaded. *)

From S2P Require Import Prelude Memory Cpu PageAlloc Mmu MinixLayout Lock Process BlockIo IdealDisk Elf.
From S2P Require Import PageProps MmuProps MmuTree ProcessProps LoadProps Csr.
Import Mem Process Elf PageProps MmuProps LoadProps Csr.Simple.

Module ElfExample.

Definition elf_heap : Linker := {| HEAP_START := 4096; HEAP_SIZE := 8 * 4096 |}.

#[local] Existing Instance dev.
#[local] Existing Instance elf_heap.
#[local] Existing Instance Ideal.zero_heap.
#[local] Existing Instance Ideal.zero_heap_laws.

Definition header_bytes (magic machine typ : Z) : list Z :=
  le_enc 4 magic ++ [2; 1; 1; 0; 0] ++ replicate 7 0 ++ le_enc 2 typ ++ le_enc 2 machine
  ++ le_enc 4 1 ++ le_enc 8 0x20000000 ++ le_enc 8 64 ++ le_enc 8 0 ++ le_enc 4 0
  ++ le_enc 2 64 ++ le_enc 2 56 ++ le_enc 2 2 ++ le_enc 2 0 ++ le_enc 2 0 ++ le_enc 2 0.

Definition ph_bytes (typ offset size : Z) : list Z :=
  le_enc 4 typ ++ le_enc 4 5 ++ le_enc 8 offset ++ le_enc 8 0x20000000 ++ le_enc 8 0
  ++ le_enc 8 size ++ le_enc 8 size ++ le_enc 8 4096.

Definition image : list Z := Eval vm_compute in
  header_bytes MAGIC MACHINE_RISCV TYPE_EXEC ++ ph_bytes 1 176 16 ++ ph_bytes 4 192 0
  ++ [10; 11; 12; 13; 14; 15; 16; 17; 18; 19; 20; 21; 22; 23; 24; 25].

Definition start : estate := mkE (mkP (mkKernel ∅ 0 0 0 0) (Some []) 0 2 0) 0.

Lemma image_ok : elf_ok image.
Proof.
  split; try (vm_compute; congruence).
  - unfold image. repeat (constructor; [split; [discriminate|reflexivity]|]). constructor.
  - repeat (constructor; [intros _; vm_compute; congruence|]). constructor.
Defined.

Lemma load_exact_witness :
  exists ps s', load image start = Done (inr (mkFile (file_header image) ps), s') /\
    header <$> ps = [mkPh 1 5 176 0x20000000 0 16 16 4096].
Proof.
  destruct (load_exact image start image_ok) as (ps & s' & E & _ & Hps & _).
  exists ps, s'. split; [exact E|]. rewrite Hps. vm_compute. reflexivity.
Defined.

Lemma load_rejects_witness :
  load (header_bytes MAGIC 0x3e TYPE_EXEC) start = Done (inl Machine, start).
Proof.
  destruct (load_rejects (header_bytes MAGIC 0x3e TYPE_EXEC) start) as (_ & H & _).
  - vm_compute. discriminate.
  - apply H; [vm_compute; reflexivity|vm_compute; discriminate].
Defined.

(** ** A process with two segments on a heap of 256 pages *)

Section Process.
Definition heap256 : Linker := {| HEAP_START := 4096; HEAP_SIZE := 256 * 4096 |}.
#[local] Existing Instance heap256 | 0.

Definition seg_bytes (flags offset va size : Z) : list Z :=
  le_enc 4 1 ++ le_enc 4 flags ++ le_enc 8 offset ++ le_enc 8 va ++ le_enc 8 0
  ++ le_enc 8 size ++ le_enc 8 size ++ le_enc 8 4096.

Definition image2 : list Z := Eval vm_compute in
  header_bytes MAGIC MACHINE_RISCV TYPE_EXEC ++ seg_bytes 5 176 0x200000b0 16
  ++ seg_bytes 6 192 0x200010c0 8 ++ (Z.of_nat <$> seq 10 24).

Definition phs2 : list ProgramHeader :=
  [mkPh 1 5 176 0x200000b0 0 16 16 4096; mkPh 1 6 192 0x200010c0 0 8 8 4096].

Definition start2 : estate := mkE (mkP (mkKernel ∅ 8192 0 0 0) (Some []) 0 2 0) 0.

Lemma image2_ok : elf_ok image2.
Proof.
  split; try (vm_compute; congruence).
  - unfold image2. repeat (constructor; [split; [discriminate|reflexivity]|]). constructor.
  - repeat (constructor; [intros _; vm_compute; congruence|]). constructor.
Qed.

Lemma phs2_eq : filter (fun ph => Is_true (loadable ph)) (file_phs image2) = phs2.
Proof. by vm_compute. Qed.

Lemma room2 : room_for (procs start2) (Page.frees 256) phs2 0.
Proof.
  split; try (by vm_compute).
  - split; [|done]. split; try (by vm_compute).
    + intros j Hj. rewrite Page.enc_frees in *. rewrite length_replicate in Hj. unfold nthZ.
      by rewrite lookup_replicate_2 by lia.
    + by apply Forall_replicate.
  - by exists [], (Page.frees 217).
  - repeat (constructor; [split; by vm_compute|]). constructor.
Qed.

Lemma apart2 : List.ForallOrdPairs seg_apart phs2.
Proof.
  constructor; [|constructor; constructor]. constructor; [|constructor].
  split; left; by vm_compute.
Qed.

Lemma visible2 : Forall seg_visible phs2.
Proof. repeat (constructor; [split; by vm_compute|]). constructor. Qed.


Lemma load_drop_roundtrip_witness :
  exists p s' s'' t'', load_proc image2 start2 = Done (inr p, s') /\
    drop_process 35 p (procs s') = Done (tt, s'') /\ Page.free_pages t'' = 256.
Proof.
  pose proof room2 as Hr. rewrite <- phs2_eq in Hr.
  destruct (load_drop_roundtrip image2 start2 (Page.frees 256) 0 35 image2_ok Hr) as (p & s' & s'' & t'' & E1 & E2 & _ & _ & Ef & _);
    [lia|rewrite phs2_eq; by apply leb_complete|].
  exists p, s', s'', t''. split_and!; [exact E1|exact E2|]. rewrite Ef. by vm_compute.
Defined.

Lemma load_proc_isolates_witness :
  exists p s', load_proc image2 start2 = Done (inr p, s') /\
    forall va pa, 0 <= va ->
      Mmu.virt_to_phys (mem (kern (procs s'))) (mmu_table p) va = Done (Some pa) ->
      program p <= pa < program p + 4096 * 2 \/ stack p <= pa < stack p + 4096 * 35.
Proof.
  pose proof room2 as Hr. rewrite <- phs2_eq in Hr.
  destruct (load_proc_isolates image2 start2 (Page.frees 256) 0 image2_ok Hr)
    as (p & s' & t' & E & _ & Hin & _). rewrite phs2_eq in Hin.
  exists p, s'. split; [exact E|exact Hin].
Defined.

(** A hart that still has a translation for pid 3, from a process before. *)
Definition hart0 : Csr.Simple.hart := Csr.Simple.mkHart (fun _ => 7) [(3, 0x20000000, 0x1000); (2, 0x5000, 0x6000)].


Lemma scratch_swap_roundtrip_witness :
  exists h1, Csr.mscratch_swap 0x80001000 hart0 = Done (7, h1) /\ csrr Mscratch h1 = 0x80001000.
Proof.
  destruct (Csr.scratch_swap_roundtrip Mscratch 0x80001000 hart0) as (h1 & h2 & E & Hv & _);
    [by left|by vm_compute|by vm_compute|]. exists h1. split; [exact E|exact Hv].
Defined.

Lemma satp_roundtrip_witness :
  exists h' x, (_ ← Csr.satp_write (Cpu.build_satp Cpu.Sv39 3 0x80200000); Csr.satp_read) hart0 = Done (x, h') /\
    satp_root x = 0x80200000.
Proof.
  destruct (Csr.satp_roundtrip 3 0x80200000 hart0) as (h' & x & E & _ & _ & Hr & _);
    [lia|lia|by vm_compute|by split; vm_compute|]. exists h', x. split; [exact E|exact Hr].
Defined.

Lemma fence_drops_witness :
  exists h1, Csr.satp_fence_asid 3 hart0 = Done (tt, h1) /\ ~ cached h1 3 0x20000000 0x1000.
Proof.
  destruct (Csr.fence_drops 0 3 hart0) as (h1 & h2 & E & _ & Hd & _); [lia|].
  exists h1. split; [exact E|apply Hd].
Defined.
End Process.
End ElfExample.
