(* ===== verification/World.v ===== *)
(** * The machine around the kernel: memory-mapped devices

    The drivers of block.rs, gpu.rs, input.rs, rng.rs, uart.rs and plic.rs
    reach devices by volatile loads and stores.  [io] is the sequence of
    these accesses; what a load returns is up to the machine ([Bus]), which
    may depend on everything that happened before.  The record [world] adds
    the globals of the drivers to those of the console, the processes and the
    memory. *)

From Stdlib Require String Ascii.
From S2P Require Import Prelude Memory Cpu PageAlloc Mmu MinixLayout Lock Process Console.
Import Mem Process.

(** ** Words of other widths *)

Module Word.

(** The [n]-byte integer at [a], and writing one. *)
Definition rdn (n : nat) (m : memory) (a : Z) : Z := le_dec (bytes_at (byte m) a (Z.of_nat n)).
Definition wrn (n : nat) (m : memory) (a v : Z) : memory := store m a (le_enc n v).

Lemma rdn_ext n m m' a :
  (forall x, a <= x < a + Z.of_nat n -> byte m' x = byte m x) -> rdn n m' a = rdn n m a.
Proof. intros Heq. unfold rdn. f_equal. apply bytes_at_ext. intros i Hi. apply Heq. lia. Qed.

Lemma byte_store_out m a l x : x < a \/ a + zlen l <= x -> byte (store m a l) x = byte m x.
Proof. intros Hx. rewrite byte_store. unfold upd_bytes. by rewrite decide_False by lia. Qed.

Lemma byte_wrn_out n m a v x : x < a \/ a + Z.of_nat n <= x -> byte (wrn n m a v) x = byte m x.
Proof. intros Hx. apply byte_store_out. by rewrite length_le_enc. Qed.

Lemma rdn_wrn n m a v : 0 <= v < 256 ^ Z.of_nat n -> rdn n (wrn n m a v) a = v.
Proof.
  intros Hv. unfold rdn, wrn.
  rewrite (bytes_at_ext _ (upd_bytes (byte m) a (le_enc n v))) by (intros; apply byte_store).
  replace (Z.of_nat n) with (zlen (le_enc n v)) by (by rewrite length_le_enc).
  rewrite bytes_at_upd. by apply le_dec_enc.
Qed.

Lemma rdn_store_ne n m a b l :
  a + Z.of_nat n <= b \/ b + zlen l <= a -> rdn n (store m b l) a = rdn n m a.
Proof. intros Ha. apply rdn_ext. intros x Hx. apply byte_store_out. lia. Qed.

Lemma rdn_wrn_ne n k m a b v :
  a + Z.of_nat n <= b \/ b + Z.of_nat k <= a -> rdn n (wrn k m b v) a = rdn n m a.
Proof. intros Ha. apply rdn_store_ne. by rewrite length_le_enc. Qed.

Lemma bytes_at_store m a l : bytes_at (byte (store m a l)) a (zlen l) = l.
Proof.
  rewrite (bytes_at_ext _ (upd_bytes (byte m) a l)) by (intros; apply byte_store).
  apply bytes_at_upd.
Qed.

Lemma rdn_1 m a : rdn 1 m a = byte m a.
Proof.
  unfold rdn, bytes_at. change (seq 0 (Z.to_nat (Z.of_nat 1))) with [0%nat].
  cbn [fmap list_fmap le_dec]. replace (a + Z.of_nat 0) with a by lia. lia.
Qed.

(** A field of a struct that was stored as a whole. *)
Lemma rdn_store_field n m a l1 v l2 :
  0 <= v < 256 ^ Z.of_nat n ->
  rdn n (store m a (l1 ++ le_enc n v ++ l2)) (a + zlen l1) = v.
Proof.
  intros Hv. unfold rdn.
  assert (holds (store m a (l1 ++ le_enc n v ++ l2)) (a + zlen l1) (le_enc n v)) as Hh.
  { assert (holds (store m a (l1 ++ le_enc n v ++ l2)) a (l1 ++ le_enc n v ++ l2)) as H0
      by (eapply holds_upd; intros; apply byte_store).
    apply holds_app in H0 as [_ H0]. by apply holds_app in H0 as [H0 _]. }
  apply holds_bytes in Hh. rewrite length_le_enc in Hh. rewrite Hh. by apply le_dec_enc.
Qed.
End Word.
Export Word.

(** ** Text

    What [print!] writes to the UART: the UTF-8 bytes of the text. *)

Module Fmt.
Import (notations) String.

Fixpoint str (s : String.string) : list Z :=
  match s with
  | String.EmptyString => []
  | String.String c s' => Z.of_nat (Ascii.nat_of_ascii c) :: str s'
  end.

(** The digits of [z], at most [k] of them, in base [b]. *)
Fixpoint digits (k : nat) (b z : Z) : list Z :=
  match k with
  | O => []
  | S k' => (if z <? b then [] else digits k' b (z / b)) ++
            [let d := z mod b in if d <? 10 then 48 + d else 87 + d]
  end.

Definition pad (c : Z) (n : nat) (l : list Z) : list Z := replicate (n - length l) c ++ l.

(** The formats of a 64-bit integer in the source, [{}], [{:x}] and [{:08x}]. *)
Definition dec (z : Z) : list Z := digits 20 10 z.
Definition hex (z : Z) : list Z := digits 16 16 z.
Definition hex08 (z : Z) : list Z := pad 48 8 (hex z).

(** [b as char], encoded. *)
Definition char (b : Z) : list Z := if b <? 128 then [b] else [192 + b / 64; 128 + b mod 64].

Definition crlf : list Z := [13; 10].

Lemma fmt_example : hex08 0x10001000 = str "10001000" /\ dec 10 = str "10".
Proof. by vm_compute. Qed.
End Fmt.

(** ** Devices *)

Inductive io_event := Rd (a v : Z) | Wr (a v : Z).

(** The value of a volatile load from address [a] after the accesses [l]. *)
Class Bus := bus : list io_event -> Z -> Z.

(** [VirtioDevice] holds one of these. *)
Inductive DeviceTypes := DNone | DNetwork | DBlock | DConsole | DEntropy | DGpu | DInput | DMemory.

Record BlockDevice := mkBd {
  bd_queue : Z;
  bd_dev : Z;
  bd_idx : Z;
  bd_ack_used_idx : Z;
  bd_read_only : bool;
}.

Record EntropyDevice := mkEd {
  ed_queue : Z;
  ed_dev : Z;
  ed_idx : Z;
  ed_ack_used_idx : Z;
}.

Record GpuDevice := mkGd {
  gd_queue : Z;
  gd_dev : Z;
  gd_idx : Z;
  gd_ack_used_idx : Z;
  gd_framebuffer : Z;
  gd_width : Z;
  gd_height : Z;
}.

Record InputDevice := mkId {
  id_event_queue : Z;
  id_status_queue : Z;
  id_event_idx : Z;
  id_event_ack_used_idx : Z;
  id_event_buffer : Z;
  id_status_ack_used_idx : Z;
}.

(** An input event; the type is its number, as it is in memory. *)
Record Event := mkEvent { event_type : Z; code : Z; value : Z }.

(** ** The state *)

Record world := mkWorld {
  con : Console.cstate;
  io : list io_event;
  VIRTIO_DEVICES : list (option DeviceTypes);
  BLOCK_DEVICES : list (option BlockDevice);
  GPU_DEVICES : list (option GpuDevice);
  INPUT_DEVICES : list (option InputDevice);
  ENTROPY_DEVICES : list (option EntropyDevice);
  ABS_EVENTS : option (list Event);
  KEY_EVENTS : option (list Event);
}.

Module World.

Definition with_con (c : Console.cstate) (s : world) : world :=
  mkWorld c (io s) (VIRTIO_DEVICES s) (BLOCK_DEVICES s) (GPU_DEVICES s) (INPUT_DEVICES s)
    (ENTROPY_DEVICES s) (ABS_EVENTS s) (KEY_EVENTS s).
Definition with_io (l : list io_event) (s : world) : world :=
  mkWorld (con s) l (VIRTIO_DEVICES s) (BLOCK_DEVICES s) (GPU_DEVICES s) (INPUT_DEVICES s)
    (ENTROPY_DEVICES s) (ABS_EVENTS s) (KEY_EVENTS s).
Definition with_virtio (l : list (option DeviceTypes)) (s : world) : world :=
  mkWorld (con s) (io s) l (BLOCK_DEVICES s) (GPU_DEVICES s) (INPUT_DEVICES s)
    (ENTROPY_DEVICES s) (ABS_EVENTS s) (KEY_EVENTS s).
Definition with_block (l : list (option BlockDevice)) (s : world) : world :=
  mkWorld (con s) (io s) (VIRTIO_DEVICES s) l (GPU_DEVICES s) (INPUT_DEVICES s)
    (ENTROPY_DEVICES s) (ABS_EVENTS s) (KEY_EVENTS s).
Definition with_gpu (l : list (option GpuDevice)) (s : world) : world :=
  mkWorld (con s) (io s) (VIRTIO_DEVICES s) (BLOCK_DEVICES s) l (INPUT_DEVICES s)
    (ENTROPY_DEVICES s) (ABS_EVENTS s) (KEY_EVENTS s).
Definition with_input (l : list (option InputDevice)) (s : world) : world :=
  mkWorld (con s) (io s) (VIRTIO_DEVICES s) (BLOCK_DEVICES s) (GPU_DEVICES s) l
    (ENTROPY_DEVICES s) (ABS_EVENTS s) (KEY_EVENTS s).
Definition with_entropy (l : list (option EntropyDevice)) (s : world) : world :=
  mkWorld (con s) (io s) (VIRTIO_DEVICES s) (BLOCK_DEVICES s) (GPU_DEVICES s) (INPUT_DEVICES s)
    l (ABS_EVENTS s) (KEY_EVENTS s).
Definition with_abs (l : option (list Event)) (s : world) : world :=
  mkWorld (con s) (io s) (VIRTIO_DEVICES s) (BLOCK_DEVICES s) (GPU_DEVICES s) (INPUT_DEVICES s)
    (ENTROPY_DEVICES s) l (KEY_EVENTS s).
Definition with_key (l : option (list Event)) (s : world) : world :=
  mkWorld (con s) (io s) (VIRTIO_DEVICES s) (BLOCK_DEVICES s) (GPU_DEVICES s) (INPUT_DEVICES s)
    (ENTROPY_DEVICES s) (ABS_EVENTS s) l.

Abbreviation W := (M world).

(** ** Running the operations of other components *)

(** Run a computation on a part of the state. *)
Definition zoom {S T A} (view : S -> T) (update : T -> S -> S) (c : M T A) : M S A := fun s =>
  match c (view s) with
  | Done (a, t) => Done (a, update t s)
  | Panic => Panic
  | Fault => Fault
  | Hang => Hang
  | NoFuel => NoFuel
  end.

Lemma zoom_done {S T A} (view : S -> T) update (c : M T A) s a t :
  c (view s) = Done (a, t) -> zoom view update c s = Done (a, update t s).
Proof. intros E. unfold zoom. by rewrite E. Qed.

Definition procs_of (s : world) : pstate := Console.procs (con s).
Definition with_procs (p : pstate) (s : world) : world :=
  let c := con s in
  with_con (Console.mkC (Console.IN_BUFFER c) (Console.OUT_BUFFER c) (Console.IN_LOCK c)
    (Console.OUT_LOCK c) (Console.CONSOLE_QUEUE c) p) s.
Definition kern_of (s : world) : kernel := kern (procs_of s).
Definition with_kern (k : kernel) (s : world) : world :=
  let p := procs_of s in
  with_procs (mkP k (PROCESS_LIST p) (PROCESS_LIST_MUTEX p) (NEXT_PID p) (ticks p)) s.
Definition mem_of (s : world) : memory := mem (kern_of s).
Definition with_memory (m : memory) (s : world) : world := with_kern (with_mem m (kern_of s)) s.

Definition on_con {A} (c : M Console.cstate A) : W A := zoom con with_con c.
Definition on_procs {A} (c : M pstate A) : W A := zoom procs_of with_procs c.
Definition on_kern {A} (c : M kernel A) : W A := zoom kern_of with_kern c.

(** ** Loads and stores *)

(** A field of [n] bytes at offset [off] of the struct at [p]; null is not memory. *)
Definition load (n : nat) (p off : Z) : W Z :=
  _ ← lift (valid (negb (p =? 0)));
  gets (fun s => rdn n (mem_of s) (p + off)).
Definition save (n : nat) (p off v : Z) : W unit :=
  _ ← lift (valid (negb (p =? 0)));
  modify (fun s => with_memory (wrn n (mem_of s) (p + off) v) s).
Definition save_bytes (p off : Z) (l : list Z) : W unit :=
  _ ← lift (valid (negb (p =? 0)));
  modify (fun s => with_memory (store (mem_of s) (p + off) l) s).

(** [v[i]], checked. *)
Definition index {A} (l : list A) (i : Z) : outcome A :=
  if i <? zlen l then unwrap (l !! Z.to_nat i) else Panic.

Section World.
Context `{Bus}.

Definition read_volatile (n : Z) (a : Z) : W Z := fun s =>
  let v := bus (io s) a mod 2 ^ (8 * n) in
  Done (v, with_io (io s ++ [Rd a v]) s).
Definition write_volatile (a v : Z) : W unit :=
  modify (fun s => with_io (io s ++ [Wr a v]) s).
End World.

(** ** Lemmas *)

Lemma mem_of_with_memory m s : mem_of (with_memory m s) = m.
Proof. done. Qed.
Lemma with_memory_twice m m' s : with_memory m (with_memory m' s) = with_memory m s.
Proof. done. Qed.
Lemma kern_of_with_kern k s : kern_of (with_kern k s) = k.
Proof. done. Qed.

Lemma load_ok n p off s : p <> 0 -> load n p off s = Done (rdn n (mem_of s) (p + off), s).
Proof. intros Hp. unfold load. apply Z.eqb_neq in Hp. by rewrite Hp. Qed.
Lemma save_ok n p off v s :
  p <> 0 -> save n p off v s = Done (tt, with_memory (wrn n (mem_of s) (p + off) v) s).
Proof. intros Hp. unfold save. apply Z.eqb_neq in Hp. by rewrite Hp. Qed.
Lemma save_bytes_ok p off l s :
  p <> 0 -> save_bytes p off l s = Done (tt, with_memory (store (mem_of s) (p + off) l) s).
Proof. intros Hp. unfold save_bytes. apply Z.eqb_neq in Hp. by rewrite Hp. Qed.

Lemma index_ok {A} (l : list A) i x :
  0 <= i -> l !! Z.to_nat i = Some x -> index l i = Done x.
Proof.
  intros Hi E. unfold index. pose proof (lookup_lt_Some _ _ _ E).
  rewrite (proj2 (Z.ltb_lt _ _)) by lia. by rewrite E.
Qed.

Lemma index_out {A} (l : list A) i : zlen l <= i -> index l i = Panic.
Proof. intros Hi. unfold index. by rewrite (proj2 (Z.ltb_ge _ _)) by lia. Qed.

(** The accesses to the registers of one device, from [lo] to below [hi]. *)
Definition at_device (lo hi : Z) (e : io_event) : bool :=
  match e with Rd a _ => (lo <=? a) && (a <? hi) | Wr a _ => (lo <=? a) && (a <? hi) end.
End World.
Export World.
