(* ===== verification/KmemUse.v ===== *)
(** * The kernel heap as its clients see it

    What a driver relies on when it takes a block, writes to it and gives it
    back: the blocks in use and the memory outside of the heap keep their
    bytes. *)

From S2P Require Import Prelude Memory Cpu PageAlloc PageProps Kmem KmemFacts KmemProps KmemSpec.
Import Mem Kmem KmemFacts KmemProps KmemSpec.

Module KmemUse.
Section Use.
Context `{Profile} `{Linker}.

Definition heap_end (s : kernel) : Z := KMEM_HEAD s + KMEM_ALLOC s * Page.PAGE_SIZE.

(** [x] is not a byte of the heap. *)
Definition outside (s : kernel) (x : Z) : Prop := x < KMEM_HEAD s \/ heap_end s <= x.

Lemma heap_take s cs fuel sz p s1 :
  heap_ok s cs -> (length cs < fuel)%nat -> 0 <= sz < 2 ^ 62 ->
  kmalloc fuel sz s = Done (p, s1) -> p <> 0 ->
  exists m cs' bsz, s1 = with_mem m s /\ heap_ok s1 cs' /\
    live (KMEM_HEAD s) cs' ≡ₚ (p - 8, bsz) :: live (KMEM_HEAD s) cs /\
    sz + 8 <= bsz /\ KMEM_HEAD s <= p - 8 /\ p - 8 + bsz <= heap_end s /\
    (forall x, outside s x -> byte m x = byte (mem s) x) /\
    (forall b z x, (b, z) ∈ live (KMEM_HEAD s) cs -> b <= x < b + z ->
       byte m x = byte (mem s) x /\ (x < p - 8 \/ p - 8 + bsz <= x)) /\
    (length cs' <= S (length cs))%nat /\
    (forall z, (false, z) ∈ cs -> need sz + 8 < z ->
       exists z', (false, z') ∈ cs' /\ z - need sz <= z').
Proof.
  intros Hok Hf Hs E Hp.
  destruct (kmalloc_ok s cs fuel sz Hok Hf Hs) as [[E' _]|(p' & m & c1 & z & c2 & E' & Htf)];
    rewrite E' in E; injection E as <- <-; [done|].
  pose proof Htf as [Ecs Hfirst Hfit Hptr Ht Hout]. pose proof Hok as [Ht0 _ _].
  destruct (need_ok sz Hs) as (H8 & _ & Hn).
  pose proof (tiles_total _ _ _ _ Ht0) as Etail. rewrite Ecs, total_app in Etail. cbn in Etail.
  rewrite Ecs in Ht0. apply tiles_app in Ht0 as [Ht1 (_ & _ & Ht2)].
  pose proof (tiles_total_nonneg _ _ _ _ Ht1). pose proof (tiles_total_nonneg _ _ _ _ Ht2).
  exists m, (c1 ++ carve (need sz) z ++ c2), (if 8 <? z - need sz then need sz else z).
  unfold heap_end, outside. split_and!; [done|by eapply heap_ok_mem|by eapply taken_live|..].
  - destruct (8 <? _); lia.
  - lia.
  - destruct (8 <? _); lia.
  - unfold heap_end. intros x Hx. apply Hout. lia.
  - intros b w x Hin Hx.
    pose proof (taken_sep _ _ _ _ _ _ _ _ _ _ b w x (heap_tiles _ _ Hok) Htf Hin Hx).
    split; [apply Hout; lia|destruct (8 <? _); lia].
  - rewrite Ecs, !length_app. unfold carve. destruct (_ <? _); cbn; lia.
  - intros w Hin Hw. rewrite Ecs, elem_of_app, elem_of_cons in Hin.
    destruct Hin as [Hin|[[= ->]|Hin]].
    + exists w. split; [rewrite elem_of_app; by left|lia].
    + exists (z - need sz). split; [|lia]. rewrite !elem_of_app. right. left. unfold carve.
      rewrite (proj2 (Z.ltb_lt _ _)) by lia. right. by left.
    + exists w. split; [rewrite !elem_of_app; by do 2 right|lia].
Qed.

(** A free chunk that is large enough is found. *)
Lemma heap_has_room s cs fuel sz z :
  heap_ok s cs -> (length cs < fuel)%nat -> 0 <= sz < 2 ^ 62 -> (false, z) ∈ cs -> need sz <= z ->
  exists p s1, kmalloc fuel sz s = Done (p, s1) /\ p <> 0.
Proof.
  intros Hok Hf Hs Hin Hz.
  destruct (kmalloc_ok s cs fuel sz Hok Hf Hs) as [[_ Hno]|(p & m & c1 & w & c2 & E & Htf)].
  - rewrite Forall_forall in Hno. specialize (Hno _ Hin). unfold fits in Hno.
    cbn [fst snd negb andb] in Hno. apply Z.leb_gt in Hno. lia.
  - exists p, (with_mem m s). split; [done|].
    pose proof Htf as [Ecs _ _ Hptr _ _]. pose proof Hok as [Ht Hpos _].
    rewrite Ecs in Ht. apply tiles_app in Ht as [Ht _]. apply tiles_total_nonneg in Ht. lia.
Qed.

(** Blocks in use lie in the heap. *)
Lemma live_inside s cs b z :
  heap_ok s cs -> (b, z) ∈ live (KMEM_HEAD s) cs -> KMEM_HEAD s <= b /\ b + z <= heap_end s.
Proof.
  intros [Ht _ _] Hin. destruct (live_split _ _ _ _ Hin) as (c1 & c2 & -> & ->).
  pose proof (tiles_total _ _ _ _ Ht) as E. rewrite total_app in E. cbn in E.
  apply tiles_app in Ht as [Ht1 (_ & _ & Ht2)].
  apply tiles_total_nonneg in Ht1. apply tiles_total_nonneg in Ht2. unfold heap_end. lia.
Qed.

Lemma heap_put s cs fuel p z :
  heap_ok s cs -> (length cs < fuel)%nat -> (p - 8, z) ∈ live (KMEM_HEAD s) cs ->
  exists m cs', kfree fuel p s = Done (tt, with_mem m s) /\ heap_ok (with_mem m s) cs' /\
    live (KMEM_HEAD s) cs ≡ₚ (p - 8, z) :: live (KMEM_HEAD s) cs' /\
    (forall x, outside s x -> byte m x = byte (mem s) x) /\
    (forall b w x, (b, w) ∈ live (KMEM_HEAD s) cs' -> b <= x < b + w -> byte m x = byte (mem s) x) /\
    (length cs' <= length cs)%nat.
Proof.
  intros Hok Hf Hin. destruct (live_split _ _ _ _ Hin) as (c1 & c2 & -> & Ep).
  destruct (kfree_ok s c1 z c2 fuel Hok Hf) as (m & E & Hok' & Hb).
  replace (KMEM_HEAD s + total c1 + 8) with p in E by lia.
  pose proof (heap_tiles _ _ Hok) as Ht. destruct (set_free_ok _ _ _ _ _ _ Ht) as (Ht' & _ & _).
  destruct (merge_live (c1 ++ (false, z) :: c2) (KMEM_HEAD s)) as [Hl _].
  exists m, (merge (c1 ++ (false, z) :: c2)). split_and!; [done|done|..].
  - rewrite Hl, !live_app. cbn [live app]. rewrite Ep. by rewrite <- Permutation_middle.
  - intros x Hx. apply Hb. intros Hfree. pose proof (in_free_range _ _ _ _ _ Ht' Hfree).
    unfold outside, heap_end in Hx. lia.
  - intros b w x Hin' Hx. apply Hb. rewrite Hl in Hin'.
    destruct (live_not_free _ _ b w _ _ Ht' Hin') as (_ & _ & _ & Hn). by apply Hn.
  - pose proof (merge_length (c1 ++ (false, z) :: c2)). rewrite !length_app in *. cbn in *. lia.
Qed.

(** [x] is in the part of a block that belongs to its owner, behind the header. *)
Definition payload (a : Z) (cs : list chunk) (x : Z) : Prop :=
  exists b z, (b, z) ∈ live a cs /\ b + 8 <= x < b + z.

Lemma tiles_upd m m' cs : forall a tail,
  (forall x, a <= x < tail -> ~ payload a cs x -> byte m' x = byte m x) ->
  tiles m a cs tail -> tiles m' a cs tail.
Proof.
  induction cs as [|[tk sz] cs IH]; intros a tail Heq; cbn; [done|].
  intros (Hr & Hc & Ht). pose proof (tiles_total _ _ _ _ Ht) as Etail.
  pose proof (tiles_total_nonneg _ _ _ _ Ht) as Hn. destruct (Hc) as [[H8 _] _]. cbn in H8.
  assert (forall b z, (b, z) ∈ live (a + sz) cs -> a + sz <= b) as Hlow.
  { intros b z Hin. destruct (live_split _ _ _ _ Hin) as (c1 & c2 & -> & ->).
    apply tiles_app in Ht as [Ht _]. apply tiles_total_nonneg in Ht. lia. }
  split_and!; [|done|].
  - rewrite <- Hr. apply rd64_ext. intros x Hx. apply Heq; [lia|].
    intros (b & z & Hin & Hx'). cbn [live] in Hin. apply elem_of_app in Hin as [Hin|Hin].
    + destruct tk; [|by apply elem_of_nil in Hin]. apply list_elem_of_singleton in Hin.
      injection Hin as -> ->. lia.
    + apply Hlow in Hin. lia.
  - apply IH; [|done]. intros x Hx Hp. apply Heq; [lia|].
    intros (b & z & Hin & Hx'). cbn [live] in Hin. apply elem_of_app in Hin as [Hin|Hin].
    + destruct tk; [|by apply elem_of_nil in Hin]. apply list_elem_of_singleton in Hin.
      injection Hin as -> ->. lia.
    + apply Hp. by exists b, z.
Qed.

(** Owners may write to their blocks, and anybody outside of the heap. *)
Lemma heap_write s m cs :
  heap_ok s cs ->
  (forall x, ~ outside s x -> ~ payload (KMEM_HEAD s) cs x -> byte m x = byte (mem s) x) ->
  heap_ok (with_mem m s) cs.
Proof.
  intros Hok Hb. eapply heap_ok_mem; [done|]. eapply tiles_upd; [|apply Hok].
  intros x Hx Hp. apply Hb; [|done]. unfold outside, heap_end. lia.
Qed.

Lemma heap_write_own s m cs p z n :
  heap_ok s cs -> (p - 8, z) ∈ live (KMEM_HEAD s) cs -> n + 8 <= z ->
  (forall x, ~ outside s x -> x < p \/ p + n <= x -> byte m x = byte (mem s) x) ->
  heap_ok (with_mem m s) cs.
Proof.
  intros Hok Hin Hn Hb. apply heap_write; [done|]. intros x Hx Hp. apply Hb; [done|].
  destruct (Z.lt_ge_cases x p); [by left|]. destruct (Z.lt_ge_cases x (p + n)); [|by right].
  destruct Hp. exists (p - 8), z. split; [done|lia].
Qed.

(** The same for a block that is zeroed, as the global allocator hands it out. *)
Lemma heap_take_zeroed s cs fuel sz p s1 :
  heap_ok s cs -> (length cs < fuel)%nat -> 0 <= sz < 2 ^ 62 - 8 ->
  kmalloc fuel sz s = Done (p, s1) -> p <> 0 ->
  exists m cs' bsz, kzmalloc fuel sz s = Done (p, with_mem m s) /\ heap_ok (with_mem m s) cs' /\
    live (KMEM_HEAD s) cs' ≡ₚ (p - 8, bsz) :: live (KMEM_HEAD s) cs /\
    sz + 8 <= bsz /\ KMEM_HEAD s <= p - 8 /\ p - 8 + bsz <= heap_end s /\
    (forall x, outside s x -> byte m x = byte (mem s) x) /\
    (forall b z x, (b, z) ∈ live (KMEM_HEAD s) cs -> b <= x < b + z -> byte m x = byte (mem s) x) /\
    (length cs' <= S (length cs))%nat /\
    (forall z, (false, z) ∈ cs -> need sz + 8 < z ->
       exists z', (false, z') ∈ cs' /\ z - need sz <= z').
Proof.
  intros Hok Hf Hs E Hp. set (rz := (sz + 7) / 8 * 8).
  assert (sz <= rz < sz + 8) as Hrz.
  { pose proof (Z.div_mod (sz + 7) 8 ltac:(lia)). pose proof (Z.mod_pos_bound (sz + 7) 8 ltac:(lia)).
    unfold rz. lia. }
  rewrite <- (kmalloc_rounded fuel sz s Hs) in E. fold rz in E.
  destruct (heap_take s cs fuel rz p s1 Hok Hf ltac:(lia) E Hp)
    as (m & cs' & z & -> & Hok' & Hl & Hz & Hlo & Hhi & Hout & Hlive & Hlen & Hleft).
  exists (zero_bytes m p (Z.to_nat rz)), cs', z.
  unfold kzmalloc. erewrite bind_done by (apply lift_done, align8_ok; lia). fold rz.
  erewrite bind_done by exact E. rewrite (proj2 (Z.eqb_neq p 0) Hp).
  assert (forall x, x < p \/ p + rz <= x -> byte (zero_bytes m p (Z.to_nat rz)) x = byte m x) as Hzb.
  { intros x Hx. rewrite byte_zero_bytes, decide_False by lia. done. }
  assert (need rz = need sz) as En.
  { unfold need, rz. set (q := (sz + 7) / 8). replace (q * 8 + 7) with (7 + q * 8) by lia.
    rewrite Z.div_add by lia. change (7 / 8) with 0. lia. }
  rewrite En in Hleft. split_and!; try done; try lia.
  - apply (heap_write_own (with_mem m s) _ _ p z rz); [done| |done|by intros x _; apply Hzb].
    cbn. rewrite Hl. by left.
  - intros x Hx. rewrite Hzb by (unfold outside in Hx; lia). by apply Hout.
  - intros b v x Hin Hx. destruct (Hlive b v x Hin Hx) as [Eb ?]. by rewrite Hzb by lia.
Qed.

(** Storage of a deque, as long as a free chunk is larger. *)
Lemma with_capacity_ok `{Deques} s cs fuel n size z :
  heap_ok s cs -> (length cs < fuel)%nat -> 0 <= places n * size < 2 ^ 61 ->
  (false, z) ∈ cs -> need (places n * size) + 8 < z ->
  exists p m cs' bsz z', with_capacity fuel n size s = Done (tt, with_mem m s) /\
    heap_ok (with_mem m s) cs' /\ live (KMEM_HEAD s) cs' ≡ₚ (p, bsz) :: live (KMEM_HEAD s) cs /\
    places n * size + 8 <= bsz /\ (forall x, outside s x -> byte m x = byte (mem s) x) /\
    (length cs' <= S (length cs))%nat /\ (false, z') ∈ cs' /\ z - need (places n * size) <= z'.
Proof.
  intros Hok Hf Hs Hin Hz. set (sz := places n * size) in *.
  destruct (heap_has_room s cs fuel sz z Hok Hf ltac:(lia) Hin ltac:(lia)) as (p & s1 & E & Hp).
  destruct (heap_take_zeroed s cs fuel sz p s1 Hok Hf ltac:(lia) E Hp)
    as (m & cs' & bsz & Ez & Hok' & Hl & Hb & _ & _ & Hout & _ & Hlen & Hleft).
  destruct (Hleft z Hin Hz) as (z' & Hin' & Hz'). exists (p - 8), m, cs', bsz, z'. split_and!; try done.
  unfold with_capacity, OsGlobalAlloc_alloc. fold sz.
  erewrite bind_done by (apply lift_done, assert_true, Z.ltb_lt; lia).
  erewrite bind_done by exact Ez. apply lift_done, assert_true. by rewrite (proj2 (Z.eqb_neq p 0) Hp).
Qed.
End Use.
End KmemUse.
