(* ===== verification/Boxes.v ===== *)
(** * Arguments of kernel processes

    A kernel process gets the address of a [Box] with its arguments.  Rust does
    not fix the layout of the structs, so it is a parameter: [Repr] has a size
    and an encoding, [ReprLaws] says that decoding undoes it. *)

From S2P Require Import Prelude Memory Cpu PageAlloc PageProps Kmem KmemFacts KmemProps KmemSpec KmemUse.
From S2P Require Import Mmu MinixLayout Lock Process Console World.
Import Mem KmemFacts KmemProps KmemUse Process World.

Class Repr (A : Type) := {
  size_of : Z;
  encode : A -> list Z;
  decode : list Z -> A;
}.
Arguments size_of A {_}.

(** Values the fields of the struct can hold, [wf], survive. *)
Class ReprLaws (A : Type) `{Repr A} (wf : A -> Prop) : Prop := {
  size_pos : 0 < size_of A < 2 ^ 32;
  encode_length a : wf a -> zlen (encode a) = size_of A;
  decode_encode a : wf a -> decode (encode a) = a;
}.

Module Boxes.
Section Boxes.
Context `{Profile} `{Linker} (fuel : nat).

(** [Box::into_raw(Box::new(a))]; the handler of a failed allocation panics. *)
Definition Box_new `{Repr A} (a : A) : W Z :=
  p ← on_kern (Kmem.OsGlobalAlloc_alloc fuel (size_of A));
  _ ← lift (assert_ (negb (p =? 0)));
  _ ← save_bytes p 0 (encode a);
  mret p.

(** [Box::from_raw(p)], the contents, and dropping it. *)
Definition Box_read `{Repr A} (p : Z) : W A :=
  _ ← lift (valid (negb (p =? 0)));
  gets (fun s => decode (bytes_at (byte (mem_of s)) p (size_of A))).
Definition Box_drop (p : Z) : W unit := on_kern (Kmem.OsGlobalAlloc_dealloc fuel p).

Lemma Box_read_ok `{Repr A} p s (a : A) :
  p <> 0 -> decode (bytes_at (byte (mem_of s)) p (size_of A)) = a -> Box_read p s = Done (a, s).
Proof.
  intros Hp Ha. unfold Box_read. rewrite (proj2 (Z.eqb_neq _ _) Hp).
  erewrite bind_done by reflexivity. unfold gets. by rewrite Ha.
Qed.

(** The boxes in which arguments go to kernel processes, over kmalloc and
    kfree: a box holds what was put in, its block belongs to it alone, and dropping
    it gives the block back. *)
Theorem box_roundtrip `{Repr A} `{!ReprLaws A wf} (a : A) s cs p k1 :
  wf a -> heap_ok (kern_of s) cs -> (S (length cs) < fuel)%nat ->
  Kmem.kmalloc fuel (size_of A) (kern_of s) = Done (p, k1) -> p <> 0 ->
  exists m1 cs1 z m2 cs2,
    Box_new a s = Done (p, with_memory m1 s) /\
    heap_ok (with_mem m1 (kern_of s)) cs1 /\
    live (KMEM_HEAD (kern_of s)) cs1 ≡ₚ (p - 8, z) :: live (KMEM_HEAD (kern_of s)) cs /\
    Box_read p (with_memory m1 s) = Done (a, with_memory m1 s) /\
    Box_drop p (with_memory m1 s) = Done (tt, with_memory m2 s) /\
    heap_ok (with_mem m2 (kern_of s)) cs2 /\
    live (KMEM_HEAD (kern_of s)) cs2 ≡ₚ live (KMEM_HEAD (kern_of s)) cs.
Proof.
  intros Hwf Hok Hf E Hp. pose proof (size_pos (A := A) (wf := wf)) as Hsz.
  pose proof (encode_length (wf := wf) a Hwf) as Hlen.
  destruct (heap_take_zeroed _ cs fuel (size_of A) p k1 Hok ltac:(lia) ltac:(lia) E Hp)
    as (m & cs1 & z & Ez & Hok1 & Hl & Hz & _ & _ & _ & _ & Hlen1 & _).
  set (m1 := store m p (encode a)). apply Z.eqb_neq in Hp as Hp'.
  assert (heap_ok (with_mem m1 (kern_of s)) cs1) as Hokm.
  { apply (heap_write_own (with_mem m (kern_of s)) _ _ p z (size_of A)); [done| |done|].
    - cbn. rewrite Hl. by left.
    - intros x _. rewrite <- Hlen. apply byte_store_out. }
  destruct (heap_put (with_mem m1 (kern_of s)) cs1 fuel p z Hokm ltac:(lia))
    as (m2 & cs2 & Ef & Hok2 & Hl2 & _); [cbn; rewrite Hl; by left|].
  exists m1, cs1, z, m2, cs2. split_and!; try done.
  - unfold Box_new, Kmem.OsGlobalAlloc_alloc. erewrite bind_done by (apply zoom_done; exact Ez).
    rewrite Hp'. erewrite bind_done by reflexivity. erewrite bind_done by (by apply save_bytes_ok).
    by rewrite Z.add_0_r.
  - unfold Box_read. rewrite Hp'. erewrite bind_done by reflexivity. unfold gets.
    rewrite mem_of_with_memory, <- Hlen.
    unfold m1. by rewrite bytes_at_store, (decode_encode (wf := wf) a Hwf).
  - exact (zoom_done kern_of with_kern _ (with_memory m1 s) tt _ Ef).
  - cbn in Hl2. rewrite Hl in Hl2. by apply Permutation_cons_inv in Hl2.
Qed.
End Boxes.
End Boxes.
