(* ===== verification/Uart.v ===== *)
(** * uart.rs: the serial port, and the macros of main.rs that print *)

From S2P Require Import Prelude Memory Cpu PageAlloc Mmu MinixLayout Lock Process Console World.
Import Mem Process World.

Module Uart.

(** [Uart { base_address }] is its base address. *)
Definition Uart_new (base_address : Z) : Z := base_address.
Definition UART : Z := 0x10000000.

Section Uart.
Context `{Bus}.

Definition put (base c : Z) : W unit := write_volatile (base + 0) c.

Fixpoint write_str (base : Z) (out : list Z) : W unit :=
  match out with
  | [] => mret tt
  | c :: out' => _ ← put base c; write_str base out'
  end.

(** [print!] and [println!] of a text that is already formatted. *)
Definition print (text : list Z) : W unit := write_str (Uart_new UART) text.
Definition println (text : list Z) : W unit := print (text ++ Fmt.crlf).

Definition init (base : Z) : W unit :=
  let lcr := Z.lor (Z.shiftl 1 0) (Z.shiftl 1 1) in
  _ ← write_volatile (base + 3) lcr;
  _ ← write_volatile (base + 2) (Z.shiftl 1 0);
  _ ← write_volatile (base + 1) (Z.shiftl 1 0);
  let divisor := 592 in
  let divisor_least := Z.land divisor 0xff in
  let divisor_most := Z.shiftr divisor 8 in
  _ ← write_volatile (base + 3) (Z.lor lcr (Z.shiftl 1 7));
  _ ← write_volatile (base + 0) divisor_least;
  _ ← write_volatile (base + 1) divisor_most;
  write_volatile (base + 3) lcr.

Definition uget (base : Z) : W (option Z) :=
  lsr ← read_volatile 1 (base + 5);
  if Z.land lsr 1 =? 0 then mret None
  else c ← read_volatile 1 (base + 0); mret (Some c).

(** What the interrupt handler echoes for the byte [c]. *)
Definition echo (c : Z) : list Z :=
  if c =? 8 then Fmt.char 8 ++ [32] ++ Fmt.char 8
  else if (c =? 10) || (c =? 13) then Fmt.crlf
  else Fmt.char c.

Definition handle_interrupt : W unit :=
  let my_uart := Uart_new 0x10000000 in
  o ← uget my_uart;
  match o with
  | Some c => _ ← on_con (Console.push_stdin c); print (echo c)
  | None => mret tt
  end.

(** ** Properties *)

Lemma write_str_ok base out : forall s,
  write_str base out s = Done (tt, with_io (io s ++ (Wr base <$> out)) s).
Proof.
  induction out as [|c out IH]; intros s; cbn [write_str fmap list_fmap].
  - rewrite app_nil_r. by destruct s.
  - erewrite bind_done by reflexivity. rewrite IH. cbn [io with_io].
    rewrite Z.add_0_r, <- app_assoc. done.
Qed.

Lemma print_ok out s : print out s = Done (tt, with_io (io s ++ (Wr UART <$> out)) s).
Proof. apply write_str_ok. Qed.

Lemma println_ok out s :
  println out s = Done (tt, with_io (io s ++ (Wr UART <$> (out ++ Fmt.crlf))) s).
Proof. apply write_str_ok. Qed.

(** The registers of a 16550 that [init] programs.  Bit 7 of the line
    control register selects the divisor latch behind offsets 0 and 1. *)
Record regs16550 := mkRegs { lcr : Z; ier : Z; fcr : Z; dll : Z; dlm : Z; sent : list Z }.

Definition uart_write (base : Z) (r : regs16550) (e : io_event) : regs16550 :=
  match e with
  | Rd _ _ => r
  | Wr a v =>
      let dlab := Z.testbit (lcr r) 7 in
      if a =? base + 3 then mkRegs v (ier r) (fcr r) (dll r) (dlm r) (sent r)
      else if a =? base + 2 then mkRegs (lcr r) (ier r) v (dll r) (dlm r) (sent r)
      else if a =? base + 1 then
        if dlab then mkRegs (lcr r) (ier r) (fcr r) (dll r) v (sent r)
        else mkRegs (lcr r) v (fcr r) (dll r) (dlm r) (sent r)
      else if a =? base then
        if dlab then mkRegs (lcr r) (ier r) (fcr r) v (dlm r) (sent r)
        else mkRegs (lcr r) (ier r) (fcr r) (dll r) (dlm r) (sent r ++ [v])
      else r
  end.

Definition uart_after (base : Z) (l : list io_event) : regs16550 :=
  foldl (uart_write base) (mkRegs 0 0 0 0 0 []) l.

Lemma programs_port base s :
  init base s = Done (tt, with_io (io s ++ [Wr (base + 3) 3; Wr (base + 2) 1; Wr (base + 1) 1;
    Wr (base + 3) 131; Wr base 80; Wr (base + 1) 2; Wr (base + 3) 3]) s).
Proof.
  unfold init. do 6 (erewrite bind_done by reflexivity).
  unfold write_volatile, modify. cbn [io with_io con]. rewrite <- !app_assoc, Z.add_0_r. done.
Qed.

(** Writes to the registers, one lemma for each offset. *)
Lemma uw_lcr base l i f d1 d2 out v :
  uart_write base (mkRegs l i f d1 d2 out) (Wr (base + 3) v) = mkRegs v i f d1 d2 out.
Proof. unfold uart_write. by rewrite Z.eqb_refl. Qed.
Lemma uw_fcr base l i f d1 d2 out v :
  uart_write base (mkRegs l i f d1 d2 out) (Wr (base + 2) v) = mkRegs l i v d1 d2 out.
Proof.
  unfold uart_write. by rewrite (proj2 (Z.eqb_neq (base + 2) (base + 3))), Z.eqb_refl by lia.
Qed.
Lemma uw_1 base l i f d1 d2 out v b : Z.testbit l 7 = b ->
  uart_write base (mkRegs l i f d1 d2 out) (Wr (base + 1) v) =
    if b then mkRegs l i f d1 v out else mkRegs l v f d1 d2 out.
Proof.
  intros <-. unfold uart_write. by rewrite (proj2 (Z.eqb_neq (base + 1) (base + 3))),
    (proj2 (Z.eqb_neq (base + 1) (base + 2))), Z.eqb_refl by lia.
Qed.
Lemma uw_0 base l i f d1 d2 out v b : Z.testbit l 7 = b ->
  uart_write base (mkRegs l i f d1 d2 out) (Wr base v) =
    if b then mkRegs l i f v d2 out else mkRegs l i f d1 d2 (out ++ [v]).
Proof.
  intros <-. unfold uart_write. by rewrite !(proj2 (Z.eqb_neq base (base + _))), Z.eqb_refl by lia.
Qed.

Lemma init_regs base r :
  foldl (uart_write base) r [Wr (base + 3) 3; Wr (base + 2) 1; Wr (base + 1) 1;
    Wr (base + 3) 131; Wr base 80; Wr (base + 1) 2; Wr (base + 3) 3] =
  mkRegs 3 1 1 80 2 (sent r).
Proof.
  destruct r. cbn [foldl]. rewrite uw_lcr, uw_fcr, (uw_1 _ _ _ _ _ _ _ _ false) by done.
  rewrite uw_lcr, (uw_0 _ _ _ _ _ _ _ _ true), (uw_1 _ _ _ _ _ _ _ _ true) by done.
  by rewrite uw_lcr.
Qed.

(** Bytes written while the latch is closed are sent. *)
Lemma sent_out base out : forall r, lcr r = 3 ->
  foldl (uart_write base) r (Wr base <$> out) =
    mkRegs 3 (ier r) (fcr r) (dll r) (dlm r) (sent r ++ out).
Proof.
  induction out as [|c out IH]; intros r Hl; cbn [fmap list_fmap foldl].
  - rewrite app_nil_r. destruct r. cbn in *. by subst.
  - destruct r as [l i f d1 d2 out']. cbn in Hl. subst.
    rewrite (uw_0 _ _ _ _ _ _ _ _ false) by done. rewrite IH by done. cbn. by rewrite <- app_assoc.
Qed.

(** Whatever was done to the serial port before, init leaves it with 8-bit words,
    the FIFO and the receive interrupt on, the divisor 592 and its latch closed,
    and a text written afterwards is sent as it is. *)
Theorem uart_init_programs base out s :
  exists s', (_ ← init base; write_str base out) s = Done (tt, s') /\ con s' = con s /\
    exists before, uart_after base (io s') = mkRegs 3 1 1 (592 mod 256) (592 / 256) (before ++ out).
Proof.
  erewrite bind_done by apply programs_port. rewrite write_str_ok.
  eexists. split; [reflexivity|]. split; [done|].
  cbn [with_io io]. unfold uart_after. rewrite !foldl_app.
  rewrite init_regs, sent_out by done.
  eexists. reflexivity.
Qed.

Lemma uget_ok base s :
  let status := bus (io s) (base + 5) in
  let io1 := io s ++ [Rd (base + 5) (status mod 2 ^ 8)] in
  let c := bus io1 base mod 2 ^ 8 in
  uget base s = if Z.testbit status 0 then Done (Some c, with_io (io1 ++ [Rd base c]) s)
                else Done (None, with_io io1 s).
Proof.
  intros status io1 c. unfold uget. set (s1 := with_io io1 s).
  assert (read_volatile 1 (base + 5) s = Done (status mod 2 ^ 8, s1)) as E1 by done.
  erewrite bind_done by exact E1.
  assert ((Z.land (status mod 2 ^ 8) 1 =? 0) = negb (Z.testbit status 0)) as ->.
  { change 1 with (Z.shiftl 1 0). rewrite land_bit by done.
    by rewrite Z.mod_pow2_bits_low by lia. }
  destruct (Z.testbit status 0); cbn [negb]; [|done].
  rewrite Z.add_0_r. by erewrite bind_done by reflexivity.
Qed.

(** What is seen on the terminal when byte [c] was typed: a backspace goes back, writes
    a blank over the character and goes back again; newline and return both start a
    new line; any other byte is shown as the character with that number, in UTF-8. *)
Record shows (c : Z) (out : list Z) : Prop := {
  sh_backspace : c = 8 -> out = [8; 32; 8];
  sh_newline : c = 10 \/ c = 13 -> out = [13; 10];
  sh_ascii : c <> 8 -> c <> 10 -> c <> 13 -> c < 128 -> out = [c];
  sh_high : 128 <= c -> out = [192 + c / 64; 128 + c mod 64];
}.

Lemma echo_shows c : 0 <= c < 256 -> shows c (echo c).
Proof.
  intros Hc. unfold echo. split.
  - by intros ->.
  - by intros [-> | ->].
  - intros E8 E10 E13 Hlt. rewrite !(proj2 (Z.eqb_neq _ _)) by done. cbn [orb].
    unfold Fmt.char. by rewrite (proj2 (Z.ltb_lt _ _) Hlt).
  - intros Hge. rewrite !(proj2 (Z.eqb_neq _ _)) by lia. cbn [orb].
    unfold Fmt.char. by rewrite (proj2 (Z.ltb_ge _ _) Hge).
Qed.

(** C37: When the serial port has a byte and the lock of the input queue is free,
    the byte is put at the end of the queue, or dropped when the queue is full, and
    is echoed: a backspace as backspace, blank, backspace, a newline or return as
    return and newline, any other byte as its character in UTF-8. Without a byte
    nothing happens. *)
Theorem uart_interrupt_delivers s buf :
  let status := bus (io s) (UART + 5) in
  let io1 := io s ++ [Rd (UART + 5) (status mod 2 ^ 8)] in
  let c := bus io1 UART mod 2 ^ 8 in
  Console.IN_BUFFER (con s) = Some buf -> Console.IN_LOCK (con s) = 0 ->
  if Z.testbit status 0 then
    exists s' out, handle_interrupt s = Done (tt, s') /\
      Console.IN_BUFFER (con s') =
        Some (if zlen buf <? Console.DEFAULT_IN_BUFFER_SIZE then buf ++ [c] else buf) /\
      Console.IN_LOCK (con s') = 0 /\
      io s' = io1 ++ [Rd UART c] ++ (Wr UART <$> out) /\ shows c out
  else handle_interrupt s = Done (tt, with_io io1 s).
Proof.
  intros status io1 c Hb Hl. unfold handle_interrupt.
  pose proof (uget_ok UART s) as E. cbn zeta in E. fold status io1 in E.
  destruct (Z.testbit status 0); erewrite bind_done by exact E; [|done].
  set (s2 := with_io _ s). fold c in s2.
  assert (exists k, Console.push_stdin c (con s) = Done (tt, k) /\ Console.IN_BUFFER k =
      Some (if zlen buf <? Console.DEFAULT_IN_BUFFER_SIZE then buf ++ [c] else buf) /\ Console.IN_LOCK k = 0)
    as (k & Ek & Eb & El).
  { destruct (Z.ltb_spec (zlen buf) Console.DEFAULT_IN_BUFFER_SIZE).
    - by apply Console.push_stdin_ok.
    - exists (con s). by rewrite (Console.push_stdin_full _ buf). }
  eexists _, (echo c). erewrite bind_done by (apply (zoom_done con with_con _ s2), Ek).
  rewrite print_ok. split; [reflexivity|]. split_and!; [exact Eb|exact El| |].
  - cbn [io with_io with_con s2]. by rewrite <- app_assoc.
  - apply echo_shows, Z.mod_pos_bound. lia.
Qed.
End Uart.
End Uart.
