(* ===== verification/PageReport.v ===== *)
(** * page.rs: the report of the allocations

    [print_page_allocations] walks over the page descriptors and prints one
    line for each allocation, and the totals. *)

From S2P Require Import Prelude Memory Cpu PageAlloc PageProps Mmu MinixLayout Lock Process Console World Uart.
From Stdlib Require String.
Import (notations) String.
Import Mem Process World Page PageProps.

(** ** Programs that only print *)

Module Says.
Section Says.
Context `{Bus}.

(** The world after a text was sent to the serial port. *)
Definition said (text : list Z) (s : world) : world := with_io (io s ++ (Wr Uart.UART <$> text)) s.

(** [c] returns [a] and prints [text]; nothing else changes. *)
Definition says {A} (c : W A) (s : world) (a : A) (text : list Z) : Prop := c s = Done (a, said text s).

Lemma said_app a b s : said b (said a s) = said (a ++ b) s.
Proof. unfold said. cbn [io with_io]. by rewrite fmap_app, app_assoc. Qed.

Lemma said_nil s : said [] s = s.
Proof. unfold said. cbn. rewrite app_nil_r. by destruct s. Qed.

Lemma says_bind {A B} (c : W A) (k : A -> W B) s a b t1 t2 :
  says c s a t1 -> says (k a) (said t1 s) b t2 -> says (c ≫= k) s b (t1 ++ t2).
Proof. unfold says. intros E1 E2. erewrite bind_done by exact E1. by rewrite E2, said_app. Qed.

Lemma says_ret {A} (a : A) s : says (mret a) s a [].
Proof. unfold says. by rewrite said_nil. Qed.

Lemma says_quiet {A B} (c : W A) (k : A -> W B) s a b t :
  c s = Done (a, s) -> says (k a) s b t -> says (c ≫= k) s b t.
Proof. unfold says. intros E1 E2. by erewrite bind_done by exact E1. Qed.

Lemma says_print text s : says (Uart.print text) s tt text.
Proof. apply Uart.print_ok. Qed.

Lemma says_println text s : says (Uart.println text) s tt (text ++ Fmt.crlf).
Proof. apply Uart.println_ok. Qed.

Lemma says_text {A} (c : W A) s a t t' : t = t' -> says c s a t -> says c s a t'.
Proof. by intros ->. Qed.
End Says.
End Says.
Export Says.

Module PageReport.
Section Report.
Context `{Profile} `{Linker} `{Bus}.

(** The descriptor at [p]. *)
Definition flags_at (p : Z) : W Z := gets (fun s => byte (mem_of s) p).
Definition alloc_start : W Z := gets (fun s => ALLOC_START (kern_of s)).

(** The inner loop, over the pages of one allocation; it returns [beg] and [num]. *)
Fixpoint run_loop (fuel : nat) (start beg num : Z) : W (Z * Z) :=
  match fuel with
  | O => fail (@NoFuel)
  | S fuel' =>
      num ← lift (usize (num + 1));
      flags ← flags_at beg;
      if is_last flags then
        let end_ := beg in
        a ← alloc_start;
        d ← lift (usize (end_ - HEAP_START));
        d ← lift (usize (d * PAGE_SIZE));
        m ← lift (usize (a + d));
        m ← lift (usize (m + PAGE_SIZE));
        memaddr ← lift (usize (m - 1));
        n ← lift (usize (end_ - start));
        n ← lift (usize (n + 1));
        _ ← Uart.print (Fmt.str "0x" ++ Fmt.hex memaddr ++ Fmt.str ": " ++ Fmt.pad 32 3 (Fmt.dec n) ++
                          Fmt.str " page(s)");
        _ ← Uart.println (Fmt.str ".");
        mret (beg, num)
      else run_loop fuel' start (beg + 1) num
  end.

(** [while beg < end], the result is [num]. *)
Fixpoint page_loop (fuel : nat) (end_ beg num : Z) : W Z :=
  match fuel with
  | O => fail (@NoFuel)
  | S fuel' =>
      if negb (beg <? end_) then mret num else
      flags ← flags_at beg;
      if is_taken flags then
        let start := beg in
        a ← alloc_start;
        d ← lift (usize (start - HEAP_START));
        d ← lift (usize (d * PAGE_SIZE));
        memaddr ← lift (usize (a + d));
        _ ← Uart.print (Fmt.str "0x" ++ Fmt.hex memaddr ++ Fmt.str " => ");
        '(beg, num) ← run_loop fuel' start beg num;
        page_loop fuel' end_ (beg + 1) num
      else page_loop fuel' end_ (beg + 1) num
  end.

Definition rule : list Z := replicate 41 126.

Definition print_page_allocations (fuel : nat) : W unit :=
  a ← alloc_start;
  d ← lift (usize (a - HEAP_START));
  r ← lift (usize (HEAP_SIZE - d));
  let num_pages := r / PAGE_SIZE in
  let beg := HEAP_START in
  let end_ := beg + num_pages in
  let alloc_beg := a in
  b ← lift (usize (num_pages * PAGE_SIZE));
  alloc_end ← lift (usize (a + b));
  _ ← Uart.println [];
  _ ← Uart.println (Fmt.str "PAGE ALLOCATION TABLE" ++ [10] ++ Fmt.str "META: 0x" ++ Fmt.hex beg ++
        Fmt.str " -> 0x" ++ Fmt.hex end_ ++ [10] ++ Fmt.str "PHYS: 0x" ++ Fmt.hex alloc_beg ++
        Fmt.str " -> 0x" ++ Fmt.hex alloc_end);
  _ ← Uart.println rule;
  num ← page_loop fuel end_ beg 0;
  _ ← Uart.println rule;
  b ← lift (usize (num * PAGE_SIZE));
  _ ← Uart.println (Fmt.str "Allocated: " ++ Fmt.pad 32 6 (Fmt.dec num) ++ Fmt.str " pages (" ++
        Fmt.pad 32 10 (Fmt.dec b) ++ Fmt.str " bytes).");
  f ← lift (usize (num_pages - num));
  b ← lift (usize (f * PAGE_SIZE));
  _ ← Uart.println (Fmt.str "Free     : " ++ Fmt.pad 32 6 (Fmt.dec f) ++ Fmt.str " pages (" ++
        Fmt.pad 32 10 (Fmt.dec b) ++ Fmt.str " bytes).");
  Uart.println [].

(** ** What it says *)

(** The line of an allocation of [k] pages at [addr]. *)
Definition run_line (addr : Z) (k : nat) : list Z :=
  Fmt.str "0x" ++ Fmt.hex addr ++ Fmt.str " => 0x" ++ Fmt.hex (addr + PAGE_SIZE * Z.of_nat k - 1) ++
  Fmt.str ": " ++ Fmt.pad 32 3 (Fmt.dec (Z.of_nat k)) ++ Fmt.str " page(s)." ++ Fmt.crlf.

(** One line for each allocation of the table, the first page at [addr]. *)
Fixpoint table_lines (addr : Z) (t : list seg) : list Z :=
  match t with
  | [] => []
  | Free :: t' => table_lines (addr + PAGE_SIZE) t'
  | Run k :: t' => run_line addr k ++ table_lines (addr + PAGE_SIZE * Z.of_nat k) t'
  end.

(** [n] pages of which [f] are free, from [a] on. *)
Definition report (a n f : Z) (t : list seg) : list Z :=
  let total name x := Fmt.str name ++ Fmt.pad 32 6 (Fmt.dec x) ++ Fmt.str " pages (" ++
    Fmt.pad 32 10 (Fmt.dec (x * PAGE_SIZE)) ++ Fmt.str " bytes)." ++ Fmt.crlf in
  Fmt.crlf ++ Fmt.str "PAGE ALLOCATION TABLE" ++ [10] ++
  Fmt.str "META: 0x" ++ Fmt.hex HEAP_START ++ Fmt.str " -> 0x" ++ Fmt.hex (HEAP_START + n) ++ [10] ++
  Fmt.str "PHYS: 0x" ++ Fmt.hex a ++ Fmt.str " -> 0x" ++ Fmt.hex (a + n * PAGE_SIZE) ++ Fmt.crlf ++
  rule ++ Fmt.crlf ++ table_lines a t ++ rule ++ Fmt.crlf ++
  total "Allocated: "%string (n - f) ++ total "Free     : "%string f ++ Fmt.crlf.
(** The loops do not look at the serial port. *)
Lemma usize_at {A} x (k : Z -> W A) s a t : 0 <= x < 2 ^ 64 -> says (k x) s a t -> says (v ← lift (usize x); k v) s a t.
Proof. intros Hx. apply says_quiet, lift_done, uint_ok. lia. Qed.

Lemma flag_first m p b l : holds m p (b :: l) -> byte m p = b.
Proof. intros Hh. specialize (Hh 0). rewrite Z.add_0_r in Hh. apply Hh. cbn. lia. Qed.

Lemma holds_rest m p b l : holds m p (b :: l) -> holds m (p + 1) l.
Proof. intros Hh. change (b :: l) with ([b] ++ l) in Hh. apply holds_app in Hh as [_ Hh]. exact Hh. Qed.

Lemma run_loop_ok start a j : forall fuel beg num s,
  holds (mem_of s) beg (replicate j 1 ++ [3]) -> ALLOC_START (kern_of s) = a ->
  HEAP_START <= start <= beg -> 0 <= HEAP_START -> 0 <= num -> 0 <= a ->
  num + Z.of_nat j + 1 < 2 ^ 64 -> a + (beg + Z.of_nat j - HEAP_START + 1) * PAGE_SIZE < 2 ^ 64 ->
  (j < fuel)%nat ->
  let e := beg + Z.of_nat j in
  says (run_loop fuel start beg num) s (e, num + Z.of_nat j + 1)
    (Fmt.str "0x" ++ Fmt.hex (a + (e - HEAP_START) * PAGE_SIZE + PAGE_SIZE - 1) ++ Fmt.str ": " ++
     Fmt.pad 32 3 (Fmt.dec (e - start + 1)) ++ Fmt.str " page(s)." ++ Fmt.crlf).
Proof.
  induction j as [|j IH]; intros [|fuel] beg num s Hh Ha Hst Hz0 Hn Ha0 Hnum Hmax Hf e; try lia;
    pose proof (flag_first _ _ _ _ Hh) as Eb; unfold PAGE_SIZE in *; cbn [run_loop];
    (apply usize_at; [lia|]); (eapply says_quiet; [reflexivity|]); rewrite Eb.
  - change (is_last 3) with true. cbn iota. unfold e. rewrite !Z.add_0_r in *.
    eapply says_quiet; [reflexivity|]. rewrite Ha. unfold PAGE_SIZE.
    do 7 (apply usize_at; [lia|]).
    eapply says_text; [|eapply says_bind; [apply says_print|eapply says_bind; [apply says_println|apply says_ret]]].
    rewrite !app_nil_r, <- !app_assoc. done.
  - change (is_last 1) with false. cbn iota. apply holds_rest in Hh.
    assert (e = beg + 1 + Z.of_nat j) as -> by (unfold e; lia).
    replace (num + Z.of_nat (S j) + 1) with (num + 1 + Z.of_nat j + 1) by lia.
    apply IH; try done; lia.
Qed.

Lemma page_loop_ok a t : forall fuel i num s,
  holds (mem_of s) (HEAP_START + i) (enc_table t) -> ALLOC_START (kern_of s) = a -> Forall seg_ok t ->
  0 <= HEAP_START -> 0 <= num <= i -> 0 <= a ->
  a + (i + pages_of t) * PAGE_SIZE < 2 ^ 64 -> pages_of t < Z.of_nat fuel ->
  says (page_loop fuel (HEAP_START + i + pages_of t) (HEAP_START + i) num) s
    (num + pages_of t - free_pages t) (table_lines (a + i * PAGE_SIZE) t).
Proof.
  induction t as [|g t IH]; intros [|fuel] i num s Hh Ha Hok Hz0 Hn Ha0 Hmax Hf;
    try (unfold pages_of in Hf; lia); cbn [page_loop].
  { rewrite (proj2 (Z.ltb_ge _ _)) by (change (pages_of []) with 0; lia). cbn [negb].
    change (pages_of []) with 0. change (free_pages []) with 0. rewrite Z.add_0_r, Z.sub_0_r. apply says_ret. }
  apply Forall_cons in Hok as [Hg Hok]. rewrite pages_of_cons in *.
  assert (0 <= pages_of t) as Hp0 by (unfold pages_of; lia).
  change (enc_table (g :: t)) with (enc g ++ enc_table t) in Hh. apply holds_app in Hh as [Hg1 Hh].
  rewrite (free_pages_cons g t). destruct g as [|k].
  - change (pages_of [Free]) with 1 in *. change (free_pages [Free]) with 1. change (zlen (enc Free)) with 1 in Hh.
    rewrite (proj2 (Z.ltb_lt _ _)) by lia. cbn [negb].
    eapply says_quiet; [reflexivity|]. rewrite (flag_first _ _ _ _ Hg1). change (is_taken 0) with false. cbn iota.
    specialize (IH fuel (i + 1) num s). cbn [table_lines].
    replace (HEAP_START + i + (1 + pages_of t)) with (HEAP_START + (i + 1) + pages_of t) by lia.
    replace (HEAP_START + i + 1) with (HEAP_START + (i + 1)) in * by lia.
    replace (num + (1 + pages_of t) - (1 + free_pages t)) with (num + pages_of t - free_pages t) by lia.
    replace (a + i * PAGE_SIZE + PAGE_SIZE) with (a + (i + 1) * PAGE_SIZE) by lia.
    apply IH; try done; lia.
  - cbn in Hg. rewrite pages_of_run in * by done. change (free_pages [Run k]) with 0.
    rewrite (proj2 (Z.ltb_lt _ _)) by lia. cbn [negb]. eapply says_quiet; [reflexivity|].
    assert (is_taken (byte (mem_of s) (HEAP_START + i)) = true) as ->.
    { specialize (Hg1 0 ltac:(cbn [enc]; rewrite length_app, length_replicate; cbn; lia)).
      rewrite Z.add_0_r in Hg1. rewrite Hg1, <- (app_nil_r (enc (Run k))). apply taken_run. lia. }
    cbn iota. eapply says_quiet; [reflexivity|]. rewrite Ha. unfold PAGE_SIZE in *.
    do 3 (apply usize_at; [lia|]). cbn [enc] in Hg1.
    eapply says_text; [|eapply says_bind; [apply says_print|eapply says_bind;
      [apply (run_loop_ok _ a (k - 1)); try done; unfold PAGE_SIZE in *; lia|cbn beta iota]]].
    2:{ replace (num + (Z.of_nat k + pages_of t) - (0 + free_pages t))
          with (num + Z.of_nat (k - 1) + 1 + pages_of t - free_pages t) by lia.
        replace (HEAP_START + i + Z.of_nat (k - 1) + 1) with (HEAP_START + (i + Z.of_nat k)) by lia.
        replace (HEAP_START + i + (Z.of_nat k + pages_of t)) with (HEAP_START + (i + Z.of_nat k) + pages_of t) by lia.
        apply (IH fuel (i + Z.of_nat k) (num + Z.of_nat (k - 1) + 1)); try done; [|lia..].
        cbn [enc] in *. rewrite length_app, length_replicate in Hh. cbn [length] in Hh.
        replace (HEAP_START + (i + Z.of_nat k)) with (HEAP_START + i + Z.of_nat (k - 1 + 1)) by lia. exact Hh. }
    cbn [table_lines]. unfold run_line, PAGE_SIZE. rewrite <- !app_assoc.
    replace (HEAP_START + i - HEAP_START) with i by lia.
    replace (a + (HEAP_START + i + Z.of_nat (k - 1) - HEAP_START) * 4096 + 4096 - 1)
      with (a + i * 4096 + 4096 * Z.of_nat k - 1) by lia.
    replace (HEAP_START + i + Z.of_nat (k - 1) - (HEAP_START + i) + 1) with (Z.of_nat k) by lia.
    replace (a + (i + Z.of_nat k) * 4096) with (a + i * 4096 + 4096 * Z.of_nat k) by lia. done.
Qed.

(** print_page_allocations prints one line for each allocation among the pages
    of the heap behind the descriptors, with its first and last address and its
    number of pages, and how many of these pages are allocated and how many are
    free; nothing else changes. *)
Theorem report_lists_allocations s t1 t2 fuel :
  let a := ALLOC_START (kern_of s) in
  let n := (HEAP_SIZE - (a - HEAP_START)) / PAGE_SIZE in
  page_ok (kern_of s) (t1 ++ t2) -> pages_of t1 = n -> HEAP_SIZE < 2 ^ 64 -> n < Z.of_nat fuel ->
  print_page_allocations fuel s = Done (tt, said (report a n (free_pages t1) t1) s).
Proof.
  intros a n [Hh Hsg Hlen Hb Hm Hp] Ht1 Hsz Hf. fold a in Hb, Hm.
  assert (0 <= n) as Hn0 by (rewrite <- Ht1; unfold pages_of; lia).
  assert (0 <= pages_of t2) by (unfold pages_of; lia). rewrite pages_of_app in Hlen.
  assert (0 <= HEAP_SIZE - (a - HEAP_START)) as Hd.
  { apply Z.nlt_ge. intros Hlt. assert (n < 0); [|lia]. apply Z.div_lt_upper_bound; unfold PAGE_SIZE; lia. }
  rewrite enc_app in Hh. apply holds_app in Hh as [Hh _]. apply Forall_app in Hsg as [Hsg _].
  pose proof (free_le_pages t1) as Hfree. assert (0 <= free_pages t1) by (unfold free_pages; lia).
  unfold PAGE_SIZE in *. unfold print_page_allocations.
  eapply says_quiet; [reflexivity|]. fold a. do 2 (apply usize_at; [lia|]). fold n. unfold PAGE_SIZE.
  do 2 (apply usize_at; [lia|]).
  eapply says_text; [|do 3 (eapply says_bind; [apply says_println|]); eapply says_bind].
  2:{ pose proof (page_loop_ok a t1 fuel 0 0) as Hl. rewrite Z.add_0_r, Ht1 in Hl.
      apply Hl; try done; unfold PAGE_SIZE; lia. }
  2:{ eapply says_bind; [apply says_println|]. apply usize_at; [lia|].
      eapply says_bind; [apply says_println|]. do 2 (apply usize_at; [lia|]).
      eapply says_bind; [apply says_println|apply says_println]. }
  unfold report, PAGE_SIZE. rewrite Z.mul_0_l, Z.add_0_r, Z.add_0_l.
  fold n. replace (n - (n - free_pages t1)) with (free_pages t1) by lia. rewrite <- !app_assoc. done.
Qed.
End Report.
End PageReport.
