(* ===== verification/Virtio.v ===== *)
(** * virtio.rs: registers, rings and the start of a device

    A [Queue] is 5128 bytes of memory that the driver and the device share:
    128 descriptors, the ring of heads the driver makes available and, on the
    next page, the ring of heads the device has used. *)

From S2P Require Import Prelude Memory Cpu PageAlloc Mmu MinixLayout Lock Process Console World Uart.
Import Mem Process World.

Module Virtio.
Import (notations) String.

Definition VIRTIO_F_RING_EVENT_IDX : Z := 29.
Definition VIRTIO_DESC_F_NEXT : Z := 1.
Definition VIRTIO_DESC_F_WRITE : Z := 2.
Definition VIRTIO_RING_SIZE : Z := Z.shiftl 1 7.

(** ** Registers *)

Inductive MmioOffsets :=
| MagicValue | Version | DeviceId | VendorId | HostFeatures | HostFeaturesSel
| GuestFeatures | GuestFeaturesSel | GuestPageSize | QueueSel | QueueNumMax
| QueueNum | QueueAlign | QueuePfn | QueueNotify | InterruptStatus
| InterruptAck | Status | Config.

Definition MmioOffsets_val (o : MmioOffsets) : Z :=
  match o with
  | MagicValue => 0x000 | Version => 0x004 | DeviceId => 0x008 | VendorId => 0x00c
  | HostFeatures => 0x010 | HostFeaturesSel => 0x014 | GuestFeatures => 0x020
  | GuestFeaturesSel => 0x024 | GuestPageSize => 0x028 | QueueSel => 0x030
  | QueueNumMax => 0x034 | QueueNum => 0x038 | QueueAlign => 0x03c
  | QueuePfn => 0x040 | QueueNotify => 0x050 | InterruptStatus => 0x060
  | InterruptAck => 0x064 | Status => 0x070 | Config => 0x100
  end.

Definition scaled (o : MmioOffsets) (scale : Z) : Z := MmioOffsets_val o / scale.
Definition scale32 (o : MmioOffsets) : Z := scaled o 4.

(** [ptr.add(o.scale32())] for a pointer to [u32]. *)
Definition reg (ptr : Z) (o : MmioOffsets) : Z := ptr + 4 * scale32 o.

Inductive StatusField := Acknowledge | Driver | Failed | FeaturesOk | DriverOk | DeviceNeedsReset.

Definition val32 (f : StatusField) : Z :=
  match f with
  | Acknowledge => 1 | Driver => 2 | Failed => 128 | FeaturesOk => 8 | DriverOk => 4
  | DeviceNeedsReset => 64
  end.

Definition test (sf : Z) (bit : StatusField) : bool := negb (Z.land sf (val32 bit) =? 0).
Definition is_failed (sf : Z) : bool := test sf Failed.
Definition needs_reset (sf : Z) : bool := test sf DeviceNeedsReset.
Definition driver_ok (sf : Z) : bool := test sf DriverOk.
Definition features_ok (sf : Z) : bool := test sf FeaturesOk.

Definition MMIO_VIRTIO_START : Z := 0x10001000.
Definition MMIO_VIRTIO_END : Z := 0x10008000.
Definition MMIO_VIRTIO_STRIDE : Z := 0x1000.
Definition MMIO_VIRTIO_MAGIC : Z := 0x74726976.

Definition DeviceTypes_val (t : DeviceTypes) : Z :=
  match t with
  | DNone => 0 | DNetwork => 1 | DBlock => 2 | DConsole => 3 | DEntropy => 4
  | DGpu => 16 | DInput => 18 | DMemory => 24
  end.

(** ** The queue in memory *)

Record Descriptor := mkDesc { addr : Z; dlen : Z; flags : Z; next : Z }.

Definition sizeof_Queue : Z := 5128.

(** Where the fields of the [Queue] at [q] are. *)
Definition desc_off (i : Z) : Z := 16 * i.
Definition avail_idx_off : Z := 2050.
Definition avail_ring_off (i : Z) : Z := 2052 + 2 * i.
Definition used_idx_off : Z := 4098.
Definition used_ring_off (i : Z) : Z := 4100 + 8 * i.

Definition encode_desc (d : Descriptor) : list Z :=
  le_enc 8 (addr d) ++ le_enc 4 (dlen d) ++ le_enc 2 (flags d) ++ le_enc 2 (next d).

(** Entry [i] of [desc] as a whole. *)
Definition desc_at (m : memory) (q i : Z) : Descriptor :=
  let p := q + desc_off i in
  mkDesc (rdn 8 m p) (rdn 4 m (p + 8)) (rdn 2 m (p + 12)) (rdn 2 m (p + 14)).
Definition avail_idx (m : memory) (q : Z) : Z := rdn 2 m (q + avail_idx_off).
Definition avail_ring (m : memory) (q i : Z) : Z := rdn 2 m (q + avail_ring_off i).
Definition used_idx (m : memory) (q : Z) : Z := rdn 2 m (q + used_idx_off).
Definition used_id (m : memory) (q i : Z) : Z := rdn 4 m (q + used_ring_off i).

(** The chain of descriptors that starts at [i], at most [k] of them. *)
Fixpoint chain (k : nat) (m : memory) (q i : Z) : list Descriptor :=
  match k with
  | O => []
  | S k' =>
      let d := desc_at m q i in
      d :: (if Z.testbit (flags d) 0 then chain k' m q (next d) else [])
  end.

(** Bytes from [a] on, [n] of them, do not meet those from [b] on. *)
Definition apart (a n b k : Z) : Prop := a + n <= b \/ b + k <= a.

Definition desc_wf (d : Descriptor) : Prop :=
  0 <= addr d < 2 ^ 64 /\ 0 <= dlen d < 2 ^ 32 /\ 0 <= flags d < 2 ^ 16 /\ 0 <= next d < 2 ^ 16.

(** A descriptor's fields fit. *)
Ltac wf_desc := unfold desc_wf; cbn [addr dlen flags next]; split_and!; (lia || calc).

Section Virtio.
Context `{Profile} `{Linker} `{Bus}.

(** [desc[i] = d], with the check of the index. *)
Definition set_desc (q i : Z) (d : Descriptor) : W unit :=
  _ ← lift (assert_ (i <? VIRTIO_RING_SIZE));
  save_bytes q (desc_off i) (encode_desc d).

(** [avail.ring[avail.idx % VIRTIO_RING_SIZE] = head; avail.idx += 1], wrapping. *)
Definition push_avail (q head : Z) : W unit :=
  i ← load 2 q avail_idx_off;
  _ ← save 2 q (avail_ring_off (i mod VIRTIO_RING_SIZE)) head;
  i ← load 2 q avail_idx_off;
  save 2 q avail_idx_off ((i + 1) mod 2 ^ 16).

(** [(i + 1) % VIRTIO_RING_SIZE as u16] *)
Definition next_idx (i : Z) : outcome Z :=
  n ← u16 (i + 1);
  Done (n mod VIRTIO_RING_SIZE).

(** ** Starting a device

    Steps 1 to 7 of every [setup_*_device], up to the size of the queue;
    [guest] selects the features to accept.  [None] is a failure. *)
Definition negotiate (guest : Z -> Z) (ptr : Z) : W (option Z) :=
  _ ← write_volatile (reg ptr Status) 0;
  let status_bits := val32 Acknowledge in
  _ ← write_volatile (reg ptr Status) status_bits;
  let status_bits := Z.lor status_bits (val32 DriverOk) in
  _ ← write_volatile (reg ptr Status) status_bits;
  host_features ← read_volatile 4 (reg ptr HostFeatures);
  _ ← write_volatile (reg ptr GuestFeatures) (guest host_features);
  let status_bits := Z.lor status_bits (val32 FeaturesOk) in
  _ ← write_volatile (reg ptr Status) status_bits;
  status_ok ← read_volatile 4 (reg ptr Status);
  if negb (features_ok status_ok) then
    _ ← Uart.print (Fmt.str "features fail...");
    _ ← write_volatile (reg ptr Status) (val32 Failed);
    mret None
  else
    qnmax ← read_volatile 4 (reg ptr QueueNumMax);
    _ ← write_volatile (reg ptr QueueNum) (as_u32 VIRTIO_RING_SIZE);
    if qnmax <? as_u32 VIRTIO_RING_SIZE then
      _ ← Uart.print (Fmt.str "queue size fail...");
      mret None
    else mret (Some host_features).

(** [status_bits] after step 5, and with [DriverOk] again. *)
Definition live_bits : Z :=
  Z.lor (Z.lor (Z.lor (val32 Acknowledge) (val32 DriverOk)) (val32 FeaturesOk)) (val32 DriverOk).

(** Allocate queue [n] and tell the device where it is. *)
Definition add_queue (ptr n : Z) : W Z :=
  let num_pages := (sizeof_Queue + Page.PAGE_SIZE - 1) / Page.PAGE_SIZE in
  _ ← write_volatile (reg ptr QueueSel) n;
  queue_ptr ← on_kern (Page.zalloc num_pages);
  let queue_pfn := as_u32 queue_ptr in
  _ ← write_volatile (reg ptr GuestPageSize) (as_u32 Page.PAGE_SIZE);
  _ ← write_volatile (reg ptr QueuePfn) (queue_pfn / as_u32 Page.PAGE_SIZE);
  mret queue_ptr.

(** [(ptr as usize - MMIO_VIRTIO_START) >> 12] *)
Definition dev_index (ptr : Z) : outcome Z :=
  d ← usize (ptr - MMIO_VIRTIO_START);
  Done (Z.shiftr d 12).

(** [ARRAY[idx] = Some(dev)] *)
Definition set_slot {A} (l : list (option A)) (i : Z) (x : option A) : outcome (list (option A)) :=
  _ ← index l i;
  Done (<[Z.to_nat i := x]> l).

Definition setup_network_device (_ : Z) : W bool := mret false.

(** ** Lemmas on the queue *)

Lemma length_encode_desc d : length (encode_desc d) = 16%nat.
Proof. unfold encode_desc. by rewrite !length_app, !length_le_enc. Qed.

Lemma desc_at_store m q i d :
  desc_wf d -> desc_at (store m (q + desc_off i) (encode_desc d)) q i = d.
Proof.
  intros (Ha & Hl & Hf & Hn). unfold desc_at. cbn zeta. generalize (q + desc_off i) as p. intros p.
  destruct d as [a l f n]. cbn [addr dlen flags next] in *.
  unfold encode_desc. cbn [addr dlen flags next]. f_equal.
  - pose proof (rdn_store_field 8 m p [] a (le_enc 4 l ++ le_enc 2 f ++ le_enc 2 n) Ha) as E.
    by rewrite Z.add_0_r in E.
  - exact (rdn_store_field 4 m p (le_enc 8 a) l (le_enc 2 f ++ le_enc 2 n) Hl).
  - pose proof (rdn_store_field 2 m p (le_enc 8 a ++ le_enc 4 l) f (le_enc 2 n) Hf) as E.
    by rewrite <- app_assoc in E.
  - pose proof (rdn_store_field 2 m p (le_enc 8 a ++ le_enc 4 l ++ le_enc 2 f) n [] Hn) as E.
    rewrite <- !app_assoc, app_nil_r in E. exact E.
Qed.

Lemma desc_at_ext m m' q i :
  (forall x, q + desc_off i <= x < q + desc_off i + 16 -> byte m' x = byte m x) ->
  desc_at m' q i = desc_at m q i.
Proof.
  unfold desc_off. intros Hb. unfold desc_at, desc_off. cbn zeta.
  f_equal; apply rdn_ext; intros x Hx; apply Hb; lia.
Qed.

Lemma set_desc_ok q i d s :
  q <> 0 -> 0 <= i < 128 ->
  set_desc q i d s = Done (tt, with_memory (store (mem_of s) (q + desc_off i) (encode_desc d)) s).
Proof.
  intros Hq Hi. unfold set_desc. change VIRTIO_RING_SIZE with 128.
  erewrite bind_done by (apply lift_done, assert_true, Z.ltb_lt; lia). by apply save_bytes_ok.
Qed.

Lemma next_idx_ok i : 0 <= i < 128 -> next_idx i = Done ((i + 1) mod 128).
Proof. intros Hi. unfold next_idx. by rewrite uint_ok by lia. Qed.

(** The head goes into the next slot of the ring and is published. *)
Lemma push_avail_ok q head s :
  q <> 0 -> 0 <= head < 2 ^ 16 ->
  let i := avail_idx (mem_of s) q mod 128 in
  exists m, push_avail q head s = Done (tt, with_memory m s) /\
    avail_ring m q i = head /\
    avail_idx m q = (avail_idx (mem_of s) q + 1) mod 2 ^ 16 /\
    (forall x, x < q + 2050 \/ q + 2308 <= x -> byte m x = byte (mem_of s) x) /\
    forall j, 0 <= j < 128 -> j <> i -> avail_ring m q j = avail_ring (mem_of s) q j.
Proof.
  intros Hq Hh i. pose proof (Z.mod_pos_bound (avail_idx (mem_of s) q) 128 ltac:(lia)) as Hi.
  fold i in Hi. unfold push_avail. erewrite bind_done by (by apply load_ok).
  change VIRTIO_RING_SIZE with 128. fold (avail_idx (mem_of s) q). fold i.
  erewrite bind_done by (by apply save_ok). set (m1 := wrn _ _ _ _).
  erewrite bind_done by (by apply load_ok). rewrite mem_of_with_memory, save_ok by done.
  rewrite mem_of_with_memory, with_memory_twice.
  assert (rdn 2 m1 (q + avail_idx_off) = avail_idx (mem_of s) q) as ->.
  { unfold m1. apply rdn_wrn_ne. unfold avail_idx_off, avail_ring_off. lia. }
  pose proof (Z.mod_pos_bound (avail_idx (mem_of s) q + 1) (2 ^ 16) ltac:(lia)).
  eexists. split; [reflexivity|]. unfold avail_ring, avail_idx. split_and!.
  - rewrite rdn_wrn_ne by (unfold avail_idx_off, avail_ring_off; lia).
    unfold m1. apply rdn_wrn. exact Hh.
  - by apply rdn_wrn.
  - intros x Hx. unfold m1, avail_idx_off, avail_ring_off.
    by rewrite !byte_wrn_out by lia.
  - intros j Hj Hne. unfold m1, avail_idx_off, avail_ring_off. by rewrite !rdn_wrn_ne by lia.
Qed.

(** Different steps around the ring lead to different slots. *)
Lemma ring_ne i a b : 0 <= a < b -> b < 128 -> (i + a) mod 128 <> (i + b) mod 128.
Proof.
  intros Ha Hb E. pose proof (Z.div_mod (i + a) 128 ltac:(lia)). pose proof (Z.div_mod (i + b) 128 ltac:(lia)).
  lia.
Qed.

Lemma ring_add i a b : ((i + a) mod 128 + b) mod 128 = (i + (a + b)) mod 128.
Proof. rewrite Zplus_mod_idemp_l. f_equal. lia. Qed.

(** ** The protocol of a start *)

Lemma reg_eq ptr o : reg ptr o = ptr + MmioOffsets_val o.
Proof. unfold reg. f_equal. by destruct o. Qed.

(** Reads and writes in sequence. *)
Lemma write_bind {A} a v (f : unit -> W A) l s :
  (write_volatile a v ≫= f) (with_io l s) = f tt (with_io (l ++ [Wr a v]) s).
Proof. done. Qed.
Lemma read_bind {A} n a (f : Z -> W A) l s :
  (read_volatile n a ≫= f) (with_io l s) =
    f (bus l a mod 2 ^ (8 * n)) (with_io (l ++ [Rd a (bus l a mod 2 ^ (8 * n))]) s).
Proof. done. Qed.
Lemma print_bind {A} text (f : unit -> W A) l s :
  (Uart.print text ≫= f) (with_io l s) = f tt (with_io (l ++ (Wr Uart.UART <$> text)) s).
Proof. by erewrite bind_done by apply Uart.print_ok. Qed.
Lemma with_io_id s : with_io (io s) s = s.
Proof. by destruct s. Qed.

Lemma features_ok_bit st : features_ok st = Z.testbit st 3.
Proof.
  unfold features_ok, test. change (val32 FeaturesOk) with (Z.shiftl 1 3).
  rewrite land_bit by done. apply negb_involutive.
Qed.

(** The accesses of [negotiate] after those of [l], with the answers. *)
Definition greet (ptr : Z) : list io_event :=
  [Wr (ptr + 0x70) 0; Wr (ptr + 0x70) 1; Wr (ptr + 0x70) 5].
Definition host_of (l : list io_event) (ptr : Z) : Z :=
  bus (l ++ greet ptr) (ptr + 0x10) mod 2 ^ 32.
Definition offer (guest : Z -> Z) (l : list io_event) (ptr : Z) : list io_event :=
  let host := host_of l ptr in
  (l ++ greet ptr) ++ [Rd (ptr + 0x10) host; Wr (ptr + 0x20) (guest host); Wr (ptr + 0x70) 13].
Definition reply (guest : Z -> Z) (l : list io_event) (ptr : Z) : Z :=
  bus (offer guest l ptr) (ptr + 0x70) mod 2 ^ 32.
Definition asked (guest : Z -> Z) (l : list io_event) (ptr : Z) : list io_event :=
  offer guest l ptr ++ [Rd (ptr + 0x70) (reply guest l ptr)].
Definition room (guest : Z -> Z) (l : list io_event) (ptr : Z) : Z :=
  bus (asked guest l ptr) (ptr + 0x34) mod 2 ^ 32.
Definition agreed (guest : Z -> Z) (l : list io_event) (ptr : Z) : list io_event :=
  asked guest l ptr ++ [Rd (ptr + 0x34) (room guest l ptr); Wr (ptr + 0x38) 128].

(** The device accepts the features and has a queue that is large enough. *)
Definition accepts (guest : Z -> Z) (l : list io_event) (ptr : Z) : bool :=
  Z.testbit (reply guest l ptr) 3 && (128 <=? room guest l ptr).

Lemma negotiate_ok guest ptr s :
  negotiate guest ptr s =
    if Z.testbit (reply guest (io s) ptr) 3 then
      if 128 <=? room guest (io s) ptr
      then Done (Some (host_of (io s) ptr), with_io (agreed guest (io s) ptr) s)
      else Done (None, with_io (agreed guest (io s) ptr ++
                                  (Wr Uart.UART <$> Fmt.str "queue size fail...")) s)
    else Done (None, with_io (asked guest (io s) ptr ++
                 (Wr Uart.UART <$> Fmt.str "features fail...") ++ [Wr (ptr + 0x70) 128]) s).
Proof.
  rewrite <- (with_io_id s) at 1. generalize (io s) as l. intros l. unfold negotiate.
  rewrite !reg_eq. cbn [MmioOffsets_val val32 Z.lor Pos.lor].
  rewrite 3!write_bind, <- !app_assoc. cbn [app]. fold (greet ptr).
  rewrite read_bind. change (8 * 4) with 32. fold (host_of l ptr).
  rewrite 2!write_bind, <- 2!(app_assoc (l ++ greet ptr)). cbn [app].
  rewrite read_bind. change (8 * 4) with 32.
  change ((l ++ greet ptr) ++ _) with (offer guest l ptr). fold (reply guest l ptr).
  fold (asked guest l ptr). rewrite features_ok_bit.
  destruct (Z.testbit (reply guest l ptr) 3); cbn [negb].
  - rewrite read_bind, write_bind. change (8 * 4) with 32. fold (asked guest l ptr).
    fold (room guest l ptr). rewrite <- app_assoc. cbn [app]. fold (agreed guest l ptr).
    destruct (Z.leb_spec 128 (room guest l ptr)).
    + by rewrite (proj2 (Z.ltb_ge _ _)).
    + rewrite (proj2 (Z.ltb_lt _ _)) by done. by rewrite print_bind.
  - rewrite print_bind, write_bind, <- !app_assoc. done.
Qed.

(** The accesses that give a device its queue [n], at [qp]. *)
Definition queue_given (ptr n qp : Z) : list io_event :=
  [Wr (ptr + 0x30) n; Wr (ptr + 0x28) 4096; Wr (ptr + 0x40) (qp mod 2 ^ 32 / 4096)].

Lemma add_queue_ok ptr n l s qp k' :
  Page.zalloc 2 (kern_of s) = Done (qp, k') ->
  add_queue ptr n (with_io l s) = Done (qp, with_io (l ++ queue_given ptr n qp) (with_kern k' s)).
Proof.
  intros E. unfold add_queue. rewrite !reg_eq. cbn [MmioOffsets_val].
  change ((sizeof_Queue + Page.PAGE_SIZE - 1) / Page.PAGE_SIZE) with 2.
  rewrite write_bind. erewrite bind_done by (apply zoom_done; exact E).
  change (with_kern k' (with_io ?l ?s)) with (with_io l (with_kern k' s)).
  rewrite !write_bind, <- !app_assoc. done.
Qed.

Lemma dev_index_ok i : 0 <= i < 8 -> dev_index (MMIO_VIRTIO_START + 0x1000 * i) = Done i.
Proof.
  intros Hi. unfold dev_index. rewrite uint_ok by (unfold MMIO_VIRTIO_START; lia).
  cbn [mbind outcome_bind]. rewrite Z.shiftr_div_pow2 by lia. f_equal.
  replace (MMIO_VIRTIO_START + 0x1000 * i - MMIO_VIRTIO_START) with (i * 2 ^ 12) by lia.
  by rewrite Z.div_mul.
Qed.

Lemma table_slot_ok {A} (l : list (option A)) i x :
  length l = 8%nat -> 0 <= i < 8 -> set_slot l i x = Done (<[Z.to_nat i := x]> l).
Proof.
  intros Hl Hi. unfold set_slot. destruct (lookup_lt_is_Some_2 l (Z.to_nat i)) as [y Hy]; [lia|].
  by rewrite (index_ok l i y) by (done || lia).
Qed.
End Virtio.
End Virtio.
