(* ===== verification/Block.v ===== *)
(** * block.rs: the block driver

    A request is a chain of three descriptors: the header, the caller's
    buffer and the status byte.  The request's struct lives on the kernel heap
    until the device has used the chain. *)

From S2P Require Import Prelude Memory Cpu PageAlloc Kmem Mmu MinixLayout Lock Process Console World Boxes Uart Virtio.
Import Mem Process World Boxes Virtio.

Module Block.
Import (notations) String.

(** ** The request in memory *)

Definition sizeof_Header : Z := 16.
Definition sizeof_Status : Z := 1.
Definition sizeof_Request : Z := 32.

(** Offsets of the fields of [Request]. *)
Definition blktype_off : Z := 0.
Definition reserved_off : Z := 4.
Definition sector_off : Z := 8.
Definition data_off : Z := 16.
Definition status_off : Z := 24.
Definition watcher_off : Z := 28.

Definition VIRTIO_BLK_T_IN : Z := 0.
Definition VIRTIO_BLK_T_OUT : Z := 1.
Definition VIRTIO_BLK_S_OK : Z := 0.
Definition VIRTIO_BLK_S_IOERR : Z := 1.
Definition VIRTIO_BLK_S_UNSUPP : Z := 2.
Definition VIRTIO_BLK_F_RO : Z := 5.

Inductive BlockErrors := Success | BlockDeviceNotFound | InvalidArgument | ReadOnly.

(** The arguments of the kernel processes below. *)
Record ProcArgs := mkArgs { a_pid : Z; a_dev : Z; a_buffer : Z; a_size : Z; a_offset : Z }.

Section Block.
Context `{Profile} `{Linker} `{Bus}.
(** Fuel: chunks of the heap, and entries of a used ring. *)
Context (fuel : nat).

(** ** Setup *)

Definition setup_block_device (ptr : Z) : W bool :=
  idx ← lift (dev_index ptr);
  let ro_bit := Z.shiftl 1 VIRTIO_BLK_F_RO in
  o ← negotiate (fun host => Z.land host (unot 32 ro_bit)) ptr;
  match o with
  | None => mret false
  | Some host_features =>
      let ro := negb (Z.land host_features ro_bit =? 0) in
      queue_ptr ← add_queue ptr 0;
      let bd := mkBd queue_ptr ptr 0 0 ro in
      s ← get;
      l ← lift (set_slot (BLOCK_DEVICES s) idx (Some bd));
      _ ← modify (with_block l);
      _ ← write_volatile (reg ptr Status) live_bits;
      mret true
  end.

(** ** Requests *)

(** The descriptor goes behind the last one; the index is returned, with the
    device that counts on. *)
Definition fill_next_descriptor (bd : BlockDevice) (desc : Descriptor) : W (Z * BlockDevice) :=
  idx ← lift (next_idx (bd_idx bd));
  let bd := mkBd (bd_queue bd) (bd_dev bd) idx (bd_ack_used_idx bd) (bd_read_only bd) in
  let q := bd_queue bd in
  _ ← set_desc q idx desc;
  f ← load 2 q (desc_off idx + 12);
  _ ← (if negb (Z.land f VIRTIO_DESC_F_NEXT =? 0) then
         n ← lift (next_idx idx);
         save 2 q (desc_off idx + 14) n
       else mret tt);
  mret (idx, bd).

Definition block_op (dev buffer size offset : Z) (write : bool) (watcher : Z)
    : W (BlockErrors + Z) :=
  i ← lift (usize (dev - 1));
  s ← get;
  slot ← lift (index (BLOCK_DEVICES s) i);
  match slot with
  | Some bdev =>
      if bd_read_only bdev && write then
        _ ← Uart.println (Fmt.str "Trying to write to read/only!");
        mret (inl ReadOnly)
      else if negb (size mod 512 =? 0) then mret (inl InvalidArgument)
      else
        let sector := offset / 512 in
        blk_request ← on_kern (Kmem.kmalloc fuel sizeof_Request);
        '(head_idx, bdev) ← fill_next_descriptor bdev
          (mkDesc blk_request (as_u32 sizeof_Header) VIRTIO_DESC_F_NEXT 0);
        _ ← save 8 blk_request sector_off sector;
        _ ← save 4 blk_request blktype_off (if write then VIRTIO_BLK_T_OUT else VIRTIO_BLK_T_IN);
        _ ← save 8 blk_request data_off buffer;
        _ ← save 4 blk_request reserved_off 0;
        _ ← save 1 blk_request status_off 111;
        _ ← save 2 blk_request watcher_off watcher;
        '(_, bdev) ← fill_next_descriptor bdev
          (mkDesc buffer size
             (Z.lor VIRTIO_DESC_F_NEXT (if negb write then VIRTIO_DESC_F_WRITE else 0)) 0);
        '(_, bdev) ← fill_next_descriptor bdev
          (mkDesc (blk_request + status_off) (as_u32 sizeof_Status) VIRTIO_DESC_F_WRITE 0);
        _ ← push_avail (bd_queue bdev) head_idx;
        _ ← write_volatile (reg (bd_dev bdev) QueueNotify) 0;
        _ ← modify (fun s => with_block (<[Z.to_nat i := Some bdev]> (BLOCK_DEVICES s)) s);
        mret (inr size)
  | None => mret (inl BlockDeviceNotFound)
  end.

Definition read (dev buffer size offset : Z) : W (BlockErrors + Z) :=
  block_op dev buffer size offset false 0.
Definition write (dev buffer size offset : Z) : W (BlockErrors + Z) :=
  block_op dev buffer size offset true 0.

(** ** Interrupts *)

(** The frame of the process with this pid; there is none for null. *)
Definition frame_of (p : Z) : W Z :=
  o ← on_procs (get_by_pid p);
  s ← get;
  match o with
  | Some k =>
      pl ← lift (unwrap (PROCESS_LIST (procs_of s)));
      proc ← lift (unwrap (pl !! k));
      mret (frame proc)
  | None => lift Fault
  end.

(** One round of the loop of [pending], for the element at [ack_used_idx]. *)
Definition complete_one (bd : BlockDevice) : W BlockDevice :=
  let q := bd_queue bd in
  id ← load 4 q (used_ring_off (bd_ack_used_idx bd mod VIRTIO_RING_SIZE));
  let bd := mkBd q (bd_dev bd) (bd_idx bd) ((bd_ack_used_idx bd + 1) mod 2 ^ 16)
              (bd_read_only bd) in
  _ ← lift (assert_ (id <? VIRTIO_RING_SIZE));
  rq ← load 8 q (desc_off id);
  pid_of_watcher ← load 2 rq watcher_off;
  _ ← (if 0 <? pid_of_watcher then
         _ ← on_procs (set_running pid_of_watcher);
         f ← frame_of pid_of_watcher;
         status ← load 1 rq status_off;
         save 8 f (8 * 10) status
       else mret tt);
  _ ← on_kern (Kmem.kfree fuel rq);
  mret bd.

(** [while bd.ack_used_idx != queue.used.idx] *)
Fixpoint pending (k : nat) (bd : BlockDevice) : W BlockDevice :=
  match k with
  | O => lift NoFuel
  | S k' =>
      u ← load 2 (bd_queue bd) used_idx_off;
      if bd_ack_used_idx bd =? u then mret bd
      else bd ← complete_one bd; pending k' bd
  end.

Definition handle_interrupt (idx : Z) : W unit :=
  s ← get;
  slot ← lift (index (BLOCK_DEVICES s) idx);
  match slot with
  | Some bdev =>
      bdev ← pending fuel bdev;
      modify (fun s => with_block (<[Z.to_nat idx := Some bdev]> (BLOCK_DEVICES s)) s)
  | None =>
      n ← lift (usize (idx + 1));
      Uart.println (Fmt.str "Invalid block device for interrupt " ++ Fmt.dec n)
  end.

(** ** Block processes *)

Section Processes.
Context `{Repr ProcArgs}.
(** Addresses of functions, placed by the linker. *)
Context (ra_delete_proc read_proc_fn write_proc_fn : Z).

Definition read_proc (args_addr : Z) : W unit :=
  args ← Box_read args_addr;
  _ ← block_op (a_dev args) (a_buffer args) (a_size args) (a_offset args) false (a_pid args);
  Box_drop fuel args_addr.

Definition process_read (pid dev buffer size offset : Z) : W unit :=
  boxed_args ← Box_new fuel (mkArgs pid dev buffer size offset);
  _ ← on_procs (set_waiting pid);
  _ ← on_procs (add_kernel_process_args ra_delete_proc read_proc_fn boxed_args);
  mret tt.

Definition write_proc (args_addr : Z) : W unit :=
  args ← Box_read args_addr;
  _ ← block_op (a_dev args) (a_buffer args) (a_size args) (a_offset args) true (a_pid args);
  Box_drop fuel args_addr.

Definition process_write (pid dev buffer size offset : Z) : W unit :=
  boxed_args ← Box_new fuel (mkArgs pid dev buffer size offset);
  _ ← on_procs (set_waiting pid);
  _ ← on_procs (add_kernel_process_args ra_delete_proc write_proc_fn boxed_args);
  mret tt.
End Processes.
End Block.
End Block.
