(* ===== verification/BlockProps.v ===== *)
(** * The block driver: requests in the ring, and their completion *)

From S2P Require Import Prelude Memory Cpu PageAlloc PageProps Kmem KmemFacts KmemProps KmemSpec KmemUse.
From S2P Require Import Mmu MinixLayout Lock Process Console World Uart Virtio Block.
Import Mem KmemFacts KmemProps KmemUse Process World Virtio Block.

Module BlockProps.

(** ** What a device finds in memory *)

Record Request := mkRequest {
  blktype : Z; reserved : Z; sector : Z; rdata : Z; rstatus : Z; watcher : Z;
}.

Definition request_at (m : memory) (p : Z) : Request :=
  mkRequest (rdn 4 m (p + blktype_off)) (rdn 4 m (p + reserved_off)) (rdn 8 m (p + sector_off))
    (rdn 8 m (p + data_off)) (rdn 1 m (p + status_off)) (rdn 2 m (p + watcher_off)).

(** Rewrite a read of a word through writes elsewhere. *)
Ltac rd_through :=
  repeat (rewrite rdn_wrn_ne by lia); try (rewrite rdn_wrn by lia).

Section Props.
Context `{Profile} `{Linker} `{Bus}.

Definition advance (bd : BlockDevice) (i : Z) : BlockDevice :=
  mkBd (bd_queue bd) (bd_dev bd) i (bd_ack_used_idx bd) (bd_read_only bd).

(** The descriptor is written behind the last one, linked to the following
    one if it has a successor, and nothing else changes. *)
Lemma fill_next_ok bd d s :
  let q := bd_queue bd in let i := (bd_idx bd + 1) mod 128 in
  0 <= bd_idx bd < 128 -> q <> 0 -> desc_wf d ->
  exists m, fill_next_descriptor bd d s = Done ((i, advance bd i), with_memory m s) /\
    desc_at m q i = mkDesc (addr d) (dlen d) (flags d)
      (if Z.testbit (flags d) 0 then (i + 1) mod 128 else next d) /\
    forall x, x < q + 16 * i \/ q + 16 * i + 16 <= x -> byte m x = byte (mem_of s) x.
Proof.
  intros q i Hi Hq Hd. pose proof (Z.mod_pos_bound (bd_idx bd + 1) 128 ltac:(lia)) as Hi'.
  fold i in Hi'. unfold fill_next_descriptor.
  erewrite bind_done by (apply lift_done, next_idx_ok, Hi). fold i. cbn [bd_queue]. fold q.
  unfold set_desc. erewrite bind_done.
  2:{ erewrite bind_done by (apply lift_done, assert_true, Z.ltb_lt; change VIRTIO_RING_SIZE with 128; lia).
      by apply save_bytes_ok. }
  set (m1 := store _ _ _). pose proof (desc_at_store (mem_of s) q i d Hd) as E1. fold m1 in E1.
  erewrite bind_done by (by apply load_ok). rewrite mem_of_with_memory.
  replace (rdn 2 m1 (q + (desc_off i + 12))) with (flags d)
    by (rewrite <- E1; unfold desc_at; cbn [flags]; f_equal; lia).
  change VIRTIO_DESC_F_NEXT with (Z.shiftl 1 0). rewrite land_bit by lia. rewrite negb_involutive.
  assert (forall x, x < q + 16 * i \/ q + 16 * i + 16 <= x -> byte m1 x = byte (mem_of s) x) as Hm1.
  { intros x Hx. apply byte_store_out. rewrite length_encode_desc. unfold desc_off. lia. }
  destruct (Z.testbit (flags d) 0).
  - erewrite bind_done.
    2:{ erewrite bind_done by (apply lift_done, next_idx_ok; lia). by apply save_ok. }
    rewrite mem_of_with_memory, with_memory_twice. eexists. split; [reflexivity|].
    pose proof (Z.mod_pos_bound (i + 1) 128 ltac:(lia)). split.
    + transitivity (mkDesc (addr (desc_at m1 q i)) (dlen (desc_at m1 q i)) (flags (desc_at m1 q i))
                      ((i + 1) mod 128)); [|by rewrite E1].
      unfold desc_at. cbn [addr dlen flags]. unfold desc_off in *. f_equal; [rd_through; done..|].
      replace (q + 16 * i + 14) with (q + (16 * i + 14)) by lia. rewrite rdn_wrn; [done|].
      change (256 ^ Z.of_nat 2) with 65536. lia.
    + intros x Hx. rewrite byte_wrn_out by (unfold desc_off; lia). by apply Hm1.
  - eexists. split; [reflexivity|]. split; [|done]. rewrite E1. by destruct d.
Qed.


(** ** Submitting a request *)

(** The six stores that fill the request. *)
Lemma request_written m p ty sec buf w :
  0 <= ty < 2 ^ 32 -> 0 <= sec < 2 ^ 64 -> 0 <= buf < 2 ^ 64 -> 0 <= w < 2 ^ 16 ->
  let m' := wrn 2 (wrn 1 (wrn 4 (wrn 8 (wrn 4 (wrn 8 m (p + sector_off) sec)
              (p + blktype_off) ty) (p + data_off) buf) (p + reserved_off) 0)
              (p + status_off) 111) (p + watcher_off) w in
  request_at m' p = mkRequest ty 0 sec buf 111 w /\
  forall x, x < p \/ p + 32 <= x -> byte m' x = byte m x.
Proof.
  intros Ht Hs Hb Hw m'.
  unfold sector_off, blktype_off, data_off, reserved_off, status_off, watcher_off in m'. split.
  - unfold request_at, m', blktype_off, sector_off, data_off, reserved_off, status_off, watcher_off.
    f_equal; repeat (rewrite rdn_wrn_ne by lia); apply rdn_wrn; cbn; lia.
  - intros x Hx. unfold m'. by rewrite !byte_wrn_out by lia.
Qed.

Lemma request_at_ext m m' p :
  (forall x, p <= x < p + 32 -> byte m' x = byte m x) -> request_at m' p = request_at m p.
Proof.
  intros Hb. unfold request_at, blktype_off, sector_off, data_off, reserved_off, status_off, watcher_off.
  f_equal; apply rdn_ext; intros x Hx; apply Hb; lia.
Qed.

(** A device of this driver, with its queue away from the heap. *)
Record device_ok (k : kernel) (cs : list (bool * Z)) (bd : BlockDevice) : Prop := {
  dev_heap : heap_ok k cs;
  dev_queue : bd_queue bd <> 0;
  dev_idx : 0 <= bd_idx bd < 128;
  dev_ack : 0 <= bd_ack_used_idx bd < 2 ^ 16;
  dev_max : heap_end k < 2 ^ 64;
  dev_apart : bd_queue bd + sizeof_Queue <= KMEM_HEAD k \/ heap_end k <= bd_queue bd;
}.

(** The three descriptors of a request. *)
Definition request_chain (h rq buffer size : Z) (write : bool) : list Descriptor :=
  [mkDesc rq 16 1 ((h + 1) mod 128);
   mkDesc buffer size (if write then 1 else 3) (((h + 1) mod 128 + 1) mod 128);
   mkDesc (rq + 24) 1 2 0].

(** What the device and the driver find after a request was submitted. *)
Record submitted (k : kernel) (bd : BlockDevice) (m : memory) (rq buffer size off : Z)
    (write : bool) (w : Z) : Prop := {
  sub_slot : avail_ring m (bd_queue bd) (avail_idx (mem k) (bd_queue bd) mod 128) =
    (bd_idx bd + 1) mod 128;
  sub_idx : avail_idx m (bd_queue bd) = (avail_idx (mem k) (bd_queue bd) + 1) mod 2 ^ 16;
  sub_chain n : chain (3 + n) m (bd_queue bd) ((bd_idx bd + 1) mod 128) =
    request_chain ((bd_idx bd + 1) mod 128) rq buffer size write;
  sub_request : request_at m rq =
    mkRequest (if write then VIRTIO_BLK_T_OUT else VIRTIO_BLK_T_IN) 0 (off / 512) buffer 111 w;
  sub_other i : 0 <= i < 128 -> 3 <= (i - bd_idx bd - 1) mod 128 ->
    desc_at m (bd_queue bd) i = desc_at (mem k) (bd_queue bd) i;
  sub_frame x : outside k x -> x < bd_queue bd \/ bd_queue bd + 2308 <= x ->
    byte m x = byte (mem k) x;
}.

(** Three steps around the ring. *)
Lemma ring_steps i : 0 <= i < 128 ->
  let a := (i + 1) mod 128 in let b := (a + 1) mod 128 in let c := (b + 1) mod 128 in
  0 <= a < 128 /\ 0 <= b < 128 /\ 0 <= c < 128 /\ a <> b /\ b <> c /\ a <> c /\
  c = (i + 3) mod 128 /\
  forall j, 0 <= j < 128 -> 3 <= (j - i - 1) mod 128 -> j <> a /\ j <> b /\ j <> c.
Proof.
  intros Hi a b c.
  assert (forall z, -128 <= z < 256 ->
    z mod 128 = if z <? 0 then z + 128 else if z <? 128 then z else z - 128) as Hmod.
  { intros z Hz. destruct (Z.ltb_spec z 0); [|destruct (Z.ltb_spec z 128)].
    - by rewrite <- (Z.mod_add z 1 128), Z.mod_small by lia.
    - by rewrite Z.mod_small by lia.
    - by rewrite <- (Z.mod_add z (-1) 128), Z.mod_small by lia. }
  assert (0 <= a < 128) by (apply Z.mod_pos_bound; lia).
  assert (0 <= b < 128) by (apply Z.mod_pos_bound; lia).
  assert (0 <= c < 128) by (apply Z.mod_pos_bound; lia).
  assert (a = if i + 1 <? 128 then i + 1 else i + 1 - 128) as Ea
    by (unfold a; rewrite Hmod by lia; by rewrite (proj2 (Z.ltb_ge (i + 1) 0)) by lia).
  assert (b = if a + 1 <? 128 then a + 1 else a + 1 - 128) as Eb
    by (unfold b; rewrite Hmod by lia; by rewrite (proj2 (Z.ltb_ge (a + 1) 0)) by lia).
  assert (c = if b + 1 <? 128 then b + 1 else b + 1 - 128) as Ec
    by (unfold c; rewrite Hmod by lia; by rewrite (proj2 (Z.ltb_ge (b + 1) 0)) by lia).
  clearbody a b c.
  assert (c = (i + 3) mod 128) as Ec3.
  { rewrite Hmod by lia. rewrite (proj2 (Z.ltb_ge (i + 3) 0)) by lia.
    destruct (Z.ltb_spec (i + 1) 128), (Z.ltb_spec (a + 1) 128), (Z.ltb_spec (b + 1) 128),
      (Z.ltb_spec (i + 3) 128); lia. }
  destruct (Z.ltb_spec (i + 1) 128), (Z.ltb_spec (a + 1) 128), (Z.ltb_spec (b + 1) 128);
    split_and!; try lia;
    intros j Hj; rewrite Hmod by lia;
    destruct (Z.ltb_spec (j - i - 1) 0), (Z.ltb_spec (j - i - 1) 128); lia.
Qed.

(** The memory after each part of a request: the heap ([m0]), the header's
    descriptor, the request, the two other descriptors ([m4]). *)
Record filled (q a b c rq buffer size off : Z) (write : bool) (w : Z) (m0 m1 m2 m3 m4 : memory) : Prop := {
  fl_header : desc_at m1 q a = mkDesc rq 16 1 b;
  fl_frame1 x : x < q + 16 * a \/ q + 16 * a + 16 <= x -> byte m1 x = byte m0 x;
  fl_request : request_at m2 rq =
    mkRequest (if write then VIRTIO_BLK_T_OUT else VIRTIO_BLK_T_IN) 0 (off / 512) buffer 111 w;
  fl_frame2 x : x < rq \/ rq + 32 <= x -> byte m2 x = byte m1 x;
  fl_data : desc_at m3 q b = mkDesc buffer size (if write then 1 else 3) c;
  fl_frame3 x : x < q + 16 * b \/ q + 16 * b + 16 <= x -> byte m3 x = byte m2 x;
  fl_status : desc_at m4 q c = mkDesc (rq + 24) 1 2 0;
  fl_frame4 x : x < q + 16 * c \/ q + 16 * c + 16 <= x -> byte m4 x = byte m3 x;
}.

(** With the ring after it. *)
Lemma submitted_intro k cs bd m0 m1 m2 m3 m4 m5 rq buffer size off (write : bool) w :
  let q := bd_queue bd in
  let a := (bd_idx bd + 1) mod 128 in let b := (a + 1) mod 128 in let c := (b + 1) mod 128 in
  device_ok k cs bd ->
  KMEM_HEAD k + 8 <= rq -> rq + 32 <= heap_end k ->
  (forall x, outside k x -> byte m0 x = byte (mem k) x) ->
  filled q a b c rq buffer size off write w m0 m1 m2 m3 m4 ->
  avail_ring m5 q (avail_idx m4 q mod 128) = a ->
  avail_idx m5 q = (avail_idx m4 q + 1) mod 2 ^ 16 ->
  (forall x, x < q + 2050 \/ q + 2308 <= x -> byte m5 x = byte m4 x) ->
  submitted k bd m5 rq buffer size off write w /\
  forall x, KMEM_HEAD k <= x < heap_end k -> x < rq \/ rq + 32 <= x -> byte m5 x = byte m0 x.
Proof.
  intros q a b c [Hok Hq Hi Hack Hmax Hap] Hlo Hhi Hb0 [D1 Hb1 R2 Hb2 D3 Hb3 D4 Hb4] A5 I5 Hb5.
  destruct (ring_steps (bd_idx bd) Hi) as (Ha & Hb & Hc & Hab & Hbc & Hac & _ & Hoth).
  fold a b c in Ha, Hb, Hc, Hab, Hbc, Hac, Hoth.
  assert ((a + 1) mod 128 = b /\ (b + 1) mod 128 = c) as [Eb Ec] by done. clearbody b c.
  unfold sizeof_Queue in Hap. fold q in Hap.
  assert (forall x, q <= x < q + 5128 -> outside k x /\ (x < rq \/ rq + 32 <= x)) as Hqo
    by (unfold outside; lia).
  assert (avail_idx m4 q = avail_idx (mem k) q) as Eidx.
  { unfold avail_idx, avail_idx_off. apply rdn_ext. intros x Hx.
    destruct (Hqo x ltac:(lia)). rewrite Hb4, Hb3, Hb2, Hb1, Hb0 by (done || lia). done. }
  assert (desc_at m5 q a = mkDesc rq 16 1 b) as E1.
  { rewrite <- D1. apply desc_at_ext. unfold desc_off. intros x Hx.
    destruct (Hqo x ltac:(lia)). rewrite Hb5, Hb4, Hb3, Hb2 by (done || lia). done. }
  assert (desc_at m5 q b = mkDesc buffer size (if write then 1 else 3) c) as E2.
  { rewrite <- D3. apply desc_at_ext. unfold desc_off. intros x Hx.
    rewrite Hb5, Hb4 by lia. done. }
  assert (desc_at m5 q c = mkDesc (rq + 24) 1 2 0) as E3.
  { rewrite <- D4. apply desc_at_ext. unfold desc_off. intros x Hx. rewrite Hb5 by lia. done. }
  split; [|intros x Hx Hr; rewrite Hb5, Hb4, Hb3, Hb2, Hb1 by lia; done].
  split; fold q a.
  - by rewrite <- Eidx.
  - by rewrite I5, Eidx.
  - intros n. unfold request_chain. rewrite Eb, Ec. cbn [chain Nat.add]. rewrite E1. cbn [flags next].
    change (Z.testbit 1 0) with true. cbn iota. rewrite E2. cbn [flags next].
    replace (Z.testbit (if write then 1 else 3) 0) with true by (by destruct write).
    rewrite E3. done.
  - rewrite <- R2. apply request_at_ext. intros x Hx.
    rewrite Hb5, Hb4, Hb3 by lia. done.
  - intros j Hj Hd. destruct (Hoth j Hj Hd) as (? & ? & ?). apply desc_at_ext. unfold desc_off.
    intros x Hx. destruct (Hqo x ltac:(lia)).
    rewrite Hb5, Hb4, Hb3, Hb2, Hb1, Hb0 by (done || lia). done.
  - intros x Hx Hxq. rewrite Hb5, Hb4, Hb3, Hb2, Hb1, Hb0 by (done || lia ||
      (unfold outside in Hx; lia)). done.
Qed.

Lemma slot_of s dev (o : option BlockDevice) {A} (f : option BlockDevice -> W A) :
  1 <= dev -> BLOCK_DEVICES s !! Z.to_nat (dev - 1) = Some o -> dev < 2 ^ 64 ->
  (i ← lift (usize (dev - 1)); s ← get; slot ← lift (index (BLOCK_DEVICES s) i); f slot) s = f o s.
Proof.
  intros Hd E Hm. erewrite bind_done by (apply lift_done, uint_ok; lia).
  erewrite bind_done by reflexivity. by erewrite bind_done by (apply lift_done, index_ok; [lia|done]).
Qed.

(** The part of [block_op] that fills the request and its three descriptors. *)
Lemma fill_chain bd rq buffer size off (write : bool) w m0 s :
  let q := bd_queue bd in
  let a := (bd_idx bd + 1) mod 128 in let b := (a + 1) mod 128 in let c := (b + 1) mod 128 in
  0 <= bd_idx bd < 128 -> q <> 0 -> 0 < rq -> rq + 32 < 2 ^ 64 ->
  0 <= size < 2 ^ 32 -> 0 <= off < 2 ^ 64 -> 0 <= buffer < 2 ^ 64 -> 0 <= w < 2 ^ 16 ->
  exists m1 m2 m3 m4, filled q a b c rq buffer size off write w m0 m1 m2 m3 m4 /\
    forall A (K : Z -> BlockDevice -> W A),
    ('(head_idx, bdev) ← fill_next_descriptor bd (mkDesc rq (as_u32 sizeof_Header) VIRTIO_DESC_F_NEXT 0);
     _ ← save 8 rq sector_off (off / 512);
     _ ← save 4 rq blktype_off (if write then VIRTIO_BLK_T_OUT else VIRTIO_BLK_T_IN);
     _ ← save 8 rq data_off buffer;
     _ ← save 4 rq reserved_off 0;
     _ ← save 1 rq status_off 111;
     _ ← save 2 rq watcher_off w;
     '(_, bdev) ← fill_next_descriptor bdev (mkDesc buffer size
        (Z.lor VIRTIO_DESC_F_NEXT (if negb write then VIRTIO_DESC_F_WRITE else 0)) 0);
     '(_, bdev) ← fill_next_descriptor bdev (mkDesc (rq + status_off) (as_u32 sizeof_Status) VIRTIO_DESC_F_WRITE 0);
     K head_idx bdev) (with_memory m0 s) =
    K a (advance (advance (advance bd a) b) c) (with_memory m4 s).
Proof.
  intros q a b c Hi Hq Hrq Hmax Hsize Hoff Hbuf Hw. assert (rq <> 0) as Hrq0 by lia.
  destruct (ring_steps (bd_idx bd) Hi) as (Ha & Hb & Hc & _). fold a b c in Ha, Hb, Hc.
  destruct (fill_next_ok bd (mkDesc rq 16 1 0) (with_memory m0 s)) as (m1 & E1 & D1 & Hb1);
    [done|done|wf_desc|].
  fold q a in E1, D1, Hb1. cbn [addr dlen flags next] in D1. change (Z.testbit 1 0) with true in D1.
  cbn iota in D1. fold b in D1. rewrite mem_of_with_memory in Hb1.
  destruct (request_written m1 rq (if write then VIRTIO_BLK_T_OUT else VIRTIO_BLK_T_IN) (off / 512) buffer w)
    as [R2 Hb2]; try done; [destruct write; calc|split; [apply Z.div_pos|apply Z.div_lt_upper_bound]; lia|].
  set (m2 := wrn 2 _ _ _) in *.
  destruct (fill_next_ok (advance bd a) (mkDesc buffer size
     (Z.lor VIRTIO_DESC_F_NEXT (if negb write then VIRTIO_DESC_F_WRITE else 0)) 0) (with_memory m2 s))
    as (m3 & E3 & D3 & Hb3); [done|done|destruct write; wf_desc|].
  destruct (fill_next_ok (advance (advance bd a) b) (mkDesc (rq + status_off) (as_u32 sizeof_Status)
     VIRTIO_DESC_F_WRITE 0) (with_memory m3 s)) as (m4 & E4 & D4 & Hb4);
    [done|done|unfold status_off; wf_desc|].
  rewrite mem_of_with_memory in Hb3, Hb4. exists m1, m2, m3, m4. split.
  - split; try done. etransitivity; [exact D3|]. by destruct write.
  - intros A K. erewrite bind_done by exact E1. rewrite with_memory_twice.
    do 6 (erewrite bind_done by (by apply save_ok); rewrite ?mem_of_with_memory, ?with_memory_twice).
    fold m2. erewrite bind_done by exact E3. rewrite with_memory_twice.
    erewrite bind_done by exact E4. by rewrite with_memory_twice.
Qed.

Lemma block_op_ok fuel s cs bd dev buffer size off (write : bool) w rq k1 :
  1 <= dev < 2 ^ 64 -> BLOCK_DEVICES s !! Z.to_nat (dev - 1) = Some (Some bd) ->
  device_ok (kern_of s) cs bd -> (length cs < fuel)%nat ->
  bd_read_only bd && write = false -> size mod 512 = 0 ->
  0 <= size < 2 ^ 32 -> 0 <= off < 2 ^ 64 -> 0 <= buffer < 2 ^ 64 -> 0 <= w < 2 ^ 16 ->
  Kmem.kmalloc fuel 32 (kern_of s) = Done (rq, k1) -> rq <> 0 ->
  exists m cs' z, block_op fuel dev buffer size off write w s =
      Done (inr size,
        with_block (<[Z.to_nat (dev - 1) := Some (advance bd ((bd_idx bd + 3) mod 128))]> (BLOCK_DEVICES s))
          (with_io (io s ++ [Wr (bd_dev bd + 0x50) 0]) (with_memory m s))) /\
    submitted (kern_of s) bd m rq buffer size off write w /\
    heap_ok (with_mem m (kern_of s)) cs' /\
    live (KMEM_HEAD (kern_of s)) cs' ≡ₚ (rq - 8, z) :: live (KMEM_HEAD (kern_of s)) cs /\
    40 <= z /\ (length cs' <= S (length cs))%nat /\
    (forall b v x, (b, v) ∈ live (KMEM_HEAD (kern_of s)) cs -> b <= x < b + v ->
       byte m x = byte (mem_of s) x /\ (x < rq - 8 \/ rq - 8 + z <= x)).
Proof.
  intros Hdev Eslot Hok Hf Hro Hsz Hsize Hoff Hbuf Hw Em Hrq.
  pose proof Hok as [Hheap Hq Hi Hack Hmax Hap].
  pose proof (heap_pos _ _ Hheap) as Hpos.
  destruct (heap_take _ _ _ 32 _ _ Hheap Hf ltac:(lia) Em Hrq)
    as (m0 & cs' & z & -> & Hok' & Hlive & Hz & Hlo & Hhi & Hb0 & Hk0 & Hlen & _).
  set (k := kern_of s) in *. destruct (ring_steps (bd_idx bd) Hi) as (Ha & _ & _ & _ & _ & _ & Ec3 & _).
  unfold block_op. erewrite bind_done by (apply lift_done, uint_ok; lia).
  erewrite bind_done by reflexivity. erewrite bind_done by (apply lift_done, index_ok; [lia|done]).
  cbn iota. rewrite Hro, Hsz. cbn [Z.eqb negb].
  erewrite bind_done by (apply zoom_done, Em). change (with_kern (with_mem m0 k) s) with (with_memory m0 s).
  destruct (fill_chain bd rq buffer size off write w m0 s) as (m1 & m2 & m3 & m4 & Hfill & Erun);
    [done|done|lia|lia|done..|]. rewrite Erun. cbn [bd_queue advance].
  destruct (push_avail_ok (bd_queue bd) ((bd_idx bd + 1) mod 128) (with_memory m4 s))
    as (m5 & E5 & A5 & I5 & Hb5 & _); [done|lia|].
  rewrite mem_of_with_memory in A5, I5, Hb5.
  erewrite bind_done by exact E5. rewrite with_memory_twice.
  erewrite bind_done by reflexivity. erewrite bind_done by reflexivity.
  rewrite reg_eq. cbn [bd_dev advance MmioOffsets_val].
  destruct (submitted_intro k cs bd m0 m1 m2 m3 m4 m5 rq buffer size off write w) as [Hsub Hkeep]; try (done || lia).
  exists m5, cs', z. split_and!; try done; try lia; [by rewrite <- Ec3|..].
  - apply (heap_write_own (with_mem m0 k) _ _ rq z 32); [done|cbn; rewrite Hlive; by left|lia|].
    intros x Hx Hr. apply Hkeep; [|done]. unfold outside, heap_end in *. cbn in Hx. lia.
  - intros d v x Hin Hx. destruct (Hk0 d v x Hin Hx) as [E Hx'].
    pose proof (live_inside _ _ _ _ Hheap Hin). rewrite Hkeep by lia. split; [done|lia].
Qed.

(** ** Setup and refusals *)

(** The features the driver takes: all but read-only. *)
Definition block_guest (host : Z) : Z := Z.land host (unot 32 (Z.shiftl 1 VIRTIO_BLK_F_RO)).

(** A device that accepts the features and has room for the queue is entered in
    the table with two fresh pages as its queue; the registers are written in this
    order.  Any other device leaves the table, the memory and the processes alone. *)
Theorem setup_block_device_ok s i qp k' :
  let ptr := MMIO_VIRTIO_START + 0x1000 * i in
  0 <= i < 8 -> length (BLOCK_DEVICES s) = 8%nat ->
  Page.zalloc 2 (kern_of s) = Done (qp, k') ->
  if accepts block_guest (io s) ptr then
    setup_block_device ptr s = Done (true,
      with_block (<[Z.to_nat i := Some (mkBd qp ptr 0 0
                     (Z.testbit (host_of (io s) ptr) VIRTIO_BLK_F_RO))]> (BLOCK_DEVICES s))
        (with_io (agreed block_guest (io s) ptr ++ queue_given ptr 0 qp ++ [Wr (ptr + 0x70) 13])
          (with_kern k' s)))
  else exists l, setup_block_device ptr s = Done (false, with_io l s).
Proof.
  intros ptr Hi Hlen Hz. unfold setup_block_device.
  erewrite bind_done by (by apply lift_done, dev_index_ok).
  pose proof (negotiate_ok block_guest ptr s) as E. unfold accepts.
  destruct (Z.testbit (reply block_guest (io s) ptr) 3); cbn [andb].
  2:{ eexists. erewrite bind_done by exact E. reflexivity. }
  destruct (128 <=? room block_guest (io s) ptr).
  2:{ eexists. erewrite bind_done by exact E. reflexivity. }
  erewrite bind_done by exact E. cbn iota.
  erewrite bind_done by (apply add_queue_ok, Hz).
  erewrite bind_done by reflexivity.
  erewrite bind_done by (by apply lift_done, table_slot_ok).
  erewrite bind_done by reflexivity. rewrite reg_eq. cbn [MmioOffsets_val].
  erewrite bind_done by reflexivity.
  rewrite land_bit, negb_involutive by done. cbn [io with_io with_block with_kern].
  unfold mret, M_ret. do 2 f_equal. by rewrite <- app_assoc.
Qed.

(** Requests that are refused change nothing but the console: a write to a
    read-only device, a size that is not whole sectors, a device that is not there,
    each with its own error; a number that is no slot of the table panics. *)
Theorem block_op_refuses fuel s dev buffer size off (write : bool) w :
  length (BLOCK_DEVICES s) = 8%nat -> 0 <= dev < 2 ^ 64 ->
  let run := block_op fuel dev buffer size off write w s in
  match BLOCK_DEVICES s !! Z.to_nat (dev - 1) with
  | Some (Some bd) =>
      dev <> 0 ->
      (bd_read_only bd = true -> write = true ->
         exists l, run = Done (inl ReadOnly, with_io l s)) /\
      (bd_read_only bd && write = false -> size mod 512 <> 0 -> run = Done (inl InvalidArgument, s))
  | Some None => dev <> 0 -> run = Done (inl BlockDeviceNotFound, s)
  | None => run = Panic
  end /\ (dev = 0 -> run = Panic).
Proof.
  intros Hlen Hd run. unfold run, block_op. split.
  - destruct (BLOCK_DEVICES s !! Z.to_nat (dev - 1)) as [[bd|]|] eqn:Es.
    + intros Hnz. erewrite !bind_done by
        (reflexivity || apply lift_done, uint_ok; lia).
      rewrite bind_done with (a := Some bd) (s' := s) by (apply lift_done, index_ok; [lia|done]).
      split.
      * intros -> ->. cbn [andb]. eexists. erewrite bind_done by apply Uart.println_ok. reflexivity.
      * intros -> Hsz%Z.eqb_neq. by rewrite Hsz.
    + intros Hnz. erewrite !bind_done by
        (reflexivity || apply lift_done, uint_ok; lia).
      by rewrite bind_done with (a := None) (s' := s) by (apply lift_done, index_ok; [lia|done]).
    + apply lookup_ge_None in Es.
      erewrite bind_done by (apply lift_done, uint_ok; lia). erewrite bind_done by reflexivity.
      rewrite index_out by lia. done.
  - intros ->.
    assert (usize (0 - 1) = if overflow_checks then Panic else Done 18446744073709551615) as ->
      by reflexivity.
    destruct overflow_checks; [reflexivity|]. erewrite bind_done by reflexivity.
    erewrite bind_done by reflexivity. by rewrite index_out by lia.
Qed.
End Props.
End BlockProps.
