(* ===== verification/BlockDone.v ===== *)
(** * The block driver: a request from submission to completion

    The device is a parameter: [BlkDevice] serves the request at the head of
    the ring, and [BlkLaws] says what the VirtIO specification says of a
    request that lies inside of the disk.  The theorems put the driver, the
    device and the interrupt handler together. *)

From S2P Require Import Prelude Memory Cpu PageAlloc PageProps Kmem KmemFacts KmemProps KmemSpec KmemUse.
From S2P Require Import Mmu MinixLayout Lock Process ProcessProps Console World Uart Virtio Block BlockProps.
Import Mem KmemFacts KmemProps KmemUse Process ProcessProps World Virtio Block BlockProps.

Module BlockDone.

(** ** The process that waits *)

(** [p] is the process with pid [w], the first in the list, and its trap
    frame says so too. *)
Record watched (s : world) (w : Z) (l1 : list process) (p : process) (l2 : list process) : Prop := {
  wt_list : PROCESS_LIST (procs_of s) = Some (l1 ++ p :: l2);
  wt_pid : pid p = w;
  wt_before : Forall (fun q => pid q <> w) l1;
  wt_found : find_pid (mem_of s) w (l1 ++ p :: l2) = Some (length l1);
  wt_frame : frame p <> 0;
}.

(** The state with that process running. *)
Definition running (s : world) (l1 : list process) (p : process) (l2 : list process) : world :=
  with_procs (with_list (Some (l1 ++ with_state Running p :: l2)) (procs_of s)) s.

Lemma find_pid_frames m w l l' :
  frame <$> l = frame <$> l' -> find_pid m w l = find_pid m w l'.
Proof.
  revert l'. induction l as [|p l IH]; intros [|p' l'] E; try done. injection E as E1 E2.
  cbn. rewrite E1. by rewrite (IH l' E2).
Qed.

Lemma find_pid_ext m m' w l :
  Forall (fun p => rd64 m' (pid_addr (frame p)) = rd64 m (pid_addr (frame p))) l ->
  find_pid m' w l = find_pid m w l.
Proof. induction 1 as [|p l E Hl IH]; cbn; [done|]. by rewrite E, IH. Qed.

Lemma watched_run s w l1 p l2 :
  watched s w l1 p l2 -> on_procs (set_running w) s = Done (true, running s l1 p l2).
Proof.
  intros [El Ep Hb _ _]. apply (zoom_done procs_of with_procs).
  unfold set_running. rewrite El, on_first_found; [done| |by apply Z.eqb_eq].
  eapply Forall_impl; [exact Hb|]. intros q Hq. by apply Z.eqb_neq.
Qed.

Lemma frame_of_ok s w l1 p l2 :
  watched s w l1 p l2 ->
  frame_of w (running s l1 p l2) = Done (frame p, running s l1 p l2).
Proof.
  intros [El Ep Hb Hf _]. unfold frame_of.
  erewrite bind_done.
  2:{ apply (zoom_done procs_of with_procs). unfold get_by_pid, gets. cbn.
      rewrite (find_pid_frames _ _ _ (l1 ++ p :: l2)) by (by rewrite !fmap_app, !fmap_cons).
      change (mem (kern (procs_of s))) with (mem_of s). by rewrite Hf. }
  erewrite bind_done by reflexivity. cbn iota.
  erewrite bind_done by reflexivity.
  erewrite bind_done by (apply lift_done; by rewrite list_lookup_middle). done.
Qed.

Section Done.
Context `{Profile} `{Linker} `{Bus}.

(** ** One used element *)

Definition acked (bd : BlockDevice) : BlockDevice :=
  mkBd (bd_queue bd) (bd_dev bd) (bd_idx bd) ((bd_ack_used_idx bd + 1) mod 2 ^ 16)
    (bd_read_only bd).

(** The watcher of the request runs with the status in a0, and the request
    goes back to the heap. *)
Lemma complete_one_ok fuel s cs bd rq z w st l1 p l2 :
  let q := bd_queue bd in
  let id := used_id (mem_of s) q (bd_ack_used_idx bd mod 128) in
  device_ok (kern_of s) cs bd -> (length cs < fuel)%nat ->
  0 <= id < 128 -> addr (desc_at (mem_of s) q id) = rq ->
  (rq - 8, z) ∈ live (KMEM_HEAD (kern_of s)) cs -> rq <> 0 ->
  rdn 2 (mem_of s) (rq + watcher_off) = w -> 0 < w ->
  rdn 1 (mem_of s) (rq + status_off) = st -> 0 <= st < 256 ->
  watched s w l1 p l2 ->
  (forall x, frame p + 80 <= x < frame p + 88 -> outside (kern_of s) x) ->
  exists m cs', complete_one fuel bd s = Done (acked bd, with_memory m (running s l1 p l2)) /\
    heap_ok (with_mem m (kern_of s)) cs' /\
    live (KMEM_HEAD (kern_of s)) cs ≡ₚ (rq - 8, z) :: live (KMEM_HEAD (kern_of s)) cs' /\
    (length cs' <= length cs)%nat /\
    rdn 8 m (frame p + 80) = st /\
    (forall x, x < frame p + 80 \/ frame p + 88 <= x ->
       outside (kern_of s) x \/
       (exists b v, (b, v) ∈ live (KMEM_HEAD (kern_of s)) cs' /\ b <= x < b + v) ->
       byte m x = byte (mem_of s) x).
Proof.
  intros q id [Hheap Hq Hi Hack Hmax Hap] Hf Hid Hrq Hin Hnz Ew Hw Est Hst Hwt Hfr.
  unfold complete_one. fold q. change VIRTIO_RING_SIZE with 128.
  erewrite bind_done by (by apply load_ok). fold (used_id (mem_of s) q (bd_ack_used_idx bd mod 128)).
  fold id. erewrite bind_done by (apply lift_done, assert_true, Z.ltb_lt; lia).
  erewrite bind_done by (by apply load_ok).
  assert (rdn 8 (mem_of s) (q + desc_off id) = rq) as -> by exact Hrq.
  erewrite bind_done by (by apply load_ok). rewrite Ew, (proj2 (Z.ltb_lt 0 w)) by done.
  erewrite bind_done.
  2:{ erewrite bind_done by (by apply watched_run). erewrite bind_done by (by apply frame_of_ok).
      erewrite bind_done by (by apply load_ok).
      change (mem_of (running s l1 p l2)) with (mem_of s). rewrite Est. apply save_ok, Hwt. }
  change (mem_of (running s l1 p l2)) with (mem_of s). change (8 * 10) with 80.
  set (m1 := wrn 8 (mem_of s) (frame p + 80) st).
  assert (heap_ok (with_mem m1 (kern_of s)) cs) as Hok1.
  { apply heap_write; [done|]. intros x Hx _. unfold m1. apply byte_wrn_out.
    destruct (Z.lt_ge_cases x (frame p + 80)); [by left|].
    destruct (Z.lt_ge_cases x (frame p + 88)); [|right; lia]. destruct Hx. apply Hfr. lia. }
  destruct (heap_put (with_mem m1 (kern_of s)) cs fuel rq z Hok1 Hf Hin)
    as (m & cs' & E & Hok' & Hl & Hout & Hlive & Hlen).
  erewrite bind_done by (apply zoom_done; exact E).
  exists m, cs'. split_and!; [reflexivity|exact Hok'|exact Hl|exact Hlen|..].
  - rewrite <- (rdn_wrn 8 (mem_of s) (frame p + 80) st) by (cbn; lia). fold m1.
    apply rdn_ext. intros x Hx. apply Hout. apply Hfr. lia.
  - intros x Hx Hx'. transitivity (byte m1 x); [|apply byte_wrn_out; lia].
    destruct Hx' as [Hx'|(b & v & Hb & Hx')]; [by apply Hout|by eapply Hlive].
Qed.

(** ** The device *)

(** What the device left in memory when it used the chain at [h]: the data of
    a read at [dst], status 0 at [st], and one more used element. *)
Record answered (m m' : memory) (q h st dst : Z) (data : list Z) : Prop := {
  an_id : used_id m' q (used_idx m q mod 128) = h;
  an_idx : used_idx m' q = (used_idx m q + 1) mod 2 ^ 16;
  an_status : byte m' st = 0;
  an_data x : dst <= x < dst + zlen data -> byte m' x = nthZ data (x - dst);
  an_frame x : x < q + 4096 \/ q + sizeof_Queue <= x -> x <> st ->
    x < dst \/ dst + zlen data <= x -> byte m' x = byte m x;
}.

(** Where a request may put its data: outside of the heap or in blocks in
    use, away from the queue and from the frames of the processes. *)
Record target (k : kernel) (cs : list (bool * Z)) (q : Z) (l : list process) (dst n : Z) : Prop := {
  tg_owned x : dst <= x < dst + n -> outside k x \/ payload (KMEM_HEAD k) cs x;
  tg_queue : apart dst n q sizeof_Queue;
  tg_frames : Forall (fun p => apart dst n (frame p) 4096) l;
}.

(** The trap frames are pages outside of the heap and of the queue. *)
Definition frames_clear (k : kernel) (q : Z) (l : list process) : Prop :=
  Forall (fun p => (forall x, frame p <= x < frame p + 4096 -> outside k x) /\
                   apart (frame p) 4096 q sizeof_Queue) l.

(** The blocks in use after the request was taken from the heap. *)
Lemma payload_kept k cs cs' rq z x :
  live (KMEM_HEAD k) cs' ≡ₚ (rq - 8, z) :: live (KMEM_HEAD k) cs ->
  payload (KMEM_HEAD k) cs x -> payload (KMEM_HEAD k) cs' x.
Proof. intros E (b & v & Hin & Hx). exists b, v. split; [|done]. rewrite E. by right. Qed.

Section Answer.
(** A state [s] from which the request [rq] was submitted, giving [m1], and
    the memory [m2] the device made of it. *)
Context (s : world) (cs cs' : list (bool * Z)) (bd : BlockDevice) (m1 m2 : memory).
Context (rq z buffer size off w dst : Z) (write : bool) (data : list Z).
Context (l1 : list process) (p : process) (l2 : list process).
Abbreviation k := (kern_of s).
Abbreviation q := (bd_queue bd).
Abbreviation h := ((bd_idx bd + 1) mod 128).

Hypothesis Hdev : device_ok k cs bd.
Hypothesis Hquiet : used_idx (mem_of s) q = bd_ack_used_idx bd.
Hypothesis Hsub : submitted k bd m1 rq buffer size off write w.
Hypothesis Hheap1 : heap_ok (with_mem m1 k) cs'.
Hypothesis Hlive : live (KMEM_HEAD k) cs' ≡ₚ (rq - 8, z) :: live (KMEM_HEAD k) cs.
Hypothesis Hz : 40 <= z.
Hypothesis Hsep : forall b v x, (b, v) ∈ live (KMEM_HEAD k) cs -> b <= x < b + v ->
  byte m1 x = byte (mem_of s) x /\ (x < rq - 8 \/ rq - 8 + z <= x).
Hypothesis Hans : answered m1 m2 q h (rq + 24) dst data.
Hypothesis Htgt : target k cs q (l1 ++ p :: l2) dst (zlen data).
Hypothesis Hclear : frames_clear k q (l1 ++ p :: l2).
Hypothesis Hwt : watched s w l1 p l2.

Lemma rq_inside : KMEM_HEAD k <= rq - 8 /\ rq + 32 <= heap_end k.
Proof.
  assert ((rq - 8, z) ∈ live (KMEM_HEAD k) cs') as Hin by (rewrite Hlive; by left).
  destruct (live_inside (with_mem m1 k) cs' _ _ Hheap1 Hin) as [? Hhi].
  change (heap_end (with_mem m1 k)) with (heap_end k) in Hhi. cbn in *. lia.
Qed.

(** Bytes of the request are not among the data. *)
Lemma rq_not_data x : rq - 8 <= x < rq + 32 -> x < dst \/ dst + zlen data <= x.
Proof.
  intros Hx. pose proof rq_inside. destruct (Z.lt_ge_cases x dst); [by left|].
  destruct (Z.lt_ge_cases x (dst + zlen data)); [|by right].
  destruct (tg_owned _ _ _ _ _ _ Htgt x ltac:(lia)) as [Ho|(b & v & Hin & Hb)].
  - unfold outside in Ho. lia.
  - destruct (Hsep b v x Hin ltac:(lia)) as [_ ?]. lia.
Qed.

(** The queue up to the used ring, and trap frames, are as they were. *)
Lemma answer_queue x : q <= x < q + 4096 -> byte m2 x = byte m1 x.
Proof.
  intros Hx. pose proof rq_inside. destruct Hdev as [_ _ _ _ _ Hap].
  pose proof (tg_queue _ _ _ _ _ _ Htgt) as Hq. unfold apart, sizeof_Queue in *.
  apply (an_frame _ _ _ _ _ _ _ Hans); unfold sizeof_Queue; lia.
Qed.

Lemma answer_frame p' x :
  p' ∈ l1 ++ p :: l2 -> frame p' <= x < frame p' + 4096 -> byte m2 x = byte (mem_of s) x.
Proof.
  intros Hin Hx. pose proof rq_inside.
  destruct (proj1 (Forall_forall _ _) Hclear p' Hin) as [Ho Ha].
  pose proof (proj1 (Forall_forall _ _) (tg_frames _ _ _ _ _ _ Htgt) p' Hin) as Hd.
  specialize (Ho x Hx). unfold apart, sizeof_Queue, outside in *.
  rewrite (an_frame _ _ _ _ _ _ _ Hans) by (unfold sizeof_Queue; lia).
  apply (sub_frame _ _ _ _ _ _ _ _ _ Hsub); unfold outside; lia.
Qed.

Lemma answer_heap : heap_ok (with_mem m2 k) cs'.
Proof.
  apply (heap_write (with_mem m1 k)); [exact Hheap1|]. cbn [mem with_mem KMEM_HEAD].
  intros x Hx Hp. change (outside (with_mem m1 k) x) with (outside k x) in Hx.
  destruct Hdev as [_ _ _ _ _ Hap]. unfold sizeof_Queue in Hap.
  apply (an_frame _ _ _ _ _ _ _ Hans).
  - unfold outside, sizeof_Queue in *. lia.
  - intros ->. apply Hp. exists (rq - 8), z. rewrite Hlive. split; [by left|lia].
  - destruct (Z.lt_ge_cases x dst); [by left|].
    destruct (Z.lt_ge_cases x (dst + zlen data)); [|by right].
    destruct (tg_owned _ _ _ _ _ _ Htgt x ltac:(lia)) as [Ho|Ho]; [done|].
    destruct Hp. by eapply payload_kept.
Qed.

Lemma answer_used : used_idx m1 q = bd_ack_used_idx bd.
Proof.
  rewrite <- Hquiet. unfold used_idx, used_idx_off. apply rdn_ext. intros x Hx.
  destruct Hdev as [_ _ _ _ _ Hap]. unfold sizeof_Queue in Hap.
  apply (sub_frame _ _ _ _ _ _ _ _ _ Hsub); unfold outside; lia.
Qed.

Lemma answer_head : addr (desc_at m2 q h) = rq.
Proof.
  pose proof (sub_chain _ _ _ _ _ _ _ _ _ Hsub 0) as E. apply (f_equal (fmap addr ∘ head)) in E.
  rewrite (desc_at_ext m1).
  - cbn [compose chain Nat.add head request_chain fmap option_fmap option_map addr] in E. congruence.
  - unfold desc_off. intros x Hx. pose proof (Z.mod_pos_bound (bd_idx bd + 1) 128 ltac:(lia)).
    apply answer_queue. lia.
Qed.

Lemma answer_watcher : rdn 2 m2 (rq + watcher_off) = w /\ rdn 1 m2 (rq + status_off) = 0.
Proof.
  pose proof rq_inside. destruct Hdev as [_ _ _ _ _ Hap]. unfold sizeof_Queue in Hap.
  split.
  - transitivity (watcher (request_at m1 rq)); [|by rewrite (sub_request _ _ _ _ _ _ _ _ _ Hsub)].
    unfold request_at. cbn [watcher]. unfold watcher_off. apply rdn_ext. intros x Hx.
    apply (an_frame _ _ _ _ _ _ _ Hans); [unfold sizeof_Queue; lia|lia|apply rq_not_data; lia].
  - rewrite rdn_1. exact (an_status _ _ _ _ _ _ _ Hans).
Qed.

(** The state when the device is done. *)
Context (L : list (option BlockDevice)) (I : list io_event).
Abbreviation s2 := (with_block L (with_io I (with_memory m2 s))).

Lemma answer_watched : watched s2 w l1 p l2.
Proof.
  destruct Hwt as [El Epid Hb Hf Hfr]. split; [exact El|done|done| |done].
  change (mem_of s2) with m2. rewrite <- Hf. apply find_pid_ext, Forall_forall. intros p' Hin.
  apply rd64_ext. intros x Hx. unfold pid_addr in Hx. eapply answer_frame; [done|lia].
Qed.

Lemma answer_idx : used_idx m2 q = (bd_ack_used_idx bd + 1) mod 2 ^ 16.
Proof. by rewrite (an_idx _ _ _ _ _ _ _ Hans), answer_used. Qed.

(** The request is completed: the watcher is woken with the status and the request
    given back. *)
Lemma answer_complete fuel i :
  0 <= i < 128 -> (length cs' < fuel)%nat -> 0 < w ->
  exists m3 cs3, complete_one fuel (advance bd i) s2 =
      Done (acked (advance bd i), with_memory m3 (running s2 l1 p l2)) /\
    heap_ok (with_mem m3 k) cs3 /\
    live (KMEM_HEAD k) cs3 ≡ₚ live (KMEM_HEAD k) cs /\ (length cs3 <= length cs')%nat /\
    rdn 8 m3 (frame p + 80) = 0 /\
    (forall x, x < frame p + 80 \/ frame p + 88 <= x ->
       outside k x \/ payload (KMEM_HEAD k) cs x -> byte m3 x = byte m2 x).
Proof.
  intros Hi' Hf Hw. destruct answer_watcher as [Ew Est].
  pose proof Hdev as [Hheap Hq Hi Hack Hmax Hap]. pose proof rq_inside. pose proof (heap_pos _ _ Hheap).
  pose proof (proj1 (Forall_forall _ _) Hclear p ltac:(apply elem_of_app; right; by left)) as [Hfo Hfa].
  assert (used_id m2 q (bd_ack_used_idx bd mod 128) = h) as Eid
    by (rewrite <- answer_used; exact (an_id _ _ _ _ _ _ _ Hans)).
  destruct (complete_one_ok fuel s2 cs' (advance bd i) rq z w 0 l1 p l2)
    as (m3 & cs3 & E & Hok3 & Hl3 & Hlen3 & Ha0 & Hb3); try exact answer_watched; try done; try lia.
  - by split; [exact answer_heap|..].
  - cbn [bd_queue bd_ack_used_idx advance]. change (mem_of s2) with m2. rewrite Eid.
    apply Z.mod_pos_bound. lia.
  - cbn [bd_queue bd_ack_used_idx advance]. change (mem_of s2) with m2. rewrite Eid.
    exact answer_head.
  - cbn. rewrite Hlive. by left.
  - intros x Hx. apply Hfo. lia.
  - change (KMEM_HEAD (kern_of s2)) with (KMEM_HEAD k) in *. change (mem_of s2) with m2 in *.
    rewrite Hlive in Hl3. apply Permutation_cons_inv in Hl3.
    exists m3, cs3. split_and!; try done. intros x Hx Ho. apply Hb3; [done|].
    destruct Ho as [Ho|(b & v & Hin & Hx')]; [by left|right]. exists b, v. rewrite <- Hl3. split; [done|lia].
Qed.

(** The handler finds this one used element and ends after it. *)
Lemma answer_pending fuel i :
  0 <= i < 128 ->
  (S (length cs) < fuel)%nat -> (length cs' <= S (length cs))%nat -> 0 < w ->
  exists m3 cs3, pending fuel fuel (advance bd i) s2 =
      Done (acked (advance bd i), with_memory m3 (running s2 l1 p l2)) /\
    heap_ok (with_mem m3 k) cs3 /\
    live (KMEM_HEAD k) cs3 ≡ₚ live (KMEM_HEAD k) cs /\ (length cs3 <= S (length cs))%nat /\
    rdn 8 m3 (frame p + 80) = 0 /\
    used_idx m3 q = (bd_ack_used_idx bd + 1) mod 2 ^ 16 /\
    (forall x, x < frame p + 80 \/ frame p + 88 <= x ->
       outside k x \/ payload (KMEM_HEAD k) cs x -> byte m3 x = byte m2 x).
Proof.
  intros Hi' Hf Hlen Hw. pose proof Hdev as [Hheap Hq Hi Hack Hmax Hap].
  pose proof (proj1 (Forall_forall _ _) Hclear p ltac:(apply elem_of_app; right; by left)) as [_ Hfa].
  destruct (answer_complete fuel i Hi' ltac:(lia) Hw) as (m3 & cs3 & E & Hok3 & Hl & Hlen3 & Ha0 & Hb).
  assert (used_idx m3 q = (bd_ack_used_idx bd + 1) mod 2 ^ 16) as Eu3.
  { rewrite <- answer_idx. unfold used_idx, used_idx_off. apply rdn_ext. intros x Hx.
    unfold apart, sizeof_Queue, outside in *. apply Hb; [lia|left; lia]. }
  exists m3, cs3. split_and!; [|exact Hok3|exact Hl|lia|exact Ha0|exact Eu3|exact Hb].
  destruct fuel as [|[|fuel']]; [lia|lia|]. set (fuel := S (S fuel')) in *.
  unfold fuel at 2. cbn [pending bd_queue advance].
  erewrite bind_done by (by apply load_ok). change (mem_of s2) with m2.
  fold (used_idx m2 q). rewrite answer_idx. cbn [bd_ack_used_idx advance].
  rewrite (proj2 (Z.eqb_neq _ _)).
  2:{ intros Ec. destruct (Z.eq_dec (bd_ack_used_idx bd) (2 ^ 16 - 1)) as [E1|E1].
      - rewrite E1 in Ec. done.
      - rewrite Z.mod_small in Ec by lia. lia. }
  erewrite bind_done by exact E. cbn [bd_queue acked advance].
  erewrite bind_done by (by apply load_ok). rewrite mem_of_with_memory.
  fold (used_idx m3 q). rewrite Eu3. cbn [bd_ack_used_idx acked advance].
  by rewrite Z.eqb_refl.
Qed.
End Answer.
End Done.
End BlockDone.
