(* ===== verification/BlockSpec.v ===== *)
(** * Reading and writing a disk through the driver

    The driver, a device that keeps to the VirtIO specification and the
    interrupt handler together do what [BlockLaws] promises the file system. *)

From S2P Require Import Prelude Memory Cpu PageAlloc PageProps Kmem KmemFacts KmemProps KmemSpec KmemUse.
From S2P Require Import Mmu MinixLayout Lock Process ProcessProps Console World Uart Virtio Block BlockProps BlockDone.
Import Mem KmemFacts KmemProps KmemUse Process ProcessProps World Virtio Block BlockProps BlockDone.

(** ** The device *)

(** [serve d m q i] is the memory and the device after it has used the chain
    in slot [i] of the ring of available requests of the queue at [q]. *)
Class BlkDevice (D : Type) := {
  serve : D -> memory -> Z -> Z -> memory * D;
  dcontent : D -> Z -> Z;
  dcapacity : D -> Z;
}.

Module BlockSpec.

(** A request of type [ty] in slot [i]: a header of 16 bytes, [n] bytes at
    [dst] that the device may write for a read only, and a status byte. *)
Record request_for (m : memory) (q i ty sec dst n st : Z) : Prop := {
  rf_chain : exists a f1 n1 n2 f3 n3, chain 3 m q (avail_ring m q (i mod 128)) =
      [mkDesc a 16 f1 n1; mkDesc dst n (if ty =? VIRTIO_BLK_T_IN then 3 else 1) n2;
       mkDesc st 1 f3 n3] /\
    Z.testbit f1 1 = false /\ Z.testbit f3 1 = true /\
    rdn 4 m a = ty /\ rdn 8 m (a + 8) = sec;
  rf_head : 0 <= avail_ring m q (i mod 128) < 128;
  rf_apart : apart dst n (q + 4096) 1032 /\ apart st 1 (q + 4096) 1032 /\ apart st 1 dst n;
}.
End BlockSpec.
Import BlockSpec.

(** Requests of some whole sectors inside of the disk are answered with
    status 0: a read with the bytes of the disk, a write by changing them. *)
Class BlkLaws (D : Type) `{BlkDevice D} : Prop := {
  serve_in d m q i sec dst n st :
    request_for m q i VIRTIO_BLK_T_IN sec dst n st -> 0 <= sec -> 0 < n -> n mod 512 = 0 ->
    sec * 512 + n <= dcapacity d ->
    answered m (serve d m q i).1 q (avail_ring m q (i mod 128)) st dst
      (bytes_at (dcontent d) (sec * 512) n) /\
    (forall x, dcontent (serve d m q i).2 x = dcontent d x) /\
    dcapacity (serve d m q i).2 = dcapacity d;
  serve_out d m q i sec dst n st :
    request_for m q i VIRTIO_BLK_T_OUT sec dst n st -> 0 <= sec -> 0 < n -> n mod 512 = 0 ->
    sec * 512 + n <= dcapacity d ->
    answered m (serve d m q i).1 q (avail_ring m q (i mod 128)) st dst [] /\
    (forall x, dcontent (serve d m q i).2 x =
       upd_bytes (dcontent d) (sec * 512) (bytes_at (byte m) dst n) x) /\
    dcapacity (serve d m q i).2 = dcapacity d;
}.

Module BlockRun.
Section Run.
Context `{Profile} `{Linker} `{Bus} {D : Type} `{BlkDevice D} `{!BlkLaws D}.

(** Everything a request needs: the device is idle, the buffer and the frames
    are where they should be, and the watcher is in the list. *)
Record ready (s : world) (cs : list (bool * Z)) (dev : Z) (bd : BlockDevice) (buffer size w : Z)
    (l1 : list process) (p : process) (l2 : list process) : Prop := {
  rd_slot : BLOCK_DEVICES s !! Z.to_nat (dev - 1) = Some (Some bd);
  rd_dev : 1 <= dev < 2 ^ 64;
  rd_ok : device_ok (kern_of s) cs bd;
  rd_idle : used_idx (mem_of s) (bd_queue bd) = bd_ack_used_idx bd;
  rd_watched : watched s w l1 p l2;
  rd_w : 0 < w < 2 ^ 16;
  rd_clear : frames_clear (kern_of s) (bd_queue bd) (l1 ++ p :: l2);
  rd_buffer : target (kern_of s) cs (bd_queue bd) (l1 ++ p :: l2) buffer size;
  rd_range : 0 <= buffer < 2 ^ 64;
}.

(** What holds again when the request was completed. *)
Record finished (s s3 : world) (cs3 cs : list (bool * Z)) (dev : Z) (bd : BlockDevice)
    (l1 : list process) (p : process) (l2 : list process) : Prop := {
  fi_a0 : rdn 8 (mem_of s3) (reg_addr (frame p) Cpu.A0) = VIRTIO_BLK_S_OK;
  fi_list : PROCESS_LIST (procs_of s3) = Some (l1 ++ with_state Running p :: l2);
  fi_blocks : live (KMEM_HEAD (kern_of s3)) cs3 ≡ₚ live (KMEM_HEAD (kern_of s)) cs;
  fi_slot : exists bd3, BLOCK_DEVICES s3 !! Z.to_nat (dev - 1) = Some (Some bd3) /\
    device_ok (kern_of s3) cs3 bd3 /\ bd_queue bd3 = bd_queue bd /\
    used_idx (mem_of s3) (bd_queue bd3) = bd_ack_used_idx bd3;
}.

(** The request as the device sees it. *)
Lemma submitted_request s cs bd m1 rq cs' z buffer size off (write : bool) w l :
  device_ok (kern_of s) cs bd ->
  submitted (kern_of s) bd m1 rq buffer size off write w ->
  live (KMEM_HEAD (kern_of s)) cs' ≡ₚ (rq - 8, z) :: live (KMEM_HEAD (kern_of s)) cs ->
  heap_ok (with_mem m1 (kern_of s)) cs' -> 40 <= z ->
  (forall b v x, (b, v) ∈ live (KMEM_HEAD (kern_of s)) cs -> b <= x < b + v ->
     byte m1 x = byte (mem_of s) x /\ (x < rq - 8 \/ rq - 8 + z <= x)) ->
  target (kern_of s) cs (bd_queue bd) l buffer size -> 0 < size ->
  request_for m1 (bd_queue bd) (avail_idx (mem_of s) (bd_queue bd))
    (if write then VIRTIO_BLK_T_OUT else VIRTIO_BLK_T_IN) (off / 512) buffer size (rq + 24).
Proof.
  intros Hdev Hsub Hlive Hheap Hz Hsep Htgt Hn.
  assert ((rq - 8, z) ∈ live (KMEM_HEAD (kern_of s)) cs') as Hin by (rewrite Hlive; by left).
  destruct (live_inside _ _ _ _ Hheap Hin) as [Hlo Hhi].
  change (heap_end (with_mem m1 (kern_of s))) with (heap_end (kern_of s)) in Hhi. cbn in Hlo.
  destruct Hdev as [_ _ _ _ _ Hap]. unfold sizeof_Queue in Hap.
  split.
  - change (mem_of s) with (mem (kern_of s)). rewrite (sub_slot _ _ _ _ _ _ _ _ _ Hsub).
    pose proof (sub_chain _ _ _ _ _ _ _ _ _ Hsub 0) as Ec. cbn [Nat.add] in Ec. rewrite Ec.
    pose proof (sub_request _ _ _ _ _ _ _ _ _ Hsub) as Er. unfold request_at, blktype_off in Er.
    rewrite Z.add_0_r in Er. injection Er as E1 E2 E3 E4 E5 E6. unfold request_chain.
    exists rq, 1, (((bd_idx bd + 1) mod 128 + 1) mod 128),
      ((((bd_idx bd + 1) mod 128 + 1) mod 128 + 1) mod 128), 2, 0.
    split_and!; try done. by destruct write.
  - change (mem_of s) with (mem (kern_of s)). rewrite (sub_slot _ _ _ _ _ _ _ _ _ Hsub).
    apply Z.mod_pos_bound. lia.
  - pose proof (tg_queue _ _ _ _ _ _ Htgt) as Hq. unfold apart, sizeof_Queue in *.
    split_and!; [lia|lia|]. destruct (Z.lt_ge_cases (rq + 24) buffer); [left; lia|right].
    destruct (Z.lt_ge_cases (rq + 24) (buffer + size)); [|lia].
    destruct (tg_owned _ _ _ _ _ _ Htgt (rq + 24) ltac:(lia)) as [Ho|(b & v & Hb & Hx)].
    + unfold outside in Ho. lia.
    + destruct (Hsep b v (rq + 24) Hb ltac:(lia)) as [_ ?]. lia.
Qed.

(** Submission, any answer of the device, and the interrupt; other accesses to
    devices may come in between. *)
Lemma run_request fuel s cs dev bd buffer size off w l1 p l2 rq k1 (write : bool) :
  ready s cs dev bd buffer size w l1 p l2 -> (S (length cs) < fuel)%nat ->
  bd_read_only bd && write = false ->
  size mod 512 = 0 -> 0 < size < 2 ^ 32 -> 0 <= off < 2 ^ 64 ->
  Kmem.kmalloc fuel 32 (kern_of s) = Done (rq, k1) -> rq <> 0 ->
  exists s1, block_op fuel dev buffer size off write w s = Done (inr size, s1) /\
    io s1 = io s ++ [Wr (bd_dev bd + 0x50) 0] /\ VIRTIO_DEVICES s1 = VIRTIO_DEVICES s /\
    PROCESS_LIST (procs_of s1) = PROCESS_LIST (procs_of s) /\
    request_for (mem_of s1) (bd_queue bd) (avail_idx (mem_of s) (bd_queue bd))
      (if write then VIRTIO_BLK_T_OUT else VIRTIO_BLK_T_IN) (off / 512) buffer size (rq + 24) /\
    (forall x, buffer <= x < buffer + size -> byte (mem_of s1) x = byte (mem_of s) x) /\
    forall m2 dst data I,
      target (kern_of s) cs (bd_queue bd) (l1 ++ p :: l2) dst (zlen data) ->
      answered (mem_of s1) m2 (bd_queue bd)
        (avail_ring (mem_of s1) (bd_queue bd) (avail_idx (mem_of s) (bd_queue bd) mod 128))
        (rq + 24) dst data ->
      exists s3 cs3, handle_interrupt fuel (dev - 1) (with_io I (with_memory m2 s1)) = Done (tt, s3) /\
        finished s s3 cs3 cs dev bd l1 p l2 /\ io s3 = I /\
        forall x, dst <= x < dst + zlen data -> byte (mem_of s3) x = nthZ data (x - dst).
Proof.
  intros [Hslot Hd Hok Hidle Hwt Hw Hcl Htg Hbr] Hf Hro Hsz Hsize Hoff Em Hrq.
  destruct (block_op_ok fuel s cs bd dev buffer size off write w rq k1)
    as (m1 & cs' & z & E & Hsub & Hheap & Hlive & Hz & Hlen & Hsep); try (done || lia).
  eexists. split; [exact E|]. set (L := <[_ := _]> _). set (I1 := io s ++ _).
  do 3 (split; [done|]).
  change (mem_of (with_block L (with_io I1 (with_memory m1 s)))) with m1.
  split; [eapply submitted_request; (eassumption || lia)|]. split.
  { intros x Hx. destruct (tg_owned _ _ _ _ _ _ Htg x Hx) as [Ho|(b & v & Hb & Hx')].
    - apply (sub_frame _ _ _ _ _ _ _ _ _ Hsub); [done|].
      pose proof (tg_queue _ _ _ _ _ _ Htg) as Hq. unfold apart, sizeof_Queue in Hq. lia.
    - apply (Hsep b v x Hb). lia. }
  change (mem_of s) with (mem (kern_of s)) at 1. rewrite (sub_slot _ _ _ _ _ _ _ _ _ Hsub).
  intros m2 dst data I Htgt Hans.
  destruct (ring_steps (bd_idx bd) (dev_idx _ _ _ Hok)) as (_ & _ & Hc & _ & _ & _ & Ec & _).
  rewrite Ec in Hc.
  destruct (answer_pending s cs cs' bd m1 m2 rq z buffer size off w dst write data l1 p l2
              Hok Hidle Hsub Hheap Hlive Hz Hsep Hans Htgt Hcl Hwt L I fuel ((bd_idx bd + 3) mod 128)
              Hc Hf Hlen ltac:(lia))
    as (m3 & cs3 & E3 & Hok3 & Hl3 & Hlen3 & Ha0 & Eu & Hb3).
  change (with_io I (with_memory m2 (with_block L (with_io I1 (with_memory m1 s)))))
    with (with_block L (with_io I (with_memory m2 s))).
  unfold handle_interrupt. eexists. exists cs3. split_and!.
  - erewrite bind_done by reflexivity. erewrite bind_done.
    2:{ apply lift_done, index_ok; [lia|]. cbn [BLOCK_DEVICES with_block]. unfold L.
        by eapply list_lookup_insert_eq, lookup_lt_Some. }
    cbn iota. erewrite bind_done by exact E3. reflexivity.
  - split; [exact Ha0|reflexivity|exact Hl3|].
    exists (acked (advance bd ((bd_idx bd + 3) mod 128))).
    split; [|split; [|split; [done|exact Eu]]].
    + cbn. unfold L. rewrite list_insert_insert_eq.
      by eapply list_lookup_insert_eq, lookup_lt_Some.
    + destruct Hok as [_ Hq Hi Hack Hmax Hap]. split; [exact Hok3|exact Hq|exact Hc| |exact Hmax|exact Hap].
      apply Z.mod_pos_bound. lia.
  - reflexivity.
  - intros x Hx. rewrite <- (an_data _ _ _ _ _ _ _ Hans x Hx). apply Hb3.
    + pose proof (proj1 (Forall_forall _ _) (tg_frames _ _ _ _ _ _ Htgt) p
        ltac:(apply elem_of_app; right; by left)) as Ha. unfold apart in Ha. lia.
    + by apply (tg_owned _ _ _ _ _ _ Htgt).
Qed.

(** C4: block_op for a read, a device that follows the protocol, and the interrupt
    handler together implement the abstract read the file system relies on: the
    sectors are in the buffer, the disk does not change, the watcher runs with
    status 0, the request's block is free again and the used ring is acknowledged.
    *)
Theorem block_read_roundtrip fuel s cs dev bd buffer size off w l1 p l2 rq k1 (d : D) :
  ready s cs dev bd buffer size w l1 p l2 -> (S (length cs) < fuel)%nat ->
  size mod 512 = 0 -> 0 < size < 2 ^ 32 -> off mod 512 = 0 -> 0 <= off < 2 ^ 64 ->
  off + size <= dcapacity d ->
  Kmem.kmalloc fuel 32 (kern_of s) = Done (rq, k1) -> rq <> 0 ->
  exists s1 m2 d2 s3 cs3, block_op fuel dev buffer size off false w s = Done (inr size, s1) /\
    serve d (mem_of s1) (bd_queue bd) (avail_idx (mem_of s) (bd_queue bd)) = (m2, d2) /\
    handle_interrupt fuel (dev - 1) (with_memory m2 s1) = Done (tt, s3) /\
    finished s s3 cs3 cs dev bd l1 p l2 /\ io s3 = io s ++ [Wr (bd_dev bd + 0x50) 0] /\
    bytes_at (byte (mem_of s3)) buffer size = bytes_at (dcontent d) off size /\
    (forall x, dcontent d2 x = dcontent d x).
Proof.
  intros Hr Hf Hsz Hsize Ho Hoff Hcap Em Hrq.
  pose proof (Z.div_mod off 512 ltac:(lia)) as Hdm. rewrite Ho in Hdm.
  destruct (run_request fuel s cs dev bd buffer size off w l1 p l2 rq k1 false)
    as (s1 & E1 & Hio & _ & _ & Hreq & _ & Hrun); try done; [by rewrite andb_false_r|].
  pose proof (serve_in d _ _ _ _ _ _ _ Hreq) as Hs.
  destruct Hs as (Hans & Hc & _); try done; [apply Z.div_pos; lia|lia|lia|].
  destruct (serve d _ _ _) as [m2 d2] eqn:Es. cbn [fst snd] in *.
  edestruct (Hrun m2 buffer (bytes_at (dcontent d) (off / 512 * 512) size) (io s1)) as (s3 & cs3 & E3 & Hfin & Hio3 & Hb); [|exact Hans|].
  { rewrite length_bytes_at, Z2Nat.id by lia. apply Hr. }
  rewrite length_bytes_at, Z2Nat.id in Hb by lia.
  exists s1, m2, d2, s3, cs3. split_and!; [done|done|exact E3|done|by rewrite Hio3| |done].
  apply list_eq_nthZ; [by rewrite !length_bytes_at|]. rewrite length_bytes_at. intros i Hi.
  rewrite nth_bytes_at, Hb by lia. f_equal; [f_equal|]; lia.
Qed.

(** C21: block_op for a write of whole sectors, the device and the interrupt handler
    together put the bytes of the buffer on the disk at the offset and change
    nothing else of it; the watcher runs with status 0 and the request's block is
    free again. *)
Theorem block_write_roundtrip fuel s cs dev bd buffer size off w l1 p l2 rq k1 (d : D) :
  ready s cs dev bd buffer size w l1 p l2 -> (S (length cs) < fuel)%nat ->
  bd_read_only bd = false ->
  size mod 512 = 0 -> 0 < size < 2 ^ 32 -> off mod 512 = 0 -> 0 <= off < 2 ^ 64 ->
  off + size <= dcapacity d ->
  Kmem.kmalloc fuel 32 (kern_of s) = Done (rq, k1) -> rq <> 0 ->
  exists s1 m2 d2 s3 cs3, block_op fuel dev buffer size off true w s = Done (inr size, s1) /\
    serve d (mem_of s1) (bd_queue bd) (avail_idx (mem_of s) (bd_queue bd)) = (m2, d2) /\
    handle_interrupt fuel (dev - 1) (with_memory m2 s1) = Done (tt, s3) /\
    finished s s3 cs3 cs dev bd l1 p l2 /\ io s3 = io s ++ [Wr (bd_dev bd + 0x50) 0] /\
    (forall x, dcontent d2 x =
       upd_bytes (dcontent d) off (bytes_at (byte (mem_of s)) buffer size) x) /\
    dcapacity d2 = dcapacity d.
Proof.
  intros Hr Hf Hro Hsz Hsize Ho Hoff Hcap Em Hrq.
  pose proof (Z.div_mod off 512 ltac:(lia)) as Hdm. rewrite Ho in Hdm.
  destruct (run_request fuel s cs dev bd buffer size off w l1 p l2 rq k1 true)
    as (s1 & E1 & Hio & _ & _ & Hreq & Hsame & Hrun); try done; [by rewrite Hro|].
  pose proof (serve_out d _ _ _ _ _ _ _ Hreq) as Hs.
  destruct Hs as (Hans & Hc & Hcp); try done; [apply Z.div_pos; lia|lia|lia|].
  destruct (serve d _ _ _) as [m2 d2] eqn:Es. cbn [fst snd] in *.
  edestruct (Hrun m2 buffer [] (io s1)) as (s3 & cs3 & E3 & Hfin & Hio3 & _); [|exact Hans|].
  { destruct (rd_buffer _ _ _ _ _ _ _ _ _ _ Hr) as [_ Hq Hfr].
    split; cbn [length]; [lia|unfold apart in *; lia|].
    eapply Forall_impl; [exact Hfr|]. cbn beta. unfold apart. lia. }
  exists s1, m2, d2, s3, cs3. split_and!; [done|done|exact E3|done|by rewrite Hio3| |done].
  intros x. rewrite Hc.
  replace (off / 512 * 512) with off by lia. f_equal. apply bytes_at_ext. intros i Hi.
  apply Hsame. lia.
Qed.
End Run.
End BlockRun.
