(* ===== verification/RamDisk.v ===== *)
(** * A disk in memory

    The smallest device that keeps to [BlkLaws]: it copies the sectors of a
    request, writes the status and the used element. *)

From S2P Require Import Prelude Memory World Virtio Block BlockProps BlockDone BlockSpec.
Import Mem World Virtio Block BlockProps BlockDone BlockSpec.

Module RamDisk.

Record ramdisk := mkRam { sectors : memory; size : Z }.

(** One more used element, for the chain at [h]. *)
Definition push_used (m : memory) (q h len : Z) : memory :=
  let u := used_idx m q in
  let m := wrn 4 m (q + used_ring_off (u mod 128)) h in
  let m := wrn 4 m (q + used_ring_off (u mod 128) + 4) len in
  wrn 2 m (q + used_idx_off) ((u + 1) mod 2 ^ 16).

Definition ram_serve (d : ramdisk) (m : memory) (q i : Z) : memory * ramdisk :=
  let h := avail_ring m q (i mod 128) in
  match chain 3 m q h with
  | [hd; dd; sd] =>
      let ty := rdn 4 m (addr hd) in
      let a := rdn 8 m (addr hd + 8) * 512 in
      let '(m, d) :=
        if ty =? VIRTIO_BLK_T_IN
        then (store m (addr dd) (bytes_at (byte (sectors d)) a (dlen dd)), d)
        else (m, mkRam (store (sectors d) a (bytes_at (byte m) (addr dd) (dlen dd))) (size d)) in
      (push_used (store m (addr sd) [VIRTIO_BLK_S_OK]) q h 1, d)
  | _ => (m, d)
  end.

#[export] Instance ram_device : BlkDevice ramdisk := {|
  serve := ram_serve;
  dcontent d := byte (sectors d);
  dcapacity := size;
|}.

(** Writing the data, the status and the used element answers the request. *)
Lemma ram_answered m q h st dst (data : list Z) :
  0 <= h < 128 -> apart dst (zlen data) (q + 4096) 1032 -> apart st 1 (q + 4096) 1032 ->
  (data = [] \/ apart st 1 dst (zlen data)) ->
  answered m (push_used (store (store m dst data) st [0]) q h 1) q h st dst data.
Proof.
  unfold apart. intros Hh Hd Hs Hsd.
  assert (used_idx (store (store m dst data) st [0]) q = used_idx m q) as Eu.
  { unfold used_idx, used_idx_off. apply rdn_ext. intros x Hx.
    rewrite byte_store_out by (cbn [length]; lia). rewrite byte_store_out by lia. done. }
  unfold push_used. rewrite Eu. set (u := used_idx m q).
  pose proof (Z.mod_pos_bound u 128 ltac:(lia)). pose proof (Z.mod_pos_bound (u + 1) (2 ^ 16) ltac:(lia)).
  split; fold u.
  - unfold used_id. unfold used_ring_off, used_idx_off.
    rewrite rdn_wrn_ne by lia. rewrite rdn_wrn_ne by lia. apply rdn_wrn. cbn. lia.
  - unfold used_idx. apply rdn_wrn. done.
  - unfold used_ring_off, used_idx_off. rewrite !byte_wrn_out by lia.
    rewrite byte_store1. by rewrite decide_True.
  - intros x Hx. unfold used_ring_off, used_idx_off. rewrite !byte_wrn_out by lia.
    destruct Hsd as [->|Hsd]; [cbn in Hx; lia|].
    rewrite byte_store1, decide_False by lia. rewrite byte_store. unfold upd_bytes.
    by rewrite decide_True by lia.
  - intros x Hq Hx Hout. unfold sizeof_Queue in Hq. unfold used_ring_off, used_idx_off.
    rewrite !byte_wrn_out by lia. rewrite byte_store1, decide_False by done.
    by apply byte_store_out.
Qed.

#[export] Instance ram_laws : BlkLaws ramdisk.
Proof.
  split.
  - intros d m q i sec dst n st [(a & f1 & n1 & n2 & f3 & n3 & Ec & _ & _ & Et & Es) Hh (A1 & A2 & A3)]
      Hsec Hn Hn5 Hcap. cbn [serve ram_device]. unfold ram_serve. rewrite Ec.
    cbn [addr dlen]. rewrite Et, Es. cbn [fst snd Z.eqb VIRTIO_BLK_T_IN].
    split; [|done]. apply ram_answered; rewrite ?length_bytes_at, ?Z2Nat.id by lia; [done..|by right].
  - intros d m q i sec dst n st [(a & f1 & n1 & n2 & f3 & n3 & Ec & _ & _ & Et & Es) Hh (A1 & A2 & A3)]
      Hsec Hn Hn5 Hcap. cbn [serve ram_device]. unfold ram_serve. rewrite Ec.
    cbn [addr dlen]. rewrite Et, Es. cbn [fst snd Z.eqb VIRTIO_BLK_T_IN VIRTIO_BLK_T_OUT].
    split; [|split; [|done]].
    + change m with (store m dst []) at 2. apply ram_answered; [done| |done|by left].
      unfold apart in *. cbn. lia.
    + intros x. cbn [dcontent ram_device sectors]. apply byte_store.
Qed.
End RamDisk.
