(* ===== verification/BlockExample.v ===== *)
(** * A machine with one disk, one heap page and one process that waits *)

From S2P Require Import Prelude Memory Cpu PageAlloc PageProps Kmem KmemFacts KmemProps KmemSpec KmemUse KmemExample.
From S2P Require Import Mmu MinixLayout Lock Process ProcessProps Console World Uart Virtio Block BlockProps BlockDone BlockSpec RamDisk.
Import Mem KmemFacts KmemProps KmemUse Process World Virtio Block BlockProps BlockDone BlockSpec BlockRun RamDisk.

Module BlockExample.

#[local] Existing Instance dev.
#[local] Existing Instance KmemExample.heap16M.

(** Registers that read as 0. *)
Definition quiet : Bus := fun _ _ => 0.
#[local] Existing Instance quiet.

Definition kern0 : kernel :=
  with_mem (wr64 (mem KmemExample.heap) (32768 + 544) 1) KmemExample.heap.
Definition proc0 : process := mkProcess 32768 0 1 0 Waiting ProcessData_new 0 0 0.
Definition bd0 : BlockDevice := mkBd 16384 0x10008000 126 65535 false.
Definition disk0 : ramdisk := mkRam (store ∅ 512 (replicate 512 7)) 1024.

(** The used ring of the device stands at 65535. *)
Definition kern1 : kernel := with_mem (wrn 2 (mem kern0) (16384 + used_idx_off) 65535) kern0.
Definition world0 : world :=
  mkWorld (Console.mkC (Some []) (Some []) 0 0 None (mkP kern1 (Some [proc0]) 0 2 0)) []
    (replicate 8 None) [None; None; None; None; None; None; None; Some bd0]
    (replicate 8 None) (replicate 8 None) (replicate 8 None) None None.

Lemma heap1_ok : heap_ok kern1 KmemExample.chunks.
Proof.
  apply heap_write; [apply heap_write|]; [exact KmemExample.chunks_ok|..];
    unfold outside, heap_end; cbn [KMEM_HEAD KMEM_ALLOC kern0 KmemExample.heap with_mem mem];
    intros x Hx _; [apply byte_wr64|apply byte_wrn_out]; unfold Page.PAGE_SIZE, used_idx_off in *; lia.
Qed.

Lemma device0_ok : device_ok kern1 KmemExample.chunks bd0.
Proof. split; [exact heap1_ok|done|done|done|done|]. right. by vm_compute. Qed.

Lemma ready0 : ready world0 KmemExample.chunks 8 bd0 40960 512 1 [] proc0 [].
Proof.
  split; [done|done|exact device0_ok|by vm_compute| |done| | |done].
  - split; [done|done|done|by vm_compute|done].
  - constructor; [|done]. split; [|right; by vm_compute].
    intros x Hx. right. change (heap_end (kern_of world0)) with 12288.
    change (frame proc0) with 32768 in Hx. lia.
  - split; [|right; by vm_compute|constructor; [right; by vm_compute|done]].
    intros x Hx. left. right. change (heap_end (kern_of world0)) with 12288. lia.
Qed.

(** The request's block. *)
Definition kern2 : kernel :=
  match Kmem.kmalloc 5 32 kern1 with Done (_, k) => k | _ => kern1 end.
Lemma kmalloc32 : Kmem.kmalloc 5 32 kern1 = Done (8264, kern2).
Proof. vm_compute. reflexivity. Qed.

Lemma block_read_roundtrip_witness :
  exists s1 m2 d2 s3, block_op 5 8 40960 512 512 false 1 world0 = Done (inr 512, s1) /\
    serve disk0 (mem_of s1) 16384 0 = (m2, d2) /\
    handle_interrupt 5 7 (with_memory m2 s1) = Done (tt, s3) /\
    bytes_at (byte (mem_of s3)) 40960 512 = bytes_at (byte (sectors disk0)) 512 512.
Proof.
  destruct (block_read_roundtrip 5 world0 KmemExample.chunks 8 bd0 40960 512 512 1 [] proc0 []
    8264 kern2 disk0 ready0) as (s1 & m2 & d2 & s3 & cs3 & E1 & E2 & E3 & _ & _ & Eb & _).
  - cbn. lia.
  - reflexivity.
  - lia.
  - reflexivity.
  - lia.
  - calc.
  - exact kmalloc32.
  - lia.
  - exists s1, m2, d2, s3. split; [exact E1|]. split; [exact E2|]. split; [exact E3|exact Eb].
Defined.

Lemma block_write_roundtrip_witness :
  exists s1 m2 d2 s3, block_op 5 8 40960 512 512 true 1 world0 = Done (inr 512, s1) /\
    serve disk0 (mem_of s1) 16384 0 = (m2, d2) /\
    handle_interrupt 5 7 (with_memory m2 s1) = Done (tt, s3) /\
    dcontent d2 600 = 0.
Proof.
  destruct (block_write_roundtrip 5 world0 KmemExample.chunks 8 bd0 40960 512 512 1 [] proc0 []
    8264 kern2 disk0 ready0) as (s1 & m2 & d2 & s3 & cs3 & E1 & E2 & E3 & _ & _ & Ec & _).
  - cbn. lia.
  - reflexivity.
  - reflexivity.
  - lia.
  - reflexivity.
  - lia.
  - calc.
  - exact kmalloc32.
  - lia.
  - exists s1, m2, d2, s3. split; [exact E1|]. split; [exact E2|]. split; [exact E3|].
    rewrite Ec. vm_compute. reflexivity.
Defined.
End BlockExample.
