(* ===== verification/Rng.v ===== *)
(** * rng.rs: the entropy device *)

From S2P Require Import Prelude Memory Cpu PageAlloc PageProps Kmem KmemFacts KmemProps KmemSpec KmemUse.
From S2P Require Import Mmu MinixLayout Lock Process Console World Uart Virtio.
Import Mem KmemFacts KmemProps KmemUse Process World Virtio.

Module Rng.

Definition EntropyDevice_new : EntropyDevice := mkEd 0 0 0 0.

Section Rng.
Context `{Profile} `{Linker} `{Bus} (fuel : nat).

Definition setup_entropy_device (ptr : Z) : W bool :=
  idx ← lift (dev_index ptr);
  o ← negotiate (fun host => host) ptr;
  match o with
  | None => mret false
  | Some _ =>
      queue_ptr ← add_queue ptr 0;
      _ ← write_volatile (reg ptr Status) live_bits;
      let rngdev := mkEd queue_ptr ptr 0 0 in
      s ← get;
      l ← lift (set_slot (ENTROPY_DEVICES s) idx (Some rngdev));
      _ ← modify (with_entropy l);
      mret true
  end.

(** The loop stops at the first device. *)
Fixpoint random_loop (l : list (option EntropyDevice)) : W unit :=
  match l with
  | [] => mret tt
  | Some _ :: _ =>
      ptr ← on_kern (Kmem.kmalloc fuel 8);
      _val ← load 1 ptr 0;
      on_kern (Kmem.kfree fuel ptr)
  | None :: l' => random_loop l'
  end.

Definition get_random : W Z :=
  s ← get;
  _ ← random_loop (ENTROPY_DEVICES s);
  mret ((0 - 1) mod 2 ^ 64).

(** Whatever devices there are and whatever they would answer, get_random returns
    2^64 - 1; no device is asked, and the block it allocates is given back. *)
Theorem get_random_constant s cs p k1 :
  heap_ok (kern_of s) cs -> (S (length cs) < fuel)%nat ->
  Kmem.kmalloc fuel 8 (kern_of s) = Done (p, k1) -> p <> 0 ->
  exists s' cs', get_random s = Done (2 ^ 64 - 1, s') /\ io s' = io s /\
    heap_ok (kern_of s') cs' /\
    live (KMEM_HEAD (kern_of s')) cs' ≡ₚ live (KMEM_HEAD (kern_of s)) cs.
Proof.
  intros Hok Hf E Hp.
  destruct (heap_take _ cs fuel 8 p k1 Hok ltac:(lia) ltac:(lia) E Hp)
    as (m & cs1 & z & -> & Hok1 & Hl & _ & _ & _ & _ & _ & Hlen & _).
  destruct (heap_put (with_mem m (kern_of s)) cs1 fuel p z Hok1 ltac:(lia))
    as (m2 & cs2 & Ef & Hok2 & Hl2 & _); [cbn; rewrite Hl; by left|].
  assert (random_loop (ENTROPY_DEVICES s) s = Done (tt, s) \/
          random_loop (ENTROPY_DEVICES s) s = Done (tt, with_memory m2 s)) as [El|El].
  { induction (ENTROPY_DEVICES s) as [|[d|] l IH]; [by left| |exact IH]. right. cbn [random_loop].
    erewrite bind_done by (apply zoom_done; exact E). erewrite bind_done by (by apply load_ok).
    exact (zoom_done kern_of with_kern _ (with_memory m s) tt _ Ef). }
  - exists s, cs. unfold get_random. erewrite bind_done by reflexivity. by erewrite bind_done by exact El.
  - exists (with_memory m2 s), cs2. unfold get_random. erewrite bind_done by reflexivity.
    erewrite bind_done by exact El. split_and!; try done.
    cbn in Hl2. rewrite Hl in Hl2. by apply Permutation_cons_inv in Hl2.
Qed.
End Rng.
End Rng.
