(* ===== verification/Input.v ===== *)
(** * input.rs: keyboards and pointers

    The driver hands the device buffers for 64 events; an interrupt moves the
    events that arrived to the queues of key and pointer events and hands the
    buffers out again. *)

From S2P Require Import Prelude Memory Cpu PageAlloc PageProps Kmem KmemFacts KmemProps KmemSpec KmemUse.
From S2P Require Import Mmu MinixLayout Lock Process Console World Uart Virtio.
Import Mem KmemFacts KmemProps KmemUse Process World Virtio.

Module Input.
Import (notations) String.

Definition EVENT_BUFFER_ELEMENTS : Z := 64.
Definition EVENT_SIZE : Z := 8.

Inductive EventType :=
| Syn | Key | Rel | Abs | Msc | Sw | Led | Snd | Rep | Ff | Pwr | FfStatus | Max.
Definition EventType_val (t : EventType) : Z :=
  match t with
  | Syn => 0x00 | Key => 0x01 | Rel => 0x02 | Abs => 0x03 | Msc => 0x04 | Sw => 0x05
  | Led => 0x11 | Snd => 0x12 | Rep => 0x14 | Ff => 0x15 | Pwr => 0x16 | FfStatus => 0x17
  | Max => 0x1f
  end.

(** The event at address [a]. *)
Definition event_at (m : memory) (a : Z) : Event :=
  mkEvent (rdn 2 m a) (rdn 2 m (a + 2)) (rdn 4 m (a + 4)).

Section Input.
Context `{Profile} `{Linker} `{Bus} (fuel : nat).

Definition repopulate_event (dev : InputDevice) (buffer : Z) : W InputDevice :=
  let desc := mkDesc (as_u64 (id_event_buffer dev + EVENT_SIZE * buffer)) (as_u32 EVENT_SIZE)
                VIRTIO_DESC_F_WRITE 0 in
  let head := id_event_idx dev in
  let q := id_event_queue dev in
  _ ← set_desc q (id_event_idx dev) desc;
  event_idx ← lift (next_idx (id_event_idx dev));
  _ ← push_avail q head;
  mret (mkId q (id_status_queue dev) event_idx (id_event_ack_used_idx dev)
          (id_event_buffer dev) (id_status_ack_used_idx dev)).

(** [for i in 0..EVENT_BUFFER_ELEMENTS] *)
Fixpoint populate (k : nat) (i : Z) (dev : InputDevice) : W InputDevice :=
  match k with
  | O => mret dev
  | S k' => dev ← repopulate_event dev i; populate k' (i + 1) dev
  end.

Definition setup_input_device `{Kmem.Deques} (ptr : Z) : W bool :=
  idx ← lift (dev_index ptr);
  o ← negotiate (fun host => Z.land host (unot 32 (Z.shiftl 1 VIRTIO_F_RING_EVENT_IDX))) ptr;
  match o with
  | None => mret false
  | Some _ =>
      event_queue_ptr ← add_queue ptr 0;
      status_queue_ptr ← add_queue ptr 1;
      _ ← write_volatile (reg ptr Status) live_bits;
      event_buffer ← on_kern (Kmem.kmalloc fuel (EVENT_SIZE * EVENT_BUFFER_ELEMENTS));
      dev ← populate (Z.to_nat EVENT_BUFFER_ELEMENTS) 0
              (mkId event_queue_ptr status_queue_ptr 0 0 event_buffer 0);
      s ← get;
      l ← lift (set_slot (INPUT_DEVICES s) idx (Some dev));
      _ ← modify (with_input l);
      _ ← on_kern (Kmem.with_capacity fuel 100 EVENT_SIZE);
      _ ← modify (with_abs (Some []));
      _ ← on_kern (Kmem.with_capacity fuel 10 EVENT_SIZE);
      _ ← modify (with_key (Some []));
      mret true
  end.

(** [ABS_EVENTS.take().unwrap()], [push_back], [replace]; the same for keys. *)
Definition deliver (ev : Event) : W unit :=
  s ← get;
  if event_type ev =? EventType_val Abs then
    l ← lift (unwrap (ABS_EVENTS s));
    modify (with_abs (Some (l ++ [ev])))
  else if event_type ev =? EventType_val Key then
    l ← lift (unwrap (KEY_EVENTS s));
    modify (with_key (Some (l ++ [ev])))
  else mret tt.

(** [(addr as *const Event).as_ref().unwrap()] of element [slot] of the used ring. *)
Definition used_event (q slot : Z) : W (Z * Z) :=
  id ← load 4 q (used_ring_off slot);
  _ ← lift (assert_ (id <? VIRTIO_RING_SIZE));
  event ← load 8 q (desc_off id);
  _ ← lift (unwrap (if event =? 0 then None else Some tt));
  mret (id, event).

Fixpoint pending_events (k : nat) (dev : InputDevice) : W InputDevice :=
  match k with
  | O => lift NoFuel
  | S k' =>
      let q := id_event_queue dev in
      u ← load 2 q used_idx_off;
      if id_event_ack_used_idx dev =? u then mret dev
      else
        '(id, event) ← used_event q (id_event_ack_used_idx dev mod VIRTIO_RING_SIZE);
        dev ← repopulate_event dev id;
        let dev := mkId q (id_status_queue dev) (id_event_idx dev)
                     ((id_event_ack_used_idx dev + 1) mod 2 ^ 16) (id_event_buffer dev)
                     (id_status_ack_used_idx dev) in
        ev ← gets (fun s => event_at (mem_of s) event);
        _ ← deliver ev;
        pending_events k' dev
  end.

Fixpoint pending_status (k : nat) (dev : InputDevice) : W InputDevice :=
  match k with
  | O => lift NoFuel
  | S k' =>
      let q := id_status_queue dev in
      u ← load 2 q used_idx_off;
      if id_status_ack_used_idx dev =? u then mret dev
      else
        let slot := id_status_ack_used_idx dev mod VIRTIO_RING_SIZE in
        id ← load 4 q (used_ring_off slot);
        len ← load 4 q (used_ring_off slot + 4);
        _ ← Uart.print (Fmt.str "SAck " ++ Fmt.dec (id_status_ack_used_idx dev) ++
              Fmt.str ", elem " ++ Fmt.dec id ++ Fmt.str ", len " ++ Fmt.dec len ++ Fmt.str ": ");
        '(_, event) ← used_event q slot;
        ev ← gets (fun s => event_at (mem_of s) event);
        _ ← Uart.println (Fmt.str "Type = " ++ Fmt.hex (as_u8 (event_type ev)) ++
              Fmt.str ", Code = " ++ Fmt.hex (code ev) ++
              Fmt.str ", Value = " ++ Fmt.hex (value ev));
        pending_status k'
          (mkId (id_event_queue dev) q (id_event_idx dev) (id_event_ack_used_idx dev)
             (id_event_buffer dev) ((id_status_ack_used_idx dev + 1) mod 2 ^ 16))
  end.

(** The event queue first, then the status queue. *)
Definition pending (dev : InputDevice) : W InputDevice :=
  dev ← pending_events fuel dev;
  pending_status fuel dev.

Definition handle_interrupt (idx : Z) : W unit :=
  s ← get;
  slot ← lift (index (INPUT_DEVICES s) idx);
  match slot with
  | Some bdev =>
      bdev ← pending bdev;
      modify (fun s => with_input (<[Z.to_nat idx := Some bdev]> (INPUT_DEVICES s)) s)
  | None =>
      n ← lift (usize (idx + 1));
      Uart.println (Fmt.str "Invalid input device for interrupt " ++ Fmt.dec n)
  end.
End Input.
End Input.
