(* ===== verification/InputProps.v ===== *)
(** * The input driver: buffers handed out, events delivered *)

From S2P Require Import Prelude Memory Cpu PageAlloc PageProps Kmem KmemFacts KmemProps KmemSpec KmemUse.
From S2P Require Import Mmu MinixLayout Lock Process Console World Uart Virtio Input.
Import Mem KmemFacts KmemProps KmemUse Process World Virtio Input.

Module InputProps.

(** The elements of the used ring from [ack] on, [n] of them. *)
Fixpoint used_ids (m : memory) (q ack : Z) (n : nat) : list Z :=
  match n with
  | O => []
  | S n' => used_id m q (ack mod 128) :: used_ids m q ((ack + 1) mod 2 ^ 16) n'
  end.

(** The event in the buffer of descriptor [id]. *)
Definition event_of (m : memory) (q id : Z) : Event := event_at m (addr (desc_at m q id)).

(** A used element the driver can take while it hands out the next [n]
    descriptors from [ei] on: a descriptor that is not among them, with an
    event outside of the queue. *)
Definition usable (m : memory) (q ei : Z) (n : nat) (id : Z) : Prop :=
  0 <= id < 128 /\ Z.of_nat n <= (id - ei) mod 128 /\
  addr (desc_at m q id) <> 0 /\ apart (addr (desc_at m q id)) 8 q sizeof_Queue.

Definition stepped (dev : InputDevice) : InputDevice :=
  mkId (id_event_queue dev) (id_status_queue dev) ((id_event_idx dev + 1) mod 128)
    (id_event_ack_used_idx dev) (id_event_buffer dev) (id_status_ack_used_idx dev).

Definition acked (dev : InputDevice) : InputDevice :=
  mkId (id_event_queue dev) (id_status_queue dev) (id_event_idx dev)
    ((id_event_ack_used_idx dev + 1) mod 2 ^ 16) (id_event_buffer dev) (id_status_ack_used_idx dev).

(** [l] with the events of type [t] of [evs] behind. *)
Definition add_events (t : EventType) (l evs : list Event) : list Event :=
  l ++ filter (fun ev => event_type ev = EventType_val t) evs.

Section Props.
Context `{Profile} `{Linker} `{Bus}.

(** Buffer [b] is handed out as the next descriptor. *)
Lemma repopulate_ok dev b s :
  let q := id_event_queue dev in let ei := id_event_idx dev in
  q <> 0 -> 0 <= ei < 128 ->
  exists m, repopulate_event dev b s = Done (stepped dev, with_memory m s) /\
    desc_at m q ei = mkDesc ((id_event_buffer dev + 8 * b) mod 2 ^ 64) 8 VIRTIO_DESC_F_WRITE 0 /\
    avail_ring m q (avail_idx (mem_of s) q mod 128) = ei /\
    avail_idx m q = (avail_idx (mem_of s) q + 1) mod 2 ^ 16 /\
    (forall x, x < q + 16 * ei \/ q + 16 * ei + 16 <= x -> x < q + 2050 \/ q + 2308 <= x ->
       byte m x = byte (mem_of s) x) /\
    (forall i, 0 <= i < 128 -> i <> avail_idx (mem_of s) q mod 128 ->
       avail_ring m q i = avail_ring (mem_of s) q i).
Proof.
  intros q ei Hq Hei. unfold repopulate_event. fold q ei.
  erewrite bind_done by (by apply set_desc_ok). set (m1 := store _ _ _).
  assert (forall x, x < q + 16 * ei \/ q + 16 * ei + 16 <= x -> byte m1 x = byte (mem_of s) x) as Hm1.
  { intros x Hx. apply byte_store_out. rewrite length_encode_desc. unfold desc_off. lia. }
  erewrite bind_done by (by apply lift_done, next_idx_ok).
  destruct (push_avail_ok q ei (with_memory m1 s)) as (m & E & Er & Ei & Hb & Hr); [done|lia|].
  erewrite bind_done by exact E. rewrite mem_of_with_memory, with_memory_twice in *.
  assert (avail_idx m1 q = avail_idx (mem_of s) q) as Ea.
  { unfold avail_idx, avail_idx_off. apply rdn_ext. intros x Hx. apply Hm1. lia. }
  rewrite Ea in *. exists m. split_and!; try done.
  - rewrite (desc_at_ext m1) by (unfold desc_off; intros x Hx; apply Hb; lia).
    apply desc_at_store. unfold desc_wf, as_u64, as_u32, EVENT_SIZE. cbn [addr dlen flags next].
    pose proof (Z.mod_pos_bound (id_event_buffer dev + 8 * b) (2 ^ 64) ltac:(lia)).
    unfold VIRTIO_DESC_F_WRITE. split_and!; (lia || calc).
  - intros x Hx Hx'. by rewrite Hb, Hm1.
  - intros i Hi Hne. rewrite Hr by done. unfold avail_ring, avail_ring_off. apply rdn_ext.
    intros x Hx. apply Hm1. lia.
Qed.

(** ** Delivering events *)

Lemma add_events_cons t l ev evs : add_events t (add_events t l [ev]) evs = add_events t l (ev :: evs).
Proof.
  unfold add_events. rewrite <- app_assoc. f_equal.
  rewrite (filter_cons _ ev evs), (filter_cons _ ev []). by case_decide.
Qed.

(** The world with the two queues of events replaced. *)
Definition with_events (a k : list Event) (s : world) : world := with_abs (Some a) (with_key (Some k) s).

Lemma deliver_ok ev s a k :
  ABS_EVENTS s = Some a -> KEY_EVENTS s = Some k ->
  deliver ev s = Done (tt, with_events (add_events Abs a [ev]) (add_events Key k [ev]) s).
Proof.
  intros Ha Hk. unfold deliver. erewrite bind_done by reflexivity. unfold add_events, with_events.
  destruct (Z.eqb_spec (event_type ev) (EventType_val Abs)) as [Ea|Ea].
  - rewrite Ha. erewrite bind_done by reflexivity.
    rewrite filter_cons_True, filter_cons_False by (rewrite ?Ea; done). cbn [filter list_filter].
    rewrite app_nil_r. unfold modify. destruct s. cbn in *. by subst.
  - destruct (Z.eqb_spec (event_type ev) (EventType_val Key)) as [Ek|Ek].
    + rewrite Hk. erewrite bind_done by reflexivity.
      rewrite filter_cons_False by done. rewrite filter_cons_True by done. cbn [filter list_filter].
      rewrite app_nil_r. unfold modify. destruct s. cbn in *. by subst.
    + rewrite !filter_cons_False by done. cbn [filter list_filter]. rewrite !app_nil_r.
      destruct s. cbn in *. by subst.
Qed.

Lemma used_ids_ext m m' q n : forall ack,
  (forall x, q + 4096 <= x < q + sizeof_Queue -> byte m' x = byte m x) ->
  used_ids m' q ack n = used_ids m q ack n.
Proof.
  induction n as [|n IH]; intros ack Hb; cbn [used_ids]; [done|]. rewrite IH by done. f_equal.
  unfold used_id, used_ring_off, sizeof_Queue in *. apply rdn_ext. intros x Hx. apply Hb.
  pose proof (Z.mod_pos_bound ack 128 ltac:(lia)). lia.
Qed.

Lemma mod_pred i ei n :
  1 <= n <= (i - ei) mod 128 -> n - 1 <= (i - (ei + 1) mod 128) mod 128.
Proof.
  intros Hn. rewrite Zminus_mod_idemp_r. replace (i - (ei + 1)) with ((i - ei) - 1) by lia.
  pose proof (Z.div_mod (i - ei) 128 ltac:(lia)). pose proof (Z.mod_pos_bound (i - ei) 128 ltac:(lia)).
  replace (i - ei - 1) with ((i - ei) mod 128 - 1 + (i - ei) / 128 * 128) by lia.
  rewrite Z.mod_add, Z.mod_small by lia. lia.
Qed.

(** What the driver still has to take is not touched by handing out a buffer. *)
Lemma usable_kept m m' q ei n id :
  0 <= ei < 128 -> usable m q ei (S n) id ->
  (forall x, x < q + 16 * ei \/ q + 16 * ei + 16 <= x -> x < q + 2050 \/ q + 2308 <= x ->
     byte m' x = byte m x) ->
  usable m' q ((ei + 1) mod 128) n id /\ event_of m' q id = event_of m q id /\
  event_at m' (addr (desc_at m q id)) = event_of m q id.
Proof.
  intros Hei (Hid & Hd & Hnz & Hap) Hb.
  assert (id <> ei) as Hne by (intros ->; rewrite Z.sub_diag, Z.mod_0_l in Hd by lia; lia).
  assert (desc_at m' q id = desc_at m q id) as Ed.
  { apply desc_at_ext. unfold desc_off. intros x Hx. apply Hb; lia. }
  assert (event_at m' (addr (desc_at m q id)) = event_of m q id) as Ee.
  { unfold event_of, event_at. unfold apart, sizeof_Queue in Hap.
    f_equal; apply rdn_ext; intros x Hx; apply Hb; lia. }
  unfold usable. rewrite Ed. split; [|split; [|done]].
  - pose proof (mod_pred id ei (Z.of_nat (S n)) ltac:(lia)). split_and!; (done || lia || apply Hid).
  - unfold event_of at 1. by rewrite Ed.
Qed.

(** What the device reported stays readable while a buffer is handed out. *)
Lemma used_kept m m' q ei n ack :
  let ids := used_ids m q ack n in
  0 <= ei < 128 -> Forall (usable m q ei (S n)) ids ->
  (forall x, x < q + 16 * ei \/ q + 16 * ei + 16 <= x -> x < q + 2050 \/ q + 2308 <= x ->
     byte m' x = byte m x) ->
  used_idx m' q = used_idx m q /\ used_ids m' q ack n = ids /\
  event_of m' q <$> ids = event_of m q <$> ids.
Proof.
  intros ids Hei Hids Hb. split_and!.
  - unfold used_idx, used_idx_off. apply rdn_ext. intros x Hx. apply Hb; lia.
  - apply used_ids_ext. unfold sizeof_Queue. intros x Hx. apply Hb; lia.
  - induction Hids as [|id l Hid Hids IH]; [done|].
    rewrite !fmap_cons, IH. f_equal. by eapply usable_kept.
Qed.

Lemma mod_moves ack n : 0 <= ack < 2 ^ 16 -> 0 < n < 2 ^ 16 -> ack <> (ack + n) mod 2 ^ 16.
Proof.
  intros Ha Hn E. destruct (Z.lt_ge_cases (ack + n) (2 ^ 16)).
  - rewrite Z.mod_small in E by lia. lia.
  - rewrite <- (Z.mod_add (ack + n) (-1)), Z.mod_small in E by lia. lia.
Qed.

Lemma used_event_ok q slot s :
  q <> 0 -> 0 <= used_id (mem_of s) q slot < 128 ->
  addr (desc_at (mem_of s) q (used_id (mem_of s) q slot)) <> 0 ->
  used_event q slot s = Done ((used_id (mem_of s) q slot,
    addr (desc_at (mem_of s) q (used_id (mem_of s) q slot))), s).
Proof.
  intros Hq Hid Hnz. unfold used_event. erewrite bind_done by (by apply load_ok).
  fold (used_id (mem_of s) q slot). change VIRTIO_RING_SIZE with 128.
  erewrite bind_done by (apply lift_done, assert_true, Z.ltb_lt; lia).
  erewrite bind_done by (by apply load_ok).
  change (rdn 8 (mem_of s) (q + desc_off (used_id (mem_of s) q slot)))
    with (addr (desc_at (mem_of s) q (used_id (mem_of s) q slot))).
  by rewrite (proj2 (Z.eqb_neq _ _) Hnz).
Qed.

(** ** Handing buffers out again *)

(** What handing out buffers leaves of the queue at [q]: for the [j]-th descriptor of
    [ids], slot [j] behind the old index of the available ring names the [j]-th
    descriptor from [ei] on, and that one holds the buffer with the number [ids] has.
    Other descriptors, slots and bytes are as before. *)
Record rearmed (m0 m : memory) (q ei buf : Z) (ids : list Z) : Prop := {
  ra_idx : avail_idx m q mod 2 ^ 16 = (avail_idx m0 q + zlen ids) mod 2 ^ 16;
  ra_slot j id : ids !! j = Some id ->
    avail_ring m q ((avail_idx m0 q + Z.of_nat j) mod 128) = (ei + Z.of_nat j) mod 128;
  ra_new j id : ids !! j = Some id -> desc_at m q ((ei + Z.of_nat j) mod 128) =
    mkDesc ((buf + 8 * id) mod 2 ^ 64) 8 VIRTIO_DESC_F_WRITE 0;
  ra_desc i : 0 <= i < 128 -> zlen ids <= (i - ei) mod 128 -> desc_at m q i = desc_at m0 q i;
  ra_ring i : 0 <= i < 128 -> zlen ids <= (i - avail_idx m0 q) mod 128 ->
    avail_ring m q i = avail_ring m0 q i;
  ra_out x : x < q \/ q + sizeof_Queue <= x -> byte m x = byte m0 x;
}.

Lemma mod_16_7 x : (x mod 2 ^ 16) mod 128 = x mod 128.
Proof. rewrite <- Znumtheory.Zmod_div_mod; [done|lia|lia|by exists 512]. Qed.

(** The place behind the next one, in the ring and as the index counts. *)
Lemma next_place x j :
  ((x + 1) mod 128 + Z.of_nat j) mod 128 = (x + Z.of_nat (S j)) mod 128 /\
  ((x + 1) mod 2 ^ 16 + Z.of_nat j) mod 128 = (x + Z.of_nat (S j)) mod 128.
Proof.
  rewrite <- (Zplus_mod_idemp_l ((x + 1) mod 2 ^ 16)), mod_16_7, Zplus_mod_idemp_l.
  split; f_equal; lia.
Qed.

Lemma place_kept i x n :
  Z.of_nat (S n) <= (i - x) mod 128 ->
  Z.of_nat n <= (i - (x + 1) mod 128) mod 128 /\ Z.of_nat n <= (i - (x + 1) mod 2 ^ 16) mod 128 /\
  i mod 128 <> x mod 128.
Proof.
  intros Hi. pose proof (mod_pred i x (Z.of_nat (S n)) ltac:(lia)) as Hp.
  rewrite <- (Zminus_mod_idemp_r i ((x + 1) mod 2 ^ 16)), mod_16_7. split_and!; [lia|lia|].
  intros E. rewrite Zminus_mod, E, Z.sub_diag in Hi. change (0 mod 128) with 0 in Hi. lia.
Qed.

(** The place that was used last is not used before all others were. *)
Lemma place_last x n :
  Z.of_nat n < 128 ->
  Z.of_nat n <= (x mod 128 - (x + 1) mod 128) mod 128 /\
  Z.of_nat n <= (x mod 128 - (x + 1) mod 2 ^ 16) mod 128.
Proof.
  intros Hn. rewrite <- (Zminus_mod_idemp_r _ ((x + 1) mod 2 ^ 16)), mod_16_7.
  rewrite Zminus_mod_idemp_l, Zminus_mod_idemp_r. replace (x - (x + 1)) with (127 + -1 * 128) by lia.
  rewrite Z.mod_add, Z.mod_small by lia. lia.
Qed.

(** One buffer, and then the others. *)
Lemma rearmed_cons m0 m1 m q ei buf id ids :
  0 <= ei < 128 -> zlen ids < 128 ->
  desc_at m1 q ei = mkDesc ((buf + 8 * id) mod 2 ^ 64) 8 VIRTIO_DESC_F_WRITE 0 ->
  avail_ring m1 q (avail_idx m0 q mod 128) = ei ->
  avail_idx m1 q = (avail_idx m0 q + 1) mod 2 ^ 16 ->
  (forall x, x < q + 16 * ei \/ q + 16 * ei + 16 <= x -> x < q + 2050 \/ q + 2308 <= x ->
     byte m1 x = byte m0 x) ->
  (forall i, 0 <= i < 128 -> i <> avail_idx m0 q mod 128 -> avail_ring m1 q i = avail_ring m0 q i) ->
  rearmed m1 m q ((ei + 1) mod 128) buf ids -> rearmed m0 m q ei buf (id :: ids).
Proof.
  intros Hei Hlen Ed Er Ea Hb Hr [Ri Rs Rn Rd Rr Ro]. rewrite Ea in *.
  set (av := avail_idx m0 q) in *. pose proof (Z.mod_pos_bound av 128 ltac:(lia)) as Hav.
  destruct (place_last ei (length ids) Hlen) as [Lei _]. rewrite (Z.mod_small ei) in Lei by lia.
  destruct (place_last av (length ids) Hlen) as [_ Lav]. split; fold av.
  - rewrite Ri, Zplus_mod_idemp_l. f_equal. cbn [length]. lia.
  - intros [|j] id' Hj; cbn in Hj.
    + change (Z.of_nat 0) with 0. rewrite !Z.add_0_r, Rr, Er, Z.mod_small by lia. done.
    + specialize (Rs j id' Hj). destruct (next_place ei j) as [E1 _], (next_place av j) as [_ E2].
      by rewrite E1, E2 in Rs.
  - intros [|j] id' Hj; cbn in Hj.
    + injection Hj as <-. change (Z.of_nat 0) with 0. by rewrite Z.add_0_r, Z.mod_small, Rd by lia.
    + specialize (Rn j id' Hj). destruct (next_place ei j) as [E1 _]. by rewrite E1 in Rn.
  - intros i Hi Hk. destruct (place_kept i ei (length ids) Hk) as (K1 & _ & K3). rewrite !Z.mod_small in K3 by lia.
    rewrite Rd by lia. apply desc_at_ext. unfold desc_off. intros x Hx. apply Hb; lia.
  - intros i Hi Hk. destruct (place_kept i av (length ids) Hk) as (_ & K2 & K3). rewrite (Z.mod_small i) in K3 by lia.
    rewrite Rr by lia. by apply Hr.
  - intros x Hx. rewrite Ro by done. unfold sizeof_Queue in Hx. apply Hb; lia.
Qed.

Lemma rearmed_nil m q ei buf : rearmed m m q ei buf [].
Proof. split; try done. cbn. by rewrite Z.add_0_r. Qed.

(** The device after [n] events. *)
Definition after_events (n : nat) (dev : InputDevice) : InputDevice :=
  mkId (id_event_queue dev) (id_status_queue dev) ((id_event_idx dev + Z.of_nat n) mod 128)
    ((id_event_ack_used_idx dev + Z.of_nat n) mod 2 ^ 16) (id_event_buffer dev) (id_status_ack_used_idx dev).

Lemma after_events_S n dev : after_events n (acked (stepped dev)) = after_events (S n) dev.
Proof.
  unfold after_events, acked, stepped. cbn [id_event_queue id_status_queue id_event_idx id_event_ack_used_idx
    id_event_buffer id_status_ack_used_idx]. rewrite !Zplus_mod_idemp_l. f_equal; f_equal; lia.
Qed.

Lemma pending_events_ok n : forall fuel dev s a k,
  let q := id_event_queue dev in
  q <> 0 -> 0 <= id_event_idx dev < 128 -> 0 <= id_event_ack_used_idx dev < 2 ^ 16 ->
  used_idx (mem_of s) q = (id_event_ack_used_idx dev + Z.of_nat n) mod 2 ^ 16 ->
  (n < fuel)%nat -> Z.of_nat n <= 128 ->
  Forall (usable (mem_of s) q (id_event_idx dev) n)
    (used_ids (mem_of s) q (id_event_ack_used_idx dev) n) ->
  ABS_EVENTS s = Some a -> KEY_EVENTS s = Some k ->
  let ids := used_ids (mem_of s) q (id_event_ack_used_idx dev) n in
  let evs := event_of (mem_of s) q <$> ids in
  exists m, pending_events fuel dev s =
      Done (after_events n dev, with_events (add_events Abs a evs) (add_events Key k evs) (with_memory m s)) /\
    rearmed (mem_of s) m q (id_event_idx dev) (id_event_buffer dev) ids.
Proof.
  induction n as [|n IH]; intros [|fuel] dev s a k q Hq Hei Hack Hu Hf Hn Hus Ha Hk ids evs; try lia;
    cbn [pending_events]; fold q.
  - rewrite Z.add_0_r, Z.mod_small in Hu by lia.
    erewrite bind_done by (by apply load_ok). fold (used_idx (mem_of s) q). rewrite Hu, Z.eqb_refl.
    exists (mem_of s). split; [|apply rearmed_nil]. unfold add_events, evs, after_events. cbn [ids used_ids fmap list_fmap filter list_filter].
    rewrite !app_nil_r, !Z.add_0_r, !Z.mod_small by lia.
    unfold with_events. destruct dev, s as [[? ? ? ? ? [[] ? ? ? ?]] ? ? ? ? ? ? ? ?]. cbn in *. by subst.
  - erewrite bind_done by (by apply load_ok). fold (used_idx (mem_of s) q). rewrite Hu.
    rewrite (proj2 (Z.eqb_neq _ _)) by (apply mod_moves; lia).
    cbn [used_ids] in Hus. inversion Hus as [|id0 ids0 Hid Hids]; subst id0 ids0.
    set (ack := id_event_ack_used_idx dev) in *. set (id := used_id (mem_of s) q (ack mod 128)) in *.
    pose proof Hid as (Hid128 & _ & Hnz & _).
    erewrite bind_done by (by apply used_event_ok). fold id. cbn beta iota.
    destruct (repopulate_ok dev id s Hq Hei) as (m & E & Ed' & Er & Eav & Hb & Hr). fold q in E, Ed', Er, Eav, Hb, Hr.
    erewrite bind_done by exact E. erewrite bind_done by reflexivity. rewrite mem_of_with_memory.
    destruct (usable_kept _ m q _ n id Hei Hid Hb) as (_ & _ & Eev).
    change (used_id (mem_of s) q (ack mod VIRTIO_RING_SIZE)) with id. rewrite Eev. clear Eev.
    set (ev := event_of (mem_of s) q id) in *.
    erewrite bind_done by exact (deliver_ok ev (with_memory m s) a k Ha Hk).
    destruct (used_kept _ m q _ n _ Hei Hids Hb) as (Eu & Eids & Eevs).
    set (s1 := with_events _ _ (with_memory m s)). assert (mem_of s1 = m) as Em by done.
    destruct (IH fuel (acked (stepped dev)) s1 (add_events Abs a [ev]) (add_events Key k [ev]))
      as (m' & E' & Hre); cbn [acked stepped id_event_queue id_event_idx
        id_event_ack_used_idx id_event_buffer]; fold q ack; rewrite ?Em; try done; try lia.
    1,2: apply Z.mod_pos_bound; lia.
    + rewrite Eu, Hu, Zplus_mod_idemp_l. f_equal. lia.
    + rewrite Eids. eapply Forall_impl; [exact Hids|]. intros id' Hid'. by eapply usable_kept.
    + cbn [acked stepped id_event_queue id_event_idx id_event_ack_used_idx id_event_buffer] in E', Hre.
      fold q ack in E', Hre. rewrite Em, Eids in E', Hre. exists m'. split.
      * etransitivity; [exact E'|]. rewrite Eevs, !add_events_cons, after_events_S. reflexivity.
      * eapply (rearmed_cons _ m); try done.
        assert (forall k' a', length (used_ids (mem_of s) q a' k') = k') as Hlen
          by (induction k'; intros; cbn; auto). rewrite Hlen. lia.
Qed.

(** C33: An interrupt of an input device, of which the status queue has nothing new,
    takes all used elements of the event queue in order: key events go to the queue
    of keys, pointer events to that of pointers, others are dropped, and the used
    ring is acknowledged. For each of them the next descriptor of the ring gets the
    buffer that has the number of the used descriptor, and the next slot of the
    available ring names it; other descriptors, slots and bytes do not change. *)
Theorem input_events_delivered n fuel idx dev s a k :
  let m := mem_of s in let q := id_event_queue dev in
  let ids := used_ids m q (id_event_ack_used_idx dev) n in
  let evs := event_of m q <$> ids in
  0 <= idx -> INPUT_DEVICES s !! Z.to_nat idx = Some (Some dev) ->
  q <> 0 -> 0 <= id_event_idx dev < 128 -> 0 <= id_event_ack_used_idx dev < 2 ^ 16 ->
  used_idx m q = (id_event_ack_used_idx dev + Z.of_nat n) mod 2 ^ 16 ->
  (n < fuel)%nat -> Z.of_nat n <= 128 -> Forall (usable m q (id_event_idx dev) n) ids ->
  id_status_queue dev <> 0 -> apart (id_status_queue dev) sizeof_Queue q sizeof_Queue ->
  used_idx m (id_status_queue dev) = id_status_ack_used_idx dev ->
  ABS_EVENTS s = Some a -> KEY_EVENTS s = Some k ->
  exists m', handle_interrupt fuel idx s =
      Done (tt, with_input (<[Z.to_nat idx := Some (after_events n dev)]> (INPUT_DEVICES s))
                  (with_events (add_events Abs a evs) (add_events Key k evs) (with_memory m' s))) /\
    rearmed m m' q (id_event_idx dev) (id_event_buffer dev) ids.
Proof.
  intros m q ids evs Hi Hd Hq Hei Hack Hu Hf Hn Hus Hsq Hap Hst Ha Hk.
  destruct (pending_events_ok n fuel dev s a k Hq Hei Hack Hu Hf Hn Hus Ha Hk) as (m' & E & Hre).
  exists m'. split; [|exact Hre]. unfold handle_interrupt. erewrite bind_done by reflexivity.
  assert (index (INPUT_DEVICES s) idx = Done (Some dev)) as Ei.
  { unfold index. rewrite (proj2 (Z.ltb_lt _ _)), Hd; [done|]. apply lookup_lt_Some in Hd. lia. }
  erewrite bind_done by (apply lift_done, Ei). unfold pending.
  erewrite bind_done; cycle 1.
  { erewrite bind_done by exact E.
    destruct fuel as [|fuel]; [lia|]. cbn [pending_status after_events id_status_queue id_status_ack_used_idx].
    set (s1 := with_events _ _ _). erewrite bind_done by (by apply load_ok).
    change (rdn 2 (mem_of s1) (id_status_queue dev + used_idx_off)) with (used_idx m' (id_status_queue dev)).
    assert (used_idx m' (id_status_queue dev) = id_status_ack_used_idx dev) as ->.
    { rewrite <- Hst. unfold used_idx, used_idx_off. apply rdn_ext. intros x Hx. apply (ra_out _ _ _ _ _ _ Hre).
      fold q. unfold apart, sizeof_Queue in *. lia. }
    rewrite Z.eqb_refl. reflexivity. }
  reflexivity.
Qed.

(** ** Handing out the buffers *)

(** Descriptors [i] to below [n] each hold a buffer, in the order of the ring. *)
Definition handed_out (m : memory) (q buf i n : Z) : Prop :=
  forall j, i <= j < n ->
    desc_at m q j = mkDesc (buf + 8 * j) 8 VIRTIO_DESC_F_WRITE 0 /\ avail_ring m q j = j.

Definition at_idx (dev : InputDevice) (i : Z) : InputDevice :=
  mkId (id_event_queue dev) (id_status_queue dev) i (id_event_ack_used_idx dev)
    (id_event_buffer dev) (id_status_ack_used_idx dev).

Lemma populate_ok k : forall i dev s,
  let q := id_event_queue dev in let n := i + Z.of_nat k in
  q <> 0 -> 0 <= i -> n < 128 -> id_event_idx dev = i -> avail_idx (mem_of s) q = i ->
  0 <= id_event_buffer dev -> id_event_buffer dev + 1024 <= 2 ^ 64 ->
  handed_out (mem_of s) q (id_event_buffer dev) 0 i ->
  exists m, populate k i dev s = Done (at_idx dev n, with_memory m s) /\
    handed_out m q (id_event_buffer dev) 0 n /\ avail_idx m q = n /\
    forall x, x < q \/ q + sizeof_Queue <= x -> byte m x = byte (mem_of s) x.
Proof.
  induction k as [|k IH]; intros i dev s q n Hq Hi Hn Hei Hav Hb0 Hb1 Hout; cbn [populate].
  - exists (mem_of s). unfold n. rewrite Z.add_0_r. split_and!; [|done|done|done].
    rewrite <- Hei. by destruct dev, s as [[? ? ? ? ? [[] ? ? ? ?]] ? ? ? ? ? ? ? ?].
  - destruct (repopulate_ok dev i s Hq ltac:(lia)) as (m & E & Ed & Er & Ea & Hb & Hr).
    fold q in E, Ed, Er, Ea, Hb, Hr. rewrite Hei, Hav in *.
    rewrite (Z.mod_small i 128), (Z.mod_small (_ + 8 * i)), (Z.mod_small (i + 1)) in * by lia.
    erewrite bind_done by exact E.
    destruct (IH (i + 1) (stepped dev) (with_memory m s)) as (m' & E' & Ho & Ea' & Hb');
      cbn [stepped id_event_queue id_event_idx id_event_buffer]; try done; try lia.
    + rewrite Hei. apply Z.mod_small. lia.
    + rewrite mem_of_with_memory. intros j Hj. destruct (Z.eq_dec j i) as [->|Hne]; [done|].
      destruct (Hout j ltac:(lia)) as [E1 E2]. split; [|by rewrite Hr by lia].
      rewrite <- E1. apply desc_at_ext. unfold desc_off. intros x Hx. apply Hb; lia.
    + exists m'. rewrite E', with_memory_twice. unfold at_idx. cbn [stepped id_event_queue id_status_queue
        id_event_ack_used_idx id_event_buffer id_status_ack_used_idx] in *.
      replace (i + 1 + Z.of_nat k) with n in * by lia. split_and!; try done.
      intros x Hx. rewrite Hb' by done. unfold sizeof_Queue in Hx. apply Hb; lia.
Qed.

Definition input_guest (host : Z) : Z :=
  Z.land host (unot 32 (Z.shiftl 1 VIRTIO_F_RING_EVENT_IDX)).

(** A device that accepts the features gets its two queues and, in the first, the
    64 buffers of the event block in order; the queues of events start empty, with
    storage from the heap, which has room for it and in which the queues do not lie. *)
Theorem setup_input_device_ok `{Kmem.Deques} fuel s i q1 k1 q2 k2 eb k3 cs z :
  let ptr := MMIO_VIRTIO_START + 0x1000 * i in
  0 <= i < 8 -> length (INPUT_DEVICES s) = 8%nat -> accepts input_guest (io s) ptr = true ->
  Page.zalloc 2 (kern_of s) = Done (q1, k1) -> Page.zalloc 2 k1 = Done (q2, k2) -> q1 <> 0 ->
  Kmem.kmalloc fuel 512 k2 = Done (eb, k3) -> 0 <= eb -> eb + 1024 <= 2 ^ 64 ->
  avail_idx (mem k3) q1 = 0 ->
  heap_ok k3 cs -> (S (length cs) < fuel)%nat -> (false, z) ∈ cs ->
  0 <= Kmem.places 100 * 8 < 2 ^ 61 -> 0 <= Kmem.places 10 * 8 < 2 ^ 61 ->
  need (Kmem.places 100 * 8) + need (Kmem.places 10 * 8) + 8 < z ->
  (forall x, q1 <= x < q1 + sizeof_Queue -> outside k3 x) ->
  exists s', setup_input_device fuel ptr s = Done (true, s') /\
    INPUT_DEVICES s' = <[Z.to_nat i := Some (mkId q1 q2 64 0 eb 0)]> (INPUT_DEVICES s) /\
    ABS_EVENTS s' = Some [] /\ KEY_EVENTS s' = Some [] /\
    handed_out (mem_of s') q1 eb 0 64 /\ avail_idx (mem_of s') q1 = 64 /\
    io s' = agreed input_guest (io s) ptr ++ queue_given ptr 0 q1 ++ queue_given ptr 1 q2 ++
              [Wr (ptr + 0x70) 13].
Proof.
  intros ptr Hi Hlen Hacc Hz1 Hz2 Hq Hk Heb0 Heb Hav Hok Hf Hin Hd1 Hd2 Hz Hout. unfold setup_input_device.
  erewrite bind_done by (by apply lift_done, dev_index_ok).
  unfold accepts in Hacc. apply andb_true_iff in Hacc as [Ha1 Ha2].
  pose proof (negotiate_ok input_guest ptr s) as E. rewrite Ha1, Ha2 in E.
  erewrite bind_done by exact E. cbn iota.
  erewrite bind_done by (apply add_queue_ok, Hz1).
  erewrite bind_done by (apply add_queue_ok, Hz2).
  rewrite reg_eq. cbn [MmioOffsets_val]. rewrite write_bind.
  erewrite bind_done by (apply zoom_done; exact Hk).
  set (s1 := with_kern k3 _). set (dev := mkId q1 q2 0 0 eb 0).
  destruct (populate_ok 64 0 dev s1) as (m & Ep & Ho & Ea & Hm); try done.
  { intros j Hj. lia. }
  erewrite bind_done by exact Ep. erewrite bind_done by reflexivity.
  erewrite bind_done by (by apply lift_done, table_slot_ok).
  erewrite bind_done by reflexivity.
  assert (heap_ok (with_mem m k3) cs) as Hok1.
  { apply heap_write; [done|]. intros x Hx _. apply Hm. change (id_event_queue dev) with q1.
    destruct (Z.lt_ge_cases x q1); [by left|]. right. apply Z.nlt_ge. intros Hlt. apply Hx, Hout. lia. }
  assert (0 <= need (Kmem.places 10 * 8)) as Hn
    by (unfold need; pose proof (Z.div_pos (Kmem.places 10 * 8 + 7) 8); lia).
  destruct (with_capacity_ok (with_mem m k3) cs fuel 100 8 z Hok1 ltac:(lia) Hd1 Hin ltac:(lia))
    as (p1 & m1 & cs1 & b1 & z1 & E1 & Hok2 & _ & _ & Hm1 & Hl1 & Hin1 & Hz1').
  destruct (with_capacity_ok (with_mem m1 k3) cs1 fuel 10 8 z1 Hok2 ltac:(lia) Hd2 Hin1 ltac:(lia))
    as (p2 & m2 & cs2 & b2 & z2 & E2 & _ & _ & _ & Hm2 & _).
  erewrite bind_done by (apply zoom_done; exact E1). erewrite bind_done by reflexivity.
  erewrite bind_done by (apply zoom_done; exact E2). erewrite bind_done by reflexivity.
  assert (forall x, q1 <= x < q1 + sizeof_Queue -> byte m2 x = byte m x) as Hq2.
  { intros x Hx. rewrite Hm2 by exact (Hout x Hx). exact (Hm1 x (Hout x Hx)). }
  eexists. split; [reflexivity|]. split_and!; try done; [|..|cbn; by rewrite <- !app_assoc];
    [change (handed_out m2 q1 eb 0 64)|change (avail_idx m2 q1 = 64)].
  - intros j Hj. destruct (Ho j Hj) as [Ed Er].
    split; [transitivity (desc_at m q1 j); [|exact Ed]; apply desc_at_ext; unfold desc_off
           |transitivity (avail_ring m q1 j); [|exact Er]; unfold avail_ring, avail_ring_off; apply rdn_ext];
      intros x Hx; apply Hq2; unfold sizeof_Queue; lia.
  - transitivity (avail_idx m q1); [|exact Ea]. unfold avail_idx, avail_idx_off. apply rdn_ext. intros x Hx. apply Hq2. unfold sizeof_Queue. lia.
Qed.

(** C38: repopulate_event with the number of a descriptor from 64 on hands the
    device a buffer that lies past the 64 events of its block; pending calls it with
    descriptor numbers, which go up to 127. *)
Theorem repopulate_past_buffer dev id s :
  id_event_queue dev <> 0 -> 0 <= id_event_idx dev < 128 -> 0 <= id_event_buffer dev ->
  id_event_buffer dev + 1024 <= 2 ^ 64 -> EVENT_BUFFER_ELEMENTS <= id < 128 ->
  exists dev' s', repopulate_event dev id s = Done (dev', s') /\
    avail_ring (mem_of s') (id_event_queue dev)
      (avail_idx (mem_of s) (id_event_queue dev) mod 128) = id_event_idx dev /\
    id_event_buffer dev + EVENT_SIZE * EVENT_BUFFER_ELEMENTS <=
      addr (desc_at (mem_of s') (id_event_queue dev) (id_event_idx dev)).
Proof.
  unfold EVENT_BUFFER_ELEMENTS, EVENT_SIZE. intros Hq Hei Hb Hmax Hid.
  destruct (repopulate_ok dev id s Hq Hei) as (m & E & Ed & Er & _).
  eexists _, _. split; [exact E|]. rewrite mem_of_with_memory, Ed. split; [exact Er|].
  cbn [addr]. rewrite Z.mod_small by lia. lia.
Qed.
End Props.
End InputProps.
