(* ===== verification/Gpu.v ===== *)
(** * gpu.rs: the display

    Commands are structs on the kernel heap, each with room for the response.
    The layout of [Pixel] and of the generic [Request] and [Request3] is not
    fixed by Rust: it is a parameter. *)

From S2P Require Import Prelude Memory Cpu PageAlloc PageProps Kmem KmemFacts KmemProps KmemSpec KmemUse.
From S2P Require Import Mmu MinixLayout Lock Process Console World Boxes Uart Virtio.
Import Mem Process World Boxes Virtio.

Module Gpu.
Import (notations) String.

(** ** Commands *)

Inductive CtrlType :=
| CmdGetDisplayInfo | CmdResourceCreate2d | CmdResourceUref | CmdSetScanout | CmdResourceFlush
| CmdTransferToHost2d | CmdResourceAttachBacking | CmdResourceDetachBacking | CmdGetCapsetInfo
| CmdGetCapset | CmdGetEdid | CmdUpdateCursor | CmdMoveCursor | RespOkNoData | RespOkDisplayInfo
| RespOkCapsetInfo | RespOkCapset | RespOkEdid | RespErrUnspec | RespErrOutOfMemory
| RespErrInvalidScanoutId | RespErrInvalidResourceId | RespErrInvalidContextId
| RespErrInvalidParameter.

Definition CtrlType_val (t : CtrlType) : Z :=
  match t with
  | CmdGetDisplayInfo => 0x100 | CmdResourceCreate2d => 0x101 | CmdResourceUref => 0x102
  | CmdSetScanout => 0x103 | CmdResourceFlush => 0x104 | CmdTransferToHost2d => 0x105
  | CmdResourceAttachBacking => 0x106 | CmdResourceDetachBacking => 0x107
  | CmdGetCapsetInfo => 0x108 | CmdGetCapset => 0x109 | CmdGetEdid => 0x10a
  | CmdUpdateCursor => 0x300 | CmdMoveCursor => 0x301 | RespOkNoData => 0x1100
  | RespOkDisplayInfo => 0x1101 | RespOkCapsetInfo => 0x1102 | RespOkCapset => 0x1103
  | RespOkEdid => 0x1104 | RespErrUnspec => 0x1200 | RespErrOutOfMemory => 0x1201
  | RespErrInvalidScanoutId => 0x1202 | RespErrInvalidResourceId => 0x1203
  | RespErrInvalidContextId => 0x1204 | RespErrInvalidParameter => 0x1205
  end.

Inductive Formats :=
| B8G8R8A8Unorm | B8G8R8X8Unorm | A8R8G8B8Unorm | X8R8G8B8Unorm | R8G8B8A8Unorm
| X8B8G8R8Unorm | A8B8G8R8Unorm | R8G8B8X8Unorm.
Definition Formats_val (f : Formats) : Z :=
  match f with
  | B8G8R8A8Unorm => 1 | B8G8R8X8Unorm => 2 | A8R8G8B8Unorm => 3 | X8R8G8B8Unorm => 4
  | R8G8B8A8Unorm => 67 | X8B8G8R8Unorm => 68 | A8B8G8R8Unorm => 121 | R8G8B8X8Unorm => 134
  end.

Record Rect := mkRect { rx : Z; ry : Z; rwidth : Z; rheight : Z }.
Record Pixel := mkPixel { pr : Z; pg : Z; pb : Z; pa : Z }.

(** The bytes of the structs that are sent; [CtrlHeader] with no flags. *)
Definition enc_header (t : CtrlType) : list Z :=
  le_enc 4 (CtrlType_val t) ++ le_enc 4 0 ++ le_enc 8 0 ++ le_enc 4 0 ++ le_enc 4 0.
Definition enc_rect (r : Rect) : list Z :=
  le_enc 4 (rx r) ++ le_enc 4 (ry r) ++ le_enc 4 (rwidth r) ++ le_enc 4 (rheight r).
Definition sizeof_CtrlHeader : Z := 24.

Definition ResourceCreate2d (resource_id : Z) (format : Formats) (width height : Z) : list Z :=
  enc_header CmdResourceCreate2d ++ le_enc 4 resource_id ++ le_enc 4 (Formats_val format) ++
  le_enc 4 width ++ le_enc 4 height.
Definition AttachBacking (resource_id nr_entries : Z) : list Z :=
  enc_header CmdResourceAttachBacking ++ le_enc 4 resource_id ++ le_enc 4 nr_entries.
Definition MemEntry (a length : Z) : list Z := le_enc 8 a ++ le_enc 4 length ++ le_enc 4 0.
Definition SetScanout (r : Rect) (scanout_id resource_id : Z) : list Z :=
  enc_header CmdSetScanout ++ enc_rect r ++ le_enc 4 scanout_id ++ le_enc 4 resource_id.
Definition TransferToHost2d (r : Rect) (offset resource_id : Z) : list Z :=
  enc_header CmdTransferToHost2d ++ enc_rect r ++ le_enc 8 offset ++ le_enc 4 resource_id ++
  le_enc 4 0.
Definition ResourceFlush (r : Rect) (resource_id : Z) : list Z :=
  enc_header CmdResourceFlush ++ enc_rect r ++ le_enc 4 resource_id ++ le_enc 4 0.

(** Where the fields of [Request<RqT, RpT>] and [Request3<RqT, RmT, RpT>] are,
    by the sizes of the types. *)
Class ReqLayout := {
  request_off : Z -> Z -> Z;
  response_off : Z -> Z -> Z;
  request3_off : Z -> Z -> Z -> Z;
  mementries3_off : Z -> Z -> Z -> Z;
  response3_off : Z -> Z -> Z -> Z;
}.

(** The fields lie in the struct and do not overlap. *)
Class ReqLayoutLaws `{ReqLayout} : Prop := {
  layout2 n r : 0 <= n -> 0 <= r -> 0 <= request_off n r /\ request_off n r <= r /\
    0 <= response_off n r /\ response_off n r <= n /\
    apart (request_off n r) n (response_off n r) r;
}.

Definition Device_new : GpuDevice := mkGd 0 0 0 0 0 640 480.
Definition get_framebuffer (d : GpuDevice) : Z := gd_framebuffer d.
Definition get_width (d : GpuDevice) : Z := gd_width d.
Definition get_height (d : GpuDevice) : Z := gd_height d.

Section Gpu.
Context `{Profile} `{Linker} `{Bus} `{Repr Pixel} `{ReqLayout} (fuel : nat).

(** ** Drawing *)

(** [for col in rect.x..(rect.x + rect.width)]; the index fits in 64 bits. *)
Fixpoint fill_cols (dev : GpuDevice) (color : Pixel) (row : Z) (k : nat) (col : Z) : W unit :=
  match k with
  | O => mret tt
  | S k' =>
      let byte := row * gd_width dev + col in
      _ ← save_bytes (gd_framebuffer dev) (size_of Pixel * byte) (encode color);
      fill_cols dev color row k' (col + 1)
  end.

(** [for row in rect.y..(rect.y + rect.height)] *)
Fixpoint fill_rows (dev : GpuDevice) (rect : Rect) (color : Pixel) (k : nat) (row : Z) : W unit :=
  match k with
  | O => mret tt
  | S k' =>
      hi ← lift (u32 (rx rect + rwidth rect));
      _ ← fill_cols dev color row (Z.to_nat (hi - rx rect)) (rx rect);
      fill_rows dev rect color k' (row + 1)
  end.

Definition fill_rect (dev : GpuDevice) (rect : Rect) (color : Pixel) : W unit :=
  hi ← lift (u32 (ry rect + rheight rect));
  fill_rows dev rect color (Z.to_nat (hi - ry rect)) (ry rect).

Definition stroke_rect (dev : GpuDevice) (rect : Rect) (color : Pixel) (size : Z) : W unit :=
  _ ← fill_rect dev (mkRect (rx rect) (ry rect) (rwidth rect) size) color;
  y2 ← lift (u32 (ry rect + rheight rect));
  _ ← fill_rect dev (mkRect (rx rect) y2 (rwidth rect) size) color;
  _ ← fill_rect dev (mkRect (rx rect) (ry rect) size (rheight rect)) color;
  x2 ← lift (u32 (rx rect + rwidth rect));
  h2 ← lift (u32 (rheight rect + size));
  fill_rect dev (mkRect x2 (ry rect) size h2) color.

(** ** Sending commands *)

(** [Request::new] with a response of [rp] bytes, and [Request3::new]. *)
Definition Request_new (request : list Z) (rp : Z) : W Z :=
  let sz := zlen request + rp in
  ptr ← on_kern (Kmem.kmalloc fuel sz);
  _ ← save_bytes ptr (request_off (zlen request) rp) request;
  mret ptr.
Definition Request3_new (request meminfo : list Z) (rp : Z) : W Z :=
  let sz := zlen request + zlen meminfo + rp in
  ptr ← on_kern (Kmem.kmalloc fuel sz);
  _ ← save_bytes ptr (request3_off (zlen request) (zlen meminfo) rp) request;
  _ ← save_bytes ptr (mementries3_off (zlen request) (zlen meminfo) rp) meminfo;
  mret ptr.

Definition with_idx (i : Z) (d : GpuDevice) : GpuDevice :=
  mkGd (gd_queue d) (gd_dev d) i (gd_ack_used_idx d) (gd_framebuffer d) (gd_width d) (gd_height d).

(** [desc[dev.idx] = d; dev.idx = (dev.idx + 1) % VIRTIO_RING_SIZE] for each. *)
Fixpoint put_descs (dev : GpuDevice) (ds : list Descriptor) : W GpuDevice :=
  match ds with
  | [] => mret dev
  | d :: ds' =>
      _ ← set_desc (gd_queue dev) (gd_idx dev) d;
      i ← lift (next_idx (gd_idx dev));
      put_descs (with_idx i dev) ds'
  end.

(** A command and its response: two descriptors, made available. *)
Definition send (dev : GpuDevice) (request : list Z) : W GpuDevice :=
  rq ← Request_new request sizeof_CtrlHeader;
  n ← lift (next_idx (gd_idx dev));
  let desc := mkDesc (rq + request_off (zlen request) sizeof_CtrlHeader) (zlen request)
                VIRTIO_DESC_F_NEXT n in
  let desc_resp := mkDesc (rq + response_off (zlen request) sizeof_CtrlHeader)
                     sizeof_CtrlHeader VIRTIO_DESC_F_WRITE 0 in
  let head := gd_idx dev in
  dev ← put_descs dev [desc; desc_resp];
  _ ← push_avail (gd_queue dev) head;
  mret dev.

(** The command that attaches the framebuffer: three descriptors. *)
Definition attach (dev : GpuDevice) : W GpuDevice :=
  wh ← lift (u32 (gd_width dev * gd_height dev));
  length ← lift (u32 (wh * as_u32 (size_of Pixel)));
  let request := AttachBacking 1 1 in
  let meminfo := MemEntry (gd_framebuffer dev) length in
  let n1 := zlen request in
  let n2 := zlen meminfo in
  rq ← Request3_new request meminfo sizeof_CtrlHeader;
  i1 ← lift (next_idx (gd_idx dev));
  i2 ← lift (u16 (gd_idx dev + 2));
  let desc_ab := mkDesc (rq + request3_off n1 n2 sizeof_CtrlHeader) n1 VIRTIO_DESC_F_NEXT i1 in
  let desc_ab_mementry := mkDesc (rq + mementries3_off n1 n2 sizeof_CtrlHeader) n2
                            VIRTIO_DESC_F_NEXT (i2 mod VIRTIO_RING_SIZE) in
  let desc_ab_resp := mkDesc (rq + response3_off n1 n2 sizeof_CtrlHeader) sizeof_CtrlHeader
                        VIRTIO_DESC_F_WRITE 0 in
  let head := gd_idx dev in
  dev ← put_descs dev [desc_ab; desc_ab_mementry; desc_ab_resp];
  _ ← push_avail (gd_queue dev) head;
  mret dev.

(** [GPU_DEVICES[gdev - 1].take()] and [replace]. *)
Definition take_gpu (gdev : Z) : W (option GpuDevice) :=
  i ← lift (usize (gdev - 1));
  s ← get;
  slot ← lift (index (GPU_DEVICES s) i);
  _ ← modify (fun s => with_gpu (<[Z.to_nat i := None]> (GPU_DEVICES s)) s);
  mret slot.
Definition replace_gpu (gdev : Z) (dev : GpuDevice) : W unit :=
  i ← lift (usize (gdev - 1));
  modify (fun s => with_gpu (<[Z.to_nat i := Some dev]> (GPU_DEVICES s)) s).

Definition init (gdev : Z) : W unit :=
  slot ← take_gpu gdev;
  match slot with
  | Some dev =>
      _ ← fill_rect dev (mkRect 0 0 640 480) (mkPixel 2 2 2 255);
      let screen := mkRect 0 0 (gd_width dev) (gd_height dev) in
      dev ← send dev (ResourceCreate2d 1 R8G8B8A8Unorm (gd_width dev) (gd_height dev));
      dev ← attach dev;
      dev ← send dev (SetScanout screen 0 1);
      dev ← send dev (TransferToHost2d screen 0 1);
      dev ← send dev (ResourceFlush screen 1);
      _ ← write_volatile (reg (gd_dev dev) QueueNotify) 0;
      replace_gpu gdev dev
  | None => mret tt
  end.

Definition transfer (gdev x y width height : Z) : W unit :=
  slot ← take_gpu gdev;
  match slot with
  | Some dev =>
      dev ← send dev (TransferToHost2d (mkRect x y width height) 0 1);
      dev ← send dev (ResourceFlush (mkRect x y width height) 1);
      _ ← write_volatile (reg (gd_dev dev) QueueNotify) 0;
      replace_gpu gdev dev
  | None => mret tt
  end.

(** ** Setup and interrupts *)

Definition setup_gpu_device (ptr : Z) : W bool :=
  idx ← lift (dev_index ptr);
  o ← negotiate (fun host => host) ptr;
  match o with
  | None => mret false
  | Some _ =>
      queue_ptr ← add_queue ptr 0;
      _ ← write_volatile (reg ptr Status) live_bits;
      let num_pages := (Page.PAGE_SIZE * 2 + 640 * 480 * size_of Pixel) / Page.PAGE_SIZE in
      page_alloc ← on_kern (Page.zalloc num_pages);
      let dev := mkGd queue_ptr ptr 0 0 page_alloc 640 480 in
      s ← get;
      l ← lift (set_slot (GPU_DEVICES s) idx (Some dev));
      _ ← modify (with_gpu l);
      mret true
  end.

(** [while dev.ack_used_idx != queue.used.idx] *)
Fixpoint pending (k : nat) (dev : GpuDevice) : W GpuDevice :=
  match k with
  | O => lift NoFuel
  | S k' =>
      let q := gd_queue dev in
      u ← load 2 q used_idx_off;
      if gd_ack_used_idx dev =? u then mret dev
      else
        id ← load 4 q (used_ring_off (gd_ack_used_idx dev mod VIRTIO_RING_SIZE));
        _ ← lift (assert_ (id <? VIRTIO_RING_SIZE));
        a ← load 8 q (desc_off id);
        _ ← on_kern (Kmem.kfree fuel a);
        pending k' (mkGd q (gd_dev dev) (gd_idx dev) ((gd_ack_used_idx dev + 1) mod 2 ^ 16)
                      (gd_framebuffer dev) (gd_width dev) (gd_height dev))
  end.

Definition handle_interrupt (idx : Z) : W unit :=
  s ← get;
  slot ← lift (index (GPU_DEVICES s) idx);
  match slot with
  | Some bdev =>
      bdev ← pending fuel bdev;
      modify (fun s => with_gpu (<[Z.to_nat idx := Some bdev]> (GPU_DEVICES s)) s)
  | None =>
      n ← lift (usize (idx + 1));
      Uart.println (Fmt.str "Invalid GPU device for interrupt " ++ Fmt.dec n)
  end.
End Gpu.
End Gpu.
