(* ===== verification/GpuProps.v ===== *)
(** * The display: drawing is pointwise, commands reach the ring *)

From S2P Require Import Prelude Memory Cpu PageAlloc PageProps Kmem KmemFacts KmemProps KmemSpec KmemUse.
From S2P Require Import Mmu MinixLayout Lock Process Console World Boxes Uart Virtio Gpu.
Import Mem KmemFacts KmemProps KmemUse Process World Boxes Virtio Gpu.

Module GpuProps.

(** ** The picture *)

(** A picture maps rows and columns to pixels. *)
Definition inside (rect : Rect) (r c : Z) : bool :=
  (ry rect <=? r) && (r <? ry rect + rheight rect) &&
  (rx rect <=? c) && (c <? rx rect + rwidth rect).

Definition fill_ref {A} (rect : Rect) (color : A) (f : Z -> Z -> A) : Z -> Z -> A := fun r c =>
  if inside rect r c then color else f r c.

(** The frame of thickness [size]: top, bottom, left and right side. *)
Definition stroke_ref {A} (rect : Rect) (size : Z) (color : A) (f : Z -> Z -> A) : Z -> Z -> A :=
  fill_ref (mkRect (rx rect + rwidth rect) (ry rect) size (rheight rect + size)) color
    (fill_ref (mkRect (rx rect) (ry rect) size (rheight rect)) color
      (fill_ref (mkRect (rx rect) (ry rect + rheight rect) (rwidth rect) size) color
        (fill_ref (mkRect (rx rect) (ry rect) (rwidth rect) size) color f))).

Definition pixel_wf (p : Pixel) : Prop := is_byte (pr p) /\ is_byte (pg p) /\ is_byte (pb p) /\ is_byte (pa p).

Section Draw.
Context `{Profile} `{Linker} `{Bus} `{Repr Pixel} `{!ReprLaws Pixel pixel_wf} `{ReqLayout}.
Context (dev : GpuDevice).
Abbreviation fb := (gd_framebuffer dev).
Abbreviation px := (size_of Pixel).
Abbreviation W := (gd_width dev).

(** The bytes of pixel number [i], and the picture in memory. *)
Definition cell (m : memory) (i : Z) : list Z := bytes_at (byte m) (fb + px * i) px.
Definition picture (m : memory) : Z -> Z -> Pixel := fun r c => decode (cell m (r * W + c)).

Hypothesis Hfb : fb <> 0.

Lemma cell_store m i l j :
  zlen l = px -> cell (store m (fb + px * i) l) j = if decide (j = i) then l else cell m j.
Proof.
  intros Hl. pose proof (size_pos (A := Pixel) (wf := pixel_wf)) as Hpx. unfold cell.
  case_decide as E.
  - subst j. pose proof (bytes_at_store m (fb + px * i) l) as Eb. by rewrite Hl in Eb.
  - apply bytes_at_ext. intros k Hk. apply byte_store_out. rewrite Hl. nia.
Qed.

Lemma with_memory_id s : with_memory (mem_of s) s = s.
Proof. by destruct s as [[? ? ? ? ? [[] ? ? ? ?]] ? ? ? ? ? ? ? ?]. Qed.

Lemma fill_cols_ok color row k : forall col s,
  zlen (encode color) = px ->
  exists m, fill_cols dev color row k col s = Done (tt, with_memory m s) /\
    (forall i, cell m i = if decide (row * W + col <= i < row * W + col + Z.of_nat k)
                          then encode color else cell (mem_of s) i) /\
    (forall x, x < fb + px * (row * W + col) \/ fb + px * (row * W + col + Z.of_nat k) <= x ->
       byte m x = byte (mem_of s) x).
Proof.
  induction k as [|k IH]; intros col s Hl; cbn [fill_cols].
  - exists (mem_of s). split; [by rewrite with_memory_id|].
    split; [|done]. intros i. by rewrite decide_False by lia.
  - erewrite bind_done by (by apply save_bytes_ok). set (m1 := store _ _ _).
    destruct (IH (col + 1) (with_memory m1 s) Hl) as (m & E & Hc & Hb).
    exists m. rewrite E, with_memory_twice, mem_of_with_memory in *.
    pose proof (size_pos (A := Pixel) (wf := pixel_wf)) as Hpx. split_and!; [done|..].
    + intros i. rewrite Hc. unfold m1. rewrite cell_store by done.
      repeat case_decide; try done; lia.
    + intros x Hx. rewrite Hb by nia. apply byte_store_out. rewrite Hl. nia.
Qed.

(** Indices of pixels in the same picture are equal only for the same place. *)
Lemma place_inj r c r' c' : 0 <= c < W -> 0 <= c' < W -> r * W + c = r' * W + c' -> r = r' /\ c = c'.
Proof. intros Hc Hc' E. assert (r = r') by nia. subst. lia. Qed.

Lemma fill_rows_ok rect color k : forall row s,
  zlen (encode color) = px ->
  0 <= rx rect -> 0 <= rwidth rect -> rx rect + rwidth rect <= W -> rx rect + rwidth rect < 2 ^ 32 ->
  exists m, fill_rows dev rect color k row s = Done (tt, with_memory m s) /\
    (forall r c, 0 <= c < W -> cell m (r * W + c) =
       if decide (row <= r < row + Z.of_nat k /\ rx rect <= c < rx rect + rwidth rect)
       then encode color else cell (mem_of s) (r * W + c)) /\
    (forall x, x < fb + px * (row * W) \/ fb + px * ((row + Z.of_nat k) * W) <= x ->
       byte m x = byte (mem_of s) x).
Proof.
  intros row s Hl Hx0 Hw0 HxW Hx32. revert row s.
  induction k as [|k IH]; intros row s; cbn [fill_rows].
  - exists (mem_of s). split; [by rewrite with_memory_id|].
    split; [|done]. intros r c Hc. by rewrite decide_False by lia.
  - erewrite bind_done by (apply lift_done, uint_ok; lia).
    destruct (fill_cols_ok color row (Z.to_nat (rx rect + rwidth rect - rx rect)) (rx rect) s Hl)
      as (m1 & E1 & Hc1 & Hb1). rewrite Z2Nat.id in Hc1, Hb1 by lia.
    erewrite bind_done by exact E1.
    destruct (IH (row + 1) (with_memory m1 s)) as (m & E & Hc & Hb).
    exists m. rewrite E, with_memory_twice, mem_of_with_memory in *.
    pose proof (size_pos (A := Pixel) (wf := pixel_wf)) as Hpx. split_and!; [done|..].
    + intros r c Hcw. rewrite Hc, Hc1 by done.
      assert (row * W + rx rect <= r * W + c < row * W + rx rect + (rx rect + rwidth rect - rx rect) <->
              r = row /\ rx rect <= c < rx rect + rwidth rect) as Hiff.
      { split; [|intros [-> ?]; lia]. intros Hin.
        destruct (place_inj r c row (r * W + c - row * W)) as [Er Ec]; [lia..|].
        split; [done|]. lia. }
      repeat case_decide; try done; lia.
    + intros x Hx. rewrite Hb by nia. apply Hb1. destruct Hx as [Hx|Hx]; [left; nia|right].
      assert (row * W + rx rect + (rx rect + rwidth rect - rx rect) <= (row + Z.of_nat (S k)) * W) by nia.
      nia.
Qed.

(** Memory below the framebuffer and behind row [n]. *)
Definition off_screen (n x : Z) : Prop := x < fb \/ fb + px * (n * W) <= x.

(** The rectangle lies on rows of the picture, and its corners are numbers. *)
Definition rect_ok (rect : Rect) : Prop :=
  0 <= rx rect /\ 0 <= ry rect /\ 0 <= rwidth rect /\ 0 <= rheight rect /\
  rx rect + rwidth rect <= W /\ rx rect + rwidth rect < 2 ^ 32 /\ ry rect + rheight rect < 2 ^ 32.

Lemma fill_rect_ok rect color s :
  pixel_wf color -> rect_ok rect ->
  exists m, fill_rect dev rect color s = Done (tt, with_memory m s) /\
    (forall r c, 0 <= c < W -> picture m r c = fill_ref rect color (picture (mem_of s)) r c) /\
    (forall x, off_screen (ry rect + rheight rect) x -> byte m x = byte (mem_of s) x).
Proof.
  intros Hc (Hx & Hy & Hw & Hh & HxW & Hx32 & Hy32). unfold fill_rect.
  erewrite bind_done by (apply lift_done, uint_ok; lia).
  destruct (fill_rows_ok rect color (Z.to_nat (ry rect + rheight rect - ry rect)) (ry rect) s)
    as (m & E & Hcell & Hb); try done; [by apply (encode_length (wf := pixel_wf))|].
  rewrite Z2Nat.id in Hcell, Hb by lia. exists m. split; [done|].
  pose proof (size_pos (A := Pixel) (wf := pixel_wf)) as Hpx. split.
  - intros r c Hcw. unfold picture, fill_ref, inside. rewrite Hcell by done.
    case_decide as Hin.
    + rewrite !(proj2 (Z.leb_le _ _)), !(proj2 (Z.ltb_lt _ _)) by lia.
      by rewrite (decode_encode (wf := pixel_wf)).
    + destruct (Z.leb_spec (ry rect) r), (Z.ltb_spec r (ry rect + rheight rect)),
        (Z.leb_spec (rx rect) c), (Z.ltb_spec c (rx rect + rwidth rect)); cbn; done || lia.
  - intros x Ho. apply Hb. unfold off_screen in Ho.
    replace (ry rect + (ry rect + rheight rect - ry rect)) with (ry rect + rheight rect) by lia.
    destruct Ho; [left|by right].
    assert (0 <= ry rect * W) by (apply Z.mul_nonneg_nonneg; lia).
    assert (0 <= px * (ry rect * W)) by (apply Z.mul_nonneg_nonneg; lia). lia.
Qed.

(** C27: fill_rect equals a pointwise reference picture: exactly the places inside
    of the rectangle get the color, and no memory outside of its rows changes;
    stroke_rect equals filling its four sides in turn. *)
Theorem drawing_pointwise rect color size s :
  pixel_wf color -> rect_ok rect ->
  (exists m, fill_rect dev rect color s = Done (tt, with_memory m s) /\
    (forall r c, 0 <= c < W -> picture m r c = fill_ref rect color (picture (mem_of s)) r c) /\
    (forall x, off_screen (ry rect + rheight rect) x -> byte m x = byte (mem_of s) x)) /\
  (0 <= size -> rx rect + rwidth rect + size <= W -> rx rect + rwidth rect + size < 2 ^ 32 ->
   ry rect + rheight rect + size < 2 ^ 32 ->
   exists m, stroke_rect dev rect color size s = Done (tt, with_memory m s) /\
    forall r c, 0 <= c < W -> picture m r c = stroke_ref rect size color (picture (mem_of s)) r c).
Proof.
  intros Hc Hr. split; [by apply fill_rect_ok|]. intros Hs HsW Hs32 Hy32.
  destruct Hr as (Hx & Hy & Hw & Hh & HxW & _ & _). unfold stroke_rect.
  destruct (fill_rect_ok (mkRect (rx rect) (ry rect) (rwidth rect) size) color s Hc)
    as (m1 & E1 & P1 & _); [unfold rect_ok; cbn; lia|].
  erewrite bind_done by exact E1. erewrite bind_done by (apply lift_done, uint_ok; lia).
  destruct (fill_rect_ok (mkRect (rx rect) (ry rect + rheight rect) (rwidth rect) size) color
              (with_memory m1 s) Hc) as (m2 & E2 & P2 & _); [unfold rect_ok; cbn; lia|].
  erewrite bind_done by exact E2. rewrite with_memory_twice.
  destruct (fill_rect_ok (mkRect (rx rect) (ry rect) size (rheight rect)) color
              (with_memory m2 s) Hc) as (m3 & E3 & P3 & _); [unfold rect_ok; cbn; lia|].
  erewrite bind_done by exact E3. rewrite with_memory_twice.
  erewrite bind_done by (apply lift_done, uint_ok; lia).
  erewrite bind_done by (apply lift_done, uint_ok; lia).
  destruct (fill_rect_ok (mkRect (rx rect + rwidth rect) (ry rect) size (rheight rect + size)) color
              (with_memory m3 s) Hc) as (m4 & E4 & P4 & _); [unfold rect_ok; cbn; lia|].
  exists m4. rewrite E4, with_memory_twice. split; [done|]. intros r c Hcw.
  rewrite mem_of_with_memory in *. unfold stroke_ref, fill_ref in *.
  rewrite P4, P3, P2, P1 by done. done.
Qed.
End Draw.

(** ** Commands *)

Section Send.
Context `{Profile} `{Linker} `{Bus} `{Repr Pixel} `{ReqLayout} `{!ReqLayoutLaws}.

(** The device's queue is memory outside of the heap. *)
Record gpu_ok (k : kernel) (cs : list (bool * Z)) (dev : GpuDevice) : Prop := {
  gpu_heap : heap_ok k cs;
  gpu_queue : gd_queue dev <> 0;
  gpu_idx : 0 <= gd_idx dev < 128;
  gpu_max : heap_end k < 2 ^ 64;
  gpu_apart : gd_queue dev + sizeof_Queue <= KMEM_HEAD k \/ heap_end k <= gd_queue dev;
}.

(** A command as the device finds it: at [i], the request at [rq] with the
    bytes [l], and room for a response. *)
Definition command_at (m : memory) (q i rq : Z) (l : list Z) : Prop :=
  desc_at m q i = mkDesc (rq + request_off (zlen l) 24) (zlen l) VIRTIO_DESC_F_NEXT ((i + 1) mod 128) /\
  desc_at m q ((i + 1) mod 128) =
    mkDesc (rq + response_off (zlen l) 24) 24 VIRTIO_DESC_F_WRITE 0 /\
  bytes_at (byte m) (rq + request_off (zlen l) 24) (zlen l) = l.

Record sent (k : kernel) (cs : list (bool * Z)) (dev : GpuDevice) (l : list Z) (rq : Z)
    (m : memory) (cs' : list (bool * Z)) (z : Z) : Prop := {
  st_command : command_at m (gd_queue dev) (gd_idx dev) rq l;
  st_slot : avail_ring m (gd_queue dev) (avail_idx (mem k) (gd_queue dev) mod 128) = gd_idx dev;
  st_idx : avail_idx m (gd_queue dev) = (avail_idx (mem k) (gd_queue dev) + 1) mod 2 ^ 16;
  st_heap : heap_ok (with_mem m k) cs';
  st_live : live (KMEM_HEAD k) cs' ≡ₚ (rq - 8, z) :: live (KMEM_HEAD k) cs;
  st_size : zlen l + 32 <= z;
  st_chunks : (length cs' <= S (length cs))%nat;
  st_desc j : 0 <= j < 128 -> j <> gd_idx dev -> j <> (gd_idx dev + 1) mod 128 ->
    desc_at m (gd_queue dev) j = desc_at (mem k) (gd_queue dev) j;
  st_ring j : 0 <= j < 128 -> j <> avail_idx (mem k) (gd_queue dev) mod 128 ->
    avail_ring m (gd_queue dev) j = avail_ring (mem k) (gd_queue dev) j;
  st_room w : (false, w) ∈ cs -> need (zlen l + 24) + 8 < w ->
    exists w', (false, w') ∈ cs' /\ w - need (zlen l + 24) <= w';
  st_kept b v x : (b, v) ∈ live (KMEM_HEAD k) cs -> b <= x < b + v -> byte m x = byte (mem k) x;
}.

Lemma next_differs i : 0 <= i < 128 -> 0 <= (i + 1) mod 128 < 128 /\ i <> (i + 1) mod 128.
Proof.
  intros Hi. split; [apply Z.mod_pos_bound; lia|]. destruct (Z.eq_dec i 127) as [->|]; [done|].
  rewrite Z.mod_small by lia. lia.
Qed.

(** A queue is what its bytes say. *)
Lemma queue_ext m m' q : (forall x, q <= x < q + 5128 -> byte m x = byte m' x) ->
  avail_idx m q = avail_idx m' q /\ (forall n, 0 <= n < 128 -> avail_ring m q n = avail_ring m' q n) /\
  (forall n, 0 <= n < 128 -> desc_at m q n = desc_at m' q n).
Proof.
  intros Hb. unfold avail_idx, avail_idx_off, avail_ring, avail_ring_off.
  split_and!; intros; [apply rdn_ext|apply rdn_ext|apply desc_at_ext; unfold desc_off]; intros x Hx; apply Hb; lia.
Qed.

(** Two descriptors behind each other. *)
Lemma put_two dev d1 d2 s :
  let q := gd_queue dev in let i := gd_idx dev in let j := (i + 1) mod 128 in
  q <> 0 -> 0 <= i < 128 -> desc_wf d1 -> desc_wf d2 ->
  exists m, put_descs dev [d1; d2] s = Done (with_idx ((i + 2) mod 128) dev, with_memory m s) /\
    desc_at m q i = d1 /\ desc_at m q j = d2 /\
    forall x, x < q + 16 * i \/ q + 16 * i + 16 <= x -> x < q + 16 * j \/ q + 16 * j + 16 <= x ->
      byte m x = byte (mem_of s) x.
Proof.
  intros q i j Hq Hi Hd1 Hd2. destruct (next_differs i Hi) as [Hj Hij]. fold j in Hj, Hij.
  cbn [put_descs]. fold q i. erewrite bind_done by (by apply set_desc_ok).
  erewrite bind_done by (by apply lift_done, next_idx_ok). fold j.
  cbn [gd_queue gd_idx with_idx]. fold q.
  erewrite bind_done by (by apply set_desc_ok). rewrite mem_of_with_memory, with_memory_twice.
  erewrite bind_done by (by apply lift_done, next_idx_ok).
  replace ((j + 1) mod 128) with ((i + 2) mod 128)
    by (unfold j; rewrite Zplus_mod_idemp_l; f_equal; lia).
  eexists. split; [reflexivity|]. split_and!.
  - etransitivity; [|exact (desc_at_store (mem_of s) q i d1 Hd1)]. apply desc_at_ext. unfold desc_off. intros x Hx.
    apply byte_store_out. rewrite length_encode_desc. lia.
  - by apply desc_at_store.
  - intros x Hx Hx'. unfold desc_off.
    rewrite !byte_store_out by (rewrite length_encode_desc; lia). done.
Qed.

(** The two descriptors in the available ring. *)
Lemma queue_two dev d1 d2 m s :
  let q := gd_queue dev in let i := gd_idx dev in let j := (i + 1) mod 128 in
  q <> 0 -> 0 <= i < 128 -> desc_wf d1 -> desc_wf d2 ->
  exists m', (dev ← put_descs dev [d1; d2]; _ ← push_avail (gd_queue dev) i; mret dev) (with_memory m s) =
      Done (with_idx ((i + 2) mod 128) dev, with_memory m' s) /\
    desc_at m' q i = d1 /\ desc_at m' q j = d2 /\
    avail_ring m' q (avail_idx m q mod 128) = i /\ avail_idx m' q = (avail_idx m q + 1) mod 2 ^ 16 /\
    (forall n, 0 <= n < 128 -> n <> i -> n <> j -> desc_at m' q n = desc_at m q n) /\
    (forall n, 0 <= n < 128 -> n <> avail_idx m q mod 128 -> avail_ring m' q n = avail_ring m q n) /\
    forall x, x < q \/ q + 5128 <= x -> byte m' x = byte m x.
Proof.
  intros q i j Hq Hi Hd1 Hd2. destruct (next_differs i Hi) as [Hj Hij]. fold j in Hj, Hij.
  destruct (put_two dev d1 d2 (with_memory m s)) as (m2 & E2 & D1 & D2 & Hb2); try done.
  fold q i j in E2, D1, D2, Hb2. rewrite mem_of_with_memory in Hb2.
  destruct (push_avail_ok q i (with_memory m2 s)) as (m3 & E3 & A3 & I3 & Hb3 & Hr3); [done|lia|].
  rewrite mem_of_with_memory in A3, I3, Hb3, Hr3.
  assert (avail_idx m2 q = avail_idx m q) as Ea.
  { unfold avail_idx, avail_idx_off. apply rdn_ext. intros x Hx. apply Hb2; lia. }
  rewrite Ea in *. exists m3. split_and!; try done.
  - erewrite bind_done by exact E2. rewrite with_memory_twice. cbn [gd_queue with_idx]. fold q.
    erewrite bind_done by exact E3. by rewrite with_memory_twice.
  - rewrite <- D1. apply desc_at_ext. unfold desc_off. intros x Hx. apply Hb3. lia.
  - rewrite <- D2. apply desc_at_ext. unfold desc_off. intros x Hx. apply Hb3. lia.
  - intros n Hn Hni Hnj. apply desc_at_ext. unfold desc_off. intros x Hx. rewrite Hb3, Hb2 by lia. done.
  - intros n Hn Hne. rewrite Hr3 by done. unfold avail_ring, avail_ring_off. apply rdn_ext.
    intros x Hx. apply Hb2; lia.
  - intros x Hx. rewrite Hb3, Hb2 by lia. done.
Qed.

Lemma send_ok fuel s cs dev l rq k1 :
  gpu_ok (kern_of s) cs dev -> (length cs < fuel)%nat -> zlen l < 2 ^ 31 ->
  Kmem.kmalloc fuel (zlen l + 24) (kern_of s) = Done (rq, k1) -> rq <> 0 ->
  exists m cs' z, send fuel dev l s =
      Done (with_idx ((gd_idx dev + 2) mod 128) dev, with_memory m s) /\
    sent (kern_of s) cs dev l rq m cs' z.
Proof.
  intros [Hheap Hq Hi Hmax Hap] Hf Hl Em Hrq. pose proof (heap_pos _ _ Hheap) as Hpos.
  destruct (heap_take _ _ _ (zlen l + 24) _ _ Hheap Hf ltac:(lia) Em Hrq)
    as (m0 & cs' & z & -> & Hok' & Hlive & Hz & Hlo & Hhi & Hb0 & Hk0 & Hlen & Hroom).
  set (q := gd_queue dev) in *. set (i := gd_idx dev) in *. set (k := kern_of s) in *.
  destruct (next_differs i Hi) as [Hj Hij]. set (j := (i + 1) mod 128) in *.
  destruct (layout2 (zlen l) 24 ltac:(lia) ltac:(lia)) as (L1 & L2 & L3 & L4 & L5).
  set (ro := request_off (zlen l) 24) in *. set (po := response_off (zlen l) 24) in *.
  unfold send, Request_new, sizeof_CtrlHeader. fold ro po.
  erewrite bind_done.
  2:{ erewrite bind_done by (apply zoom_done, Em). change (with_kern (with_mem m0 k) s) with (with_memory m0 s).
      erewrite bind_done by (by apply save_bytes_ok). rewrite with_memory_twice, mem_of_with_memory. reflexivity. }
  set (m1 := store m0 (rq + ro) l). fold i. erewrite bind_done by (apply lift_done, next_idx_ok; lia).
  fold j. unfold apart in L5.
  destruct (queue_two dev (mkDesc (rq + ro) (zlen l) VIRTIO_DESC_F_NEXT j)
    (mkDesc (rq + po) 24 VIRTIO_DESC_F_WRITE 0) m1 s) as (m & E & D1 & D2 & Ha & Hx & Hd & Hr & Hb); try done; try wf_desc.
  fold q i j in E, D1, D2, Ha, Hx, Hd, Hr, Hb. exists m, cs', z. split; [exact E|]. unfold sizeof_Queue in Hap.
  assert (forall x, x < rq \/ rq + (zlen l + 24) <= x -> byte m1 x = byte m0 x) as Hb1.
  { intros x Hxo. apply byte_store_out. lia. }
  assert (forall x, q <= x < q + 5128 -> byte m1 x = byte (mem k) x) as Hqk.
  { intros x Hxq. rewrite Hb1 by lia. apply Hb0. unfold outside. lia. }
  assert (forall x, KMEM_HEAD k <= x < heap_end k -> byte m x = byte m1 x) as Hhk by (intros x Hxh; apply Hb; lia).
  destruct (queue_ext m1 (mem k) q Hqk) as (Ea & Er & Ed). rewrite Ea in *.
  split; fold q i; try done; [| |lia|..].
  - unfold command_at. fold j ro po. split_and!; try done.
    rewrite <- (bytes_at_store m0 (rq + ro) l) at 2. apply bytes_at_ext. intros x Hxl. apply Hhk. lia.
  - apply (heap_write_own (with_mem m0 k) _ _ rq z (zlen l + 24)); [done|cbn; rewrite Hlive; by left|lia|].
    intros x Hxo Hxr. cbn [mem with_mem]. rewrite Hhk by (unfold outside, heap_end in *; cbn in Hxo; lia). by apply Hb1.
  - intros n Hn Hni Hnj. rewrite Hd by done. by apply Ed.
  - intros n Hn Hne. rewrite Hr by done. by apply Er.
  - intros b v x Hin Hxb. destruct (Hk0 b v x Hin Hxb) as [Eb ?].
    pose proof (live_inside _ _ _ _ Hheap Hin). rewrite Hhk, Hb1 by lia. done.
Qed.

(** A command stays in place while the next one is sent. *)
Lemma command_kept k cs dev l rq m cs1 z l2 rq2 m2 cs2 z2 :
  gpu_ok k cs dev -> sent k cs dev l rq m cs1 z ->
  sent (with_mem m k) cs1 (with_idx ((gd_idx dev + 2) mod 128) dev) l2 rq2 m2 cs2 z2 ->
  command_at m2 (gd_queue dev) (gd_idx dev) rq l.
Proof.
  intros [_ _ Hi _ _] S1 S2. destruct (st_command _ _ _ _ _ _ _ _ S1) as (D1 & D2 & Hb).
  pose proof (st_desc _ _ _ _ _ _ _ _ S2) as Hd. cbn [gd_queue gd_idx with_idx mem with_mem] in Hd.
  set (q := gd_queue dev) in *. set (i := gd_idx dev) in *. rewrite ring_add in Hd.
  pose proof (ring_ne i 0 2 ltac:(lia) ltac:(lia)) as N2.
  pose proof (ring_ne i 0 3 ltac:(lia) ltac:(lia)) as N3.
  rewrite Z.add_0_r, Z.mod_small in N2, N3 by lia.
  split_and!.
  - by rewrite Hd.
  - rewrite Hd; [done|apply Z.mod_pos_bound; lia|apply ring_ne; lia..].
  - etransitivity; [|exact Hb]. apply bytes_at_ext. intros x Hx.
    destruct (layout2 (zlen l) 24 ltac:(lia) ltac:(lia)) as (L1 & L2 & _).
    pose proof (st_size _ _ _ _ _ _ _ _ S1).
    apply (st_kept _ _ _ _ _ _ _ _ S2 (rq - 8) z); cbn [KMEM_HEAD with_mem].
    + rewrite (st_live _ _ _ _ _ _ _ _ S1). by left.
    + lia.
Qed.

(** The bytes of the two commands of [transfer]. *)
Lemma length_commands r : zlen (TransferToHost2d r 0 1) = 56 /\ zlen (ResourceFlush r 1) = 48.
Proof. done. Qed.

(** Two commands sent one after the other are next to each other in the ring. *)
Lemma sent_twice k cs dev l rq m cs1 z l2 rq2 m2 cs2 z2 :
  let q := gd_queue dev in let i := gd_idx dev in let a := avail_idx (mem k) q in
  sent k cs dev l rq m cs1 z -> 0 <= a < 2 ^ 16 ->
  sent (with_mem m k) cs1 (with_idx ((i + 2) mod 128) dev) l2 rq2 m2 cs2 z2 ->
  avail_ring m2 q (a mod 128) = i /\ avail_ring m2 q ((a + 1) mod 128) = (i + 2) mod 128 /\
  avail_idx m2 q = (a + 2) mod 2 ^ 16.
Proof.
  intros q i a S1 Ha S2.
  pose proof (st_slot _ _ _ _ _ _ _ _ S1) as A1. pose proof (st_idx _ _ _ _ _ _ _ _ S1) as I1.
  pose proof (st_slot _ _ _ _ _ _ _ _ S2) as A2. pose proof (st_idx _ _ _ _ _ _ _ _ S2) as I2.
  cbn [mem with_mem gd_queue gd_idx with_idx] in A1, I1, A2, I2. fold q i in A1, I1, A2, I2.
  fold a in A1, I1. rewrite I1 in A2, I2.
  assert (((a + 1) mod 2 ^ 16) mod 128 = (a + 1) mod 128) as Em.
  { change (2 ^ 16) with (128 * 512). rewrite Z.rem_mul_r, Z.mul_comm, Z.mod_add by lia.
    by apply Z.mod_mod. }
  rewrite Em in A2. split_and!; [|done|].
  - rewrite (st_ring _ _ _ _ _ _ _ _ S2); [done|apply Z.mod_pos_bound; lia|].
    cbn [mem with_mem gd_queue with_idx]. fold q. rewrite I1, Em.
    pose proof (ring_ne a 0 1 ltac:(lia) ltac:(lia)) as N. by rewrite Z.add_0_r in N.
  - rewrite I2, Zplus_mod_idemp_l. f_equal. lia.
Qed.

(** C34: transfer puts two commands for the rectangle into the ring, the transfer
    and then the flush, each with room for its response, notifies the device once
    and puts the device back into its slot. *)
Theorem transfer_submits fuel s cs gdev dev x y w h zz :
  let r := mkRect x y w h in let q := gd_queue dev in let i := gd_idx dev in
  let a := avail_idx (mem_of s) q in
  1 <= gdev < 2 ^ 64 -> GPU_DEVICES s !! Z.to_nat (gdev - 1) = Some (Some dev) ->
  gpu_ok (kern_of s) cs dev -> (S (length cs) < fuel)%nat ->
  (false, zz) ∈ cs -> 256 <= zz -> 0 <= a < 2 ^ 16 ->
  exists rq1 rq2 m, transfer fuel gdev x y w h s =
      Done (tt, with_gpu (<[Z.to_nat (gdev - 1) := Some (with_idx ((i + 4) mod 128) dev)]> (GPU_DEVICES s))
                  (with_io (io s ++ [Wr (gd_dev dev + 0x50) 0]) (with_memory m s))) /\
    command_at m q i rq1 (TransferToHost2d r 0 1) /\
    command_at m q ((i + 2) mod 128) rq2 (ResourceFlush r 1) /\
    avail_ring m q (a mod 128) = i /\ avail_ring m q ((a + 1) mod 128) = (i + 2) mod 128 /\
    avail_idx m q = (a + 2) mod 2 ^ 16.
Proof.
  intros r q i a Hg Hslot Hok Hf Hin Hzz Ha. destruct (length_commands r) as [Lt Lf].
  pose proof Hok as [Hheap Hq Hi Hmax Hap].
  unfold transfer, take_gpu. erewrite bind_done.
  2:{ erewrite bind_done by (apply lift_done, uint_ok; lia). erewrite bind_done by reflexivity.
      erewrite bind_done by (apply lift_done, index_ok; [lia|done]).
      erewrite bind_done by reflexivity. reflexivity. }
  cbn iota. fold r. set (s0 := with_gpu _ s).
  destruct (heap_has_room (kern_of s) cs fuel 80 zz) as (rq1 & k1 & E1 & Hr1);
    [done|lia|lia|done|change (need 80) with 88; lia|].
  destruct (send_ok fuel s0 cs dev (TransferToHost2d r 0 1) rq1 k1) as (m1 & cs1 & z1 & Es1 & S1);
    try (done || lia).
  erewrite bind_done by exact Es1. change (kern_of s0) with (kern_of s) in S1.
  destruct (st_room _ _ _ _ _ _ _ _ S1 zz Hin) as (zz' & Hin' & Hzz');
    [rewrite Lt; change (need (56 + 24)) with 88; lia|].
  rewrite Lt in Hzz'. change (need (56 + 24)) with 88 in Hzz'.
  pose proof (st_chunks _ _ _ _ _ _ _ _ S1). pose proof (Z.mod_pos_bound (i + 2) 128 ltac:(lia)).
  destruct (heap_has_room (with_mem m1 (kern_of s)) cs1 fuel 72 zz') as (rq2 & k2 & E2 & Hr2);
    [apply S1|lia|lia|done|change (need 72) with 80; lia|].
  assert (gpu_ok (with_mem m1 (kern_of s)) cs1 (with_idx ((i + 2) mod 128) dev)) as Hok2
    by (split; [apply S1|done|done|done|done]).
  destruct (send_ok fuel (with_memory m1 s0) cs1 (with_idx ((i + 2) mod 128) dev) (ResourceFlush r 1) rq2 k2)
    as (m2 & cs2 & z2 & Es2 & S2); try (done || lia).
  erewrite bind_done by exact Es2. erewrite bind_done by reflexivity. unfold replace_gpu.
  erewrite bind_done by (apply lift_done, uint_ok; lia).
  change (kern_of (with_memory m1 s0)) with (with_mem m1 (kern_of s)) in S2.
  exists rq1, rq2, m2. split; [|split; [|split; [exact (st_command _ _ _ _ _ _ _ _ S2)|]]].
  - unfold modify. rewrite reg_eq. cbn [MmioOffsets_val gd_dev with_idx gd_queue gd_idx gd_ack_used_idx
      gd_framebuffer gd_width gd_height].
    rewrite ring_add. change (2 + 2) with 4. fold i.
    do 2 f_equal. unfold s0. cbn [GPU_DEVICES with_gpu with_io with_memory with_kern with_procs with_con].
    by rewrite list_insert_insert_eq.
  - by eapply command_kept.
  - exact (sent_twice _ _ _ _ _ _ _ _ _ _ _ _ _ S1 Ha S2).
Qed.
End Send.
End GpuProps.
