(* ===== verification/VirtioBus.v ===== *)
(** * virtio.rs: probing the bus and routing interrupts *)

From S2P Require Import Prelude Memory Cpu PageAlloc Kmem Mmu MinixLayout Lock Process Console World Boxes Uart.
From S2P Require Import Virtio Block Rng Input Gpu.
Import Mem Process World Virtio.

Module VirtioBus.
Import (notations) String.

Section Bus.
Context `{Profile} `{Linker} `{Bus} `{Repr Gpu.Pixel} `{Kmem.Deques} (fuel : nat).

(** [VIRTIO_DEVICES[idx] = Some(VirtioDevice::new_with(t))] *)
Definition set_device (addr : Z) (t : DeviceTypes) : W unit :=
  d ← lift (usize (addr - MMIO_VIRTIO_START));
  let idx := Z.shiftr d 12 in
  s ← get;
  l ← lift (set_slot (VIRTIO_DEVICES s) idx (Some t));
  modify (with_virtio l).

(** The result of a setup, and what to do on success. *)
Definition report (ok : bool) (k : W unit) : W unit :=
  if ok then _ ← k; Uart.println (Fmt.str "setup succeeded!")
  else Uart.println (Fmt.str "setup failed.").

Definition probe_one (addr : Z) : W unit :=
  _ ← Uart.print (Fmt.str "Virtio probing 0x" ++ Fmt.hex08 addr ++ Fmt.str "...");
  magicvalue ← read_volatile 4 addr;
  deviceid ← read_volatile 4 (addr + 4 * 2);
  if negb (MMIO_VIRTIO_MAGIC =? magicvalue) then Uart.println (Fmt.str "not virtio.")
  else if 0 =? deviceid then Uart.println (Fmt.str "not connected.")
  else if deviceid =? 1 then
    _ ← Uart.print (Fmt.str "network device...");
    ok ← setup_network_device addr;
    report ok (mret tt)
  else if deviceid =? 2 then
    _ ← Uart.print (Fmt.str "block device...");
    ok ← Block.setup_block_device addr;
    report ok (set_device addr DBlock)
  else if deviceid =? 4 then
    _ ← Uart.print (Fmt.str "entropy device...");
    ok ← Rng.setup_entropy_device addr;
    report ok (mret tt)
  else if deviceid =? 16 then
    _ ← Uart.print (Fmt.str "GPU device...");
    ok ← Gpu.setup_gpu_device addr;
    report ok (set_device addr DGpu)
  else if deviceid =? 18 then
    _ ← Uart.print (Fmt.str "input device...");
    ok ← Input.setup_input_device fuel addr;
    report ok (set_device addr DInput)
  else Uart.println (Fmt.str "unknown device type.").

(** [(MMIO_VIRTIO_START..=MMIO_VIRTIO_END).step_by(MMIO_VIRTIO_STRIDE)] *)
Definition probe_addrs : list Z :=
  (fun i => MMIO_VIRTIO_START + Z.of_nat i * MMIO_VIRTIO_STRIDE) <$>
    seq 0 (Z.to_nat ((MMIO_VIRTIO_END - MMIO_VIRTIO_START) / MMIO_VIRTIO_STRIDE + 1)).

Fixpoint probe_all (l : list Z) : W unit :=
  match l with
  | [] => mret tt
  | a :: l' => _ ← probe_one a; probe_all l'
  end.

Definition probe : W unit := probe_all probe_addrs.

Definition handle_interrupt (interrupt : Z) : W unit :=
  idx ← lift (usize (interrupt - 1));
  s ← get;
  slot ← lift (index (VIRTIO_DEVICES s) idx);
  match slot with
  | Some DBlock => Block.handle_interrupt fuel idx
  | Some DGpu => Gpu.handle_interrupt fuel idx
  | Some DInput => Input.handle_interrupt fuel idx
  | Some _ => Uart.println (Fmt.str "Invalid device generated interrupt!")
  | None => Uart.println (Fmt.str "Spurious interrupt " ++ Fmt.dec interrupt)
  end.
End Bus.
End VirtioBus.
