(* ===== verification/Plic.v ===== *)
(** * plic.rs: the interrupt controller

    An interrupt is claimed by reading a register and completed by writing its
    number back. *)

From S2P Require Import Prelude Memory Cpu PageAlloc Kmem Mmu MinixLayout Lock Process Console World Boxes Uart.
From S2P Require Import Virtio Block Rng Input Gpu VirtioBus.
Import Mem Process World.

Module Plic.
Import (notations) String.

Definition PLIC_PRIORITY : Z := 0x0c000000.
Definition PLIC_PENDING : Z := 0x0c001000.
Definition PLIC_INT_ENABLE : Z := 0x0c002000.
Definition PLIC_THRESHOLD : Z := 0x0c200000.
Definition PLIC_CLAIM : Z := 0x0c200004.

Section Plic.
Context `{Profile} `{Linker} `{Bus} `{Repr Gpu.Pixel} (fuel : nat).

Definition next : W (option Z) :=
  claim_no ← read_volatile 4 PLIC_CLAIM;
  if claim_no =? 0 then mret None else mret (Some claim_no).

Definition complete (id : Z) : W unit := write_volatile PLIC_CLAIM id.

Definition set_threshold (tsh : Z) : W unit :=
  let actual_tsh := Z.land tsh 7 in
  write_volatile PLIC_THRESHOLD actual_tsh.

(** [1 << id] at 32 bits: an id of 32 or more panics with overflow checks and
    is taken modulo 32 without. *)
Definition bit32 (id : Z) : outcome Z :=
  if id <? 32 then Done (Z.shiftl 1 id)
  else if overflow_checks then Panic else Done (Z.shiftl 1 (id mod 32)).

Definition is_pending (id : Z) : W bool :=
  actual_id ← lift (bit32 id);
  pend_ids ← read_volatile 4 PLIC_PENDING;
  mret (negb (Z.land actual_id pend_ids =? 0)).

Definition enable (id : Z) : W unit :=
  actual_id ← lift (bit32 id);
  v ← read_volatile 4 PLIC_INT_ENABLE;
  write_volatile PLIC_INT_ENABLE (Z.lor v actual_id).

Definition set_priority (id prio : Z) : W unit :=
  let actual_prio := Z.land prio 7 in
  write_volatile (PLIC_PRIORITY + 4 * id) actual_prio.

Definition handle_interrupt : W unit :=
  o ← next;
  match o with
  | Some interrupt =>
      _ ← (if (1 <=? interrupt) && (interrupt <=? 8) then VirtioBus.handle_interrupt fuel interrupt
           else if interrupt =? 10 then Uart.handle_interrupt
           else Uart.println (Fmt.str "Unknown external interrupt: " ++ Fmt.dec interrupt));
      complete interrupt
  | None => mret tt
  end.
End Plic.
End Plic.
