(* ===== verification/InterruptProps.v ===== *)
(** * Interrupts are claimed and completed

    The accesses an interrupt handler makes to devices, for every handler. *)

From S2P Require Import Prelude Memory Cpu PageAlloc Kmem Mmu MinixLayout Lock Process Console World Boxes Uart.
From S2P Require Import Virtio Block Rng Input Gpu VirtioBus Plic.
Import Mem Process World Boxes Virtio.

(** ** What a computation tells the devices *)

(** Whenever [c] returns it has only added accesses that satisfy [P]. *)
Definition talks (P : io_event -> Prop) {A} (c : W A) : Prop := forall s a s',
  c s = Done (a, s') -> exists l, io s' = io s ++ l /\ Forall P l.

Create HintDb talk discriminated.

Section Talks.
Context (P : io_event -> Prop).

Lemma talks_bind {A B} (c : W A) (f : A -> W B) :
  talks P c -> (forall a, talks P (f a)) -> talks P (c ≫= f).
Proof.
  intros Hc Hf s b s' E. apply bind_inv in E as (a & s1 & E1 & E2).
  destruct (Hc _ _ _ E1) as (l1 & El1 & Hl1). destruct (Hf _ _ _ _ E2) as (l2 & El2 & Hl2).
  exists (l1 ++ l2). split; [by rewrite El2, El1, app_assoc|by apply Forall_app].
Qed.

(** Computations that leave the devices alone. *)
Lemma talks_still {A} (c : W A) :
  (forall s a s', c s = Done (a, s') -> io s' = io s) -> talks P c.
Proof. intros Hc s a s' E. exists []. rewrite app_nil_r. split; [by eapply Hc|done]. Qed.

Lemma talks_ret {A} (a : A) : talks P (mret a).
Proof. apply talks_still. by intros s b s' [= _ <-]. Qed.
Lemma talks_lift {A} (o : outcome A) : talks P (lift o).
Proof. apply talks_still. by intros s a s' [_ ->]%lift_inv. Qed.
Lemma talks_get : talks P get.
Proof. apply talks_still. by intros s b s' [= _ <-]. Qed.
Lemma talks_gets {A} (f : world -> A) : talks P (gets f).
Proof. apply talks_still. by intros s b s' [= _ <-]. Qed.
Lemma talks_modify (f : world -> world) : (forall s, io (f s) = io s) -> talks P (modify f).
Proof. intros Hf. apply talks_still. by intros s b s' [= _ <-]. Qed.
Lemma talks_zoom {T A} (view : world -> T) update (c : M T A) :
  (forall t s, io (update t s) = io s) -> talks P (zoom view update c).
Proof.
  intros Hu. apply talks_still. intros s a s'. unfold zoom.
  destruct (c (view s)) as [[b t]| | | |]; try done. by intros [= _ <-].
Qed.
Lemma talks_kern {A} (c : M kernel A) : talks P (on_kern c).
Proof. by apply talks_zoom. Qed.
Lemma talks_procs {A} (c : M pstate A) : talks P (on_procs c).
Proof. by apply talks_zoom. Qed.
Lemma talks_con {A} (c : M Console.cstate A) : talks P (on_con c).
Proof. by apply talks_zoom. Qed.
Lemma talks_load n p off : talks P (load n p off).
Proof. apply talks_bind; [apply talks_lift|intros; apply talks_gets]. Qed.
Lemma talks_save n p off v : talks P (save n p off v).
Proof. apply talks_bind; [apply talks_lift|intros; by apply talks_modify]. Qed.
Lemma talks_save_bytes p off l : talks P (save_bytes p off l).
Proof. apply talks_bind; [apply talks_lift|intros; by apply talks_modify]. Qed.

Context `{Bus}.
Lemma talks_read n a : (forall v, P (Rd a v)) -> talks P (read_volatile n a).
Proof. intros Ha s v s' [= <- <-]. eexists. split; [reflexivity|]. by repeat constructor. Qed.
Lemma talks_write a v : P (Wr a v) -> talks P (write_volatile a v).
Proof. intros Ha s b s' [= _ <-]. eexists. split; [reflexivity|]. by repeat constructor. Qed.
End Talks.

#[export] Hint Resolve talks_bind talks_ret talks_lift talks_get talks_gets talks_modify
  talks_kern talks_procs talks_con talks_load talks_save talks_save_bytes : talk.

(** Follow the program text: sequences, branches, and the hints at the leaves. *)
Ltac talk :=
  repeat first
    [ progress intros
    | match goal with
      | |- talks _ (match ?x with _ => _ end) => destruct x
      | |- talks _ (_ ≫= _) => apply talks_bind
      end
    | solve [eauto 2 with talk]
    | apply talks_modify; done ].

(** Accesses to the registers of the UART. *)
Abbreviation to_uart := (fun e => at_device Uart.UART (Uart.UART + 8) e = true).

Module Interrupts.
Import (notations) String.
Section Interrupts.
Context `{Profile} `{Linker} `{Bus} (fuel : nat).

Lemma talks_print l : talks to_uart (Uart.print l).
Proof.
  intros s a s'. rewrite Uart.print_ok. intros [= _ <-]. eexists. split; [reflexivity|].
  apply Forall_fmap, Forall_true. intros v. done.
Qed.
Lemma talks_println l : talks to_uart (Uart.println l).
Proof. apply talks_print. Qed.
Lemma talks_uget : talks to_uart (Uart.uget Uart.UART).
Proof.
  unfold Uart.uget. talk; apply talks_read; by intros.
Qed.
Hint Resolve talks_print talks_println talks_uget : talk.

Lemma talks_uart : talks to_uart Uart.handle_interrupt.
Proof. unfold Uart.handle_interrupt. talk. Qed.

Lemma talks_block_one bd : talks to_uart (Block.complete_one fuel bd).
Proof. unfold Block.complete_one, Block.frame_of. talk. Qed.
Hint Resolve talks_block_one : talk.
Lemma talks_block_pending k : forall bd, talks to_uart (Block.pending fuel k bd).
Proof. induction k; cbn [Block.pending]; talk. Qed.
Hint Resolve talks_block_pending : talk.
Lemma talks_block idx : talks to_uart (Block.handle_interrupt fuel idx).
Proof. unfold Block.handle_interrupt. talk. Qed.

Lemma talks_gpu_pending k : forall dev, talks to_uart (Gpu.pending fuel k dev).
Proof. induction k; cbn [Gpu.pending]; talk. Qed.
Hint Resolve talks_gpu_pending : talk.
Lemma talks_gpu idx : talks to_uart (Gpu.handle_interrupt fuel idx).
Proof. unfold Gpu.handle_interrupt. talk. Qed.

Lemma talks_used_event q slot : talks to_uart (Input.used_event q slot).
Proof. unfold Input.used_event. talk. Qed.
Lemma talks_repopulate dev id : talks to_uart (Input.repopulate_event dev id).
Proof. unfold Input.repopulate_event, push_avail, set_desc. talk. Qed.
Lemma talks_deliver ev : talks to_uart (Input.deliver ev).
Proof. unfold Input.deliver. talk. Qed.
Hint Resolve talks_used_event talks_repopulate talks_deliver : talk.
Lemma talks_events k : forall dev, talks to_uart (Input.pending_events k dev).
Proof. induction k; cbn [Input.pending_events]; talk. Qed.
Lemma talks_status k : forall dev, talks to_uart (Input.pending_status k dev).
Proof. induction k; cbn [Input.pending_status]; talk. Qed.
Hint Resolve talks_events talks_status : talk.
Lemma talks_input idx : talks to_uart (Input.handle_interrupt fuel idx).
Proof. unfold Input.handle_interrupt, Input.pending. talk. Qed.
Hint Resolve talks_uart talks_block talks_gpu talks_input : talk.

Lemma talks_virtio i : talks to_uart (VirtioBus.handle_interrupt fuel i).
Proof. unfold VirtioBus.handle_interrupt. talk. Qed.
Hint Resolve talks_virtio : talk.

(** Which handler an external interrupt belongs to: 1 to 8 are the slots of the VirtIO
    bus, 10 is the serial port, the others belong to nobody and are reported. *)
Inductive serves (s : world) : Z -> W unit -> Prop :=
| serves_block n : 1 <= n <= 8 -> VIRTIO_DEVICES s !! Z.to_nat (n - 1) = Some (Some DBlock) ->
    serves s n (Block.handle_interrupt fuel (n - 1))
| serves_gpu n : 1 <= n <= 8 -> VIRTIO_DEVICES s !! Z.to_nat (n - 1) = Some (Some DGpu) ->
    serves s n (Gpu.handle_interrupt fuel (n - 1))
| serves_input n : 1 <= n <= 8 -> VIRTIO_DEVICES s !! Z.to_nat (n - 1) = Some (Some DInput) ->
    serves s n (Input.handle_interrupt fuel (n - 1))
| serves_invalid n d : 1 <= n <= 8 -> VIRTIO_DEVICES s !! Z.to_nat (n - 1) = Some (Some d) ->
    d ∉ [DBlock; DGpu; DInput] -> serves s n (Uart.println (Fmt.str "Invalid device generated interrupt!"))
| serves_spurious n : 1 <= n <= 8 -> VIRTIO_DEVICES s !! Z.to_nat (n - 1) = Some None ->
    serves s n (Uart.println (Fmt.str "Spurious interrupt " ++ Fmt.dec n))
| serves_uart : serves s 10 Uart.handle_interrupt
| serves_unknown n : 9 <= n -> n <> 10 ->
    serves s n (Uart.println (Fmt.str "Unknown external interrupt: " ++ Fmt.dec n)).

(** The slot of the bus decides. *)
Lemma bus_serves s s1 n :
  length (VIRTIO_DEVICES s) = 8%nat -> VIRTIO_DEVICES s1 = VIRTIO_DEVICES s -> 1 <= n <= 8 ->
  exists drv, serves s n drv /\ VirtioBus.handle_interrupt fuel n s1 = drv s1.
Proof.
  intros Hlen Hs Hn. destruct (lookup_lt_is_Some_2 (VIRTIO_DEVICES s) (Z.to_nat (n - 1))) as [o Ho]; [lia|].
  assert (VirtioBus.handle_interrupt fuel n s1 =
    match o with
    | Some DBlock => Block.handle_interrupt fuel (n - 1)
    | Some DGpu => Gpu.handle_interrupt fuel (n - 1)
    | Some DInput => Input.handle_interrupt fuel (n - 1)
    | Some _ => Uart.println (Fmt.str "Invalid device generated interrupt!")
    | None => Uart.println (Fmt.str "Spurious interrupt " ++ Fmt.dec n)
    end s1) as ->.
  { unfold VirtioBus.handle_interrupt. erewrite bind_done by (apply lift_done, uint_ok; lia).
    erewrite bind_done by reflexivity. erewrite bind_done; [reflexivity|].
    apply lift_done. unfold index. rewrite Hs, (proj2 (Z.ltb_lt _ _)) by lia. by rewrite Ho. }
  destruct o as [d|]; [|eexists; split; [by apply serves_spurious|done]].
  destruct d; eexists; (split; [|reflexivity]);
    solve [by apply serves_block|by apply serves_gpu|by apply serves_input
          |eapply serves_invalid; [done|exact Ho|rewrite !elem_of_cons, elem_of_nil; by intros [|[|[]]]]].
Qed.

Lemma handler_talks s n drv : serves s n drv -> talks to_uart drv.
Proof. intros []; talk. Qed.

(** C31: The handler of external interrupts claims once. With nothing to claim it
    does nothing else. Otherwise it runs the handler the number belongs to (1 to 8:
    the block, GPU or input driver for the device in that slot, or a line for a slot
    without one; 10: the serial port; others: a line) and, when that returns,
    completes the same number and returns; the driver has written to no register but
    the serial port's. It returns only when that handler does. *)
Theorem plic_claims_and_completes s :
  length (VIRTIO_DEVICES s) = 8%nat ->
  let n := bus (io s) Plic.PLIC_CLAIM mod 2 ^ 32 in
  let s1 := with_io (io s ++ [Rd Plic.PLIC_CLAIM n]) s in
  (n = 0 -> Plic.handle_interrupt fuel s = Done (tt, s1)) /\
  (n <> 0 -> exists drv, serves s n drv /\
     (forall s2, drv s1 = Done (tt, s2) ->
        (exists l, io s2 = io s1 ++ l /\ Forall to_uart l) /\
        Plic.handle_interrupt fuel s = Done (tt, with_io (io s2 ++ [Wr Plic.PLIC_CLAIM n]) s2)) /\
     (forall s2, Plic.handle_interrupt fuel s = Done (tt, s2) -> exists s3, drv s1 = Done (tt, s3))).
Proof.
  intros Hlen n s1.
  assert (Plic.next s = Done (if n =? 0 then None else Some n, s1)) as E1.
  { unfold Plic.next. erewrite bind_done by reflexivity.
    change (bus (io s) Plic.PLIC_CLAIM mod 2 ^ (8 * 4)) with n. fold s1. by destruct (n =? 0). }
  unfold Plic.handle_interrupt. rewrite !(bind_done _ _ _ _ _ E1). split.
  - intros En. by rewrite En.
  - intros Hn. rewrite (proj2 (Z.eqb_neq _ _) Hn).
    assert (0 < n) as Hpos by (pose proof (Z.mod_pos_bound (bus (io s) Plic.PLIC_CLAIM) (2 ^ 32)); lia).
    assert (exists drv, serves s n drv /\
      (if (1 <=? n) && (n <=? 8) then VirtioBus.handle_interrupt fuel n
       else if n =? 10 then Uart.handle_interrupt
       else Uart.println (Fmt.str "Unknown external interrupt: " ++ Fmt.dec n)) s1 = drv s1) as (drv & Hd & Ed).
    { destruct (Z.leb_spec 1 n); [|lia]. destruct (Z.leb_spec n 8); cbn [andb]; [by apply bus_serves|].
      destruct (Z.eqb_spec n 10) as [->|]; eexists; (split; [|reflexivity]); [apply serves_uart|apply serves_unknown; lia]. }
    exists drv. split; [done|]. split.
    + intros s2 E2. split; [exact (handler_talks _ _ _ Hd _ _ _ E2)|].
      erewrite bind_done by (rewrite Ed; exact E2). done.
    + intros s2 E2. apply bind_inv in E2 as ([] & s3 & E3 & _). rewrite Ed in E3. eauto.
Qed.
End Interrupts.
End Interrupts.
