(* ===== verification/FsProc.v ===== *)
(** * fs.rs: the file requests of user processes

    A file request runs as a kernel process of its own, since the block driver
    makes it wait.  [sys] joins the machine and the file system, whose buffers
    are lists of bytes; a user's buffer is in memory. *)

From S2P Require Import Prelude Memory Cpu PageAlloc Kmem Mmu MinixLayout Lock Process Console World Boxes Uart.
From S2P Require Import BlockIo MinixRead MinixWrite.
Import Mem Layout Io Process World Boxes.

Record sys (D : Type) := mkSys { wd : world; fss : fs_state D }.
Arguments mkSys {D}.
Arguments wd {D}.
Arguments fss {D}.

Module Sys.
Section Sys.
Context {D : Type}.

Definition with_wd (w : world) (s : sys D) : sys D := mkSys w (fss s).
Definition with_fss (f : fs_state D) (s : sys D) : sys D := mkSys (wd s) f.
Definition on_wd {A} (c : W A) : M (sys D) A := zoom wd with_wd c.
Definition on_fs {A} (c : M (fs_state D) A) : M (sys D) A := zoom fss with_fss c.

Lemma on_wd_done {A} (c : W A) (y : sys D) a w :
  c (wd y) = Done (a, w) -> on_wd c y = Done (a, with_wd w y).
Proof. apply zoom_done. Qed.

Lemma on_wd_id {A} (c : W A) (y : sys D) a :
  c (wd y) = Done (a, wd y) -> on_wd c y = Done (a, y).
Proof. intros E. rewrite (on_wd_done _ _ _ _ E). by destruct y. Qed.

Lemma on_fs_done {A} (c : M (fs_state D) A) (y : sys D) a t :
  c (fss y) = Done (a, t) -> on_fs c y = Done (a, with_fss t y).
Proof. apply zoom_done. Qed.
End Sys.
End Sys.
Export Sys.

Module FsProc.

Record ProcArgs := mkArgs {
  a_pid : Z;
  a_dev : Z;
  a_buffer : Z;
  a_size : Z;
  a_offset : Z;
  a_node : Z;
}.

Section FsProc.
Context `{Profile} `{Linker} {D : Type} `{BlockService D} `{Heap} `{Repr ProcArgs}.
Context (fuel : nat).
(** Addresses of functions, placed by the linker. *)
Context (ra_delete_proc read_proc_fn write_proc_fn : Z).
Abbreviation Y := (M (sys D)).

(** [ptr.frame.regs[A0] = v], when the process still exists. *)
Definition answer (p v : Z) : W unit :=
  o ← on_procs (get_by_pid p);
  match o with
  | Some k =>
      s ← get;
      pl ← lift (unwrap (PROCESS_LIST (procs_of s)));
      proc ← lift (unwrap (pl !! k));
      save 8 (frame proc) (8 * Cpu.gp Cpu.A0) v
  | None => mret tt
  end.

(** The bytes of a user's buffer, and writing them back; null is not memory
    when [n] bytes of it are used. *)
Definition load_bytes (p n : Z) : W (list Z) := gets (fun s => bytes_at (byte (mem_of s)) p n).
Definition usable (p n : Z) : outcome unit := valid (negb (p =? 0) || (n =? 0)).
Definition store_bytes (p : Z) (l : list Z) : W unit :=
  modify (fun s => with_memory (store (mem_of s) p l) s).

Definition read_proc (args_addr : Z) : Y unit :=
  args ← on_wd (Box_read args_addr);
  inode ← on_fs (MinixRead.get_inode (a_dev args) (a_node args));
  inode ← lift (unwrap inode);
  buffer ← on_wd (load_bytes (a_buffer args) (a_size args));
  '(bytes, buffer) ← on_fs (MinixRead.read (a_dev args) inode buffer (a_size args) (a_offset args));
  _ ← lift (usable (a_buffer args) bytes);
  _ ← on_wd (store_bytes (a_buffer args) buffer);
  _ ← on_wd (answer (a_pid args) bytes);
  _ ← on_wd (on_procs (set_running (a_pid args)));
  on_wd (Box_drop fuel args_addr).

Definition process_read (pid dev node buffer size offset : Z) : W unit :=
  boxed_args ← Box_new fuel (mkArgs pid dev buffer size offset node);
  _ ← on_procs (set_waiting pid);
  _ ← on_procs (add_kernel_process_args ra_delete_proc read_proc_fn boxed_args);
  mret tt.

Definition write_proc (args_addr : Z) : Y unit :=
  args ← on_wd (Box_read args_addr);
  inode ← on_fs (MinixRead.get_inode (a_dev args) (a_node args));
  inode ← lift (unwrap inode);
  buffer ← on_wd (load_bytes (a_buffer args) (a_size args));
  '(bytes, _) ← on_fs (MinixWrite.write (a_dev args) inode buffer (a_size args) (a_offset args));
  _ ← lift (usable (a_buffer args) bytes);
  _ ← on_wd (answer (a_pid args) bytes);
  _ ← on_wd (on_procs (set_running (a_pid args)));
  on_wd (Box_drop fuel args_addr).

Definition process_write (pid dev node buffer size offset : Z) : W unit :=
  boxed_args ← Box_new fuel (mkArgs pid dev buffer size offset node);
  _ ← on_procs (set_waiting pid);
  _ ← on_procs (add_kernel_process_args ra_delete_proc write_proc_fn boxed_args);
  mret tt.
End FsProc.
End FsProc.
