(* ===== verification/TestProc.v ===== *)
(** * test.rs: the process that tries the file system out

    [kinit] starts [test] as a kernel process.  It prints, and calls the file
    system and the block driver. *)

From Stdlib Require String.
From S2P Require Import Prelude Memory Cpu PageAlloc Kmem Mmu MinixLayout Lock Process Console World Boxes Uart PageReport.
From S2P Require Import BlockIo MinixRead MinixWrite MinixDir MinixDirFacts Virtio Block FsProc.
Import (notations) String.
Import Mem Layout Io MinixRead MinixDirFacts.DirFacts Process World.

Module TestProc.
Section Test.
Context `{Profile} `{Linker} `{Bus} {D : Type} `{BlockService D} `{Heap}.
(** [fuel] bounds the chunks of the heap, [depth] the directories of a path. *)
Context (fuel depth : nat).
(** The system call 63: device, inode, buffer, size and offset; the answer is the
    count and the bytes of the buffer. *)
Context (syscall_fs_read : Z -> Z -> list Z -> Z -> Z -> M (sys D) (Z * list Z)).
Abbreviation Y := (M (sys D)).

Definition pr (text : list Z) : Y unit := on_wd (Uart.print text).
Definition prln (text : list Z) : Y unit := on_wd (Uart.println text).

Definition spaces (n : Z) : list Z := replicate (Z.to_nat n) 32.
Definition dashes : list Z := replicate 23 45.

Definition print_divider (string : list Z) : Y unit :=
  let total_length := 40 in
  let string_length := zlen string in
  p ← lift (usize (total_length - string_length));
  p ← lift (usize (p - 6));
  let padding_length := p / 2 in
  let left_padding := spaces padding_length in
  r ← lift (usize (padding_length + if string_length mod 2 =? 0 then 0 else 1));
  let right_padding := spaces r in
  prln (dashes ++ Fmt.str "<" ++ left_padding ++ [32] ++ string ++ [32] ++ right_padding ++
        Fmt.str ">" ++ dashes).

Definition greetings : Y unit :=
  prln ([10] ++ replicate 50 95 ++ [10] ++
        Fmt.str "|                                                | " ++ [10] ++
        Fmt.str "|         Welcome to simple file system!         |" ++ [10] ++
        Fmt.str "|                                                |" ++ [10] ++
        replicate 50 45).

(** [for i in 0..k]: the bytes of a buffer as characters. *)
Fixpoint print_chars (buffer : list Z) (k : nat) (i : Z) : Y unit :=
  match k with
  | O => mret tt
  | S k' =>
      c ← lift (deref (buffer !! Z.to_nat i));
      _ ← pr (Fmt.char c);
      print_chars buffer k' (i + 1)
  end.

(** [result.unwrap()] *)
Definition ok {E A} (r : E + A) : outcome A := match r with inr a => Done a | inl _ => Panic end.

(** ** fs.rs: listing *)

Definition debug_fields (sb : SuperBlock) : list (String.string * Z) :=
  [("ninodes", ninodes sb); ("pad0", pad0 sb); ("imap_blocks", imap_blocks sb);
   ("zmap_blocks", zmap_blocks sb); ("first_data_zone", first_data_zone sb);
   ("log_zone_size", log_zone_size sb); ("pad1", pad1 sb); ("max_size", max_size sb);
   ("zones", nzones sb); ("magic", magic sb); ("pad2", pad2 sb);
   ("block_size", block_size sb); ("disk_version", disk_version sb)]%string.

(** [{:#?}] of a super block *)
Definition debug_superblock (sb : SuperBlock) : list Z :=
  Fmt.str "SuperBlock {" ++ [10] ++
  (debug_fields sb ≫= fun f =>
     Fmt.str "    " ++ Fmt.str f.1 ++ Fmt.str ": " ++ Fmt.dec f.2 ++ Fmt.str "," ++ [10]) ++
  Fmt.str "}".

Definition show_fs_info (bdev : Z) : Y unit :=
  buffer ← on_fs (Buffer_new 1024);
  '(_, b) ← on_fs (syc_read bdev (bdata buffer) 512 1024);
  super_block ← lift (superblock_at b);
  if magic super_block =? MAGIC then
    _ ← prln ([10] ++ Fmt.str "Filesystem Superblock Info: ");
    prln (debug_superblock super_block)
  else mret tt.

Fixpoint print_lines (l : list (list Z)) : Y unit :=
  match l with
  | [] => mret tt
  | p :: l' => _ ← prln p; print_lines l'
  end.

(** The paths are printed while the cache is taken out; printing does not look at it. *)
Definition show_all_file_paths (bdev : Z) : Y unit :=
  _ ← prln ([10] ++ Fmt.str "Now list all existed files: ");
  l ← on_fs (MinixDir.show_all_file_paths bdev);
  print_lines l.

(** ** The tests *)

Definition test_read_file_with_inode (inode_num : Z) : Y unit :=
  _ ← prln [];
  _ ← print_divider (Fmt.str "Reading from file");
  _ ← prln (Fmt.str "inode #" ++ Fmt.dec inode_num ++ Fmt.str ": ");
  buffer ← on_fs (Buffer_new BLOCK_SIZE);
  '(bytes_read, b) ← syscall_fs_read 8 inode_num (bdata buffer) (as_u32 (blen buffer)) 0;
  _ ← print_chars b (Z.to_nat bytes_read) 0;
  prln [].

Definition test_find_free_inode : Y unit :=
  _ ← prln [];
  _ ← print_divider (Fmt.str "Finding next free inode");
  o ← on_fs (MinixDir.find_free_inode 8);
  num ← lift (unwrap o);
  prln (Fmt.dec num).

(** [for i in 0..k]: the bytes in memory from [p] on, 24 to a line. *)
Fixpoint print_hex (p : Z) (k : nat) (i : Z) : Y unit :=
  match k with
  | O => mret tt
  | S k' =>
      v ← on_wd (load 1 p i);
      _ ← pr ([32] ++ Fmt.pad 48 2 (Fmt.hex v));
      _ ← (if (i + 1) mod 24 =? 0 then prln [] else mret tt);
      print_hex p k' (i + 1)
  end.

(** The buffer is printed as it is when the request was queued. *)
Definition test_block_driver : Y unit :=
  _ ← prln [];
  _ ← print_divider (Fmt.str "Testing block driver");
  buffer ← on_wd (on_kern (Kmem.Buffer_new fuel BLOCK_SIZE));
  _ ← on_wd (Block.read fuel 8 (Kmem.buffer buffer) (as_u32 (Kmem.len buffer)) 0x400);
  _ ← print_hex (Kmem.buffer buffer) 48 0;
  _ ← prln (Fmt.str "Block driver done");
  _ ← on_wd (on_kern (Kmem.Buffer_drop fuel buffer));
  mret tt.

Definition test_open_file (path : list Z) : Y unit :=
  _ ← prln [];
  _ ← print_divider (Fmt.str "Open and read file");
  _ ← prln (path ++ Fmt.str " opened");
  buffer ← on_fs (Buffer_new BLOCK_SIZE);
  r ← on_fs (MinixDir.open 8 path);
  inode ← lift (ok r);
  let size := isize inode in
  '(read_size, b) ← on_fs (MinixRead.read 8 inode (bdata buffer) (as_u32 (blen buffer)) 0);
  _ ← prln [];
  _ ← prln path;
  _ ← prln (Fmt.str "file size: " ++ Fmt.dec size);
  _ ← prln (Fmt.str "read size: " ++ Fmt.dec read_size);
  _ ← print_chars b (Z.to_nat read_size) 0;
  prln [].

(** [String::from(text).into_bytes()]: a block of the heap with the text in it; the
    program ends when there is none. *)
Definition vec_of (text : list Z) : W Z :=
  p ← on_kern (Kmem.OsGlobalAlloc_alloc fuel (zlen text));
  _ ← lift (unwrap (if p =? 0 then None else Some tt));
  _ ← save_bytes p 0 text;
  mret p.

(** [{:?}] of an error *)
Definition debug_error (e : Block.BlockErrors) : list Z :=
  match e with
  | Block.Success => Fmt.str "Success"
  | Block.BlockDeviceNotFound => Fmt.str "BlockDeviceNotFound"
  | Block.InvalidArgument => Fmt.str "InvalidArgument"
  | Block.ReadOnly => Fmt.str "ReadOnly"
  end.

Fixpoint print_wrapped (p : Z) (k : nat) (i : Z) : Y unit :=
  match k with
  | O => mret tt
  | S k' =>
      v ← on_wd (load 1 p i);
      _ ← pr (Fmt.char v);
      _ ← (if (i + 1) mod 24 =? 0 then prln [] else mret tt);
      print_wrapped p k' (i + 1)
  end.

Definition test_write_block : Y unit :=
  _ ← prln [];
  _ ← print_divider (Fmt.str "Write to block");
  let test_string := Fmt.str "Hello, block!................." in
  buffer ← on_wd (vec_of test_string);
  let len := zlen test_string in
  r ← on_wd (Block.write fuel 8 buffer 512 0xadc00);
  _ ← match r with
      | inr result => prln (Fmt.str "Write successful! Result: " ++ Fmt.dec result)
      | inl error => prln (Fmt.str "Error occurred: " ++ debug_error error)
      end;
  _ ← on_wd (on_kern (Kmem.kfree fuel buffer));
  _ ← prln (Fmt.str "write size: " ++ Fmt.dec len ++ Fmt.str " bytes");
  _ ← prln (Fmt.str "now read: ");
  read_buffer ← on_wd (on_kern (Kmem.Buffer_new fuel BLOCK_SIZE));
  _ ← on_wd (Block.read fuel 8 (Kmem.buffer read_buffer) (as_u32 (Kmem.len read_buffer)) 0xadc00);
  _ ← print_wrapped (Kmem.buffer read_buffer) (Z.to_nat len) 0;
  _ ← prln ([10] ++ Fmt.str "Write to block driver done!");
  _ ← on_wd (on_kern (Kmem.Buffer_drop fuel read_buffer));
  (* [bytes] is dropped: the block is freed a second time *)
  on_wd (on_kern (Kmem.OsGlobalAlloc_dealloc fuel buffer)).

Definition test_write_file (file_path content : list Z) (inode_num : Z) : Y unit :=
  _ ← prln [];
  _ ← print_divider (Fmt.str "Writing to file");
  _ ← prln (file_path ++ Fmt.str ":");
  r ← on_fs (MinixDir.open 8 file_path);
  inode ← lift (ok r);
  buffer ← on_wd (vec_of content);
  let len := zlen content in
  b ← on_wd (FsProc.load_bytes buffer len);
  '(bytes_write, inode) ← on_fs (MinixWrite.write 8 inode b (as_u32 len) 0);
  let memory := le_enc 4 (as_u32 len) in
  o ← lift (get_inode_offset inode_num);
  _ ← on_fs (syc_write 8 memory 4 (as_u32 o));
  _ ← on_fs (MinixDir.refresh depth 8);
  _ ← prln (Fmt.str "write bytes: " ++ Fmt.dec bytes_write);
  _ ← on_wd (on_kern (Kmem.kfree fuel buffer));
  (* [bytes] is dropped: the block is freed a second time *)
  on_wd (on_kern (Kmem.OsGlobalAlloc_dealloc fuel buffer)).

(** [{:?}] of the stat of an inode *)
Definition show_inode_stat (inode : Inode) : Y unit :=
  let s := stat inode in
  prln (Fmt.str "Stat { mode: " ++ Fmt.dec (st_mode s) ++ Fmt.str ", size: " ++ Fmt.dec (st_size s) ++
        Fmt.str ", uid: " ++ Fmt.dec (st_uid s) ++ Fmt.str ", gid: " ++ Fmt.dec (st_gid s) ++ Fmt.str " }").

Definition test_func : Y unit :=
  i ← lift (get_imap_offset 2);
  _ ← prln (Fmt.str "Inode 2 imap offset: " ++ Fmt.hex i);
  o ← lift (get_inode_offset 2);
  _ ← prln (Fmt.str "Inode 2 offset: " ++ Fmt.hex o);
  p ← on_wd (vec_of (Fmt.str "ok"));
  b ← on_wd (FsProc.load_bytes p 2);
  _ ← on_fs (syc_write 8 b 2 0xae010);
  on_wd (on_kern (Kmem.OsGlobalAlloc_dealloc fuel p)).

Definition test_delete_file (file_path : list Z) (inode_num : Z) : Y unit :=
  _ ← prln [];
  _ ← print_divider (Fmt.str "Delete file");
  num_dirents ← on_fs (MinixDir.delete_file depth 8 file_path inode_num);
  _ ← match num_dirents with
      | Some n => prln (Fmt.str "num_dirents: " ++ Fmt.dec n)
      | None => mret tt
      end;
  prln (file_path ++ Fmt.str " deleted").

Definition test_create_file (cwd filename : list Z) : Y unit :=
  _ ← prln [];
  _ ← print_divider (Fmt.str "Create file");
  _ ← on_fs (MinixDir.create depth 8 cwd filename);
  prln (filename ++ Fmt.str " created").

(** [MinixFileSystem::init] with the line it prints. *)
Definition fs_init (bdev : Z) : Y unit :=
  already ← on_fs (MinixDir.init depth bdev);
  if already : bool
  then prln (Fmt.str "KERNEL: Initialized an already initialized filesystem " ++ Fmt.dec bdev)
  else mret tt.

Definition test : Y unit :=
  _ ← fs_init 8;
  _ ← greetings;
  _ ← show_fs_info 8;
  _ ← test_create_file (Fmt.str "/") (Fmt.str "hello.txt");
  _ ← show_all_file_paths 8;
  _ ← test_block_driver;
  _ ← test_read_file_with_inode 5;
  _ ← test_open_file (Fmt.str "/hello.txt");
  _ ← test_open_file (Fmt.str "/my_folder/file_3.txt");
  _ ← test_write_file (Fmt.str "/hello.txt") (Fmt.str "Can you fry eggs on mount Everest?......") 2;
  _ ← test_open_file (Fmt.str "/hello.txt");
  _ ← test_delete_file (Fmt.str "/file.txt") 3;
  show_all_file_paths 8.

End Test.

(** ** What the tests print *)

Section Props.
Context `{Profile} `{Linker} `{Bus} {D : Type} `{BlockService D} `{Heap}.
Abbreviation Y := (M (sys D)).

(** [c] returns [a], prints [text] and leaves the file system in the state [f]. *)
Definition tells {A} (c : Y A) (y : sys D) (a : A) (text : list Z) (f : fs_state D) : Prop :=
  c y = Done (a, mkSys (said text (wd y)) f).

Lemma tells_bind {A B} (c : Y A) (k : A -> Y B) y a b t1 t2 f1 f2 :
  tells c y a t1 f1 -> tells (k a) (mkSys (said t1 (wd y)) f1) b t2 f2 ->
  tells (c ≫= k) y b (t1 ++ t2) f2.
Proof. unfold tells. intros E1 E2. erewrite bind_done by exact E1. rewrite E2. cbn [wd]. by rewrite said_app. Qed.

Lemma tells_ret {A} (a : A) y : tells (mret a) y a [] (fss y).
Proof. unfold tells. rewrite said_nil. by destruct y. Qed.

Lemma tells_pr text y : tells (pr text) y tt text (fss y).
Proof. unfold tells, pr. rewrite (on_wd_done _ _ _ _ (Uart.print_ok _ _)). by destruct y. Qed.

Lemma tells_prln text y : tells (prln text) y tt (text ++ Fmt.crlf) (fss y).
Proof. unfold tells, prln. rewrite (on_wd_done _ _ _ _ (Uart.println_ok _ _)). by destruct y. Qed.

(** A step of the file system prints nothing; neither does one that only checks. *)
Lemma tells_fs {A B} (c : M (fs_state D) A) (k : A -> Y B) y a b t f1 f2 :
  c (fss y) = Done (a, f1) -> tells (k a) (mkSys (wd y) f1) b t f2 -> tells (on_fs c ≫= k) y b t f2.
Proof.
  unfold tells. intros E1 E2. erewrite bind_done by (by apply on_fs_done). exact E2.
Qed.

Lemma tells_lift {A B} (o : outcome A) (k : A -> Y B) y a b t f :
  o = Done a -> tells (k a) y b t f -> tells (lift o ≫= k) y b t f.
Proof. unfold tells. intros E1 E2. by erewrite bind_done by (by apply lift_done). Qed.

Lemma tells_text {A} (c : Y A) y a t t' f : t = t' -> tells c y a t f -> tells c y a t' f.
Proof. by intros ->. Qed.

Lemma print_chars_ok b : forall k i y, 0 <= i -> i + Z.of_nat k <= zlen b ->
  tells (print_chars b k i) y tt (take k (drop (Z.to_nat i) b) ≫= Fmt.char) (fss y).
Proof.
  induction k as [|k IH]; intros i y Hi Hl; [apply tells_ret|]. cbn [print_chars].
  destruct (lookup_lt_is_Some_2 b (Z.to_nat i) ltac:(lia)) as [c Ec].
  eapply tells_lift; [by rewrite Ec|].
  rewrite (drop_S b c (Z.to_nat i)) by done. cbn [take]. rewrite bind_cons.
  eapply tells_bind; [apply tells_pr|]. cbn [fss].
  replace (S (Z.to_nat i)) with (Z.to_nat (i + 1)) by lia.
  exact (IH (i + 1) (mkSys _ (fss y)) ltac:(lia) ltac:(lia)).
Qed.

(** The line [print_divider] prints. *)
Definition divider (string : list Z) : list Z :=
  let p := (34 - zlen string) / 2 in
  dashes ++ Fmt.str "<" ++ spaces p ++ [32] ++ string ++ [32] ++
  spaces (p + zlen string mod 2) ++ Fmt.str ">" ++ dashes.

Lemma divider_ok string y : zlen string <= 34 ->
  tells (print_divider string) y tt (divider string ++ Fmt.crlf) (fss y).
Proof.
  intros Hl. unfold print_divider, divider.
  pose proof (Z.mod_pos_bound (zlen string) 2 ltac:(lia)).
  pose proof (Z.div_pos (34 - zlen string) 2 ltac:(lia) ltac:(lia)).
  pose proof (Z.mul_div_le (34 - zlen string) 2 ltac:(lia)).
  eapply tells_lift; [apply uint_ok; lia|]. eapply tells_lift; [apply uint_ok; lia|].
  replace (40 - zlen string - 6) with (34 - zlen string) by lia.
  replace (if zlen string mod 2 =? 0 then 0 else 1) with (zlen string mod 2)
    by (destruct (Z.eqb_spec (zlen string mod 2) 0); lia).
  eapply tells_lift; [apply uint_ok; lia|]. apply tells_prln.
Qed.

(** A text of at most 34 bytes is printed in the middle of a line of 84 bytes, with
    one space more to the right when its length is odd; print_divider of a longer
    text underflows, which panics where overflow is checked. *)
Theorem divider_width string (y : sys D) :
  (zlen string <= 34 ->
   print_divider string y = Done (tt, with_wd (said (divider string ++ Fmt.crlf) (wd y)) y) /\
   zlen (divider string) = 84) /\
  (34 < zlen string -> overflow_checks = true -> print_divider string y = Panic).
Proof.
  split.
  - intros Hl. split; [rewrite (divider_ok string y Hl); by destruct y|].
    unfold divider, dashes, spaces. rewrite !length_app, !length_replicate. cbn [length Fmt.str].
    Z.to_euclidean_division_equations. lia.
  - intros Hl Hp. unfold print_divider.
    assert (forall z, z < 0 -> usize z = Panic) as Hneg.
    { intros z Hz. unfold uint. by rewrite (proj2 (Z.leb_gt 0 z)), Hp by done. }
    destruct (Z.lt_ge_cases (40 - zlen string) 0) as [Hlt|Hge].
    + unfold mbind, M_bind, lift. by rewrite Hneg.
    + erewrite bind_done by (apply lift_done, uint_ok; lia). unfold mbind, M_bind, lift.
      by rewrite Hneg by lia.
Qed.

Context `{!BlockLaws D} `{!HeapLaws}.

(** The text around the bytes [l] of a file of [size] bytes. *)
Definition shown (path : list Z) (size : Z) (l : list Z) : list Z :=
  Fmt.crlf ++ divider (Fmt.str "Open and read file") ++ Fmt.crlf ++
  path ++ Fmt.str " opened" ++ Fmt.crlf ++ Fmt.crlf ++ path ++ Fmt.crlf ++
  Fmt.str "file size: " ++ Fmt.dec size ++ Fmt.crlf ++
  Fmt.str "read size: " ++ Fmt.dec (zlen l) ++ Fmt.crlf ++ (l ≫= Fmt.char) ++ Fmt.crlf.

(** C40: test_open_file prints the size of the file the path cache has at the path
    and its first bytes, as many as a block holds, as the disk has them up to the
    last whole word, and changes neither disk nor cache; for a path that is not in
    the cache it panics. *)
Theorem open_file_shows path y btm :
  let d := disks (fss y) in let c := content d 8 in
  dev_ok 8 (fss y) -> disk_ok d 8 -> cache (fss y) !! 7%nat = Some (Some btm) ->
  match btm !! path with
  | None => test_open_file path y = Panic
  | Some ino =>
      let zs := data_zones c ino in
      let cnt := read_count zs (Z.min BLOCK_SIZE (isize ino)) 0 in
      inode_ok c (capacity d 8) ino -> 0 <= isize ino ->
      exists l f, test_open_file path y = Done (tt, mkSys (said (shown path (isize ino) l) (wd y)) f) /\
        disks f = d /\ cache f = cache (fss y) /\ zlen l = cnt /\
        forall j, 0 <= j < Cpu.memcpy_len cnt -> nthZ l j = file_byte c zs j
  end.
Proof.
  intros d c Hdev Hd Hc. set (f1 := bump 1 (fss y)).
  assert (MinixDir.open 8 path f1 = Done (match btm !! path with Some ino => inr ino | None => inl FileNotFound end, f1))
    as Eo by (by apply open_ok).
  destruct (btm !! path) as [ino|]; [intros zs cnt Hino Hsz|].
  - set (buf := fresh_block (nalloc (fss y)) BLOCK_SIZE).
    assert (zlen buf = 1024) as Lb by (unfold buf; by rewrite fresh_length).
    destruct (read_ok 8 ino buf BLOCK_SIZE 0 f1) as (cnt' & b & Er & [Hcnt Hlen Hnew _]);
      [done|done|lia|done|unfold BLOCK_SIZE; lia|unfold BLOCK_SIZE; lia|].
    change (content (disks f1) 8) with c in *. fold zs cnt in Hcnt. subst cnt'.
    assert (0 <= cnt <= 1024) as Hc01 by (unfold cnt, read_count, BLOCK_SIZE; lia).
    exists (take (Z.to_nat cnt) b), (bump 4 f1).
    assert (zlen (take (Z.to_nat cnt) b) = cnt) as Lt by (rewrite length_take; lia).
    split_and!; [|done|done|done|].
    + unfold test_open_file. eapply tells_text; cycle 1.
      { eapply tells_bind; [apply tells_prln|]. eapply tells_bind; [by apply divider_ok|].
        eapply tells_bind; [apply tells_prln|]. eapply tells_fs; [reflexivity|]. eapply tells_fs; [exact Eo|].
        eapply tells_lift; [reflexivity|]. eapply tells_fs; [exact Er|]. cbn beta iota.
        do 4 (eapply tells_bind; [apply tells_prln|]).
        eapply tells_bind; [apply (print_chars_ok b (Z.to_nat cnt) 0); lia|apply tells_prln]. }
      unfold shown. rewrite Lt. change (Z.to_nat 0) with 0%nat. rewrite drop_0, <- !app_assoc. done.
    + intros j Hj. pose proof (Cpu.memcpy_len_bounds cnt ltac:(lia)).
      etransitivity; [|exact (Hnew j Hj)]. unfold nthZ. by rewrite lookup_take_lt by lia.
  - unfold test_open_file. erewrite bind_done by apply tells_prln.
    erewrite bind_done by (by apply divider_ok). erewrite bind_done by apply tells_prln.
    erewrite bind_done by reflexivity. erewrite bind_done by (by apply on_fs_done). done.
Qed.
End Props.
End TestProc.
