(* ===== verification/FsProcProps.v ===== *)
(** * A file read on behalf of a process *)

From S2P Require Import Prelude Memory Cpu PageAlloc PageProps Kmem KmemFacts KmemProps KmemSpec KmemUse.
From S2P Require Import Mmu MinixLayout Lock Process ProcessProps Console World Boxes Uart BlockIo MinixRead MinixWrite.
From S2P Require Import Virtio Block BlockProps BlockDone FsProc.
Import Mem KmemFacts KmemProps KmemUse Layout Io MinixRead Process World Boxes BlockDone FsProc.

Module FsProcProps.

(** Where a file may be read to: outside of the heap, away from the trap frames. *)
Record buffer_ok (k : kernel) (l : list process) (b n : Z) : Prop := {
  bo_null : b <> 0;
  bo_heap x : b <= x < b + n -> outside k x;
  bo_frames : Forall (fun q => Virtio.apart b n (frame q) 4096) l;
}.

(** Trap frames are outside of the heap, and no register of one is the pid of
    another. *)
Record frames_sep (k : kernel) (p : process) (l : list process) : Prop := {
  fs_heap x : frame p <= x < frame p + 4096 -> outside k x;
  fs_pid : Forall (fun q => Virtio.apart (frame p) 544 (frame q + 544) 8) l;
}.

Section Watched.
Context (s : world) (w : Z) (l1 : list process) (p : process) (l2 : list process).
Hypothesis Hwt : watched s w l1 p l2.

Lemma watched_memory m :
  Forall (fun q => rd64 m (pid_addr (frame q)) = rd64 (mem_of s) (pid_addr (frame q))) (l1 ++ p :: l2) ->
  watched (with_memory m s) w l1 p l2.
Proof.
  intros Hm. destruct Hwt as [El Epid Hb Hf Hfr]. split; try done.
  rewrite mem_of_with_memory, <- Hf. by apply find_pid_ext.
Qed.

Lemma answer_ok v :
  answer w v s = Done (tt, with_memory (wrn 8 (mem_of s) (frame p + 80) v) s).
Proof.
  destruct Hwt as [El Epid Hb Hf Hfr]. unfold answer.
  erewrite bind_done.
  2:{ apply (zoom_done procs_of with_procs). unfold get_by_pid, gets. rewrite El.
      change (mem (kern (procs_of s))) with (mem_of s). rewrite Hf. reflexivity. }
  replace (with_procs (procs_of s) s) with s by (by destruct s as [[]]).
  cbn iota. erewrite bind_done by reflexivity. rewrite El.
  erewrite bind_done by reflexivity.
  erewrite bind_done by (apply lift_done; by rewrite list_lookup_middle).
  by apply save_ok.
Qed.
End Watched.

Section Read.
Context `{Profile} `{Linker} {D : Type} `{BlockService D} `{Heap} `{!BlockLaws D} `{!HeapLaws}.
Context `{Repr ProcArgs} (fuel : nat).

(** The end of [read_proc] and [write_proc]: the answer is in a0, the process runs,
    and the box of the arguments is gone. *)
Lemma finish_ok s cs a z w v l1 p l2 :
  heap_ok (kern_of s) cs -> (length cs < fuel)%nat ->
  (a - 8, z) ∈ live (KMEM_HEAD (kern_of s)) cs ->
  watched s w l1 p l2 -> frames_sep (kern_of s) p (l1 ++ p :: l2) -> 0 <= v < 2 ^ 64 ->
  exists m cs',
    (_ ← answer w v; _ ← on_procs (set_running w); Box_drop fuel a) s =
      Done (tt, with_memory m (running s l1 p l2)) /\
    heap_ok (with_mem m (kern_of s)) cs' /\
    live (KMEM_HEAD (kern_of s)) cs ≡ₚ (a - 8, z) :: live (KMEM_HEAD (kern_of s)) cs' /\
    rdn 8 m (frame p + 80) = v /\
    (forall x, outside (kern_of s) x -> x < frame p + 80 \/ frame p + 88 <= x ->
       byte m x = byte (mem_of s) x).
Proof.
  intros Hok Hf Hin Hwt [Hfh Hfp] Hv.
  set (m1 := wrn 8 (mem_of s) (frame p + 80) v).
  assert (heap_ok (with_mem m1 (kern_of s)) cs) as Hok1.
  { apply heap_write; [done|]. intros x Hx _. unfold m1. apply byte_wrn_out.
    destruct (Z.lt_ge_cases x (frame p + 80)); [by left|].
    destruct (Z.lt_ge_cases x (frame p + 88)); [|right; lia]. destruct Hx. apply Hfh. lia. }
  assert (watched (with_memory m1 s) w l1 p l2) as Hwt1.
  { apply watched_memory; [done|]. eapply Forall_impl; [exact Hfp|]. intros q Hq. cbn beta in Hq.
    apply rd64_ext. intros x Hx. unfold m1. apply byte_wrn_out.
    unfold pid_addr, Virtio.apart in *. lia. }
  destruct (heap_put (with_mem m1 (kern_of s)) cs fuel a z Hok1 Hf Hin)
    as (m & cs' & E & Hok' & Hl & Hout & _ & _).
  exists m, cs'. split_and!; [|exact Hok'|exact Hl|..].
  - erewrite bind_done by (by eapply answer_ok). fold m1.
    erewrite bind_done by (by apply watched_run).
    exact (zoom_done kern_of with_kern _ (with_memory m1 (running s l1 p l2)) _ _ E).
  - rewrite <- (rdn_wrn 8 (mem_of s) (frame p + 80) v) by done. fold m1.
    apply rdn_ext. intros x Hx. apply Hout, Hfh. lia.
  - intros x Hx Hfx. rewrite (Hout x Hx). cbn [mem with_mem]. unfold m1. apply byte_wrn_out. lia.
Qed.

(** Writing into the buffer keeps the heap, the list and the frames. *)
Lemma buffer_written s cs w l1 p l2 b n l :
  heap_ok (kern_of s) cs -> watched s w l1 p l2 -> frames_sep (kern_of s) p (l1 ++ p :: l2) ->
  buffer_ok (kern_of s) (l1 ++ p :: l2) b n -> zlen l = n ->
  let m1 := store (mem_of s) b l in
  heap_ok (with_mem m1 (kern_of s)) cs /\ watched (with_memory m1 s) w l1 p l2 /\
  frames_sep (kern_of (with_memory m1 s)) p (l1 ++ p :: l2).
Proof.
  intros Hok Hwt Hsep [_ Hbh Hbf] Hl m1.
  assert (forall x, x < b \/ b + n <= x -> byte m1 x = byte (mem_of s) x) as Hm1.
  { intros x Hx. apply byte_store_out. lia. }
  split_and!.
  - apply heap_write; [done|]. intros x Hx _. apply Hm1.
    destruct (Z.lt_ge_cases x b); [by left|].
    destruct (Z.lt_ge_cases x (b + n)); [|by right]. destruct Hx. apply Hbh. lia.
  - apply watched_memory; [done|]. eapply Forall_impl; [exact Hbf|]. intros q Hq. cbn beta in Hq.
    apply rd64_ext. intros x Hx. apply Hm1. unfold pid_addr, Virtio.apart in *. lia.
  - split; [exact (fs_heap _ _ _ Hsep)|exact (fs_pid _ _ _ Hsep)].
Qed.

(** C10: The kernel process of a file read at an offset that is a multiple of eight
    puts the bytes of the file into the buffer of the process that asked, as many as
    memcpy copies of the count (all of it below eight, else the whole words), wakes
    that process with the count in a0 and frees its arguments; the disk and the path
    cache do not change. *)
Theorem read_proc_delivers (y : sys D) cs a z args l1 p l2 :
  let s := wd y in let d := disks (fss y) in
  let c := content d (a_dev args) in
  let ino := inode_on c (a_node args) in
  let zs := data_zones c ino in
  let cnt := read_count zs (Z.min (a_size args) (isize ino)) (a_offset args) in
  heap_ok (kern_of s) cs -> (length cs < fuel)%nat ->
  (a - 8, z) ∈ live (KMEM_HEAD (kern_of s)) cs -> a <> 0 ->
  decode (bytes_at (byte (mem_of s)) a (size_of ProcArgs)) = args ->
  watched s (a_pid args) l1 p l2 -> frames_sep (kern_of s) p (l1 ++ p :: l2) ->
  buffer_ok (kern_of s) (l1 ++ p :: l2) (a_buffer args) (a_size args) ->
  volume_ok d (a_dev args) -> inode_num_ok d (a_dev args) (a_node args) ->
  inode_ok c (capacity d (a_dev args)) ino ->
  0 <= a_size args < 2 ^ 32 -> 0 <= a_offset args -> a_offset args mod 8 = 0 ->
  exists y' cs', read_proc fuel a y = Done (tt, y') /\
    disks (fss y') = d /\ cache (fss y') = cache (fss y) /\
    PROCESS_LIST (procs_of (wd y')) = Some (l1 ++ with_state Running p :: l2) /\
    rdn 8 (mem_of (wd y')) (reg_addr (frame p) Cpu.A0) = cnt /\
    (forall j, 0 <= j < Cpu.memcpy_len cnt ->
       byte (mem_of (wd y')) (a_buffer args + j) = file_byte c zs (a_offset args + j)) /\
    heap_ok (kern_of (wd y')) cs' /\
    live (KMEM_HEAD (kern_of s)) cs ≡ₚ (a - 8, z) :: live (KMEM_HEAD (kern_of s)) cs'.
Proof.
  intros s d c ino zs cnt Hok Hf Hin Hnz Hargs Hwt Hsep Hbuf Hvol Hnum Hino Hsz Hoff Hal.
  pose proof Hbuf as [Hbn Hbh Hbf].
  set (b := a_buffer args) in *. set (n := a_size args) in *.
  pose proof (content_byte d (a_dev args)) as Hcb.
  assert (0 <= isize ino < 2 ^ 32) as Hisz.
  { apply (wf_size _ (decode_inode_wf _ (Forall_bytes_at _ _ _ _ Hcb))). }
  set (buf := bytes_at (byte (mem_of s)) b n).
  assert (zlen buf = n) as Hlb by (unfold buf; rewrite length_bytes_at; lia).
  destruct (read_ok (a_dev args) ino buf n (a_offset args) (bump 1 (fss y)))
    as (cnt' & buf' & Er & [Hcnt Hlen Hnew Hold]); cbn [bump disks]; fold d c; try (done || lia).
  { apply Hvol. }
  cbn [bump disks] in Hcnt, Hnew. fold d c zs cnt in Hcnt, Hnew. subst cnt'.
  set (m1 := store (mem_of s) b buf').
  destruct (buffer_written s cs (a_pid args) l1 p l2 b n buf' Hok Hwt Hsep Hbuf ltac:(lia))
    as (Hok1 & Hwt1 & Hsep1). fold m1 in Hok1, Hwt1, Hsep1.
  assert (0 <= cnt < 2 ^ 64) as Hc64 by (unfold cnt, read_count; lia).
  destruct (finish_ok (with_memory m1 s) cs a z (a_pid args) cnt l1 p l2 Hok1 Hf Hin Hwt1 Hsep1 Hc64)
    as (m & cs' & Ef & Hok' & Hl & Ha0 & Hb).
  exists (mkSys (with_memory m (running (with_memory m1 s) l1 p l2)) (bump 5 (fss y))), cs'.
  split_and!; [|done|done|done|exact Ha0| |exact Hok'|exact Hl].
  - apply bind_inv in Ef as ([] & sa & Ea & Ef). apply bind_inv in Ef as (r & sb & Eb & Ec).
    unfold read_proc. erewrite bind_done by (apply on_wd_id; by apply Box_read_ok).
    erewrite bind_done by (apply on_fs_done; by apply get_inode_ok). fold d c ino.
    erewrite bind_done by reflexivity. fold b n.
    erewrite bind_done by (apply on_wd_id; reflexivity).
    erewrite bind_done by (apply on_fs_done; exact Er). cbn beta iota.
    erewrite bind_done by (apply lift_done; unfold usable; by rewrite (proj2 (Z.eqb_neq _ _) Hbn)).
    erewrite bind_done by (apply on_wd_done; reflexivity).
    erewrite bind_done by (apply on_wd_done; exact Ea).
    erewrite bind_done by (apply on_wd_done; exact Eb).
    exact (on_wd_done _ (mkSys sb (bump 5 (fss y))) _ _ Ec).
  - intros j Hj. cbn [wd]. rewrite mem_of_with_memory.
    assert (cnt <= n) as Hcn by (unfold cnt, read_count; lia).
    pose proof (Cpu.memcpy_len_bounds cnt ltac:(lia)) as Hml.
    assert (p ∈ l1 ++ p :: l2) as Hp by (apply elem_of_app; right; by left).
    pose proof (proj1 (Forall_forall _ _) Hbf p Hp) as Hap. unfold Virtio.apart in Hap.
    etransitivity; [apply Hb; [apply Hbh; lia|lia]|]. rewrite mem_of_with_memory.
    unfold m1. rewrite byte_stored by lia. by apply Hnew.
Qed.
End Read.
End FsProcProps.
