(* ===== verification/Syscall.v ===== *)
(** * syscall.rs: the system calls

    A call gets the trap frame of the process; its arguments are registers of
    the frame and so is its result.  Each arm of [do_syscall] is a definition
    of its own. *)

From S2P Require Import Prelude Memory Cpu PageAlloc Kmem Mmu MinixLayout Lock Process Console World Boxes Uart.
From S2P Require Import BlockIo MinixRead MinixDir Elf Virtio Block Input Gpu FsProc.
Import Mem Layout Io Process World Boxes.

(** An [Inode] in memory, as on the disk: the struct is [repr(C)]. *)
#[export] Instance Inode_repr : Repr Inode := {|
  size_of := sizeof_Inode;
  encode := encode_inode;
  decode := decode_inode;
|}.

Module Syscall.
Import (notations) String.

Definition satp_off : Z := 512.
Definition pc_off : Z := 520.
Definition pid_off : Z := 544.

(** [-1isize as usize] *)
Definition minus1 : Z := 2 ^ 64 - 1.

(** An [Event] in memory. *)
Definition encode_event (e : Event) : list Z :=
  le_enc 2 (event_type e) ++ le_enc 2 (code e) ++ le_enc 4 (value e).
Definition sizeof_Event : Z := 8.

(** Adding to a pointer: leaving the address space is undefined. *)
Definition ptr_add (p n : Z) : outcome Z := _ ← valid (p + n <? 2 ^ 64); Done (p + n).

(** Adding at type i32. *)
Definition i32_add `{Profile} (a b : Z) : outcome Z :=
  let z := a + b in
  if (- 2 ^ 31 <=? z) && (z <? 2 ^ 31) then Done z
  else if overflow_checks then Panic else Done ((z + 2 ^ 31) mod 2 ^ 32 - 2 ^ 31).

(** ** Processes as fields of the state *)

Definition upd_data (f : ProcessData -> ProcessData) (p : process) : process :=
  mkProcess (frame p) (stack p) (pid p) (mmu_table p) (state p) (f (data p)) (sleep_until p)
    (program p) (brk p).
Definition with_brk (b : Z) (p : process) : process :=
  mkProcess (frame p) (stack p) (pid p) (mmu_table p) (state p) (data p) (sleep_until p)
    (program p) b.
Definition with_fdesc (m : gmap Z Process.Descriptor) (d : ProcessData) : ProcessData :=
  mkData (environ d) m (cwd d) (pages d).
Definition push_page (a : Z) (d : ProcessData) : ProcessData :=
  mkData (environ d) (fdesc d) (cwd d) (pages d ++ [a]).

(** The process at place [k] of the list: reading and changing it. *)
Definition proc_at (k : nat) : W process :=
  s ← get;
  pl ← lift (unwrap (PROCESS_LIST (procs_of s)));
  lift (unwrap (pl !! k)).
Definition set_proc (k : nat) (f : process -> process) : W unit :=
  modify (fun s => with_procs (with_list (alter f k <$> PROCESS_LIST (procs_of s)) (procs_of s)) s).

(** [frame.pid as u16] *)
Definition frame_pid (f : Z) : W Z := p ← load 8 f pid_off; mret (as_u16 p).
Definition reg (f : Z) (r : Cpu.Registers) : W Z := load 8 f (8 * Cpu.gp r).
Definition set_reg (f : Z) (r : Cpu.Registers) (v : Z) : W unit := save 8 f (8 * Cpu.gp r) v.

(** [get_by_pid(pid).as_ref().unwrap()], and a plain dereference. *)
Definition my_proc (f : Z) : W nat :=
  p ← frame_pid f;
  o ← on_procs (get_by_pid p);
  lift (unwrap o).
Definition deref_proc (f : Z) : W nat :=
  p ← frame_pid f;
  o ← on_procs (get_by_pid p);
  lift (deref o).

(** [frame.satp >> 60 != 0] *)
Definition mmu_on (f : Z) : W bool :=
  v ← load 8 f satp_off;
  mret (negb (Z.shiftr v 60 =? 0)).

(** [p.mmu_table.as_ref().unwrap()] *)
Definition table_of (k : nat) : W Z :=
  p ← proc_at k;
  _ ← lift (unwrap (if mmu_table p =? 0 then None else Some tt));
  mret (mmu_table p).
Definition translate (table vaddr : Z) : W (option Z) :=
  s ← get;
  lift (Mmu.virt_to_phys (mem_of s) table vaddr).

(** The physical address for an address of the process at place [k]. *)
Definition mapped (k : nat) (on : bool) (a : Z) : W (option Z) :=
  if on then table ← table_of k; translate table a else mret (Some a).

Section Syscall.
Context `{Profile} `{Linker} `{Clock} `{Bus} `{Gpu.ReqLayout}.
Context {D : Type} `{BlockService D} `{Heap} `{Repr FsProc.ProcArgs}.
(** Fuel: chunks of the heap, pages of an allocation, bytes of a path. *)
Context (fuel : nat).
(** Addresses of functions, placed by the linker. *)
Context (ra_delete_proc read_proc_fn write_proc_fn exec_func_fn : Z).
Abbreviation Y := (M (sys D)).

(** ** Processes *)

(** 93 and 94 *)
Definition sys_exit (f : Z) : W unit :=
  p ← frame_pid f;
  on_procs (delete_process fuel p).

(** 2 *)
Definition sys_putchar (f : Z) : W unit :=
  c ← reg f Cpu.A0;
  Uart.print (Fmt.char (as_u8 c)).

(** cpu.rs: registers 1 to 31 of the frame, four to a line. *)
Fixpoint dump_loop (f : Z) (k : nat) (i : Z) : W unit :=
  match k with
  | O => mret tt
  | S k' =>
      _ ← (if i mod 4 =? 0 then _ ← Uart.println []; Uart.print (Fmt.str "   ") else mret tt);
      v ← load 8 f (8 * i);
      _ ← Uart.print (Fmt.str "x" ++ Fmt.pad 32 2 (Fmt.dec i) ++ Fmt.str ":" ++ Fmt.hex08 v ++
                        Fmt.str "   ");
      dump_loop f k' (i + 1)
  end.

(** 8 *)
Definition dump_registers (f : Z) : W unit :=
  _ ← Uart.print (Fmt.str "   ");
  _ ← dump_loop f 31 1;
  Uart.println [].

(** 10 *)
Definition sys_sleep (f : Z) : W unit :=
  p ← frame_pid f;
  d ← reg f Cpu.A0;
  _ ← on_procs (set_sleeping p d);
  mret tt.

(** The bytes up to the first zero as a string; [k] bounds the loop. *)
Fixpoint read_path (k : nat) (a i : Z) : W (list Z) :=
  match k with
  | O => lift NoFuel
  | S k' =>
      ch ← load 1 a i;
      if ch =? 0 then mret []
      else rest ← read_path k' a (i + 1); mret (MinixDir.push_char ch ++ rest)
  end.

(** The path's address, translated when the MMU is on. *)
Definition physical (f : Z) (on : bool) (path_addr : Z) : W Z :=
  if on then
    k ← deref_proc f;
    table ← table_of k;
    o ← translate table path_addr;
    lift (unwrap o)
  else mret path_addr.

(** 11 *)
Definition sys_execv (f : Z) : Y unit :=
  path_addr ← on_wd (reg f Cpu.A0);
  on ← on_wd (mmu_on f);
  path_addr ← on_wd (physical f on path_addr);
  path ← on_wd (read_path fuel path_addr 0);
  r ← on_fs (MinixDir.open 8 path);
  match r with
  | inr inode =>
      inode_heap ← on_wd (Box_new fuel inode);
      _ ← on_wd (on_procs (add_kernel_process_args ra_delete_proc exec_func_fn inode_heap));
      p ← on_wd (frame_pid f);
      on_wd (on_procs (delete_process fuel p))
  | inl _ =>
      _ ← on_wd (Uart.println (Fmt.str "Could not open path '" ++ path ++ Fmt.str "'."));
      on_wd (set_reg f Cpu.A0 minus1)
  end.

(** [for i in process.data.cwd.as_bytes()] *)
Fixpoint cwd_loop (buf size : Z) (l : list Z) (iter : Z) : W unit :=
  match l with
  | [] => mret tt
  | i :: l' =>
      if (iter =? 0) || (size <=? iter) then mret tt
      else _ ← save 1 buf iter i; cwd_loop buf size l' (iter + 1)
  end.

(** 17 *)
Definition sys_getcwd (f : Z) : W unit :=
  buf ← reg f Cpu.A0;
  size ← reg f Cpu.A1;
  k ← my_proc f;
  on ← mmu_on f;
  buf ← mapped k on buf;
  match buf with
  | None => set_reg f Cpu.A0 minus1
  | Some buf =>
      p ← proc_at k;
      cwd_loop buf size (cwd (data p)) 0
  end.

(** ** Files *)

(** 57 *)
Definition sys_close (f : Z) : W unit :=
  fd ← reg f Cpu.A0;
  let fd := as_u16 fd in
  k ← my_proc f;
  p ← proc_at k;
  match fdesc (data p) !! fd with
  | Some _ =>
      _ ← set_proc k (upd_data (fun d => with_fdesc (delete fd (fdesc d)) d));
      set_reg f Cpu.A0 0
  | None => set_reg f Cpu.A0 minus1
  end.

(** The buffer of calls 63 and 65, in physical memory; [None] when the page is
    not mapped. *)
Definition user_buffer (f : Z) : W (option Z) :=
  physical_buffer ← reg f Cpu.A2;
  on ← mmu_on f;
  if (on : bool) then
    k ← deref_proc f;
    table ← table_of k;
    v ← reg f Cpu.A2;
    translate table v
  else mret (Some physical_buffer).

(** The process that reads or writes the file, with the arguments of the call. *)
Definition file_call (process : Z -> Z -> Z -> Z -> Z -> Z -> W unit) (f : Z) : W unit :=
  b ← user_buffer f;
  match b with
  | None => set_reg f Cpu.A0 minus1
  | Some physical_buffer =>
      p ← frame_pid f;
      dev ← reg f Cpu.A0;
      node ← reg f Cpu.A1;
      size ← reg f Cpu.A3;
      offset ← reg f Cpu.A4;
      process p dev (as_u32 node) physical_buffer (as_u32 size) (as_u32 offset)
  end.

(** 63 *)
Definition sys_read (f : Z) : W unit :=
  file_call (FsProc.process_read fuel ra_delete_proc read_proc_fn) f.

(** [for i in 0..size]: the bytes looked at, as an i32. *)
Fixpoint write_loop (f : Z) (p : nat) (buf : Z) (k : nat) (i iter : Z) : W Z :=
  match k with
  | O => mret iter
  | S k' =>
      iter ← lift (i32_add iter 1);
      on ← mmu_on f;
      if (on : bool) then
        table ← table_of p;
        a ← lift (ptr_add buf i);
        paddr ← translate table a;
        match paddr with
        | Some bufaddr =>
            c ← load 1 bufaddr 0;
            _ ← Uart.print (Fmt.char c);
            write_loop f p buf k' (i + 1) iter
        | None => mret iter
        end
      else write_loop f p buf k' (i + 1) iter
  end.

(** 64 *)
Definition sys_write (f : Z) : W unit :=
  fd ← reg f Cpu.A0;
  let fd := as_u16 fd in
  buf ← reg f Cpu.A1;
  size ← reg f Cpu.A2;
  k ← my_proc f;
  if (fd =? 1) || (fd =? 2) then
    iter ← write_loop f k buf (Z.to_nat size) 0 0;
    set_reg f Cpu.A0 (as_u64 iter)
  else
    p ← proc_at k;
    match fdesc (data p) !! fd with
    | None => set_reg f Cpu.A0 0
    | Some Framebuffer => mret tt
    | Some (File _) => mret tt
    | Some _ => set_reg f Cpu.A0 0
    end.

(** 65 *)
Definition sys_write_file (f : Z) : W unit :=
  _ ← Uart.println ([10] ++ Fmt.str "CALL WRITE FILE!");
  file_call (FsProc.process_write fuel ra_delete_proc write_proc_fn) f.

(** 172 *)
Definition sys_getpid (f : Z) : W unit :=
  p ← load 8 f pid_off;
  set_reg f Cpu.A0 p.

(** 180 and 181 *)
Definition sys_block (write : bool) (f : Z) : W unit :=
  p ← frame_pid f;
  _ ← on_procs (set_waiting p);
  dev ← reg f Cpu.A0;
  buffer ← reg f Cpu.A1;
  size ← reg f Cpu.A2;
  offset ← reg f Cpu.A3;
  _ ← Block.block_op fuel dev buffer (as_u32 size) offset write p;
  mret tt.

(** ** Memory *)

(** [for i in 0..diff] of [brk] *)
Fixpoint grow (k : nat) (table base : Z) (n : nat) (i : Z) : W unit :=
  match n with
  | O => mret tt
  | S n' =>
      new_addr ← on_kern (Page.zalloc 1);
      _ ← set_proc k (upd_data (push_page new_addr));
      va ← lift (usize (base + as_u64 (Z.shiftl i 12)));
      _ ← on_kern (Mmu.map table va new_addr (Mmu.EntryBits_val Mmu.UserReadWrite) 0);
      grow k table base n' (i + 1)
  end.

(** 214 *)
Definition sys_brk (f : Z) : W unit :=
  addr ← reg f Cpu.A0;
  k ← my_proc f;
  p ← proc_at k;
  _ ← (if brk p <? addr then
         on ← mmu_on f;
         _ ← (if (on : bool) then
                table ← table_of k;
                e ← lift (usize (addr + Page.PAGE_SIZE));
                d ← lift (usize (e - brk p));
                grow k table (brk p) (Z.to_nat (d / Page.PAGE_SIZE)) 0
              else mret tt);
         set_proc k (with_brk addr)
       else mret tt);
  p ← proc_at k;
  set_reg f Cpu.A0 (brk p).

(** [for i in 0..num_pages] of the framebuffer *)
Fixpoint map_fb (table ptr : Z) (n : nat) (i : Z) : W unit :=
  match n with
  | O => mret tt
  | S n' =>
      va ← lift (usize (0x30000000 + as_u64 (Z.shiftl i 12)));
      pa ← lift (usize (ptr + as_u64 (Z.shiftl i 12)));
      _ ← on_kern (Mmu.map table va pa (Mmu.EntryBits_val Mmu.UserReadWrite) 0);
      map_fb table ptr n' (i + 1)
  end.

(** 1000 *)
Definition sys_framebuffer (f : Z) : W unit :=
  dev ← reg f Cpu.A0;
  _ ← set_reg f Cpu.A0 0;
  if (0 <? dev) && (dev <=? 8) then
    slot ← Gpu.take_gpu dev;
    match slot with
    | Some p =>
        let ptr := Gpu.get_framebuffer p in
        on ← mmu_on f;
        _ ← (if (on : bool) then
               k ← deref_proc f;
               table ← table_of k;
               n ← lift (u32 (Gpu.get_width p * Gpu.get_height p));
               n ← lift (u32 (n * 4));
               _ ← map_fb table ptr (Z.to_nat (n / Page.PAGE_SIZE)) 0;
               Gpu.replace_gpu dev p
             else mret tt);
        set_reg f Cpu.A0 0x30000000
    | None => mret tt
    end
  else mret tt.

(** 1001 *)
Definition sys_transfer (f : Z) : W unit :=
  dev ← reg f Cpu.A0;
  x ← reg f Cpu.A1;
  y ← reg f Cpu.A2;
  width ← reg f Cpu.A3;
  height ← reg f Cpu.A4;
  Gpu.transfer fuel dev (as_u32 x) (as_u32 y) (as_u32 width) (as_u32 height).

(** ** Events *)

(** [for i in 0..num_events]: what is left of the queue. *)
Fixpoint copy_events (f table vaddr : Z) (n : nat) (i : Z) (ev : list Event) : W (list Event) :=
  match n with
  | O => mret ev
  | S n' =>
      a ← lift (ptr_add vaddr (sizeof_Event * i));
      paddr ← translate table a;
      match paddr with
      | None => mret ev
      | Some paddr =>
          e ← lift (unwrap (head ev));
          _ ← save_bytes paddr 0 (encode_event e);
          c ← reg f Cpu.A0;
          c ← lift (usize (c + 1));
          _ ← set_reg f Cpu.A0 c;
          copy_events f table vaddr n' (i + 1) (tail ev)
      end
  end.

(** Calls 1002 and 1004, on the queue that [sel] and [upd] name. *)
Definition sys_events (sel : world -> option (list Event))
    (upd : option (list Event) -> world -> world) (f : Z) : W unit :=
  s ← get;
  ev ← lift (unwrap (sel s));
  _ ← modify (upd None);
  max_events ← reg f Cpu.A1;
  vaddr ← reg f Cpu.A0;
  on ← mmu_on f;
  ev ← (if (on : bool) then
          k ← deref_proc f;
          table ← table_of k;
          _ ← set_reg f Cpu.A0 0;
          let num_events := if max_events <=? zlen ev then max_events else zlen ev in
          copy_events f table vaddr (Z.to_nat num_events) 0 ev
        else mret ev);
  modify (upd (Some ev)).

Definition sys_key_events : Z -> W unit := sys_events KEY_EVENTS with_key.
Definition sys_abs_events : Z -> W unit := sys_events ABS_EVENTS with_abs.

(** ** Opening *)

(** [for i in 0..256] *)
Fixpoint open_path (n : nat) (a i : Z) : W (list Z) :=
  match n with
  | O => mret []
  | S n' =>
      c ← load 1 a i;
      if c =? 0 then mret []
      else rest ← open_path n' a (i + 1); mret (MinixDir.push_char c ++ rest)
  end.

(** The largest key, at least 2. *)
Definition max_key (m : gmap Z Process.Descriptor) : Z :=
  foldl (fun mx k => if mx <? k then k else mx) 2 (map_to_list m).*1.

Definition add_fd (k : nat) (fd : Z) (d : Process.Descriptor) : W unit :=
  set_proc k (upd_data (fun dt => with_fdesc (<[fd := d]> (fdesc dt)) dt)).

(** The descriptor for a path, or an error. *)
Definition open_descriptor (path : list Z) : Y (option Process.Descriptor) :=
  if decide (path = Fmt.str "/dev/fb") then mret (Some Framebuffer)
  else if decide (path = Fmt.str "/dev/butev") then mret (Some ButtonEvents)
  else if decide (path = Fmt.str "/dev/absev") then mret (Some AbsoluteEvents)
  else
    res ← on_fs (MinixDir.open 8 path);
    match res with
    | inl _ => mret None
    | inr inode => mret (Some (File inode))
    end.

(** 1024 *)
Definition sys_open (f : Z) : Y unit :=
  path ← on_wd (reg f Cpu.A0);
  k ← on_wd (my_proc f);
  on ← on_wd (mmu_on f);
  o ← on_wd (mapped k on path);
  match o with
  | None => on_wd (set_reg f Cpu.A0 minus1)
  | Some path =>
      str_path ← on_wd (open_path 256 path 0);
      p ← on_wd (proc_at k);
      max_fd ← lift (u16 (max_key (fdesc (data p)) + 1));
      d ← open_descriptor str_path;
      match d with
      | None => on_wd (set_reg f Cpu.A0 minus1)
      | Some d =>
          _ ← on_wd (add_fd k max_fd d);
          on_wd (set_reg f Cpu.A0 max_fd)
      end
  end.

(** 1062 *)
Definition sys_time (f : Z) : W unit :=
  t ← on_procs get_mtime;
  set_reg f Cpu.A0 t.

(** ** Dispatch *)

Definition do_syscall (mepc f : Z) : Y unit :=
  syscall_number ← on_wd (reg f Cpu.A7);
  npc ← lift (usize (mepc + 4));
  _ ← on_wd (save 8 f pc_off npc);
  let n := syscall_number in
  if (n =? 93) || (n =? 94) then on_wd (sys_exit f)
  else if n =? 1 then mret tt
  else if n =? 2 then on_wd (sys_putchar f)
  else if n =? 8 then on_wd (dump_registers f)
  else if n =? 10 then on_wd (sys_sleep f)
  else if n =? 11 then sys_execv f
  else if n =? 17 then on_wd (sys_getcwd f)
  else if n =? 48 then on_wd (set_reg f Cpu.A0 minus1)
  else if n =? 57 then on_wd (sys_close f)
  else if n =? 63 then on_wd (sys_read f)
  else if n =? 64 then on_wd (sys_write f)
  else if n =? 65 then on_wd (sys_write_file f)
  else if n =? 66 then on_wd (set_reg f Cpu.A0 minus1)
  else if n =? 80 then on_wd (set_reg f Cpu.A0 0)
  else if n =? 172 then on_wd (sys_getpid f)
  else if n =? 180 then on_wd (sys_block false f)
  else if n =? 181 then on_wd (sys_block true f)
  else if n =? 214 then on_wd (sys_brk f)
  else if n =? 1000 then on_wd (sys_framebuffer f)
  else if n =? 1001 then on_wd (sys_transfer f)
  else if n =? 1002 then on_wd (sys_key_events f)
  else if n =? 1004 then on_wd (sys_abs_events f)
  else if n =? 1024 then sys_open f
  else if n =? 1062 then on_wd (sys_time f)
  else on_wd (Uart.println (Fmt.str "Unknown syscall number " ++ Fmt.dec n)).

(** ** Calls from kernel code *)

Section Calls.
(** [f] is the frame of the running process; [ecall] is what the machine does
    from the instruction to the next time the process runs. *)
Context (f : Z) (ecall : Y unit).

(** trap.S puts the number into [a7] and the arguments into [a0] to [a5], the
    trap handler saves them in the frame; the result is in [a0]. *)
Definition do_make_syscall (sysno arg0 arg1 arg2 arg3 arg4 arg5 : Z) : Y Z :=
  _ ← on_wd (set_reg f Cpu.A7 sysno);
  _ ← on_wd (set_reg f Cpu.A0 arg0);
  _ ← on_wd (set_reg f Cpu.A1 arg1);
  _ ← on_wd (set_reg f Cpu.A2 arg2);
  _ ← on_wd (set_reg f Cpu.A3 arg3);
  _ ← on_wd (set_reg f Cpu.A4 arg4);
  _ ← on_wd (set_reg f Cpu.A5 arg5);
  _ ← ecall;
  on_wd (reg f Cpu.A0).

Definition syscall_yield : Y unit := _ ← do_make_syscall 1 0 0 0 0 0 0; mret tt.
Definition syscall_exit : Y unit := _ ← do_make_syscall 93 0 0 0 0 0 0; mret tt.
Definition syscall_execv (path argv : Z) : Y Z := do_make_syscall 11 path argv 0 0 0 0.
Definition syscall_fs_read (dev inode buffer size offset : Z) : Y Z :=
  do_make_syscall 63 dev inode buffer size offset 0.
Definition syscall_block_read (dev buffer size offset : Z) : Y Z :=
  r ← do_make_syscall 180 dev buffer size offset 0 0; mret (as_u8 r).
Definition syscall_sleep (duration : Z) : Y unit :=
  _ ← do_make_syscall 10 duration 0 0 0 0 0; mret tt.
Definition syscall_get_pid : Y Z :=
  r ← do_make_syscall 172 0 0 0 0 0 0; mret (as_u16 r).
Definition syscall_fs_write (dev inode buffer size offset : Z) : Y Z :=
  do_make_syscall 65 dev inode buffer size offset 0.
Definition syscall_block_write (dev buffer size offset : Z) : Y Z :=
  r ← do_make_syscall 181 dev buffer size offset 0 0; mret (as_u8 r).
End Calls.

(** ** Starting a program *)

(** Run the loader on its part of the state. *)
Definition on_elf {A} (c : M Elf.estate A) : Y A :=
  zoom (fun s => Elf.mkE (procs_of (wd s)) (nalloc (fss s)))
    (fun e s => mkSys (with_procs (Elf.procs e) (wd s))
                  (mkFs (disks (fss s)) (cache (fss s)) (Elf.nbufs e))) c.

(** [PROCESS_LIST_MUTEX.sleep_lock()]; [env] is what others do meanwhile. *)
Definition sleep_list (env : list (Z -> Z)) : M pstate unit :=
  s ← get;
  m ← lift (Lock.sleep_lock env (PROCESS_LIST_MUTEX s));
  put (with_mutex m s).

(** A process that does not get into the list is dropped at the end of its
    block, behind the unlock. *)
Definition exec_func (env : list (Z -> Z)) (args : Z) : Y unit :=
  inode ← on_wd (Box_read args);
  buffer ← on_fs (Buffer_new (isize inode));
  '(_, buf) ← on_fs (MinixRead.read 8 inode (bdata buffer) (isize inode) 0);
  proc ← on_elf (Elf.load_proc buf);
  _ ← match proc with
      | inl _ => on_wd (Uart.println (Fmt.str "Failed to launch process."))
      | inr process =>
          _ ← on_wd (on_procs (sleep_list env));
          s ← get;
          match PROCESS_LIST (procs_of (wd s)) with
          | Some proc_list =>
              _ ← on_wd (on_procs (modify (with_list (Some (proc_list ++ [process])))));
              on_wd (on_procs unlock_list)
          | None =>
              _ ← on_wd (on_procs unlock_list);
              on_wd (on_procs (drop_process fuel process))
          end
      end;
  on_wd (Box_drop fuel args).
End Syscall.
End Syscall.
