(* ===== verification/SyscallFacts.v ===== *)
(** * The process that makes a system call

    [current] says whose trap frame it is; the lemmas run the common steps of
    the calls for that process. *)

From S2P Require Import Prelude Memory Cpu PageAlloc Kmem Mmu MinixLayout Lock Process ProcessProps Console World Boxes Uart.
From S2P Require Import BlockIo MinixRead MinixDir Elf Virtio Block BlockDone Input Gpu FsProc Syscall.
Import Mem Layout Io Process World Boxes Syscall.

Module SyscallFacts.

(** [p], between [l1] and [l2] in the list, is the process whose trap frame is
    at [f]; no pid of a frame lies in the registers of [f]. *)
Record current (s : world) (f : Z) (l1 : list process) (p : process) (l2 : list process) : Prop := {
  cu_list : PROCESS_LIST (procs_of s) = Some (l1 ++ p :: l2);
  cu_frame : frame p = f;
  cu_null : f <> 0;
  cu_pid : rdn 8 (mem_of s) (f + pid_off) = pid p;
  cu_range : 0 <= pid p < 2 ^ 16;
  cu_found : find_pid (mem_of s) (pid p) (l1 ++ p :: l2) = Some (length l1);
  cu_apart : Forall (fun q => Virtio.apart f 544 (frame q + pid_off) 8) (l1 ++ p :: l2);
}.

(** The register [r] of the frame at [f]. *)
Definition reg_in (m : memory) (f : Z) (r : Cpu.Registers) : Z := rdn 8 m (f + 8 * Cpu.gp r).
Definition put_reg (m : memory) (f : Z) (r : Cpu.Registers) (v : Z) : memory :=
  wrn 8 m (f + 8 * Cpu.gp r) v.

Definition mmu_enabled (m : memory) (f : Z) : bool :=
  negb (Z.shiftr (rdn 8 m (f + satp_off)) 60 =? 0).

(** The physical address [a] for the address [va] of the process. *)
Definition address (m : memory) (f : Z) (p : process) (va : Z) (o : option Z) : Prop :=
  if mmu_enabled m f then mmu_table p <> 0 /\ Mmu.virt_to_phys m (mmu_table p) va = Done o
  else o = Some va.

(** ** Memory *)

Lemma gp_range r : 0 <= Cpu.gp r < 32.
Proof. by destruct r. Qed.

(** A register of the frame is not another one. *)
Lemma put_reg_out m f r v x :
  x < f \/ f + 256 <= x -> byte (put_reg m f r v) x = byte m x.
Proof. intros Hx. pose proof (gp_range r). apply byte_wrn_out. lia. Qed.

Lemma reg_in_put m f r v : 0 <= v < 2 ^ 64 -> reg_in (put_reg m f r v) f r = v.
Proof. intros Hv. by apply rdn_wrn. Qed.

Lemma reg_in_put_ne m f r r' v : r <> r' -> reg_in (put_reg m f r v) f r' = reg_in m f r'.
Proof.
  intros Hr. apply rdn_wrn_ne.
  assert (Cpu.gp r <> Cpu.gp r') by (destruct r, r'; cbn; congruence). lia.
Qed.

(** Changes of memory that leave satp, the pid and the pids of the frames alone. *)
Lemma current_memory s f l1 p l2 m :
  current s f l1 p l2 ->
  (forall q x, q ∈ l1 ++ p :: l2 -> frame q + pid_off <= x < frame q + pid_off + 8 ->
     byte m x = byte (mem_of s) x) ->
  current (with_memory m s) f l1 p l2.
Proof.
  intros [Hl Hfr Hn Hp Hr Hf Ha] Hm. split; try done; rewrite mem_of_with_memory.
  - rewrite <- Hp. apply rdn_ext. intros x Hx. apply (Hm p); [|rewrite Hfr; lia].
    apply elem_of_app. right. by left.
  - rewrite <- Hf. apply BlockDone.find_pid_ext, Forall_forall. intros q Hq.
    apply rd64_ext. intros x Hx. apply (Hm q); [done|]. unfold pid_addr, pid_off in *. lia.
Qed.

Lemma current_frame s f l1 p l2 m :
  current s f l1 p l2 -> (forall x, x < f \/ f + 544 <= x -> byte m x = byte (mem_of s) x) ->
  current (with_memory m s) f l1 p l2.
Proof.
  intros Hc Hm. eapply current_memory; [done|]. intros q x Hq Hx. apply Hm.
  pose proof (proj1 (Forall_forall _ _) (cu_apart _ _ _ _ _ Hc) q Hq) as Ha.
  unfold Virtio.apart in Ha. lia.
Qed.

Lemma current_reg s f l1 p l2 r v :
  current s f l1 p l2 -> current (with_memory (put_reg (mem_of s) f r v) s) f l1 p l2.
Proof.
  intros Hc. eapply current_frame; [done|]. intros x Hx. apply put_reg_out. lia.
Qed.

Lemma current_io s f l1 p l2 l : current s f l1 p l2 -> current (with_io l s) f l1 p l2.
Proof. by intros []. Qed.

(** ** Running the steps *)

Lemma reg_ok f r s : f <> 0 -> reg f r s = Done (reg_in (mem_of s) f r, s).
Proof. apply load_ok. Qed.

Lemma set_reg_ok f r v s :
  f <> 0 -> set_reg f r v s = Done (tt, with_memory (put_reg (mem_of s) f r v) s).
Proof. apply save_ok. Qed.

Lemma mmu_on_ok f s : f <> 0 -> mmu_on f s = Done (mmu_enabled (mem_of s) f, s).
Proof. intros Hf. unfold mmu_on. by erewrite bind_done by (by apply load_ok). Qed.

(** Taking the GPU out of its slot and putting it back. *)
Section GpuSlot.
Context `{Profile}.

Lemma gpu_round s dev g : 1 <= dev <= 8 -> GPU_DEVICES s !! Z.to_nat (dev - 1) = Some (Some g) ->
  let s1 := with_gpu (<[Z.to_nat (dev - 1) := None]> (GPU_DEVICES s)) s in
  Gpu.take_gpu dev s = Done (Some g, s1) /\
  forall s2, GPU_DEVICES s2 = GPU_DEVICES s1 ->
    Gpu.replace_gpu dev g s2 = Done (tt, with_gpu (GPU_DEVICES s) s2).
Proof.
  intros Hd Hg s1. split.
  - unfold Gpu.take_gpu. erewrite bind_done by (apply lift_done, uint_ok; lia).
    erewrite bind_done by reflexivity.
    erewrite bind_done by (apply lift_done, index_ok; [lia|exact Hg]). done.
  - intros s2 E. unfold Gpu.replace_gpu. erewrite bind_done by (apply lift_done, uint_ok; lia).
    unfold modify. rewrite E. cbn [GPU_DEVICES with_gpu s1]. by rewrite list_insert_insert_eq, list_insert_id.
Qed.
End GpuSlot.

Section Current.
Context (s : world) (f : Z) (l1 : list process) (p : process) (l2 : list process).
Hypothesis Hc : current s f l1 p l2.

Lemma frame_pid_ok : frame_pid f s = Done (pid p, s).
Proof.
  destruct Hc as [_ _ Hn Hp Hr _ _]. unfold frame_pid.
  erewrite bind_done by (by apply load_ok). rewrite Hp. unfold as_u16.
  by rewrite Z.mod_small.
Qed.

Lemma get_by_pid_ok : on_procs (get_by_pid (pid p)) s = Done (Some (length l1), s).
Proof.
  destruct Hc as [Hl _ _ _ _ Hf _]. unfold on_procs, zoom, get_by_pid, gets.
  rewrite Hl. change (mem (kern (procs_of s))) with (mem_of s). rewrite Hf.
  by destruct s as [[] ? ? ? ? ? ? ? ?].
Qed.

Lemma my_proc_ok : my_proc f s = Done (length l1, s).
Proof.
  unfold my_proc. erewrite bind_done by exact frame_pid_ok.
  by erewrite bind_done by exact get_by_pid_ok.
Qed.

Lemma deref_proc_ok : deref_proc f s = Done (length l1, s).
Proof.
  unfold deref_proc. erewrite bind_done by exact frame_pid_ok.
  by erewrite bind_done by exact get_by_pid_ok.
Qed.

Lemma proc_at_ok : proc_at (length l1) s = Done (p, s).
Proof.
  unfold proc_at. erewrite bind_done by reflexivity. rewrite (cu_list _ _ _ _ _ Hc).
  erewrite bind_done by reflexivity. by rewrite list_lookup_middle.
Qed.

Lemma table_of_ok : mmu_table p <> 0 -> table_of (length l1) s = Done (mmu_table p, s).
Proof.
  intros Ht. unfold table_of. erewrite bind_done by exact proc_at_ok.
  by rewrite (proj2 (Z.eqb_neq _ _) Ht).
Qed.

Lemma translate_ok t va o :
  Mmu.virt_to_phys (mem_of s) t va = Done o -> translate t va s = Done (o, s).
Proof. intros E. unfold translate. erewrite bind_done by reflexivity. by rewrite E. Qed.

Lemma mapped_ok va o :
  address (mem_of s) f p va o ->
  mapped (length l1) (mmu_enabled (mem_of s) f) va s = Done (o, s).
Proof.
  unfold address, mapped. destruct (mmu_enabled (mem_of s) f); [|by intros ->].
  intros [Ht E]. erewrite bind_done by (by apply table_of_ok). by apply translate_ok.
Qed.

(** The state with another process in its place. *)
Definition replace_proc (q : process) : world :=
  with_procs (with_list (Some (l1 ++ q :: l2)) (procs_of s)) s.

Lemma set_proc_ok g : set_proc (length l1) g s = Done (tt, replace_proc (g p)).
Proof.
  unfold set_proc, modify, replace_proc. rewrite (cu_list _ _ _ _ _ Hc). cbn [fmap option_fmap option_map].
  by rewrite alter_app_r_alt, Nat.sub_diag by lia.
Qed.

Lemma current_replace q :
  frame q = frame p -> pid q = pid p -> current (replace_proc q) f l1 q l2.
Proof.
  destruct Hc as [Hl Hfr Hn Hp Hr Hf Ha]. intros Eq Ep. split.
  - done.
  - by rewrite Eq.
  - done.
  - by rewrite Ep.
  - by rewrite Ep.
  - rewrite Ep, <- Hf. apply BlockDone.find_pid_frames. by rewrite !fmap_app, !fmap_cons, Eq.
  - rewrite Forall_app, Forall_cons in *. by rewrite Eq.
Qed.
End Current.

(** ** Strings in memory *)

(** The characters up to the first zero, [n] of them at most. *)
Fixpoint string_at (n : nat) (m : memory) (a : Z) : list Z :=
  match n with
  | O => []
  | S n' => if byte m a =? 0 then [] else MinixDir.push_char (byte m a) ++ string_at n' m (a + 1)
  end.

Lemma open_path_ok s a : a <> 0 -> forall n i,
  open_path n a i s = Done (string_at n (mem_of s) (a + i), s).
Proof.
  intros Ha. induction n as [|n IH]; intros i; [done|]. cbn [open_path string_at].
  erewrite bind_done by (by apply load_ok). rewrite rdn_1.
  destruct (byte (mem_of s) (a + i) =? 0); [done|].
  erewrite bind_done by apply IH. by rewrite Z.add_assoc.
Qed.

(** ** Descriptors *)

Lemma max_key_from l mx :
  mx <= foldl (fun mx k => if mx <? k then k else mx) mx l /\
  Forall (fun k => k <= foldl (fun mx k => if mx <? k then k else mx) mx l) l.
Proof.
  revert mx. induction l as [|k l IH]; intros mx; cbn [foldl]; [by split; [lia|]|].
  set (mx' := if mx <? k then k else mx).
  assert (mx <= mx' /\ k <= mx') as [? ?] by (unfold mx'; destruct (Z.ltb_spec mx k); lia).
  destruct (IH mx') as [H1 H2]. split; [lia|]. constructor; [lia|done].
Qed.

(** The next descriptor is new and is not one of the three standard ones. *)
Lemma max_key_fresh m : 2 <= max_key m /\ m !! (max_key m + 1) = None.
Proof.
  unfold max_key. destruct (max_key_from (map_to_list m).*1 2) as [H1 H2]. split; [done|].
  apply eq_None_not_Some. intros [d Hd]. apply elem_of_map_to_list in Hd.
  rewrite Forall_forall in H2. specialize (H2 _ (list_elem_of_fmap_2 fst _ _ Hd)).
  cbn in H2. lia.
Qed.

End SyscallFacts.
