(* ===== verification/SyscallProps.v ===== *)
(** * What the system calls do *)

From S2P Require Import Prelude Memory Cpu PageAlloc Kmem Mmu MinixLayout Lock Process ProcessProps Console World Boxes Uart.
From S2P Require Import BlockIo MinixRead MinixDir Elf Virtio Block BlockDone Input Gpu FsProc Syscall SyscallFacts.
Import Mem Layout Io Process World Boxes Syscall SyscallFacts.

Module SyscallProps.
Import (notations) String.
Section Props.
Context `{Profile} `{Linker} `{Clock} `{Bus} `{Gpu.ReqLayout}.
Context {D : Type} `{BlockService D} `{Heap} `{Repr FsProc.ProcArgs}.
Context (fuel : nat) (ra_delete_proc read_proc_fn write_proc_fn exec_func_fn : Z).
Abbreviation Y := (M (sys D)).

(** ** Files *)

Lemma open_descriptor_wd path (y y' : sys D) r :
  open_descriptor path y = Done (r, y') -> wd y' = wd y.
Proof.
  unfold open_descriptor. repeat case_decide; try (by intros [= _ <-]).
  intros (a & y1 & E1 & E2)%bind_inv. unfold on_fs, zoom in E1.
  destruct (MinixDir.open 8 path (fss y)) as [[b t]| | | |]; try done.
  injection E1 as <- <-. destruct b; by injection E2 as _ <-.
Qed.

Definition opened (fd : Z) (d : Process.Descriptor) : process -> process :=
  upd_data (fun dt => with_fdesc (<[fd := d]> (fdesc dt)) dt).
Definition closed (fd : Z) : process -> process :=
  upd_data (fun dt => with_fdesc (delete fd (fdesc dt)) dt).

Lemma closed_opened fd d p : fdesc (data p) !! fd = None -> closed fd (opened fd d p) = p.
Proof.
  intros Hfd. destruct p as [f st i tb ste [en fm cw pg] sl pr b]. cbn in Hfd.
  unfold closed, opened, upd_data, with_fdesc. cbn. by rewrite delete_insert_id.
Qed.

(** The state after a call that put [q] in the place of [p] and [v] into a0. *)
Lemma sys_close_ok s f l1 p l2 d :
  current s f l1 p l2 ->
  let fd := as_u16 (reg_in (mem_of s) f Cpu.A0) in
  fdesc (data p) !! fd = Some d ->
  let s1 := replace_proc s l1 l2 (closed fd p) in
  sys_close f s = Done (tt, with_memory (put_reg (mem_of s1) f Cpu.A0 0) s1).
Proof.
  intros Hc fd Hd s1. unfold sys_close. pose proof (cu_null _ _ _ _ _ Hc) as Hn.
  erewrite bind_done by (by apply reg_ok).
  erewrite bind_done by (by eapply my_proc_ok). erewrite bind_done by (by eapply proc_at_ok).
  fold fd. rewrite Hd. erewrite bind_done by (by eapply set_proc_ok). by apply set_reg_ok.
Qed.

(** C25: The open system call gives the process a descriptor that was free, at least
    3, for what the path names; closing it leaves the process as it was. *)
Theorem open_close_roundtrip (y y1 : sys D) f l1 p l2 a d :
  let m := mem_of (wd y) in
  current (wd y) f l1 p l2 -> address m f p (reg_in m f Cpu.A0) (Some a) -> a <> 0 ->
  open_descriptor (string_at 256 m a) y = Done (Some d, y1) ->
  let fd := max_key (fdesc (data p)) + 1 in
  fd < 2 ^ 16 ->
  exists y2 p2 s3, sys_open f y = Done (tt, y2) /\ fss y2 = fss y1 /\
    current (wd y2) f l1 p2 l2 /\
    3 <= fd /\ fdesc (data p) !! fd = None /\ fdesc (data p2) = <[fd := d]> (fdesc (data p)) /\
    reg_in (mem_of (wd y2)) f Cpu.A0 = fd /\
    sys_close f (wd y2) = Done (tt, s3) /\ current s3 f l1 p l2 /\
    reg_in (mem_of s3) f Cpu.A0 = 0.
Proof.
  intros m Hc Ha Hnz Ed fd Hfd. pose proof (cu_null _ _ _ _ _ Hc) as Hn.
  destruct (max_key_fresh (fdesc (data p))) as [Hmk Hfresh].
  pose proof (open_descriptor_wd _ _ _ _ Ed) as Ewd.
  set (s1 := replace_proc (wd y) l1 l2 (opened fd d p)).
  assert (current s1 f l1 (opened fd d p) l2) as Hc1 by exact (current_replace _ _ _ _ _ Hc (opened fd d p) eq_refl eq_refl).
  set (s2 := with_memory (put_reg (mem_of s1) f Cpu.A0 fd) s1).
  assert (current s2 f l1 (opened fd d p) l2) as Hc2 by exact (current_reg _ _ _ _ _ Cpu.A0 fd Hc1).
  assert (reg_in (mem_of s2) f Cpu.A0 = fd) as Ea0 by (apply reg_in_put; lia).
  assert (as_u16 (reg_in (mem_of s2) f Cpu.A0) = fd) as Efd
    by (rewrite Ea0; unfold as_u16; apply Z.mod_small; lia).
  pose proof (sys_close_ok s2 f l1 _ l2 d Hc2) as Eclose. cbn zeta in Eclose.
  rewrite Efd in Eclose. specialize (Eclose (lookup_insert_eq _ _ _)).
  rewrite (closed_opened fd d p) in Eclose by done.
  eexists (with_wd s2 y1), (opened fd d p), _. split_and!;
    [|reflexivity|exact Hc2|lia|exact Hfresh|reflexivity|exact Ea0|exact Eclose|..].
  - unfold sys_open. erewrite bind_done by (by apply on_wd_id, reg_ok).
    erewrite bind_done by (apply on_wd_id; by eapply my_proc_ok).
    erewrite bind_done by (by apply on_wd_id, mmu_on_ok).
    erewrite bind_done by (apply on_wd_id; by eapply mapped_ok). cbn iota.
    erewrite bind_done by (by apply on_wd_id, open_path_ok). rewrite Z.add_0_r.
    erewrite bind_done by (apply on_wd_id; by eapply proc_at_ok).
    erewrite bind_done by (apply lift_done, uint_ok; lia).
    erewrite bind_done by exact Ed. cbn iota.
    erewrite bind_done by (apply on_wd_done; rewrite Ewd; by eapply set_proc_ok).
    rewrite (on_wd_done _ _ _ s2) by (by apply set_reg_ok). done.
  - exact (current_reg _ _ _ _ _ Cpu.A0 0 (current_replace _ _ _ _ _ Hc2 p eq_refl eq_refl)).
  - rewrite mem_of_with_memory. apply reg_in_put. lia.
Qed.

(** What is not open cannot be closed. *)
Theorem close_unknown s f l1 p l2 :
  current s f l1 p l2 ->
  fdesc (data p) !! as_u16 (reg_in (mem_of s) f Cpu.A0) = None ->
  sys_close f s = Done (tt, with_memory (put_reg (mem_of s) f Cpu.A0 minus1) s).
Proof.
  intros Hc Hd. unfold sys_close. pose proof (cu_null _ _ _ _ _ Hc) as Hn.
  erewrite bind_done by (by apply reg_ok).
  erewrite bind_done by (by eapply my_proc_ok). erewrite bind_done by (by eapply proc_at_ok).
  rewrite Hd. by apply set_reg_ok.
Qed.
(** ** Output *)

(** The process can read [text] at [buf]. *)
Definition readable (m : memory) (t buf : Z) (text : list Z) : Prop := forall i c,
  text !! i = Some c ->
  exists a, Mmu.virt_to_phys m t (buf + Z.of_nat i) = Done (Some a) /\ a <> 0 /\ byte m a = c.

(** [text] as [print!] sends it. *)
Definition sent (text : list Z) : list io_event := Wr Uart.UART <$> (text ≫= Fmt.char).

Lemma i32_add_ok a b : - 2 ^ 31 <= a + b < 2 ^ 31 -> i32_add a b = Done (a + b).
Proof.
  intros Hab. unfold i32_add. by rewrite (proj2 (Z.leb_le _ _)), (proj2 (Z.ltb_lt _ _)) by lia.
Qed.

Lemma ptr_add_ok a b : a + b < 2 ^ 64 -> ptr_add a b = Done (a + b).
Proof. intros Hab. unfold ptr_add. by rewrite (proj2 (Z.ltb_lt _ _)). Qed.

Lemma write_loop_prints f l1 p l2 buf n text : forall s i iter,
  current s f l1 p l2 -> mmu_enabled (mem_of s) f = true -> mmu_table p <> 0 ->
  readable (mem_of s) (mmu_table p) (buf + i) text ->
  buf + i + zlen text < 2 ^ 64 -> 0 <= iter -> iter + zlen text < 2 ^ 31 ->
  write_loop f (length l1) buf (length text + n) i iter s =
    write_loop f (length l1) buf n (i + zlen text) (iter + zlen text)
      (with_io (io s ++ sent text) s).
Proof.
  induction text as [|c text IH]; intros s i iter Hc Hon Ht Hr Hb Hi Hm; cbn [length Nat.add].
  { rewrite app_nil_r, !Z.add_0_r. by destruct s. }
  cbn [write_loop length] in *. pose proof (cu_null _ _ _ _ _ Hc) as Hn.
  destruct (Hr 0%nat c eq_refl) as (a & Ea & Hnz & Ec). rewrite Z.add_0_r in Ea.
  erewrite bind_done by (apply lift_done, i32_add_ok; lia).
  erewrite bind_done by (by apply mmu_on_ok). rewrite Hon.
  erewrite bind_done by (by eapply table_of_ok).
  erewrite bind_done by (apply lift_done, ptr_add_ok; lia).
  erewrite bind_done by (by apply translate_ok). cbn iota.
  erewrite bind_done by (by apply load_ok). rewrite Z.add_0_r, rdn_1, Ec.
  erewrite bind_done by apply Uart.print_ok.
  rewrite IH; cbn [io with_io]; try (done || lia).
  - unfold sent. rewrite <- app_assoc, <- fmap_app. cbn [mbind list_bind].
    f_equal; lia.
  - by apply current_io.
  - intros k c' Hk. destruct (Hr (S k) c' Hk) as (a' & E' & H').
    exists a'. by replace (buf + (i + 1) + Z.of_nat k) with (buf + i + Z.of_nat (S k)) by lia.
Qed.

(** The beginning of the call, for standard output and standard error. *)
Lemma sys_write_start s f l1 p l2 :
  current s f l1 p l2 ->
  let m := mem_of s in
  as_u16 (reg_in m f Cpu.A0) = 1 \/ as_u16 (reg_in m f Cpu.A0) = 2 ->
  sys_write f s =
    (iter ← write_loop f (length l1) (reg_in m f Cpu.A1) (Z.to_nat (reg_in m f Cpu.A2)) 0 0;
     set_reg f Cpu.A0 (as_u64 iter)) s.
Proof.
  intros Hc m Hfd. pose proof (cu_null _ _ _ _ _ Hc) as Hn. unfold sys_write.
  do 3 (erewrite bind_done by (by apply reg_ok)). erewrite bind_done by (by eapply my_proc_ok).
  fold m. by destruct Hfd as [-> | ->].
Qed.

(** With the MMU the characters of the buffer are printed as far as it is mapped. *)
Lemma write_mapped s f l1 p l2 text :
  let m := mem_of s in
  current s f l1 p l2 ->
  as_u16 (reg_in m f Cpu.A0) = 1 \/ as_u16 (reg_in m f Cpu.A0) = 2 ->
  mmu_enabled m f = true -> mmu_table p <> 0 ->
  readable m (mmu_table p) (reg_in m f Cpu.A1) text ->
  reg_in m f Cpu.A1 + zlen text < 2 ^ 64 -> zlen text + 1 < 2 ^ 31 ->
  let done_ n := sys_write f s =
    Done (tt, with_memory (put_reg m f Cpu.A0 n) (with_io (io s ++ sent text) s)) in
  (reg_in m f Cpu.A2 = zlen text -> done_ (zlen text)) /\
  (zlen text < reg_in m f Cpu.A2 ->
   Mmu.virt_to_phys m (mmu_table p) (reg_in m f Cpu.A1 + zlen text) = Done None ->
   done_ (zlen text + 1)).
Proof.
  intros m Hc Hfd Hon Ht Hr Hb Hlen done_. unfold done_. clear done_.
  pose proof (cu_null _ _ _ _ _ Hc) as Hn.
  rewrite (sys_write_start _ _ _ _ _ Hc Hfd). fold m.
  assert (forall n : nat, write_loop f (length l1) (reg_in m f Cpu.A1) (length text + n) 0 0 s =
    write_loop f (length l1) (reg_in m f Cpu.A1) n (zlen text) (zlen text)
      (with_io (io s ++ sent text) s)) as Hloop.
  { intros n. rewrite (write_loop_prints f l1 p l2); rewrite ?Z.add_0_r, ?Z.add_0_l; try (done || lia). }
  split; intros Hsz.
  - rewrite Hsz, Nat2Z.id. erewrite bind_done.
    2:{ rewrite <- (Nat.add_0_r (length text)), Hloop. reflexivity. }
    unfold as_u64. rewrite Z.mod_small by lia. by apply set_reg_ok.
  - intros Hnone. set (n := (Z.to_nat (reg_in m f Cpu.A2) - length text - 1)%nat).
    replace (Z.to_nat (reg_in m f Cpu.A2)) with (length text + S n)%nat by lia.
    erewrite bind_done.
    2:{ rewrite Hloop. cbn [write_loop].
        erewrite bind_done by (apply lift_done, i32_add_ok; lia).
        erewrite bind_done by (by apply mmu_on_ok).
        change (mem_of (with_io (io s ++ sent text) s)) with m. rewrite Hon.
        erewrite bind_done by (eapply table_of_ok; [by apply current_io|done]).
        erewrite bind_done by (apply lift_done, ptr_add_ok; lia).
        erewrite bind_done by (by apply translate_ok). reflexivity. }
    unfold as_u64. rewrite Z.mod_small by lia. by apply set_reg_ok.
Qed.

(** A kernel process, which runs without the MMU, prints nothing, and is told
    that everything was written. *)
Lemma write_without_mmu s f l1 p l2 :
  let m := mem_of s in
  current s f l1 p l2 ->
  as_u16 (reg_in m f Cpu.A0) = 1 \/ as_u16 (reg_in m f Cpu.A0) = 2 ->
  mmu_enabled m f = false -> 0 <= reg_in m f Cpu.A2 < 2 ^ 31 ->
  sys_write f s = Done (tt, with_memory (put_reg m f Cpu.A0 (reg_in m f Cpu.A2)) s).
Proof.
  intros m Hc Hfd Hoff Hsz. pose proof (cu_null _ _ _ _ _ Hc) as Hn.
  rewrite (sys_write_start _ _ _ _ _ Hc Hfd). fold m.
  assert (forall n i iter, 0 <= iter -> iter + Z.of_nat n < 2 ^ 31 ->
    write_loop f (length l1) (reg_in m f Cpu.A1) n i iter s = Done (iter + Z.of_nat n, s)) as Hloop.
  { induction n as [|n IH]; intros i iter Hi Hm; cbn [write_loop]; [by rewrite Z.add_0_r|].
    erewrite bind_done by (apply lift_done, i32_add_ok; lia).
    erewrite bind_done by (by apply mmu_on_ok). fold m. rewrite Hoff, IH by lia.
    do 2 f_equal. lia. }
  erewrite bind_done by (apply Hloop; lia). rewrite Z.add_0_l, Z2Nat.id by lia.
  unfold as_u64. rewrite Z.mod_small by lia. by apply set_reg_ok.
Qed.

(** C35: The write system call to standard output or standard error: with the MMU on
    it prints the characters of the buffer in order and returns how many there are;
    at a page that is not mapped it stops, and counts one character more than it
    printed. With the MMU off it prints nothing and returns the count it was given.
    *)
Theorem write_prints s f l1 p l2 :
  let m := mem_of s in let size := reg_in m f Cpu.A2 in
  current s f l1 p l2 ->
  as_u16 (reg_in m f Cpu.A0) = 1 \/ as_u16 (reg_in m f Cpu.A0) = 2 ->
  0 <= size < 2 ^ 31 - 1 ->
  let done_ text n := sys_write f s =
    Done (tt, with_memory (put_reg m f Cpu.A0 n) (with_io (io s ++ sent text) s)) in
  (mmu_enabled m f = false -> done_ [] size) /\
  (forall text, mmu_enabled m f = true -> mmu_table p <> 0 ->
     readable m (mmu_table p) (reg_in m f Cpu.A1) text -> reg_in m f Cpu.A1 + zlen text < 2 ^ 64 ->
     (size = zlen text -> done_ text (zlen text)) /\
     (zlen text < size ->
      Mmu.virt_to_phys m (mmu_table p) (reg_in m f Cpu.A1 + zlen text) = Done None ->
      done_ text (zlen text + 1))).
Proof.
  intros m size Hc Hfd Hsz done_. split.
  - intros Hoff. unfold done_. rewrite (write_without_mmu _ _ _ _ _ Hc Hfd Hoff) by (fold m size; lia).
    fold m size. cbn [sent]. by destruct s as [[? ? ? ? ? [[]]]]; cbn; rewrite ?app_nil_r.
  - intros text Hon Ht Hr Hb. split.
    + intros Es. destruct (write_mapped s f l1 p l2 text Hc Hfd Hon Ht Hr Hb) as [Hw _]; [lia|].
      by apply Hw.
    + intros Hlt Hn. destruct (write_mapped s f l1 p l2 text Hc Hfd Hon Ht Hr Hb) as [_ Hw]; [lia|].
      by apply Hw.
Qed.
(** ** Other calls *)

(** The break never moves down; without the MMU moving it up needs no page. *)
Theorem brk_moves s f l1 p l2 :
  let m := mem_of s in
  current s f l1 p l2 -> reg_in m f Cpu.A0 <= brk p \/ mmu_enabled m f = false ->
  let b := Z.max (reg_in m f Cpu.A0) (brk p) in
  exists s', sys_brk f s = Done (tt, with_memory (put_reg m f Cpu.A0 b) s') /\
    mem_of s' = m /\ current s' f l1 (with_brk b p) l2.
Proof.
  intros m Hc Hor b. pose proof (cu_null _ _ _ _ _ Hc) as Hn. unfold sys_brk.
  erewrite bind_done by (by apply reg_ok). erewrite bind_done by (by eapply my_proc_ok).
  erewrite bind_done by (by eapply proc_at_ok). fold m.
  destruct (Z.ltb_spec (brk p) (reg_in m f Cpu.A0)) as [Hlt|Hge].
  - destruct Hor as [?|Hoff]; [lia|]. unfold b. rewrite Z.max_l by lia.
    set (q := with_brk (reg_in m f Cpu.A0) p).
    assert (current (replace_proc s l1 l2 q) f l1 q l2) as Hq
      by exact (current_replace _ _ _ _ _ Hc q eq_refl eq_refl).
    exists (replace_proc s l1 l2 q). split_and!; [|done|exact Hq].
    erewrite bind_done.
    2:{ erewrite bind_done by (by apply mmu_on_ok). fold m. rewrite Hoff.
        erewrite bind_done by reflexivity. by eapply set_proc_ok. }
    erewrite bind_done by (by eapply proc_at_ok). by apply set_reg_ok.
  - unfold b. rewrite Z.max_r by lia. exists s. split_and!; [|done|by destruct p].
    erewrite bind_done by reflexivity. erewrite bind_done by (by eapply proc_at_ok).
    by apply set_reg_ok.
Qed.

(** The loop of getcwd ends before its first byte. *)
Theorem getcwd_writes_nothing s f l1 p l2 a :
  let m := mem_of s in
  current s f l1 p l2 -> address m f p (reg_in m f Cpu.A0) (Some a) ->
  sys_getcwd f s = Done (tt, s).
Proof.
  intros m Hc Ha. pose proof (cu_null _ _ _ _ _ Hc) as Hn. unfold sys_getcwd.
  erewrite bind_done by (by apply reg_ok). erewrite bind_done by (by apply reg_ok).
  erewrite bind_done by (by eapply my_proc_ok). erewrite bind_done by (by apply mmu_on_ok).
  erewrite bind_done by (by eapply mapped_ok). cbn iota.
  erewrite bind_done by (by eapply proc_at_ok). by destruct (cwd (data p)).
Qed.

(** A kernel process that asks for the framebuffer takes the device away: later
    transfers do nothing. *)
Theorem framebuffer_lost s f g :
  let m := mem_of s in let dev := reg_in m f Cpu.A0 in
  f <> 0 -> mmu_enabled m f = false -> 1 <= dev <= 8 ->
  GPU_DEVICES s !! Z.to_nat (dev - 1) = Some (Some g) ->
  exists s', sys_framebuffer f s = Done (tt, s') /\
    reg_in (mem_of s') f Cpu.A0 = 0x30000000 /\
    GPU_DEVICES s' = <[Z.to_nat (dev - 1) := None]> (GPU_DEVICES s) /\
    forall x y w h, Gpu.transfer fuel dev x y w h s' = Done (tt, s').
Proof.
  intros m dev Hf Hoff Hd Hg. unfold sys_framebuffer.
  set (s1 := with_memory (put_reg m f Cpu.A0 0) s).
  set (s2 := with_gpu (<[Z.to_nat (dev - 1) := None]> (GPU_DEVICES s)) s1).
  exists (with_memory (put_reg (mem_of s2) f Cpu.A0 0x30000000) s2).
  assert (Gpu.take_gpu dev s1 = Done (Some g, s2)) as Et by exact (proj1 (gpu_round s1 dev g Hd Hg)).
  split_and!.
  - erewrite bind_done by (by apply reg_ok). fold m dev.
    erewrite bind_done by (by apply set_reg_ok). fold m s1.
    rewrite (proj2 (Z.ltb_lt 0 dev)), (proj2 (Z.leb_le dev 8)) by lia. cbn [andb].
    erewrite bind_done by exact Et. cbn iota.
    assert (mmu_enabled (mem_of s2) f = false) as Hoff2.
    { rewrite <- Hoff. unfold mmu_enabled. do 3 f_equal. apply rdn_ext. intros x Hx.
      apply put_reg_out. unfold satp_off in Hx. lia. }
    erewrite bind_done by (by apply mmu_on_ok). rewrite Hoff2.
    erewrite bind_done by reflexivity. by apply set_reg_ok.
  - rewrite mem_of_with_memory. apply reg_in_put. lia.
  - done.
  - intros x y w h. set (s3 := with_memory _ s2).
    assert (Gpu.take_gpu dev s3 = Done (None, s3)) as E3.
    { unfold Gpu.take_gpu. erewrite bind_done by (apply lift_done, uint_ok; lia).
      erewrite bind_done by reflexivity. erewrite bind_done.
      2:{ apply lift_done, index_ok; [lia|]. by eapply list_lookup_insert_eq, lookup_lt_Some. }
      erewrite bind_done by reflexivity.
      change (GPU_DEVICES s3) with (<[Z.to_nat (dev - 1) := None]> (GPU_DEVICES s)).
      by rewrite list_insert_insert_eq. }
    unfold Gpu.transfer. by erewrite bind_done by exact E3.
Qed.

(** ** Dispatch *)

Definition known : list Z :=
  [93; 94; 1; 2; 8; 10; 11; 17; 48; 57; 63; 64; 65; 66; 80; 172; 180; 181; 214;
   1000; 1001; 1002; 1004; 1024; 1062].

(** The state when the instruction behind the ecall is next. *)
Definition skip_ecall (mepc f : Z) (s : world) : world :=
  with_memory (wrn 8 (mem_of s) (f + pc_off) (mepc + 4)) s.

(** A call whose number is not known prints it; otherwise only the pc changes. *)
Theorem unknown_syscall mepc f (y : sys D) :
  let n := reg_in (mem_of (wd y)) f Cpu.A7 in
  f <> 0 -> 0 <= mepc -> mepc + 4 < 2 ^ 64 -> n ∉ known ->
  let s1 := skip_ecall mepc f (wd y) in
  do_syscall fuel ra_delete_proc read_proc_fn write_proc_fn exec_func_fn mepc f y =
    Done (tt, with_wd (with_io (io s1 ++ (Wr Uart.UART <$>
      ((Fmt.str "Unknown syscall number " ++ Fmt.dec n) ++ Fmt.crlf))) s1) y).
Proof.
  intros n Hf Hlo Hhi Hn s1. unfold do_syscall.
  erewrite bind_done by (by apply on_wd_id, reg_ok). fold n.
  erewrite bind_done by (apply lift_done, uint_ok; lia).
  erewrite bind_done by (by apply on_wd_done, save_ok).
  assert (Forall (fun k => (n =? k) = false) known) as Hk.
  { apply Forall_forall. intros k Hk. apply Z.eqb_neq. intros E. apply Hn. by rewrite E. }
  unfold known in Hk. rewrite !Forall_cons in Hk.
  destruct_and! Hk. repeat match goal with E : (n =? _) = false |- _ => rewrite E; clear E end.
  cbn [orb].
  rewrite (on_wd_done _ _ _ _ (Uart.println_ok _ _)). done.
Qed.
End Props.
End SyscallProps.
