(* ===== verification/EventProps.v ===== *)
(** * System calls 1002 and 1004: input events reach the process *)

From S2P Require Import Prelude Memory Cpu PageAlloc Kmem Mmu MinixLayout Lock Process ProcessProps Console World Boxes Uart.
From S2P Require Import BlockIo MinixRead MinixDir Elf Virtio Block BlockDone Input Gpu FsProc Syscall SyscallFacts.
Import Mem Layout Io Process World Boxes Syscall SyscallFacts.

Module EventProps.

(** The fields fit their types. *)
Definition event_wf (e : Event) : Prop :=
  0 <= event_type e < 2 ^ 16 /\ 0 <= code e < 2 ^ 16 /\ 0 <= value e < 2 ^ 32.

Lemma event_stored m a e :
  event_wf e -> Input.event_at (store m a (encode_event e)) a = e.
Proof.
  intros (Ht & Hc & Hv). destruct e as [t c v]. unfold Input.event_at, encode_event.
  cbn [event_type code value] in *. f_equal.
  - rewrite <- (Z.add_0_r a) at 2. by apply (rdn_store_field 2 m a [] t).
  - by apply (rdn_store_field 2 m a (le_enc 2 t) c).
  - rewrite app_assoc. rewrite <- (app_nil_r (le_enc 4 v)).
    by apply (rdn_store_field 4 m a (le_enc 2 t ++ le_enc 2 c) v).
Qed.

Lemma event_ext m m' a :
  (forall x, a <= x < a + 8 -> byte m' x = byte m x) -> Input.event_at m' a = Input.event_at m a.
Proof.
  intros Hm. unfold Input.event_at. f_equal; apply rdn_ext; intros x Hx; apply Hm; lia.
Qed.

Lemma length_event e : zlen (encode_event e) = 8.
Proof. done. Qed.

(** Addresses of events: apart from each other and from the registers. *)
Definition slots_ok (f : Z) (pas : list Z) : Prop :=
  Forall (fun a => a <> 0 /\ Virtio.apart a 8 f 256) pas /\
  forall i j a b, pas !! i = Some a -> pas !! j = Some b -> i <> j -> Virtio.apart a 8 b 8.

(** The bytes of the events and of register a0. *)
Definition touched (f : Z) (pas : list Z) (x : Z) : Prop :=
  f + 80 <= x < f + 88 \/ exists a, a ∈ pas /\ a <= x < a + 8.

(** The page tables lead from [va] to the addresses, and none of the bytes that
    are written belongs to them. *)
Definition leads (m : memory) (f t va : Z) (pas : list Z) : Prop := forall m',
  (forall x, ~ touched f pas x -> byte m' x = byte m x) ->
  forall i a, pas !! i = Some a ->
  Mmu.virt_to_phys m' t (va + 8 * Z.of_nat i) = Done (Some a).

(** Behind these addresses the buffer is not mapped, whatever is written there. *)
Definition ends (m : memory) (f t va : Z) (pas : list Z) : Prop := forall m',
  (forall x, ~ touched f pas x -> byte m' x = byte m x) ->
  Mmu.virt_to_phys m' t (va + 8 * zlen pas) = Done None.

Section Events.
Context `{Profile}.
(** [all] are the addresses of the whole buffer; [m0] is the memory at first. *)
Context (f t va : Z) (all : list Z) (m0 : memory).
Hypothesis Hf : f <> 0.
Hypothesis Hslots : slots_ok f all.
Hypothesis Hleads : leads m0 f t va all.

Lemma slot_frame a x : a ∈ all -> a <= x < a + 8 -> x < f \/ f + 256 <= x.
Proof.
  intros Ha Hx. destruct Hslots as [Hall _]. rewrite Forall_forall in Hall.
  destruct (Hall a Ha) as [_ Hap]. unfold Virtio.apart in Hap. lia.
Qed.

(** One event: stored at [a], and counted in a0. *)
Definition put_event (m : memory) (a : Z) (e : Event) (c : Z) : memory :=
  put_reg (store m a (encode_event e)) f Cpu.A0 (c + 1).

Lemma put_event_out m a e c x :
  (x < f + 80 \/ f + 88 <= x) -> (x < a \/ a + 8 <= x) -> byte (put_event m a e c) x = byte m x.
Proof.
  intros H1 H2. unfold put_event, put_reg. rewrite byte_wrn_out by (cbn; lia).
  by apply byte_store_out.
Qed.

Lemma copy_one s i a e ev c n :
  (forall x, ~ touched f all x -> byte (mem_of s) x = byte m0 x) ->
  all !! i = Some a -> va + 8 * Z.of_nat i < 2 ^ 64 ->
  reg_in (mem_of s) f Cpu.A0 = c -> 0 <= c -> c + 1 < 2 ^ 64 ->
  copy_events f t va (S n) (Z.of_nat i) (e :: ev) s =
    copy_events f t va n (Z.of_nat (S i)) ev (with_memory (put_event (mem_of s) a e c) s).
Proof.
  intros Hs Ha Hb Hc Hc0 Hc1. cbn [copy_events].
  erewrite bind_done by (apply lift_done; unfold ptr_add; unfold sizeof_Event;
    by rewrite (proj2 (Z.ltb_lt _ _))).
  erewrite bind_done by (apply translate_ok, (Hleads _ Hs _ _ Ha)). cbn iota.
  assert (a ∈ all) as Hin by (by eapply list_elem_of_lookup_2).
  pose proof (proj1 (Forall_forall _ _) (proj1 Hslots) a Hin) as [Hnz Hap].
  erewrite bind_done by reflexivity. cbn [head tail].
  erewrite bind_done by (by apply save_bytes_ok). rewrite Z.add_0_r.
  erewrite bind_done by (by apply reg_ok). rewrite mem_of_with_memory.
  assert (reg_in (store (mem_of s) a (encode_event e)) f Cpu.A0 = c) as ->.
  { rewrite <- Hc. unfold reg_in. apply rdn_ext. intros x Hx. apply byte_store_out.
    change (8 * Cpu.gp Cpu.A0) with 80 in Hx. rewrite length_event. unfold Virtio.apart in Hap. lia. }
  erewrite bind_done by (apply lift_done, uint_ok; lia).
  erewrite bind_done by (by apply set_reg_ok).
  rewrite mem_of_with_memory, with_memory_twice.
  by replace (Z.of_nat i + 1) with (Z.of_nat (S i)) by lia.
Qed.

(** The events of the addresses [pas] that are left, from number [i] on. *)
Lemma copy_events_ok pas : forall i ev s c,
  (forall j a, pas !! j = Some a -> all !! (i + j)%nat = Some a) ->
  (forall x, ~ touched f all x -> byte (mem_of s) x = byte m0 x) ->
  (length pas <= length ev)%nat -> Forall event_wf ev ->
  va + 8 * (Z.of_nat i + zlen pas) < 2 ^ 64 ->
  reg_in (mem_of s) f Cpu.A0 = c -> 0 <= c -> c + zlen pas < 2 ^ 64 ->
  exists m', (forall k, copy_events f t va (length pas + k) (Z.of_nat i) ev s =
      copy_events f t va k (Z.of_nat (i + length pas)) (drop (length pas) ev) (with_memory m' s)) /\
    reg_in m' f Cpu.A0 = c + zlen pas /\
    (forall j a e, pas !! j = Some a -> ev !! j = Some e -> Input.event_at m' a = e) /\
    (forall x, ~ touched f pas x -> byte m' x = byte (mem_of s) x).
Proof.
  induction pas as [|a pas IH]; intros i ev s c Hsub Hs Hlen Hwf Hb Hc Hc0 Hc1; cbn [length] in *.
  { exists (mem_of s). rewrite Z.add_0_r. split_and!; try done. intros k. rewrite Nat.add_0_r.
    by destruct s as [[? ? ? ? ? [[]]]]. }
  destruct ev as [|e ev]; [cbn in Hlen; lia|]. cbn [length] in Hlen.
  inversion Hwf as [|? ? Hwe Hwf']; subst.
  set (c := reg_in (mem_of s) f Cpu.A0) in *.
  pose proof (Hsub 0%nat a eq_refl) as Ha. rewrite Nat.add_0_r in Ha.
  assert (a ∈ all) as Hin by (by eapply list_elem_of_lookup_2).
  set (m1 := put_event (mem_of s) a e c).
  assert (forall x, ~ touched f [a] x -> byte m1 x = byte (mem_of s) x) as Hm1.
  { intros x Hx. apply put_event_out.
    - destruct (Z.lt_ge_cases x (f + 80)); [by left|]. destruct (Z.lt_ge_cases x (f + 88)); [|by right].
      destruct Hx. by left.
    - destruct (Z.lt_ge_cases x a); [by left|]. destruct (Z.lt_ge_cases x (a + 8)); [|by right].
      destruct Hx. right. exists a. split; [by left|lia]. }
  destruct (IH (S i) ev (with_memory m1 s) (c + 1)) as (m' & E & Hr & He & Hm).
  - intros j b Hj. specialize (Hsub (S j) b Hj). by replace (S i + j)%nat with (i + S j)%nat by lia.
  - intros x Hx. rewrite mem_of_with_memory, Hm1, Hs; [done|done|].
    intros [Hx1|(b & Hb1%list_elem_of_singleton & Hb2)]; apply Hx; [by left|].
    subst b. right. by exists a.
  - lia.
  - done.
  - lia.
  - rewrite mem_of_with_memory. apply reg_in_put. lia.
  - lia.
  - lia.
  - rewrite mem_of_with_memory in Hm. exists m'. cbn [drop]. split_and!.
    + intros k. cbn [Nat.add]. rewrite (copy_one s i a e ev c) by (done || lia). fold m1.
      rewrite E, with_memory_twice. by replace (S i + length pas)%nat with (i + S (length pas))%nat by lia.
    + rewrite Hr. lia.
    + intros [|j] b e' Hj He'; [|by apply (He j)]. cbn in Hj, He'. injection Hj as <-. injection He' as <-.
      rewrite <- (event_stored (mem_of s) a e Hwe). apply event_ext. intros x Hx.
      pose proof (slot_frame a x Hin Hx) as Hfr. rewrite Hm.
      * unfold m1, put_event. apply byte_wrn_out. cbn. lia.
      * intros [?|(b & Hb1 & Hb2)]; [lia|]. apply list_elem_of_lookup in Hb1 as [j Hj].
        pose proof (Hsub (S j) b Hj) as Hj'.
        pose proof (proj2 Hslots _ _ _ _ Ha Hj' ltac:(lia)) as Hap. unfold Virtio.apart in Hap. lia.
    + intros x Hx. rewrite Hm.
      * apply Hm1. intros [?|(b & Hb1%list_elem_of_singleton & Hb2)]; apply Hx; [by left|].
        subst b. right. exists a. split; [by left|done].
      * intros [?|(b & Hb1 & Hb2)]; apply Hx; [by left|]. right. exists b. split; [by right|done].
Qed.
End Events.

(** ** The queues *)

(** A queue of events in the state. *)
Class EventQueue (sel : world -> option (list Event))
    (upd : option (list Event) -> world -> world) : Prop := {
  eq_get o s : sel (upd o s) = o;
  eq_set m o s : upd o (with_memory m s) = with_memory m (upd o s);
  eq_mem o s : mem_of (upd o s) = mem_of s;
  eq_procs o s : procs_of (upd o s) = procs_of s;
  eq_twice o o' s : upd o (upd o' s) = upd o s;
  eq_same s : upd (sel s) s = s;
}.
#[export] Instance key_queue : EventQueue KEY_EVENTS with_key.
Proof. split; try done. by intros []. Qed.
#[export] Instance abs_queue : EventQueue ABS_EVENTS with_abs.
Proof. split; try done. by intros []. Qed.

Section Queue.
Context `{Profile} (sel : world -> option (list Event)) (upd : option (list Event) -> world -> world).
Context `{!EventQueue sel upd}.

Lemma current_queue s f l1 p l2 o :
  current s f l1 p l2 -> current (upd o s) f l1 p l2.
Proof.
  intros [Hl Hfr Hn Hp Hr Hfd Ha]. split; rewrite ?eq_procs, ?eq_mem; done.
Qed.

(** Copying the whole count, or up to the end of what is mapped. *)
Lemma copy_events_count f t va pas m ev s :
  let n := Z.to_nat (Z.min (reg_in m f Cpu.A1) (zlen ev)) in
  f <> 0 -> slots_ok f pas -> leads m f t va pas ->
  (forall x, ~ touched f pas x -> byte (mem_of s) x = byte m x) ->
  Forall event_wf ev -> reg_in (mem_of s) f Cpu.A0 = 0 ->
  0 <= va -> va + 8 * (zlen pas + 1) < 2 ^ 64 ->
  n = length pas \/ (length pas < n)%nat /\ ends m f t va pas ->
  exists m', copy_events f t va n 0 ev s = Done (drop (length pas) ev, with_memory m' s) /\
    reg_in m' f Cpu.A0 = zlen pas /\
    (forall j a e, pas !! j = Some a -> ev !! j = Some e -> Input.event_at m' a = e) /\
    (forall x, ~ touched f pas x -> byte m' x = byte (mem_of s) x).
Proof.
  intros n Hf Hsl Hld Hs Hwf Hr0 Hva Hb Hn.
  destruct (copy_events_ok f t va pas m Hf Hsl Hld pas 0 ev s 0) as (m' & E & Hr & He & Hm); try (done || lia).
  exists m'. split_and!; [|done|done|done]. destruct Hn as [->|[Hlt Hend]].
  - specialize (E 0%nat). rewrite Nat.add_0_r in E. exact E.
  - replace n with (length pas + S (n - length pas - 1))%nat by lia. etransitivity; [apply E|].
    cbn [copy_events]. erewrite bind_done by (apply lift_done; unfold ptr_add, sizeof_Event;
      rewrite (proj2 (Z.ltb_lt _ _)); [reflexivity|cbn; lia]).
    erewrite bind_done by (apply translate_ok, Hend; intros x Hx; rewrite mem_of_with_memory, Hm by done; by apply Hs).
    reflexivity.
Qed.

(** C26: The event system calls of a process with the MMU on put events from the
    front of the queue into its buffer in order, as many as it asks for and the
    queue has, or as many as go before the first address of the buffer that is not
    mapped; a0 counts them, the rest is still in the queue, and no other byte of
    memory changes. With the MMU off the calls do nothing: the events stay in the
    queue and a0 keeps the address. *)
Theorem events_reach_process s f l1 p l2 ev :
  let m := mem_of s in let va := reg_in m f Cpu.A0 in
  let n := Z.min (reg_in m f Cpu.A1) (zlen ev) in
  current s f l1 p l2 -> sel s = Some ev -> Forall event_wf ev ->
  (mmu_enabled m f = false -> sys_events sel upd f s = Done (tt, s)) /\
  (forall pas, mmu_enabled m f = true -> mmu_table p <> 0 ->
     slots_ok f pas -> leads m f (mmu_table p) va pas ->
     zlen pas = n \/ zlen pas < n /\ ends m f (mmu_table p) va pas ->
     0 <= va -> va + 8 * (zlen pas + 1) < 2 ^ 64 ->
     exists m', sys_events sel upd f s =
         Done (tt, upd (Some (drop (length pas) ev)) (with_memory m' s)) /\
       reg_in m' f Cpu.A0 = zlen pas /\
       (forall i a e, pas !! i = Some a -> ev !! i = Some e -> Input.event_at m' a = e) /\
       (forall x, ~ touched f pas x -> byte m' x = byte m x)).
Proof.
  intros m va n Hc Hq Hwf. pose proof (cu_null _ _ _ _ _ Hc) as Hf.
  pose proof (current_queue _ _ _ _ _ None Hc) as Hc'.
  split.
  - intros Hoff. unfold sys_events. erewrite bind_done by reflexivity. rewrite Hq.
    erewrite bind_done by reflexivity. erewrite bind_done by reflexivity.
    erewrite bind_done by (by apply reg_ok). erewrite bind_done by (by apply reg_ok).
    erewrite bind_done by (by apply mmu_on_ok). rewrite eq_mem. fold m. rewrite Hoff.
    erewrite bind_done by reflexivity. unfold modify. by rewrite eq_twice, <- Hq, eq_same.
  - intros pas Hon Ht Hsl Hld Hn Hva Hb. set (m1 := put_reg m f Cpu.A0 0).
    assert (forall x, ~ touched f pas x -> byte m1 x = byte m x) as Hm1.
    { intros x Hx. apply byte_wrn_out. cbn. destruct (Z.lt_ge_cases x (f + 80)); [by left|].
      destruct (Z.lt_ge_cases x (f + 88)); [|right; lia]. destruct Hx. by left. }
    destruct (copy_events_count f (mmu_table p) va pas m ev (with_memory m1 (upd None s))) as (m' & E & Hr & He & Hm);
      try (done || rewrite ?mem_of_with_memory; done).
    { rewrite mem_of_with_memory. apply reg_in_put. lia. }
    { fold n. destruct Hn as [Hn|[Hn Hend]]; [left; lia|right; split; [lia|exact Hend]]. }
    exists m'. split_and!; [|done|done|].
    + unfold sys_events. erewrite bind_done by reflexivity. rewrite Hq.
      erewrite bind_done by reflexivity. erewrite bind_done by reflexivity.
      erewrite bind_done by (by apply reg_ok). erewrite bind_done by (by apply reg_ok).
      erewrite bind_done by (by apply mmu_on_ok). rewrite eq_mem. fold m. rewrite Hon.
      erewrite bind_done.
      2:{ erewrite bind_done by (by eapply deref_proc_ok).
          erewrite bind_done by (by eapply table_of_ok).
          erewrite bind_done by (by apply set_reg_ok). rewrite eq_mem. fold m m1 va.
          replace (Z.to_nat (if reg_in m f Cpu.A1 <=? zlen ev then reg_in m f Cpu.A1 else zlen ev))
            with (Z.to_nat n) by (unfold n; destruct (Z.leb_spec (reg_in m f Cpu.A1) (zlen ev)); lia).
          exact E. }
      unfold modify. rewrite with_memory_twice, eq_set, eq_twice, eq_set. done.
    + intros x Hx. rewrite Hm by done. rewrite mem_of_with_memory. by apply Hm1.
Qed.
End Queue.
End EventProps.
