(* ===== verification/BrkProps.v ===== *)
(** * Growing the memory of a process *)

From S2P Require Import Prelude Memory Cpu PageAlloc PageProps Kmem Mmu MmuFacts MmuProps MmuTree MinixLayout Lock Process ProcessProps.
From S2P Require Import Console World Boxes Uart BlockIo Virtio Block BlockDone Input Gpu FsProc Syscall SyscallFacts.
Import Mem PageProps MmuProps MmuTree Process World Syscall SyscallFacts.

Module BrkProps.
Section Brk.
Context `{Profile} `{Linker} `{Bus}.
Abbreviation num_pages := (HEAP_SIZE / Page.PAGE_SIZE).

Definition add_pages (l : list Z) (p : process) : process :=
  upd_data (fun d => mkData (environ d) (fdesc d) (cwd d) (pages d ++ l)) p.

(** The page of the break that round [j] of the loop maps. *)
Definition brk_page (base j : Z) : Z := base + 4096 * j.

(** The trap frames of the processes in the list are pages outside of the tree. *)
Definition frames_out (k : kernel) (t : list Page.seg) (root : Z) (l : list process) : Prop :=
  Forall (fun q => stranger k t root (frame q) 1) l.

(** What the loop leaves: the new pages [pgs] are mapped one behind the other and
    zeroed, and all other addresses are translated as before. *)
Record grown (s : world) (t : list Page.seg) (root : Z) (l1 : list process) (p : process)
    (l2 : list process) (base i : Z) (s' : world) (t' : list Page.seg) (pgs : list Z) : Prop := {
  gr_state : exists m, s' = replace_proc (with_memory m s) l1 l2 (add_pages pgs p);
  gr_tree : tree (kern_of s') t' root;
  gr_map j pg off : pgs !! j = Some pg -> 0 <= off < 4096 ->
    Mmu.virt_to_phys (mem_of s') root (brk_page base (i + Z.of_nat j) / 4096 * 4096 + off) =
      Done (Some (pg + off));
  gr_other va : 0 <= va ->
    (forall j, (j < length pgs)%nat -> same_page va (brk_page base (i + Z.of_nat j)) = false) ->
    Mmu.virt_to_phys (mem_of s') root va = Mmu.virt_to_phys (mem_of s) root va;
  gr_zero pg x : pg ∈ pgs -> pg <= x < pg + 4096 -> byte (mem_of s') x = 0;
  gr_new pg : pg ∈ pgs -> stranger (kern_of s') t' root pg 1;
  gr_fresh pg c n : pg ∈ pgs -> stranger (kern_of s) t root c n -> c <> pg;
  gr_kept : kept (kern_of s) t root (kern_of s') t';
  gr_nodup : NoDup pgs;
  gr_nodes q a : node (mem_of s) root q a -> exists q', node (mem_of s') root q' a;
}.

(** No page of [pgs] was allocated before, as a table or otherwise. *)
Lemma grown_fresh s t root l1 p l2 base i s' t' pgs c n :
  grown s t root l1 p l2 base i s' t' pgs -> is_block (kern_of s) t c n -> c ∉ pgs.
Proof.
  intros G Hb Hin. destruct (gr_new _ _ _ _ _ _ _ _ _ _ _ G c Hin) as [_ Hno].
  apply (gr_fresh _ _ _ _ _ _ _ _ _ _ _ G c c n Hin); [|done]. split; [done|].
  intros q Hq. destruct (gr_nodes _ _ _ _ _ _ _ _ _ _ _ G q c Hq) as [q' Hq']. exact (Hno q' Hq').
Qed.

Lemma page_target s t a :
  mm_ok s t -> is_table s t a -> ALLOC_START s + Page.PAGE_SIZE * num_pages <= 2 ^ 56 ->
  0 <= a /\ a mod 2 ^ 56 / 4096 * 4096 = a.
Proof.
  intros Hok Ha Hmax. destruct (table_range _ _ _ Hok Ha) as (_ & Hp & _ & Hal).
  destruct Ha as (t1 & t2 & Et & ->). pose proof (tbl_len _ _ (mm_page _ _ Hok)) as Hlen.
  rewrite Et, !Page.pages_of_app, Page.pages_of_run in Hlen by lia.
  assert (0 <= Page.pages_of t2) by (unfold Page.pages_of; lia).
  unfold page_addr, Page.PAGE_SIZE in *. split; [lia|]. rewrite Z.mod_small by lia.
  pose proof (Z.div_mod (ALLOC_START s + 4096 * Page.pages_of t1) 4096 ltac:(lia)). lia.
Qed.

Lemma brk_page_no base j : brk_page base j / 4096 = base / 4096 + j.
Proof. unfold brk_page. rewrite Z.mul_comm, Z.div_add by lia. done. Qed.

Lemma same_page_off x va off : 0 <= off < 4096 -> same_page (x / 4096 * 4096 + off) va = same_page x va.
Proof.
  intros Ho. unfold same_page. by rewrite Z.add_comm, Z.div_add, Z.div_small, Z.add_0_l by lia.
Qed.

(** The rounds of the loop map different pages. *)
Lemma rounds_apart base i j : 0 < j < 2 ^ 27 -> same_page (brk_page base i) (brk_page base (i + j)) = false.
Proof.
  intros Hj. unfold same_page. rewrite !brk_page_no, Z.add_assoc. set (x := base / 4096 + i).
  apply Z.eqb_neq. pose proof (Z.div_mod x (2 ^ 27) ltac:(lia)).
  pose proof (Z.div_mod (x + j) (2 ^ 27) ltac:(lia)).
  pose proof (Z.mod_pos_bound x (2 ^ 27) ltac:(lia)).
  pose proof (Z.mod_pos_bound (x + j) (2 ^ 27) ltac:(lia)). lia.
Qed.

(** The process that makes the call is there while its pages change. *)
Lemma current_kept s f l1 p l2 t root m t' :
  current s f l1 p l2 -> frames_out (kern_of s) t root (l1 ++ p :: l2) ->
  kept (kern_of s) t root (with_mem m (kern_of s)) t' ->
  current (with_memory m s) f l1 p l2 /\
  frames_out (kern_of (with_memory m s)) t' root (l1 ++ p :: l2).
Proof.
  intros Hc Hf Hk. split.
  - eapply current_memory; [exact Hc|]. intros q x Hq Hx. unfold pid_off in Hx.
    apply (Hk (frame q) 1%nat); [exact (proj1 (Forall_forall _ _) Hf q Hq)|lia].
  - eapply Forall_impl; [exact Hf|]. intros q Hq. by apply Hk.
Qed.

(** One round: a page, its place in the list of the process, and its entry. *)
Lemma grow_round s t root f l1 p l2 base i :
  current s f l1 p l2 -> tree (kern_of s) t root ->
  frames_out (kern_of s) t root (l1 ++ p :: l2) ->
  ALLOC_START (kern_of s) + Page.PAGE_SIZE * num_pages <= 2 ^ 56 ->
  4 <= Page.free_pages t -> 0 <= base -> 0 <= i -> brk_page base i < 2 ^ 64 ->
  exists pg s' t', (forall n, grow (length l1) root base (S n) i s = grow (length l1) root base n (i + 1) s') /\
    grown s t root l1 p l2 base i s' t' [pg] /\ Page.free_pages t - 3 <= Page.free_pages t'.
Proof.
  intros Hc Ht Hfr Hmax Hfree Hb Hi Hlt.
  destruct (zalloc_data (kern_of s) t root Ht ltac:(lia)) as (pg & m1 & t1 & E1 & D1 & [Hpg Hno] & Hne & Hz).
  pose proof D1 as [Ht1 O1 K1 V1 C1 _].
  destruct (current_kept _ _ _ _ _ _ _ _ _ Hc Hfr K1) as [Hc1 Hfr1].
  destruct (page_target _ _ _ (tr_ok _ _ _ Ht1) Hpg Hmax) as [Hpg0 Hpge].
  destruct (map_ok (with_mem m1 (kern_of s)) t1 root (brk_page base i) pg
    (Mmu.EntryBits_val Mmu.UserReadWrite) Ht1 ltac:(lia) ltac:(unfold brk_page; lia) Hpg0)
    as (k2 & t2 & E2 & Ht2 & Hv & K2 & C2 & [m2 Em2] & G2); [by vm_compute|by vm_compute|].
  rewrite Hpge in Hv. destruct (K2 pg 1%nat (conj Hpg Hno)) as [Hpg2 Hb2].
  exists pg, (replace_proc (with_memory m2 s) l1 l2 (add_pages [pg] p)), t2. split_and!; [| |lia].
  - intros n. cbn [grow]. erewrite bind_done by (apply zoom_done; exact E1).
    erewrite bind_done by exact (set_proc_ok _ _ _ _ _ Hc1 _).
    assert (as_u64 (Z.shiftl i 12) = 4096 * i) as ->.
    { unfold as_u64. rewrite Z.shiftl_mul_pow2, Z.mod_small by (unfold brk_page in Hlt; lia). lia. }
    erewrite bind_done by (apply lift_done, uint_ok; unfold brk_page in Hlt; lia).
    fold (brk_page base i). erewrite bind_done by (apply zoom_done; exact E2). by rewrite Em2.
  - subst k2. split.
    + by exists m2.
    + exact Ht2.
    + intros [|j] pg' off; [|done]. intros [= <-] Ho. rewrite Z.add_0_r.
      etransitivity; [apply Hv; pose proof (Z.div_pos (brk_page base i) 4096); unfold brk_page in *; lia|].
      rewrite same_page_off by done. unfold same_page. rewrite Z.eqb_refl.
      do 3 f_equal. by rewrite Z.add_comm, Z.mod_add, Z.mod_small by lia.
    + intros va Hva Hsp. etransitivity; [apply Hv; done|].
      specialize (Hsp 0%nat ltac:(cbn; lia)). rewrite Z.add_0_r in Hsp. rewrite Hsp. apply V1.
    + intros pg' x ->%list_elem_of_singleton Hx. etransitivity; [by apply Hb2|]. by apply Hz.
    + by intros pg' ->%list_elem_of_singleton.
    + intros pg' c n ->%list_elem_of_singleton [Hct _]. by apply (Hne c n).
    + by eapply kept_trans.
    + apply NoDup_singleton.
    + intros q a Hq. destruct G2 as (new & _ & Hnew & _). apply Hnew. left. exists q. by apply O1.
Qed.

Lemma add_pages_app l l' p : add_pages l' (add_pages l p) = add_pages (l ++ l') p.
Proof. unfold add_pages, upd_data. cbn. by rewrite app_assoc. Qed.

(** Rounds one after the other. *)
Lemma grown_app s t root l1 p l2 base i s1 t1 pg s2 t2 pgs :
  0 <= base -> 0 <= i -> Z.of_nat (length pgs) < 2 ^ 27 ->
  grown s t root l1 p l2 base i s1 t1 [pg] ->
  grown s1 t1 root l1 (add_pages [pg] p) l2 base (i + 1) s2 t2 pgs ->
  grown s t root l1 p l2 base i s2 t2 (pg :: pgs).
Proof.
  intros Hb Hi Hn [[m1 ->] Ht1 Hm1 Ho1 Hz1 Hw1 Hf1 K1 _ O1] [[m2 ->] Ht2 Hm2 Ho2 Hz2 Hw2 Hf2 K2 D2 O2].
  assert (pg ∈ [pg]) as Hin by (by left). split.
  - exists m2. by rewrite add_pages_app.
  - done.
  - intros [|j] pg' off Hj Ho.
    + injection Hj as <-. rewrite Ho2.
      * by apply (Hm1 0%nat).
      * pose proof (Z.div_pos (brk_page base (i + Z.of_nat 0)) 4096). unfold brk_page in *. lia.
      * intros j Hj. rewrite same_page_off by done.
        replace (i + 1 + Z.of_nat j) with (i + Z.of_nat 0 + (1 + Z.of_nat j)) by lia.
        apply rounds_apart. lia.
    + rewrite <- (Hm2 j pg' off Hj Ho). do 5 f_equal. lia.
  - intros va Hva Hne. rewrite Ho2, Ho1; [done|done| |done|].
    + intros j Hj. apply Hne. cbn in *. lia.
    + intros j Hj. replace (i + 1 + Z.of_nat j) with (i + Z.of_nat (S j)) by lia. apply Hne. cbn. lia.
  - intros pg' x [->|Hpg]%elem_of_cons Hx; [|by eapply Hz2].
    destruct (K2 pg 1%nat (Hw1 pg Hin)) as [_ Hk]. etransitivity; [by apply Hk|]. by apply (Hz1 pg).
  - intros pg' [->|Hpg]%elem_of_cons; [|by apply Hw2]. by apply K2, Hw1.
  - intros pg' c n [->|Hpg]%elem_of_cons Hst; [by apply (Hf1 _ _ n)|]. apply (Hf2 _ _ n); [done|by apply K1].
  - by eapply kept_trans.
  - constructor; [|done]. intros Hpg. by apply (Hf2 pg pg 1%nat Hpg (Hw1 pg Hin)).
  - intros q a Hq. destruct (O1 q a Hq) as [q' Hq']. exact (O2 q' a Hq').
Qed.

Lemma replace_same s f l1 p l2 :
  current s f l1 p l2 -> s = replace_proc (with_memory (mem_of s) s) l1 l2 (add_pages [] p).
Proof.
  intros [Hl _ _ _ _ _ _]. unfold replace_proc, with_memory, with_kern, with_procs, with_con, with_list,
    mem_of, kern_of, procs_of, add_pages, upd_data in *.
  destruct s as [[ib ob il ol cq [k pl mx np tk]] ? ? ? ? ? ? ? ?], p as [? ? ? ? ? [? ? ? ?] ? ? ?], k.
  cbn in *. by rewrite Hl, app_nil_r.
Qed.

Lemma grow_ok root f l1 l2 base : 0 <= base -> forall n s t p i,
  current s f l1 p l2 -> tree (kern_of s) t root ->
  frames_out (kern_of s) t root (l1 ++ p :: l2) ->
  ALLOC_START (kern_of s) + Page.PAGE_SIZE * num_pages <= 2 ^ 56 ->
  3 * Z.of_nat n + 1 <= Page.free_pages t -> 0 <= i ->
  brk_page base (i + Z.of_nat n) <= 2 ^ 64 -> Z.of_nat n < 2 ^ 27 ->
  exists s' t' pgs, grow (length l1) root base n i s = Done (tt, s') /\ length pgs = n /\
    grown s t root l1 p l2 base i s' t' pgs.
Proof.
  intros Hb. induction n as [|n IH]; intros s t p i Hc Ht Hfr Hmax Hf Hi Hlt Hn.
  - exists s, t, []. split_and!; [done|done|]. split; try done.
    + exists (mem_of s). by eapply replace_same.
    + by intros pg x Hpg%elem_of_nil.
    + by intros pg Hpg%elem_of_nil.
    + by intros pg c n Hpg%elem_of_nil.
    + constructor.
    + eauto.
  - destruct (grow_round s t root f l1 p l2 base i Hc Ht Hfr Hmax) as (pg & s1 & t1 & E & G & C);
      [lia|lia|lia|unfold brk_page in *; lia|].
    pose proof G as [[m1 Es1] Ht1 _ _ _ _ _ K1 _ _].
    assert (kern_of s1 = with_mem m1 (kern_of s)) as Ek by (by subst s1).
    rewrite Ek in K1. destruct (current_kept _ _ _ _ _ _ _ _ _ Hc Hfr K1) as [Hc1 Hfr1].
    destruct (IH s1 t1 (add_pages [pg] p) (i + 1)) as (s2 & t2 & pgs & E2 & L & G2);
      [|done| | |lia|lia|by replace (i + 1 + Z.of_nat n) with (i + Z.of_nat (S n)) by lia|lia|].
    + subst s1. by apply (current_replace _ _ _ _ _ Hc1).
    + subst s1. unfold frames_out in *. rewrite Forall_app, Forall_cons in *. exact Hfr1.
    + by rewrite Ek.
    + exists s2, t2, (pg :: pgs). split_and!; [by rewrite E|by cbn; rewrite L|].
      eapply grown_app; try done; lia.
Qed.

(** The call around the loop. *)
Lemma sys_brk_run s f l1 p l2 m1 q :
  let m := mem_of s in let a := reg_in m f Cpu.A0 in
  current s f l1 p l2 -> mmu_enabled m f = true -> mmu_table p <> 0 ->
  0 <= brk p < a -> a + 4096 < 2 ^ 64 ->
  current (with_memory m1 s) f l1 p l2 -> frame q = frame p -> pid q = pid p ->
  grow (length l1) (mmu_table p) (brk p) (Z.to_nat ((a + 4096 - brk p) / 4096)) 0 s =
    Done (tt, replace_proc (with_memory m1 s) l1 l2 q) ->
  sys_brk f s = Done (tt, with_memory (put_reg m1 f Cpu.A0 a)
                            (replace_proc (with_memory m1 s) l1 l2 (with_brk a q))).
Proof.
  intros m a Hc Hon Hroot Hbrk Ha Hc1 Hfq Hpq E. pose proof (cu_null _ _ _ _ _ Hc) as Hnull.
  unfold sys_brk. erewrite bind_done by (by apply reg_ok). erewrite bind_done by (by eapply my_proc_ok).
  erewrite bind_done by (by eapply proc_at_ok). fold m a. rewrite (proj2 (Z.ltb_lt _ _)) by lia.
  erewrite bind_done.
  2:{ erewrite bind_done by (by apply mmu_on_ok). fold m. rewrite Hon.
      erewrite bind_done.
      2:{ erewrite bind_done by (by eapply table_of_ok).
          do 2 erewrite bind_done by (apply lift_done, uint_ok; unfold Page.PAGE_SIZE; lia). exact E. }
      eapply set_proc_ok. by apply (current_replace _ _ _ _ _ Hc1). }
  erewrite bind_done by (eapply proc_at_ok, (current_replace _ _ _ _ _ Hc1); done). by apply set_reg_ok.
Qed.

(** C36: The brk system call of a process with page tables that raises its break,
    when there are pages for it, returns the new break and maps fresh zeroed pages
    one behind the other, one for each step of a page from the page of the old break
    on, which is replaced: the pages are all different, are allocated and were not
    before. Every other address is translated as before, the tables still form a
    tree, and what was allocated still is. *)
Theorem brk_grows s f l1 p l2 t :
  let m := mem_of s in let root := mmu_table p in let a := reg_in m f Cpu.A0 in
  let n := (a + 4096 - brk p) / 4096 in
  current s f l1 p l2 -> mmu_enabled m f = true -> root <> 0 ->
  tree (kern_of s) t root -> frames_out (kern_of s) t root (l1 ++ p :: l2) ->
  ALLOC_START (kern_of s) + Page.PAGE_SIZE * num_pages <= 2 ^ 56 ->
  0 <= brk p < a -> a + 4096 < 2 ^ 64 -> n < 2 ^ 27 -> 3 * n + 1 <= Page.free_pages t ->
  exists s' t' pgs, sys_brk f s = Done (tt, s') /\ zlen pgs = n /\
    current s' f l1 (with_brk a (add_pages pgs p)) l2 /\ reg_in (mem_of s') f Cpu.A0 = a /\
    tree (kern_of s') t' root /\
    NoDup pgs /\ Forall (fun pg => is_block (kern_of s') t' pg 1) pgs /\
    (forall c n, is_block (kern_of s) t c n -> c ∉ pgs) /\
    (forall c n, stranger (kern_of s) t root c n -> is_block (kern_of s') t' c n) /\
    (forall j pg off, pgs !! j = Some pg -> 0 <= off < 4096 ->
       Mmu.virt_to_phys (mem_of s') root (brk_page (brk p) (Z.of_nat j) / 4096 * 4096 + off) =
         Done (Some (pg + off)) /\ byte (mem_of s') (pg + off) = 0) /\
    (forall va, 0 <= va ->
       (forall j, 0 <= j < n -> same_page va (brk_page (brk p) j) = false) ->
       Mmu.virt_to_phys (mem_of s') root va = Mmu.virt_to_phys m root va).
Proof.
  intros m root a n Hc Hon Hroot Ht Hfr Hmax Hbrk Ha Hn Hfree.
  assert (0 < n) as Hn0 by (unfold n; apply Z.div_str_pos; lia).
  assert (brk_page (brk p) (0 + Z.of_nat (Z.to_nat n)) <= 2 ^ 64) as Hend.
  { unfold brk_page, n in *. pose proof (Z.mul_div_le (a + 4096 - brk p) 4096). lia. }
  destruct (grow_ok root f l1 l2 (brk p) ltac:(lia) (Z.to_nat n) s t p 0 Hc Ht Hfr Hmax
    ltac:(lia) ltac:(lia) Hend ltac:(lia)) as (s1 & t1 & pgs & E & L & G).
  pose proof G as [[m1 Es1] Ht1 Hmap Hoth Hz Hnew Hfresh K Hnd _].
  assert (kern_of s1 = with_mem m1 (kern_of s)) as Ek by (by subst s1).
  assert (mem_of s1 = m1) as Em by (by subst s1).
  rewrite Ek in K, Ht1. rewrite Em in Hmap, Hoth, Hz.
  destruct (current_kept _ _ _ _ _ _ _ _ _ Hc Hfr K) as [Hc1 Hfr1].
  set (q := with_brk a (add_pages pgs p)).
  assert (current (replace_proc (with_memory m1 s) l1 l2 q) f l1 q l2) as Hcq
    by (by apply (current_replace _ _ _ _ _ Hc1)).
  assert (0 <= a < 2 ^ 64) as Ha64 by lia.
  assert (stranger (kern_of s) t root f 1) as Hf0.
  { rewrite <- (cu_frame _ _ _ _ _ Hc). apply (proj1 (Forall_forall _ _) Hfr).
    apply elem_of_app. right. by left. }
  pose proof (gp_range Cpu.A0) as Hgp.
  destruct (stranger_write (with_mem m1 (kern_of s)) t1 root f 1 (put_reg m1 f Cpu.A0 a) Ht1)
    as (Ht2 & _ & Hv2); [by apply K|intros x Hx; apply put_reg_out; lia|].
  exists (with_memory (put_reg m1 f Cpu.A0 a) (replace_proc (with_memory m1 s) l1 l2 q)), t1, pgs.
  split_and!; [|lia|by apply (current_reg _ _ _ _ _ Cpu.A0 a Hcq)|by apply reg_in_put|exact Ht2|exact Hnd|..].
  - eapply sys_brk_run; try done. by rewrite <- Es1.
  - apply Forall_forall. intros pg Hpg. destruct (Hnew pg Hpg) as [Hpt _]. rewrite Ek in Hpt. exact Hpt.
  - intros c k Hb. by eapply grown_fresh.
  - intros c k Hst. by destruct (K c k Hst) as [[Hb _] _].
  - intros j pg off Hj Ho. assert (pg ∈ pgs) as Hin by (by eapply list_elem_of_lookup_2). split.
    + etransitivity; [apply Hv2|]. exact (Hmap j pg off Hj Ho).
    + etransitivity; [|apply (Hz pg (pg + off) Hin); lia]. apply put_reg_out.
      destruct (Hnew pg Hin) as [Hpt _]. rewrite Ek in Hpt.
      destruct (table_range _ _ _ (tr_ok _ _ _ Ht1) Hpt) as (_ & _ & _ & Hpa).
      destruct (table_range _ _ _ (tr_ok _ _ _ Ht) (proj1 Hf0)) as (_ & _ & _ & Hfa).
      pose proof (tables_apart f pg Hfa Hpa (Hfresh pg f 1%nat Hin Hf0)). lia.
  - intros va Hva Hne. etransitivity; [apply Hv2|]. apply Hoth; [done|]. intros j Hj. apply Hne. lia.
Qed.
End Brk.
End BrkProps.
