(* ===== verification/FbProps.v ===== *)
(** * The framebuffer in the memory of a process *)

From S2P Require Import Prelude Memory Cpu PageAlloc PageProps Kmem Mmu MmuFacts MmuProps MmuTree MinixLayout Lock Process ProcessProps.
From S2P Require Import Console World Boxes Uart BlockIo Virtio Block BlockDone Input Gpu FsProc Syscall SyscallFacts BrkProps.
Import Mem PageProps MmuProps MmuTree Process World Syscall SyscallFacts BrkProps.

Module FbProps.
Section Fb.
Context `{Profile} `{Linker} `{Bus}.

(** Where system call 1000 puts it. *)
Definition fb_start : Z := 0x30000000.
Definition fb_pages (g : GpuDevice) : Z := Gpu.get_width g * Gpu.get_height g * 4 / 4096.

Lemma kern_same s : World.with_kern (kern_of s) s = s.
Proof. by destruct s as [[? ? ? ? ? []] ? ? ? ? ? ? ? ?]. Qed.

Lemma map_fb_ok root ptr n : forall i s t A,
  tree (kern_of s) t root -> implements (mem_of s) root A ->
  2 * Z.of_nat n + 1 <= Page.free_pages t -> 0 <= ptr -> 0 <= i ->
  fb_start + (i + Z.of_nat n) * 4096 < 2 ^ 64 -> ptr + (i + Z.of_nat n) * 4096 < 2 ^ 64 ->
  exists k' t', map_fb root ptr n i s = Done (tt, World.with_kern k' s) /\
    MmuTree.mapped (kern_of s) t root (2 * Z.of_nat n) k' t'
      (map_range (fb_start + i * 4096) (ptr + i * 4096) n A).
Proof.
  induction n as [|n IH]; intros i s t A Ht HA Hf Hp Hi Hv Hq.
  - exists (kern_of s), t. split; [by rewrite kern_same|].
    split; try done; [exists (mem_of s); unfold mem_of; by destruct (kern_of s)|lia|by apply grows_same].
  - cbn [map_fb map_range].
    assert (as_u64 (Z.shiftl i 12) = i * 4096) as ->
      by (unfold as_u64; rewrite Z.shiftl_mul_pow2, Z.mod_small by lia; lia).
    fold fb_start. do 2 erewrite bind_done by (apply lift_done, uint_ok; unfold fb_start in *; lia).
    destruct (map_inserts (kern_of s) t root A (fb_start + i * 4096) (ptr + i * 4096)
      (Mmu.EntryBits_val Mmu.UserReadWrite) Ht HA ltac:(lia) ltac:(unfold fb_start; lia) ltac:(lia))
      as (k1 & t1 & E & M1); [by vm_compute|by vm_compute|].
    erewrite bind_done by (by apply zoom_done). pose proof M1 as [_ Ht1 HA1 _ C1].
    destruct (IH (i + 1) (World.with_kern k1 s) t1 _ Ht1 HA1) as (k2 & t2 & E2 & M2); try lia.
    rewrite E2. exists k2, t2. split; [done|].
    replace (2 * Z.of_nat (S n)) with (2 + 2 * Z.of_nat n) by lia.
    replace (fb_start + i * 4096 + 4096) with (fb_start + (i + 1) * 4096) by lia.
    replace (ptr + i * 4096 + 4096) with (ptr + (i + 1) * 4096) by lia.
    by eapply mapped_trans.
Qed.

(** The pages of the framebuffer in the map. *)
Lemma fb_lookup m root ptr n A j :
  implements m root (map_range fb_start ptr (Z.to_nat n) A) -> 0 <= ptr -> ptr mod 4096 = 0 ->
  ptr + 4096 * n <= 2 ^ 56 -> n <= 2 ^ 27 -> 0 <= j < 4096 * n ->
  Mmu.virt_to_phys m root (fb_start + j) = Done (Some (ptr + j)).
Proof.
  intros HA Hp Hal Hmax Hn Hj. rewrite HA by (unfold fb_start; lia).
  pose proof (Z.div_mod j 4096 ltac:(lia)) as Dj. pose proof (Z.mod_pos_bound j 4096 ltac:(lia)).
  assert (page_no (fb_start + j) = page_no (fb_start + 4096 * (j / 4096))) as ->.
  { unfold page_no. f_equal. unfold fb_start. rewrite (Z.mul_comm 4096).
    change 0x30000000 with (0x30000 * 4096). by rewrite !Z.div_add_l, Z.div_mul by lia. }
  rewrite map_range_in by lia. cbn. do 2 f_equal.
  replace ((fb_start + j) mod 4096) with (j mod 4096)
    by (unfold fb_start; change 0x30000000 with (0x30000 * 4096); by rewrite Z.add_comm, Z.mod_add by lia).
  rewrite Z.mod_small by lia.
  assert ((ptr + 4096 * (j / 4096)) / 4096 * 4096 = ptr + 4096 * (j / 4096)) as ->; [|lia].
  rewrite (Z.mul_comm 4096), Z.div_add by lia. pose proof (Z.div_mod ptr 4096 ltac:(lia)). lia.
Qed.

(** A store into the frame of the caller changes neither its tables nor the map. *)
Lemma frame_store s f l1 p l2 t root r v :
  current s f l1 p l2 -> tree (kern_of s) t root -> frames_out (kern_of s) t root (l1 ++ p :: l2) ->
  let s' := with_memory (put_reg (mem_of s) f r v) s in
  current s' f l1 p l2 /\ tree (kern_of s') t root /\ frames_out (kern_of s') t root (l1 ++ p :: l2) /\
  forall va, Mmu.virt_to_phys (mem_of s') root va = Mmu.virt_to_phys (mem_of s) root va.
Proof.
  intros Hc Ht Hfr s'. pose proof (gp_range r) as Hgp.
  assert (stranger (kern_of s) t root f 1) as Hf.
  { rewrite <- (cu_frame _ _ _ _ _ Hc). apply (proj1 (Forall_forall _ _) Hfr).
    apply elem_of_app. right. by left. }
  destruct (stranger_write (kern_of s) t root f 1 (put_reg (mem_of s) f r v) Ht Hf) as (Ht2 & Hn & Hv);
    [intros x Hx; apply put_reg_out; lia|].
  split_and!; [by apply current_reg|exact Ht2| |exact Hv].
  eapply Forall_impl; [exact Hfr|]. intros q [Hq Hno]. split; [done|]. intros path Ha. by apply (Hno path), Hn.
Qed.

(** The call around the loop. *)
Lemma sys_framebuffer_run s f l1 p l2 g k3 :
  let m := mem_of s in let dev := reg_in m f Cpu.A0 in
  let s1 := with_memory (put_reg m f Cpu.A0 0) s in
  let s2 := with_gpu (<[Z.to_nat (dev - 1) := None]> (GPU_DEVICES s1)) s1 in
  let s4 := with_gpu (GPU_DEVICES s) (World.with_kern k3 s2) in
  current s f l1 p l2 -> mmu_enabled m f = true -> mmu_table p <> 0 ->
  1 <= dev <= 8 -> GPU_DEVICES s !! Z.to_nat (dev - 1) = Some (Some g) ->
  0 <= Gpu.get_width g -> 0 <= Gpu.get_height g -> Gpu.get_width g * Gpu.get_height g * 4 < 2 ^ 32 ->
  map_fb (mmu_table p) (Gpu.get_framebuffer g) (Z.to_nat (fb_pages g)) 0 s2 = Done (tt, World.with_kern k3 s2) ->
  sys_framebuffer f s = Done (tt, with_memory (put_reg (mem_of s4) f Cpu.A0 fb_start) s4).
Proof.
  intros m dev s1 s2 s4 Hc Hon Hroot Hd Hg Hw Hh Hwh E3. pose proof (cu_null _ _ _ _ _ Hc) as Hnull.
  destruct (gpu_round s1 dev g Hd Hg) as [Et Er]. fold s2 in Et.
  unfold sys_framebuffer. erewrite bind_done by (by apply reg_ok). fold m dev.
  erewrite bind_done by (by apply set_reg_ok). fold m s1.
  rewrite (proj2 (Z.ltb_lt 0 dev)), (proj2 (Z.leb_le dev 8)) by lia. cbn [andb].
  erewrite bind_done by exact Et. cbn iota.
  assert (mmu_enabled (mem_of s2) f = true) as Hon2.
  { rewrite <- Hon. unfold mmu_enabled. do 3 f_equal. apply rdn_ext. intros x Hx.
    apply put_reg_out. unfold satp_off in Hx. lia. }
  erewrite bind_done by (by apply mmu_on_ok). rewrite Hon2. erewrite bind_done.
  2:{ assert (current s2 f l1 p l2) as Hc2 by (by destruct (current_reg _ _ _ _ _ Cpu.A0 0 Hc)).
      erewrite bind_done by (by eapply deref_proc_ok). erewrite bind_done by (by eapply table_of_ok).
      do 2 erewrite bind_done by (apply lift_done, uint_ok; nia).
      erewrite bind_done by exact E3. by apply Er. }
  by apply set_reg_ok.
Qed.

(** C16: System call 1000 of a process with page tables makes the framebuffer of the
    device appear at 0x30000000, byte for byte as far as whole pages go, and returns
    that address; all other addresses are translated as before, the tables still
    form a tree, and the device is back in its slot. *)
Theorem framebuffer_maps s f l1 p l2 t A g :
  let m := mem_of s in let root := mmu_table p in let dev := reg_in m f Cpu.A0 in
  let n := fb_pages g in let fb := Gpu.get_framebuffer g in
  current s f l1 p l2 -> mmu_enabled m f = true -> root <> 0 ->
  tree (kern_of s) t root -> implements m root A -> frames_out (kern_of s) t root (l1 ++ p :: l2) ->
  1 <= dev <= 8 -> GPU_DEVICES s !! Z.to_nat (dev - 1) = Some (Some g) ->
  0 <= Gpu.get_width g -> 0 <= Gpu.get_height g -> Gpu.get_width g * Gpu.get_height g * 4 < 2 ^ 32 ->
  0 <= fb -> fb mod 4096 = 0 -> fb + 4096 * n <= 2 ^ 56 -> 2 * n + 1 <= Page.free_pages t ->
  exists s' t', sys_framebuffer f s = Done (tt, s') /\ reg_in (mem_of s') f Cpu.A0 = fb_start /\
    GPU_DEVICES s' = GPU_DEVICES s /\ current s' f l1 p l2 /\ tree (kern_of s') t' root /\
    (forall j, 0 <= j < 4096 * n -> Mmu.virt_to_phys (mem_of s') root (fb_start + j) = Done (Some (fb + j))) /\
    (forall va, 0 <= va -> (forall i, 0 <= i < n -> page_no (fb_start + 4096 * i) <> page_no va) ->
       Mmu.virt_to_phys (mem_of s') root va = Mmu.virt_to_phys m root va).
Proof.
  intros m root dev n fb Hc Hon Hroot Ht HA Hfr Hd Hg Hw Hh Hwh Hfb Hal Hmax Hfree.
  pose proof (cu_null _ _ _ _ _ Hc) as Hnull.
  assert (0 <= n /\ n <= 2 ^ 20) as [Hn0 Hn].
  { unfold n, fb_pages. split; [apply Z.div_pos; nia|]. apply Z.div_le_upper_bound; lia. }
  set (s1 := with_memory (put_reg m f Cpu.A0 0) s).
  destruct (frame_store s f l1 p l2 t root Cpu.A0 0 Hc Ht Hfr) as (Hc1 & Ht1 & Hfr1 & Hv1).
  change (with_memory (put_reg (mem_of s) f Cpu.A0 0) s) with s1 in *.
  set (s2 := with_gpu (<[Z.to_nat (dev - 1) := None]> (GPU_DEVICES s1)) s1) in *.
  destruct (map_fb_ok root fb (Z.to_nat n) 0 s2 t A Ht1) as (k3 & t3 & E3 & [[m3 Em3] Ht3 HA3 K3 _]);
    [intros va Hva; etransitivity; [apply Hv1|by apply HA]|unfold fb_start; lia..|].
  rewrite !Z.mul_0_l, !Z.add_0_r in HA3.
  set (s3 := World.with_kern k3 s2) in *. set (s4 := with_gpu (GPU_DEVICES s1) s3).
  destruct (current_kept s1 f l1 p l2 t root m3 t3 Hc1 Hfr1) as [Hc3 Hfr3]; [change (kern_of s1) with (kern_of s2); by rewrite <- Em3|].
  assert (current s4 f l1 p l2) as Hc4 by (unfold s4, s3; by rewrite Em3).
  assert (kern_of s4 = k3) as Ek4 by done.
  assert (frames_out (kern_of s4) t3 root (l1 ++ p :: l2)) as Hfr4 by (by rewrite Ek4, Em3).
  destruct (frame_store s4 f l1 p l2 t3 root Cpu.A0 fb_start Hc4 Ht3 Hfr4) as (Hc5 & Ht5 & _ & Hv5).
  exists (with_memory (put_reg (mem_of s4) f Cpu.A0 fb_start) s4), t3.
  split_and!; [|by apply reg_in_put|done|exact Hc5|exact Ht5|..].
  - by apply (sys_framebuffer_run s f l1 p l2 g k3).
  - intros j Hj. etransitivity; [apply Hv5|]. eapply fb_lookup; try done; lia.
  - intros va Hva Hne. etransitivity; [apply Hv5|]. etransitivity; [by apply HA3|].
    rewrite map_range_out by (intros i Hi; apply Hne; lia). symmetry. by apply HA.
Qed.
End Fb.
End FbProps.
