(* ===== verification/Trap.v ===== *)
(** * trap.rs and main.rs: the trap handler and booting *)

From S2P Require Import Prelude Memory Cpu PageAlloc Kmem Mmu MinixLayout Lock Process Sched Console World Boxes.
From S2P Require Import Uart BlockIo Virtio Block Rng Input Gpu VirtioBus Plic FsProc Syscall.
Import Mem Io Process World Syscall.

Module Trap.
Import (notations) String.

Definition MMIO_MTIMECMP : Z := 0x02004000.

(** How a trap ends: back to where it came from, or with the registers of a
    process in its frame. *)
Inductive after := ReturnPc (pc : Z) | SwitchTo (frame : Z).

Section Trap.
Context `{Profile} `{Linker} `{Clock} `{Bus} `{Repr Gpu.Pixel} `{Gpu.ReqLayout}.
Context {D : Type} `{BlockService D} `{Heap} `{Repr FsProc.ProcArgs}.
Context (fuel : nat).
(** Addresses of functions, placed by the linker. *)
Context (ra_delete_proc read_proc_fn write_proc_fn exec_func_fn init_process test_fn : Z).
Abbreviation Y := (M (sys D)).

Definition schedule_next_context_switch (qm : Z) : W unit :=
  now ← on_procs get_mtime;
  write_volatile MMIO_MTIMECMP (as_u64 (now + Cpu.CONTEXT_SWITCH_TIME * qm)).

(** [schedule] with the line it prints: when it has the lock and the list is away. *)
Definition schedule : W Z :=
  s ← get;
  f ← on_procs (Sched.schedule fuel);
  _ ← match Lock.try_lock (PROCESS_LIST_MUTEX (procs_of s)), PROCESS_LIST (procs_of s) with
      | Done (true, _), None => Uart.println (Fmt.str "could not take process list")
      | _, _ => mret tt
      end;
  mret f.

(** [schedule], the next timer, [rust_switch_to_user] *)
Definition reschedule : W after :=
  f ← schedule;
  _ ← schedule_next_context_switch 1;
  mret (SwitchTo f).

(** A process that cannot go on. *)
Definition kill (f : Z) : W after :=
  p ← frame_pid f;
  _ ← on_procs (delete_process fuel p);
  reschedule.

(** The text of a fault: where and at which address. *)
Definition fault_text (what : list Z) (hart epc tval : Z) : list Z :=
  what ++ Fmt.str " CPU#" ++ Fmt.dec hart ++ Fmt.str " -> 0x" ++ Fmt.hex08 epc ++
  Fmt.str ": 0x" ++ Fmt.hex08 tval.

Definition async_trap (cause_num hart epc : Z) : W after :=
  if cause_num =? 3 then
    _ ← Uart.println (Fmt.str "Machine software interrupt CPU #" ++ Fmt.dec hart);
    mret (ReturnPc epc)
  else if cause_num =? 7 then
    new_frame ← schedule;
    _ ← schedule_next_context_switch 1;
    if negb (new_frame =? 0) then mret (SwitchTo new_frame) else mret (ReturnPc epc)
  else if cause_num =? 11 then
    _ ← Plic.handle_interrupt fuel;
    mret (ReturnPc epc)
  else lift Panic.

Definition sync_trap (cause_num hart epc tval f : Z) : Y after :=
  if cause_num =? 2 then
    _ ← on_wd (Uart.println (fault_text (Fmt.str "Illegal instruction") hart epc tval ++ [10]));
    on_wd (kill f)
  else if cause_num =? 3 then
    _ ← on_wd (Uart.println (Fmt.str "BKPT" ++ [10; 10]));
    pc ← lift (usize (epc + 2));
    mret (ReturnPc pc)
  else if cause_num =? 7 then
    p ← on_wd (load 8 f pid_off);
    pc ← on_wd (load 8 f pc_off);
    _ ← on_wd (Uart.println (Fmt.str "Error with pid " ++ Fmt.dec p ++ Fmt.str ", at PC 0x" ++
          Fmt.hex08 pc ++ Fmt.str ", mepc 0x" ++ Fmt.hex08 epc));
    on_wd (kill f)
  else if (cause_num =? 8) || (cause_num =? 9) || (cause_num =? 11) then
    _ ← do_syscall fuel ra_delete_proc read_proc_fn write_proc_fn exec_func_fn epc f;
    on_wd reschedule
  else if cause_num =? 12 then
    _ ← on_wd (Uart.println (fault_text (Fmt.str "Instruction page fault") hart epc tval));
    on_wd (kill f)
  else if cause_num =? 13 then
    _ ← on_wd (Uart.println (fault_text (Fmt.str "Load page fault") hart epc tval));
    on_wd (kill f)
  else if cause_num =? 15 then
    _ ← on_wd (Uart.println (fault_text (Fmt.str "Store page fault") hart epc tval));
    on_wd (kill f)
  else lift Panic.

Definition m_trap (epc tval cause hart f : Z) : Y after :=
  let is_async := Z.land (Z.shiftr cause 63) 1 =? 1 in
  let cause_num := Z.land cause 0xfff in
  if is_async then on_wd (async_trap cause_num hart epc)
  else sync_trap cause_num hart epc tval f.

(** ** Booting *)

(** [for i in 1..=10] *)
Fixpoint enable_all (k : nat) (i : Z) : W unit :=
  match k with
  | O => mret tt
  | S k' => _ ← Plic.enable i; _ ← Plic.set_priority i 1; enable_all k' (i + 1)
  end.

Definition kinit `{Kmem.Deques} : W after :=
  _ ← Uart.init (Uart.Uart_new 0x10000000);
  _ ← on_kern Page.init;
  _ ← on_kern Kmem.init;
  _ ← on_procs (Process.init ra_delete_proc init_process fuel);
  _ ← Plic.set_threshold 0;
  _ ← enable_all 10 1;
  _ ← VirtioBus.probe fuel;
  _ ← on_con (Console.init fuel);
  _ ← on_procs (add_kernel_process ra_delete_proc fuel test_fn);
  _ ← Gpu.init fuel 6;
  _ ← schedule_next_context_switch 1;
  f ← schedule;
  mret (SwitchTo f).
End Trap.
End Trap.

(** ** Code that runs in kernel processes

    process.rs: what a kernel process does when its function returns, and the
    process that is always there. *)
Module Kproc.
Import (notations) String.
Section Kproc.
Context `{Profile} `{Bus} {D : Type}.
(** As in [Syscall.do_make_syscall]. *)
Context (f : Z) (ecall : M (sys D) unit).

Definition ra_delete_proc : M (sys D) unit := syscall_exit f ecall.

(** [loop]; it does not end, so any number of rounds runs out of fuel. *)
Fixpoint init_loop (k : nat) : M (sys D) unit :=
  match k with
  | O => lift NoFuel
  | S k' => _ ← syscall_yield f ecall; init_loop k'
  end.

Definition init_process (k : nat) : M (sys D) unit :=
  _ ← on_wd (Uart.println (Fmt.str "Init process started..."));
  init_loop k.
End Kproc.
End Kproc.

(** ** main.rs: the end of a panic

    In the operations a panic is the outcome [Panic]; this is what follows it. *)
Module Panicking.
Import (notations) String.
Section Panicking.
Context `{Bus}.

(** Waits for interrupts forever. *)
Definition abort {A} : W A := lift Hang.

(** [location] is the line and the file. *)
Definition panic {A} (location : option (Z * list Z)) (message : option (list Z)) : W A :=
  _ ← Uart.print (Fmt.str "Aborting: ");
  _ ← match location with
      | Some (line, file) =>
          msg ← lift (unwrap message);
          Uart.println (Fmt.str "line " ++ Fmt.dec line ++ Fmt.str ", file " ++ file ++ Fmt.str ": " ++ msg)
      | None => Uart.println (Fmt.str "no information available.")
      end;
  abort.
End Panicking.
End Panicking.
