(* ===== verification/TrapProps.v ===== *)
(** * What the trap handler does *)

From S2P Require Import Prelude Memory Cpu PageAlloc PageProps Kmem Mmu MmuTree MinixLayout Lock Process ProcessProps Sched ExitProps UserExit.
From S2P Require Import Console World Boxes Uart BlockIo Virtio Block Rng Input Gpu VirtioBus Plic FsProc Syscall SyscallFacts Trap.
Import Mem PageProps Process ProcessProps Sched ExitProps UserExit World Syscall SyscallFacts Trap.

Module TrapProps.
Import (notations) String.

Section Perm.
Context `{Linker}.

(** The order of the list and the states of the processes do not matter, nor do the
    lock and the clock. *)
Lemma procs_ok_perm s t l x r m n :
  procs_ok s t l -> l ≡ₚ x :: r ->
  procs_ok (mkP (kern s) (Some (with_state Running x :: r)) m (NEXT_PID s) n) t (with_state Running x :: r).
Proof.
  intros [Hl Hpage Hpids Hnd Hfr Hnext] Hp. unfold frames_ok in *. rewrite Hp in Hpids, Hnd, Hfr.
  split; try done; cbn [kern NEXT_PID].
  - rewrite Forall_cons in *. done.
  - unfold frames_ok. rewrite Forall_cons in *. done.
Qed.
End Perm.

Section Trap.
Context `{Profile} `{Linker} `{Clock} `{Bus} `{Repr Gpu.Pixel} `{Gpu.ReqLayout}.
Context {D : Type} `{BlockService D} `{Heap} `{Repr FsProc.ProcArgs}.
Context (fuel : nat) (ra_delete_proc read_proc_fn write_proc_fn exec_func_fn : Z).
Abbreviation trap := (m_trap fuel ra_delete_proc read_proc_fn write_proc_fn exec_func_fn).

(** The timer for the next switch, when the clock has been read [n] times. *)
Definition next_timer (n : nat) : io_event :=
  Wr MMIO_MTIMECMP ((clock n + Cpu.CONTEXT_SWITCH_TIME) mod 2 ^ 64).

Definition tick (p : pstate) : pstate :=
  mkP (kern p) (PROCESS_LIST p) (PROCESS_LIST_MUTEX p) (NEXT_PID p) (S (ticks p)).

Lemma timer_ok s :
  schedule_next_context_switch 1 s =
    Done (tt, with_io (io s ++ [next_timer (ticks (procs_of s))]) (with_procs (tick (procs_of s)) s)).
Proof.
  unfold schedule_next_context_switch. erewrite bind_done by reflexivity.
  unfold write_volatile, modify, next_timer, as_u64. by rewrite Z.mul_1_r.
Qed.

(** [reschedule] when the search picks [x] behind [l1] and in front of [l2]. *)
Definition switched (s : world) (l1 : list process) (x : process) (l2 : list process) : world :=
  let p := procs_of s in let n := (ticks p + sleepers (l1 ++ [x]))%nat in
  with_io (io s ++ [next_timer n])
    (with_procs (mkP (kern p) (Some (with_state Running x :: l2 ++ l1)) 0 (NEXT_PID p) (S n)) s).

Lemma schedule_ok s q l l1 x l2 :
  let p := procs_of s in
  PROCESS_LIST_MUTEX p = 0 -> PROCESS_LIST p = Some (q :: l) ->
  picks (ticks p) (l ++ [q]) l1 x l2 -> (length l1 < fuel)%nat ->
  Trap.schedule fuel s = Done (frame x,
    with_procs (mkP (kern p) (Some (with_state Running x :: l2 ++ l1)) 0 (NEXT_PID p)
                  (ticks p + sleepers (l1 ++ [x]))) s).
Proof.
  intros p Hm Hl Hp Hf. unfold Trap.schedule. erewrite bind_done by reflexivity.
  erewrite bind_done by (apply (zoom_done procs_of with_procs); by apply (schedule_picks _ q l l1 x l2)).
  fold p. rewrite Hl. by destruct (Lock.try_lock _) as [[[] ?]| | | |].
Qed.

Lemma schedule_locked s :
  PROCESS_LIST_MUTEX (procs_of s) = 1 -> Trap.schedule fuel s = Done (0, s).
Proof.
  intros Hm. unfold Trap.schedule. erewrite bind_done by reflexivity.
  erewrite bind_done by (apply (zoom_done procs_of with_procs), schedule_busy, Hm). rewrite Hm.
  cbn. by destruct s as [[]].
Qed.

Lemma reschedule_ok s q l l1 x l2 :
  PROCESS_LIST_MUTEX (procs_of s) = 0 -> PROCESS_LIST (procs_of s) = Some (q :: l) ->
  picks (ticks (procs_of s)) (l ++ [q]) l1 x l2 -> (length l1 < fuel)%nat ->
  reschedule fuel s = Done (SwitchTo (frame x), switched s l1 x l2).
Proof.
  intros Hm Hl Hp Hf. unfold reschedule. erewrite bind_done by (by apply (schedule_ok _ q l)).
  by erewrite bind_done by apply timer_ok.
Qed.

(** Faults of a process: illegal instruction, store access and page faults. *)
Definition faults : list Z := [2; 7; 12; 13; 15].

Lemma frame_pid_procs s t p l :
  procs_ok (procs_of s) t (p :: l) -> frame p <> 0 /\ frame_pid (frame p) s = Done (pid p, s).
Proof.
  intros [_ Hpage Hpids _ Hfr Hnext]. inversion Hfr as [|? ? [Hb Hr] _]; subst.
  inversion Hpids as [|? ? Hp _]; subst.
  pose proof (block_range _ _ _ _ Hpage Hb) as (R & _). pose proof (tbl_pos _ _ Hpage).
  assert (0 <= HEAP_SIZE / Page.PAGE_SIZE) as Hn
    by (rewrite <- (tbl_len _ _ Hpage); unfold Page.pages_of; lia).
  assert (frame p <> 0) as Hf by lia. split; [done|]. unfold frame_pid.
  erewrite bind_done by (by apply load_ok).
  change (rdn 8 (mem_of s) (frame p + pid_off)) with (rd64 (mem (kern (procs_of s))) (pid_addr (frame p))).
  rewrite Hr. unfold as_u16. by rewrite Z.mod_small by lia.
Qed.

(** What the end of process [p] leaves: its blocks are free, the others are kept,
    and [x] runs. *)
Record ended (s : world) (t : list Page.seg) (p : process) (np : nat) (l1 : list process) (x : process)
    (l2 : list process) (s' : world) (t' : list Page.seg) : Prop := {
  en_procs : procs_ok (procs_of s') t' (with_state Running x :: l2 ++ l1);
  en_free : Page.free_pages t' = Page.free_pages t + pages_in (blocks_of (mem_of s) p np);
  en_kept b k : is_block (kern_of s) t b k -> b ∉ (blocks_of (mem_of s) p np).*1 ->
    is_block (kern_of s') t' b k;
  en_lock : PROCESS_LIST_MUTEX (procs_of s') = 0;
}.

(** The timer that is set when the search for [x] is over. *)
Definition timer_after (s : world) (l1 : list process) (x : process) : io_event :=
  next_timer (ticks (procs_of s) + sleepers (l1 ++ [x])).

(** Exit: the process is deleted and the next one runs. *)
Lemma exit_ok s t p q l np l1 x l2 :
  procs_ok (procs_of s) t (p :: q :: l) -> holds_pages (kern_of s) t p np (q :: l) ->
  PROCESS_LIST_MUTEX (procs_of s) = 0 -> picks (ticks (procs_of s)) (l ++ [q]) l1 x l2 ->
  (35 <= fuel)%nat -> (np <= fuel)%nat -> (length l1 < fuel)%nat ->
  exists s1, sys_exit fuel (frame p) s = Done (tt, s1) /\
    exists s' t', reschedule fuel s1 = Done (SwitchTo (frame x), s') /\
    ended s t p np l1 x l2 s' t' /\ io s' = io s ++ [timer_after s l1 x].
Proof.
  intros Hp Ho Hm Hpk Hf Hnp Hl.
  destruct (delete_user_ok (procs_of s) t [] p (q :: l) np fuel Hp Ho Hf Hnp) as (k' & t' & E & Hok & F).
  set (p1 := with_list (Some _) _) in *. exists (with_procs p1 s). split.
  { unfold sys_exit. erewrite bind_done by (by eapply frame_pid_procs). by apply (zoom_done procs_of with_procs). }
  exists (switched (with_procs p1 s) l1 x l2), t'.
  rewrite (reschedule_ok (with_procs p1 s) q l l1 x l2) by done. split_and!; [done| |done]. split.
  - apply (procs_ok_perm p1 t' (q :: l)); [exact Hok|].
    rewrite Permutation_cons_append, (pk_split _ _ _ _ _ Hpk).
    by rewrite <- Permutation_middle, (Permutation_app_comm l1 l2).
  - apply F.
  - intros b k Hb Hno. by apply (fa_keep _ _ _ _ _ F).
  - done.
Qed.

Lemma kill_ok s t p q l np l1 x l2 :
  procs_ok (procs_of s) t (p :: q :: l) -> holds_pages (kern_of s) t p np (q :: l) ->
  PROCESS_LIST_MUTEX (procs_of s) = 0 -> picks (ticks (procs_of s)) (l ++ [q]) l1 x l2 ->
  (35 <= fuel)%nat -> (np <= fuel)%nat -> (length l1 < fuel)%nat ->
  exists s' t', kill fuel (frame p) s = Done (SwitchTo (frame x), s') /\
    ended s t p np l1 x l2 s' t' /\ io s' = io s ++ [timer_after s l1 x].
Proof.
  intros Hp Ho Hm Hpk Hf Hnp Hl.
  destruct (exit_ok s t p q l np l1 x l2) as (s1 & E & s' & t' & E' & R); try done.
  exists s', t'. split; [|exact R]. unfold kill, sys_exit in *.
  apply bind_inv in E as (pd & s2 & Ep & Ed).
  erewrite bind_done by exact Ep. erewrite bind_done by exact Ed. exact E'.
Qed.

(** The line a fault is reported with. *)
Definition fault_line (cause hart epc tval pid pc : Z) : list Z :=
  let at_ (what : list Z) := what ++ Fmt.dec hart ++ Fmt.str " -> 0x" ++ Fmt.hex08 epc ++ Fmt.str ": 0x" ++ Fmt.hex08 tval in
  match cause with
  | 2 => at_ (Fmt.str "Illegal instruction CPU#") ++ [10]
  | 7 => Fmt.str "Error with pid " ++ Fmt.dec pid ++ Fmt.str ", at PC 0x" ++ Fmt.hex08 pc ++
           Fmt.str ", mepc 0x" ++ Fmt.hex08 epc
  | 12 => at_ (Fmt.str "Instruction page fault CPU#")
  | 13 => at_ (Fmt.str "Load page fault CPU#")
  | _ => at_ (Fmt.str "Store page fault CPU#")
  end ++ [13; 10].

(** The handler prints that line, then kills the process. *)
Lemma fault_run (y : sys D) cause hart epc tval t p l :
  cause ∈ faults -> procs_ok (procs_of (wd y)) t (p :: l) ->
  trap epc tval cause hart (frame p) y =
    (_ ← on_wd (Uart.print (fault_line cause hart epc tval (pid p)
       (rdn 8 (mem_of (wd y)) (frame p + pc_off)))); on_wd (kill fuel (frame p))) y.
Proof.
  intros Hcs Hp. destruct (frame_pid_procs _ _ _ _ Hp) as [Hn _].
  assert (rdn 8 (mem_of (wd y)) (frame p + pid_off) = pid p) as Epid.
  { pose proof (pr_frames _ _ _ Hp) as Hfr. inversion Hfr as [|? ? [_ Hr] _]; subst. exact Hr. }
  unfold faults in Hcs. rewrite !elem_of_cons in Hcs.
  destruct Hcs as [-> | [-> | [-> | [-> | [-> | []%elem_of_nil]]]]]; try reflexivity.
  unfold m_trap, sync_trap. change (Z.land (Z.shiftr 7 63) 1 =? 1) with false.
  change (Z.land 7 0xfff) with 7. cbn [Z.eqb Pos.eqb].
  erewrite bind_done by (by apply on_wd_id, load_ok).
  erewrite bind_done by (by apply on_wd_id, load_ok). rewrite Epid. reflexivity.
Qed.

(** C9: A process that faults is reported with one line that has the cause, the hart
    and the addresses (for a store access fault the pid and the program counter),
    and deleted: its stack, page tables, trap frame, data pages and program are
    freed and no other block. The process that is then in front is passed over; the
    first one behind it, going round, that can run, awake or asleep until a time the
    clock has reached, is marked Running, put in front and switched to. The list is
    in order and unlocked and the timer is set. *)
Theorem fault_kills (y : sys D) cause hart epc tval t p q l np l1 x l2 :
  let s := wd y in
  cause ∈ faults -> procs_ok (procs_of s) t (p :: q :: l) ->
  holds_pages (kern_of s) t p np (q :: l) -> PROCESS_LIST_MUTEX (procs_of s) = 0 ->
  picks (ticks (procs_of s)) (l ++ [q]) l1 x l2 ->
  (35 <= fuel)%nat -> (np <= fuel)%nat -> (length l1 < fuel)%nat ->
  exists s' t', trap epc tval cause hart (frame p) y = Done (SwitchTo (frame x), with_wd s' y) /\
    ended s t p np l1 x l2 s' t' /\
    io s' = io s ++ (Wr Uart.UART <$> fault_line cause hart epc tval (pid p)
                       (rdn 8 (mem_of s) (frame p + pc_off))) ++ [timer_after s l1 x].
Proof.
  intros s Hcs Hp Ho Hm Hpk Hf Hnp Hl. rewrite (fault_run y cause hart epc tval t p (q :: l) Hcs Hp). fold s.
  set (text := fault_line _ _ _ _ _ _). set (s1 := with_io (io s ++ (Wr Uart.UART <$> text)) s).
  destruct (kill_ok s1 t p q l np l1 x l2) as (s' & t' & E & [R1 R2 R3 R4] & Eio); try done.
  exists s', t'. split_and!; [|by split|rewrite Eio; cbn [io with_io s1]; by rewrite <- app_assoc].
  erewrite bind_done by (apply on_wd_done, Uart.print_ok).
  exact (on_wd_done _ (with_wd s1 y) _ _ E).
Qed.

(** A fault while the list is locked: the scheduler gives up, and the machine is
    sent to a trap frame at address 0. *)
Theorem fault_under_lock (y : sys D) hart epc tval t p l :
  procs_ok (procs_of (wd y)) t (p :: l) -> owns (kern_of (wd y)) t p l ->
  PROCESS_LIST_MUTEX (procs_of (wd y)) = 1 -> (35 <= fuel)%nat ->
  exists s', trap epc tval 13 hart (frame p) y = Done (SwitchTo 0, with_wd s' y) /\
    PROCESS_LIST (procs_of s') = Some l.
Proof.
  intros Hp Ho Hm Hf. set (text := fault_text (Fmt.str "Load page fault") hart epc tval).
  set (s1 := with_io (io (wd y) ++ (Wr Uart.UART <$> (text ++ Fmt.crlf))) (wd y)).
  destruct (delete_process_ok (procs_of s1) t [] p l fuel Hp Ho Hf) as (k' & t' & E & Hok & Hc).
  set (p1 := with_list (Some _) _) in *.
  assert (kill fuel (frame p) s1 = Done (SwitchTo 0,
    with_io (io s1 ++ [next_timer (ticks p1)]) (with_procs (tick p1) s1))) as Ek.
  { unfold kill. erewrite bind_done by (by eapply frame_pid_procs).
    erewrite bind_done by (apply (zoom_done procs_of with_procs); exact E).
    unfold reschedule. erewrite bind_done by (apply schedule_locked, Hm).
    by erewrite bind_done by apply timer_ok. }
  eexists. split; [|shelve].
  transitivity ((_ ← on_wd (Uart.println text); on_wd (kill fuel (frame p))) y); [reflexivity|].
  erewrite bind_done by (apply on_wd_done, Uart.println_ok).
  exact (on_wd_done _ (with_wd s1 y) _ _ Ek).
  Unshelve. reflexivity.
Qed.

(** C32: The timer interrupt switches to the first process behind the one in front,
    going round, that can run, awake or asleep until a time the clock has reached,
    marks it Running and puts it in front; while the list is locked it returns to
    the process that was interrupted. Either way the timer is set again. *)
Theorem timer_trap (y : sys D) epc tval hart f :
  let s := wd y in let t := trap epc tval (2 ^ 63 + 7) hart f y in
  (forall q l l1 x l2, PROCESS_LIST_MUTEX (procs_of s) = 0 ->
     PROCESS_LIST (procs_of s) = Some (q :: l) ->
     picks (ticks (procs_of s)) (l ++ [q]) l1 x l2 -> (length l1 < fuel)%nat -> frame x <> 0 ->
     t = Done (SwitchTo (frame x), with_wd (switched s l1 x l2) y)) /\
  (PROCESS_LIST_MUTEX (procs_of s) = 1 ->
     t = Done (ReturnPc epc, with_wd (with_io (io s ++ [next_timer (ticks (procs_of s))])
                               (with_procs (tick (procs_of s)) s)) y)).
Proof.
  intros s t.
  assert (t = on_wd (async_trap fuel 7 hart epc) y) as ->.
  { unfold t, m_trap. by change (Z.land (Z.shiftr (2 ^ 63 + 7) 63) 1 =? 1) with true. }
  split.
  - intros q l l1 x l2 Hm Hl Hp Hf Hn. apply on_wd_done. unfold async_trap. cbn [Z.eqb Pos.eqb].
    erewrite bind_done by (by apply (schedule_ok _ q l)).
    erewrite bind_done by apply timer_ok. by rewrite (proj2 (Z.eqb_neq _ _) Hn).
  - intros Hm. apply on_wd_done. unfold async_trap. cbn [Z.eqb Pos.eqb].
    erewrite bind_done by (apply schedule_locked, Hm).
    by erewrite bind_done by apply timer_ok.
Qed.

(** The traps [m_trap] knows. *)
Definition known_async : list Z := [3; 7; 11].
Definition known_sync : list Z := [2; 3; 7; 8; 9; 11; 12; 13; 15].

(** Any trap the handler has no case for, such as a load from an address
    without memory (5), panics. *)
Theorem unhandled_trap_panics (y : sys D) epc tval cause hart f :
  (if Z.testbit cause 63 then Z.land cause 0xfff ∉ known_async
   else Z.land cause 0xfff ∉ known_sync) ->
  trap epc tval cause hart f y = Panic.
Proof.
  intros Hc. unfold m_trap. set (n := Z.land cause 0xfff) in *.
  assert ((Z.land (Z.shiftr cause 63) 1 =? 1) = Z.testbit cause 63) as ->.
  { change 1 with (Z.ones 1) at 1. rewrite Z.land_ones, <- Z.bit0_mod, Z.shiftr_spec by lia.
    change (0 + 63) with 63. by destruct (Z.testbit cause 63). }
  assert (forall l, n ∉ l -> Forall (fun k => (n =? k) = false) l) as Hne.
  { intros l Hn. apply Forall_forall. intros k Hk. apply Z.eqb_neq. by intros ->. }
  destruct (Z.testbit cause 63); apply Hne in Hc.
  - unfold known_async in Hc. rewrite !Forall_cons in Hc. destruct_and! Hc.
    unfold on_wd, zoom, async_trap.
    repeat match goal with E : (n =? _) = false |- _ => rewrite E; clear E end. done.
  - unfold known_sync in Hc. rewrite !Forall_cons in Hc. destruct_and! Hc.
    unfold sync_trap.
    repeat match goal with E : (n =? _) = false |- _ => rewrite E; clear E end. done.
Qed.

(** ** A system call from the caller to the handler and back *)

Definition call_regs (m : memory) (f sysno : Z) : memory :=
  put_reg (put_reg (put_reg (put_reg (put_reg (put_reg (put_reg m f Cpu.A7 sysno)
    f Cpu.A0 0) f Cpu.A1 0) f Cpu.A2 0) f Cpu.A3 0) f Cpu.A4 0) f Cpu.A5 0.

Lemma call_regs_out m f sysno x :
  x < f \/ f + 256 <= x -> byte (call_regs m f sysno) x = byte m x.
Proof. intros Hx. unfold call_regs. by rewrite !put_reg_out. Qed.

(** The trap of system call 172: the pid is put into a0 and the next process runs. *)
Lemma get_pid_trap (y : sys D) mepc tval hart f l1 p l2 q r r1 x r2 :
  let m8 := wrn 8 (mem_of (wd y)) (f + pc_off) (mepc + 4) in
  let s9 := with_memory (put_reg m8 f Cpu.A0 (pid p)) (wd y) in
  current (wd y) f l1 p l2 -> reg_in (mem_of (wd y)) f Cpu.A7 = 172 ->
  0 <= mepc -> mepc + 4 < 2 ^ 64 ->
  PROCESS_LIST_MUTEX (procs_of (wd y)) = 0 ->
  PROCESS_LIST (procs_of (wd y)) = Some (q :: r) ->
  picks (ticks (procs_of (wd y))) (r ++ [q]) r1 x r2 -> (length r1 < fuel)%nat ->
  trap mepc tval 8 hart f y = Done (SwitchTo (frame x), with_wd (switched s9 r1 x r2) y).
Proof.
  intros m8 s9 Hc Ha7 Hlo Hhi Hm Hl Hb Hf. pose proof (cu_null _ _ _ _ _ Hc) as Hn.
  assert (current (with_memory m8 (wd y)) f l1 p l2) as Hc8.
  { eapply current_frame; [done|]. intros z Hz. apply byte_wrn_out. unfold pc_off. lia. }
  unfold m_trap, sync_trap. change (Z.land (Z.shiftr 8 63) 1 =? 1) with false.
  change (Z.land 8 0xfff) with 8. cbn [Z.eqb Pos.eqb orb].
  erewrite bind_done.
  2:{ unfold do_syscall. erewrite bind_done by (by apply on_wd_id, reg_ok).
      erewrite bind_done by (apply lift_done, uint_ok; lia).
      erewrite bind_done by (by apply on_wd_done, save_ok). fold m8. rewrite Ha7.
      cbn [Z.eqb Pos.eqb orb]. apply on_wd_done. cbn [wd with_wd]. unfold sys_getpid.
      erewrite bind_done by (by apply load_ok).
      rewrite (cu_pid _ _ _ _ _ Hc8). apply set_reg_ok. done. }
  cbn [wd with_wd]. rewrite mem_of_with_memory, with_memory_twice. fold s9.
  apply (on_wd_done _ (with_wd s9 y)). by apply (reschedule_ok _ q r).
Qed.

(** syscall_get_pid of a process, through the trap handler and the scheduler,
    returns its pid, and its program counter is behind the call. *)
Theorem get_pid_call (y : sys D) mepc tval hart f l1 p l2 q r r1 x r2 :
  current (wd y) f l1 p l2 -> 0 <= mepc -> mepc + 4 < 2 ^ 64 ->
  PROCESS_LIST_MUTEX (procs_of (wd y)) = 0 ->
  PROCESS_LIST (procs_of (wd y)) = Some (q :: r) ->
  picks (ticks (procs_of (wd y))) (r ++ [q]) r1 x r2 -> (length r1 < fuel)%nat ->
  exists y', syscall_get_pid f (_ ← trap mepc tval 8 hart f; mret tt) y = Done (pid p, y') /\
    rdn 8 (mem_of (wd y')) (f + pc_off) = mepc + 4.
Proof.
  intros Hc Hlo Hhi Hm Hl Hb Hf. pose proof (cu_null _ _ _ _ _ Hc) as Hn.
  pose proof (cu_range _ _ _ _ _ Hc) as Hr.
  set (m7 := call_regs (mem_of (wd y)) f 172).
  assert (current (with_memory m7 (wd y)) f l1 p l2) as Hc7.
  { eapply current_frame; [done|]. intros z Hz. apply call_regs_out. lia. }
  assert (reg_in m7 f Cpu.A7 = 172) as Ha7.
  { unfold m7, call_regs. rewrite !reg_in_put_ne by done. apply reg_in_put. lia. }
  pose proof (get_pid_trap (with_wd (with_memory m7 (wd y)) y) mepc tval hart f l1 p l2 q r r1 x r2
    Hc7 Ha7 Hlo Hhi Hm Hl Hb Hf) as Et. cbn [wd with_wd] in Et.
  rewrite mem_of_with_memory, with_memory_twice in Et.
  set (m8 := wrn 8 m7 (f + pc_off) (mepc + 4)) in Et. set (m9 := put_reg m8 f Cpu.A0 (pid p)) in Et.
  set (s9 := with_memory m9 (wd y)) in Et.
  change (with_wd ?a (with_wd ?b y)) with (with_wd a y) in Et.
  eexists. split.
  - unfold syscall_get_pid, do_make_syscall.
    erewrite bind_done.
    2:{ do 7 (erewrite bind_done by (by apply on_wd_done, set_reg_ok);
              cbn [wd with_wd]; rewrite ?mem_of_with_memory, ?with_memory_twice).
        erewrite bind_done by (erewrite bind_done by exact Et; reflexivity).
        apply on_wd_id, reg_ok. done. }
    change (mem_of (wd (with_wd (switched s9 r1 x r2) y))) with m9.
    unfold m9. rewrite reg_in_put by lia. unfold as_u16. by rewrite Z.mod_small.
  - change (rdn 8 m9 (f + pc_off) = mepc + 4). unfold m9, put_reg.
    rewrite rdn_wrn_ne by (unfold pc_off; cbn; lia). apply rdn_wrn. lia.
Qed.

(** ** A kernel process whose function returns *)

(** Stores into the frame of a process below the pid spare the process list and the
    pages of the process. *)
Lemma frame_write s t p l np m :
  procs_ok (procs_of s) t (p :: l) -> holds_pages (kern_of s) t p np l ->
  (forall z, z < frame p \/ frame p + 544 <= z -> byte m z = byte (mem_of s) z) ->
  procs_ok (procs_of (with_memory m s)) t (p :: l) /\ holds_pages (kern_of (with_memory m s)) t p np l /\
  blocks_of m p np = blocks_of (mem_of s) p np.
Proof.
  intros [Hl Hpage Hpids Hnd Hfr Hnext] Hh Hm.
  destruct (holds_frame_write (kern_of s) t p np l m Hh) as [Hh' Eb]; [intros x Hx; apply Hm; lia|].
  pose proof (frame_stranger _ _ _ _ _ Hh) as [Bf _]. pose proof (block_range _ _ _ _ Hpage Bf) as (_ & Hlow & _).
  assert (forall q, is_block (kern_of s) t (frame q) 1 ->
    rd64 m (pid_addr (frame q)) = rd64 (mem_of s) (pid_addr (frame q))) as Hpid.
  { intros q Bq. apply rd64_ext. intros z Hz. apply Hm. unfold pid_addr in Hz.
    destruct (Z.eq_dec (frame q) (frame p)) as [Eq|Hne]; [lia|].
    pose proof (blocks_apart _ _ _ _ _ _ Hpage Bq Bf Hne). unfold Page.PAGE_SIZE in *. lia. }
  split_and!; [|exact Hh'|exact Eb]. split; try done.
  - apply (page_ok_above (kern_of s)); [done|]. intros z Hz. apply Hm. unfold kern_of in *. lia.
  - unfold frames_ok in *. eapply Forall_impl; [exact Hfr|]. intros q [Bq Rq]. split; [done|].
    rewrite <- Rq. by apply Hpid.
Qed.

(** The three causes of an ecall: from user, supervisor and machine mode. *)
Definition ecalls : list Z := [8; 9; 11].

Lemma ecall_trap (y : sys D) mepc tval cause hart f :
  cause ∈ ecalls ->
  trap mepc tval cause hart f y =
    (_ ← do_syscall fuel ra_delete_proc read_proc_fn write_proc_fn exec_func_fn mepc f; on_wd (reschedule fuel)) y.
Proof.
  unfold ecalls. rewrite !elem_of_cons. by intros [->|[->|[->|[]%elem_of_nil]]].
Qed.

Lemma exit_trap (y : sys D) mepc tval cause hart t p q l np l1 x l2 :
  let s := wd y in
  cause ∈ ecalls -> procs_ok (procs_of s) t (p :: q :: l) ->
  holds_pages (kern_of s) t p np (q :: l) -> PROCESS_LIST_MUTEX (procs_of s) = 0 ->
  picks (ticks (procs_of s)) (l ++ [q]) l1 x l2 ->
  reg_in (mem_of s) (frame p) Cpu.A7 = 93 -> 0 <= mepc -> mepc + 4 < 2 ^ 64 ->
  (35 <= fuel)%nat -> (np <= fuel)%nat -> (length l1 < fuel)%nat ->
  exists s' t', trap mepc tval cause hart (frame p) y = Done (SwitchTo (frame x), with_wd s' y) /\
    ended s t p np l1 x l2 s' t' /\ io s' = io s ++ [timer_after s l1 x].
Proof.
  intros s Hc Hp Ho Hm Hpk Ha7 Hlo Hhi Hf Hnp Hl. destruct (frame_pid_procs _ _ _ _ Hp) as [Hn _].
  set (m1 := wrn 8 (mem_of s) (frame p + pc_off) (mepc + 4)).
  destruct (frame_write s t p (q :: l) np m1 Hp Ho) as (Hp1 & Ho1 & Eb).
  { intros z Hz. apply byte_wrn_out. unfold pc_off. lia. }
  destruct (exit_ok (with_memory m1 s) t p q l np l1 x l2) as (s1 & E & s' & t' & E' & [R1 R2 R3 R4] & Eio); try done.
  rewrite mem_of_with_memory, Eb in R2, R3.
  exists s', t'. split; [|split; [by split|exact Eio]]. rewrite ecall_trap by done.
  erewrite bind_done.
  2:{ unfold do_syscall. erewrite bind_done by (by apply on_wd_id, reg_ok).
      erewrite bind_done by (apply lift_done, uint_ok; lia).
      erewrite bind_done by (by apply on_wd_done, save_ok). fold s m1. rewrite Ha7.
      cbn [Z.eqb Pos.eqb orb]. apply on_wd_done. exact E. }
  exact (on_wd_done _ (with_wd s1 y) _ _ E').
Qed.

(** C17: ra_delete_proc, to which the function of a kernel process returns, makes
    the exit system call, from whatever mode: the trap deletes the process and frees
    all of its pages and no other block, passes over the process that is then in
    front, switches to the first one behind it, going round, that can run, awake or
    asleep until a time the clock has reached, leaves the list in order and unlocked
    and sets the timer. *)
Theorem returning_process_exits (y : sys D) mepc tval cause hart t p q l np l1 x l2 :
  let s := wd y in let y7 := with_wd (with_memory (call_regs (mem_of s) (frame p) 93) s) y in
  cause ∈ ecalls -> procs_ok (procs_of s) t (p :: q :: l) ->
  holds_pages (kern_of s) t p np (q :: l) -> PROCESS_LIST_MUTEX (procs_of s) = 0 ->
  picks (ticks (procs_of s)) (l ++ [q]) l1 x l2 -> 0 <= mepc -> mepc + 4 < 2 ^ 64 ->
  (35 <= fuel)%nat -> (np <= fuel)%nat -> (length l1 < fuel)%nat ->
  exists s' t', trap mepc tval cause hart (frame p) y7 = Done (SwitchTo (frame x), with_wd s' y) /\
    Kproc.ra_delete_proc (frame p) (_ ← trap mepc tval cause hart (frame p); mret tt) y =
      Done (tt, with_wd s' y) /\
    ended s t p np l1 x l2 s' t' /\ io s' = io s ++ [timer_after s l1 x].
Proof.
  intros s y7 Hc Hp Ho Hm Hpk Hlo Hhi Hf Hnp Hl. destruct (frame_pid_procs _ _ _ _ Hp) as [Hn _].
  pose proof (frame_stranger _ _ _ _ _ Ho) as [Bf _].
  pose proof (block_range _ _ _ _ (pr_page _ _ _ Hp) Bf) as (Hlow & _).
  pose proof (tbl_pos _ _ (pr_page _ _ _ Hp)) as Hpos.
  set (m7 := call_regs (mem_of s) (frame p) 93) in y7.
  destruct (frame_write s t p (q :: l) np m7 Hp Ho) as (Hp7 & Ho7 & Eb).
  { intros z Hz. apply call_regs_out. lia. }
  assert (reg_in m7 (frame p) Cpu.A7 = 93) as Ha7.
  { unfold m7, call_regs. rewrite !reg_in_put_ne by done. apply reg_in_put. lia. }
  destruct (exit_trap y7 mepc tval cause hart t p q l np l1 x l2) as (s' & t' & E & [R1 R2 R3 R4] & Eio); try done.
  change (mem_of (wd y7)) with m7 in R2, R3. rewrite Eb in R2, R3.
  exists s', t'. split; [exact E|]. split; [|split; [by split|exact Eio]].
  unfold Kproc.ra_delete_proc, syscall_exit, do_make_syscall. erewrite bind_done.
  2:{ do 7 (erewrite bind_done by (by apply on_wd_done, set_reg_ok);
            cbn [wd with_wd]; rewrite ?mem_of_with_memory, ?with_memory_twice).
      erewrite bind_done by (erewrite bind_done by exact E; reflexivity).
      apply on_wd_id, reg_ok. done. }
  reflexivity.
Qed.
End Trap.
End TrapProps.
