(* ===== verification/BootProps.v ===== *)
(** * main.rs: what booting establishes

    On a machine without VirtIO devices [kinit] sets up the page allocator, the
    kernel heap and two kernel processes, and starts the second one. *)

From S2P Require Import Prelude Memory Cpu PageAlloc PageProps Kmem KmemFacts KmemProps KmemSpec KmemUse.
From S2P Require Import Mmu MinixLayout Lock Process ProcessProps Sched Console World Boxes Uart BlockIo Virtio Block Rng Input Gpu VirtioBus Plic FsProc Syscall Trap.
Import Mem Page PageProps KmemFacts KmemProps KmemUse Process ProcessProps World Trap.

Module BootProps.
Section Pages.
Context `{Profile} `{Linker} `{Clock}.
Context (ra_delete_proc : Z).
Abbreviation num_pages := (HEAP_SIZE / PAGE_SIZE).

(** A kernel process that is about to run the function at [func]. *)
Record start_frame (m : memory) (p : process) (func : Z) : Prop := {
  sf_pc : rd64 m (pc_addr (frame p)) = func;
  sf_ra : rd64 m (reg_addr (frame p) Cpu.Ra) = ra_delete_proc;
  sf_sp : rd64 m (reg_addr (frame p) Cpu.Sp) = stack p + STACK_PAGES * 4096;
  sf_mode : rd64 m (mode_addr (frame p)) = 3;
  sf_pid : rd64 m (pid_addr (frame p)) = pid p;
}.

(** The pages of a process of the list, which starts at its second component. *)
Definition proc_ready (k : kernel) (t : list seg) (e : process * Z) : Prop :=
  is_block k t (frame e.1) 1 /\ is_block k t (stack e.1) 35 /\ is_block k t (mmu_table e.1) 1 /\
  start_frame (mem k) e.1 e.2.

(** The state of memory while booting: the heap has the chunks [cs] in pages of its
    own, the processes [l] can start, and [r] pages from page [i] on are free. *)
Record booted (k : kernel) (t : list seg) (cs : list chunk) (l : list (process * Z)) (i : Z) (r : nat) : Prop := {
  bo_page : page_ok k t;
  bo_heap : heap_ok k cs;
  bo_block : is_block k t (KMEM_HEAD k) 2048;
  bo_pages : KMEM_ALLOC k = 2048;
  bo_procs : Forall (proc_ready k t) l;
  bo_apart : KMEM_HEAD k ∉ frame <$> l.*1;
  bo_room : room_at t i r;
  bo_last : i + Z.of_nat r < num_pages;
}.

(** The same bytes in the frames, and a heap that is in order. *)
Lemma booted_mem k t cs l i r m t' cs' i' r' :
  booted k t cs l i r -> page_ok (with_mem m k) t' -> heap_ok (with_mem m k) cs' ->
  room_at t' i' r' -> i' + Z.of_nat r' < num_pages ->
  (forall c n, is_block k t c n -> is_block (with_mem m k) t' c n) ->
  (forall c x, is_block k t c 1 -> c ∈ frame <$> l.*1 -> c <= x < c + PAGE_SIZE -> byte m x = byte (mem k) x) ->
  booted (with_mem m k) t' cs' l i' r'.
Proof.
  intros [Hok _ Hb Hp Hl Ha _ _] Hok' Hh Hr Hi Hk Hm. split; try done.
  - by apply Hk.
  - rewrite Forall_forall in *. intros [p fn] He. destruct (Hl _ He) as (Bf & Bs & Bt & Hf). cbn [fst snd] in *.
    split_and!; [by apply Hk|by apply Hk|by apply Hk|].
    assert (forall a, frame p <= a -> a + 8 <= frame p + 4096 -> rd64 m a = rd64 (mem k) a) as Hrd.
    { intros a Ha' Hb'. apply rd64_ext. intros x Hx. apply (Hm (frame p)); [done| |unfold PAGE_SIZE; lia].
      apply (list_elem_of_fmap_2 frame), (list_elem_of_fmap_2 fst _ (p, fn) He). }
    destruct Hf. split; cbn [mem with_mem fst snd];
      (rewrite Hrd; [done|..]); unfold pc_addr, reg_addr, mode_addr, pid_addr; cbn [Cpu.gp]; lia.
Qed.

(** Bytes of the heap that stay. *)
Lemma booted_heap k t cs l i r m :
  booted k t cs l i r ->
  (forall x, KMEM_HEAD k <= x < KMEM_HEAD k + 2048 * PAGE_SIZE -> byte m x = byte (mem k) x) ->
  heap_ok (with_mem m k) cs.
Proof.
  intros Hb Hm. apply heap_write; [apply Hb|]. intros x Hx _. apply Hm.
  unfold outside, heap_end in Hx. rewrite (bo_pages _ _ _ _ _ _ Hb) in Hx. lia.
Qed.

(** Taking pages. *)
Lemma boot_alloc k t cs l i r n :
  booted k t cs l i r -> (0 < n < r)%nat ->
  exists a m t', zalloc (Z.of_nat n) k = Done (a, with_mem m k) /\ 0 < a /\
    booted (with_mem m k) t' cs l (i + Z.of_nat n) (r - n) /\ is_block (with_mem m k) t' a n /\
    (forall c j, is_block k t c j -> is_block (with_mem m k) t' c j /\ c <> a).
Proof.
  intros Hb Hn. pose proof Hb as [Hok _ Bh _ _ _ Hr Hi].
  destruct (zalloc_room k t n i r Hok ltac:(lia) Hr Hi) as (a & k' & t' & E & Ha & Hnew).
  destruct (nb_start _ _ _ _ _ _ Hnew) as [m ->]. exists a, m, t'.
  pose proof (block_range _ _ _ _ (nb_ok _ _ _ _ _ _ Hnew) (nb_block _ _ _ _ _ _ Hnew)) as (_ & Hal & _ & _).
  assert (forall c j, is_block k t c j -> is_block (with_mem m k) t' c j /\ c <> a /\
    forall x, c <= x < c + PAGE_SIZE * Z.of_nat j -> byte m x = byte (mem k) x) as Hold.
  { intros c j Hc. destruct (nb_keep _ _ _ _ _ _ Hnew c j Hc) as [Hc' Hd].
    pose proof (block_range _ _ _ _ Hok Hc) as (Hlo & _ & _ & Hj). unfold PAGE_SIZE in *.
    split_and!; [done|lia|]. intros x Hx. apply (nb_frame _ _ _ _ _ _ Hnew); unfold PAGE_SIZE; lia. }
  split_and!; [exact E| | |apply Hnew|intros c j Hc; by destruct (Hold c j Hc) as (? & ? & _)].
  - pose proof (tbl_below _ _ Hok). pose proof (tbl_pos _ _ Hok). pose proof (room_free _ _ _ Hr).
    pose proof (tbl_len _ _ Hok). cbn [ALLOC_START with_mem] in Hal. lia.
  - eapply booted_mem; [exact Hb|apply Hnew| |by apply (nb_room _ _ _ _ _ _ Hnew); [lia|..]|lia|..].
    + apply (booted_heap _ _ _ _ _ _ _ Hb). intros x Hx. apply (Hold _ _ Bh). unfold PAGE_SIZE in *. lia.
    + intros c j Hc. by destruct (Hold c j Hc).
    + intros c x Hc _ Hx. apply (Hold c 1%nat); [done|]. unfold PAGE_SIZE in *. lia.
Qed.

(** Taking storage from the heap. *)
Lemma boot_deque `{Kmem.Deques} k t cs l i r fuel n size z :
  booted k t cs l i r -> (length cs < fuel)%nat -> 0 <= Kmem.places n * size < 2 ^ 61 ->
  (false, z) ∈ cs -> need (Kmem.places n * size) + 8 < z ->
  exists p m cs' bsz z', Kmem.with_capacity fuel n size k = Done (tt, with_mem m k) /\
    booted (with_mem m k) t cs' l i r /\
    live (KMEM_HEAD k) cs' ≡ₚ (p, bsz) :: live (KMEM_HEAD k) cs /\ Kmem.places n * size + 8 <= bsz /\
    (length cs' <= S (length cs))%nat /\ (false, z') ∈ cs' /\ z - need (Kmem.places n * size) <= z'.
Proof.
  intros Hb Hf Hs Hin Hz. pose proof Hb as [Hok Hh Bh Hp Hl Ha Hr Hi].
  destruct (with_capacity_ok k cs fuel n size z Hh Hf Hs Hin Hz)
    as (p & m & cs' & bsz & z' & E & Hok' & Hlv & Hbs & Hout & Hrest).
  pose proof (block_range _ _ _ _ Hok Bh) as (_ & Hlo & _).
  exists p, m, cs', bsz, z'. split_and!; try done; try apply Hrest.
  unfold outside, heap_end in Hout. rewrite Hp in Hout.
  eapply booted_mem; [exact Hb| |exact Hok'|done|done|done|].
  - apply page_ok_above; [done|]. intros x Hx. apply Hout. lia.
  - intros c x Hc Hin' Hx. apply Hout.
    assert (c <> KMEM_HEAD k) as Hne by (by intros ->).
    pose proof (blocks_apart _ _ _ _ _ _ Hok Hc Bh Hne). unfold PAGE_SIZE in *. lia.
Qed.

(** ** Kernel processes *)

Lemma start_frame_ok func p s :
  0 < frame p -> 0 <= func < 2 ^ 64 -> 0 <= ra_delete_proc < 2 ^ 64 ->
  0 <= stack p -> stack p + STACK_PAGES * 4096 < 2 ^ 64 -> 0 <= pid p < 2 ^ 16 ->
  exists m, fill_frame ra_delete_proc func None p s =
      Done (tt, ProcessProps.with_kern (with_mem m (kern s)) s) /\ start_frame m p func /\
    forall x, x < frame p \/ frame p + 4096 <= x -> byte m x = byte (mem (kern s)) x.
Proof.
  intros Hf Hfunc Hra Hst Hst2 Hpid. unfold fill_frame.
  erewrite bind_done by (apply set_field_ok; lia). erewrite bind_done by reflexivity.
  erewrite bind_done by (apply set_field_ok; lia).
  erewrite bind_done by (apply lift_done, uint_ok; unfold STACK_PAGES in *; lia).
  do 2 erewrite bind_done by (apply set_field_ok; lia).
  rewrite set_field_ok by lia. cbn [kern ProcessProps.with_kern mem with_mem]. eexists. split; [reflexivity|].
  unfold pc_addr, pid_addr, mode_addr, reg_addr, STACK_PAGES in *. cbn [Cpu.gp Cpu.CpuMode_val].
  split; [|intros x Hx; by rewrite !byte_wr64 by lia].
  split; unfold pc_addr, pid_addr, mode_addr, reg_addr, STACK_PAGES; cbn [Cpu.gp];
    repeat (rewrite rd64_wr64_ne by lia); apply rd64_wr64; lia.
Qed.

(** One more process behind the others. *)
Lemma boot_process s t cs l i r func fuel :
  booted (kern s) t cs l i r -> (37 < r)%nat -> PROCESS_LIST s = Some l.*1 ->
  1 <= NEXT_PID s -> NEXT_PID s + 1 < 2 ^ 16 -> 0 <= func < 2 ^ 64 -> 0 <= ra_delete_proc < 2 ^ 64 ->
  exists p m t', add_kernel_process ra_delete_proc fuel func s =
      Done (NEXT_PID s, mkP (with_mem m (kern s)) (Some (l ++ [(p, func)]).*1) (PROCESS_LIST_MUTEX s)
                          (NEXT_PID s + 1) (ticks s)) /\
    booted (with_mem m (kern s)) t' cs (l ++ [(p, func)]) (i + 37) (r - 37) /\
    pid p = NEXT_PID s /\ state p = Running.
Proof.
  intros Hb Hr Hl Hn Hn2 Hfunc Hra.
  destruct (boot_alloc _ _ _ _ _ _ 1 Hb ltac:(lia)) as (f & m1 & t1 & E1 & Pf & Hb1 & Bf1 & O1).
  destruct (boot_alloc _ _ _ _ _ _ 35 Hb1 ltac:(lia)) as (st & m2 & t2 & E2 & Ps & Hb2 & Bs2 & O2).
  destruct (boot_alloc _ _ _ _ _ _ 1 Hb2 ltac:(lia)) as (tb & m3 & t3 & E3 & Pt & Hb3 & Bt3 & O3).
  set (k3 := with_mem m3 (kern s)).
  change (with_mem m3 (with_mem m2 (with_mem m1 (kern s)))) with k3 in *.
  destruct (O2 _ _ Bf1) as [Bf2 _]. destruct (O3 _ _ Bf2) as [Bf3 _]. destruct (O3 _ _ Bs2) as [Bs3 _].
  pose proof (block_range _ _ _ _ (bo_page _ _ _ _ _ _ Hb3) Bs3) as (_ & _ & Ms & _). unfold PAGE_SIZE in Ms.
  set (p := mkProcess f st (NEXT_PID s) tb Running ProcessData_new 0 0 0).
  set (s3 := mkP k3 (PROCESS_LIST s) (PROCESS_LIST_MUTEX s) (NEXT_PID s + 1) (ticks s)).
  destruct (start_frame_ok func p s3) as (m & E4 & Hf & Hm); try (cbn [p frame stack pid]; unfold STACK_PAGES; lia).
  destruct (O1 _ _ (bo_block _ _ _ _ _ _ Hb)) as [_ Hhead].
  pose proof Hb3 as [Hok3 _ Bh _ Hp3 Ha3 Hr3 Hi3].
  assert (f ∉ frame <$> l.*1) as Hnew.
  { intros Hin. apply list_elem_of_fmap in Hin as (q & Eq & Hq). apply list_elem_of_fmap in Hq as ([q' fn] & -> & Hq).
    pose proof (proj1 (Forall_forall _ _) (bo_procs _ _ _ _ _ _ Hb) _ Hq) as (Bq & _).
    cbn [fst] in *. subst f. by destruct (O1 _ _ Bq) as [_ []]. }
  assert (forall c n x, is_block k3 t3 c n -> c <> f -> c <= x < c + PAGE_SIZE * Z.of_nat n ->
    byte m x = byte (mem k3) x) as Hm'.
  { intros c n x Hc Hne Hx. apply Hm. cbn [p frame].
    pose proof (blocks_apart _ _ _ _ _ _ Hok3 Hc Bf3 Hne). unfold PAGE_SIZE in *. lia. }
  assert (booted (with_mem m k3) t3 cs l (i + 37) (r - 37)) as Hb4.
  { replace (i + 37) with (i + Z.of_nat 1 + Z.of_nat 35 + Z.of_nat 1) by lia.
    replace (r - 37)%nat with (r - 1 - 35 - 1)%nat by lia.
    eapply booted_mem; [exact Hb3|by apply (write_block_ok _ _ f)| |done|done|done|].
    - apply (booted_heap _ _ _ _ _ _ _ Hb3). intros x Hx. apply (Hm' _ _ _ Bh Hhead). unfold PAGE_SIZE in *. lia.
    - intros c x Hc Hin Hx. apply (Hm' c 1%nat); [done|by intros ->|]. unfold PAGE_SIZE in *. lia. }
  exists p, m, t3. split_and!; [| |done|done].
  - unfold add_kernel_process. erewrite bind_done by (apply (new_kernel_process_run s f (with_mem m1 (kern s)) st
      (with_mem m2 (with_mem m1 (kern s))) tb k3);
      [lia|lia|exact E1|exact E2|exact E3]). fold p s3.
    erewrite bind_done by exact E4. erewrite bind_done by reflexivity.
    cbn [PROCESS_LIST s3 ProcessProps.with_kern]. rewrite Hl. erewrite bind_done by reflexivity.
    rewrite fmap_app. done.
  - destruct Hb4 as [X1 X2 X3 X4 X5 X6 X7 X8]. split; try done.
    + apply Forall_app. split; [done|]. constructor; [|done]. split_and!; try done.
    + rewrite !fmap_app, not_elem_of_app. split; [done|]. cbn [fmap list_fmap fst p frame].
      rewrite list_elem_of_singleton. exact Hhead.
Qed.

(** ** The heap *)

Lemma kmem_init_ok k t i r :
  page_ok k t -> room_at t i r -> i + Z.of_nat r < num_pages -> (2049 < r)%nat ->
  exists k' t', Kmem.init k = Done (tt, k') /\ booted k' t' [(false, 2048 * PAGE_SIZE)] [] (i + 2049) (r - 2049) /\
    ALLOC_START k' = ALLOC_START k.
Proof.
  intros Hok Hr Hi Hr2.
  set (k0 := mkKernel (mem k) (ALLOC_START k) (KMEM_HEAD k) 2048 (KMEM_PAGE_TABLE k)).
  pose proof (page_ok_globals k t (KMEM_HEAD k) 2048 (KMEM_PAGE_TABLE k) Hok) as Hok0. fold k0 in Hok0.
  destruct (zalloc_room k0 t 2048 i r Hok0 ltac:(lia) Hr Hi) as (p & k1 & t1 & E1 & Hp & N1).
  destruct (nb_start _ _ _ _ _ _ N1) as [m1 ->].
  pose proof (block_range _ _ _ _ (nb_ok _ _ _ _ _ _ N1) (nb_block _ _ _ _ _ _ N1)) as (_ & Hlo & Hmax & _).
  pose proof (tbl_pos _ _ Hok0). pose proof (tbl_below _ _ Hok0). pose proof (room_free _ _ _ Hr) as (_ & Hi0 & _).
  assert (0 < p) as Hp0 by (cbn [ALLOC_START with_mem k0] in *; lia).
  set (m2 := Kmem.upd (Kmem.upd m1 p Kmem.set_free) p (fun v => Kmem.set_size v (2048 * PAGE_SIZE))).
  set (k2 := mkKernel m2 (ALLOC_START k) p 2048 (KMEM_PAGE_TABLE k)).
  assert (page_ok k2 t1) as Hok2.
  { apply (page_ok_globals (with_mem m2 (with_mem m1 k0))), page_ok_above; [apply N1|].
    intros x Hx. cbn [mem with_mem ALLOC_START k0] in *. unfold m2. by rewrite !byte_upd by lia. }
  assert (is_block k2 t1 p 2048) as Hb2 by exact (nb_block _ _ _ _ _ _ N1).
  assert (booted k2 t1 [(false, 2048 * PAGE_SIZE)] [] (i + 2048) (r - 2048)) as Hboot.
  { split; try done; [|apply not_elem_of_nil|by apply (nb_room _ _ _ _ _ _ N1); [lia|..]|lia].
    split; [|done|done]. cbn [tiles mem KMEM_HEAD KMEM_ALLOC k2].
    split_and!; [by apply rd64_new_free|by split|done]. }
  destruct (boot_alloc _ _ _ _ _ _ 1 Hboot ltac:(lia)) as (pt & m3 & t3 & E3 & _ & Hb3 & _ & _).
  exists (mkKernel m3 (ALLOC_START k) p 2048 pt), t3. split_and!; [| |done].
  - unfold Kmem.init. do 2 erewrite bind_done by reflexivity. fold k0. cbn [KMEM_ALLOC k0].
    erewrite bind_done by exact E1.
    erewrite bind_done by (apply lift_done, assert_true; rewrite (proj2 (Z.eqb_neq _ _)) by lia; done).
    do 2 erewrite bind_done by reflexivity.
    erewrite bind_done by (apply lift_done, uint_ok; by vm_compute).
    erewrite bind_done by reflexivity. cbn [with_mem mem KMEM_HEAD ALLOC_START KMEM_ALLOC KMEM_PAGE_TABLE k0].
    erewrite bind_done by exact E3. done.
  - replace (i + 2049) with (i + 2048 + Z.of_nat 1) by lia.
    replace (r - 2049)%nat with (r - 2048 - 1)%nat by lia.
    destruct Hb3 as [X1 X2 X3 X4 X5 X6 X7 X8]. split; try done.
    + apply (page_ok_globals (with_mem m3 k2)). exact X1.
    + destruct X2. by split.
Qed.
End Pages.

(** ** Talking to devices *)

Section Boot.
Context `{Profile} `{Linker} `{Clock} `{Bus} `{Repr Gpu.Pixel} `{Gpu.ReqLayout} `{Kmem.Deques} `{!Kmem.DequeLaws}.
Context (fuel : nat) (ra_delete_proc init_process test_fn : Z).
Abbreviation num_pages := (HEAP_SIZE / PAGE_SIZE).

(** Returns and touches nothing but devices. *)
Definition devices_only {A} (c : W A) : Prop := forall s, exists a l, c s = Done (a, with_io l s).

Lemma dev_bind {A B} (c : W A) (k : A -> W B) :
  devices_only c -> (forall a, devices_only (k a)) -> devices_only (c ≫= k).
Proof.
  intros Hc Hk s. destruct (Hc s) as (a & l & E). destruct (Hk a (with_io l s)) as (b & l' & E').
  exists b, l'. erewrite bind_done by exact E. exact E'.
Qed.

Lemma dev_ret {A} (a : A) : devices_only (mret a).
Proof. intros s. exists a, (io s). by destruct s. Qed.

Lemma dev_lift {A} (o : outcome A) a : o = Done a -> devices_only (lift o).
Proof. intros -> s. exists a, (io s). by destruct s. Qed.

Lemma dev_write a v : devices_only (write_volatile a v).
Proof. intros s. eexists _, _. reflexivity. Qed.

Lemma dev_read n a : devices_only (read_volatile n a).
Proof. intros s. eexists _, _. reflexivity. Qed.

Lemma dev_print text : devices_only (Uart.print text).
Proof. intros s. eexists _, _. apply Uart.print_ok. Qed.

Lemma dev_uart base : devices_only (Uart.init base).
Proof. intros s. eexists _, _. apply Uart.programs_port. Qed.

Lemma dev_enable k : forall i, i + Z.of_nat k <= 32 -> devices_only (enable_all k i).
Proof.
  induction k as [|k IH]; intros i Hi; [apply dev_ret|]. cbn [enable_all].
  apply dev_bind; [|intros _; apply dev_bind; [apply dev_write|intros _; apply IH; lia]].
  unfold Plic.enable, Plic.bit32. rewrite (proj2 (Z.ltb_lt i 32)) by lia.
  apply dev_bind; [by eapply dev_lift|]. intros v. apply dev_bind; [apply dev_read|]. intros w. apply dev_write.
Qed.

(** No load from the first register of a slot gives the magic value. *)
Definition no_virtio : Prop :=
  forall l a, a ∈ VirtioBus.probe_addrs -> bus l a mod 2 ^ 32 <> Virtio.MMIO_VIRTIO_MAGIC.

Lemma dev_probe : no_virtio -> devices_only (VirtioBus.probe fuel).
Proof.
  intros Hno. unfold VirtioBus.probe.
  assert (forall l, (forall a, a ∈ l -> a ∈ VirtioBus.probe_addrs) -> devices_only (VirtioBus.probe_all fuel l)) as Hall;
    [|by apply Hall].
  induction l as [|a l IH]; intros Hl; [apply dev_ret|]. cbn [VirtioBus.probe_all].
  apply dev_bind; [|intros _; apply IH; intros b Hb; apply Hl; by right].
  intros s. unfold VirtioBus.probe_one. erewrite bind_done by apply Uart.print_ok.
  erewrite bind_done by reflexivity. erewrite bind_done by reflexivity.
  match goal with |- context [Virtio.MMIO_VIRTIO_MAGIC =? ?v] =>
    destruct (Z.eqb_spec Virtio.MMIO_VIRTIO_MAGIC v) as [Em|_] end.
  { exfalso. symmetry in Em. revert Em. apply Hno, Hl. by left. }
  cbn [negb].
  eexists _, _. rewrite Uart.println_ok. reflexivity.
Qed.
(** The globals as the program starts. *)
Record fresh (s : world) : Prop := {
  fr_list : PROCESS_LIST (procs_of s) = None;
  fr_mutex : PROCESS_LIST_MUTEX (procs_of s) = 0;
  fr_pid : NEXT_PID (procs_of s) = 1;
  fr_gpu : GPU_DEVICES s = replicate 8 None;
}.

(** Pages for the heap, its page table and two processes. *)
Record machine_ok : Prop := {
  ma_heap : 0 < HEAP_START /\ HEAP_START + 4096 + 2 * HEAP_SIZE < 2 ^ 64;
  ma_pages : 2125 <= num_pages;
  ma_fns : 0 <= init_process < 2 ^ 64 /\ 0 <= test_fn < 2 ^ 64 /\ 0 <= ra_delete_proc < 2 ^ 64;
}.

(** Page and heap allocator. *)
Lemma boot_memory k : machine_ok ->
  exists k1 k2 t r, Page.init k = Done (tt, k1) /\ Kmem.init k1 = Done (tt, k2) /\
    booted ra_delete_proc k2 t [(false, 2048 * PAGE_SIZE)] [] 2049 r /\ (74 < r)%nat.
Proof.
  intros [[Hh Hmax] Hn _].
  assert (0 <= HEAP_SIZE) as Hsz.
  { apply Z.nlt_ge. intros Hlt. assert (num_pages < 0); [|lia].
    apply Z.div_lt_upper_bound; unfold PAGE_SIZE; lia. }
  destruct (init_ok k Hh Hsz Hmax) as (m & a & E & Ha & _ & Hm).
  pose proof (init_table m a (KMEM_HEAD k) (KMEM_ALLOC k) (KMEM_PAGE_TABLE k) Hh Hsz Hmax Ha) as Hok.
  set (n := Z.to_nat num_pages) in *.
  assert (room_at (frees n) 0 (n - 1)) as Hr.
  { exists [], (frees 1). split; [|done]. cbn [app]. unfold frees. rewrite <- replicate_add. f_equal. lia. }
  destruct (kmem_init_ok ra_delete_proc _ _ 0 (n - 1) (Hok ltac:(intros x Hx; by rewrite Hm, decide_True)) Hr
    ltac:(lia) ltac:(lia)) as (k2 & t & E2 & Hb & _).
  eexists _, k2, t, _. split_and!; [exact E|exact E2|exact Hb|lia].
Qed.

(** The heap has room for the storage of the process list and of the two buffers
    of the console. *)
Definition storage_fits : Prop :=
  need (Kmem.places 15 * Kmem.size_of_Process) + need (Kmem.places Console.DEFAULT_IN_BUFFER_SIZE * 1) +
    need (Kmem.places Console.DEFAULT_OUT_BUFFER_SIZE * 1) + 8 < 2048 * PAGE_SIZE.

Lemma storage_sizes : storage_fits ->
  0 <= Kmem.places 15 * Kmem.size_of_Process < 2 ^ 61 /\ 15 * Kmem.size_of_Process <= Kmem.places 15 * Kmem.size_of_Process /\
  1000 <= Kmem.places 1000 * 1 < 2 ^ 61 /\ 10000 <= Kmem.places 10000 * 1 < 2 ^ 61 /\
  0 <= need (Kmem.places 1000 * 1) /\ 0 <= need (Kmem.places 10000 * 1).
Proof.
  unfold storage_fits, Console.DEFAULT_IN_BUFFER_SIZE, Console.DEFAULT_OUT_BUFFER_SIZE. intros Hf.
  pose proof (Kmem.places_enough 15 ltac:(lia)). pose proof (Kmem.places_enough 1000 ltac:(lia)).
  pose proof (Kmem.places_enough 10000 ltac:(lia)). pose proof Kmem.Process_sized.
  assert (15 * Kmem.size_of_Process <= Kmem.places 15 * Kmem.size_of_Process) by nia.
  assert (forall x, 0 <= x -> x + 8 <= need x) as Hn.
  { intros x Hx. unfold need. pose proof (Z.div_mod (x + 7) 8 ltac:(lia)).
    pose proof (Z.mod_pos_bound (x + 7) 8 ltac:(lia)). lia. }
  assert (0 <= Kmem.places 15 * Kmem.size_of_Process) as N1 by lia.
  assert (0 <= Kmem.places 1000 * 1) as N2 by lia. assert (0 <= Kmem.places 10000 * 1) as N3 by lia.
  apply Hn in N1 as N1', N2 as N2', N3 as N3'.
  unfold PAGE_SIZE in Hf. split_and!; lia.
Qed.

(** The process list and its first process. *)
Lemma boot_init p0 t r : machine_ok -> storage_fits -> (1 < fuel)%nat ->
  booted ra_delete_proc (kern p0) t [(false, 2048 * PAGE_SIZE)] [] 2049 r -> (74 < r)%nat ->
  PROCESS_LIST p0 = None -> PROCESS_LIST_MUTEX p0 = 0 -> NEXT_PID p0 = 1 ->
  exists p1 m1 t1 cs1 b1 z1 w1, Process.init ra_delete_proc init_process fuel p0 =
      Done (init_process, mkP (with_mem m1 (kern p0)) (Some [p1]) 0 2 (ticks p0)) /\
    booted ra_delete_proc (with_mem m1 (kern p0)) t1 cs1 [(p1, init_process)] (2049 + 37) (r - 37) /\ pid p1 = 1 /\
    live (KMEM_HEAD (kern p0)) cs1 ≡ₚ [(b1, z1)] /\ 15 * Kmem.size_of_Process + 8 <= z1 /\
    (length cs1 <= 2)%nat /\ (false, w1) ∈ cs1 /\
    2048 * PAGE_SIZE - need (Kmem.places 15 * Kmem.size_of_Process) <= w1.
Proof.
  intros [_ _ (Hi & _ & Hra)] Hst Hf Hb Hr Hl Hm Hn. destruct (storage_sizes Hst) as (S1 & S2 & _ & _ & S5 & S6).
  destruct (boot_deque ra_delete_proc (kern p0) t _ [] 2049 r fuel 15 Kmem.size_of_Process (2048 * PAGE_SIZE) Hb)
    as (b1 & m0 & cs1 & z1 & w1 & E0 & Hb0 & Hlv & Hz & Hlen & Hin & Hw); [exact Hf|exact S1|by left| |].
  { unfold storage_fits, Console.DEFAULT_IN_BUFFER_SIZE, Console.DEFAULT_OUT_BUFFER_SIZE in Hst. lia. }
  set (s1 := mkP (with_mem m0 (kern p0)) (Some []) 1 1 (ticks p0)).
  destruct (boot_process ra_delete_proc s1 t cs1 [] 2049 r init_process fuel Hb0 ltac:(lia))
    as (p1 & m1 & t1 & E1 & Hb1 & P1 & _); try (done || (cbn; lia)).
  exists p1, m1, t1, cs1, b1, z1, w1. split_and!; try done; [|lia].
  unfold Process.init, lock_list. erewrite bind_done.
  2:{ erewrite bind_done by reflexivity. rewrite Hm. by erewrite bind_done by reflexivity. }
  erewrite bind_done by (apply on_kern_done; exact E0).
  erewrite bind_done by reflexivity. cbn [PROCESS_LIST with_mutex ProcessProps.with_kern]. rewrite Hl. cbn [default drop_all].
  do 2 erewrite bind_done by reflexivity.
  change (with_list (Some []) _) with (mkP (with_mem m0 (kern p0)) (Some []) 1 (NEXT_PID p0) (ticks p0)).
  rewrite Hn. fold s1. erewrite bind_done by exact E1.
  do 4 erewrite bind_done by reflexivity. unfold gets.
  pose proof (bo_procs _ _ _ _ _ _ _ Hb1) as Hp. apply Forall_cons in Hp as [(_ & _ & _ & Hfr) _].
  pose proof (sf_pc _ _ _ _ Hfr) as Hpc. cbn [fst snd mem with_mem] in Hpc.
  transitivity (Done (rd64 m1 (pc_addr (frame p1)),
    mkP (with_mem m1 (kern p0)) (Some [p1]) 0 2 (ticks p0))); [reflexivity|by rewrite Hpc].
Qed.

(** The console's buffers. *)
Lemma boot_console p t cs l i r w : storage_fits ->
  booted ra_delete_proc (kern p) t cs l i r -> (S (length cs) < fuel)%nat -> (false, w) ∈ cs ->
  2048 * PAGE_SIZE - need (Kmem.places 15 * Kmem.size_of_Process) <= w ->
  exists m cs' b2 z2 b3 z3, (forall c, Console.procs c = p -> Console.init fuel c =
      Done (tt, Console.mkC (Some []) (Some []) (Console.IN_LOCK c) (Console.OUT_LOCK c) (Console.CONSOLE_QUEUE c)
        (ProcessProps.with_kern (with_mem m (kern p)) p))) /\
    booted ra_delete_proc (with_mem m (kern p)) t cs' l i r /\
    live (KMEM_HEAD (kern p)) cs' ≡ₚ (b3, z3) :: (b2, z2) :: live (KMEM_HEAD (kern p)) cs /\
    1000 + 8 <= z2 /\ 10000 + 8 <= z3.
Proof.
  intros Hst Hb Hf Hin Hw. destruct (storage_sizes Hst) as (_ & _ & S3 & S4 & S5 & S6).
  unfold storage_fits, Console.DEFAULT_IN_BUFFER_SIZE, Console.DEFAULT_OUT_BUFFER_SIZE in Hst.
  set (k := kern p) in *.
  destruct (boot_deque ra_delete_proc k t cs l i r fuel 1000 1 w Hb ltac:(lia) ltac:(lia) Hin ltac:(lia))
    as (b2 & m2 & cs2 & z2 & w2 & E2 & Hb2 & Hl2 & Hz2 & Hn2 & Hin2 & Hw2).
  destruct (boot_deque ra_delete_proc (with_mem m2 k) t cs2 l i r fuel 10000 1 w2 Hb2 ltac:(lia) ltac:(lia) Hin2 ltac:(lia))
    as (b3 & m3 & cs3 & z3 & w3 & E3 & Hb3 & Hl3 & Hz3 & _).
  exists m3, cs3, b2, z2, b3, z3. split_and!; [|exact Hb3|by rewrite Hl3, <- Hl2|lia|lia].
  intros c Ec. unfold Console.init, Console.new_buffer, Console.DEFAULT_IN_BUFFER_SIZE, Console.DEFAULT_OUT_BUFFER_SIZE.
  erewrite bind_done.
  2:{ erewrite bind_done by reflexivity. rewrite Ec.
      erewrite bind_done by (apply lift_done, on_kern_done; exact E2). reflexivity. }
  erewrite bind_done by reflexivity. erewrite bind_done.
  2:{ erewrite bind_done by reflexivity. erewrite bind_done by (apply lift_done, on_kern_done; exact E3). reflexivity. }
  reflexivity.
Qed.

(** Without a GPU there is nothing to set up. *)
Lemma gpu_absent s : GPU_DEVICES s = replicate 8 None -> Gpu.init fuel 6 s = Done (tt, s).
Proof.
  intros Hg. unfold Gpu.init, Gpu.take_gpu. erewrite bind_done; cycle 1.
  { erewrite bind_done by (apply lift_done, uint_ok; lia). erewrite bind_done by reflexivity.
    erewrite bind_done by (apply lift_done; rewrite Hg; reflexivity).
    erewrite bind_done by reflexivity. reflexivity. }
  cbn beta iota. unfold mret, M_ret. do 2 f_equal. destruct s. unfold with_gpu. cbn in *. by subst.
Qed.

Lemma booted_procs k t cs l i r ps mu n tk :
  booted ra_delete_proc k t cs l i r -> ps ≡ₚ l.*1 -> 1 <= n < 2 ^ 16 ->
  Forall (fun p => 1 <= pid p < n) ps -> NoDup (pid <$> ps) -> procs_ok (mkP k (Some ps) mu n tk) t ps.
Proof.
  intros [Hok _ _ _ Hl _ _ _] Hp Hn Hr Hd. split; try done. apply Forall_forall. intros q Hq.
  rewrite Hp in Hq. apply list_elem_of_fmap in Hq as (e & -> & He).
  destruct (proj1 (Forall_forall _ _) Hl _ He) as (Bf & _ & _ & Hf). split; [exact Bf|apply Hf].
Qed.

(** The run of kinit, from the runs of its parts. *)
Lemma kinit_run s k1 k2 p1 p2 m1 mc m2 tk0 :
  no_virtio -> fresh s -> (0 < fuel)%nat -> tk0 = ticks (procs_of s) ->
  Page.init (kern_of s) = Done (tt, k1) -> Kmem.init k1 = Done (tt, k2) ->
  Process.init ra_delete_proc init_process fuel (mkP k2 None 0 1 tk0) =
    Done (init_process, mkP (with_mem m1 k2) (Some [p1]) 0 2 tk0) ->
  (forall c, Console.procs c = mkP (with_mem m1 k2) (Some [p1]) 0 2 tk0 -> Console.init fuel c =
    Done (tt, Console.mkC (Some []) (Some []) (Console.IN_LOCK c) (Console.OUT_LOCK c) (Console.CONSOLE_QUEUE c)
      (mkP (with_mem mc k2) (Some [p1]) 0 2 tk0))) ->
  add_kernel_process ra_delete_proc fuel test_fn (mkP (with_mem mc k2) (Some [p1]) 0 2 tk0) =
    Done (2, mkP (with_mem m2 k2) (Some [p1; p2]) 0 3 tk0) ->
  state p2 = Running ->
  exists s' tk, kinit fuel ra_delete_proc init_process test_fn s = Done (SwitchTo (frame p2), s') /\
    procs_of s' = mkP (with_mem m2 k2) (Some [p2; p1]) 0 3 tk /\
    Console.IN_BUFFER (con s') = Some [] /\ Console.OUT_BUFFER (con s') = Some [] /\
    VIRTIO_DEVICES s' = VIRTIO_DEVICES s.
Proof.
  intros Hno [Hl Hm Hn Hg] Hf Htk E1 E2 E3 EC E4 R2.
  destruct (dev_uart 0x10000000 s) as ([] & l1 & D1).
  set (w2 := World.with_kern k2 (World.with_kern k1 (with_io l1 s))).
  assert (procs_of w2 = mkP k2 None 0 1 tk0) as Ew
    by (unfold w2, World.with_kern, procs_of in *; cbn in *; by rewrite Hl, Hm, Hn, Htk).
  set (w3 := with_procs (mkP (with_mem m1 k2) (Some [p1]) 0 2 tk0) w2).
  destruct (dev_write Plic.PLIC_THRESHOLD (Z.land 0 7) w3) as ([] & l2 & D2).
  destruct (dev_enable 10 1 ltac:(lia) (with_io l2 w3)) as ([] & l3 & D3).
  destruct (dev_probe Hno (with_io l3 (with_io l2 w3))) as ([] & l4 & D4).
  unfold kinit. erewrite bind_done by exact D1.
  erewrite bind_done by (apply zoom_done; exact E1).
  erewrite bind_done by (apply zoom_done; exact E2). fold w2.
  erewrite bind_done by (apply zoom_done; rewrite Ew; exact E3). fold w3.
  erewrite bind_done by exact D2. erewrite bind_done by exact D3. erewrite bind_done by exact D4.
  erewrite bind_done by (apply zoom_done, EC; reflexivity).
  erewrite bind_done by (apply zoom_done; exact E4).
  erewrite bind_done by (apply gpu_absent; exact Hg).
  erewrite bind_done by reflexivity.
  erewrite bind_done by (unfold Trap.schedule; erewrite bind_done by reflexivity;
    erewrite bind_done by (apply zoom_done, (Sched.schedule_first _ p1 [] p2 []); done || exact Hf); reflexivity).
  eexists _, _. split_and!; reflexivity.
Qed.

(** The heap as booting leaves it: in order, with blocks in use that are large enough
    for the process list and for the console's buffers of input and output. *)
Definition heap_booted (k : kernel) : Prop :=
  exists cs b1 z1 b2 z2 b3 z3, heap_ok k cs /\ KMEM_ALLOC k = 2048 /\
    [(b1, z1); (b2, z2); (b3, z3)] ⊆+ live (KMEM_HEAD k) cs /\
    15 * Kmem.size_of_Process + 8 <= z1 /\ 1000 + 8 <= z2 /\ 10000 + 8 <= z3.

End Boot.
End BootProps.
