(* ===== verification/ReprC.v ===== *)
(** * The layout of [repr(C)] types

    How Rust lays out the structs that are shared with devices, the disk and the
    assembly: fields in the order of their declaration, each at the next multiple
    of its alignment, and the whole rounded up to the largest alignment. The
    declarations of the program follow, by source file. *)

From stdpp Require Import strings.
From S2P Require Import Prelude.
Open Scope Z_scope.

Module ReprC.

(** ** Types *)

(** An integer, pointer or field-less enum of [n] bytes; arrays; structs; unions. *)
Inductive ctype :=
| Int (n : Z)
| Arr (t : ctype) (n : Z)
| Struct (fs : list (string * ctype))
| Union (fs : list (string * ctype)).

Definition round_up (a x : Z) : Z := (x + a - 1) / a * a.

Fixpoint align (t : ctype) : Z :=
  match t with
  | Int n => n
  | Arr t _ => align t
  | Struct fs | Union fs => foldr (fun f a => Z.max (align f.2) a) 1 fs
  end.

(** The size of a type, a multiple of its alignment. *)
Fixpoint size (t : ctype) : Z :=
  match t with
  | Int n => n
  | Arr t n => size t * n
  | Struct fs => round_up (align t) (foldl (fun o f => round_up (align f.2) o + size f.2) 0 fs)
  | Union fs => round_up (align t) (foldr (fun f n => Z.max (size f.2) n) 0 fs)
  end.

Abbreviation fields_align fs := (foldr (fun f a => Z.max (align f.2) a) 1 fs).
Abbreviation fields_end o fs := (foldl (fun o f => round_up (align f.2) o + size f.2) o fs).
Abbreviation fields_max fs := (foldr (fun f n => Z.max (size f.2) n) 0 fs).

(** The offset and the type of field [x] of a struct whose fields [fs] follow
    offset [o]. *)
Fixpoint field_at (x : string) (o : Z) (fs : list (string * ctype)) : option (Z * ctype) :=
  match fs with
  | [] => None
  | (y, t) :: fs' =>
      let o' := round_up (align t) o in
      if decide (x = y) then Some (o', t) else field_at x (o' + size t) fs'
  end.

(** ** Places inside of a value *)

Inductive step := Fld (x : string) | Idx (i : Z).

Definition enter (t : ctype) (k : step) : option (Z * ctype) :=
  match t, k with
  | Struct fs, Fld x => field_at x 0 fs
  | Union fs, Fld x => '(_, u) ← field_at x 0 fs; Some (0, u)
  | Arr u n, Idx i => if (0 <=? i) && (i <? n) then Some (size u * i, u) else None
  | _, _ => None
  end.

Fixpoint place (t : ctype) (p : list step) : option (Z * ctype) :=
  match p with
  | [] => Some (0, t)
  | k :: p' => '(o, u) ← enter t k; '(o', v) ← place u p'; Some (o + o', v)
  end.

(** Offset and size of the integers of a value at [o], in order. *)
Fixpoint leaves (t : ctype) (o : Z) : list (Z * Z) :=
  match t with
  | Int n => [(o, n)]
  | Arr t n => seqZ 0 n ≫= fun i => leaves t (o + size t * i)
  | Struct fs =>
      snd (foldl (fun el f => let o' := round_up (align f.2) el.1 in
                              (o' + size f.2, el.2 ++ leaves f.2 (o + o'))) (0, []) fs)
  | Union _ => []
  end.

(** The integers in the bytes [l] of a value. *)
Definition numbers (t : ctype) (l : list Z) : list Z :=
  (fun on => le_dec (take (Z.to_nat on.2) (drop (Z.to_nat on.1) l))) <$> leaves t 0.

(** ** Well-formed types *)

Fixpoint wf (t : ctype) : bool :=
  match t with
  | Int n => bool_decide (n ∈ [1; 2; 4; 8])
  | Arr t n => wf t && (0 <=? n)
  | Struct fs | Union fs => forallb (fun f : string * ctype => wf f.2) fs
  end.

(** Induction that reaches the fields. *)
Lemma ctype_ind' (P : ctype -> Prop) :
  (forall n, P (Int n)) -> (forall t n, P t -> P (Arr t n)) ->
  (forall fs, Forall (fun f : string * ctype => P f.2) fs -> P (Struct fs)) ->
  (forall fs, Forall (fun f : string * ctype => P f.2) fs -> P (Union fs)) -> forall t, P t.
Proof.
  intros HI HA HS HU. fix IH 1. intros [n|t n|fs|fs].
  - apply HI.
  - apply HA, IH.
  - apply HS. induction fs as [|[x t] fs IHf]; constructor; [apply IH|exact IHf].
  - apply HU. induction fs as [|[x t] fs IHf]; constructor; [apply IH|exact IHf].
Qed.

Lemma round_up_spec a x : 0 < a -> 0 <= x ->
  x <= round_up a x < x + a /\ (a | round_up a x).
Proof.
  intros Ha Hx. unfold round_up. split; [|by exists ((x + a - 1) / a)].
  pose proof (Z_div_mod_eq_full (x + a - 1) a). pose proof (Z.mod_pos_bound (x + a - 1) a Ha). lia.
Qed.

(** Alignments are powers of two up to 8, so the larger is a multiple. *)
Definition pow8 (a : Z) : Prop := a = 1 \/ a = 2 \/ a = 4 \/ a = 8.

Lemma pow8_max a b : pow8 a -> pow8 b -> pow8 (Z.max a b) /\ (a | Z.max a b) /\ (b | Z.max a b).
Proof.
  unfold pow8. intros Ha Hb. split; [lia|].
  destruct Ha as [->|[->|[->| ->]]], Hb as [->|[->|[->| ->]]]; cbn; split; by apply Z.mod_divide.
Qed.

Lemma fields_pow8 (fs : list (string * ctype)) : Forall (fun f => pow8 (align f.2)) fs ->
  pow8 (fields_align fs) /\ Forall (fun f => (align f.2 | fields_align fs)) fs.
Proof.
  induction 1 as [|f fs Hf _ [IH1 IH2]]; cbn; [split; [by left|done]|].
  destruct (pow8_max _ _ Hf IH1) as (Hm & D1 & D2). split; [done|]. constructor; [done|].
  eapply Forall_impl; [exact IH2|]. intros g Hg. exact (Z.divide_trans _ _ _ Hg D2).
Qed.

Lemma wf_fields (fs : list (string * ctype)) : forallb (fun f : string * ctype => wf f.2) fs = true <-> Forall (fun f : string * ctype => wf f.2 = true) fs.
Proof. rewrite forallb_forall, Forall_forall. by setoid_rewrite list_elem_of_In. Qed.

Lemma wf_align t : wf t = true -> pow8 (align t).
Proof.
  induction t as [n|t n IH|fs IH|fs IH] using ctype_ind'; cbn [wf align]; intros Hw.
  - apply bool_decide_eq_true in Hw. unfold pow8. set_unfold. lia.
  - apply andb_prop in Hw as [Hw _]. by apply IH.
  - apply wf_fields in Hw. apply fields_pow8. rewrite Forall_forall in *. auto.
  - apply wf_fields in Hw. apply fields_pow8. rewrite Forall_forall in *. auto.
Qed.

(** ** Sizes *)

Lemma round_up_size a x : pow8 a -> 0 <= x -> 0 <= round_up a x /\ (a | round_up a x).
Proof.
  intros Ha Hx. assert (0 < a) by (unfold pow8 in Ha; lia).
  destruct (round_up_spec a x) as [? ?]; [done|done|]. split; [lia|done].
Qed.

Lemma fields_end_ge (fs : list (string * ctype)) :
  Forall (fun f : string * ctype => pow8 (align f.2) /\ 0 <= size f.2) fs -> forall o, 0 <= o -> o <= fields_end o fs.
Proof.
  induction 1 as [|f fs [Ha Hs] _ IH]; cbn [foldl]; intros o Ho; [lia|].
  pose proof (round_up_spec (align f.2) o ltac:(unfold pow8 in Ha; lia) Ho) as [? _].
  etransitivity; [|apply IH]; lia.
Qed.

Lemma fields_max_ge (fs : list (string * ctype)) :
  Forall (fun f : string * ctype => size f.2 <= fields_max fs) fs /\ 0 <= fields_max fs.
Proof.
  induction fs as [|f fs [IH1 IH2]]; cbn; [done|]. split; [|lia]. constructor; [lia|].
  eapply Forall_impl; [exact IH1|]. cbn. intros g ?. lia.
Qed.

Lemma wf_all fs : wf (Struct fs) = true ->
  Forall (fun f : string * ctype => wf f.2 = true) fs.
Proof. apply wf_fields. Qed.

(** A size is a multiple of the alignment, so the elements of arrays are aligned. *)
Lemma wf_size t : wf t = true -> 0 <= size t /\ (align t | size t).
Proof.
  induction t as [n|t n IH|fs IH|fs IH] using ctype_ind'; intros Hw; pose proof (wf_align _ Hw) as Ha.
  - cbn in *. unfold pow8 in Ha. split; [lia|done].
  - cbn in *. apply andb_prop in Hw as [Hw Hn]. destruct (IH Hw) as [? Hd].
    apply Z.leb_le in Hn. split; [nia|by apply Z.divide_mul_l].
  - apply wf_all in Hw. cbn [size]. eapply round_up_size; [done|].
    apply fields_end_ge; [|done]. rewrite Forall_forall in *. intros f Hf.
    split; [by apply wf_align, Hw|by apply IH, Hw].
  - cbn [size]. eapply round_up_size; [done|]. apply fields_max_ge.
Qed.

(** ** Places are inside and aligned *)

(** The value at [o] of type [u] is inside of one of type [t]. *)
Record inside (t : ctype) (o : Z) (u : ctype) : Prop := {
  in_wf : wf u = true;
  in_pos : 0 <= o;
  in_end : o + size u <= size t;
  in_align : (align u | o);
  in_max : (align u | align t);
}.

Lemma field_found x (fs : list (string * ctype)) o o' u :
  Forall (fun f : string * ctype => wf f.2 = true) fs -> 0 <= o -> field_at x o fs = Some (o', u) ->
  (exists y, (y, u) ∈ fs) /\ o <= o' /\ o' + size u <= fields_end o fs /\ (align u | o').
Proof.
  intros Hw. revert o. induction Hw as [|[y t] fs Ht Hw IH]; intros o Ho; [done|].
  cbn [field_at foldl]. cbn [snd] in *.
  pose proof (wf_align _ Ht) as Ha. pose proof (wf_size _ Ht) as [Hs _].
  pose proof (round_up_spec (align t) o ltac:(unfold pow8 in Ha; lia) Ho) as [? Hd].
  case_decide as E.
  - intros [= <- <-]. split_and!; [exists y; by left|lia| |done].
    apply fields_end_ge; [|lia]. eapply Forall_impl; [exact Hw|]. intros f Hf.
    split; [by apply wf_align|by apply wf_size].
  - intros Ef. apply IH in Ef as ((z & Hz) & ? & ? & ?); [|lia].
    split_and!; [exists z; by right|lia|done|done].
Qed.

Lemma fields_divide (fs : list (string * ctype)) y u :
  Forall (fun f : string * ctype => wf f.2 = true) fs -> (y, u) ∈ fs -> (align u | fields_align fs).
Proof.
  intros Hw Hy. assert (Forall (fun f : string * ctype => pow8 (align f.2)) fs) as Hp
    by (eapply Forall_impl; [exact Hw|]; intros; by apply wf_align).
  exact (proj1 (Forall_forall _ _) (proj2 (fields_pow8 _ Hp)) _ Hy).
Qed.

Lemma enter_inside t k o u : wf t = true -> enter t k = Some (o, u) -> inside t o u.
Proof.
  intros Hw. pose proof (wf_align _ Hw) as Ha. pose proof (wf_size _ Hw) as [Hs _].
  destruct t as [n|t n|fs|fs], k as [x|i]; cbn [enter]; try done.
  - destruct (Z.leb_spec 0 i), (Z.ltb_spec i n); cbn [andb]; try done. intros [= <- <-].
    cbn in Hw. apply andb_prop in Hw as [Hw _]. destruct (wf_size _ Hw) as [? Hd].
    split; [done|nia|cbn; nia|by apply Z.divide_mul_l|done].
  - intros E. apply wf_all in Hw. pose proof E as E'. apply field_found in E as ((y & Hy) & ? & ? & ?); [|done|lia].
    pose proof (proj1 (Forall_forall _ _) Hw _ Hy) as Hwu.
    split; [done|lia| |done|].
    + cbn [size]. etransitivity; [eassumption|]. apply round_up_spec; [unfold pow8 in Ha; lia|].
      pose proof (wf_size _ Hwu). cbn in *. lia.
    + by eapply fields_divide.
  - destruct (field_at x 0 fs) as [[o1 u1]|] eqn:E; [|done]. cbn. intros [= <- <-].
    apply wf_all in Hw. apply field_found in E as ((y & Hy) & _); [|done|lia].
    split; [by apply (proj1 (Forall_forall _ _) Hw _ Hy)|done| |by exists 0|].
    + cbn [size]. pose proof (proj1 (Forall_forall _ _) (proj1 (fields_max_ge fs)) _ Hy). cbn [snd] in *.
      etransitivity; [eassumption|]. apply round_up_spec; [unfold pow8 in Ha; lia|apply fields_max_ge].
    + by eapply fields_divide.
Qed.

Lemma inside_trans t o u o' v : inside t o u -> inside u o' v -> inside t (o + o') v.
Proof.
  intros [Hw Ho He Ha Hm] [Hw' Ho' He' Ha' Hm']. split; [done|lia|lia| |by eapply Z.divide_trans].
  apply Z.divide_add_r; [by eapply Z.divide_trans|done].
Qed.

Lemma place_inside t p o u : wf t = true -> place t p = Some (o, u) -> inside t o u.
Proof.
  revert t o. induction p as [|k p IH]; intros t o Hw; cbn [place].
  - intros [= <- <-]. split; try done; by exists 0.
  - destruct (enter t k) as [[o1 u1]|] eqn:E; [|done]. cbn.
    destruct (place u1 p) as [[o2 u2]|] eqn:E2; [|done]. cbn. intros [= <- <-].
    pose proof (enter_inside _ _ _ _ Hw E) as Hi.
    eapply inside_trans; [exact Hi|]. apply IH; [apply Hi|done].
Qed.

(** ** Different fields do not overlap *)

Lemma fields_apart x y (fs : list (string * ctype)) o a u b v :
  Forall (fun f : string * ctype => wf f.2 = true) fs -> 0 <= o -> x <> y ->
  field_at x o fs = Some (a, u) -> field_at y o fs = Some (b, v) -> a + size u <= b \/ b + size v <= a.
Proof.
  intros Hw. revert o. induction Hw as [|[z t] fs Ht Hw IH]; intros o Ho Hn; [done|].
  cbn [field_at]. cbn [snd] in *.
  pose proof (wf_align _ Ht) as Ha. pose proof (wf_size _ Ht) as [Hs _].
  pose proof (round_up_spec (align t) o ltac:(unfold pow8 in Ha; lia) Ho) as [? _].
  repeat case_decide; try congruence.
  - intros [= <- <-] Ef. apply field_found in Ef; [lia|done|lia].
  - intros Ef [= <- <-]. apply field_found in Ef; [lia|done|lia].
  - apply IH; [lia|done].
Qed.

Definition is_union (t : ctype) : bool := match t with Union _ => true | _ => false end.

Lemma enter_apart t k k' a u b v :
  wf t = true -> is_union t = false -> k <> k' ->
  enter t k = Some (a, u) -> enter t k' = Some (b, v) -> a + size u <= b \/ b + size v <= a.
Proof.
  intros Hw Hu Hk. destruct t as [n|t n|fs|fs], k as [x|i], k' as [y|j]; cbn [enter]; try done.
  - cbn in Hw. apply andb_prop in Hw as [Hw _]. destruct (wf_size _ Hw) as [? _].
    destruct (Z.leb_spec 0 i), (Z.ltb_spec i n), (Z.leb_spec 0 j), (Z.ltb_spec j n); cbn [andb]; try done.
    intros [= <- <-] [= <- <-]. assert (i <> j) by congruence. nia.
  - apply fields_apart; [by apply wf_all|lia|congruence].
Qed.

Lemma place_app t c p o u : place t c = Some (o, u) ->
  place t (c ++ p) = '(o', v) ← place u p; Some (o + o', v).
Proof.
  revert t o. induction c as [|k c IH]; intros t o; cbn [place app].
  - intros [= <- <-]. by destruct (place t p) as [[]|].
  - destruct (enter t k) as [[o1 u1]|]; [|done]. cbn.
    destruct (place u1 c) as [[o2 u2]|] eqn:E2; [|done]. cbn. intros [= <- <-].
    rewrite (IH _ _ E2). destruct (place u2 p) as [[]|]; cbn; [|done]. do 2 f_equal. lia.
Qed.

(** The layout of a type: every place is inside of the value and aligned, and two
    places that part at different fields of a struct or elements of an array share
    no byte. *)
Lemma layout_sound t c k k' q q' z w a u b v :
  wf t = true -> place t c = Some (z, w) -> is_union w = false -> k <> k' ->
  place t (c ++ k :: q) = Some (a, u) -> place t (c ++ k' :: q') = Some (b, v) ->
  (0 <= a /\ a + size u <= size t /\ (align u | a)) /\ (a + size u <= b \/ b + size v <= a).
Proof.
  intros Hw Hc Hu Hk E E'. split.
  { destruct (place_inside _ _ _ _ Hw E). by split_and!. }
  pose proof (in_wf _ _ _ (place_inside _ _ _ _ Hw Hc)) as Hww.
  rewrite (place_app _ _ _ _ _ Hc) in E. rewrite (place_app _ _ _ _ _ Hc) in E'. cbn [place] in E, E'.
  destruct (enter w k) as [[a1 u1]|] eqn:F1; [|done]. destruct (enter w k') as [[b1 v1]|] eqn:F2; [|done].
  cbn in E, E'. destruct (place u1 q) as [[a2 u2]|] eqn:G1; [|done].
  destruct (place v1 q') as [[b2 v2]|] eqn:G2; [|done]. cbn in E, E'. simplify_eq.
  pose proof (enter_apart _ _ _ _ _ _ _ Hww Hu Hk F1 F2).
  destruct (place_inside _ _ _ _ (in_wf _ _ _ (enter_inside _ _ _ _ Hww F1)) G1).
  destruct (place_inside _ _ _ _ (in_wf _ _ _ (enter_inside _ _ _ _ Hww F2)) G2). lia.
Qed.
End ReprC.

(** ** The declarations of the program *)

Module Types.
Import ReprC.
Import (notations) stdpp.strings.
Open Scope string_scope.

Abbreviation u8 := (Int 1).
Abbreviation u16 := (Int 2).
Abbreviation u32 := (Int 4).
Abbreviation u64 := (Int 8).
(** [usize] and pointers of the 64-bit machine. *)
Abbreviation usize := (Int 8).
Abbreviation ptr := (Int 8).

(** cpu.rs *)
Definition TrapFrame : ctype := Struct
  [("regs", Arr usize 32); ("fregs", Arr usize 32); ("satp", usize); ("pc", usize);
   ("hartid", usize); ("qm", usize); ("pid", usize); ("mode", usize)].

(** fs.rs *)
Definition SuperBlock : ctype := Struct
  [("ninodes", u32); ("pad0", u16); ("imap_blocks", u16); ("zmap_blocks", u16);
   ("first_data_zone", u16); ("log_zone_size", u16); ("pad1", u16); ("max_size", u32);
   ("zones", u32); ("magic", u16); ("pad2", u16); ("block_size", u16); ("disk_version", u8)].
Definition Inode : ctype := Struct
  [("mode", u16); ("nlinks", u16); ("uid", u16); ("gid", u16); ("size", u32); ("atime", u32);
   ("mtime", u32); ("ctime", u32); ("zones", Arr u32 10)].
Definition DirEntry : ctype := Struct [("inode", u32); ("name", Arr u8 60)].

(** elf.rs *)
Definition elf_Header : ctype := Struct
  [("magic", u32); ("bitsize", u8); ("endian", u8); ("ident_abi_version", u8);
   ("target_platform", u8); ("abi_version", u8); ("padding", Arr u8 7); ("obj_type", u16);
   ("machine", u16); ("version", u32); ("entry_addr", usize); ("phoff", usize); ("shoff", usize);
   ("flags", u32); ("ehsize", u16); ("phentsize", u16); ("phnum", u16); ("shentsize", u16);
   ("shnum", u16); ("shstrndx", u16)].
Definition ProgramHeader : ctype := Struct
  [("seg_type", u32); ("flags", u32); ("off", usize); ("vaddr", usize); ("paddr", usize);
   ("filesz", usize); ("memsz", usize); ("align", usize)].

(** virtio.rs *)
Definition Descriptor : ctype := Struct [("addr", u64); ("len", u32); ("flags", u16); ("next", u16)].
Definition Available : ctype := Struct
  [("flags", u16); ("idx", u16); ("ring", Arr u16 128); ("event", u16)].
Definition UsedElem : ctype := Struct [("id", u32); ("len", u32)].
Definition Used : ctype := Struct
  [("flags", u16); ("idx", u16); ("ring", Arr UsedElem 128); ("event", u16)].
(** The padding is [PAGE_SIZE - size_of::<Descriptor>() * 128 - size_of::<Available>()]. *)
Definition Queue : ctype := Struct
  [("desc", Arr Descriptor 128); ("avail", Available);
   ("padding0", Arr u8 (4096 - size Descriptor * 128 - size Available)); ("used", Used)].
Definition MmioDevice : ctype := Struct
  [("magic_value", u32); ("version", u32); ("device_id", u32); ("vendor_id", u32);
   ("host_features", u32); ("host_features_sel", u32); ("rsv1", Arr u8 8); ("guest_features", u32);
   ("guest_features_sel", u32); ("guest_page_size", u32); ("rsv2", Arr u8 4); ("queue_sel", u32);
   ("queue_num_max", u32); ("queue_num", u32); ("queue_align", u32); ("queue_pfn", u64);
   ("rsv3", Arr u8 8); ("queue_notify", u32); ("rsv4", Arr u8 12); ("interrupt_status", u32);
   ("interrupt_ack", u32); ("rsv5", Arr u8 8); ("status", u32)].

(** block.rs *)
Definition Geometry : ctype := Struct [("cylinders", u16); ("heads", u8); ("sectors", u8)].
Definition Topology : ctype := Struct
  [("physical_block_exp", u8); ("alignment_offset", u8); ("min_io_size", u16); ("opt_io_size", u32)].
Definition block_Config : ctype := Struct
  [("capacity", u64); ("size_max", u32); ("seg_max", u32); ("geometry", Geometry); ("blk_size", u32);
   ("topology", Topology); ("writeback", u8); ("unused0", Arr u8 3); ("max_discard_sector", u32);
   ("max_discard_seg", u32); ("discard_sector_alignment", u32); ("max_write_zeroes_sectors", u32);
   ("max_write_zeroes_seg", u32); ("write_zeroes_may_unmap", u8); ("unused1", Arr u8 3)].
Definition block_Header : ctype := Struct [("blktype", u32); ("reserved", u32); ("sector", u64)].
Definition Data : ctype := Struct [("data", ptr)].
Definition Status : ctype := Struct [("status", u8)].
Definition Request : ctype := Struct
  [("header", block_Header); ("data", Data); ("status", Status); ("head", u16); ("watcher", u16)].

(** gpu.rs *)
Definition gpu_Config : ctype := Struct
  [("events_read", u32); ("events_clear", u32); ("num_scanouts", u32); ("reserved", u32)].
Definition CtrlHeader : ctype := Struct
  [("ctrl_type", u32); ("flags", u32); ("fence_id", u64); ("ctx_id", u32); ("padding", u32)].
Definition MAX_SCANOUTS : Z := 16.
Definition Rect : ctype := Struct [("x", u32); ("y", u32); ("width", u32); ("height", u32)].
Definition DisplayOne : ctype := Struct [("r", Rect); ("enabled", u32); ("flags", u32)].
Definition RespDisplayInfo : ctype := Struct
  [("hdr", CtrlHeader); ("pmodes", Arr DisplayOne MAX_SCANOUTS)].
Definition GetEdid : ctype := Struct [("hdr", CtrlHeader); ("scanout", u32); ("padding", u32)].
Definition RespEdid : ctype := Struct
  [("hdr", CtrlHeader); ("size", u32); ("padding", u32); ("edid", Arr u8 1024)].
Definition ResourceCreate2d : ctype := Struct
  [("hdr", CtrlHeader); ("resource_id", u32); ("format", u32); ("width", u32); ("height", u32)].
Definition ResourceUnref : ctype := Struct
  [("hdr", CtrlHeader); ("resource_id", u32); ("padding", u32)].
Definition SetScanout : ctype := Struct
  [("hdr", CtrlHeader); ("r", Rect); ("scanout_id", u32); ("resource_id", u32)].
Definition ResourceFlush : ctype := Struct
  [("hdr", CtrlHeader); ("r", Rect); ("resource_id", u32); ("padding", u32)].
Definition TransferToHost2d : ctype := Struct
  [("hdr", CtrlHeader); ("r", Rect); ("offset", u64); ("resource_id", u32); ("padding", u32)].
Definition AttachBacking : ctype := Struct
  [("hdr", CtrlHeader); ("resource_id", u32); ("nr_entries", u32)].
Definition MemEntry : ctype := Struct [("addr", u64); ("length", u32); ("padding", u32)].
Definition DetachBacking : ctype := Struct
  [("hdr", CtrlHeader); ("resource_id", u32); ("padding", u32)].
Definition CursorPos : ctype := Struct
  [("scanout_id", u32); ("x", u32); ("y", u32); ("padding", u32)].
Definition UpdateCursor : ctype := Struct
  [("hdr", CtrlHeader); ("pos", CursorPos); ("resource_id", u32); ("hot_x", u32); ("hot_y", u32);
   ("padding", u32)].

(** input.rs *)
Definition Event : ctype := Struct [("event_type", u16); ("code", u16); ("value", u32)].
Definition AbsInfo : ctype := Struct
  [("min", u32); ("max", u32); ("fuzz", u32); ("flat", u32); ("res", u32)].
Definition DevIds : ctype := Struct
  [("bustype", u16); ("vendor", u16); ("product", u16); ("version", u16)].
Definition ConfigUnion : ctype := Union
  [("string", Arr u8 128); ("bitmap", Arr u8 128); ("abs", AbsInfo); ("ids", DevIds)].
Definition input_Config : ctype := Struct
  [("select", u8); ("subsel", u8); ("size", u8); ("reserved", Arr u8 5); ("config", ConfigUnion)].

(** All of them. *)
Definition declared : list ctype :=
  [TrapFrame; SuperBlock; Inode; DirEntry; elf_Header; ProgramHeader; Descriptor; Available; UsedElem;
   Used; Queue; MmioDevice; Geometry; Topology; block_Config; block_Header; Data; Status; Request;
   gpu_Config; CtrlHeader; Rect; DisplayOne; RespDisplayInfo; GetEdid; RespEdid; ResourceCreate2d;
   ResourceUnref; SetScanout; ResourceFlush; TransferToHost2d; AttachBacking; MemEntry; DetachBacking;
   CursorPos; UpdateCursor; Event; AbsInfo; DevIds; ConfigUnion; input_Config].
End Types.
