(* ===== verification/LayoutProps.v ===== *)
(** * The offsets of the model are those of the [repr(C)] declarations

    Memory, the disk and the device rings are bytes in the model, and the
    operations use fixed offsets. Here they are compared with the layout of the
    types the source declares. *)

From stdpp Require Import strings.
From S2P Require Import Prelude Memory Cpu PageAlloc Kmem Mmu MinixLayout Lock Process Elf Console World Boxes Uart Virtio Block Input Gpu FsProc Syscall ReprC.
Import ReprC.
Import (notations) stdpp.strings.
Open Scope Z_scope.

Module LayoutProps.

(** The field of [MmioDevice] for a register; the configuration follows it. *)
Definition reg_field (o : Virtio.MmioOffsets) : option string :=
  match o with
  | Virtio.MagicValue => Some "magic_value" | Virtio.Version => Some "version"
  | Virtio.DeviceId => Some "device_id" | Virtio.VendorId => Some "vendor_id"
  | Virtio.HostFeatures => Some "host_features" | Virtio.HostFeaturesSel => Some "host_features_sel"
  | Virtio.GuestFeatures => Some "guest_features" | Virtio.GuestFeaturesSel => Some "guest_features_sel"
  | Virtio.GuestPageSize => Some "guest_page_size" | Virtio.QueueSel => Some "queue_sel"
  | Virtio.QueueNumMax => Some "queue_num_max" | Virtio.QueueNum => Some "queue_num"
  | Virtio.QueueAlign => Some "queue_align" | Virtio.QueuePfn => Some "queue_pfn"
  | Virtio.QueueNotify => Some "queue_notify" | Virtio.InterruptStatus => Some "interrupt_status"
  | Virtio.InterruptAck => Some "interrupt_ack" | Virtio.Status => Some "status"
  | Virtio.Config => None
  end%string.

(** Where a place is. *)
Definition offset (t : ctype) (p : list step) : option Z := fst <$> place t p.

Lemma offset_elem t x u n q i o o' : enter t (Fld x) = Some (o, Arr u n) -> 0 <= i < n ->
  offset u q = Some o' -> offset t (Fld x :: Idx i :: q) = Some (o + (size u * i + o')).
Proof.
  intros E Hi Eq. unfold offset in *. cbn [place]. rewrite E. cbn.
  rewrite (proj2 (Z.leb_le 0 i)), (proj2 (Z.ltb_lt i n)) by lia. cbn.
  destruct (place u q) as [[a v]|]; [|done]. cbn in *. by simplify_eq.
Qed.

Lemma offset_field t x q o u o' : enter t (Fld x) = Some (o, u) -> offset u q = Some o' ->
  offset t (Fld x :: q) = Some (o + o').
Proof.
  intros E Eq. unfold offset in *. cbn [place]. rewrite E. cbn.
  destruct (place u q) as [[a v]|]; [|done]. cbn in *. by simplify_eq.
Qed.

(** The offsets the drivers, the process code and the trap handler use are those of
    the repr(C) declarations: the rings of a queue, the fields of a block request and
    of the trap frame, and the registers of the VirtIO transport; all declared types
    are well formed. *)
Theorem offsets_as_declared :
  Forall (fun t => wf t = true) Types.declared /\
  (forall i, 0 <= i < 128 ->
     offset Types.Queue [Fld "desc"; Idx i] = Some (Virtio.desc_off i) /\
     offset Types.Queue [Fld "avail"; Fld "ring"; Idx i] = Some (Virtio.avail_ring_off i) /\
     offset Types.Queue [Fld "used"; Fld "ring"; Idx i; Fld "id"] = Some (Virtio.used_ring_off i)) /\
  offset Types.Queue [Fld "avail"; Fld "idx"] = Some Virtio.avail_idx_off /\
  offset Types.Queue [Fld "used"; Fld "idx"] = Some Virtio.used_idx_off /\
  size Types.Queue = Virtio.sizeof_Queue /\
  (forall f r, (fun o => f + o) <$> offset Types.TrapFrame [Fld "regs"; Idx (Cpu.gp r)] = Some (Process.reg_addr f r)) /\
  (forall f, (fun o => f + o) <$> offset Types.TrapFrame [Fld "pc"] = Some (Process.pc_addr f) /\
     (fun o => f + o) <$> offset Types.TrapFrame [Fld "pid"] = Some (Process.pid_addr f) /\
     (fun o => f + o) <$> offset Types.TrapFrame [Fld "mode"] = Some (Process.mode_addr f) /\
     (fun o => f + o) <$> offset Types.TrapFrame [Fld "satp"] = Some (Elf.satp_addr f)) /\
  (forall o x, reg_field o = Some x -> offset Types.MmioDevice [Fld x] = Some (4 * Virtio.scale32 o)) /\
  offset Types.Request [Fld "header"; Fld "sector"] = Some Block.sector_off /\
  offset Types.Request [Fld "data"] = Some Block.data_off /\
  offset Types.Request [Fld "status"] = Some Block.status_off /\
  offset Types.Request [Fld "watcher"] = Some Block.watcher_off /\
  size Types.Request = Block.sizeof_Request /\ size Types.block_Header = Block.sizeof_Header /\
  size Types.CtrlHeader = Gpu.sizeof_CtrlHeader /\ size Types.Event = Syscall.sizeof_Event.
Proof.
  split_and!; try (by vm_compute).
  - by repeat constructor.
  - intros i Hi. split_and!.
    + rewrite (offset_elem _ _ Types.Descriptor 128 [] i 0 0) by done. f_equal.
      change (size Types.Descriptor) with 16. unfold Virtio.desc_off. lia.
    + rewrite (offset_field _ _ _ 2048 Types.Available (4 + (2 * i + 0))); [|done|by apply (offset_elem _ _ (Int 2) 128 [] i 4 0)].
      f_equal. unfold Virtio.avail_ring_off. lia.
    + rewrite (offset_field _ _ _ 4096 Types.Used (4 + (8 * i + 0)));
        [|done|by apply (offset_elem _ _ Types.UsedElem 128 [Fld "id"] i 4 0)].
      f_equal. unfold Virtio.used_ring_off. lia.
  - by intros f [].
  - by intros [] x [= <-].
Qed.

(** ** Bytes *)

Lemma number_at n o v l : take n (drop o l) = le_enc n v -> 0 <= v < 256 ^ Z.of_nat n ->
  le_dec (take n (drop o l)) = v.
Proof. intros -> Hv. by apply le_dec_enc. Qed.

(** A number is in the range of its bytes. *)
Ltac fits :=
  match goal with |- _ <= _ < 256 ^ ?e => let v := eval vm_compute in (256 ^ e) in change (256 ^ e) with v end;
  cbn [Gpu.CtrlType_val]; lia.

(** The integers of bytes that are known to be encodings. *)
Ltac numbers :=
  unfold ReprC.numbers;
  match goal with |- context [leaves ?t 0] =>
    let v := eval vm_compute in (leaves t 0) in change (leaves t 0) with v end;
  cbn [fmap list_fmap fst snd app];
  repeat (apply (f_equal2 cons); [eapply number_at; [reflexivity|fits]|]); try reflexivity.

(** The decoders of the file system and of the loader read every integer of the
    declared struct, in its order and at its place, whatever the bytes are. *)
Theorem decoders_as_declared l :
  (let b := Layout.decode_superblock l in
   numbers Types.SuperBlock l =
     [Layout.ninodes b; Layout.pad0 b; Layout.imap_blocks b; Layout.zmap_blocks b;
      Layout.first_data_zone b; Layout.log_zone_size b; Layout.pad1 b; Layout.max_size b;
      Layout.nzones b; Layout.magic b; Layout.pad2 b; Layout.block_size b; Layout.disk_version b]) /\
  (let i := Layout.decode_inode l in
   numbers Types.Inode l =
     [Layout.imode i; Layout.nlinks i; Layout.uid i; Layout.gid i; Layout.isize i; Layout.atime i;
      Layout.mtime i; Layout.ctime i] ++ Layout.zones i) /\
  (let h := Elf.decode_header l in
   exists pad, zlen pad = 7 /\ numbers Types.elf_Header l =
     [Elf.e_magic h; Elf.bitsize h; Elf.endian h; Elf.ident_abi_version h; Elf.target_platform h;
      Elf.abi_version h] ++ pad ++
     [Elf.obj_type h; Elf.machine h; Elf.version h; Elf.entry_pc h; Elf.phoff h; Elf.shoff h;
      Elf.e_flags h; Elf.ehsize h; Elf.phentsize h; Elf.phnum h; Elf.shentsize h; Elf.shnum h;
      Elf.shstrndx h]) /\
  (let p := Elf.decode_ph l in
   numbers Types.ProgramHeader l =
     [Elf.seg_type p; Elf.p_flags p; Elf.off p; Elf.vaddr p; Elf.paddr p; Elf.filesz p; Elf.memsz p;
      Elf.align p]) /\
  size Types.SuperBlock = Layout.sizeof_SuperBlock /\ size Types.Inode = Layout.sizeof_Inode /\
  size Types.DirEntry = Layout.sizeof_DirEntry /\ size Types.elf_Header = Elf.sizeof_Header /\
  size Types.ProgramHeader = Elf.sizeof_ProgramHeader.
Proof.
  split_and!; try reflexivity. eexists [_; _; _; _; _; _; _]. split; reflexivity.
Qed.

(** [u32] values. *)
Definition word (v : Z) : Prop := 0 <= v < 2 ^ 32.
Definition rect_words (r : Gpu.Rect) : list Z := [Gpu.rx r; Gpu.ry r; Gpu.rwidth r; Gpu.rheight r].
(** [CtrlHeader] of a command. *)
Definition header_of (t : Gpu.CtrlType) : list Z := [Gpu.CtrlType_val t; 0; 0; 0; 0].

Lemma format_word f : word (Gpu.Formats_val f).
Proof. by destruct f. Qed.

(** What the drivers put into memory for a device or a process are the declared
    structs with their integers in order: the commands of the display, the
    descriptors of a ring, and input events. *)
Theorem encoders_as_declared r id n w h fmt offset a d e :
  Forall word (rect_words r) -> Forall word [id; n; w; h] -> 0 <= offset < 2 ^ 64 -> 0 <= a < 2 ^ 64 ->
  Virtio.desc_wf d -> 0 <= e.(World.event_type) < 2 ^ 16 -> 0 <= e.(World.code) < 2 ^ 16 -> word e.(World.value) ->
  numbers Types.ResourceCreate2d (Gpu.ResourceCreate2d id fmt w h) =
    header_of Gpu.CmdResourceCreate2d ++ [id; Gpu.Formats_val fmt; w; h] /\
  numbers Types.AttachBacking (Gpu.AttachBacking id n) = header_of Gpu.CmdResourceAttachBacking ++ [id; n] /\
  numbers Types.MemEntry (Gpu.MemEntry a n) = [a; n; 0] /\
  numbers Types.SetScanout (Gpu.SetScanout r n id) = header_of Gpu.CmdSetScanout ++ rect_words r ++ [n; id] /\
  numbers Types.TransferToHost2d (Gpu.TransferToHost2d r offset id) =
    header_of Gpu.CmdTransferToHost2d ++ rect_words r ++ [offset; id; 0] /\
  numbers Types.ResourceFlush (Gpu.ResourceFlush r id) =
    header_of Gpu.CmdResourceFlush ++ rect_words r ++ [id; 0] /\
  numbers Types.Descriptor (Virtio.encode_desc d) = [Virtio.addr d; Virtio.dlen d; Virtio.flags d; Virtio.next d] /\
  numbers Types.Event (Syscall.encode_event e) = [World.event_type e; World.code e; World.value e].
Proof.
  intros Hr Hw Ho Ha (? & ? & ? & ?) Ht Hc Hv. unfold rect_words, word in *. pose proof (format_word fmt). unfold word in *.
  rewrite !Forall_cons in Hr, Hw. destruct Hr as (? & ? & ? & ? & _), Hw as (? & ? & ? & ? & _).
  unfold header_of. split_and!; numbers.
Qed.

Lemma encoders_as_declared_witness :
  numbers Types.TransferToHost2d (Gpu.TransferToHost2d (Gpu.mkRect 10 20 640 480) 0 1) =
    [0x105; 0; 0; 0; 0; 10; 20; 640; 480; 0; 1; 0].
Proof.
  apply (encoders_as_declared (Gpu.mkRect 10 20 640 480) 1 0 640 480 Gpu.R8G8B8A8Unorm 0 0
    (Virtio.mkDesc 0 0 0 0) (World.mkEvent 1 2 3)); (lia || by repeat constructor).
Defined.
End LayoutProps.
