(* ===== verification/BlockCall.v ===== *)
(** * A block read by a process, from the system call to the interrupt

    [do_syscall], the device, the trap handler, the interrupt controller and the
    block driver together. *)

From S2P Require Import Prelude Memory Cpu PageAlloc PageProps Kmem KmemFacts KmemProps KmemSpec KmemUse.
From S2P Require Import Mmu MinixLayout Lock Process ProcessProps Console World Boxes Uart BlockIo.
From S2P Require Import Virtio Block BlockProps BlockDone BlockSpec Rng Input Gpu VirtioBus Plic FsProc Syscall SyscallFacts Trap.
Import Mem KmemFacts KmemProps KmemUse Process ProcessProps World Virtio BlockProps BlockDone.
Import BlockSpec BlockRun Syscall SyscallFacts Trap.

Module BlockCall.

(** The state in which the driver gets the request: the pc is behind the call and
    the process waits. *)
Definition waiting (pc : Z) (s : world) (l1 : list process) (p : process) (l2 : list process) : world :=
  let s1 := with_memory (wrn 8 (mem_of s) (frame p + pc_off) pc) s in
  with_procs (with_list (Some (l1 ++ with_state Waiting p :: l2)) (procs_of s1)) s1.

Lemma ready_waiting s cs dev bd buffer size l1 p l2 pc :
  ready s cs dev bd buffer size (pid p) l1 p l2 -> current s (frame p) l1 p l2 ->
  ready (waiting pc s l1 p l2) cs dev bd buffer size (pid p) l1 (with_state Waiting p) l2.
Proof.
  intros [Hslot Hd Hok Hidle Hwt Hw Hcl Htg Hbr] Hc.
  assert (p ∈ l1 ++ p :: l2) as Hp by (apply elem_of_app; right; by left).
  destruct (proj1 (Forall_forall _ _) Hcl p Hp) as [Ho Hq].
  set (m := wrn 8 (mem_of s) (frame p + pc_off) pc).
  assert (forall x, x < frame p \/ frame p + 544 <= x -> byte m x = byte (mem_of s) x) as Hm
    by (intros x Hx; apply byte_wrn_out; unfold pc_off; lia).
  pose proof (current_frame _ _ _ _ _ m Hc Hm) as Hcm.
  split; [exact Hslot|exact Hd| | | |exact Hw| | |exact Hbr].
  - destruct Hok as [Hheap Hq' Hi Ha Hmx Hap]. split; try done.
    apply (heap_write (kern_of s)); [done|]. intros x Hx _. apply byte_wrn_out. unfold pc_off.
    destruct (Z.lt_ge_cases x (frame p)); [lia|].
    destruct (Z.lt_ge_cases x (frame p + 4096)); [|lia]. destruct Hx. apply Ho. lia.
  - rewrite <- Hidle. unfold used_idx. apply rdn_ext. intros x Hx. apply Hm.
    unfold apart, sizeof_Queue, used_idx_off in *. lia.
  - destruct Hwt as [Hl Hpid Hb Hfd Hn]. split; try done.
    rewrite <- (cu_found _ _ _ _ _ Hcm). apply find_pid_frames. by rewrite !fmap_app, !fmap_cons.
  - unfold frames_clear in *. rewrite Forall_app, Forall_cons in *. exact Hcl.
  - destruct Htg as [T1 T2 T3]. split; [exact T1|exact T2|].
    rewrite Forall_app, Forall_cons in *. exact T3.
Qed.

Section Call.
Context `{Profile} `{Linker} `{Clock} `{Bus} `{Repr Gpu.Pixel} `{Gpu.ReqLayout}.
Context {D : Type} `{BlockService D} `{Heap} `{Repr FsProc.ProcArgs}.
Context {V : Type} `{BlkDevice V} `{!BlkLaws V}.
Context (fuel : nat) (ra_delete_proc read_proc_fn write_proc_fn exec_func_fn : Z).
Abbreviation syscall := (do_syscall fuel ra_delete_proc read_proc_fn write_proc_fn exec_func_fn).
Abbreviation trap := (m_trap fuel ra_delete_proc read_proc_fn write_proc_fn exec_func_fn).

(** The registers of a block call. *)
Record block_args (m : memory) (f sysno dev buffer size off : Z) : Prop := {
  ba_no : reg_in m f Cpu.A7 = sysno;
  ba_dev : reg_in m f Cpu.A0 = dev;
  ba_buf : reg_in m f Cpu.A1 = buffer;
  ba_size : reg_in m f Cpu.A2 = size;
  ba_off : reg_in m f Cpu.A3 = off;
}.

Lemma set_waiting_ok s f l1 p l2 :
  current s f l1 p l2 -> Forall (fun q => pid q <> pid p) l1 ->
  on_procs (set_waiting (pid p)) s = Done (true, replace_proc s l1 l2 (with_state Waiting p)).
Proof.
  intros Hc Hb. unfold on_procs. apply (zoom_done procs_of with_procs).
  unfold set_waiting. rewrite (cu_list _ _ _ _ _ Hc), on_first_found; [done| |by apply Z.eqb_eq].
  eapply Forall_impl; [exact Hb|]. intros q Hq. by apply Z.eqb_neq.
Qed.

(** [do_syscall] hands the request to the driver. *)
Lemma block_syscall (y : sys D) mepc l1 p l2 (write : bool) dev buffer size off r s1 :
  let f := frame p in
  current (wd y) f l1 p l2 -> Forall (fun q => pid q <> pid p) l1 ->
  block_args (mem_of (wd y)) f (if write then 181 else 180) dev buffer size off ->
  0 <= size < 2 ^ 32 -> 0 <= mepc -> mepc + 4 < 2 ^ 64 ->
  Block.block_op fuel dev buffer size off write (pid p)
    (waiting (mepc + 4) (wd y) l1 p l2) = Done (r, s1) ->
  syscall mepc f y = Done (tt, with_wd s1 y).
Proof.
  intros f Hc Hb [Hno Hdev Hbuf Hsz Hoff] Hs32 Hlo Hhi E. unfold do_syscall.
  pose proof (cu_null _ _ _ _ _ Hc) as Hn.
  erewrite bind_done by (by apply on_wd_id, reg_ok). rewrite Hno.
  erewrite bind_done by (apply lift_done, uint_ok; lia).
  erewrite bind_done by (by apply on_wd_done, save_ok).
  set (m1 := wrn 8 (mem_of (wd y)) (f + pc_off) (mepc + 4)). fold m1.
  assert (forall x, x < f \/ f + 544 <= x -> byte m1 x = byte (mem_of (wd y)) x) as Hm1
    by (intros x Hx; apply byte_wrn_out; unfold pc_off; lia).
  pose proof (current_frame _ _ _ _ _ m1 Hc Hm1) as Hc1.
  assert (forall r, reg_in m1 f r = reg_in (mem_of (wd y)) f r) as Hreg.
  { intros r0. apply rdn_wrn_ne. pose proof (gp_range r0). unfold pc_off. lia. }
  assert (sys_block fuel write f (with_memory m1 (wd y)) = Done (tt, s1)) as Es.
  { unfold sys_block. erewrite bind_done by (by eapply frame_pid_ok).
    erewrite bind_done by (by eapply set_waiting_ok).
    do 4 (erewrite bind_done by (by apply reg_ok)).
    change (mem_of (replace_proc (with_memory m1 (wd y)) l1 l2 (with_state Waiting p))) with m1.
    rewrite !Hreg, Hdev, Hbuf, Hsz, Hoff. unfold as_u32. rewrite Z.mod_small by lia.
    by erewrite bind_done by exact E. }
  assert (on_wd (sys_block fuel write f) (with_wd (with_memory m1 (wd y)) y) = Done (tt, with_wd s1 y))
    as Ey by exact (on_wd_done _ (with_wd (with_memory m1 (wd y)) y) _ _ Es).
  destruct write; exact Ey.
Qed.

(** An external interrupt of the block device number [dev]. *)
Lemma block_trap (y : sys D) epc hart f dev s3 :
  1 <= dev <= 8 -> bus (io (wd y)) Plic.PLIC_CLAIM mod 2 ^ 32 = dev ->
  VIRTIO_DEVICES (wd y) !! Z.to_nat (dev - 1) = Some (Some DBlock) ->
  Block.handle_interrupt fuel (dev - 1)
    (with_io (io (wd y) ++ [Rd Plic.PLIC_CLAIM dev]) (wd y)) = Done (tt, s3) ->
  trap epc 0 (2 ^ 63 + 11) hart f y =
    Done (ReturnPc epc, with_wd (with_io (io s3 ++ [Wr Plic.PLIC_CLAIM dev]) s3) y).
Proof.
  intros Hd Hcl Hv E.
  assert (Plic.handle_interrupt fuel (wd y) =
    Done (tt, with_io (io s3 ++ [Wr Plic.PLIC_CLAIM dev]) s3)) as Ep.
  { unfold Plic.handle_interrupt, Plic.next. erewrite bind_done.
    2:{ erewrite bind_done by reflexivity. change (2 ^ (8 * 4)) with (2 ^ 32). rewrite Hcl.
        rewrite (proj2 (Z.eqb_neq dev 0)) by lia. reflexivity. }
    cbn iota. rewrite (proj2 (Z.leb_le 1 dev)), (proj2 (Z.leb_le dev 8)) by lia. cbn [andb].
    erewrite bind_done; [reflexivity|]. unfold VirtioBus.handle_interrupt.
    erewrite bind_done by (apply lift_done, uint_ok; lia).
    erewrite bind_done by reflexivity.
    erewrite bind_done by (apply lift_done, index_ok; [lia|exact Hv]). exact E. }
  unfold m_trap. change (Z.land (Z.shiftr (2 ^ 63 + 11) 63) 1 =? 1) with true.
  change (Z.land (2 ^ 63 + 11) 0xfff) with 11. cbn iota.
  apply on_wd_done. unfold async_trap. cbn [Z.eqb Pos.eqb].
  by erewrite bind_done by exact Ep.
Qed.

(** C2: A process that makes system call 180 for whole sectors of a disk is put to
    wait with its request in the ring; when the device has served the request and
    its interrupt was taken by the trap handler, the process runs with 0 in a0 and
    the sectors in its buffer, and the interrupt was claimed and completed. *)
Theorem block_read_call (y : sys D) mepc cs dev bd buffer size off l1 p l2 rq k1 epc hart f' (d : V) :
  let f := frame p in let s := wd y in
  let notify := Wr (bd_dev bd + 0x50) 0 in
  current s f l1 p l2 -> ready s cs dev bd buffer size (pid p) l1 p l2 ->
  block_args (mem_of s) f 180 dev buffer size off ->
  (S (length cs) < fuel)%nat -> 0 <= mepc -> mepc + 4 < 2 ^ 64 ->
  size mod 512 = 0 -> 0 < size < 2 ^ 32 -> off mod 512 = 0 -> 0 <= off < 2 ^ 64 ->
  off + size <= dcapacity d ->
  Kmem.kmalloc fuel 32 (kern_of (waiting (mepc + 4) s l1 p l2)) = Done (rq, k1) -> rq <> 0 ->
  1 <= dev <= 8 -> VIRTIO_DEVICES s !! Z.to_nat (dev - 1) = Some (Some DBlock) ->
  bus (io s ++ [notify]) Plic.PLIC_CLAIM mod 2 ^ 32 = dev ->
  exists s1 m2 d2 s3, syscall mepc f y = Done (tt, with_wd s1 y) /\
    PROCESS_LIST (procs_of s1) = Some (l1 ++ with_state Waiting p :: l2) /\
    serve d (mem_of s1) (bd_queue bd) (avail_idx (mem_of s) (bd_queue bd)) = (m2, d2) /\
    trap epc 0 (2 ^ 63 + 11) hart f' (with_wd (with_memory m2 s1) y) = Done (ReturnPc epc, with_wd s3 y) /\
    PROCESS_LIST (procs_of s3) = Some (l1 ++ with_state Running p :: l2) /\
    reg_in (mem_of s3) f Cpu.A0 = 0 /\
    bytes_at (byte (mem_of s3)) buffer size = bytes_at (dcontent d) off size /\
    io s3 = io s ++ [notify; Rd Plic.PLIC_CLAIM dev; Wr Plic.PLIC_CLAIM dev].
Proof.
  intros f s notify Hc Hr Hargs Hf Hlo Hhi Hsz Hsize Ho Hoff Hcap Em Hrq Hd Hv Hbus.
  pose proof (ready_waiting _ _ _ _ _ _ _ _ _ (mepc + 4) Hr Hc) as Hr'.
  set (sw := waiting (mepc + 4) s l1 p l2) in *.
  destruct (run_request fuel sw cs dev bd buffer size off (pid p) l1 (with_state Waiting p) l2 rq k1 false)
    as (s1 & E1 & Hio & Hvd & Hpl & Hreq & _ & Hrun); try done; [by rewrite andb_false_r|].
  pose proof (Z.div_mod off 512 ltac:(lia)) as Hdm. rewrite Ho in Hdm.
  assert (avail_idx (mem_of sw) (bd_queue bd) = avail_idx (mem_of s) (bd_queue bd)) as Eav.
  { apply rdn_wrn_ne.
    pose proof (proj2 (proj1 (Forall_forall _ _) (rd_clear _ _ _ _ _ _ _ _ _ _ Hr) p
      ltac:(apply elem_of_app; right; by left))) as Hap.
    unfold apart, sizeof_Queue, pc_off, avail_idx_off in *. lia. }
  rewrite Eav in Hreq, Hrun.
  destruct (serve_in d _ _ _ _ _ _ _ Hreq) as (Hans & _); [apply Z.div_pos; lia|lia|lia|lia|].
  destruct (serve d _ _ _) as [m2 d2] eqn:Es. cbn [fst snd] in *.
  edestruct (Hrun m2 buffer (bytes_at (dcontent d) (off / 512 * 512) size)
    (io s1 ++ [Rd Plic.PLIC_CLAIM dev])) as (s3 & cs3 & E3 & Hfin & Hio3 & Hb); [|exact Hans|].
  { rewrite length_bytes_at, Z2Nat.id by lia. exact (rd_buffer _ _ _ _ _ _ _ _ _ _ Hr'). }
  rewrite length_bytes_at, Z2Nat.id in Hb by lia.
  exists s1, m2, d2, (with_io (io s3 ++ [Wr Plic.PLIC_CLAIM dev]) s3). split_and!.
  - eapply (block_syscall y mepc l1 p l2 false); [exact Hc| |exact Hargs|lia|lia|lia|exact E1].
    exact (wt_before _ _ _ _ _ (rd_watched _ _ _ _ _ _ _ _ _ _ Hr)).
  - by rewrite Hpl.
  - exact Es.
  - rewrite (block_trap _ epc hart f' dev s3).
    + done.
    + done.
    + change (io (wd (with_wd (with_memory m2 s1) y))) with (io s1). rewrite Hio. exact Hbus.
    + change (VIRTIO_DEVICES (wd (with_wd (with_memory m2 s1) y))) with (VIRTIO_DEVICES s1).
      rewrite Hvd. exact Hv.
    + exact E3.
  - exact (fi_list _ _ _ _ _ _ _ _ _ Hfin).
  - exact (fi_a0 _ _ _ _ _ _ _ _ _ Hfin).
  - apply list_eq_nthZ; [by rewrite !length_bytes_at|]. rewrite length_bytes_at. intros i Hi.
    rewrite !nth_bytes_at by lia. etransitivity; [apply Hb; lia|].
    rewrite nth_bytes_at by lia. f_equal. lia.
  - cbn [io with_io]. rewrite Hio3, Hio. by rewrite <- !app_assoc.
Qed.
End Call.
End BlockCall.
