(* ===== verification/DriverExample.v ===== *)
(** * The drivers at work

    Layouts for the structs whose layout is a parameter, and small machines on
    which the theorems about the drivers are applied. *)

From S2P Require Import Prelude Memory Cpu PageAlloc PageProps Kmem KmemFacts KmemProps KmemSpec KmemUse KmemExample.
From S2P Require Import Mmu MinixLayout Lock Process ProcessProps Console World Boxes Uart Virtio Block BlockProps BlockDone BlockSpec RamDisk BlockExample.
From S2P Require Import Rng Input InputProps Gpu GpuProps VirtioBus Plic InterruptProps FsProc.
Import Mem KmemFacts KmemProps KmemUse Process World Boxes Virtio BlockExample.

(** ** Layouts *)

(** The four bytes of a pixel in order. *)
#[export] Instance pixel_repr : Repr Gpu.Pixel := {|
  size_of := 4;
  encode p := [Gpu.pr p; Gpu.pg p; Gpu.pb p; Gpu.pa p];
  decode l := Gpu.mkPixel (nthZ l 0) (nthZ l 1) (nthZ l 2) (nthZ l 3);
|}.
#[export] Instance pixel_laws : ReprLaws Gpu.Pixel GpuProps.pixel_wf.
Proof. split; [done|done|]. by intros []. Qed.

(** A request, what belongs to it and the response, one behind the other. *)
#[export] Instance req_layout : Gpu.ReqLayout := {|
  Gpu.request_off _ _ := 0;
  Gpu.response_off n _ := n;
  Gpu.request3_off _ _ _ := 0;
  Gpu.mementries3_off n _ _ := n;
  Gpu.response3_off n m _ := n + m;
|}.
#[export] Instance req_layout_laws : Gpu.ReqLayoutLaws.
Proof. split. intros n r Hn Hr. cbn. unfold apart. lia. Qed.

(** The arguments of a file request in order, the last two bytes are padding. *)
#[export] Instance args_repr : Repr FsProc.ProcArgs := {|
  size_of := 32;
  encode a := le_enc 2 (FsProc.a_pid a) ++ le_enc 8 (FsProc.a_dev a) ++ le_enc 8 (FsProc.a_buffer a) ++
    le_enc 4 (FsProc.a_size a) ++ le_enc 4 (FsProc.a_offset a) ++ le_enc 4 (FsProc.a_node a) ++ [0; 0];
  decode l := FsProc.mkArgs (Layout.field l 0 2) (Layout.field l 2 8) (Layout.field l 10 8)
    (Layout.field l 18 4) (Layout.field l 22 4) (Layout.field l 26 4);
|}.

Definition args_wf (a : FsProc.ProcArgs) : Prop :=
  0 <= FsProc.a_pid a < 256 ^ 2 /\ 0 <= FsProc.a_dev a < 256 ^ 8 /\ 0 <= FsProc.a_buffer a < 256 ^ 8 /\
  0 <= FsProc.a_size a < 256 ^ 4 /\ 0 <= FsProc.a_offset a < 256 ^ 4 /\ 0 <= FsProc.a_node a < 256 ^ 4.

Lemma field_at l1 n v l2 :
  0 <= v < 256 ^ Z.of_nat n -> Layout.field (l1 ++ le_enc n v ++ l2) (length l1) n = v.
Proof.
  intros Hv. unfold Layout.field. rewrite drop_app_length.
  rewrite take_app_length' by (by rewrite length_le_enc). by apply le_dec_enc.
Qed.

#[export] Instance args_laws : ReprLaws FsProc.ProcArgs args_wf.
Proof.
  split; [done|done|].
  intros [p d b s o n] (Hp & Hd & Hb & Hs & Ho & Hn). cbn in Hp, Hd, Hb, Hs, Ho, Hn.
  unfold encode, decode, args_repr. cbn [FsProc.a_pid FsProc.a_dev FsProc.a_buffer FsProc.a_size
    FsProc.a_offset FsProc.a_node]. f_equal.
  - by apply (field_at [] 2).
  - by apply (field_at (le_enc 2 p) 8).
  - rewrite app_assoc. by apply (field_at (le_enc 2 p ++ le_enc 8 d) 8).
  - rewrite !app_assoc, <- (app_assoc _ _ [0; 0]). rewrite <- !app_assoc.
    rewrite (app_assoc _ (le_enc 8 d)), (app_assoc _ (le_enc 8 b)).
    by apply (field_at ((le_enc 2 p ++ le_enc 8 d) ++ le_enc 8 b) 4).
  - rewrite (app_assoc _ (le_enc 8 d)), (app_assoc _ (le_enc 8 b)), (app_assoc _ (le_enc 4 s)).
    by apply (field_at (((le_enc 2 p ++ le_enc 8 d) ++ le_enc 8 b) ++ le_enc 4 s) 4).
  - rewrite (app_assoc _ (le_enc 8 d)), (app_assoc _ (le_enc 8 b)), (app_assoc _ (le_enc 4 s)),
      (app_assoc _ (le_enc 4 o)).
    by apply (field_at ((((le_enc 2 p ++ le_enc 8 d) ++ le_enc 8 b) ++ le_enc 4 s) ++ le_enc 4 o) 4).
Qed.

(** ** Witnesses *)

Module DriverExample.
Import (notations) String.
#[local] Existing Instance dev.
#[local] Existing Instance KmemExample.heap16M.

(** A UART with the letter A. *)
Definition letter : Bus := fun _ a => if a =? Uart.UART then 65 else 1.

Lemma uart_interrupt_delivers_witness :
  exists s' out, @Uart.handle_interrupt letter world0 = Done (tt, s') /\
    Console.IN_BUFFER (con s') = Some [65] /\ out = [65].
Proof.
  destruct (@Uart.uart_interrupt_delivers letter world0 []) as (s' & out & E & Eb & _ & _ & Ho).
  - reflexivity.
  - reflexivity.
  - exists s', out. split; [exact E|]. split; [exact Eb|]. by apply (Uart.sh_ascii _ _ Ho).
Defined.

#[local] Existing Instance quiet.

(** ** Boxes *)

Definition args0 : FsProc.ProcArgs := FsProc.mkArgs 1 8 40960 32 0 2.

Lemma box_roundtrip_witness :
  exists m1 m2, Box_new 5 args0 world0 = Done (8264, with_memory m1 world0) /\
    Box_read 8264 (with_memory m1 world0) = Done (args0, with_memory m1 world0) /\
    Box_drop 5 8264 (with_memory m1 world0) = Done (tt, with_memory m2 world0).
Proof.
  destruct (box_roundtrip 5 (wf := args_wf) args0 world0 KmemExample.chunks 8264 kern2)
    as (m1 & cs1 & z & m2 & cs2 & E1 & _ & _ & E2 & E3 & _).
  - unfold args_wf, args0. cbn. lia.
  - exact heap1_ok.
  - cbn. lia.
  - exact kmalloc32.
  - lia.
  - exists m1, m2. split; [exact E1|]. split; [exact E2|exact E3].
Defined.

(** ** The block driver refuses *)

Lemma block_op_refuses_witness :
  Block.block_op 5 8 40960 100 0 false 1 world0 = Done (inl Block.InvalidArgument, world0) /\
  Block.block_op 5 3 40960 512 0 false 1 world0 = Done (inl Block.BlockDeviceNotFound, world0) /\
  Block.block_op 5 9 40960 512 0 false 1 world0 = Panic.
Proof.
  destruct (BlockProps.block_op_refuses 5 world0 8 40960 100 0 false 1 eq_refl ltac:(lia)) as [H8 _].
  destruct (BlockProps.block_op_refuses 5 world0 3 40960 512 0 false 1 eq_refl ltac:(lia)) as [H3 _].
  destruct (BlockProps.block_op_refuses 5 world0 9 40960 512 0 false 1 eq_refl ltac:(lia)) as [H9 _].
  split; [|split].
  - destruct (H8 ltac:(lia)) as [_ Hi]. apply Hi; [reflexivity|]. vm_compute. discriminate.
  - apply H3. lia.
  - exact H9.
Defined.

(** ** The input driver *)

(** Descriptor 5 holds the event (3, 0, 42), and the device has used it. *)
Definition input_mem : memory :=
  wrn 2 (store (store (store ∅ (16384 + desc_off 5) (encode_desc (mkDesc 40960 8 2 0)))
    40960 (le_enc 2 3 ++ le_enc 2 0 ++ le_enc 4 42))
    (16384 + used_ring_off 0) (le_enc 4 5)) (16384 + used_idx_off) 1.
Definition input_dev : InputDevice := mkId 16384 24576 64 0 49152 0.
Definition world_input : world :=
  with_input (replicate 7 None ++ [Some input_dev])
    (with_abs (Some []) (with_key (Some []) (with_memory input_mem world0))).

(** The event is delivered, and descriptor 64 is handed out with buffer 5. *)
Lemma input_events_delivered_witness :
  exists s', Input.handle_interrupt 2 7 world_input = Done (tt, s') /\
    ABS_EVENTS s' = Some [mkEvent 3 0 42] /\ KEY_EVENTS s' = Some [] /\
    desc_at (mem_of s') 16384 64 = mkDesc (49152 + 40) 8 2 0.
Proof.
  destruct (InputProps.input_events_delivered 1 2 7 input_dev world_input [] []) as (m' & E & Hre).
  - lia.
  - reflexivity.
  - done.
  - cbn. lia.
  - cbn. lia.
  - by vm_compute.
  - lia.
  - lia.
  - constructor; [|constructor]. vm_compute. repeat split; try discriminate. right. discriminate.
  - done.
  - right. by vm_compute.
  - by vm_compute.
  - reflexivity.
  - reflexivity.
  - eexists. split; [exact E|]. split; [by vm_compute|]. split; [by vm_compute|].
    exact (InputProps.ra_new _ _ _ _ _ _ Hre 0 5 ltac:(by vm_compute)).
Defined.

Lemma repopulate_past_buffer_witness :
  exists dev' s', Input.repopulate_event input_dev 64 world_input = Done (dev', s') /\
    49152 + 512 <= addr (desc_at (mem_of s') 16384 64).
Proof.
  destruct (InputProps.repopulate_past_buffer input_dev 64 world_input) as (dev' & s' & E & _ & Ha).
  - done.
  - cbn. lia.
  - cbn. lia.
  - by vm_compute.
  - by vm_compute.
  - exists dev', s'. split; [exact E|exact Ha].
Defined.

(** ** The display *)

Definition gpu0 : GpuDevice := mkGd 16384 0x10006000 126 0 65536 16 16.
Definition red : Gpu.Pixel := Gpu.mkPixel 255 0 0 255.

Lemma drawing_pointwise_witness :
  exists m, Gpu.fill_rect gpu0 (Gpu.mkRect 2 3 4 5) red world0 = Done (tt, with_memory m world0) /\
    GpuProps.picture gpu0 m 3 2 = red /\ GpuProps.picture gpu0 m 3 6 = Gpu.mkPixel 0 0 0 0.
Proof.
  destruct (GpuProps.drawing_pointwise gpu0 ltac:(done) (Gpu.mkRect 2 3 4 5) red 1 world0)
    as [(m & E & Hp & _) _].
  - unfold GpuProps.pixel_wf, is_byte. cbn. lia.
  - unfold GpuProps.rect_ok. cbn. lia.
  - exists m. split; [exact E|]. split.
    + rewrite Hp by (cbn; lia). reflexivity.
    + rewrite Hp by (cbn; lia). by vm_compute.
Defined.

Definition world_gpu : world :=
  with_gpu [Some gpu0; None; None; None; None; None; None; None] world0.

Lemma gpu0_ok : GpuProps.gpu_ok (kern_of world_gpu) KmemExample.chunks gpu0.
Proof. split; [exact heap1_ok|done|cbn; lia|by vm_compute|right; by vm_compute]. Qed.

Lemma transfer_submits_witness :
  exists s', Gpu.transfer 5 1 0 0 16 16 world_gpu = Done (tt, s') /\
    io s' = [Wr (0x10006000 + 0x50) 0].
Proof.
  destruct (GpuProps.transfer_submits 5 world_gpu KmemExample.chunks 1 gpu0 0 0 16 16 4032)
    as (rq1 & rq2 & m & E & _).
  - lia.
  - reflexivity.
  - exact gpu0_ok.
  - cbn. lia.
  - right. by left.
  - lia.
  - by vm_compute.
  - eexists. split; [exact E|]. reflexivity.
Defined.

(** ** The generator *)

Definition kern3 : kernel := match Kmem.kmalloc 5 8 kern1 with Done (_, k) => k | _ => kern1 end.
Lemma kmalloc8 : Kmem.kmalloc 5 8 kern1 = Done (8264, kern3).
Proof. vm_compute. reflexivity. Qed.

Lemma get_random_constant_witness :
  exists s', Rng.get_random 5 world0 = Done (2 ^ 64 - 1, s') /\ io s' = [].
Proof.
  destruct (Rng.get_random_constant 5 world0 KmemExample.chunks 8264 kern3 heap1_ok)
    as (s' & cs' & E & Eio & _).
  - cbn. lia.
  - exact kmalloc8.
  - lia.
  - exists s'. split; [exact E|exact Eio].
Defined.
End DriverExample.

Module PlicExample.
Import (notations) String.
#[local] Existing Instance dev.
#[local] Existing Instance KmemExample.heap16M.

(** Interrupt 10 is pending: the letter A was typed. *)
Definition irq10 : Bus := fun _ a => if a =? Plic.PLIC_CLAIM then 10 else if a =? Uart.UART then 65 else 1.
#[local] Existing Instance irq10.

Lemma plic_claims_and_completes_witness :
  exists s', Plic.handle_interrupt 5 world0 = Done (tt, s') /\
    Console.IN_BUFFER (con s') = Some [65] /\
    io s' = [Rd Plic.PLIC_CLAIM 10; Rd (Uart.UART + 5) 1; Rd Uart.UART 65; Wr Uart.UART 65; Wr Plic.PLIC_CLAIM 10].
Proof.
  destruct (Interrupts.plic_claims_and_completes 5 world0 eq_refl) as [_ Hn].
  destruct Hn as (drv & Hd & Hrun & _); [by vm_compute|].
  assert (drv = Uart.handle_interrupt) as ->.
  { inversion Hd as [? Hx|? Hx|? Hx|? ? Hx|? Hx| |? _ Hx]; try reflexivity; exfalso;
      change (irq10 (io world0) Plic.PLIC_CLAIM mod 2 ^ 32) with 10 in *; by (destruct Hx; lia) || by apply Hx. }
  destruct (Hrun _ eq_refl) as [_ E].
  eexists. split; [exact E|]. split; by vm_compute.
Defined.

End PlicExample.
