(* ===== verification/SyscallExample.v ===== *)
(** * System calls at work *)

From S2P Require Import Prelude Memory Cpu PageAlloc PageProps Kmem KmemFacts KmemProps KmemSpec KmemUse KmemExample.
From S2P Require Import Mmu MinixLayout Lock Process ProcessProps Console World Boxes Uart BlockIo IdealDisk MinixRead MinixWrite MinixDir MinixExample.
From S2P Require Import Virtio Block BlockProps BlockDone BlockSpec RamDisk BlockExample Input Gpu FsProc Syscall SyscallFacts SyscallProps EventProps DriverExample FsProcProps.
Import Ideal Mem KmemFacts KmemProps KmemUse Process World Boxes Virtio Syscall SyscallFacts SyscallProps EventProps BlockExample.

Module SyscallExample.
Import (notations) String.
#[local] Existing Instance dev.
#[local] Existing Instance KmemExample.heap16M.
#[local] Existing Instance quiet.

(** A state with one process, whose frame is at 32768. *)
Definition one (m : memory) (p : process) : world :=
  with_procs (mkP (with_mem m kern1) (Some [p]) 0 2 0) world0.

Lemma one_current m p :
  frame p = 32768 -> pid p = 1 -> rdn 8 m (32768 + 544) = 1 -> current (one m p) 32768 [] p [].
Proof.
  intros Hf Hp Hm. split; try done.
  - by rewrite Hp.
  - by rewrite Hp.
  - cbn [app length]. rewrite Hp. cbn [find_pid].
    change (rd64 (mem_of (one m p)) (pid_addr (frame p))) with (rdn 8 m (frame p + 544)).
    by rewrite Hf, Hm.
  - constructor; [|done]. left. rewrite Hf. unfold pid_off. lia.
Qed.

(** ** Opening and closing [/dev/fb], without the MMU *)

Definition mem_open : memory :=
  store (put_reg (mem kern1) 32768 Cpu.A0 40960) 40960 (Fmt.str "/dev/fb" ++ [0]).
Definition sys_open0 : sys Ideal.disks := mkSys (one mem_open proc0) FsExample.vol.

Lemma open_close_roundtrip_witness :
  exists y2 s3, sys_open 32768 sys_open0 = Done (tt, y2) /\
    reg_in (mem_of (wd y2)) 32768 Cpu.A0 = 3 /\
    sys_close 32768 (wd y2) = Done (tt, s3) /\ reg_in (mem_of s3) 32768 Cpu.A0 = 0.
Proof.
  destruct (open_close_roundtrip sys_open0 sys_open0 32768 [] proc0 [] 40960 Framebuffer)
    as (y2 & p2 & s3 & E1 & _ & _ & _ & _ & _ & E2 & E3 & _ & E4).
  - apply one_current; [done|done|by vm_compute].
  - by vm_compute.
  - lia.
  - by vm_compute.
  - by vm_compute.
  - exists y2, s3. split; [exact E1|]. split; [exact E2|]. split; [exact E3|exact E4].
Defined.

(** ** With the MMU: the root table maps the first gigabyte onto itself *)

Definition proc_mmu : process := mkProcess 32768 0 1 49152 Running ProcessData_new 0 0 0.
Definition mem_mmu : memory :=
  wr64 (wrn 8 (mem kern1) (32768 + 512) (Z.shiftl 8 60)) 49152 15.

Lemma identity m va :
  rd64 m 49152 = 15 -> Mmu.vpn va 2 = 0 -> Z.land va (Z.shiftl 1 30 - 1) = va ->
  Mmu.virt_to_phys m 49152 va = Done (Some va).
Proof.
  intros Hm Hv Hl. unfold Mmu.virt_to_phys. rewrite Hv.
  change (Mmu.entry_addr 49152 0) with 49152. cbn [Mmu.walk]. rewrite Hm.
  change (Mmu.is_invalid 15) with false. change (Mmu.is_leaf 15) with true. cbn iota.
  change (12 + Z.of_nat 2 * 9) with 30. rewrite Hl.
  change (Z.land (as_u64 (Z.shiftl 15 2)) (unot 64 (Z.shiftl 1 30 - 1))) with 0. done.
Qed.

Definition mem_write : memory :=
  store (put_reg (put_reg (put_reg mem_mmu 32768 Cpu.A0 1) 32768 Cpu.A1 40960) 32768 Cpu.A2 2)
    40960 [72; 105].

Lemma write_prints_witness :
  exists s', sys_write 32768 (one mem_write proc_mmu) = Done (tt, s') /\
    io s' = [Wr Uart.UART 72; Wr Uart.UART 105] /\ reg_in (mem_of s') 32768 Cpu.A0 = 2.
Proof.
  destruct (write_prints (one mem_write proc_mmu) 32768 [] proc_mmu []) as [_ Hm].
  - apply one_current; [done|done|by vm_compute].
  - left. by vm_compute.
  - by vm_compute.
  - destruct (Hm [72; 105]) as [Hw _]; [by vm_compute|done| |by vm_compute|].
    2:{ eexists. split; [apply Hw; by vm_compute|]. split; [reflexivity|].
        rewrite mem_of_with_memory. apply reg_in_put. cbn. lia. }
    intros [|[|i]] c Hc; cbn in Hc; try discriminate Hc; injection Hc as <-.
    + exists 40960. split; [by vm_compute|]. split; [lia|by vm_compute].
    + exists 40961. split; [by vm_compute|]. split; [lia|by vm_compute].
Defined.

(** Two key presses. *)
Definition key1 : Event := mkEvent 1 30 1.
Definition key2 : Event := mkEvent 1 30 0.
Definition mem_events : memory := put_reg (put_reg mem_mmu 32768 Cpu.A0 40960) 32768 Cpu.A1 5.
Definition world_events : world := with_key (Some [key1; key2]) (one mem_events proc_mmu).

Lemma events_reach_process_witness :
  exists m', sys_key_events 32768 world_events = Done (tt, with_key (Some []) (with_memory m' world_events)) /\
    reg_in m' 32768 Cpu.A0 = 2 /\ Input.event_at m' 40960 = key1 /\ Input.event_at m' 40968 = key2.
Proof.
  destruct (events_reach_process KEY_EVENTS with_key world_events 32768 [] proc_mmu [] [key1; key2]) as [_ Hon].
  1: apply (current_queue KEY_EVENTS with_key), one_current; [done|done|by vm_compute].
  1: reflexivity.
  1: unfold key1, key2; repeat constructor; cbn; lia.
  destruct (Hon [40960; 40968]) as (m' & E & Er & Ee & _).
  - by vm_compute.
  - done.
  - split; [repeat constructor; (lia || (right; cbn; lia))|].
    intros [|[|i]] [|[|j]] a b Ha Hb Hij; cbn in Ha, Hb; try discriminate; simplify_eq; unfold apart; lia.
  - intros m' Hm i a Ha.
    assert (rd64 m' 49152 = 15) as H15.
    { transitivity (rd64 mem_events 49152); [|by vm_compute]. apply rd64_ext. intros x Hx. apply Hm.
      intros [?|(b & Hb & Hx')]; [lia|]. rewrite !elem_of_cons, elem_of_nil in Hb. lia. }
    change (reg_in (mem_of world_events) 32768 Cpu.A0) with 40960.
    destruct i as [|[|i]]; cbn in Ha; try discriminate Ha; injection Ha as <-;
      by apply (identity m').
  - left. by vm_compute.
  - by vm_compute.
  - by vm_compute.
  - exists m'. split; [exact E|]. split; [exact Er|].
    split; [by apply (Ee 0%nat)|by apply (Ee 1%nat)].
Defined.

(** ** A file read *)

(** The heap with the box of the arguments in it. *)
Definition chunks_box : list (bool * Z) := [(true, 64); (true, 40); (false, 3992)].
Definition mem_box : memory :=
  wr64 (store (wr64 (wr64 (wr64 ∅ 8192 (word true 64)) 8256 (word true 40)) 8296 (word false 3992))
    8264 (encode DriverExample.args0)) (32768 + 544) 1.
Definition kern_box : kernel := mkKernel mem_box 4096 8192 1 0.
Definition sys_box : sys Ideal.disks :=
  mkSys (with_procs (mkP kern_box (Some [proc0]) 0 2 0) world0) FsExample.vol.

Lemma box_heap : heap_ok kern_box chunks_box.
Proof.
  split; [|done|done]. cbn [tiles chunks_box].
  split_and!; (by vm_compute) || (split; by vm_compute).
Qed.

Lemma read_proc_delivers_witness :
  exists y', FsProc.read_proc 5 8264 sys_box = Done (tt, y') /\
    rdn 8 (mem_of (wd y')) (32768 + 80) = 32 /\
    (forall j, 0 <= j < 32 -> byte (mem_of (wd y')) (40960 + j) = j + 1).
Proof.
  destruct (FsProcProps.read_proc_delivers 5 sys_box chunks_box 8264 40 DriverExample.args0 [] proc0 [])
    as (y' & cs' & E & _ & _ & _ & Ea & Eb & _).
  - exact box_heap.
  - cbn. lia.
  - cbn. right. by left.
  - lia.
  - by vm_compute.
  - split; [done|done|done|by vm_compute|done].
  - split.
    + intros x Hx. right. change (heap_end (kern_of (wd sys_box))) with 12288.
      change (frame proc0) with 32768 in Hx. lia.
    + constructor; [|done]. left. cbn. lia.
  - split.
    + by vm_compute.
    + intros x Hx. right. change (heap_end (kern_of (wd sys_box))) with 12288.
      change (FsProc.a_buffer DriverExample.args0) with 40960 in Hx. lia.
    + constructor; [|done]. right. cbn. lia.
  - exact FsExample.vol_ok.
  - by apply FsExample.num_ok.
  - apply (FsExample.one_zone_ok _ 6); [by vm_compute|lia].
  - by vm_compute.
  - by vm_compute.
  - by vm_compute.
  - exists y'. split; [exact E|]. split; [etransitivity; [exact Ea|by vm_compute]|].
    intros j Hj. etransitivity; [apply Eb|].
    + change (Cpu.memcpy_len _) with 32. exact Hj.
    + assert (Z.to_nat j < 32)%nat as Hn by lia. rewrite <- (Z2Nat.id j) by lia.
      revert Hn. generalize (Z.to_nat j). clear. intros n Hn.
      do 32 (destruct n as [|n]; [by vm_compute|]). lia.
Defined.
End SyscallExample.
