(* ===== verification/TrapExample.v ===== *)
(** * Traps at work *)

From S2P Require Import Prelude Memory Cpu PageAlloc PageProps Kmem KmemFacts KmemProps KmemSpec KmemUse KmemExample.
From S2P Require Import Mmu MmuProps MmuTree MinixLayout Lock Process ProcessProps Sched ExitProps UserExit ProcessExample Console World Boxes Uart BlockIo IdealDisk MinixExample.
From S2P Require Import Virtio Block BlockProps BlockDone BlockSpec RamDisk BlockExample Rng Input Gpu VirtioBus Plic FsProc Syscall SyscallFacts DriverExample SyscallExample.
From S2P Require Import Trap TrapProps BlockCall.
Import RamDisk Ideal Mem PageProps KmemFacts KmemProps KmemUse Process ProcessProps Sched ExitProps UserExit MmuProps MmuTree World Virtio Syscall SyscallFacts Trap TrapProps.

(** ** Faults and timers on a heap of 64 pages *)

Module FaultExample.
#[local] Existing Instance dev.
#[local] Existing Instance ProcessExample.heap64.
#[local] Existing Instance ProcessExample.seconds.
#[local] Existing Instance BlockExample.quiet.

(** Pages 0 and 1 are trap frames of two processes, page 2 is the frame of a third
    one, with its stack and its root table behind. *)
Definition table : list Page.seg :=
  [Page.Run 1; Page.Run 1; Page.Run 1; Page.Run 35; Page.Run 1] ++ Page.frees 25.
Definition memory0 : memory :=
  wr64 (wr64 (wr64 (store ∅ 4096 (Page.enc_table table)) (8192 + 544) 1) (12288 + 544) 2) (16384 + 544) 3.
Definition kern0 : kernel := mkKernel memory0 8192 0 0 0.
Definition p1 : process := mkProcess 8192 0 1 0 Running ProcessData_new 0 0 0.
Definition p2 : process := mkProcess 12288 0 2 0 Running ProcessData_new 0 0 0.
Definition p3 : process := mkProcess 16384 20480 3 163840 Running ProcessData_new 0 0 0.
Definition procs0 : pstate := mkP kern0 (Some [p3; p1; p2]) 0 4 0.
Definition sys0 : sys Ideal.disks := mkSys (with_procs procs0 BlockExample.world0) FsExample.vol.

Lemma byte_high x : 20480 <= x -> byte memory0 x = 0.
Proof.
  intros Hx. unfold memory0. rewrite !byte_wr64 by lia.
  rewrite byte_store_out; [by unfold byte; rewrite lookup_empty|].
  change (zlen (Page.enc_table table)) with 64. lia.
Qed.

Lemma page0_ok : page_ok kern0 table.
Proof.
  split; try done; [|repeat constructor; done].
  intros j Hj. change (zlen (Page.enc_table table)) with 64 in Hj.
  change (byte memory0 (4096 + j) = nthZ (Page.enc_table table) j).
  rewrite <- (nth_bytes_at (byte memory0) 4096 64 j) by exact Hj.
  assert (bytes_at (byte memory0) 4096 64 = Page.enc_table table) as -> by (by vm_compute). done.
Qed.

Lemma procs0_ok : procs_ok procs0 table [p3; p1; p2].
Proof.
  split; try done.
  - exact page0_ok.
  - repeat constructor; by vm_compute.
  - cbn. apply (bool_decide_unpack _). by vm_compute.
  - constructor; [|constructor; [|constructor; [|done]]]; (split; [|by vm_compute]).
    + exists [Page.Run 1; Page.Run 1], ([Page.Run 35; Page.Run 1] ++ Page.frees 25). by split.
    + exists [], ([Page.Run 1; Page.Run 1; Page.Run 35; Page.Run 1] ++ Page.frees 25). by split.
    + exists [Page.Run 1], ([Page.Run 1; Page.Run 35; Page.Run 1] ++ Page.frees 25). by split.
Qed.

Lemma owns0 : owns kern0 table p3 [p1; p2].
Proof.
  split; try done.
  - exists [Page.Run 1; Page.Run 1; Page.Run 1], ([Page.Run 1] ++ Page.frees 25). by split.
  - exists [Page.Run 1; Page.Run 1; Page.Run 1; Page.Run 35], (Page.frees 25). by split.
  - exists [Page.Run 1; Page.Run 1], ([Page.Run 35; Page.Run 1] ++ Page.frees 25). by split.
  - intros j Hj. assert (rd64 memory0 (163840 + 8 * j) = 0) as E.
    { unfold rd64. rewrite (bytes_at_ext _ (fun _ => 0)) by (intros; apply byte_high; lia). done. }
    unfold Mmu.entry_addr. cbn [mem kern0 mmu_table p3]. by rewrite E.
  - repeat constructor; done.
Qed.

Lemma delete_process_frees_witness :
  exists s' t', delete_process 40 3 procs0 = Done (tt, s') /\ procs_ok s' t' [p1; p2] /\
    Page.free_pages t' = 62.
Proof.
  destruct (delete_process_frees procs0 table [] p3 [p1; p2] 40 procs0_ok owns0)
    as (s' & t' & E & Hok & Hc & _); [lia|].
  exists s', t'. split; [exact E|]. split; [exact Hok|]. rewrite Hc. by vm_compute.
Defined.

Lemma tables0 : tables memory0 163840 = [].
Proof. by vm_compute. Qed.

Lemma tree0 : tree kern0 table 163840.
Proof.
  apply (empty_tree kern0 table 163840); [by split; [exact page0_ok|]| |].
  - exists [Page.Run 1; Page.Run 1; Page.Run 1; Page.Run 35], (Page.frees 25). by split.
  - intros x Hx. apply byte_high. lia.
Qed.

Lemma holds0 : holds_pages kern0 table p3 0 [p1; p2].
Proof.
  assert (blocks_of memory0 p3 0 = [(20480, 35%nat); (163840, 1%nat); (16384, 1%nat)]) as Eb
    by (unfold blocks_of; cbn [mmu_table p3]; by rewrite tables0).
  split; change (mem kern0) with memory0; rewrite ?Eb; [exact tree0| |].
  - split; [apply (bool_decide_unpack _); by vm_compute|]. repeat constructor; cbn [fst snd].
    + exists [Page.Run 1; Page.Run 1; Page.Run 1], ([Page.Run 1] ++ Page.frees 25). by split.
    + exists [Page.Run 1; Page.Run 1; Page.Run 1; Page.Run 35], (Page.frees 25). by split.
    + exists [Page.Run 1; Page.Run 1], ([Page.Run 35; Page.Run 1] ++ Page.frees 25). by split.
  - repeat constructor; apply (bool_decide_unpack _); by vm_compute.
Qed.

(** The first process that can run is the first one of the list. *)
Lemma picks_head now p l : state p = Running -> picks now (p :: l) [] p l.
Proof. intros Hp. split; [done|by intros [] ? ?|by left]. Qed.

Lemma fault_kills_witness :
  exists s', m_trap 40 0 0 0 0 0x1000 0xdead 13 0 16384 sys0 = Done (SwitchTo 12288, with_wd s' sys0) /\
    PROCESS_LIST (procs_of s') = Some [p2; p1].
Proof.
  destruct (fault_kills 40 0 0 0 0 sys0 13 0 0x1000 0xdead table p3 p1 [p2] 0 [] p2 [p1])
    as (s' & t' & E & Hok & _).
  - unfold faults. set_solver.
  - exact procs0_ok.
  - exact holds0.
  - reflexivity.
  - by apply picks_head.
  - lia.
  - lia.
  - cbn. lia.
  - exists s'. split; [exact E|exact (pr_list _ _ _ (en_procs _ _ _ _ _ _ _ _ _ Hok))].
Defined.

(** The ecall is made in machine mode (11). *)
Lemma returning_process_exits_witness :
  exists s', Kproc.ra_delete_proc 16384 (_ ← m_trap 40 0 0 0 0 0x1000 0 11 0 16384; mret tt) sys0 =
      Done (tt, with_wd s' sys0) /\ PROCESS_LIST (procs_of s') = Some [p2; p1].
Proof.
  destruct (returning_process_exits 40 0 0 0 0 sys0 0x1000 0 11 0 table p3 p1 [p2] 0 [] p2 [p1])
    as (s' & t' & _ & E & Hok & _).
  - unfold ecalls. set_solver.
  - exact procs0_ok.
  - exact holds0.
  - reflexivity.
  - by apply picks_head.
  - lia.
  - lia.
  - lia.
  - lia.
  - cbn. lia.
  - exists s'. split; [exact E|exact (pr_list _ _ _ (en_procs _ _ _ _ _ _ _ _ _ Hok))].
Defined.

(** One process sleeps on, until time 5; the next one has slept long enough. *)
Definition nap : process := mkProcess 16384 20480 3 163840 Sleeping ProcessData_new 5 0 0.
Definition awake : process := mkProcess 12288 0 2 0 Sleeping ProcessData_new 10 0 0.
Definition sys_nap : sys Ideal.disks :=
  mkSys (with_procs (mkP kern0 (Some [p1; nap; awake]) 0 4 0) BlockExample.world0) FsExample.vol.

Lemma timer_trap_witness :
  m_trap 40 0 0 0 0 0x1000 0 (2 ^ 63 + 7) 0 8192 sys_nap =
    Done (SwitchTo 12288, with_wd (switched (wd sys_nap) [nap] awake [p1]) sys_nap).
Proof.
  destruct (timer_trap 40 0 0 0 0 sys_nap 0x1000 0 0 8192) as [Ht _].
  apply (Ht p1 [nap; awake] [nap] awake [p1]); [reflexivity|reflexivity| |cbn; lia|done].
  split; [reflexivity| |by right].
  intros [|a1 [|a2 a]] q b [=]; subst; intros [?|[? Hle]]; done.
Defined.

(** A misaligned load (4). *)
Lemma unhandled_trap_panics_witness :
  m_trap 40 0 0 0 0 0x1000 0 4 0 16384 sys0 = Panic.
Proof.
  apply (unhandled_trap_panics 40 0 0 0 0 sys0). vm_compute.
  intros Hin. repeat (inversion Hin as [|? ? ? Hin']; subst; clear Hin; rename Hin' into Hin).
Defined.
End FaultExample.

(** ** System calls through the trap handler *)

Module CallExample.
#[local] Existing Instance dev.
#[local] Existing Instance KmemExample.heap16M.
#[local] Existing Instance ProcessExample.seconds.

(** The interrupt of device 8 is pending. *)
Definition irq8 : Bus := fun _ a => if a =? Plic.PLIC_CLAIM then 8 else 0.
#[local] Existing Instance irq8.

Definition caller : process := mkProcess 32768 0 1 0 Running ProcessData_new 0 0 0.
Definition other : process := mkProcess 36864 0 2 0 Running ProcessData_new 0 0 0.
Definition two : world :=
  with_procs (mkP (with_mem (wr64 (mem BlockExample.kern1) (36864 + 544) 2) BlockExample.kern1)
    (Some [caller; other]) 0 3 0) BlockExample.world0.
Definition sys2 : sys Ideal.disks := mkSys two FsExample.vol.

Lemma two_current : current two 32768 [] caller [other].
Proof.
  split; try done; try by vm_compute.
  constructor; [left; by vm_compute|constructor; [left; by vm_compute|done]].
Qed.

Lemma get_pid_call_witness :
  exists y', syscall_get_pid 32768
      (_ ← m_trap 5 0 0 0 0 0x80001000 0 8 0 32768; mret tt) sys2 = Done (1, y').
Proof.
  destruct (get_pid_call 5 0 0 0 0 sys2 0x80001000 0 0 32768 [] caller [other]
    caller [other] [] other [caller])
    as (y' & E & _).
  - exact two_current.
  - lia.
  - by vm_compute.
  - reflexivity.
  - reflexivity.
  - by apply FaultExample.picks_head.
  - cbn. lia.
  - exists y'. exact E.
Defined.

(** One process that reads sector 1 of device 8. *)
Definition mem_call : memory :=
  put_reg (put_reg (put_reg (put_reg (put_reg (mem BlockExample.kern1) 32768 Cpu.A7 180)
    32768 Cpu.A0 8) 32768 Cpu.A1 40960) 32768 Cpu.A2 512) 32768 Cpu.A3 512.
Definition world_call : world :=
  with_virtio [None; None; None; None; None; None; None; Some DBlock]
    (SyscallExample.one mem_call caller).
Definition sys_call : sys Ideal.disks := mkSys world_call FsExample.vol.

Lemma call_current : current world_call 32768 [] caller [].
Proof.
  assert (current (SyscallExample.one mem_call caller) 32768 [] caller []) as Hc
    by (apply SyscallExample.one_current; [done|done|by vm_compute]).
  by destruct Hc.
Qed.

Lemma call_ready : BlockRun.ready world_call KmemExample.chunks 8 BlockExample.bd0 40960 512 1 [] caller [].
Proof.
  destruct BlockExample.ready0 as [Hslot Hd Hok Hidle Hwt Hw Hcl Htg Hbr].
  split; [done|done| |by vm_compute| |done| | |done].
  - destruct Hok as [Hheap H1 H2 H3 H4 H5]. split; [|exact H1|exact H2|exact H3|exact H4|exact H5].
    unfold world_call, mem_call. apply (heap_write BlockExample.kern1); [exact Hheap|].
    intros x Hx _. change (mem (with_mem mem_call BlockExample.kern1)) with mem_call.
    unfold mem_call. unfold outside in Hx. change (heap_end BlockExample.kern1) with 12288 in Hx.
    rewrite !put_reg_out; [done|..]; lia.
  - split; [done|done|done|by vm_compute|done].
  - constructor; [|done]. split; [|right; by vm_compute].
    intros x Hx. right. change (heap_end (kern_of world_call)) with 12288.
    change (frame caller) with 32768 in Hx. lia.
  - split; [|right; by vm_compute|constructor; [right; by vm_compute|done]].
    intros x Hx. left. right. change (heap_end (kern_of world_call)) with 12288. lia.
Qed.

Definition kern_rq : kernel :=
  match Kmem.kmalloc 5 32 (kern_of (BlockCall.waiting 0x80001004 world_call [] caller [])) with
  | Done (_, k) => k
  | _ => BlockExample.kern1
  end.

Lemma block_read_call_witness :
  exists s1 m2 d2 s3, do_syscall 5 0 0 0 0 0x80001000 32768 sys_call = Done (tt, with_wd s1 sys_call) /\
    serve BlockExample.disk0 (mem_of s1) 16384 0 = (m2, d2) /\
    m_trap 5 0 0 0 0 0x80002000 0 (2 ^ 63 + 11) 0 36864 (with_wd (with_memory m2 s1) sys_call) =
      Done (ReturnPc 0x80002000, with_wd s3 sys_call) /\
    bytes_at (byte (mem_of s3)) 40960 512 = replicate 512 7.
Proof.
  destruct (BlockCall.block_read_call 5 0 0 0 0 sys_call 0x80001000 KmemExample.chunks 8
    BlockExample.bd0 40960 512 512 [] caller [] 8264 kern_rq 0x80002000 0 36864 BlockExample.disk0)
    as (s1 & m2 & d2 & s3 & E1 & _ & E2 & E3 & _ & _ & E4 & _).
  - exact call_current.
  - exact call_ready.
  - split; by vm_compute.
  - cbn. lia.
  - lia.
  - by vm_compute.
  - reflexivity.
  - lia.
  - reflexivity.
  - lia.
  - calc.
  - by vm_compute.
  - lia.
  - lia.
  - reflexivity.
  - reflexivity.
  - exists s1, m2, d2, s3. split; [exact E1|]. split; [exact E2|]. split; [exact E3|].
    rewrite E4. by vm_compute.
Defined.
End CallExample.
