(* ===== verification/BrkExample.v ===== *)
(** * Page tables and the break at work *)

From S2P Require Import Prelude Memory Cpu PageAlloc PageProps Kmem Mmu MmuFacts MmuProps MmuTree MinixLayout Lock Process ProcessProps ProcessExample.
From S2P Require Import Console World Boxes Uart BlockIo Virtio Block BlockDone BlockExample Input Gpu FsProc Syscall SyscallFacts BrkProps FbProps.
From S2P Require Import Sched ExitProps UserExit IdealDisk MinixExample TrapExample.
Import Mem PageProps MmuProps MmuTree Process World Syscall SyscallFacts BrkProps.

Module BrkExample.
#[local] Existing Instance dev.
#[local] Existing Instance ProcessExample.heap64.
#[local] Existing Instance BlockExample.quiet.
Import FaultExample.

(** The process with its frame at 16384 asks for a break of 0x20000800. *)
Definition memory1 : memory :=
  put_reg (wrn 8 memory0 (16384 + 512) (Z.shiftl 8 60)) 16384 Cpu.A0 0x20000800.
Definition asking : process := mkProcess 16384 20480 3 163840 Running ProcessData_new 0 0 0x20000000.
Definition world1 : world :=
  with_procs (mkP (mkKernel memory1 8192 0 0 0) (Some [asking; p1; p2]) 0 4 0) BlockExample.world0.

Lemma byte1 x : x < 16384 \/ 16384 + 520 <= x -> byte memory1 x = byte memory0 x.
Proof.
  intros Hx. unfold memory1. rewrite put_reg_out by lia. apply byte_wrn_out. lia.
Qed.

Lemma mm1_ok : mm_ok (kern_of world1) table.
Proof.
  split; [|done]. apply (page_ok_above kern0 table memory1 page0_ok).
  intros x Hx. cbn in Hx. apply byte1. lia.
Qed.

Lemma root1 : tree (kern_of world1) table 163840 /\
  (forall p a, node memory1 163840 p a -> a = 163840) /\ implements memory1 163840 ∅.
Proof.
  apply (empty_tree (kern_of world1) table 163840 mm1_ok).
  - exists [Page.Run 1; Page.Run 1; Page.Run 1; Page.Run 35], (Page.frees 25). by split.
  - intros x Hx. change (mem (kern_of world1)) with memory1. rewrite byte1 by lia. apply byte_high. lia.
Qed.

Lemma map_refines_witness :
  exists s', Mmu.map 163840 0x20000000 0x80200000 6 0 (kern_of world1) = Done (tt, s') /\
    implements (mem s') 163840 {[ page_no 0x20000000 := 0x80200000 ]}.
Proof.
  destruct root1 as (Ht & _ & HA).
  destruct (map_refines (kern_of world1) table 163840 ∅ 0x20000000 0x80200000 6 Ht HA)
    as (s' & t' & E & _ & Hi & _); [by vm_compute|lia|lia|lia|by vm_compute|].
  exists s'. split; [exact E|exact Hi].
Defined.

Lemma unmap_frees_tables_witness :
  exists s' t', Mmu.unmap 1 163840 kern0 = Done (tt, s') /\ Page.free_pages t' = 25.
Proof.
  destruct (UserExit.unmap_frees_tables kern0 table 163840 1 tree0) as (s' & t' & E & _ & Hc & _); [lia|].
  exists s', t'. split; [exact E|]. rewrite Hc. by vm_compute.
Defined.

Lemma user_exit_frees_witness :
  exists s' t', delete_process 40 3 procs0 = Done (tt, s') /\ ProcessProps.procs_ok s' t' [p1; p2] /\
    Page.free_pages t' = 62.
Proof.
  destruct holds0 as [Ht Hb Ho].
  destruct (UserExit.user_exit_frees procs0 table [] p3 [p1; p2] 0 40 procs0_ok Ht Hb Ho)
    as (s' & t' & E & Hok & _ & Hc); [lia|lia|].
  exists s', t'. split; [exact E|]. split; [exact Hok|]. rewrite Hc. by vm_compute.
Defined.

Lemma asking_current : current world1 16384 [] asking [p1; p2].
Proof.
  split; try done. cbn [app].
  repeat (apply Forall_cons; split); [..|done]; unfold Virtio.apart, pid_off; cbn; lia.
Qed.

Lemma frames1 : frames_out (kern_of world1) table 163840 [asking; p1; p2].
Proof.
  destruct root1 as (_ & Hn & _).
  assert (forall c t1 t2, table = t1 ++ [Page.Run 1] ++ t2 -> c = page_addr kern0 (Page.pages_of t1) ->
    c <> 163840 -> stranger (kern_of world1) table 163840 c 1) as Hs.
  { intros c t1 t2 Et Ec Hne. split; [by exists t1, t2|]. intros p Hp. by apply Hne, (Hn p). }
  unfold frames_out. repeat (apply Forall_cons; split); [..|done].
  - by apply (Hs _ [Page.Run 1; Page.Run 1] ([Page.Run 35; Page.Run 1] ++ Page.frees 25)).
  - by apply (Hs _ [] ([Page.Run 1; Page.Run 1; Page.Run 35; Page.Run 1] ++ Page.frees 25)).
  - by apply (Hs _ [Page.Run 1] ([Page.Run 1; Page.Run 35; Page.Run 1] ++ Page.frees 25)).
Qed.

Lemma brk_grows_witness :
  exists s' pg, sys_brk 16384 world1 = Done (tt, s') /\ reg_in (mem_of s') 16384 Cpu.A0 = 0x20000800 /\
    Mmu.virt_to_phys (mem_of s') 163840 (0x20000000 + 0x123) = Done (Some (pg + 0x123)).
Proof.
  destruct root1 as (Ht & _ & _).
  assert (reg_in (mem_of world1) 16384 Cpu.A0 = 0x20000800) as Ea by (by vm_compute).
  destruct (brk_grows world1 16384 [] asking [p1; p2] table asking_current)
    as (s' & t' & pgs & E & L & _ & Ha & _ & _ & _ & _ & _ & Hm & _); rewrite ?Ea in *.
  - by vm_compute.
  - done.
  - exact Ht.
  - exact frames1.
  - by vm_compute.
  - by vm_compute.
  - by vm_compute.
  - by vm_compute.
  - by vm_compute.
  - destruct pgs as [|pg pgs]; [discriminate L|].
    exists s', pg. split; [exact E|]. split; [exact Ha|].
    destruct (Hm 0%nat pg 0x123 eq_refl ltac:(lia)) as [Hv _]. exact Hv.
Defined.

(** The same process asks for the framebuffer of a small display in slot 6. *)
Definition display : GpuDevice := mkGd 0 0 0 0 0x80300000 32 32.
Definition world6 : world :=
  with_gpu [None; None; None; None; None; Some display; None; None]
    (with_memory (put_reg (mem_of world1) 16384 Cpu.A0 6) world1).

Lemma framebuffer_maps_witness :
  exists s', sys_framebuffer 16384 world6 = Done (tt, s') /\
    Mmu.virt_to_phys (mem_of s') 163840 (0x30000000 + 0x123) = Done (Some 0x80300123).
Proof.
  destruct root1 as (Ht & _ & HA).
  destruct (FbProps.frame_store world1 16384 [] asking [p1; p2] table 163840 Cpu.A0 6 asking_current Ht frames1)
    as (Hc & Ht6 & Hfr & Hv).
  assert (reg_in (mem_of world6) 16384 Cpu.A0 = 6) as Ea by (by vm_compute).
  destruct (FbProps.framebuffer_maps world6 16384 [] asking [p1; p2] table ∅ display)
    as (s' & t' & E & _ & _ & _ & _ & Hm & _); rewrite ?Ea;
    [by destruct Hc|by vm_compute|done|exact Ht6| |exact Hfr|lia|done|done|done|by vm_compute|done|done|by vm_compute..|].
  - intros va Hva. etransitivity; [apply Hv|by apply HA].
  - exists s'. split; [exact E|]. apply (Hm 0x123). change (FbProps.fb_pages display) with 1. lia.
Defined.
End BrkExample.
