(* ===== verification/TestExample.v ===== *)
(** * The test process and the page report at work *)

From S2P Require Import Prelude Memory Cpu PageAlloc PageProps Kmem KmemExample Mmu MinixLayout Lock Process ProcessProps ProcessExample Console World Boxes Uart PageReport.
From S2P Require Import BlockIo IdealDisk MinixRead MinixWrite MinixDir MinixDirFacts MinixProps MinixExample Virtio Block BlockExample Gpu FsProc DriverExample Trap BootProps TrapExample TestProc.
From Stdlib Require String.
Import (notations) String.
Import Ideal Mem Layout Io World TestProc.

Module TestExample.
#[local] Existing Instance dev.
#[local] Existing Instance BlockExample.quiet.

(** The volume with the file [/a] in its path cache. *)
Definition vol_a : fs_state Ideal.disks :=
  mkFs (disks FsExample.vol) (replicate 7 None ++ [Some {[ Fmt.str "/a" := FsExample.inode_a ]}]) 0.
Definition sys_a : sys Ideal.disks := mkSys BlockExample.world0 vol_a.

Lemma open_file_shows_witness :
  (exists l f, test_open_file (Fmt.str "/a") sys_a =
     Done (tt, mkSys (said (shown (Fmt.str "/a") 32 l) BlockExample.world0) f) /\
     zlen l = 32 /\ nthZ l 4 = 5) /\
  test_open_file (Fmt.str "/hello.txt") sys_a = Panic.
Proof.
  assert (DirFacts.dev_ok 8 (fss sys_a)) as Hd by (split; [lia|done]).
  split.
  - destruct (open_file_shows (Fmt.str "/a") sys_a {[ Fmt.str "/a" := FsExample.inode_a ]})
      as (l & f & E & _ & _ & Hl & Hj).
    + exact Hd.
    + exact (MinixRead.vol_disk _ _ FsExample.vol_ok).
    + done.
    + by apply (FsExample.one_zone_ok _ 6).
    + by vm_compute.
    + exists l, f. split; [exact E|]. split; [exact Hl|]. rewrite Hj by (split; by vm_compute). by vm_compute.
  - pose proof (open_file_shows (Fmt.str "/hello.txt") sys_a {[ Fmt.str "/a" := FsExample.inode_a ]}
      Hd (MinixRead.vol_disk _ _ FsExample.vol_ok) eq_refl) as Hp.
    assert (({[ Fmt.str "/a" := FsExample.inode_a ]} : gmap (list Z) Inode) !! Fmt.str "/hello.txt" = None) as En
      by (by vm_compute).
    rewrite En in Hp. exact Hp.
Defined.

Lemma divider_width_witness :
  zlen (divider (Fmt.str "Delete file")) = 84 /\
  exists y, print_divider (Fmt.str "a text that is longer than the line is") sys_a = y /\ y = Panic.
Proof.
  destruct (divider_width (Fmt.str "Delete file") sys_a) as [Hok _].
  destruct (divider_width (Fmt.str "a text that is longer than the line is") sys_a) as [_ Hp].
  split; [apply Hok; by vm_compute|]. eexists. split; [reflexivity|]. apply Hp; by vm_compute.
Defined.
End TestExample.

Module ReportExample.
#[local] Existing Instance dev.
#[local] Existing Instance ProcessExample.heap64.
#[local] Existing Instance BlockExample.quiet.
Import FaultExample.

Lemma report_lists_allocations_witness :
  let s := wd sys0 in
  let t1 := [Page.Run 1; Page.Run 1; Page.Run 1; Page.Run 35; Page.Run 1] ++ Page.frees 24 in
  PageReport.print_page_allocations 64 s = Done (tt, said (PageReport.report 8192 63 24 t1) s).
Proof.
  intros s t1. pose proof (PageReport.report_lists_allocations s t1 (Page.frees 1) 64) as E.
  cbn zeta in E. change (ALLOC_START (kern_of s)) with 8192 in E.
  replace ((HEAP_SIZE - (8192 - HEAP_START)) / Page.PAGE_SIZE) with 63 in E by (by vm_compute).
  replace (Page.free_pages t1) with 24 in E by (by vm_compute).
  apply E; [exact page0_ok|by vm_compute|by vm_compute|by vm_compute].
Defined.
End ReportExample.

(** A machine of 4096 pages without devices boots. *)
Module BootExample.
#[local] Existing Instance dev.
#[local] Existing Instance KmemExample.heap16M.
#[local] Existing Instance ProcessExample.seconds.
#[local] Existing Instance BlockExample.quiet.

(** The globals before kinit runs. *)
Definition cold : world :=
  mkWorld (Console.mkC None None 0 0 None (Process.mkP (mkKernel ∅ 0 0 0 0) None 0 1 0)) [] (replicate 8 None)
    (replicate 8 None) (replicate 8 None) (replicate 8 None) (replicate 8 None) None None.

(** A [Process] of 176 bytes; deques get the places they ask for. *)
Definition tight : Kmem.Deques := {| Kmem.places n := n; Kmem.size_of_Process := 176 |}.
#[local] Existing Instance tight.
#[local] Instance tight_laws : Kmem.DequeLaws.
Proof. split; [by intros n _|done]. Qed.

End BootExample.
